(* ===== verification/_CoqProject ===== *)
-Q . S2P
Prelude.v
Frame.v
Codec.v
Currency.v
Agreement.v
Liability.v
LiabilityFacts.v
SignedPallet.v
Escrow.v
LiabilityLife.v
AgreementSpec.v
Datalog.v
Launch.v
Client.v
Gossip.v
GossipFacts.v
Network.v
Discovery.v
DiscoveryNet.v
Vanity.v
VanityFacts.v
Runtime.v
RuntimeApi.v
RuntimeConfig.v
RuntimeWiring.v
RuntimeMocks.v
Stakes.v
RuntimeFacts.v
Chain.v
Subkey.v
SubkeyFacts.v
SubkeyEffects.v
Tests.v
RosApi.v
Support.v
Service.v
NodeCli.v
RelayChain.v
Text.v
Streams.v
IoCli.v
IoCommands.v
IoTasks.v
TopicNet.v
Remote.v
Instances.v
LiabilityExamples.v
ProtocolExamples.v
ToolExamples.v
NodeExamples.v
IoExamples.v
CompositionExamples.v
