(* ===== verification/Prelude.v ===== *)
(** * Robonomics: a verification library

    A model of the Robonomics node and of its tools, with the theorems that make
    it correct.  Paths are relative to [src/].

    ** The program

    Robonomics is a family of blockchains for contracts between people and
    machines.  Its parts, and the files that model them:

    - The liability pallet ([robonomics/frame/liability/src]).  Two parties sign
      the terms of an agreement; [create] stores the liability and starts its
      economics, [finalize] stores the report the promisor signed and pays.
      [Agreement] holds the traits of [traits.rs] as type classes and their
      implementations ([technics.rs], [economics.rs], [signed.rs]); [Liability]
      the storage, the two calls, their dispatch and [validate_unsigned] of
      [lib.rs]; [LiabilityFacts] what the calls do over any implementation of the
      traits; [SignedPallet], [Escrow] and [LiabilityLife] what holds in every
      storage a chain can reach; [AgreementSpec] is what the pallet promises, a book
      of agreements, and the proof that it keeps the promise.
    - The datalog and launch pallets ([robonomics/frame/datalog/src/lib.rs],
      [robonomics/frame/launch/src/lib.rs]): [Datalog] and [Launch].
    - The protocol library ([robonomics/protocol/src]): [Client] is the remote
      client of the two pallets ([runtime/], [datalog.rs], [launch.rs],
      [error.rs]), [Gossip] and [GossipFacts] the worker of the gossip network
      ([pubsub/gossipsub.rs]), [Network] several workers with messages between
      them, [Discovery] how the peers find each other ([pubsub/discovery.rs]), and
      [DiscoveryNet] that discovery on the nodes of [Network].
    - The I/O library and its commands ([robonomics/io/src], [robonomics/cli/src]):
      [Text] (UTF-8), [Streams] for [forward] and the standard output, [IoCli] for
      the sources and sinks, [IoCommands] for the options of [io read] and [io write]
      and what a command does as a whole,
      [IoTasks] for the tasks of a command, which run beside each other, [TopicNet] for
      [io write pubsub] and [io read pubsub] on the nodes of [Network], and [Remote]
      for [io write datalog] and [launch] with [Client] on a node that runs [Chain].
    - The key tool ([bin/subkey/src]): [Vanity] and [VanityFacts] for [vanity.rs],
      [Subkey] and [SubkeyFacts] for [main.rs] and [rpc.rs], [SubkeyEffects] for
      what its commands leave behind.
    - The runtimes ([bin/node/robonomics-runtime], [bin/node/ipci-runtime],
      [bin/node/robonomics-runtime/parachain], [bin/node/primitives]): [Runtime]
      (versions, units, parameters, lists of pallets, fees, votes, signed
      transactions), [RuntimeApi] (what the node calls, and the benchmarks),
      [RuntimeConfig] (the [Trait] implementations as tables, one entry for an
      associated type), [RuntimeWiring] (whether the tables fit together),
      [Stakes] (the genesis tables) and [RuntimeFacts].  [Chain] composes the three
      pallets of the repository with all others in the state of a runtime.
    - The node ([bin/node/cli/src], [bin/node/rpc/src]): [Service] is how a full
      node, a light client and a collator are put together, [NodeCli] the chain
      specifications and the command line, [RelayChain] that of the relay chain node
      beside a collator.
    - The ROS interface ([substrate-ros/api/src]): [RosApi].  [Support] has the
      messages it uses ([substrate-ros/msgs]), the build scripts ([build.rs]) and
      the identity of a node ([protocol/src/id.rs]).
    - The tests ([mod tests] of the pallets and of the key tool): [Tests], as
      programs on the models; [RuntimeMocks] has the mock runtimes they run on, and
      the one the remote client takes the chain for.

    The parts interact as in the code.  The pallets are called by dispatch, with
    an origin; the liability pallet calls the economics of an agreement through
    the trait [Processing] and a currency; the client encodes what the pallets
    decode; discovery and the I/O commands call the pubsub service; the runtimes
    give the versions the key tool signs with and the executor a node is built
    for.

    ** How things are modelled

    - Storage is a record of maps ([gmap]) with the defaults of [decl_storage!];
      a call is a function in the state-and-error monad [SE] of this file.  An
      error keeps what was written before it: dispatches of this version of
      Substrate are not rolled back.  Programs that may also panic ([expect],
      [unwrap], slicing) are in [outcome] or [SO].
    - Integers are [Z] with the wrap-around ([wrap]) where the code computes at
      a width: the [u64] index of liabilities, scores, votes.  Bytes are [list Z].
    - Interleavings are step relations.  [SignedPallet.reachable] closes the
      storage under dispatches from any origin and under what the other pallets
      do to the balances; [Datalog.reachable] adds the clock; [Gossip.step] is
      one action of a client, of the network or of the worker, whose channels
      live in a shared store because both ends hold them; [IoTasks.pipeline_step]
      and [IoTasks.publishing_step] are one action of a task of a command;
      [Network.net_step], [DiscoveryNet.discovering_step] and [TopicNet.talk_step] are
      one action of a node of many, where in a discovery the nodes that do not run this
      code may forge messages; [Remote.node_step] is what a node does between two
      requests.
    - The standard output of the I/O commands is buffered and may fail: [Streams.Output]
      tells the lines it was given ([printed]) from what the terminal shows ([shown]).
      [forward] flushes it when a stream is pending and closes it at the end, but not
      when the stream fails.  How fast a stream gives its items is its [Pace]; what
      depends on it is said ([pace_independent], [hash_lost]).  The task that
      [source::virt::launch] spawns may panic, and then the process aborts or the
      stream ends.  The key tool runs on a [Subkey.Machine], whose streams, files
      and connections may fail.
    - In [Chain] a call of another pallet is a transition of the whole chain.  Those that
      write raw storage or replace the code, which the root can make ([Sudo] with
      [System::set_storage] and the like), are not in the histories considered; the
      others keep to the storage of their pallets ([Chain.OtherPallets]).
    - Code outside the repository is an interface with its documented behaviour as
      laws: origins ([FrameSystem], file [Frame]), the SCALE codec ([Codec]), the
      reservable currency ([Currency]), signatures ([Agreement.Verify] and
      [Pair]), the swarm ([Gossip.Swarm]), the metadata and the client of the
      chain ([Client]), the node behind ROS ([RosApi.NodeClient]), the
      cryptography of a scheme ([Subkey.Crypto]), the standard output
      ([Streams.Output]), the other pallets ([Chain.OtherPallets]).  Other library calls are
      variables of the sections that use them.
    - Declarations that only name types (configurations of pallets, mock runtimes)
      are data: a type is a term of [RuntimeConfig.Ty], and what the compiler checks
      of them is a decidable predicate.
    - [Instances] and the six files of examples ([LiabilityExamples],
      [ProtocolExamples], [ToolExamples], [NodeExamples], [IoExamples],
      [CompositionExamples]) instantiate the interfaces and apply the numbered theorems
      (C1 to C40) that have hypotheses at concrete inputs.

    ** What is proved

    - Liabilities: exactly when a call is accepted and what it writes; an error
      writes nothing; indices have no gaps, flags and reports agree, nothing is
      announced or reported without the signatures; history does not change; the
      reserve of an account covers all its open agreements and a report pays the
      whole price; the life of one agreement from end to end; the refinement of the
      book of agreements, by simulation.
    - The chain: in a runtime with all pallets the logs, launches and liabilities are
      those of its history, and a transaction that is valid once is valid for ever; the
      calls are light enough for a block ([pallet_calls_fit]).  From end to end: of
      the lines given to [io write datalog] and [launch] the account gets, in order,
      those that were taken and nothing else, and [io read launch] prints the launches
      a node dispatches from the subscription on.
    - Datalog: the storage refines the log of the events; the records are in the
      order of time.  Client: its bytes are the pallets' calls and events.
    - Pubsub: a request is answered once and in one poll; a stream is open exactly
      while it is registered; messages reach the streams of their topics; what
      unsubscribing leaves behind; in a network what is received was published by
      the node it names, on the topic of the stream; discovery dials what is
      announced, and in a network nothing but that and the bootnodes.
    - Tools: the vanity search returns the first key that matches, and returns
      exactly when there is one, its score and its seeds; what is signed verifies,
      and for which chain; what a command of the key tool may write or send, and
      nothing else; lines written to a topic or a chain are those read or submitted,
      and what a whole command does to the process and to the network; the tasks of a
      command do what the command does in sequence at some pace, in every schedule,
      and the pace does not matter where the output does not fail, but to how much of
      it is shown after an error; [io write pubsub] publishes a beginning of its input
      in order and may end before the rest is out; across a network what
      [io read pubsub] prints of a writer are lines of its input, and no task of a process that lives loses one.
    - Runtimes: every pallet is configured once, with names in scope, events where
      they are needed and restricted calls, which are listed, kept to the root but for
      the treasury, which more than half of the council approves and two
      members reject; the
      parameters fit their types; the proofs of equivocation reports come back as
      they left; of all fees and tips the treasury gets four fifths and the authors of
      the blocks the rest ([fees_over_blocks]).
    - Tests: those of the pallets pass for every codec and signature scheme that
      keeps its laws ([pallet_tests_pass]), those of the key tool when its libraries
      do what they say, and those that search when the search has something to find.
    - Node: the plan of every role, the executor that runs, and the
      components a subcommand is given, are those of the version that is
      reported, the development genesis, requests through ROS.
    - Where the code does not do what it says the theorem states what it does:
      the failure branch of [on_finish], finalized reports that stay valid in the
      pool, agreements that can be created again, streams that survive
      [unsubscribe], patterns that panic ([non_ascii_pattern_panics]), transactions
      for the wrong chain ([extrinsics_for_robonomics_only]), messages that are never
      published, printed lines that are lost ([hash_lost]), failures that are not
      reported ([launches_end], [insert_runs]).

    ** Bounds and fuel

    Three functions take fuel.  [Gossip.serve_all] is run with the length of the
    queue, and a request adds none to it, so the queue is empty after
    ([requests_answered_once]).  [Vanity.search] is the endless loop of
    [generate_key]; [generate_key_first_hit] says it returns as soon as the fuel
    reaches the first hit, and for some fuel if and only if there is one.
    [RuntimeMocks.expand] follows aliases eight names deep, which is deeper than
    they are ([client_types_agree] compares complete types).  The discovery loop runs
    for the clock readings given.
    The invariants of the storage assume that the [u64] index of liabilities has
    not reached its maximum ([SignedPallet.call_ok]); [index_wraps] says what
    happens there.

    ** What is not modelled

    The bodies of Substrate, libp2p, ROS and Cumulus, among them how blocks are made
    and executed, how fees are withdrawn (what the runtime does with them is
    [Runtime.Robonomics.on_unbalanceds]), bad blocks and forks, and when libp2p hands
    over a message; raw writes of storage and runtime upgrades; what the runtime
    benchmarks measure (their list, their dispatch and their whitelist of storage keys are in [RuntimeApi]) and the two benchmarks of
    [vanity.rs], which name no key scheme and do not compile; the executors (declared by
    macros in [service.rs]); the bindings generated from the ROS messages; the sensor of
    [source/serial.rs] beyond its loop; logging but for the identity, metrics and the
    parsing of command lines, whose results are arguments of the model (for [io] what
    [structopt] derives from the declared options is modelled). *)
From stdpp Require Import prelude gmap strings list.
From Stdlib Require Import ZArith Lia.

Declare Scope robonomics_scope.
Delimit Scope robonomics_scope with robo.

(** ** Results

    [result E A] is Rust's [Result<A, E>]; [outcome E A] adds the third way a
    Rust function can end, a panic ([expect], [unwrap], an index out of range). *)
Inductive result (E A : Type) : Type :=
| Ok (a : A)
| Err (e : E).
Arguments Ok {E A} a.
Arguments Err {E A} e.

Inductive outcome (E A : Type) : Type :=
| Return (a : A)
| Fail (e : E)
| Panic (msg : string).
Arguments Return {E A} a.
Arguments Fail {E A} e.
Arguments Panic {E A} msg.

#[export] Instance result_ret {E} : MRet (result E) := fun A a => Ok a.
#[export] Instance result_bind {E} : MBind (result E) := fun A B f m =>
  match m with Ok a => f a | Err e => Err e end.
#[export] Instance result_fmap {E} : FMap (result E) := fun A B f m =>
  match m with Ok a => Ok (f a) | Err e => Err e end.

#[export] Instance outcome_ret {E} : MRet (outcome E) := fun A a => Return a.
#[export] Instance outcome_bind {E} : MBind (outcome E) := fun A B f m =>
  match m with Return a => f a | Fail e => Fail e | Panic s => Panic s end.
#[export] Instance outcome_fmap {E} : FMap (outcome E) := fun A B f m =>
  match m with Return a => Return (f a) | Fail e => Fail e | Panic s => Panic s end.

(** [Result::map_err]. *)
Definition map_err {E F A} (f : E -> F) (m : result E A) : result F A :=
  match m with Ok a => Ok a | Err e => Err (f e) end.

(** [Result::is_ok]. *)
Definition is_ok {E A} (m : result E A) : bool :=
  match m with Ok _ => true | Err _ => false end.

(** [Result::ok]. *)
Definition ok {E A} (m : result E A) : option A :=
  match m with Ok a => Some a | Err _ => None end.

(** [Option::ok_or]. *)
Definition ok_or {E A} (o : option A) (e : E) : result E A :=
  match o with Some a => Ok a | None => Err e end.

(** The [?] operator and [Result::expect] in a function that may also panic. *)
Definition try_result {E A} (m : result E A) : outcome E A :=
  match m with Ok a => Return a | Err e => Fail e end.
Definition expect_ok {E F A} (msg : string) (m : result F A) : outcome E A :=
  match m with Ok a => Return a | Err _ => Panic msg end.
Definition expect_some {E A} (msg : string) (m : option A) : outcome E A :=
  match m with Some a => Return a | None => Panic msg end.

(** ** State and errors

    A handler that changes a state [S] and may fail with [E].  A failure keeps
    the state reached so far: nothing is rolled back. *)
Definition SE (S E A : Type) : Type := S -> result E A * S.

#[export] Instance SE_ret {S E} : MRet (SE S E) := fun A a s => (Ok a, s).
#[export] Instance SE_bind {S E} : MBind (SE S E) := fun A B f m s =>
  match m s with
  | (Ok a, s') => f a s'
  | (Err e, s') => (Err e, s')
  end.

Section state_error.
Context {S E : Type}.

Definition se_throw {A} (e : E) : SE S E A := fun s => (Err e, s).
Definition se_lift {A} (m : result E A) : SE S E A := fun s => (m, s).
Definition se_gets {A} (f : S -> A) : SE S E A := fun s => (Ok (f s), s).
Definition se_modify (f : S -> S) : SE S E unit := fun s => (Ok tt, f s).

(** [if !b { Err(e)? }] *)
Definition se_ensure (b : bool) (e : E) : SE S E unit := fun s =>
  ((if b then Ok tt else Err e), s).

(** Run a computation on a component of the state. *)
Definition se_zoom {T A} (get : S -> T) (set : T -> S -> S) (m : SE T E A) : SE S E A :=
  fun s => let (r, t) := m (get s) in (r, set t s).
End state_error.

(** ** State, errors and panics

    As [SE], for a program that may also panic. *)
Definition SO (S E A : Type) : Type := S -> outcome E A * S.

#[export] Instance SO_ret {S E} : MRet (SO S E) := fun A a s => (Return a, s).
#[export] Instance SO_bind {S E} : MBind (SO S E) := fun A B f m s =>
  match m s with
  | (Return a, s') => f a s'
  | (Fail e, s') => (Fail e, s')
  | (Panic msg, s') => (Panic msg, s')
  end.

Section state_outcome.
Context {S E : Type}.

Definition so_lift {A} (m : outcome E A) : SO S E A := fun s => (m, s).
Definition so_throw {A} (e : E) : SO S E A := fun s => (Fail e, s).
Definition so_gets {A} (f : S -> A) : SO S E A := fun s => (Return (f s), s).
Definition so_modify (f : S -> S) : SO S E unit := fun s => (Return tt, f s).
End state_outcome.

(** A computation that returns goes on with its result. *)
Lemma so_bind_return {S E A B} (m : SO S E A) (f : A -> SO S E B) s a s' :
  m s = (Return a, s') -> (m ≫= f) s = f a s'.
Proof. intros H. unfold mbind, SO_bind. by rewrite H. Qed.

Notation "m ;;; k" := (mbind (fun _ => k) m)
  (at level 100, k at level 200, right associativity, only parsing) : robonomics_scope.

(** ** Machine integers *)

Definition u8_max : Z := 2 ^ 8 - 1.
Definition u16_max : Z := 2 ^ 16 - 1.
Definition u32_max : Z := 2 ^ 32 - 1.
Definition u64_max : Z := 2 ^ 64 - 1.
Definition u128_max : Z := 2 ^ 128 - 1.

(** The value kept by a [w]-bit unsigned integer; also an [as] cast to it. *)
Definition wrap (w z : Z) : Z := (z mod 2 ^ w)%Z.
Definition in_width (w z : Z) : Prop := (0 <= z < 2 ^ w)%Z.

#[export] Instance in_width_dec w z : Decision (in_width w z).
Proof. unfold in_width. apply _. Defined.

(** Bytes are 8-bit integers. *)
Abbreviation bytes := (list Z).
Definition byte_ok (b : Z) : Prop := in_width 8 b.

(** ** Laws and automation *)

Create HintDb robo.
Create Rewrite HintDb robo.

(** Run the binds of a state-and-error computation. *)
Ltac se_unfold :=
  unfold mbind, mret, SE_bind, SE_ret, se_throw, se_lift, se_gets, se_modify,
    se_ensure, se_zoom; cbn beta iota zeta.

Ltac so_unfold :=
  unfold mbind, mret, SO_bind, SO_ret, so_throw, so_lift, so_gets, so_modify;
  cbn beta iota zeta.

(** Case on the scrutinee of some [match] of the goal or of a hypothesis. *)
Ltac case_goal :=
  match goal with
  | |- context [match ?x with _ => _ end] => destruct x eqn:?
  end.
Ltac case_hyp H :=
  match type of H with
  | context [match ?x with _ => _ end] => destruct x eqn:?
  end.

Lemma wrap_small (w z : Z) : in_width w z -> wrap w z = z.
Proof. unfold wrap, in_width. intros H. by apply Z.mod_small. Qed.

Lemma wrap_range (w z : Z) : (0 <= w)%Z -> in_width w (wrap w z).
Proof.
  intros Hw. unfold wrap, in_width. apply Z.mod_pos_bound. by apply Z.pow_pos_nonneg.
Qed.

#[export] Hint Resolve wrap_small wrap_range : robo.

Section results.
Context {E A B : Type}.

Lemma result_bind_ok (m : result E A) (f : A -> result E B) b :
  m ≫= f = Ok b <-> exists a, m = Ok a /\ f a = Ok b.
Proof.
  destruct m as [a|e]; cbn; split; [by eauto|by intros (?&[= ->]&?)|done|by intros (?&[=]&?)].
Qed.

Lemma outcome_bind_return (m : outcome E A) (f : A -> outcome E B) b :
  m ≫= f = Return b <-> exists a, m = Return a /\ f a = Return b.
Proof.
  destruct m as [a|e|msg]; cbn; split; [by eauto|by intros (?&[= ->]&?)|done|by intros (?&[=]&?)|done|by intros (?&[=]&?)].
Qed.

Lemma try_result_return (m : result E A) a :
  try_result m = Return a <-> m = Ok a.
Proof. destruct m; cbn; split; by intros [= ->]. Qed.

Lemma SE_bind_ok {S} (m : SE S E A) (f : A -> SE S E B) s b s' :
  (m ≫= f) s = (Ok b, s') <-> exists a s1, m s = (Ok a, s1) /\ f a s1 = (Ok b, s').
Proof.
  unfold mbind, SE_bind. destruct (m s) as [[a|e] s1]; split; [by eauto| |done|].
  - by intros (?&?&[= -> ->]&?).
  - by intros (?&?&[=]&?).
Qed.
End results.

(** ** Little-endian numbers *)

(** The number a byte string denotes, least significant byte first, and the [n]
    bytes of a number. *)
Fixpoint le_value (l : bytes) : Z :=
  match l with
  | [] => 0
  | b :: l => b + 256 * le_value l
  end%Z.

Fixpoint le_bytes (n : nat) (z : Z) : bytes :=
  match n with
  | O => []
  | S n => (z mod 256 :: le_bytes n (z / 256))%Z
  end.

Section little_endian.
Local Open Scope Z_scope.

Lemma le_bytes_length n z : length (le_bytes n z) = n.
Proof. revert z. induction n as [|n IH]; intros z; cbn; [done|]. by rewrite IH. Qed.

Lemma le_bytes_ok n z : Forall byte_ok (le_bytes n z).
Proof.
  revert z. induction n as [|n IH]; intros z; cbn; constructor; [|done].
  apply (wrap_range 8); lia.
Qed.

Lemma pow256_succ (n : nat) : 256 ^ Z.of_nat (S n) = 256 * 256 ^ Z.of_nat n.
Proof. rewrite Nat2Z.inj_succ, Z.pow_succ_r; lia. Qed.

Lemma le_value_range l :
  Forall byte_ok l -> 0 <= le_value l < 256 ^ Z.of_nat (length l).
Proof.
  induction 1 as [|b l Hb Hl IH]; [cbn; lia|].
  cbn [le_value length]. rewrite pow256_succ. unfold byte_ok, in_width in Hb. lia.
Qed.

Lemma le_value_bytes n z :
  0 <= z < 256 ^ Z.of_nat n -> le_value (le_bytes n z) = z.
Proof.
  revert z. induction n as [|n IH]; intros z Hz; [cbn in *; lia|].
  rewrite pow256_succ in Hz. cbn [le_bytes le_value].
  rewrite IH; [pose proof (Z.div_mod z 256); lia|].
  split; [apply Z.div_pos; lia|apply Z.div_lt_upper_bound; lia].
Qed.

Lemma le_value_inj l k :
  Forall byte_ok l -> Forall byte_ok k -> length l = length k ->
  le_value l = le_value k -> l = k.
Proof.
  intros Hl. revert k. induction Hl as [|b l Hb Hl IH]; intros [|c k] Hk Hlen Hv;
    try done; cbn in Hlen, Hv.
  inversion Hk as [|?? Hc Hk']; subst. unfold byte_ok, in_width in Hb, Hc.
  assert (b = c /\ le_value l = le_value k) as [-> ?] by lia.
  f_equal. apply IH; auto.
Qed.
End little_endian.

(** ** Sums *)

Definition sumZ (l : list Z) : Z := foldr Z.add 0%Z l.

Section sums.
Context {A : Type}.
Local Open Scope Z_scope.
Implicit Types (f g : A -> Z) (l : list A).

Lemma sumZ_app (l k : list Z) : sumZ (l ++ k) = sumZ l + sumZ k.
Proof. induction l as [|x l IH]; cbn; [done|]. unfold sumZ in *. rewrite IH. lia. Qed.

Lemma sumZ_ext f g l : (forall x, x ∈ l -> f x = g x) -> sumZ (f <$> l) = sumZ (g <$> l).
Proof.
  induction l as [|x l IH]; intros H; [done|].
  change (f x + sumZ (f <$> l) = g x + sumZ (g <$> l)).
  rewrite H, IH; [done| |by left]. intros y Hy. apply H. by right.
Qed.

(** Changing the term of one index changes the sum by the difference. *)
Lemma sumZ_update f g l x :
  NoDup l -> x ∈ l -> (forall y, y <> x -> f y = g y) ->
  sumZ (g <$> l) = sumZ (f <$> l) - f x + g x.
Proof.
  induction 1 as [|z l Hz Hl IH]; intros Hx H; [by apply elem_of_nil in Hx|].
  change (g z + sumZ (g <$> l) = f z + sumZ (f <$> l) - f x + g x).
  apply elem_of_cons in Hx as [->|Hx].
  - rewrite (sumZ_ext g f); [lia|]. intros y Hy. symmetry. apply H. by intros ->.
  - rewrite IH by done. rewrite (H z); [lia|]. by intros ->.
Qed.

Lemma sumZ_ge f l x : (forall y, 0 <= f y) -> x ∈ l -> f x <= sumZ (f <$> l).
Proof.
  intros Hf Hx. apply list_elem_of_split in Hx as (l1 & l2 & ->).
  assert (Hpos : forall k : list A, 0 <= sumZ (f <$> k)).
  { induction k as [|y k IH]; [done|]. change (0 <= f y + sumZ (f <$> k)).
    pose proof (Hf y). lia. }
  rewrite fmap_app, sumZ_app. change (f x <= sumZ (f <$> l1) + (f x + sumZ (f <$> l2))).
  pose proof (Hpos l1). pose proof (Hpos l2). lia.
Qed.
End sums.

(** Break the conjunctions and existentials of the context. *)
Ltac break :=
  repeat match goal with
  | H : _ /\ _ |- _ => destruct H
  | H : exists _, _ |- _ => destruct H
  end.

(** A characterisation [r = Ok tt <-> conditions] where the call was refused,
    and where it was accepted. *)
Ltac refused := simplify_eq; cbn; split; [done|]; intros; break; congruence.
Ltac accepted := simplify_eq; cbn; split; [by eauto 10|]; intros; break; congruence.

(** A part of the images is the images of a part. *)
Lemma sublist_fmap_inv {A B} (f : A -> B) (l : list B) (xs : list A) :
  sublist l (f <$> xs) -> exists l', l = f <$> l' /\ sublist l' xs.
Proof.
  revert l. induction xs as [|x xs IH]; intros l H.
  - apply sublist_nil_r in H as ->. by exists [].
  - cbn in H. apply sublist_cons_r in H as [H|(l2 & -> & H)].
    + destruct (IH _ H) as (l' & -> & Hl). exists l'. split; [done|]. by apply sublist_cons.
    + destruct (IH _ H) as (l' & -> & Hl). exists (x :: l'). split; [done|]. by apply sublist_skip.
Qed.

(** A list is empty or has a last element. *)
Lemma exists_last_or_nil {A} (l : list A) : l = [] \/ exists k x, l = k ++ [x].
Proof. destruct l as [|x l _] using rev_ind; eauto. Qed.
