(* ===== verification/Frame.v ===== *)
(** * The FRAME services the pallets call

    [frame_system] and [frame_support] are not part of the repository: the
    origin checks are an interface ([FrameSystem]) with the documented behaviour
    as its laws ([FrameSystemLaws]), and storage items are maps with a default
    value, which is what [decl_storage!] documents.  [RawOrigin] is a concrete
    instance, used to run the pallets on concrete inputs. *)
From stdpp Require Import prelude gmap strings list.
From S2P Require Import Prelude.

(** [sp_runtime::DispatchError]. *)
Inductive DispatchError : Type :=
| Other (msg : string)
| CannotLookup
| BadOrigin
| ModuleError (index error : Z).

#[export] Instance DispatchError_eq_dec : EqDecision DispatchError.
Proof. solve_decision. Defined.

Abbreviation DispatchResult := (result DispatchError unit).

(** [frame_system::ensure_signed] and [frame_system::ensure_none], with the two
    origins the repository's code builds. *)
Class FrameSystem (Origin AccountId : Type) : Type := {
  ensure_signed : Origin -> result DispatchError AccountId;
  ensure_none : Origin -> DispatchResult;
  signed : AccountId -> Origin;
  none : Origin;
}.
#[export] Hint Mode FrameSystem ! - : typeclass_instances.

(** "Ensure that the origin represents a signed extrinsic (i.e. transaction);
    returns [Ok] with the account that signed the extrinsic or an [Err]
    otherwise", and the same for an unsigned one. *)
Class FrameSystemLaws (Origin AccountId : Type) `{!FrameSystem Origin AccountId} : Prop := {
  ensure_signed_signed (a : AccountId) : ensure_signed (signed a : Origin) = Ok a;
  ensure_signed_none : ensure_signed (none : Origin) = Err BadOrigin;
  ensure_none_none : ensure_none (none : Origin) = Ok tt;
  ensure_none_signed (a : AccountId) : ensure_none (signed a : Origin) = Err BadOrigin;
  ensure_signed_err (o : Origin) e : ensure_signed o = Err e -> e = BadOrigin;
  ensure_none_err (o : Origin) e : ensure_none o = Err e -> e = BadOrigin;
  ensure_signed_xor_none (o : Origin) :
    is_ok (ensure_none o) = true -> is_ok (ensure_signed o) = false;
}.

(** A storage map [map K => V] with the default value of [V]. *)
Section storage.
Context {K V : Type} `{Countable K}.

Definition storage_get (dflt : V) (m : gmap K V) (k : K) : V := default dflt (m !! k).

Definition storage_mutate (dflt : V) (k : K) (f : V -> V) (m : gmap K V) : gmap K V :=
  <[k := f (storage_get dflt m k)]> m.

Lemma storage_get_insert_eq dflt m k v : storage_get dflt (<[k := v]> m) k = v.
Proof. unfold storage_get. by rewrite lookup_insert_eq. Qed.

Lemma storage_get_insert_ne dflt m k k' v :
  k <> k' -> storage_get dflt (<[k := v]> m) k' = storage_get dflt m k'.
Proof. intros. unfold storage_get. by rewrite lookup_insert_ne. Qed.

Lemma storage_get_delete_eq dflt m k : storage_get dflt (delete k m) k = dflt.
Proof. unfold storage_get. by rewrite lookup_delete_eq. Qed.

Lemma storage_get_delete_ne dflt m k k' :
  k <> k' -> storage_get dflt (delete k m) k' = storage_get dflt m k'.
Proof. intros. unfold storage_get. by rewrite lookup_delete_ne. Qed.

Lemma storage_get_empty dflt k : storage_get dflt (∅ : gmap K V) k = dflt.
Proof. done. Qed.

Lemma storage_get_mutate_eq dflt f m k :
  storage_get dflt (storage_mutate dflt k f m) k = f (storage_get dflt m k).
Proof. apply storage_get_insert_eq. Qed.

Lemma storage_get_mutate_ne dflt f m k k' :
  k <> k' -> storage_get dflt (storage_mutate dflt k f m) k' = storage_get dflt m k'.
Proof. apply storage_get_insert_ne. Qed.
End storage.

#[export] Hint Rewrite @storage_get_insert_eq @storage_get_delete_eq @storage_get_empty
  @storage_get_mutate_eq : robo.
#[export] Hint Rewrite @storage_get_insert_ne @storage_get_delete_ne
  @storage_get_mutate_ne using done : robo.

(** ** A concrete origin *)
Inductive RawOrigin (AccountId : Type) : Type :=
| RawRoot
| RawSigned (who : AccountId)
| RawNone.
Arguments RawRoot {AccountId}.
Arguments RawSigned {AccountId} who.
Arguments RawNone {AccountId}.

#[export] Instance RawOrigin_system {AccountId} :
    FrameSystem (RawOrigin AccountId) AccountId := {
  ensure_signed o := match o with RawSigned a => Ok a | _ => Err BadOrigin end;
  ensure_none o := match o with RawNone => Ok tt | _ => Err BadOrigin end;
  signed := RawSigned;
  none := RawNone;
}.

#[export] Instance RawOrigin_laws {AccountId} :
  FrameSystemLaws (RawOrigin AccountId) AccountId.
Proof. split; try done; intros []; cbn; by intros; simplify_eq. Qed.
