(* ===== verification/Codec.v ===== *)
(** * The codec interface

    [parity-scale-codec] is a dependency, so a codec is an interface: [encode]
    (also what [using_encoded] passes to its closure), [decode_prefix] (which
    consumes a prefix of its input, as [Decode::decode] does on a slice) and
    [encodable], the values the Rust type has.  The law is the documented round
    trip.  Pairs and units are encoded as SCALE documents them: the
    concatenation of the parts, and nothing.  [Demo] holds concrete codecs, used
    only to run the development on concrete inputs. *)
From stdpp Require Import prelude list.
From Stdlib Require Import ZArith Lia.
From S2P Require Import Prelude.

Class Codec (A : Type) : Type := {
  encode : A -> bytes;
  decode_prefix : bytes -> option (A * bytes);
  encodable : A -> Prop;
}.
#[export] Hint Mode Codec ! : typeclass_instances.

Class CodecLaws (A : Type) `{!Codec A} : Prop :=
  decode_prefix_encode (a : A) (rest : bytes) :
    encodable a -> decode_prefix (encode a ++ rest) = Some (a, rest).

(** [T::decode(&mut &v[..])]: the bytes left over are ignored. *)
Definition decode {A} `{!Codec A} (v : bytes) : option A := fst <$> decode_prefix v.

#[export] Instance unit_codec : Codec unit := {
  encode _ := [];
  decode_prefix v := Some (tt, v);
  encodable _ := True;
}.

#[export] Instance prod_codec {A B} `{!Codec A, !Codec B} : Codec (A * B) := {
  encode p := encode p.1 ++ encode p.2;
  decode_prefix v :=
    match decode_prefix v with
    | Some (a, v') =>
        match decode_prefix v' with
        | Some (b, v'') => Some ((a, b), v'')
        | None => None
        end
    | None => None
    end;
  encodable p := encodable p.1 /\ encodable p.2;
}.

#[export] Instance unit_codec_laws : CodecLaws unit.
Proof. by intros [] rest _. Qed.

#[export] Instance prod_codec_laws {A B} `{CodecLaws A, CodecLaws B} : CodecLaws (A * B).
Proof.
  intros [a b] rest [Ha Hb]; cbn in *.
  by rewrite <- (assoc_L (++)), (decode_prefix_encode a), (decode_prefix_encode b).
Qed.

Section codec_facts.
Context {A : Type} `{CodecLaws A}.

Lemma decode_encode (a : A) : encodable a -> decode (encode a) = Some a.
Proof.
  intros Ha. unfold decode.
  by rewrite <- (right_id_L [] (++) (encode a)), (decode_prefix_encode a).
Qed.

Lemma encode_inj (a b : A) :
  encodable a -> encodable b -> encode a = encode b -> a = b.
Proof.
  intros Ha Hb Heq. apply decode_encode in Ha, Hb. rewrite Heq in Ha. congruence.
Qed.
End codec_facts.

(** ** Concrete codecs *)
Module Demo.
Local Open Scope Z_scope.

(** Split [n] bytes off the front of a byte string. *)
Definition take_exact (n : nat) (v : bytes) : option (bytes * bytes) :=
  if decide (n <= length v)%nat then Some (take n v, drop n v) else None.

Lemma take_exact_app n (u v : bytes) :
  length u = n -> take_exact n (u ++ v) = Some (u, v).
Proof.
  intros <-. unfold take_exact. rewrite length_app.
  rewrite decide_True by lia. by rewrite take_app_length, drop_app_length.
Qed.

(** An integer of [n] bytes, little endian. *)
Definition int_codec (n : nat) : Codec Z := {|
  encode z := le_bytes n z;
  decode_prefix v := prod_map le_value id <$> take_exact n v;
  encodable z := 0 <= z < 256 ^ Z.of_nat n;
|}.

Lemma int_codec_laws n : @CodecLaws Z (int_codec n).
Proof.
  intros z rest Hz; cbn [encode decode_prefix encodable int_codec] in *.
  rewrite take_exact_app by apply le_bytes_length.
  cbn. by rewrite le_value_bytes.
Qed.

(** A byte string after its length in four bytes. *)
Definition bytes_codec : Codec bytes := {|
  encode v := le_bytes 4 (Z.of_nat (length v)) ++ v;
  decode_prefix v :=
    match take_exact 4 v with
    | Some (l, v') => take_exact (Z.to_nat (le_value l)) v'
    | None => None
    end;
  encodable v := Z.of_nat (length v) < 256 ^ 4;
|}.

Lemma bytes_codec_laws : @CodecLaws bytes bytes_codec.
Proof.
  intros v rest Hv; cbn [encode decode_prefix encodable bytes_codec] in *.
  rewrite <- (assoc_L (++)).
  rewrite take_exact_app by apply le_bytes_length.
  rewrite le_value_bytes by lia. apply take_exact_app. lia.
Qed.
End Demo.
