(* ===== verification/Currency.v ===== *)
(** * The currency interface

    [frame_support::traits::ReservableCurrency] is implemented by another
    pallet, so it is an interface here: its three operations the repository
    calls, two views of the currency's state ([free] and [reserved]), and the
    documented behaviour of the operations as laws.  [Ledger] is a concrete
    currency that satisfies the laws, used to run the pallets. *)
From stdpp Require Import prelude gmap strings.
From Stdlib Require Import ZArith Lia.
From S2P Require Import Prelude Frame.
Local Open Scope Z_scope.

Inductive BalanceStatus : Type := Free | Reserved.

Class ReservableCurrency (W AccountId : Type) : Type := {
  reserve : AccountId -> Z -> SE W DispatchError unit;
  unreserve : AccountId -> Z -> W -> Z * W;
  repatriate_reserved :
    AccountId -> AccountId -> Z -> BalanceStatus -> SE W DispatchError Z;
  free_of : W -> AccountId -> Z;
  reserved_of : W -> AccountId -> Z;
}.
#[export] Hint Mode ReservableCurrency - ! : typeclass_instances.

Section laws.
Context (W AccountId : Type) `{!ReservableCurrency W AccountId, !EqDecision AccountId}.

(** [moved w w' a b m]: [w'] is [w] after [m] left the reserved balance of [a]
    and reached the free balance of [b]. *)
Definition moved (w w' : W) (a b : AccountId) (m : Z) : Prop :=
  forall x,
    reserved_of w' x = reserved_of w x - (if decide (x = a) then m else 0) /\
    free_of w' x = free_of w x + (if decide (x = b) then m else 0).

(** The documentation of [ReservableCurrency]:
    - [reserve]: "Moves [value] from balance to reserved balance.  If the free
      balance is lower than [value], then no funds will be moved and an [Err]
      will be returned";
    - [unreserve]: "Moves up to [value] from reserved balance to free balance.
      This function cannot fail.  As much funds up to [value] will be moved as
      possible.  If the reserve balance of [who] is less than [value], then the
      remaining amount will be returned";
    - [repatriate_reserved]: "Moves up to [value] from reserved balance of
      account [slashed] to balance of account [beneficiary].  [beneficiary]
      must exist for this to succeed.  If it does not, [Err] will be returned.
      [...]  As much funds up to [value] will be deducted as possible.  If this
      is less than [value], then [Ok(non_zero)] will be returned". *)
Class CurrencyLaws : Prop := {
  reserved_nonneg (w : W) (x : AccountId) : 0 <= reserved_of w x;
  reserve_ok (w w' : W) (a : AccountId) v :
    0 <= v -> reserve a v w = (Ok tt, w') -> moved w w' a a (- v) /\ v <= free_of w a;
  reserve_err (w w' : W) (a : AccountId) v e : reserve a v w = (Err e, w') -> w' = w;
  unreserve_spec (w w' : W) (a : AccountId) v r :
    0 <= v -> unreserve a v w = (r, w') ->
    moved w w' a a (Z.min v (reserved_of w a)) /\ r = v - Z.min v (reserved_of w a);
  repatriate_ok (w w' : W) (a b : AccountId) v r :
    0 <= v -> repatriate_reserved a b v Free w = (Ok r, w') ->
    moved w w' a b (Z.min v (reserved_of w a)) /\ r = v - Z.min v (reserved_of w a);
  repatriate_err (w w' : W) (a b : AccountId) v s e :
    repatriate_reserved a b v s w = (Err e, w') -> w' = w;
}.
End laws.
Arguments moved {W AccountId _ _} w w' a b m.
Arguments reserved_nonneg {W AccountId _ _ _} w x.
Arguments reserve_ok {W AccountId _ _ _} {w w' a v} _ _.
Arguments reserve_err {W AccountId _ _ _} {w w' a v e} _.
Arguments unreserve_spec {W AccountId _ _ _} {w w' a v r} _ _.
Arguments repatriate_ok {W AccountId _ _ _} {w w' a b v r} _ _.
Arguments repatriate_err {W AccountId _ _ _} {w w' a b v s e} _.

(** ** A concrete currency *)
Module Ledger.
Section ledger.
Context {AccountId : Type} `{Countable AccountId}.

(** Free and reserved balances of the accounts that exist. *)
Abbreviation ledger := (gmap AccountId (N * N)).

Definition l_free (w : ledger) (a : AccountId) : N := (default (0, 0)%N (w !! a)).1.
Definition l_reserved (w : ledger) (a : AccountId) : N := (default (0, 0)%N (w !! a)).2.

Definition l_set (a : AccountId) (f r : N) (w : ledger) : ledger := <[a := (f, r)]> w.

(** Move [m] from the reserved balance of [a] to the free balance of [b]. *)
Definition l_move (a b : AccountId) (m : N) (w : ledger) : ledger :=
  let w1 := l_set a (l_free w a) (l_reserved w a - m)%N w in
  l_set b (l_free w1 b + m)%N (l_reserved w1 b) w1.

#[export] Instance ledger_currency : ReservableCurrency ledger AccountId := {
  reserve a v w :=
    let v := Z.to_N v in
    if decide (v <= l_free w a)%N
    then (Ok tt, l_set a (l_free w a - v)%N (l_reserved w a + v)%N w)
    else (Err (Other "InsufficientBalance"), w);
  unreserve a v w :=
    let m := N.min (Z.to_N v) (l_reserved w a) in
    (v - Z.of_N m, l_move a a m w);
  repatriate_reserved a b v s w :=
    match w !! b with
    | None => (Err (Other "DeadAccount"), w)
    | Some _ =>
        let m := N.min (Z.to_N v) (l_reserved w a) in
        match s with
        | Free => (Ok (v - Z.of_N m), l_move a b m w)
        | Reserved =>
            let w1 := l_set a (l_free w a) (l_reserved w a - m)%N w in
            (Ok (v - Z.of_N m), l_set b (l_free w1 b) (l_reserved w1 b + m)%N w1)
        end
    end;
  free_of w a := Z.of_N (l_free w a);
  reserved_of w a := Z.of_N (l_reserved w a);
}.

Lemma l_lookup_set w a f r x :
  l_free (l_set a f r w) x = (if decide (x = a) then f else l_free w x) /\
  l_reserved (l_set a f r w) x = (if decide (x = a) then r else l_reserved w x).
Proof.
  unfold l_free, l_reserved, l_set.
  case_decide; [subst; by rewrite lookup_insert_eq|by rewrite lookup_insert_ne].
Qed.

Lemma l_move_moved w a b (m : N) :
  (m <= l_reserved w a)%N -> moved w (l_move a b m w) a b (Z.of_N m).
Proof.
  intros Hm x. unfold l_move. cbn [free_of reserved_of ledger_currency].
  repeat match goal with
  | |- context [l_free (l_set ?a ?f ?r ?w) ?x] =>
      rewrite (proj1 (l_lookup_set w a f r x))
  | |- context [l_reserved (l_set ?a ?f ?r ?w) ?x] =>
      rewrite (proj2 (l_lookup_set w a f r x))
  end.
  repeat case_decide; simplify_eq; lia.
Qed.

#[export] Instance ledger_laws : CurrencyLaws ledger AccountId.
Proof.
  split; cbn [reserve unreserve repatriate_reserved ledger_currency].
  - intros. cbn. lia.
  - intros w w' a v Hv. case_decide as Hle; intros [= <-].
    cbn [free_of reserved_of ledger_currency]. split; [|lia]. intros x.
    cbn [free_of reserved_of ledger_currency].
    destruct (l_lookup_set w a (l_free w a - Z.to_N v)
      (l_reserved w a + Z.to_N v) x) as [-> ->].
    case_decide; subst; lia.
  - intros w w' a v e. by case_decide; intros [= _ <-].
  - intros w w' a v r Hv [= <- <-]. split.
    + replace (Z.min v (reserved_of w a)) with
        (Z.of_N (N.min (Z.to_N v) (l_reserved w a))) by (cbn; lia).
      apply l_move_moved. lia.
    + cbn. lia.
  - intros w w' a b v r Hv. destruct (w !! b); [|done]. intros [= <- <-]. split.
    + replace (Z.min v (reserved_of w a)) with
        (Z.of_N (N.min (Z.to_N v) (l_reserved w a))) by (cbn; lia).
      apply l_move_moved. lia.
    + cbn. lia.
  - intros w w' a b v s e. destruct (w !! b); [by destruct s|by intros [= _ <-]].
Qed.
End ledger.
End Ledger.
