(* ===== verification/Agreement.v ===== *)
(** * Agreements: the liability traits and their implementations

    [robonomics/frame/liability/src/traits.rs], [technics.rs], [economics.rs]
    and [signed.rs].  The traits [Processing], [Agreement] and [ProofBuilder]
    are the interfaces the pallet is written against (file [Liability]);
    [SignedLiability] is their implementation, over signature verification
    ([Verify]) and a currency, which are not part of the repository. *)
From stdpp Require Import prelude gmap strings list.
From Stdlib Require Import ZArith Lia.
From S2P Require Import Prelude Frame Codec Currency.
Local Open Scope Z_scope.

(** ** Traits *)

(** [trait Technical]: the types of the technical side of an agreement. *)
Record Technical : Type := {
  technical_parameter : Type;
  technical_report : Type;
  technical_oracle : Type;
}.

(** [trait Economical]. *)
Record Economical : Type := {
  economical_parameter : Type;
}.

(** [trait Processing]: what happens to the world [W] (the balances) when an
    agreement starts and finishes. *)
Class Processing (W Self : Type) : Type := {
  on_start : Self -> SE W DispatchError unit;
  on_finish : Self -> bool -> SE W DispatchError unit;
}.
#[export] Hint Mode Processing - ! : typeclass_instances.

(** [trait Agreement<T, E>]. *)
Class Agreement (T : Technical) (E : Economical) (Self Index AccountId Proof : Type) : Type := {
  new : technical_parameter T -> economical_parameter E -> AccountId -> AccountId -> Self;
  check_params : Self -> Proof -> AccountId -> bool;
  check_report : Self -> Index -> technical_report T -> Proof -> bool;
}.
#[export] Hint Mode Agreement - - ! - - - : typeclass_instances.

(** What the pallet uses of [Index: BaseArithmetic + Default]: the default and
    [i + 1.into()]. *)
Class BaseIndex (Index : Type) : Type := {
  index_default : Index;
  index_next : Index -> Index;
}.

(** [trait ProofBuilder]. *)
Class ProofBuilder (T : Technical) (E : Economical) (Index Account Proof : Type) : Type := {
  proof_params : technical_parameter T -> economical_parameter E -> Account -> Proof;
  proof_report : Index -> technical_report T -> Account -> Proof;
}.
#[export] Hint Mode ProofBuilder - - - ! - : typeclass_instances.

(** ** Technics and economics *)

(** [technics.rs]: IPFS hashes as task and report, no oracle. *)
Definition PureIPFS : Technical := {|
  technical_parameter := bytes;
  technical_report := bytes;
  technical_oracle := unit;
|}.

(** [economics.rs]: everything is free. *)
Definition Communism : Economical := {| economical_parameter := unit |}.

(** [economics.rs]: the price is the parameter. *)
Definition OpenMarket : Economical := {| economical_parameter := Z |}.

(** ** Signatures

    [V: Verify<Signer = A>] with [A: IdentifyAccount]: checking a signature of a
    message against an account. *)
Class Verify (Sig AccountId : Type) : Type :=
  verify : Sig -> bytes -> AccountId -> bool.
#[export] Hint Mode Verify ! - : typeclass_instances.

(** [sp_core::crypto::Pair] (and the key an [AppCrypto] signer holds). *)
Class Pair (P Sig AccountId : Type) : Type := {
  pair_sign : P -> bytes -> Sig;
  pair_account : P -> AccountId;
}.
#[export] Hint Mode Pair ! - - : typeclass_instances.

(** A signature a key pair makes verifies for that pair's account. *)
Class PairLaws (P Sig AccountId : Type) `{!Verify Sig AccountId, !Pair P Sig AccountId} : Prop :=
  verify_pair_sign (p : P) (m : bytes) :
    verify (pair_sign p m : Sig) m (pair_account p) = true.

(** ** Signed agreements *)

(** [struct SignedLiability<T, E, V, A, I>]. *)
Record SignedLiability (T : Technical) (E : Economical) (AccountId : Type) : Type :=
  mkSignedLiability {
    technics : technical_parameter T;
    economics : economical_parameter E;
    promisee : AccountId;
    promisor : AccountId;
  }.
Arguments mkSignedLiability {T E AccountId} _ _ _ _.
Arguments technics {T E AccountId} _.
Arguments economics {T E AccountId} _.
Arguments promisee {T E AccountId} _.
Arguments promisor {T E AccountId} _.

(** [u64] as [Agreement::Index] of a signed agreement: [+] wraps. *)
#[export] Instance u64_index : BaseIndex Z := {
  index_default := 0;
  index_next i := wrap 64 (i + 1);
}.

Section signed.
Context {T : Technical} {E : Economical} {AccountId Sig : Type}.
Context `{!Verify Sig AccountId}.
Context `{!Codec (technical_parameter T), !Codec (economical_parameter E),
  !Codec (technical_report T), !Codec AccountId, !Codec Z}.

(** [#[derive(Encode, Decode)]]: the fields, in order. *)
#[export] Instance signed_codec : Codec (SignedLiability T E AccountId) := {
  encode l :=
    encode (technics l) ++ encode (economics l) ++ encode (promisee l) ++ encode (promisor l);
  decode_prefix v :=
    match decode_prefix v with
    | Some ((t, (e, (pe, po))), v') => Some (mkSignedLiability t e pe po, v')
    | None => None
    end;
  encodable l :=
    encodable (technics l) /\ encodable (economics l) /\
    encodable (promisee l) /\ encodable (promisor l);
}.

(** [impl Agreement<T, E> for SignedLiability]. *)
Definition signed_new (t : technical_parameter T) (e : economical_parameter E)
    (pe po : AccountId) : SignedLiability T E AccountId :=
  mkSignedLiability t e pe po.

Definition signed_check_params (self : SignedLiability T E AccountId) (proof : Sig)
    (sender : AccountId) : bool :=
  verify proof (encode (technics self, economics self)) sender.

Definition signed_check_report (self : SignedLiability T E AccountId) (index : Z)
    (report : technical_report T) (proof : Sig) : bool :=
  verify proof (encode (index, report)) (promisor self).

#[export] Instance signed_agreement :
    Agreement T E (SignedLiability T E AccountId) Z AccountId Sig := {
  new := signed_new;
  check_params := signed_check_params;
  check_report := signed_check_report;
}.

(** [impl ProofBuilder for ProofSigner<TPair>]. *)
Definition ProofSigner_proof_params {TPair} `{!Pair TPair Sig AccountId}
    (t : technical_parameter T) (e : economical_parameter E) (sender : TPair) : Sig :=
  pair_sign sender (encode (t, e)).

Definition ProofSigner_proof_report {TPair} `{!Pair TPair Sig AccountId}
    (index : Z) (report : technical_report T) (sender : TPair) : Sig :=
  pair_sign sender (encode (index, report)).

#[export] Instance ProofSigner {TPair} `{!Pair TPair Sig AccountId} :
    ProofBuilder T E Z TPair Sig := {
  proof_params := ProofSigner_proof_params;
  proof_report := ProofSigner_proof_report;
}.
End signed.

(** [impl ProofBuilder for AppProofSigner<AppSigner>]: the key is found by the
    account it belongs to, and a missing key panics. *)
Section app_signer.
Context {T : Technical} {E : Economical} {AccountId Sig : Type}.
Context `{!Codec (technical_parameter T), !Codec (economical_parameter E),
  !Codec (technical_report T), !Codec Z}.
(** [AppSigner::sign]. *)
Context (app_sign : bytes -> AccountId -> option Sig).

Definition unable_to_sign : string := "unable to sign using runtime application key".

Definition AppProofSigner_proof_params (t : technical_parameter T)
    (e : economical_parameter E) (sender : AccountId) : outcome Empty_set Sig :=
  expect_some unable_to_sign (app_sign (encode (t, e)) sender).

Definition AppProofSigner_proof_report (index : Z) (report : technical_report T)
    (sender : AccountId) : outcome Empty_set Sig :=
  expect_some unable_to_sign (app_sign (encode (index, report)) sender).
End app_signer.

(** ** Economical processing *)

Section processing.
Context {T : Technical} {W AccountId : Type}.

(** [impl Processing for SignedLiability<T, Communism, ..>]. *)
Definition communism_on_start (self : SignedLiability T Communism AccountId) :
    SE W DispatchError unit := mret tt.

Definition communism_on_finish (self : SignedLiability T Communism AccountId)
    (_success : bool) : SE W DispatchError unit := mret tt.

#[export] Instance communism_processing :
    Processing W (SignedLiability T Communism AccountId) := {
  on_start := communism_on_start;
  on_finish := communism_on_finish;
}.

(** [impl Processing for SignedLiability<T, OpenMarket<C, I>, ..>]. *)
Context `{!ReservableCurrency W AccountId}.

Definition market_on_start (self : SignedLiability T OpenMarket AccountId) :
    SE W DispatchError unit :=
  reserve (promisee self) (economics self).

Definition market_on_finish (self : SignedLiability T OpenMarket AccountId)
    (success : bool) : SE W DispatchError unit :=
  if success then
    _ ← repatriate_reserved (promisee self) (promisor self) (economics self) Free;
    mret tt
  else
    fun w =>
      let (remaining, w') := unreserve (promisee self) (economics self) w in
      if remaining =? economics self then (Ok tt, w')
      else (Err (Other "reserved less than expected"), w').

#[export] Instance market_processing :
    Processing W (SignedLiability T OpenMarket AccountId) := {
  on_start := market_on_start;
  on_finish := market_on_finish;
}.
End processing.

(** ** Facts *)

Section signed_facts.
Context {T : Technical} {E : Economical} {AccountId Sig : Type}.
Context `{!Verify Sig AccountId}.
Context `{!Codec (technical_parameter T), !Codec (economical_parameter E),
  !Codec (technical_report T), !Codec AccountId, !Codec Z}.

#[export] Instance signed_codec_laws
  `{!CodecLaws (technical_parameter T), !CodecLaws (economical_parameter E),
    !CodecLaws AccountId} : CodecLaws (SignedLiability T E AccountId).
Proof.
  intros [t e pe po] rest (Ht & He & Hpe & Hpo); cbn [technics economics promisee promisor] in *.
  pose proof (decode_prefix_encode (t, (e, (pe, po))) rest) as Hd.
  change (encode (mkSignedLiability t e pe po)) with (encode (t, (e, (pe, po)))).
  cbn [decode_prefix signed_codec]. by rewrite Hd.
Qed.

(** The liability the pallet stores for given terms is encodable when the
    terms are. *)
Lemma signed_new_encodable t e (pe po : AccountId) :
  encodable (t, e, pe, po) -> encodable (signed_new t e pe po : SignedLiability T E AccountId).
Proof. intros [[[??]?]?]. cbn in *. tauto. Qed.

(** A proof of agreement made with a party's key ([ProofSigner]) is
    accepted for that party's account, and a report proof made with the
    promisor's key is accepted, whatever the other party is
    (the statement of the test [test_liability_proofs], for every input). *)
Lemma proofs_accepted {TPair} `{!Pair TPair Sig AccountId, !PairLaws TPair Sig AccountId}
    (pair : TPair) (t : technical_parameter T) (e : economical_parameter E)
    (other : AccountId) (index : Z) (report : technical_report T) :
  signed_check_params (signed_new t e (pair_account pair) other)
    (ProofSigner_proof_params (E := E) t e pair) (pair_account pair) = true /\
  signed_check_params (signed_new t e other (pair_account pair))
    (ProofSigner_proof_params (E := E) t e pair) (pair_account pair) = true /\
  signed_check_report (signed_new t e other (pair_account pair) : SignedLiability T E AccountId)
    index report (ProofSigner_proof_report index report pair) = true.
Proof.
  unfold signed_check_params, signed_check_report, ProofSigner_proof_params,
    ProofSigner_proof_report; cbn [technics economics promisor signed_new].
  by rewrite !verify_pair_sign.
Qed.

(** What an agreement proof covers.  A proof accepted from a sender is
    accepted from the same sender in every liability with the same terms,
    whoever the two parties are; a report proof is bound to the index, the
    report and the promisor, and to nothing else of the liability. *)
Lemma proof_scope (l l' : SignedLiability T E AccountId) (proof : Sig) (sender : AccountId)
    (index : Z) (report : technical_report T) :
  (technics l = technics l' -> economics l = economics l' ->
   signed_check_params l proof sender = signed_check_params l' proof sender) /\
  (promisor l = promisor l' ->
   signed_check_report l index report proof = signed_check_report l' index report proof).
Proof.
  unfold signed_check_params, signed_check_report.
  split; [by intros -> ->|by intros ->].
Qed.
End signed_facts.

Section app_signer_facts.
Context {T : Technical} {E : Economical} {AccountId Sig : Type}.
Context `{!Codec (technical_parameter T), !Codec (economical_parameter E),
  !Codec (technical_report T), !Codec Z}.

(** The key-store signer and the key-pair signer make the same proofs when the
    key store signs with the pair, and the key-store signer panics when it has
    no key. *)
Lemma app_proof_signer_agrees {TPair} `{!Pair TPair Sig AccountId} (pair : TPair)
    (app_sign : bytes -> AccountId -> option Sig) t e i r :
  (forall m, app_sign m (pair_account pair) = Some (pair_sign pair m)) ->
  AppProofSigner_proof_params (T := T) (E := E) app_sign t e (pair_account pair) =
    Return (ProofSigner_proof_params (E := E) t e pair) /\
  AppProofSigner_proof_report (T := T) app_sign i r (pair_account pair) =
    Return (ProofSigner_proof_report i r pair).
Proof.
  intros Hs. unfold AppProofSigner_proof_params, AppProofSigner_proof_report.
  by rewrite !Hs.
Qed.
End app_signer_facts.

Section processing_facts.
Context {T : Technical} {W AccountId : Type}.
Context `{!ReservableCurrency W AccountId, !EqDecision AccountId, !CurrencyLaws W AccountId}.
Implicit Types (l : SignedLiability T OpenMarket AccountId) (w : W).

(** A started agreement has its price reserved on the promisee. *)
Lemma market_on_start_ok l w w' :
  0 <= economics l -> market_on_start l w = (Ok tt, w') ->
  moved w w' (promisee l) (promisee l) (- economics l) /\
  economics l <= free_of w (promisee l).
Proof. exact reserve_ok. Qed.

Lemma market_on_start_err l w w' e : market_on_start l w = (Err e, w') -> w' = w.
Proof. exact reserve_err. Qed.

(** A successful finish pays the promisor what is reserved, up to the price. *)
Lemma market_on_finish_ok l w w' :
  0 <= economics l -> market_on_finish l true w = (Ok tt, w') ->
  moved w w' (promisee l) (promisor l) (Z.min (economics l) (reserved_of w (promisee l))).
Proof.
  intros Hv. unfold market_on_finish, mbind, mret, SE_bind, SE_ret.
  destruct (repatriate_reserved _ _ _ _ w) as [[r|e] w1] eqn:Hr; intros [= <-].
  exact (proj1 (repatriate_ok Hv Hr)).
Qed.

Lemma market_on_finish_err l w w' e : market_on_finish l true w = (Err e, w') -> w' = w.
Proof.
  unfold market_on_finish, mbind, mret, SE_bind, SE_ret.
  destruct (repatriate_reserved _ _ _ _ w) as [[r|e'] w1] eqn:Hr; intros [= <- <-].
  exact (repatriate_err Hr).
Qed.

(** C26: the failure branch of [on_finish] compares the amount [unreserve]
    could {e not} release with the price: with the whole price reserved it
    refunds the promisee and reports an error, and with nothing reserved it
    refunds nothing and reports success. *)
Theorem market_failed_finish_inverted (l : SignedLiability T OpenMarket AccountId) (w : W) :
  0 < economics l ->
  (economics l <= reserved_of w (promisee l) ->
   exists w', market_on_finish l false w = (Err (Other "reserved less than expected"), w') /\
     moved w w' (promisee l) (promisee l) (economics l)) /\
  (reserved_of w (promisee l) = 0 ->
   exists w', market_on_finish l false w = (Ok tt, w') /\
     moved w w' (promisee l) (promisee l) 0).
Proof.
  intros Hpos. unfold market_on_finish.
  destruct (unreserve (promisee l) (economics l) w) as [r w'] eqn:Hu.
  destruct (unreserve_spec (Z.lt_le_incl _ _ Hpos) Hu) as [Hm ->].
  split; intros Hres; exists w'.
  - rewrite Z.min_l in Hm |- * by lia. by rewrite (proj2 (Z.eqb_neq _ _)) by lia.
  - rewrite Z.min_r, Hres in Hm by lia.
    by rewrite (proj2 (Z.eqb_eq _ _)) by (rewrite Hres; lia).
Qed.
End processing_facts.
