(* ===== verification/Liability.v ===== *)
(** * The liability pallet

    [robonomics/frame/liability/src/lib.rs]: storage, calls, errors, events and
    the validation of unsigned transactions, over any implementation of the
    traits of [Agreement].  A dispatch is not transactional: an error keeps the
    storage written before it, and the definitions keep that order. *)
From stdpp Require Import prelude gmap strings list.
From Stdlib Require Import ZArith Lia.
From S2P Require Import Prelude Frame Codec Currency Agreement.
Local Open Scope Z_scope.

(** [decl_error!]: the variants, in order; an error is dispatched as the pallet's
    index and the variant's number. *)
Inductive Error : Type :=
| BadPromisorProof
| BadPromiseeProof
| BadReportProof
| LiabilityDecodeFailure.

Definition error_code (e : Error) : Z :=
  match e with
  | BadPromisorProof => 0
  | BadPromiseeProof => 1
  | BadReportProof => 2
  | LiabilityDecodeFailure => 3
  end.

(** [sp_runtime::transaction_validity], as far as the pallet uses it. *)
Inductive InvalidTransaction : Type := InvalidCall | BadProof.

Record ValidTransaction : Type := {
  priority : Z;
  requires : list bytes;
  provides : list bytes;
  longevity : Z;
  propagate : bool;
}.

Definition TransactionValidity : Type := result InvalidTransaction ValidTransaction.

(** [TransactionPriority::max_value()], a [u64]. *)
Definition TransactionPriority_max_value : Z := u64_max.

Section pallet.
(** [trait Trait]: the types and the implementations the runtime chooses, and
    the pallet's index in it. *)
Context {Origin AccountId W Self Index Proof : Type} {T : Technical} {E : Economical}.
Context `{!FrameSystem Origin AccountId, !EqDecision Index, !Countable Index}.
Context `{!BaseIndex Index, !Codec Self, !Processing W Self}.
Context `{!Agreement T E Self Index AccountId Proof}.
Context `{!Codec (technical_parameter T), !Codec (economical_parameter E),
  !Codec (technical_report T), !Codec AccountId, !Codec Index}.
Context (pallet_index : Z).

(** [decl_event!]. *)
Inductive Event : Type :=
| NewLiability (index : Index) (technics : technical_parameter T)
    (economics : economical_parameter E) (promisee promisor : AccountId)
| NewReport (index : Index) (report : technical_report T).

(** [decl_storage!], with the world the economical processing acts on and the
    events deposited so far. *)
Record State : Type := mkState {
  LatestIndex : Index;
  LiabilityOf : gmap Index bytes;
  IsFinalized : gmap Index bool;
  ReportOf : gmap Index bytes;
  world : W;
  events : list Event;
}.

(** The storage getters. *)
Definition latest_index (st : State) : Index := LatestIndex st.
Definition liability_of (st : State) (i : Index) : bytes := storage_get [] (LiabilityOf st) i.
Definition is_finalized (st : State) (i : Index) : bool := storage_get false (IsFinalized st) i.
Definition report_of (st : State) (i : Index) : bytes := storage_get [] (ReportOf st) i.

Definition put_latest_index (i : Index) (st : State) : State :=
  mkState i (LiabilityOf st) (IsFinalized st) (ReportOf st) (world st) (events st).
Definition insert_liability (i : Index) (b : bytes) (st : State) : State :=
  mkState (LatestIndex st) (<[i := b]> (LiabilityOf st)) (IsFinalized st) (ReportOf st)
    (world st) (events st).
Definition insert_finalized (i : Index) (b : bool) (st : State) : State :=
  mkState (LatestIndex st) (LiabilityOf st) (<[i := b]> (IsFinalized st)) (ReportOf st)
    (world st) (events st).
Definition insert_report (i : Index) (b : bytes) (st : State) : State :=
  mkState (LatestIndex st) (LiabilityOf st) (IsFinalized st) (<[i := b]> (ReportOf st))
    (world st) (events st).
Definition set_world (w : W) (st : State) : State :=
  mkState (LatestIndex st) (LiabilityOf st) (IsFinalized st) (ReportOf st) w (events st).
Definition push_event (e : Event) (st : State) : State :=
  mkState (LatestIndex st) (LiabilityOf st) (IsFinalized st) (ReportOf st) (world st)
    (events st ++ [e]).

(** The storage of a chain that has not used the pallet. *)
Definition genesis (w : W) : State := mkState index_default ∅ ∅ ∅ w [].

(** [Error::<T>::X.into()]. *)
Definition pallet_error (e : Error) : DispatchError := ModuleError pallet_index (error_code e).

Definition deposit_event (e : Event) : SE State DispatchError unit := se_modify (push_event e).

(** [create]. *)
Definition create (origin : Origin) (technics : technical_parameter T)
    (economics : economical_parameter E) (promisee promisor : AccountId)
    (promisee_proof promisor_proof : Proof) : SE State DispatchError unit :=
  _ ← se_lift (ensure_none origin);
  let liability : Self := new technics economics promisee promisor in
  _ ← se_ensure (check_params liability promisee_proof promisee)
        (pallet_error BadPromiseeProof);
  _ ← se_ensure (check_params liability promisor_proof promisor)
        (pallet_error BadPromisorProof);
  _ ← se_zoom world set_world (on_start liability);
  latest ← se_gets latest_index;
  _ ← se_modify (insert_liability latest (encode liability));
  _ ← se_modify (put_latest_index (index_next latest));
  deposit_event (NewLiability latest technics economics promisee promisor).

(** [finalize]. *)
Definition finalize (origin : Origin) (index : Index) (report : technical_report T)
    (proof : Proof) : SE State DispatchError unit :=
  _ ← se_lift (ensure_none origin);
  finalized ← se_gets (fun st => is_finalized st index);
  _ ← se_ensure (negb finalized) (Other "already finalized");
  stored ← se_gets (fun st => liability_of st index);
  match (decode stored : option Self) with
  | Some liability =>
      _ ← se_ensure (check_report liability index report proof)
            (pallet_error BadReportProof);
      _ ← se_zoom world set_world (on_finish liability true);
      _ ← se_modify (insert_report index (encode report));
      _ ← se_modify (insert_finalized index true);
      deposit_event (NewReport index report)
  | None => se_throw (pallet_error LiabilityDecodeFailure)
  end.

(** [enum Call], as [decl_module!] generates it, and its dispatch. *)
Inductive Call : Type :=
| call_create (technics : technical_parameter T) (economics : economical_parameter E)
    (promisee promisor : AccountId) (promisee_proof promisor_proof : Proof)
| call_finalize (index : Index) (report : technical_report T) (proof : Proof).

Definition dispatch (origin : Origin) (c : Call) : SE State DispatchError unit :=
  match c with
  | call_create t e pe po pp qp => create origin t e pe po pp qp
  | call_finalize i r p => finalize origin i r p
  end.

(** The weights of the calls. *)
Definition weight (c : Call) : Z :=
  match c with call_create _ _ _ _ _ _ => 200000000 | call_finalize _ _ _ => 200000000 end.

(** [ValidateUnsigned::validate_unsigned]. *)
Definition validate_unsigned (st : State) (c : Call) : TransactionValidity :=
  match c with
  | call_create technics economics promisee promisor promisee_proof promisor_proof =>
      let liability : Self := new technics economics promisee promisor in
      if negb (check_params liability promisee_proof promisee) then Err BadProof
      else if negb (check_params liability promisor_proof promisor) then Err BadProof
      else Ok {|
        priority := TransactionPriority_max_value;
        requires := [];
        provides := [encode (technics, economics, promisee, promisor)];
        longevity := 64;
        propagate := true;
      |}
  | call_finalize index report proof =>
      match (decode (liability_of st index) : option Self) with
      | Some liability =>
          if negb (check_report liability index report proof) then Err BadProof
          else Ok {|
            priority := TransactionPriority_max_value;
            requires := [];
            provides := [encode (index, report)];
            longevity := 64;
            propagate := true;
          |}
      | None => Err InvalidCall
      end
  end.
End pallet.

(** ** The calls, branch by branch *)

Section pallet_facts.
Context {Origin AccountId W Self Index Proof : Type} {T : Technical} {E : Economical}.
Context `{!FrameSystem Origin AccountId, !EqDecision Index, !Countable Index}.
Context `{!BaseIndex Index, !Codec Self, !Processing W Self}.
Context `{!Agreement T E Self Index AccountId Proof}.
Context `{!Codec (technical_parameter T), !Codec (economical_parameter E),
  !Codec (technical_report T), !Codec AccountId, !Codec Index}.
Context (pallet_index : Z).

Abbreviation st_t := (@State AccountId W Index T E _ _).
Implicit Types (st : st_t) (origin : Origin) (pe po : AccountId) (p q : Proof).

Abbreviation create' := (create (Self := Self) pallet_index).
Abbreviation finalize' := (finalize (Self := Self) (AccountId := AccountId) pallet_index).

Lemma set_world_id st : set_world (world st) st = st.
Proof. by destruct st. Qed.

(** The storage after a successful [create] and a successful [finalize]. *)
Definition after_create (l : Self) (t : technical_parameter T) (e : economical_parameter E)
    pe po (w : W) st : st_t :=
  mkState (index_next (latest_index st)) (<[latest_index st := encode l]> (LiabilityOf st))
    (IsFinalized st) (ReportOf st) w
    (events st ++ [NewLiability (latest_index st) t e pe po]).

Definition after_finalize (i : Index) (r : technical_report T) (w : W) st : st_t :=
  mkState (LatestIndex st) (LiabilityOf st) (<[i := true]> (IsFinalized st))
    (<[i := encode r]> (ReportOf st)) w (events st ++ [NewReport i r]).

Lemma create_eq origin t e pe po p q st :
  create' origin t e pe po p q st =
  match ensure_none origin with
  | Err err => (Err err, st)
  | Ok _ =>
      if negb (check_params (new t e pe po : Self) p pe)
      then (Err (pallet_error pallet_index BadPromiseeProof), st)
      else if negb (check_params (new t e pe po : Self) q po)
      then (Err (pallet_error pallet_index BadPromisorProof), st)
      else match on_start (new t e pe po : Self) (world st) with
           | (Err err, w) => (Err err, set_world w st)
           | (Ok _, w) => (Ok tt, after_create (new t e pe po) t e pe po w st)
           end
  end.
Proof.
  unfold create. se_unfold. destruct (ensure_none origin); [|done].
  do 2 (destruct (check_params _ _ _); cbn; [|done]).
  by destruct (on_start _ _) as [[[]|] w].
Qed.

Lemma finalize_eq origin i r p st :
  finalize' origin i r p st =
  match ensure_none origin with
  | Err err => (Err err, st)
  | Ok _ =>
      if is_finalized st i then (Err (Other "already finalized"), st)
      else match (decode (liability_of st i) : option Self) with
           | None => (Err (pallet_error pallet_index LiabilityDecodeFailure), st)
           | Some l =>
               if negb (check_report l i r p)
               then (Err (pallet_error pallet_index BadReportProof), st)
               else match on_finish l true (world st) with
                    | (Err err, w) => (Err err, set_world w st)
                    | (Ok _, w) => (Ok tt, after_finalize i r w st)
                    end
           end
  end.
Proof.
  unfold finalize. se_unfold. destruct (ensure_none origin); [|done].
  destruct (is_finalized st i); cbn; [done|].
  destruct (decode _) as [l|]; [|done].
  destruct (check_report _ _ _ _); cbn; [|done].
  by destruct (on_finish _ _ _) as [[[]|] w].
Qed.

Lemma create_ok_inv origin t e pe po p q st st' :
  create' origin t e pe po p q st = (Ok tt, st') ->
  ensure_none origin = Ok tt /\
  check_params (new t e pe po : Self) p pe = true /\
  check_params (new t e pe po : Self) q po = true /\
  exists w, on_start (new t e pe po : Self) (world st) = (Ok tt, w) /\
    st' = after_create (new t e pe po) t e pe po w st.
Proof.
  rewrite create_eq. intros H.
  destruct (ensure_none origin) as [[]|]; [|done].
  do 2 (destruct (check_params _ _ _); cbn in H; [|done]).
  destruct (on_start _ _) as [[[]|] w]; simplify_eq. by eauto 10.
Qed.

Lemma finalize_ok_inv origin i r p st st' :
  finalize' origin i r p st = (Ok tt, st') ->
  ensure_none origin = Ok tt /\ is_finalized st i = false /\
  exists (l : Self) w, decode (liability_of st i) = Some l /\ check_report l i r p = true /\
    on_finish l true (world st) = (Ok tt, w) /\ st' = after_finalize i r w st.
Proof.
  rewrite finalize_eq. intros H.
  destruct (ensure_none origin) as [[]|]; [|done].
  destruct (is_finalized st i); [done|].
  destruct (decode _) as [l|]; [|done].
  destruct (check_report _ _ _ _) eqn:?; cbn in H; [|done].
  destruct (on_finish _ _ _) as [[[]|] w] eqn:?; simplify_eq. by eauto 10.
Qed.

(** Both outcomes of a dispatch, for proofs by cases. *)
Lemma create_cases origin t e pe po p q st :
  let '(r, st') := create' origin t e pe po p q st in
  (r = Ok tt /\ exists w, on_start (new t e pe po : Self) (world st) = (Ok tt, w) /\
     st' = after_create (new t e pe po) t e pe po w st) \/
  (exists err, r = Err err /\
     (st' = st \/ exists w, on_start (new t e pe po : Self) (world st) = (Err err, w) /\
        st' = set_world w st)).
Proof.
  rewrite create_eq. destruct (ensure_none origin); [|by eauto].
  do 2 (destruct (check_params _ _ _); cbn; [|by eauto]).
  destruct (on_start _ _) as [[[]|] w] eqn:?; by eauto 10.
Qed.

Lemma finalize_cases origin i r p st :
  let '(res, st') := finalize' origin i r p st in
  (res = Ok tt /\ is_finalized st i = false /\
     exists (l : Self) w, decode (liability_of st i) = Some l /\ check_report l i r p = true /\
       on_finish l true (world st) = (Ok tt, w) /\ st' = after_finalize i r w st) \/
  (exists err, res = Err err /\
     (st' = st \/ exists (l : Self) w,
        on_finish l true (world st) = (Err err, w) /\ st' = set_world w st)).
Proof.
  rewrite finalize_eq. destruct (ensure_none origin); [|by eauto].
  destruct (is_finalized st i); [by eauto|].
  destruct (decode _) as [l|]; [|by eauto].
  destruct (check_report _ _ _ _) eqn:?; cbn; [|by eauto].
  destruct (on_finish _ _ _) as [[[]|] w] eqn:?; by eauto 15.
Qed.
End pallet_facts.
