(* ===== verification/LiabilityFacts.v ===== *)
(** * The liability pallet: what its calls guarantee

    The theorems of this file hold for every implementation of the traits:
    acceptance and effect of [create] and [finalize], failed dispatches,
    and how [validate_unsigned] relates to the dispatch. *)
From stdpp Require Import prelude gmap strings list.
From Stdlib Require Import ZArith Lia.
From S2P Require Import Prelude Frame Codec Currency Agreement Liability.
Local Open Scope Z_scope.

(** What the pallet relies on for an error to leave the storage as it was: a
    [Processing] that fails has not touched the balances. *)
Class ProcessingLaws (W Self : Type) `{!Processing W Self} : Prop := {
  on_start_err (l : Self) (w w' : W) err : on_start l w = (Err err, w') -> w' = w;
  on_finish_err (l : Self) (w w' : W) err : on_finish l true w = (Err err, w') -> w' = w;
}.

#[export] Instance communism_processing_laws {T W AccountId} :
  ProcessingLaws W (SignedLiability T Communism AccountId).
Proof. by split. Qed.

#[export] Instance market_processing_laws {T W AccountId}
    `{!ReservableCurrency W AccountId, !EqDecision AccountId, !CurrencyLaws W AccountId} :
  ProcessingLaws W (SignedLiability T OpenMarket AccountId).
Proof.
  split; intros *; [apply market_on_start_err|apply market_on_finish_err].
Qed.

Section calls.
Context {Origin AccountId W Self Index Proof : Type} {T : Technical} {E : Economical}.
Context `{!FrameSystem Origin AccountId, !EqDecision Index, !Countable Index}.
Context `{!BaseIndex Index, !Codec Self, !Processing W Self}.
Context `{!Agreement T E Self Index AccountId Proof}.
Context `{!Codec (technical_parameter T), !Codec (economical_parameter E),
  !Codec (technical_report T), !Codec AccountId, !Codec Index}.
Context (pallet_index : Z).

Abbreviation st_t := (@State AccountId W Index T E _ _).
Abbreviation create' := (create (Self := Self) pallet_index).
Abbreviation finalize' := (finalize (Self := Self) (AccountId := AccountId) pallet_index).
Abbreviation dispatch' := (dispatch (Self := Self) pallet_index).
Abbreviation validate' := (validate_unsigned (Self := Self)).
Implicit Types (st : st_t) (origin : Origin) (pe po : AccountId) (p q : Proof).

(** C9: [create] is accepted exactly when the transaction is unsigned, both
    proofs check against the liability built from the terms and the processing
    starts it; it then stores the encoded liability under the next free index,
    leaves every other liability, flag and report as it was, advances the
    index by one and deposits one event. *)
Theorem create_functional origin t e pe po p q st st' (r : DispatchResult) :
  create' origin t e pe po p q st = (r, st') ->
  (r = Ok tt <->
   ensure_none origin = Ok tt /\ check_params (new t e pe po : Self) p pe = true /\
   check_params (new t e pe po : Self) q po = true /\
   (on_start (new t e pe po : Self) (world st)).1 = Ok tt) /\
  (r = Ok tt ->
   latest_index st' = index_next (latest_index st) /\
   liability_of st' (latest_index st) = encode (new t e pe po : Self) /\
   (forall j, j <> latest_index st -> liability_of st' j = liability_of st j) /\
   (forall j, is_finalized st' j = is_finalized st j /\ report_of st' j = report_of st j) /\
   world st' = (on_start (new t e pe po : Self) (world st)).2 /\
   events st' = events st ++ [NewLiability (latest_index st) t e pe po]).
Proof.
  rewrite create_eq. intros H. split.
  - destruct (ensure_none origin) as [[]|]; [|refused].
    destruct (check_params _ p _); cbn in H; [|refused].
    destruct (check_params _ q _); cbn in H; [|refused].
    destruct (on_start _ _) as [[[]|] w]; [accepted|refused].
  - intros ->. rewrite <- create_eq in H.
    apply create_ok_inv in H as (_ & _ & _ & w & Hw & ->). rewrite Hw.
    unfold liability_of; cbn. split; [done|]. split; [by apply storage_get_insert_eq|].
    split; [|done]. intros j Hj. by apply storage_get_insert_ne.
Qed.

(** C10: [finalize] is accepted exactly when the transaction is unsigned, the
    liability is not finalized, the stored bytes decode to a liability whose
    promisor's report proof checks, and the processing finishes it; it then
    keeps the world the processing left, stores the encoded report, sets the
    flag of that index only, touches no stored liability and deposits one
    event. *)
Theorem finalize_functional origin i r p st st' (res : DispatchResult) :
  finalize' origin i r p st = (res, st') ->
  (res = Ok tt <->
   ensure_none origin = Ok tt /\ is_finalized st i = false /\
   exists l : Self, decode (liability_of st i) = Some l /\ check_report l i r p = true /\
     (on_finish l true (world st)).1 = Ok tt) /\
  (res = Ok tt ->
   is_finalized st' i = true /\ report_of st' i = encode r /\
   (forall j, j <> i ->
      is_finalized st' j = is_finalized st j /\ report_of st' j = report_of st j) /\
   (forall j, liability_of st' j = liability_of st j) /\
   latest_index st' = latest_index st /\
   (exists l : Self, decode (liability_of st i) = Some l /\
      world st' = (on_finish l true (world st)).2) /\
   events st' = events st ++ [NewReport i r]).
Proof.
  rewrite finalize_eq. intros H. split.
  - destruct (ensure_none origin) as [[]|]; [|refused].
    destruct (is_finalized st i); [refused|].
    destruct (decode _) as [l|]; [|refused].
    destruct (check_report _ _ _ _) eqn:?; cbn in H; [|refused].
    destruct (on_finish _ _ _) as [[[]|] w] eqn:Hf; simplify_eq; split; try done.
    + intros _. repeat split. exists l. by rewrite Hf.
    + intros (_ & _ & l' & Hl & _ & Ho). simplify_eq. by rewrite Hf in Ho.
  - intros ->. rewrite <- finalize_eq in H.
    apply finalize_ok_inv in H as (_ & _ & l & w & Hl & _ & Hw & ->).
    unfold is_finalized, report_of; cbn. split; [by apply storage_get_insert_eq|].
    split; [by apply storage_get_insert_eq|].
    split; [intros j Hj; by rewrite !storage_get_insert_ne|].
    do 2 (split; [done|]). split; [|done]. exists l. by rewrite Hw.
Qed.

Lemma dispatch_err_same `{!ProcessingLaws W Self} origin c st st' err :
  dispatch' origin c st = (Err err, st') -> st' = st.
Proof.
  destruct c as [t e pe po p q|i r p]; cbn [dispatch]; intros H.
  - pose proof (create_cases (Self := Self) pallet_index origin t e pe po p q st) as Hc.
    rewrite H in Hc. destruct Hc as [[? _]|(? & ? & [->|(w & Hw & ->)])]; try done.
    apply on_start_err in Hw as ->. apply set_world_id.
  - pose proof (finalize_cases (Self := Self) pallet_index origin i r p st) as Hc.
    rewrite H in Hc. destruct Hc as [[? _]|(? & ? & [->|(l & w & Hw & ->)])]; try done.
    apply on_finish_err in Hw as ->. apply set_world_id.
Qed.

(** A dispatch keeps the liabilities there are, and the flags of the finished ones. *)
Lemma dispatch_keeps origin c st i :
  i <> latest_index st ->
  liability_of (dispatch' origin c st).2 i = liability_of st i /\
  (is_finalized st i = true -> is_finalized (dispatch' origin c st).2 i = true).
Proof.
  intros Hi. destruct c as [t e pe po p q|j r p]; cbn [dispatch].
  - pose proof (create_cases (Self := Self) pallet_index origin t e pe po p q st) as H.
    destruct (create _ _ _ _ _ _ _ _ st) as [res st'].
    destruct H as [(_ & w & _ & ->)|(? & _ & [->|(w & _ & ->)])]; cbn [snd]; [|done..].
    split; [|done]. unfold after_create, liability_of; cbn. by apply storage_get_insert_ne.
  - pose proof (finalize_cases (Self := Self) pallet_index origin j r p st) as H.
    destruct (finalize _ _ _ _ _ st) as [res st'].
    destruct H as [(_ & Hopen & l & w & _ & _ & _ & ->)|(? & _ & [->|(? & w & _ & ->)])];
      cbn [snd]; [|done..].
    split; [done|]. intros Hf. unfold after_finalize, is_finalized in *; cbn.
    rewrite storage_get_insert_ne; [done|]. intros ->. unfold is_finalized in Hopen. congruence.
Qed.

(** C12: verify first, write last.  When the processing leaves the balances
    alone on an error, a dispatch that fails, whatever the call, the origin
    and the reason, leaves the whole storage and the events as they were,
    although no dispatch is rolled back. *)
Theorem failed_dispatch_unchanged `{!ProcessingLaws W Self} origin c st st' err :
  dispatch' origin c st = (Err err, st') -> st' = st.
Proof. apply dispatch_err_same. Qed.

(** C23: a [create] the pool accepted can only fail in the processing: on the
    state it was validated against, the dispatch with an unsigned origin gives
    the result of [on_start]; and a [create] the pool refused is refused by
    the dispatch. *)
Theorem validated_create `{!FrameSystemLaws Origin AccountId} t e pe po p q st :
  is_ok (validate' st (call_create t e pe po p q)) = true /\
    (create' (none : Origin) t e pe po p q st).1 =
      (on_start (new t e pe po : Self) (world st)).1 \/
  validate' st (call_create t e pe po p q) = Err BadProof /\
    exists err, create' (none : Origin) t e pe po p q st =
      (Err (pallet_error pallet_index err), st).
Proof.
  rewrite create_eq, ensure_none_none. cbn [validate_unsigned].
  destruct (check_params _ p _); cbn; [|by eauto].
  destruct (check_params _ q _); cbn; [|by eauto].
  left. by destruct (on_start _ _) as [[[]|] w].
Qed.

(** C24: [validate_unsigned] does not look at the finalized flag.  A [finalize]
    it accepts is dispatched to the result of [on_finish] when the liability
    is open, and fails with "already finalized", storage unchanged, when it is
    finalized: a finished liability's report stays acceptable to the pool, at
    the highest priority, for ever. *)
Theorem validated_finalize `{!FrameSystemLaws Origin AccountId} i r p st :
  is_ok (validate' st (call_finalize i r p)) = true ->
  (is_finalized st i = false ->
   exists l : Self, decode (liability_of st i) = Some l /\
     (finalize' (none : Origin) i r p st).1 = (on_finish l true (world st)).1) /\
  (is_finalized st i = true ->
   finalize' (none : Origin) i r p st = (Err (Other "already finalized"), st) /\
   exists tag, validate' st (call_finalize i r p) =
     Ok {| priority := u64_max; requires := []; provides := [tag]; longevity := 64;
           propagate := true |}).
Proof.
  rewrite finalize_eq, ensure_none_none. cbn [validate_unsigned].
  destruct (decode _) as [l|]; [|done].
  destruct (check_report _ _ _ _); cbn; [|done]. intros _.
  split; intros ->; [|by eauto].
  exists l. split; [done|]. by destruct (on_finish _ _ _) as [[[]|] w].
Qed.
End calls.
