(* ===== verification/SignedPallet.v ===== *)
(** * The liability pallet over signed agreements

    The runtimes instantiate the pallet with [SignedLiability] and [u64]
    indices.  This file states what holds in every storage such a pallet can
    reach: the reachable states are closed under the calls, accepted or not,
    from any origin and with any arguments, and under what the rest of the
    runtime does to the balances. *)
From stdpp Require Import prelude gmap strings list list_numbers.
From Stdlib Require Import ZArith Lia.
From S2P Require Import Prelude Frame Codec Currency Agreement Liability.
From S2P Require Import LiabilityFacts.
Local Open Scope Z_scope.

Section reach.
Context {Origin AccountId W Sig : Type} {T : Technical} {E : Economical}.
Context `{!FrameSystem Origin AccountId, !Verify Sig AccountId}.
Context `{!Codec (technical_parameter T), !Codec (economical_parameter E),
  !Codec (technical_report T), !Codec AccountId, !Codec Z}.
Context `{!Processing W (SignedLiability T E AccountId)}.
Context (pallet_index : Z).
(** What the other pallets may do to the balances. *)
Context (world_step : W -> W -> Prop).

Abbreviation liability := (SignedLiability T E AccountId).
Abbreviation st_t := (@State AccountId W Z T E _ _).
Abbreviation ev_t := (@Event AccountId Z T E).
Abbreviation call_t := (@Call AccountId Z Sig T E).
Abbreviation dispatch' := (dispatch (Self := liability) pallet_index).
Implicit Types (st : st_t) (c : call_t) (l : liability).

(** The arguments of a call are values of their types, and the [u64] index is
    not about to wrap around. *)
Definition call_ok st c : Prop :=
  match c with
  | call_create t e pe po _ _ => encodable (t, e, pe, po) /\ latest_index st < u64_max
  | call_finalize i r _ => True
  end.

(** The states after any number of dispatches and of steps of the rest of the
    runtime. *)
Inductive reachable : st_t -> Prop :=
| reach_genesis w : reachable (genesis w)
| reach_dispatch st (o : Origin) c : reachable st -> call_ok st c -> reachable (dispatch' o c st).2
| reach_world st w : reachable st -> world_step (world st) w -> reachable (set_world w st).
End reach.

(** The indices of the liabilities created and of the reports published, in the
    order of the events. *)
Definition created_index {AccountId Index T E} (e : @Event AccountId Index T E) : option Index :=
  match e with NewLiability i _ _ _ _ => Some i | NewReport _ _ => None end.
Definition reported_index {AccountId Index T E} (e : @Event AccountId Index T E) : option Index :=
  match e with NewLiability _ _ _ _ _ => None | NewReport i _ => Some i end.

Section invariant.
Context {AccountId W Sig : Type} {T : Technical} {E : Economical}.
Context `{!Verify Sig AccountId}.
Context `{!Codec (technical_parameter T), !Codec (economical_parameter E),
  !Codec (technical_report T), !Codec AccountId, !Codec Z}.

Abbreviation liability := (SignedLiability T E AccountId).
Abbreviation st_t := (@State AccountId W Z T E _ _).
Abbreviation ev_t := (@Event AccountId Z T E).
Implicit Types (st : st_t) (l : liability).

(** What an event says about the storage and about the signatures that were
    checked when it was deposited. *)
Definition event_ok st (ev : ev_t) : Prop :=
  match ev with
  | NewLiability i t e pe po =>
      (LiabilityOf st !! i = Some (encode (signed_new t e pe po : liability)) /\
       encodable (signed_new t e pe po : liability)) /\
      (exists sig : Sig, verify sig (encode (t, e)) pe = true) /\
      (exists sig : Sig, verify sig (encode (t, e)) po = true)
  | NewReport i r =>
      ReportOf st !! i = Some (encode r) /\
      exists l, (LiabilityOf st !! i = Some (encode l) /\ encodable l) /\
        exists sig : Sig, verify sig (encode (i, r)) (promisor l) = true
  end.

Record storage_ok st : Prop := {
  so_index : in_width 64 (latest_index st);
  so_dom i : is_Some (LiabilityOf st !! i) <-> 0 <= i < latest_index st;
  so_stored i b : LiabilityOf st !! i = Some b ->
    exists l, b = encode l /\ encodable l;
  so_flag i b : IsFinalized st !! i = Some b -> b = true /\ 0 <= i < latest_index st;
  so_report i : is_Some (ReportOf st !! i) <-> is_finalized st i = true;
  so_created : omap created_index (events st) = seqZ 0 (latest_index st);
  so_reported i : i ∈ omap reported_index (events st) <-> is_finalized st i = true;
  so_once : NoDup (omap reported_index (events st));
  so_events : Forall (event_ok st) (events st);
}.
End invariant.

Section preservation.
Context {AccountId W Sig : Type} {T : Technical} {E : Economical}.
Context `{!Verify Sig AccountId}.
Context `{!Codec (technical_parameter T), !Codec (economical_parameter E),
  !Codec (technical_report T), !Codec AccountId, !Codec Z}.

Abbreviation liability := (SignedLiability T E AccountId).
Abbreviation st_t := (@State AccountId W Z T E _ _).
Abbreviation ok := (storage_ok (Sig := Sig)).
Implicit Types (st : st_t) (l : liability).

Lemma genesis_ok (w : W) : ok (genesis w : st_t).
Proof.
  split; cbn; try done.
  - intros i. rewrite lookup_empty. split; [by intros [? [=]]|lia].
  - intros i. rewrite lookup_empty. split; [by intros [? [=]]|done].
  - intros i. split; [by intros ?%elem_of_nil|done].
  - constructor.
Qed.

Lemma set_world_ok (w : W) st : ok st -> ok (set_world w st).
Proof. by intros []. Qed.

(** An event keeps its meaning when storage entries are only added. *)
Lemma event_ok_mono st st' ev :
  (forall i b, LiabilityOf st !! i = Some b -> LiabilityOf st' !! i = Some b) ->
  (forall i b, ReportOf st !! i = Some b -> ReportOf st' !! i = Some b) ->
  event_ok (Sig := Sig) st ev -> event_ok (Sig := Sig) st' ev.
Proof. destruct ev; cbn; naive_solver. Qed.

Lemma fresh_index st : ok st -> LiabilityOf st !! latest_index st = None.
Proof.
  intros Hok. apply eq_None_not_Some. rewrite (so_dom _ Hok). lia.
Qed.

Lemma after_create_ok t e (pe po : AccountId) (sig1 sig2 : Sig) (w : W) st :
  ok st -> latest_index st < u64_max -> encodable (t, e, pe, po) ->
  verify sig1 (encode (t, e)) pe = true -> verify sig2 (encode (t, e)) po = true ->
  ok (after_create (signed_new t e pe po : liability) t e pe po w st).
Proof.
  intros Hok Hmax Henc Hpe Hpo.
  pose proof (fresh_index _ Hok) as Hfresh. pose proof (so_index _ Hok) as Hidx.
  assert (Hnext : index_next (latest_index st) = latest_index st + 1).
  { unfold in_width, u64_max in *. apply wrap_small. unfold in_width. lia. }
  unfold after_create. rewrite Hnext.
  assert (Hkeep : forall i b, LiabilityOf st !! i = Some b ->
    <[latest_index st := encode (signed_new t e pe po : liability)]> (LiabilityOf st) !! i
      = Some b).
  { intros i b Hi. rewrite lookup_insert_ne; [done|congruence]. }
  split; cbn [latest_index LatestIndex LiabilityOf IsFinalized ReportOf events].
  - unfold in_width, u64_max in *. lia.
  - intros i. rewrite lookup_insert. case_decide as Hi; subst.
    + unfold in_width in Hidx. split; [lia|by eauto].
    + rewrite (so_dom _ Hok). lia.
  - intros i b. rewrite lookup_insert. case_decide as Hi; [|by apply (so_stored _ Hok)].
    intros [= <-]. exists (signed_new t e pe po).
      split; [reflexivity|]. by apply signed_new_encodable.
  - intros i b Hb. destruct (so_flag _ Hok _ _ Hb) as [-> ?]. split; [done|].
    unfold latest_index in *. lia.
  - intros i. apply (so_report _ Hok).
  - rewrite omap_app, (so_created _ Hok). cbn. unfold in_width in Hidx.
    rewrite seqZ_app, Z.add_0_l by lia. done.
  - intros i. rewrite omap_app, app_nil_r. apply (so_reported _ Hok).
  - rewrite omap_app, app_nil_r. apply (so_once _ Hok).
  - apply Forall_app. split.
    + eapply Forall_impl; [apply (so_events _ Hok)|]. intros ev. by apply event_ok_mono.
    + apply Forall_singleton. split; [|by eauto].
      split; [apply lookup_insert_eq|by apply signed_new_encodable].
Qed.

Lemma after_finalize_ok i r l (sig : Sig) (w : W) st :
  ok st -> is_finalized st i = false ->
  LiabilityOf st !! i = Some (encode l) -> encodable l ->
  verify sig (encode (i, r)) (promisor l) = true ->
  ok (after_finalize i r w st).
Proof.
  intros Hok Hopen Hl Henc Hsig.
  assert (Hnone : ReportOf st !! i = None).
  { apply eq_None_not_Some. rewrite (so_report _ Hok). by rewrite Hopen. }
  assert (Hkeep : forall j b, ReportOf st !! j = Some b ->
    <[i := encode r]> (ReportOf st) !! j = Some b).
  { intros j b Hj. rewrite lookup_insert_ne; [done|congruence]. }
  assert (Hnot : i ∉ omap reported_index (events st)).
  { rewrite (so_reported _ Hok). by rewrite Hopen. }
  unfold after_finalize. split;
    cbn [latest_index LatestIndex LiabilityOf IsFinalized ReportOf events].
  - apply (so_index _ Hok).
  - apply (so_dom _ Hok).
  - apply (so_stored _ Hok).
  - intros j b. rewrite lookup_insert. case_decide; [|by apply (so_flag _ Hok)].
    intros [= <-]. subst. split; [done|]. apply (so_dom _ Hok). by eauto.
  - intros j. unfold is_finalized, storage_get; cbn [IsFinalized].
    rewrite !lookup_insert. case_decide; cbn; [by eauto|]. apply (so_report _ Hok).
  - rewrite omap_app. cbn. rewrite app_nil_r. apply (so_created _ Hok).
  - intros j. rewrite omap_app. cbn. unfold is_finalized, storage_get; cbn [IsFinalized].
    rewrite elem_of_app, list_elem_of_singleton, (so_reported _ Hok), lookup_insert.
    unfold is_finalized, storage_get. case_decide; subst; cbn; naive_solver.
  - rewrite omap_app. cbn. apply NoDup_app.
    split; [apply (so_once _ Hok)|]. split; [|apply NoDup_singleton].
    intros j Hj ->%list_elem_of_singleton. done.
  - apply Forall_app. split.
    + eapply Forall_impl; [apply (so_events _ Hok)|]. intros ev. by apply event_ok_mono.
    + apply Forall_singleton. split; [apply lookup_insert_eq|by eauto].
Qed.

(** A stored liability is read back as it was. *)
Lemma stored_decodes `{!CodecLaws (technical_parameter T), !CodecLaws (economical_parameter E),
    !CodecLaws AccountId} st i l :
  ok st -> (decode (liability_of st i) : option liability) = Some l ->
  0 <= i < latest_index st -> LiabilityOf st !! i = Some (encode l) /\ encodable l.
Proof.
  intros Hok Hd Hi. apply (so_dom _ Hok) in Hi as [b Hb].
  destruct (so_stored _ Hok _ _ Hb) as (l' & -> & Henc).
  unfold liability_of, storage_get in Hd. rewrite Hb in Hd.
  change (decode (encode l') = Some l) in Hd. rewrite (decode_encode _ Henc) in Hd.
  injection Hd as ->. done.
Qed.
End preservation.

(** ** Every reachable storage *)

Section reachable_facts.
Context {Origin AccountId W Sig : Type} {T : Technical} {E : Economical}.
Context `{!FrameSystem Origin AccountId, !Verify Sig AccountId}.
Context `{!Codec (technical_parameter T), !Codec (economical_parameter E),
  !Codec (technical_report T), !Codec AccountId, !Codec Z}.
Context `{!CodecLaws (technical_parameter T), !CodecLaws (economical_parameter E),
  !CodecLaws AccountId}.
Context `{!Processing W (SignedLiability T E AccountId)}.
Context (pallet_index : Z) (world_step : W -> W -> Prop).

Abbreviation liability := (SignedLiability T E AccountId).
Abbreviation st_t := (@State AccountId W Z T E _ _).
Abbreviation call_t := (@Call AccountId Z Sig T E).
Abbreviation ok := (storage_ok (Sig := Sig)).
Abbreviation dispatch' := (dispatch (Self := liability) pallet_index).
Abbreviation reach :=
  (reachable (Origin := Origin) (Sig := Sig) pallet_index world_step : st_t -> Prop).
Implicit Types (st : st_t) (c : call_t) (l : liability) (o : Origin).

(** A liability has a non-empty encoding: no bytes, which is what the storage
    map holds for an index never used, do not decode. *)
Hypothesis decode_empty : (decode [] : option liability) = None.

Lemma decoded_in_range st i l :
  ok st -> (decode (liability_of st i) : option liability) = Some l ->
  0 <= i < latest_index st.
Proof using decode_empty.
  intros Hok Hd. apply (so_dom _ Hok). unfold liability_of, storage_get in Hd.
  destruct (LiabilityOf st !! i) eqn:Hi; [by eauto|].
  change (decode [] = Some l) in Hd. congruence.
Qed.

Lemma dispatch_ok st o c : ok st -> call_ok st c -> ok (dispatch' o c st).2.
Proof using Type*.
  intros Hok Hc. destruct c as [t e pe po p q|i r p]; cbn [dispatch call_ok] in *.
  - destruct Hc as [Henc Hmax].
    destruct (create (Self := liability) pallet_index o t e pe po p q st) as [res st'] eqn:Hs.
    destruct res as [[]|err].
    + apply create_ok_inv in Hs as (_ & Hp & Hq & w & _ & ->).
      by apply (after_create_ok t e pe po p q).
    + pose proof (create_cases (Self := liability) pallet_index o t e pe po p q st) as H.
      rewrite Hs in H. destruct H as [[? _]|(? & _ & [->|(? & _ & ->)])]; try done.
      by apply set_world_ok.
  - destruct (finalize (Self := liability) pallet_index o i r p st) as [res st'] eqn:Hs.
    destruct res as [[]|err].
    + apply finalize_ok_inv in Hs as (_ & Hopen & l & w & Hd & Hr & _ & ->).
      pose proof (decoded_in_range _ _ _ Hok Hd) as Hi.
      destruct (stored_decodes (Sig := Sig) _ _ _ Hok Hd Hi) as [Hl Henc].
      by apply (after_finalize_ok i r l p).
    + pose proof (finalize_cases (Self := liability) pallet_index o i r p st) as H.
      rewrite Hs in H. destruct H as [[? _]|(? & _ & [->|(? & ? & _ & ->)])]; try done.
      by apply set_world_ok.
Qed.

Lemma reachable_ok st : reach st -> ok st.
Proof using Type*.
  induction 1; [apply genesis_ok|by apply dispatch_ok|by apply set_world_ok].
Qed.

(** C3: in every reachable storage the liabilities are numbered [0] to
    [latest_index - 1] without gaps, each stored entry is the encoding of an
    agreement, flags and reports exist for created liabilities only, and a
    report is stored exactly for the finalized ones.  (The storages are those
    before the [u64] index runs out.) *)
Theorem reachable_storage st : reach st ->
  (forall i, is_Some (LiabilityOf st !! i) <-> 0 <= i < latest_index st) /\
  (forall i b, LiabilityOf st !! i = Some b ->
     exists l, b = encode l /\ decode b = Some l) /\
  (forall i, is_finalized st i = true -> 0 <= i < latest_index st) /\
  (forall i, is_Some (ReportOf st !! i) <-> is_finalized st i = true).
Proof using Type*.
  intros Hr. pose proof (reachable_ok _ Hr) as Hok. split; [apply (so_dom _ Hok)|].
  split; [|split; [|apply (so_report _ Hok)]].
  - intros i b Hb. destruct (so_stored _ Hok _ _ Hb) as (l & -> & Henc).
    exists l. by rewrite (decode_encode _ Henc).
  - intros i Hi. unfold is_finalized, storage_get in Hi.
    destruct (IsFinalized st !! i) eqn:Hb; [by apply (so_flag _ Hok) in Hb as []|done].
Qed.

(** C7: the event log of every reachable storage is faithful: the created
    liabilities are announced once each, in the order of their indices; a
    liability is reported at most once, and exactly when it is finalized. *)
Theorem reachable_log st : reach st ->
  omap created_index (events st) = seqZ 0 (latest_index st) /\
  NoDup (omap reported_index (events st)) /\
  (forall i, i ∈ omap reported_index (events st) <-> is_finalized st i = true).
Proof using Type*.
  intros Hr. pose proof (reachable_ok _ Hr) as Hok.
  split; [apply (so_created _ Hok)|]. split; [apply (so_once _ Hok)|apply (so_reported _ Hok)].
Qed.

(** C4: nothing is announced or reported without the parties' signatures.  An
    announced liability is stored under its index, and signatures of its terms
    were verified for both its parties; a published report is stored, and a
    signature of the index and the report was verified for the promisor of the
    liability of that index. *)
Theorem reachable_authentic st (i : Z) : reach st ->
  (forall t e (pe po : AccountId), NewLiability i t e pe po ∈ events st ->
     (decode (liability_of st i) : option liability) = Some (signed_new t e pe po) /\
     (exists sig : Sig, verify sig (encode (t, e)) pe = true) /\
     (exists sig : Sig, verify sig (encode (t, e)) po = true)) /\
  (forall r, NewReport i r ∈ events st ->
     report_of st i = encode r /\
     exists l, decode (liability_of st i) = Some l /\
       exists sig : Sig, verify sig (encode (i, r)) (promisor l) = true).
Proof using Type*.
  intros Hr. pose proof (reachable_ok _ Hr) as Hok.
  assert (Hread : forall l, LiabilityOf st !! i = Some (encode l) -> encodable l ->
    decode (liability_of st i) = Some l).
  { intros l Hl Henc. unfold liability_of, storage_get. rewrite Hl.
    by apply decode_encode. }
  pose proof (so_events _ Hok) as Hev. rewrite Forall_forall in Hev. split.
  - intros t e pe po Hin%Hev. destruct Hin as ([Hl Henc] & Hs). split; [by apply Hread|done].
  - intros r Hin%Hev. destruct Hin as (Hrep & l & [Hl Henc] & Hs).
    unfold report_of, storage_get. rewrite Hrep. split; [done|]. by eauto.
Qed.
End reachable_facts.
