(* ===== verification/Escrow.v ===== *)
(** * Escrow: agreements of an open market

    With [OpenMarket] the price of an agreement is reserved on the promisee when
    it starts and paid out of that reserve when it finishes.  One reserve serves
    all the agreements of an account, so that it covers each of them is a
    property of every reachable storage. *)
From stdpp Require Import prelude gmap strings list list_numbers.
From Stdlib Require Import ZArith Lia.
From S2P Require Import Prelude Frame Codec Currency Agreement Liability.
From S2P Require Import LiabilityFacts SignedPallet.
Local Open Scope Z_scope.

Section escrow.
Context {Origin AccountId W Sig : Type} {T : Technical}.
Context `{!FrameSystem Origin AccountId, !Verify Sig AccountId, !EqDecision AccountId}.
Context `{!Codec (technical_parameter T), !Codec (economical_parameter OpenMarket),
  !Codec (technical_report T), !Codec AccountId, !Codec Z}.
Context `{!CodecLaws (technical_parameter T), !CodecLaws (economical_parameter OpenMarket),
  !CodecLaws AccountId}.
Context `{!ReservableCurrency W AccountId, !CurrencyLaws W AccountId}.
Context (pallet_index : Z).

Abbreviation liability := (SignedLiability T OpenMarket AccountId).
Abbreviation st_t := (@State AccountId W Z T OpenMarket _ _).
Abbreviation call_t := (@Call AccountId Z Sig T OpenMarket).
Abbreviation ok := (storage_ok (Sig := Sig)).
Abbreviation dispatch' := (dispatch (Self := liability) pallet_index).
Abbreviation finalize' := (finalize (Self := liability) (AccountId := AccountId) pallet_index).
Implicit Types (st : st_t) (c : call_t) (l : liability) (o : Origin) (a : AccountId).

(** The rest of the runtime does what it wants with the free balances and may
    reserve more, but releases no reserve it did not make. *)
Definition reserves_kept (w w' : W) : Prop := forall a, reserved_of w a <= reserved_of w' a.

Abbreviation reach :=
  (reachable (Origin := Origin) (Sig := Sig) pallet_index reserves_kept : st_t -> Prop).

Hypothesis decode_empty : (decode [] : option liability) = None.
(** A price is an unsigned integer. *)
Hypothesis price_nonneg : forall e : economical_parameter OpenMarket, encodable e -> 0 <= e.

(** What agreement [i] still needs from the reserve of [a], and what all of
    them need. *)
Definition open_price st a (i : Z) : Z :=
  match (decode (liability_of st i) : option liability) with
  | Some l => if is_finalized st i then 0 else if decide (promisee l = a) then economics l else 0
  | None => 0
  end.

Definition escrow st a : Z := sumZ (open_price st a <$> seqZ 0 (latest_index st)).

Lemma open_price_nonneg st a i : ok st -> 0 <= open_price st a i.
Proof using Type*.
  intros Hok. unfold open_price.
  destruct (decode (liability_of st i) : option liability) as [l|] eqn:Hd; [|lia].
  destruct (is_finalized st i); [lia|]. case_decide; [|lia].
  pose proof (decoded_in_range (Sig := Sig) decode_empty _ _ _ Hok Hd) as Hi.
  destruct (stored_decodes (Sig := Sig) _ _ _ Hok Hd Hi) as [_ (_ & He & _)].
  by apply price_nonneg.
Qed.

Lemma escrow_create t (e : economical_parameter OpenMarket) (pe po : AccountId) (w : W) st a :
  ok st -> latest_index st < u64_max -> encodable (t, e, pe, po) ->
  escrow (after_create (signed_new t e pe po : liability) t e pe po w st) a =
    escrow st a + (if decide (a = pe) then e else 0).
Proof using Type*.
  intros Hok Hmax Henc. pose proof (so_index _ Hok) as Hidx.
  assert (Hnext : index_next (latest_index st) = latest_index st + 1).
  { unfold in_width, u64_max in *. apply wrap_small. unfold in_width. lia. }
  set (st' := after_create _ _ _ _ _ _ _).
  assert (Hl' : latest_index st' = latest_index st + 1) by exact Hnext.
  unfold escrow. rewrite Hl'. unfold in_width in Hidx.
  rewrite seqZ_app, fmap_app, sumZ_app by lia. f_equal.
  - apply sumZ_ext. intros i Hi%elem_of_seqZ. unfold open_price.
    change (is_finalized st' i) with (is_finalized st i).
    replace (liability_of st' i) with (liability_of st i); [done|].
    symmetry. apply storage_get_insert_ne. lia.
  - transitivity (open_price st' a (latest_index st) + 0); [done|].
    rewrite Z.add_0_r. unfold open_price.
    replace (liability_of st' (latest_index st))
      with (encode (signed_new t e pe po : liability)); [|symmetry; apply storage_get_insert_eq].
    rewrite decode_encode by (by apply signed_new_encodable).
    assert (is_finalized st' (latest_index st) = false) as ->.
    { change (is_finalized st (latest_index st) = false). unfold is_finalized, storage_get.
      destruct (IsFinalized st !! latest_index st) eqn:Hf; [|done].
      apply (so_flag _ Hok) in Hf as [_ ?]. lia. }
    cbn. repeat case_decide; simplify_eq; lia.
Qed.

Lemma escrow_finalize i r l (w : W) st a :
  ok st -> is_finalized st i = false -> decode (liability_of st i) = Some l ->
  escrow (after_finalize i r w st) a =
    escrow st a - (if decide (a = promisee l) then economics l else 0).
Proof using Type*.
  intros Hok Hopen Hd.
  pose proof (decoded_in_range (Sig := Sig) decode_empty _ _ _ Hok Hd) as Hi.
  set (st' := after_finalize i r w st). unfold escrow.
  change (latest_index st') with (latest_index st).
  rewrite (sumZ_update (open_price st a) (open_price st' a) _ i).
  - unfold open_price at 2 3. change (liability_of st' i) with (liability_of st i).
    rewrite Hd, Hopen. assert (is_finalized st' i = true) as -> by apply storage_get_insert_eq.
    repeat case_decide; simplify_eq; lia.
  - apply NoDup_seqZ.
  - apply elem_of_seqZ. lia.
  - intros j Hj. unfold open_price. change (liability_of st' j) with (liability_of st j).
    assert (is_finalized st' j = is_finalized st j) as -> by (by apply storage_get_insert_ne).
    done.
Qed.

Lemma escrow_price i l st :
  ok st -> is_finalized st i = false -> decode (liability_of st i) = Some l ->
  0 <= economics l <= escrow st (promisee l).
Proof using Type*.
  intros Hok Hopen Hd.
  pose proof (decoded_in_range (Sig := Sig) decode_empty _ _ _ Hok Hd) as Hi.
  assert (Hp : open_price st (promisee l) i = economics l).
  { unfold open_price. by rewrite Hd, Hopen, decide_True by done. }
  split; [rewrite <- Hp; by apply open_price_nonneg|].
  rewrite <- Hp. apply sumZ_ge; [intros; by apply open_price_nonneg|].
  apply elem_of_seqZ. lia.
Qed.

Lemma reach_ok st : reach st -> ok st.
Proof using decode_empty CodecLaws0 CodecLaws1 CodecLaws2.
  apply reachable_ok. exact decode_empty.
Qed.

Lemma escrow_dispatch o c st :
  ok st -> call_ok st c -> (forall a, escrow st a <= reserved_of (world st) a) ->
  forall a, escrow (dispatch' o c st).2 a <= reserved_of (world (dispatch' o c st).2) a.
Proof using Type*.
  intros Hok Hc Hres a. destruct (dispatch' o c st) as [[[]|err] st'] eqn:Hs; cbn [snd].
  2: { apply (dispatch_err_same (Self := liability)) in Hs as ->; [|apply _]. apply Hres. }
  destruct c as [t e pe po p q|i r p]; cbn [dispatch call_ok] in *.
  - destruct Hc as [Henc Hmax]. apply create_ok_inv in Hs as (_ & _ & _ & w & Hw & ->).
    cbn [new signed_agreement]. rewrite escrow_create by done.
    assert (He : 0 <= e) by (apply price_nonneg; by destruct Henc as [[[??]?]?]).
    destruct (market_on_start_ok (signed_new t e pe po) _ _ He Hw) as [Hm _].
    change (world (after_create (signed_new t e pe po) t e pe po w st)) with w.
    rewrite (proj1 (Hm a)). specialize (Hres a).
    cbn [promisee economics signed_new]. case_decide; lia.
  - apply finalize_ok_inv in Hs as (_ & Hopen & l & w & Hd & _ & Hw & ->).
    rewrite (escrow_finalize i r l w st a) by done.
    destruct (escrow_price i l st Hok Hopen Hd) as [Hl Hle].
    pose proof (market_on_finish_ok l _ _ Hl Hw) as Hm.
    pose proof (Hres (promisee l)) as Hpe. rewrite Z.min_l in Hm by lia.
    change (world (after_finalize i r w st)) with w.
    rewrite (proj1 (Hm a)). specialize (Hres a). case_decide; lia.
Qed.

Lemma escrow_covered st : reach st -> forall a, escrow st a <= reserved_of (world st) a.
Proof using Type*.
  induction 1 as [w|st o c Hr IH Hc|st w Hr IH Hw].
  - intros a. apply reserved_nonneg.
  - apply escrow_dispatch; [by apply reach_ok|done|done].
  - intros a. specialize (IH a). specialize (Hw a).
    change (escrow st a <= reserved_of w a). lia.
Qed.

(** C8: the promised price is always there.  In every reachable storage the
    reserve of each account covers the prices of all its open agreements
    together, and a report that is accepted pays its promisor the whole price
    from the promisee's reserve, nobody else's balances changing; provided the
    rest of the runtime takes nothing out of the reserves ([reserves_kept]). *)
Theorem open_market_pays_in_full st : reach st ->
  (forall a, escrow st a <= reserved_of (world st) a) /\
  (forall o i r (p : Sig) st', finalize' o i r p st = (Ok tt, st') ->
     exists l, decode (liability_of st i) = Some l /\
       moved (world st) (world st') (promisee l) (promisor l) (economics l)).
Proof using Type*.
  intros Hr. pose proof (reach_ok _ Hr) as Hok. pose proof (escrow_covered _ Hr) as Hres.
  split; [done|]. intros o i r p st' Hs.
  apply finalize_ok_inv in Hs as (_ & Hopen & l & w & Hd & _ & Hw & ->).
  exists l. split; [done|]. destruct (escrow_price i l st Hok Hopen Hd) as [Hl Hle].
  pose proof (market_on_finish_ok l _ _ Hl Hw) as Hm. specialize (Hres (promisee l)).
  by rewrite Z.min_l in Hm by lia.
Qed.
End escrow.
