(* ===== verification/LiabilityLife.v ===== *)
(** * The life of a liability

    From its creation to its report: what a dispatch can change of the past,
    the whole life cycle of one agreement, what the pool's tags identify, what
    can be replayed, and what happens when the index wraps around. *)
From stdpp Require Import prelude gmap strings list list_numbers.
From Stdlib Require Import ZArith Lia.
From S2P Require Import Prelude Frame Codec Currency Agreement Liability.
From S2P Require Import LiabilityFacts SignedPallet.
Local Open Scope Z_scope.

Section life.
Context {Origin AccountId W Sig : Type} {T : Technical} {E : Economical}.
Context `{!FrameSystem Origin AccountId, !Verify Sig AccountId}.
Context `{!Codec (technical_parameter T), !Codec (economical_parameter E),
  !Codec (technical_report T), !Codec AccountId, !Codec Z}.
Context `{!CodecLaws (technical_parameter T), !CodecLaws (economical_parameter E),
  !CodecLaws AccountId}.
Context `{!Processing W (SignedLiability T E AccountId)}.
Context (pallet_index : Z).

Abbreviation liability := (SignedLiability T E AccountId).
Abbreviation st_t := (@State AccountId W Z T E _ _).
Abbreviation call_t := (@Call AccountId Z Sig T E).
Abbreviation create' := (create (Self := liability) pallet_index).
Abbreviation finalize' := (finalize (Self := liability) (AccountId := AccountId) pallet_index).
Abbreviation dispatch' := (dispatch (Self := liability) pallet_index).
Implicit Types (st : st_t) (c : call_t) (l : liability) (o : Origin).

(** C11: history is immutable.  No dispatch, accepted or refused, changes the
    terms of an existing liability, takes back a finalized flag, changes a
    published report, or removes an event. *)
Theorem history_immutable st o c i :
  0 <= i < latest_index st ->
  let st' := (dispatch' o c st).2 in
  liability_of st' i = liability_of st i /\
  (is_finalized st i = true -> is_finalized st' i = true /\ report_of st' i = report_of st i) /\
  exists evs, events st' = events st ++ evs.
Proof.
  intros Hi. cbn zeta.
  assert (Hsame : forall st', (st' = st \/ exists w, st' = set_world w st) ->
    liability_of st' i = liability_of st i /\
    (is_finalized st i = true -> is_finalized st' i = true /\
       report_of st' i = report_of st i) /\
    exists evs, events st' = events st ++ evs).
  { intros st' [->|[w ->]]; (split; [done|split; [done|exists []; by rewrite app_nil_r]]). }
  destruct c as [t e pe po p q|j r p]; cbn [dispatch].
  - pose proof (create_cases (Self := liability) pallet_index o t e pe po p q st) as H.
    destruct (create _ _ _ _ _ _ _ _ st) as [res st'].
    destruct H as [(_ & w & _ & ->)|(? & _ & [->|(w & _ & ->)])]; cbn [snd];
      [|by apply Hsame; eauto..].
    unfold after_create, liability_of; cbn.
    split; [apply storage_get_insert_ne; lia|].
    split; [done|by eauto].
  - pose proof (finalize_cases (Self := liability) pallet_index o j r p st) as H.
    destruct (finalize _ _ _ _ _ st) as [res st'].
    destruct H as [(_ & Hopen & l & w & _ & _ & _ & ->)|(? & _ & [->|(? & w & _ & ->)])];
      cbn [snd]; [|by apply Hsame; eauto..].
    unfold after_finalize. split; [done|]. split; [|by eauto].
    intros Hfin. unfold is_finalized, report_of in *; cbn.
    by rewrite !storage_get_insert_ne by congruence.
Qed.

(** C1: the whole life of one agreement, for every terms, key pairs and report
    (the scenario of the test [test_liability_lifecycle]): with the proofs made
    by the two parties' keys the liability is created under the next index;
    only a proof that verifies for the promisor can report on it; the
    promisor's report is accepted and stored; and no report is accepted after
    it, whoever signs it. *)
Theorem lifecycle {TPair} `{!Pair TPair Sig AccountId, !PairLaws TPair Sig AccountId}
    `{!FrameSystemLaws Origin AccountId}
    (ke ko : TPair) t e r st (w1 w2 : W) :
  let pe := pair_account ke in
  let po := pair_account ko in
  let l : liability := signed_new t e pe po in
  let i := latest_index st in
  encodable (t, e, pe, po) -> is_finalized st i = false ->
  on_start l (world st) = (Ok tt, w1) -> on_finish l true w1 = (Ok tt, w2) ->
  exists st1 st2,
    create' (none : Origin) t e pe po (ProofSigner_proof_params (E := E) t e ke : Sig)
      (ProofSigner_proof_params (E := E) t e ko) st = (Ok tt, st1) /\
    latest_index st1 = index_next i /\
    (forall bad : Sig, verify bad (encode (i, r)) po = false ->
       finalize' (none : Origin) i r bad st1 = (Err (pallet_error pallet_index BadReportProof), st1)) /\
    finalize' (none : Origin) i r (ProofSigner_proof_report i r ko : Sig) st1 = (Ok tt, st2) /\
    is_finalized st2 i = true /\ report_of st2 i = encode r /\
    (forall r' (proof : Sig), finalize' (none : Origin) i r' proof st2 =
       (Err (Other "already finalized"), st2)).
Proof.
  cbn zeta. intros Henc Hopen Hstart Hfin.
  set (pe := pair_account ke) in *. set (po := pair_account ko) in *.
  set (l := signed_new t e pe po) in *. set (i := latest_index st) in *.
  set (st1 := after_create l t e pe po w1 st).
  assert (Hl : decode (liability_of st1 i) = Some l).
  { unfold liability_of, st1, after_create; cbn [LiabilityOf].
    rewrite storage_get_insert_eq. by apply decode_encode, signed_new_encodable. }
  assert (Hopen1 : is_finalized st1 i = false) by exact Hopen.
  assert (Hpe : signed_check_params l
    (ProofSigner_proof_params (E := E) t e ke : Sig) pe = true) by exact (verify_pair_sign ke _).
  assert (Hpo : signed_check_params l
    (ProofSigner_proof_params (E := E) t e ko : Sig) po = true) by exact (verify_pair_sign ko _).
  exists st1, (after_finalize i r w2 st1).
  split; [|split; [done|split; [|split; [|split; [|split]]]]].
  - rewrite create_eq, ensure_none_none.
    cbn [check_params new signed_agreement]. fold l. rewrite Hpe, Hpo. cbn [negb].
    by rewrite Hstart.
  - intros bad Hbad. rewrite finalize_eq, ensure_none_none, Hopen1, Hl.
    cbn [check_report signed_agreement]. unfold signed_check_report.
    change (promisor l) with po. by rewrite Hbad.
  - rewrite finalize_eq, ensure_none_none, Hopen1, Hl.
    cbn [check_report signed_agreement]. unfold signed_check_report, ProofSigner_proof_report.
    change (promisor l) with (pair_account ko). rewrite verify_pair_sign. cbn [negb].
    change (world st1) with w1. by rewrite Hfin.
  - apply storage_get_insert_eq.
  - apply storage_get_insert_eq.
  - intros r' proof. rewrite finalize_eq, ensure_none_none.
    unfold is_finalized at 1, after_finalize at 1; cbn [IsFinalized].
    by rewrite storage_get_insert_eq.
Qed.

(** The tag a valid [create] provides to the pool identifies its terms and
    its parties: two valid calls provide the same tag exactly when they agree
    on all four, whatever proofs they carry and whatever storage they were
    validated against. *)
Lemma create_tag_identifies st st' t e pe po t' e' pe' po' (p q p' q' : Sig) v v' :
  encodable (t, e, pe, po) -> encodable (t', e', pe', po') ->
  validate_unsigned (Self := liability) st (call_create t e pe po p q) = Ok v ->
  validate_unsigned (Self := liability) st' (call_create t' e' pe' po' p' q') = Ok v' ->
  provides v = provides v' <-> t = t' /\ e = e' /\ pe = pe' /\ po = po'.
Proof.
  intros Henc Henc'. cbn [validate_unsigned].
  repeat (destruct (negb _); [done|]). intros [= <-] [= <-]. cbn [provides].
  split; [|by intros (-> & -> & -> & ->)].
  intros [= Heq]. pose proof (encode_inj _ _ Henc Henc' Heq). by simplify_eq.
Qed.

(** The [u64] index wraps around.  A [create] accepted at the last index
    moves [latest_index] to zero, and the next accepted one overwrites the
    liability of index zero, while the flag and the report of the liability it
    replaces stay. *)
Lemma index_wraps o o' t e pe po (p q : Sig) t' e' pe' po' (p' q' : Sig) st st1 st2 :
  latest_index st = u64_max ->
  create' o t e pe po p q st = (Ok tt, st1) ->
  create' o' t' e' pe' po' p' q' st1 = (Ok tt, st2) ->
  latest_index st1 = 0 /\ latest_index st2 = 1 /\
  liability_of st2 0 = encode (signed_new t' e' pe' po' : liability) /\
  is_finalized st2 0 = is_finalized st 0 /\ report_of st2 0 = report_of st 0.
Proof.
  intros Hmax H1 H2.
  apply create_ok_inv in H1 as (_ & _ & _ & w1 & _ & ->).
  apply create_ok_inv in H2 as (_ & _ & _ & w2 & _ & ->).
  cbn [new signed_agreement].
  set (st1 := after_create (signed_new t e pe po) t e pe po w1 st).
  assert (Hidx : latest_index st1 = 0).
  { unfold st1, after_create; cbn. by rewrite Hmax. }
  split; [done|]. unfold after_create at 1 2 3 4; cbn [latest_index LatestIndex].
  unfold latest_index in Hidx |- *; cbn [LatestIndex]. rewrite Hidx.
  split; [done|]. split; [|done].
  unfold liability_of; cbn [LiabilityOf]. apply storage_get_insert_eq.
Qed.
End life.

(** ** Replays

    With [Communism], the economics of the runtimes that have the pallet, nothing stops an
    agreement once signed from being created again. *)
Section replay.
Context {Origin AccountId W Sig : Type} {T : Technical}.
Context `{!FrameSystem Origin AccountId, !Verify Sig AccountId}.
Context `{!Codec (technical_parameter T), !Codec (economical_parameter Communism),
  !Codec (technical_report T), !Codec AccountId, !Codec Z}.
Context (pallet_index : Z).

Abbreviation liability := (SignedLiability T Communism AccountId).
Abbreviation st_t := (@State AccountId W Z T Communism _ _).
Abbreviation create' := (create (Self := liability) pallet_index).
Implicit Types (st : st_t) (o : Origin).

(** C25: a [create] that was accepted once is accepted again, with the same
    arguments, in every other storage, and it stores the same liability under
    a new index.  The two proofs also serve with the two parties in each
    other's place, and the promisee's alone for an agreement of the promisee
    with itself: a proof names the terms, not the parties. *)
Theorem communism_replay o t e pe po (p q : Sig) st st' :
  create' o t e pe po p q st = (Ok tt, st') ->
  forall st2, exists st3,
    create' o t e pe po p q st2 = (Ok tt, st3) /\
    latest_index st3 = index_next (latest_index st2) /\
    liability_of st3 (latest_index st2) = liability_of st' (latest_index st) /\
    (exists st4, create' o t e po pe q p st2 = (Ok tt, st4)) /\
    (exists st5, create' o t e pe pe p p st2 = (Ok tt, st5)).
Proof.
  intros H st2. apply create_ok_inv in H as (Ho & Hp & Hq & w & _ & ->).
  cbn [check_params new signed_agreement] in Hp, Hq.
  unfold signed_check_params in Hp, Hq; cbn [technics economics signed_new] in Hp, Hq.
  assert (Haccept : forall a b (s s' : Sig),
    verify s (encode (t, e)) a = true -> verify s' (encode (t, e)) b = true ->
    create' o t e a b s s' st2 =
      (Ok tt, after_create (signed_new t e a b : liability) t e a b (world st2) st2)).
  { intros a b s s' Hs Hs'. rewrite create_eq, Ho.
    cbn [check_params new signed_agreement]. unfold signed_check_params;
      cbn [technics economics signed_new]. by rewrite Hs, Hs'. }
  eexists. split; [by apply Haccept|]. split; [done|].
  split; [|split; eexists; by apply Haccept].
  unfold liability_of, after_create; cbn [LiabilityOf]. by rewrite !storage_get_insert_eq.
Qed.
End replay.
