(* ===== verification/AgreementSpec.v ===== *)
(** * What the liability pallet promises

    The abstract specification of the pallet: a book of agreements, each with its
    terms, its parties and, once delivered, its report.  An agreement is added
    when both parties signed its terms and delivered once, on the signature of
    the promisor; nothing else happens.  The pallet over signed agreements is
    proved to implement the book: each dispatch is a step of the book or leaves
    it as it was, and is accepted exactly when the book allows it and the
    economics agree. *)
From stdpp Require Import prelude gmap strings list list_numbers.
From Stdlib Require Import ZArith Lia.
From S2P Require Import Prelude Frame Codec Currency Agreement Liability.
From S2P Require Import LiabilityFacts SignedPallet.
Local Open Scope Z_scope.

Section book.
Context {AccountId Sig : Type} {T : Technical} {E : Economical}.
Context `{!Verify Sig AccountId}.
Context `{!Codec (technical_parameter T), !Codec (economical_parameter E),
  !Codec (technical_report T), !Codec Z}.

(** An agreement of the book. *)
Record Deal : Type := mkDeal {
  deal_terms : technical_parameter T;
  deal_price : economical_parameter E;
  deal_promisee : AccountId;
  deal_promisor : AccountId;
  delivered : option (technical_report T);
}.

Definition deliver (r : technical_report T) (d : Deal) : Deal :=
  mkDeal (deal_terms d) (deal_price d) (deal_promisee d) (deal_promisor d) (Some r).

Abbreviation call_t := (@Call AccountId Z Sig T E).

(** What the book allows. *)
Definition allowed (ds : list Deal) (c : call_t) : Prop :=
  match c with
  | call_create t e pe po p q =>
      verify p (encode (t, e)) pe = true /\ verify q (encode (t, e)) po = true
  | call_finalize i r p =>
      0 <= i /\ exists d, ds !! Z.to_nat i = Some d /\ delivered d = None /\
        verify p (encode (i, r)) (deal_promisor d) = true
  end.

(** What becomes of it. *)
Definition enter (c : call_t) (ds : list Deal) : list Deal :=
  match c with
  | call_create t e pe po _ _ => ds ++ [mkDeal t e pe po None]
  | call_finalize i r _ => alter (deliver r) (Z.to_nat i) ds
  end.

Inductive book_step : list Deal -> list Deal -> Prop :=
| step_enter ds c : allowed ds c -> book_step ds (enter c ds)
| step_idle ds : book_step ds ds.

(** A delivered agreement stays as it is, and none disappears. *)
Definition extends (ds ds' : list Deal) : Prop :=
  forall i d, ds !! i = Some d -> exists d', ds' !! i = Some d' /\
    deal_terms d' = deal_terms d /\ deal_price d' = deal_price d /\
    deal_promisee d' = deal_promisee d /\ deal_promisor d' = deal_promisor d /\
    (forall r, delivered d = Some r -> delivered d' = Some r).

#[export] Instance extends_preorder : PreOrder extends.
Proof.
  split.
  - intros ds i d Hd. by eauto 10.
  - intros ds ds' ds'' H1 H2 i d Hd.
    destruct (H1 i d Hd) as (d' & Hd' & ? & ? & ? & ? & Hr).
    destruct (H2 i d' Hd') as (d'' & Hd'' & ? & ? & ? & ? & Hr').
    exists d''. repeat split; try congruence. auto.
Qed.

Lemma book_step_extends ds ds' : book_step ds ds' -> extends ds ds'.
Proof.
  intros [ds0 [t e pe po p q|i r p] Hc|ds0] j d Hd; [| |by eauto 10]; cbn [enter].
  - exists d. rewrite lookup_app_l by (by eapply lookup_lt_Some). by eauto 10.
  - destruct Hc as (Hi & d0 & Hd0 & Hopen & _).
    destruct (decide (j = Z.to_nat i)) as [->|Hne].
    + rewrite list_lookup_alter_eq, Hd. eexists. split; [done|]. simplify_eq. cbn.
      repeat split; try done. intros r0. by rewrite Hopen.
    + rewrite list_lookup_alter_ne by done. by eauto 10.
Qed.
End book.

(** ** The pallet implements the book *)

Section refinement.
Context {Origin AccountId W Sig : Type} {T : Technical} {E : Economical}.
Context `{!FrameSystem Origin AccountId, !FrameSystemLaws Origin AccountId, !Verify Sig AccountId}.
Context `{!Codec (technical_parameter T), !Codec (economical_parameter E),
  !Codec (technical_report T), !Codec AccountId, !Codec Z}.
Context `{!CodecLaws (technical_parameter T), !CodecLaws (economical_parameter E),
  !CodecLaws AccountId}.
Context `{!Processing W (SignedLiability T E AccountId)}.
Context (pallet_index : Z) (world_step : W -> W -> Prop).

Abbreviation liability := (SignedLiability T E AccountId).
Abbreviation st_t := (@State AccountId W Z T E _ _).
Abbreviation call_t := (@Call AccountId Z Sig T E).
Abbreviation deal_t := (@Deal AccountId T E).
Abbreviation dispatch' := (dispatch (Self := liability) pallet_index).
Abbreviation reach :=
  (reachable (Origin := Origin) (Sig := Sig) pallet_index world_step : st_t -> Prop).
Abbreviation steps := (rtc (book_step (Sig := Sig)) : list deal_t -> list deal_t -> Prop).
Implicit Types (st : st_t) (c : call_t) (ds : list deal_t) (o : Origin).

Hypothesis decode_empty : (decode [] : option liability) = None.

Definition deal_liability (d : deal_t) : liability :=
  mkSignedLiability (deal_terms d) (deal_price d) (deal_promisee d) (deal_promisor d).

(** The storage of a pallet that keeps the book [ds]. *)
Record implements st ds : Prop := {
  im_index : latest_index st = Z.of_nat (length ds);
  im_deal i d : ds !! i = Some d ->
    LiabilityOf st !! Z.of_nat i = Some (encode (deal_liability d)) /\
    encodable (deal_liability d) /\
    ReportOf st !! Z.of_nat i = encode <$> delivered d;
}.

(** What the economics say of a call the book allows. *)
Definition economics_agree st c : Prop :=
  match c with
  | call_create t e pe po _ _ =>
      (on_start (signed_new t e pe po : liability) (world st)).1 = Ok tt
  | call_finalize i _ _ =>
      exists l : liability, decode (liability_of st i) = Some l /\
        (on_finish l true (world st)).1 = Ok tt
  end.

Lemma implements_set_world w st ds : implements st ds -> implements (set_world w st) ds.
Proof. by intros []. Qed.

Lemma implements_decode st ds i d :
  implements st ds -> ds !! i = Some d ->
  decode (liability_of st (Z.of_nat i)) = Some (deal_liability d).
Proof.
  intros Him Hd. destruct (im_deal _ _ Him _ _ Hd) as (Hl & Henc & _).
  unfold liability_of, storage_get. rewrite Hl. by apply decode_encode.
Qed.

(** An index that decodes is the index of an agreement of the book. *)
Lemma implements_lookup st ds i (l : liability) :
  storage_ok (Sig := Sig) st -> implements st ds -> decode (liability_of st i) = Some l ->
  0 <= i /\ exists d, ds !! Z.to_nat i = Some d /\ deal_liability d = l.
Proof using decode_empty CodecLaws0 CodecLaws1 CodecLaws2.
  intros Hok Him Hl.
  pose proof (decoded_in_range (Sig := Sig) decode_empty _ _ _ Hok Hl) as Hi.
  rewrite (im_index _ _ Him) in Hi. split; [lia|].
  destruct (lookup_lt_is_Some_2 ds (Z.to_nat i)) as [d Hd]; [lia|].
  exists d. split; [done|]. pose proof (implements_decode _ _ _ _ Him Hd) as Hd'.
  rewrite Z2Nat.id in Hd' by lia. congruence.
Qed.

(** The flags say which agreements are delivered. *)
Lemma implements_open st ds i d :
  storage_ok (Sig := Sig) st -> implements st ds -> ds !! i = Some d ->
  is_finalized st (Z.of_nat i) = false <-> delivered d = None.
Proof.
  intros Hok Him Hd. destruct (im_deal _ _ Him _ _ Hd) as (_ & _ & Hr).
  pose proof (so_report _ Hok (Z.of_nat i)) as Hs. rewrite Hr, fmap_is_Some in Hs.
  rewrite <- not_true_iff_false, <- Hs. symmetry. apply eq_None_not_Some.
Qed.

Lemma implements_create t e (pe po : AccountId) w st ds :
  storage_ok (Sig := Sig) st -> implements st ds -> latest_index st < u64_max ->
  encodable (t, e, pe, po) ->
  implements (after_create (signed_new t e pe po : liability) t e pe po w st)
    (ds ++ [mkDeal t e pe po None]).
Proof.
  intros Hok Him Hmax Henc. pose proof (im_index _ _ Him) as Hidx.
  assert (Hnext : index_next (latest_index st) = latest_index st + 1).
  { unfold u64_max in Hmax. apply wrap_small. unfold in_width. lia. }
  split.
  - change (index_next (latest_index st) = Z.of_nat (length (ds ++ [mkDeal t e pe po None]))).
    rewrite Hnext, Hidx, length_app; cbn. lia.
  - intros i d Hd. unfold after_create; cbn [LiabilityOf ReportOf].
    apply lookup_app_Some in Hd as [Hd|[Hlen Hd]].
    + rewrite lookup_insert_ne; [by apply (im_deal _ _ Him)|].
      apply lookup_lt_Some in Hd. lia.
    + apply list_lookup_singleton_Some in Hd as [Hz <-].
      assert (Z.of_nat i = latest_index st) as -> by lia.
      rewrite lookup_insert_eq. split; [done|]. split; [by apply signed_new_encodable|].
      apply eq_None_not_Some. rewrite (so_report _ Hok). unfold is_finalized, storage_get.
      destruct (IsFinalized st !! latest_index st) eqn:Hf; [|done].
      apply (so_flag _ Hok) in Hf as [_ Hf]. lia.
Qed.

Lemma implements_finalize i r w st ds :
  implements st ds -> 0 <= i ->
  implements (after_finalize i r w st) (alter (deliver r) (Z.to_nat i) ds).
Proof.
  intros Him Hi. split.
  - rewrite length_alter. apply (im_index _ _ Him).
  - intros j d Hd. unfold after_finalize; cbn [LiabilityOf ReportOf].
    destruct (decide (j = Z.to_nat i)) as [->|Hne].
    + rewrite list_lookup_alter_eq in Hd. apply fmap_Some in Hd as (d0 & Hd & ->).
      destruct (im_deal _ _ Him _ _ Hd) as (Hl & Henc & _).
      split; [exact Hl|]. split; [exact Henc|].
      rewrite Z2Nat.id by lia. apply lookup_insert_eq.
    + rewrite list_lookup_alter_ne in Hd by done.
      rewrite lookup_insert_ne by lia. by apply (im_deal _ _ Him).
Qed.

Lemma create_implements t e (pe po : AccountId) (p q : Sig) st ds res st' :
  storage_ok (Sig := Sig) st -> implements st ds ->
  encodable (t, e, pe, po) -> latest_index st < u64_max ->
  dispatch' (none : Origin) (call_create t e pe po p q) st = (res, st') ->
  let c := call_create t e pe po p q in
  (res = Ok tt <-> allowed ds c /\ economics_agree st c) /\
  (res = Ok tt -> implements st' (enter c ds)) /\ (res <> Ok tt -> implements st' ds).
Proof.
  intros Hok Him Henc Hmax. cbn [dispatch allowed economics_agree enter].
  rewrite create_eq, ensure_none_none. cbn [check_params new signed_agreement].
  unfold signed_check_params; cbn [technics economics signed_new].
  destruct (verify p _ _); cbn; [|intros [= <- <-]; split; [split; [done|naive_solver]|done]].
  destruct (verify q _ _); cbn; [|intros [= <- <-]; split; [split; [done|naive_solver]|done]].
  destruct (on_start _ _) as [[[]|err] w]; cbn; intros [= <- <-].
  - split; [done|]. split; [|done]. intros _. by apply implements_create.
  - split; [split; [done|naive_solver]|]. split; [done|].
    intros _. by apply implements_set_world.
Qed.

Lemma finalize_implements i r (p : Sig) st ds res st' :
  storage_ok (Sig := Sig) st -> implements st ds ->
  dispatch' (none : Origin) (call_finalize i r p) st = (res, st') ->
  let c := call_finalize i r p in
  (res = Ok tt <-> allowed ds c /\ economics_agree st c) /\
  (res = Ok tt -> implements st' (enter c ds)) /\ (res <> Ok tt -> implements st' ds).
Proof using Type*.
  intros Hok Him. cbn [dispatch allowed economics_agree enter].
  rewrite finalize_eq, ensure_none_none.
  destruct (is_finalized st i) eqn:Hopen.
  { intros [= <- <-]. split; [|done]. split; [done|]. intros [(Hi & d & Hd & Hn & _) _].
    apply (implements_open st ds (Z.to_nat i) d Hok Him Hd) in Hn.
    rewrite Z2Nat.id in Hn by lia. congruence. }
  destruct (decode (liability_of st i) : option liability) as [l|] eqn:Hl.
  2: { intros [= <- <-]. split; [|done]. split; [done|]. by intros [_ (l & ? & _)]. }
  destruct (implements_lookup st ds i l Hok Him Hl) as (Hi & d & Hd & <-).
  pose proof (implements_open st ds (Z.to_nat i) d Hok Him Hd) as Hn.
  rewrite Z2Nat.id, Hopen in Hn by lia.
  cbn [check_report signed_agreement]. unfold signed_check_report.
  change (promisor (deal_liability d)) with (deal_promisor d).
  destruct (verify p _ _) eqn:Hv; cbn [negb].
  2: { intros [= <- <-]. split; [|done]. split; [done|]. intros [(_ & d' & Hd' & _ & Hv') _].
       simplify_eq. congruence. }
  destruct (on_finish _ _ _) as [[[]|err] w] eqn:Hf; intros [= <- <-].
  - split; [split; [|done]|split; [|done]].
    + intros _. split; [split; [done|]; exists d; naive_solver|].
      exists (deal_liability d). by rewrite Hf.
    + intros _. by apply implements_finalize.
  - split; [split; [done|]|split; [done|intros _; by apply implements_set_world]].
    intros [_ (l & Hl' & Hok')]. simplify_eq. by rewrite Hf in Hok'.
Qed.
(** Only the origin's being unsigned matters. *)
Lemma dispatch_origin o c st :
  dispatch' o c st =
  match ensure_none o with Ok _ => dispatch' (none : Origin) c st | Err e => (Err e, st) end.
Proof.
  destruct c; cbn [dispatch]; rewrite ?create_eq, ?finalize_eq, ensure_none_none;
    by destruct (ensure_none o).
Qed.

Lemma dispatch_implements c st ds res st' :
  storage_ok (Sig := Sig) st -> implements st ds -> call_ok st c ->
  dispatch' (none : Origin) c st = (res, st') ->
  (res = Ok tt <-> allowed ds c /\ economics_agree st c) /\
  (res = Ok tt -> implements st' (enter c ds)) /\ (res <> Ok tt -> implements st' ds).
Proof using Type*.
  intros Hok Him. destruct c; [intros []; by apply create_implements|].
  intros _. by apply finalize_implements.
Qed.

(** The storage determines the book, reports up to their encoding. *)
Definition entry (d : deal_t) : liability * option bytes :=
  (deal_liability d, encode <$> delivered d).

Lemma implements_inj st ds ds' :
  implements st ds -> implements st ds' -> entry <$> ds = entry <$> ds'.
Proof.
  intros Him Him'. apply list_eq_same_length with (length ds).
  - rewrite length_fmap. pose proof (im_index _ _ Him). pose proof (im_index _ _ Him'). lia.
  - by rewrite length_fmap.
  - intros i x y _ Hx Hy.
    rewrite list_lookup_fmap in Hx, Hy. apply fmap_Some in Hx as (d & Hd & ->).
    apply fmap_Some in Hy as (d' & Hd' & ->).
    destruct (im_deal _ _ Him _ _ Hd) as (Hl & Henc & Hr).
    destruct (im_deal _ _ Him' _ _ Hd') as (Hl' & Henc' & Hr').
    unfold entry. f_equal; [|congruence].
    apply encode_inj; [done..|congruence].
Qed.

Lemma reachable_book st : reach st -> exists ds, steps [] ds /\ implements st ds.
Proof using Type*.
  induction 1 as [w|st o c Hr (ds & Hds & Him) Hc|st w Hr (ds & Hds & Him) Hw].
  - exists []. split; [done|]. split; [done|]. intros i d Hd. by rewrite lookup_nil in Hd.
  - pose proof (reachable_ok pallet_index world_step decode_empty _ Hr) as Hok.
    rewrite dispatch_origin. destruct (ensure_none o); [|by eauto].
    destruct (dispatch' (none : Origin) c st) as [res st'] eqn:Hs; cbn [snd].
    destruct (dispatch_implements _ _ _ _ _ Hok Him Hc Hs) as (Hiff & Hyes & Hno).
    destruct res as [[]|e].
    + exists (enter c ds). split; [|by apply Hyes].
      eapply rtc_r; [done|]. apply step_enter. by apply Hiff.
    + exists ds. split; [done|]. by apply Hno.
  - exists ds. split; [done|]. by apply implements_set_world.
Qed.

(** C2: the pallet implements the book of agreements.  Every reachable storage
    keeps a book the specification reaches, and no other; in such a storage an
    unsigned call is accepted exactly when the book allows it and the economics
    agree, the book then being what the call makes of it; otherwise, and for
    every call from a signed origin, the book stays as it is. *)
Theorem pallet_refines_book st :
  reach st ->
  exists ds, steps [] ds /\ implements st ds /\
    (forall ds', implements st ds' -> entry <$> ds' = entry <$> ds) /\
    (forall c res st', call_ok st c -> dispatch' (none : Origin) c st = (res, st') ->
       (res = Ok tt <-> allowed ds c /\ economics_agree st c) /\
       implements st' (if is_ok res then enter c ds else ds)) /\
    (forall a c, dispatch' (signed a : Origin) c st = (Err BadOrigin, st)).
Proof using Type*.
  intros Hr. destruct (reachable_book _ Hr) as (ds & Hds & Him).
  pose proof (reachable_ok pallet_index world_step decode_empty _ Hr) as Hok.
  exists ds. split; [done|]. split; [done|]. split; [|split].
  - intros ds' Him'. by apply (implements_inj st).
  - intros c res st' Hc Hs.
    destruct (dispatch_implements _ _ _ _ _ Hok Him Hc Hs) as (Hiff & Hyes & Hno).
    split; [done|]. destruct res as [[]|e]; auto.
  - intros a c. by rewrite dispatch_origin, ensure_none_signed.
Qed.
End refinement.
