(* ===== verification/Datalog.v ===== *)
(** * The datalog pallet

    [robonomics/frame/datalog/src/lib.rs]: an append-only log per account, that
    its owner can erase.  The storage is proved to refine the log of the
    pallet's events. *)
From stdpp Require Import prelude gmap strings list.
From Stdlib Require Import ZArith Lia Sorted.
From S2P Require Import Prelude Frame Codec.
Local Open Scope Z_scope.

Module Datalog.
Section pallet.
(** [trait Trait]: [Moment] is the moment of the [Time] source, whose current
    value ([T::Time::now()]) is the [clock] of the state: the timestamp
    pallet sets it, this pallet reads it. *)
Context {Origin AccountId Moment Record : Type}.
Context `{!FrameSystem Origin AccountId, !EqDecision AccountId, !Countable AccountId}.

(** [decl_event!]. *)
Inductive Event : Type :=
| NewRecord (sender : AccountId) (now : Moment) (record : Record)
| Erased (sender : AccountId).

(** [decl_storage!], with the events deposited so far. *)
Record State : Type := mkState {
  Datalog : gmap AccountId (list (Moment * Record));
  clock : Moment;
  events : list Event;
}.

Definition datalog (st : State) (a : AccountId) : list (Moment * Record) :=
  storage_get [] (Datalog st) a.

Definition set_datalog (m : gmap AccountId (list (Moment * Record))) (st : State) : State :=
  mkState m (clock st) (events st).
Definition set_clock (t : Moment) (st : State) : State :=
  mkState (Datalog st) t (events st).
Definition deposit_event (e : Event) : SE State DispatchError unit :=
  se_modify (fun st => mkState (Datalog st) (clock st) (events st ++ [e])).

Definition genesis (t : Moment) : State := mkState ∅ t [].

(** [record]. *)
Definition record (origin : Origin) (r : Record) : SE State DispatchError unit :=
  sender ← se_lift (ensure_signed origin);
  now ← se_gets clock;
  _ ← se_modify (fun st =>
        set_datalog (storage_mutate [] sender (fun m => m ++ [(now, r)]) (Datalog st)) st);
  deposit_event (NewRecord sender now r).

(** [erase]. *)
Definition erase (origin : Origin) : SE State DispatchError unit :=
  sender ← se_lift (ensure_signed origin);
  _ ← se_modify (fun st => set_datalog (delete sender (Datalog st)) st);
  deposit_event (Erased sender).

(** [enum Call], its dispatch and the weights of the calls. *)
Inductive Call : Type :=
| call_record (r : Record)
| call_erase.

Definition dispatch (origin : Origin) (c : Call) : SE State DispatchError unit :=
  match c with
  | call_record r => record origin r
  | call_erase => erase origin
  end.

Definition weight (c : Call) : Z :=
  match c with call_record _ => 5000000 | call_erase => 100000 end.

(** The states after any dispatches, from any origins, and any settings of the
    clock that [tick] allows. *)
Inductive reachable (tick : Moment -> Moment -> Prop) : State -> Prop :=
| reach_genesis t : reachable tick (genesis t)
| reach_dispatch st (o : Origin) c : reachable tick st -> reachable tick (dispatch o c st).2
| reach_clock st t : reachable tick st -> tick (clock st) t -> reachable tick (set_clock t st).

(** The specification: the log of an account is what its owner recorded since
    the owner last erased it, read off the events. *)
Definition replay_event (a : AccountId) (log : list (Moment * Record)) (e : Event) :=
  match e with
  | NewRecord s t r => if decide (s = a) then log ++ [(t, r)] else log
  | Erased s => if decide (s = a) then [] else log
  end.
Definition replay (evs : list Event) (a : AccountId) : list (Moment * Record) :=
  foldl (replay_event a) [] evs.
End pallet.

Section facts.
Context {Origin AccountId Moment Record : Type}.
Context `{!FrameSystem Origin AccountId, !EqDecision AccountId, !Countable AccountId}.

Abbreviation st_t := (@State AccountId Moment Record _ _).
Implicit Types (st : st_t) (o : Origin) (a : AccountId) (r : Record).

Lemma record_eq o r st :
  record o r st =
  match ensure_signed o with
  | Err e => (Err e, st)
  | Ok a => (Ok tt,
      mkState (storage_mutate [] a (fun m => m ++ [(clock st, r)]) (Datalog st)) (clock st)
        (events st ++ [NewRecord a (clock st) r]))
  end.
Proof. unfold record. se_unfold. by destruct (ensure_signed o). Qed.

Lemma erase_eq o st :
  erase o st =
  match ensure_signed o with
  | Err e => (Err e, st)
  | Ok a => (Ok tt,
      mkState (delete a (Datalog st)) (clock st) (events st ++ [Erased a]))
  end.
Proof. unfold erase. se_unfold. by destruct (ensure_signed o). Qed.

(** C16: who may write what.  [record] and [erase] fail exactly when the origin
    is not signed, with the origin's error and nothing changed; otherwise
    [record] appends the record at the current time to the sender's log and
    [erase] empties it, and no other account's log is touched. *)
Theorem calls_functional o c st (res : DispatchResult) st' :
  dispatch o c st = (res, st') ->
  match ensure_signed o with
  | Err e => res = Err e /\ st' = st
  | Ok a =>
      res = Ok tt /\
      (datalog st' a, events st') =
        match c with
        | call_record r =>
            (datalog st a ++ [(clock st, r)], events st ++ [NewRecord a (clock st) r])
        | call_erase => ([], events st ++ [Erased a])
        end /\
      clock st' = clock st /\
      forall b, b <> a -> datalog st' b = datalog st b
  end.
Proof.
  destruct c as [r|]; cbn [dispatch]; rewrite ?record_eq, ?erase_eq;
    destruct (ensure_signed o) as [a|e]; intros [= <- <-]; try done;
    (split; [done|]; split; [|split; [done|intros b Hb]]);
    unfold datalog; cbn [Datalog events]; by autorewrite with robo.
Qed.

Lemma replay_app (evs : list (@Event AccountId Moment Record)) e a :
  replay (evs ++ [e]) a = replay_event a (replay evs a) e.
Proof. unfold replay. by rewrite foldl_app. Qed.

Lemma dispatch_replay o c st :
  (forall a, datalog st a = replay (events st) a) ->
  forall a, datalog (dispatch o c st).2 a = replay (events (dispatch o c st).2) a.
Proof.
  intros IH a.
  destruct c as [r|]; cbn [dispatch]; rewrite ?record_eq, ?erase_eq;
    (destruct (ensure_signed o) as [b|e]; [|apply IH]);
    unfold datalog; cbn [snd Datalog events]; rewrite replay_app; cbn [replay_event];
    (case_decide as Heq; [subst|]); autorewrite with robo; try done; try apply IH.
  f_equal. apply IH.
Qed.

(** C15: the storage refines the event log.  In every reachable state the log
    kept for an account is what the specification reads off the events: what
    its owner recorded since the last erasure, in order, with the time of
    each record. *)
Theorem datalog_refines (tick : Moment -> Moment -> Prop) st a :
  reachable (Origin := Origin) tick st -> datalog st a = replay (events st) a.
Proof.
  intros Hr. revert a. induction Hr as [t|st o c Hr IH|st t Hr IH Ht].
  - intros a. apply storage_get_empty.
  - by apply dispatch_replay.
  - exact IH.
Qed.
End facts.

(** ** Time *)
Section time.
Context {Origin AccountId Record : Type}.
Context `{!FrameSystem Origin AccountId, !EqDecision AccountId, !Countable AccountId}.

Abbreviation st_t := (@State AccountId Z Record _ _).
Implicit Types (st : st_t) (o : Origin) (a : AccountId).

(** Times in order, none after [t]. *)
Definition dated (t : Z) (log : list (Z * Record)) : Prop :=
  Sorted Z.le (log.*1 ++ [t]).

Lemma dated_weaken t t' log : t <= t' -> dated t log -> dated t' log.
Proof.
  unfold dated. induction (log.*1) as [|x l IH]; intros Ht H; [by repeat constructor|].
  apply Sorted_inv in H as [Hs Hd]. cbn. constructor; [by apply IH|].
  destruct l; constructor; apply HdRel_inv in Hd; lia.
Qed.

Lemma dated_snoc t r log : dated t log -> dated t (log ++ [(t, r)]).
Proof.
  unfold dated. rewrite fmap_app. change ([(t, r)].*1) with [t].
  induction (log.*1) as [|x l IH]; intros H; [by repeat constructor|].
  apply Sorted_inv in H as [Hs Hd]. cbn. constructor; [by apply IH|].
  destruct l; constructor; by apply HdRel_inv in Hd.
Qed.

(** C17: when the time source never goes back, the records of every account
    are stored in the order of their timestamps, and none is dated later than
    the current time. *)
Theorem datalog_sorted st a :
  reachable (Origin := Origin) Z.le st -> Sorted Z.le ((datalog st a).*1 ++ [clock st]).
Proof.
  intros Hr. change (dated (clock st) (datalog st a)). revert a.
  induction Hr as [t|st o c Hr IH|st t Hr IH Ht]; intros a.
  - by repeat constructor.
  - destruct c as [r|]; cbn [dispatch]; rewrite ?record_eq, ?erase_eq;
      (destruct (ensure_signed o) as [b|e]; [|apply IH]);
      unfold datalog; cbn [snd Datalog clock];
      destruct (decide (b = a)) as [->|]; autorewrite with robo; try apply IH;
      [apply dated_snoc, IH|by repeat constructor].
  - eapply dated_weaken; [exact Ht|apply IH].
Qed.
End time.
End Datalog.
