(* ===== verification/Launch.v ===== *)
(** * The launch pallet

    [robonomics/frame/launch/src/lib.rs]: no storage, one call that announces a
    launch request of the sender to a robot. *)
From stdpp Require Import prelude strings list.
From Stdlib Require Import ZArith Lia.
From S2P Require Import Prelude Frame Codec.
Local Open Scope Z_scope.

Module Launch.
Section pallet.
Context {Origin AccountId Param : Type} `{!FrameSystem Origin AccountId}.

(** [decl_event!]. *)
Inductive Event : Type :=
| NewLaunch (sender robot : AccountId) (param : Param).

(** [decl_storage!] is empty: the state is the events deposited so far. *)
Record State : Type := mkState { events : list Event }.

Definition deposit_event (e : Event) : SE State DispatchError unit :=
  se_modify (fun st => mkState (events st ++ [e])).

(** [launch]. *)
Definition launch (origin : Origin) (robot : AccountId) (param : Param) :
    SE State DispatchError unit :=
  sender ← se_lift (ensure_signed origin);
  deposit_event (NewLaunch sender robot param).

(** [enum Call], its dispatch and its weight. *)
Inductive Call : Type :=
| call_launch (robot : AccountId) (param : Param).

Definition dispatch (origin : Origin) (c : Call) : SE State DispatchError unit :=
  match c with call_launch robot param => launch origin robot param end.

Definition weight (c : Call) : Z := 5000000.

Lemma launch_eq (o : Origin) robot param st :
  launch o robot param st =
  match ensure_signed o with
  | Err e => (Err e, st)
  | Ok a => (Ok tt, mkState (events st ++ [NewLaunch a robot param]))
  end.
Proof. unfold launch. se_unfold. by destruct (ensure_signed o). Qed.
End pallet.
End Launch.
