(* ===== verification/Client.v ===== *)
(** * The client of the datalog and launch pallets

    [robonomics/protocol/src/runtime/pallet_datalog.rs], [pallet_launch.rs],
    [datalog.rs], [launch.rs] and [error.rs]: the calls and events of the two
    pallets as a remote client writes and reads them, against the encoding of
    the pallets themselves.

    The [substrate_subxt] client is not part of the repository.  What the code
    relies on is an interface: the names its derive macros give to a call or an
    event, the look-up of a name in the chain's metadata ([Metadata]), and the
    connection ([Subxt]). *)
From stdpp Require Import prelude gmap strings list.
From Stdlib Require Import ZArith Lia.
From S2P Require Import Prelude Frame Codec Datalog Launch.
Local Open Scope Z_scope.
Local Open Scope string_scope.

(** ** Calls and events on the wire

    [decl_module!] numbers the calls of a pallet in the order of its functions
    and lists their names in the metadata; [decl_event!] does the same with the
    variants of the event. *)
Definition datalog_calls : list string := ["record"; "erase"].
Definition datalog_events : list string := ["NewRecord"; "Erased"].
Definition launch_calls : list string := ["launch"].
Definition launch_events : list string := ["NewLaunch"].

Section wire.
Context {AccountId Moment Rec Param : Type}.
Context `{!Codec AccountId, !Codec Moment, !Codec Rec, !Codec Param}.

(** The pallets' side: [Call: Decode] and [Event: Encode]. *)
Definition decode_datalog_call (v : bytes) : option (@Datalog.Call Rec) :=
  match v with
  | 0 :: v => Datalog.call_record <$> decode v
  | 1 :: v => Some Datalog.call_erase
  | _ => None
  end.

Definition decode_launch_call (v : bytes) : option (@Launch.Call AccountId Param) :=
  match v with
  | 0 :: v => (fun '(robot, param) => Launch.call_launch robot param) <$>
                (decode v : option (AccountId * Param))
  | _ => None
  end.

Definition encode_datalog_event (e : @Datalog.Event AccountId Moment Rec) : bytes :=
  match e with
  | Datalog.NewRecord a t r => 0 :: encode (a, t, r)
  | Datalog.Erased a => 1 :: encode a
  end.

Definition encode_launch_event (e : @Launch.Event AccountId Param) : bytes :=
  match e with Launch.NewLaunch a robot param => 0 :: encode (a, robot, param) end.

(** The client's side: the structures and their derived encodings. *)
Record RecordCall : Type := { rc_record : Rec }.
Record EreaseCall : Type := {}.
Record LaunchCall : Type := { lc_robot : AccountId; lc_param : Param }.
Record NewRecordEvent : Type :=
  { nr_sender : AccountId; nr_timestamp : Moment; nr_record : Rec }.
Record ErasedEvent : Type := { er_sender : AccountId }.
Record NewLaunchEvent : Type :=
  { nl_sender : AccountId; nl_robot : AccountId; nl_param : Param }.

Definition encode_RecordCall (c : RecordCall) : bytes := encode (rc_record c).
Definition encode_EreaseCall (c : EreaseCall) : bytes := [].
Definition encode_LaunchCall (c : LaunchCall) : bytes := encode (lc_robot c, lc_param c).

Definition decode_NewRecordEvent (v : bytes) : option NewRecordEvent :=
  (fun '(a, t, r) => Build_NewRecordEvent a t r) <$>
    (decode v : option (AccountId * Moment * Rec)).
Definition decode_ErasedEvent (v : bytes) : option ErasedEvent :=
  Build_ErasedEvent <$> (decode v : option AccountId).
Definition decode_NewLaunchEvent (v : bytes) : option NewLaunchEvent :=
  (fun '(a, robot, param) => Build_NewLaunchEvent a robot param) <$>
    (decode v : option (AccountId * AccountId * Param)).
End wire.
Arguments RecordCall : clear implicits.
Arguments LaunchCall : clear implicits.

(** What the derive macros and the metadata of [substrate_subxt] do:
    [#[derive(Call)]] names the function of a structure by its name without
    [Call], in snake case, [#[derive(Event)]] names the event without [Event],
    and a call is sent as the number of the function of that name followed by
    the encoded structure, or refused when the chain has no such function. *)
Class Metadata : Type := {
  call_function : string -> string;
  event_name : string -> string;
  find_call : list string -> string -> bytes -> option bytes;
  find_event : list string -> string -> bytes -> option bytes;
}.

Class MetadataLaws `{!Metadata} : Prop := {
  name_record : call_function "RecordCall" = "record";
  name_erease : call_function "EreaseCall" = "erease";
  name_launch : call_function "LaunchCall" = "launch";
  name_new_record : event_name "NewRecordEvent" = "NewRecord";
  name_erased : event_name "ErasedEvent" = "Erased";
  name_new_launch : event_name "NewLaunchEvent" = "NewLaunch";
  find_call_some names f args i :
    NoDup names -> names !! i = Some f ->
    find_call names f args = Some (Z.of_nat i :: args);
  find_call_none names f args : f ∉ names -> find_call names f args = None;
  find_event_some names f args i :
    NoDup names -> names !! i = Some f ->
    find_event names f (Z.of_nat i :: args) = Some args;
  find_event_other names f args i g :
    NoDup names -> names !! i = Some g -> g <> f ->
    find_event names f (Z.of_nat i :: args) = None;
}.

Section client.
Context `{!Metadata}.
Context {AccountId Moment Rec Param : Type}.
Context `{!Codec AccountId, !Codec Moment, !Codec Rec, !Codec Param}.

(** The extension methods [#[derive(Call)]] gives the client, up to the bytes
    of the call. *)
Definition client_record (r : Rec) : option bytes :=
  find_call datalog_calls (call_function "RecordCall")
    (encode_RecordCall {| rc_record := r |}).
Definition client_erease : option bytes :=
  find_call datalog_calls (call_function "EreaseCall") (encode_EreaseCall Build_EreaseCall).
Definition client_launch (robot : AccountId) (param : Param) : option bytes :=
  find_call launch_calls (call_function "LaunchCall")
    (encode_LaunchCall {| lc_robot := robot; lc_param := param |}).

(** The events a client reads off the bytes of an event of the pallet. *)
Definition read_NewRecord (v : bytes) : option (@NewRecordEvent AccountId Moment Rec) :=
  find_event datalog_events (event_name "NewRecordEvent") v ≫= decode_NewRecordEvent.
Definition read_Erased (v : bytes) : option (@ErasedEvent AccountId) :=
  find_event datalog_events (event_name "ErasedEvent") v ≫= decode_ErasedEvent.
Definition read_NewLaunch (v : bytes) : option (@NewLaunchEvent AccountId Param) :=
  find_event launch_events (event_name "NewLaunchEvent") v ≫= decode_NewLaunchEvent.
End client.

Section client_facts.
Context `{!Metadata, !MetadataLaws}.
Context {AccountId Moment Rec Param : Type}.
Context `{!Codec AccountId, !Codec Moment, !Codec Rec, !Codec Param}.
Context `{!CodecLaws AccountId, !CodecLaws Moment, !CodecLaws Rec, !CodecLaws Param}.

Lemma datalog_calls_nodup : NoDup datalog_calls.
Proof. by apply (bool_decide_unpack _). Qed.
Lemma launch_calls_nodup : NoDup launch_calls.
Proof. by apply (bool_decide_unpack _). Qed.
Lemma datalog_events_nodup : NoDup datalog_events.
Proof. by apply (bool_decide_unpack _). Qed.
Lemma launch_events_nodup : NoDup launch_events.
Proof. by apply (bool_decide_unpack _). Qed.

(** C29: the client and the pallets agree on the wire.  The bytes the client
    sends for a record or a launch are dispatched as that record or that
    launch, and the events the pallets deposit are read back by the client
    with the same fields. *)
Theorem client_agrees (r : Rec) (a robot : AccountId) (t : Moment) (param : Param) :
  encodable r -> encodable a -> encodable robot -> encodable t -> encodable param ->
  (client_record r ≫= decode_datalog_call) = Some (Datalog.call_record r) /\
  (client_launch robot param ≫= decode_launch_call) = Some (Launch.call_launch robot param) /\
  read_NewRecord (encode_datalog_event (Datalog.NewRecord a t r)) =
    Some {| nr_sender := a; nr_timestamp := t; nr_record := r |} /\
  read_Erased (encode_datalog_event (Datalog.Erased a : @Datalog.Event _ Moment Rec)) =
    Some {| er_sender := a |} /\
  read_NewLaunch (encode_launch_event (Launch.NewLaunch a robot param)) =
    Some {| nl_sender := a; nl_robot := robot; nl_param := param |}.
Proof.
  intros Hr Ha Hrobot Ht Hp.
  unfold client_record, client_launch, read_NewRecord, read_Erased, read_NewLaunch.
  rewrite name_record, name_launch, name_new_record, name_erased, name_new_launch.
  rewrite (find_call_some datalog_calls "record" _ 0) by first [apply datalog_calls_nodup|done].
  rewrite (find_call_some launch_calls "launch" _ 0) by first [apply launch_calls_nodup|done].
  cbn [encode_datalog_event encode_launch_event].
  rewrite (find_event_some datalog_events "NewRecord" _ 0)
    by first [apply datalog_events_nodup|done].
  rewrite (find_event_some datalog_events "Erased" _ 1)
    by first [apply datalog_events_nodup|done].
  rewrite (find_event_some launch_events "NewLaunch" _ 0)
    by first [apply launch_events_nodup|done].
  cbn -[encode decode]. unfold encode_RecordCall, encode_LaunchCall, decode_NewRecordEvent,
    decode_ErasedEvent, decode_NewLaunchEvent; cbn [rc_record lc_robot lc_param].
  by rewrite !decode_encode by done.
Qed.

(** The client cannot erase.  The call the client names [EreaseCall] is
    looked up as [erease], which the pallet's metadata does not list: no
    erasure is ever sent, while the pallet does have an [erase] call. *)
Lemma client_never_erases :
  client_erease = None /\
  decode_datalog_call (Rec := Rec) [1] = Some Datalog.call_erase.
Proof.
  split; [|done]. unfold client_erease. rewrite name_erease.
  apply find_call_none. by apply (bool_decide_unpack _).
Qed.
End client_facts.

(** ** Errors ([error.rs]) *)
Section errors.
Context {IoError TransportError ConnectionLimit SubxtError BincodeError : Type}.

Inductive ProtocolError : Type :=
| Io (err : IoError)
| Transport (err : TransportError)
| ConnectionLimitError (err : ConnectionLimit)
| SubmitFailure (err : SubxtError)
| CodecError (err : BincodeError)
| Ss58CodecError
| OtherError (msg : string).

(** [impl From<&str> for Error]. *)
Definition error_from_str (s : string) : ProtocolError := OtherError s.

(** [impl std::error::Error for Error], [source]: the two causes it hands out. *)
Definition error_source (e : ProtocolError) : option (IoError + TransportError) :=
  match e with
  | Io err => Some (inl err)
  | Transport err => Some (inr err)
  | _ => None
  end.
End errors.
Arguments ProtocolError : clear implicits.

(** ** Submitting ([datalog.rs], [launch.rs])

    The node the client talks to, over a connection of type [Conn], as far as
    the two [submit] functions and [listen] use it; each operation may change the
    state [N] of the node. *)
Class Subxt (N Conn Signer AccountId Rec Param SubxtError Hash Sub : Type) : Type := {
  build : string -> SE N SubxtError Conn;
  send_record : Conn -> Signer -> Rec -> SE N SubxtError Hash;
  send_launch : Conn -> Signer -> AccountId -> Param -> SE N SubxtError Hash;
  subscribe_events : Conn -> SE N SubxtError Sub;
}.

Section submit.
Context {N Conn Signer AccountId Rec Param Hash Sub : Type}.
Context {IoError TransportError ConnectionLimit SubxtError BincodeError : Type}.
Context `{!Subxt N Conn Signer AccountId Rec Param SubxtError Hash Sub}.
(** [AccountId::from_ss58check]. *)
Context (from_ss58check : string -> option AccountId).

Abbreviation error :=
  (ProtocolError IoError TransportError ConnectionLimit SubxtError BincodeError).

(** [?] on an error of the client: [From<substrate_subxt::Error>]. *)
Definition or_submit_failure {A} (m : SE N SubxtError A) : SE N error A :=
  fun n => let (r, n') := m n in (map_err SubmitFailure r, n').

Definition datalog_submit (signer : Signer) (remote : string) (data_record : Rec) :
    SE N error Hash :=
  client ← or_submit_failure (build remote);
  xt_hash ← or_submit_failure (send_record client signer data_record);
  mret xt_hash.

Definition launch_submit (signer : Signer) (remote robot : string) (param : Param) :
    SE N error Hash :=
  robot_account ← se_lift (ok_or (from_ss58check robot) Ss58CodecError);
  client ← or_submit_failure (build remote);
  xt_hash ← or_submit_failure (send_launch client signer robot_account param);
  mret xt_hash.

(** [listen], up to the events decoder it configures. *)
Definition launch_listen (remote : string) : SE N error Sub :=
  client ← or_submit_failure (build remote);
  or_submit_failure (subscribe_events client).

(** A launch request for an address that does not decode is refused before
    anything is sent: the remote node is not even contacted; any other failure
    of a submission is the client's own error, reported as [SubmitFailure]. *)
Lemma submit_errors (signer : Signer) (remote robot : string) (param : Param)
    (data : Rec) (n : N) :
  (from_ss58check robot = None ->
     launch_submit signer remote robot param n = (Err Ss58CodecError, n)) /\
  (forall a, from_ss58check robot = Some a ->
     forall e n', launch_submit signer remote robot param n = (Err e, n') ->
       exists err, e = SubmitFailure err) /\
  (forall e n', datalog_submit signer remote data n = (Err e, n') ->
       exists err, e = SubmitFailure err) /\
  (forall a, from_ss58check robot = Some a ->
     forall h n', launch_submit signer remote robot param n = (Ok h, n') <->
       exists c n1, build remote n = (Ok c, n1) /\
         send_launch c signer a param n1 = (Ok h, n')).
Proof.
  unfold launch_submit, datalog_submit, or_submit_failure. se_unfold.
  split; [by intros ->|]. split; [|split].
  - intros a -> e n'. cbn. destruct (build remote n) as [[c|?] n1]; cbn;
      [destruct (send_launch c signer a param n1) as [[h|?] n2]|]; cbn;
      intros; simplify_eq; eauto.
  - intros e n'. destruct (build remote n) as [[c|?] n1]; cbn;
      [destruct (send_record c signer data n1) as [[h|?] n2]|]; cbn;
      intros; simplify_eq; eauto.
  - intros a -> h n'. cbn.
    destruct (build remote n) as [[c|?] n1]; cbn; [|split; [done|by intros (?&?&?&?)]].
    destruct (send_launch c signer a param n1) as [[h'|?] n2] eqn:Hs; cbn.
    + split; [intros [= <- <-]; by eauto|]. intros (?&?&[= <- <-]&?). congruence.
    + split; [done|]. intros (?&?&[= <- <-]&?). congruence.
Qed.
End submit.
