(* ===== verification/Gossip.v ===== *)
(** * The publisher/subscriber worker

    [robonomics/protocol/src/pubsub/gossipsub.rs]: the service handle
    ([PubSub]), the worker that owns the libp2p swarm ([PubSubWorker]) and the
    channels between them.  Channels are shared, so they live in a store: a
    request carries the number of its reply channel, a subscription the number
    of its message stream.

    The swarm is not part of the repository: [Swarm] is the interface the worker
    uses, [SwarmLaws] what libp2p documents of a subscription.  A client of the
    service, the network and the worker interleave: [step] is one action of one
    of them. *)
From stdpp Require Import prelude gmap strings list.
From Stdlib Require Import ZArith Lia.
From S2P Require Import Prelude Frame.

(** [pubsub.rs]: [struct Message]. *)
Record Message (PeerId : Type) : Type := mkMessage { from : PeerId; data : bytes }.
Arguments mkMessage {PeerId} _ _.
Arguments from {PeerId} _.
Arguments data {PeerId} _.

(** [libp2p::gossipsub]: a message, and the events of the behaviour. *)
Record GossipsubMessage (PeerId TopicHash : Type) : Type := mkGossipsubMessage {
  source : PeerId;
  gdata : bytes;
  topics : list TopicHash;
}.
Arguments mkGossipsubMessage {PeerId TopicHash} _ _ _.
Arguments source {PeerId TopicHash} _.
Arguments gdata {PeerId TopicHash} _.
Arguments topics {PeerId TopicHash} _.

Inductive GossipsubEvent (PeerId TopicHash : Type) : Type :=
| GMessage (peer_id : PeerId) (id : bytes) (message : GossipsubMessage PeerId TopicHash)
| GSubscribed (peer_id : PeerId) (topic : TopicHash)
| GUnsubscribed (peer_id : PeerId) (topic : TopicHash).
Arguments GMessage {PeerId TopicHash} _ _ _.
Arguments GSubscribed {PeerId TopicHash} _ _.
Arguments GUnsubscribed {PeerId TopicHash} _ _.

(** [Swarm<Gossipsub>], and the two hashes of a [Topic]. *)
Class Swarm (S Multiaddr : Type) : Type := {
  listen_on : Multiaddr -> S -> bool * S;
  swarm_listeners : S -> list Multiaddr;
  dial_addr : Multiaddr -> S -> bool * S;
  gossip_subscribe : string -> S -> bool * S;
  gossip_unsubscribe : string -> S -> bool * S;
  gossip_publish : string -> bytes -> S -> S;
  subscribed : S -> string -> bool;
}.
#[export] Hint Mode Swarm ! - : typeclass_instances.

Class TopicHashing (TopicHash : Type) : Type := {
  no_hash : string -> TopicHash;
  sha256_hash : string -> TopicHash;
}.
#[export] Hint Mode TopicHashing ! : typeclass_instances.

(** "Subscribes to a topic.  Returns true if the subscription worked.  Returns
    false if we were already subscribed"; "Unsubscribes from a topic.  Returns
    true if we were subscribed to this topic"; [no_hash] is the name itself. *)
Class SwarmLaws (S Multiaddr : Type) `{!Swarm S Multiaddr} : Prop := {
  subscribe_result t (s : S) : (gossip_subscribe t s).1 = negb (subscribed s t);
  subscribe_view t (s : S) u :
    subscribed (gossip_subscribe t s).2 u = bool_decide (u = t) || subscribed s u;
  unsubscribe_result t (s : S) : (gossip_unsubscribe t s).1 = subscribed s t;
  unsubscribe_view t (s : S) u :
    subscribed (gossip_unsubscribe t s).2 u = negb (bool_decide (u = t)) && subscribed s u;
  listen_view (a : Multiaddr) (s : S) u : subscribed (listen_on a s).2 u = subscribed s u;
  dial_view (a : Multiaddr) (s : S) u : subscribed (dial_addr a s).2 u = subscribed s u;
  publish_view t m (s : S) u : subscribed (gossip_publish t m s) u = subscribed s u;
}.

Class TopicHashingLaws (TopicHash : Type) `{!TopicHashing TopicHash} : Prop :=
  no_hash_inj t u : (no_hash t : TopicHash) = no_hash u -> t = u.

(** [enum ToWorkerMsg]; channels by their numbers. *)
Inductive ToWorkerMsg (Multiaddr : Type) : Type :=
| Listen (address : Multiaddr) (result : nat)
| Connect (address : Multiaddr) (result : nat)
| Listeners (result : nat)
| Subscribe (topic_name : string) (inbox : nat)
| Unsubscribe (topic_name : string) (result : nat)
| Publish (topic_name : string) (message : bytes).
Arguments Listen {Multiaddr} _ _.
Arguments Connect {Multiaddr} _ _.
Arguments Listeners {Multiaddr} _.
Arguments Subscribe {Multiaddr} _ _.
Arguments Unsubscribe {Multiaddr} _ _.
Arguments Publish {Multiaddr} _ _.

(** A one-shot channel: not answered yet, or answered. *)
Inductive Reply (Multiaddr : Type) : Type :=
| Waiting
| GotBool (b : bool)
| GotListeners (l : list Multiaddr).
Arguments Waiting {Multiaddr}.
Arguments GotBool {Multiaddr} _.
Arguments GotListeners {Multiaddr} _.

(** A message stream: what was put into it, whether its receiver still exists,
    and whether its sender does (when it does not, the stream ends). *)
Record Stream (PeerId : Type) : Type := mkStream {
  received : list (Message PeerId);
  listening : bool;
  sender_alive : bool;
}.
Arguments mkStream {PeerId} _ _ _.
Arguments received {PeerId} _.
Arguments listening {PeerId} _.
Arguments sender_alive {PeerId} _.

Section gossip.
Context {S PeerId Multiaddr TopicHash : Type}.
Context `{!EqDecision TopicHash, !Countable TopicHash, !Swarm S Multiaddr,
  !TopicHashing TopicHash}.

(** [struct PubSubWorker], with the store of the channels and the number of the
    next channel. *)
Record State : Type := mkState {
  swarm : S;
  inbox : gmap TopicHash nat;
  from_service : list (ToWorkerMsg Multiaddr);
  replies : gmap nat (Reply Multiaddr);
  streams : gmap nat (Stream PeerId);
  fresh : nat;
}.
Implicit Types (st : State).

Definition set_swarm (s : S) st : State :=
  mkState s (inbox st) (from_service st) (replies st) (streams st) (fresh st).
Definition set_inbox (m : gmap TopicHash nat) st : State :=
  mkState (swarm st) m (from_service st) (replies st) (streams st) (fresh st).
Definition set_queue (q : list (ToWorkerMsg Multiaddr)) st : State :=
  mkState (swarm st) (inbox st) q (replies st) (streams st) (fresh st).
Definition set_replies (m : gmap nat (Reply Multiaddr)) st : State :=
  mkState (swarm st) (inbox st) (from_service st) m (streams st) (fresh st).
Definition set_streams (m : gmap nat (Stream PeerId)) st : State :=
  mkState (swarm st) (inbox st) (from_service st) (replies st) m (fresh st).

(** [PubSubWorker::new] after the transport is built; the message identifier is
    the hash of the message's data, in decimal. *)
Definition worker_new (s : S) : State := mkState s ∅ [] ∅ ∅ 0.

Definition message_id (default_hasher : bytes -> N) (to_string : N -> bytes)
    (message : GossipsubMessage PeerId TopicHash) : bytes :=
  to_string (default_hasher (gdata message)).

(** Channel ends: [oneshot::Sender::send], [UnboundedSender::unbounded_send]
    (its error, ignored, is that nobody listens), and dropping a sender. *)
Definition reply (id : nat) (r : Reply Multiaddr) st : State :=
  set_replies (<[id := r]> (replies st)) st.
Definition unbounded_send (id : nat) (m : Message PeerId) st : State :=
  set_streams (alter (fun c =>
    if listening c then mkStream (received c ++ [m]) true (sender_alive c) else c)
    id (streams st)) st.
Definition drop_sender (id : nat) st : State :=
  set_streams (alter (fun c => mkStream (received c) (listening c) false) id (streams st)) st.
Definition drop_sender_opt (o : option nat) st : State :=
  match o with Some id => drop_sender id st | None => st end.

(** The worker's methods.  A value that leaves the inbox map is dropped, and so
    is the sender of a refused subscription. *)
Definition listen (address : Multiaddr) st : bool * State :=
  let (r, s) := listen_on address (swarm st) in (r, set_swarm s st).

Definition listeners st : list Multiaddr := swarm_listeners (swarm st).

Definition connect (address : Multiaddr) st : bool * State :=
  let (r, s) := dial_addr address (swarm st) in (r, set_swarm s st).

Definition subscribe (topic_name : string) (id : nat) st : bool * State :=
  let (subscribed, s) := gossip_subscribe topic_name (swarm st) in
  let st := set_swarm s st in
  if subscribed then
    (true, set_inbox (<[no_hash topic_name := id]> (inbox st))
             (drop_sender_opt (inbox st !! no_hash topic_name) st))
  else (false, drop_sender id st).

Definition unsubscribe (topic_name : string) st : bool * State :=
  let (unsubscribed, s) := gossip_unsubscribe topic_name (swarm st) in
  let st := set_swarm s st in
  if unsubscribed then
    (true, set_inbox (delete (sha256_hash topic_name) (inbox st))
             (drop_sender_opt (inbox st !! sha256_hash topic_name) st))
  else (false, st).

Definition publish (topic_name : string) (message : bytes) st : State :=
  set_swarm (gossip_publish topic_name message (swarm st)) st.

(** [poll]: the handler of an event of the swarm, the handler of a request, and
    the two loops over what is ready.  The worker never completes. *)
Definition dispatch_message (message : GossipsubMessage PeerId TopicHash) st
    (topic : TopicHash) : State :=
  match inbox st !! topic with
  | Some id => unbounded_send id (mkMessage (source message) (gdata message)) st
  | None => st
  end.

Definition handle_event st (e : GossipsubEvent PeerId TopicHash) : State :=
  match e with
  | GMessage _ _ message => foldl (dispatch_message message) st (topics message)
  | _ => st
  end.

Definition handle_request (request : ToWorkerMsg Multiaddr) st : State :=
  match request with
  | Listen address result =>
      let (r, st) := listen address st in reply result (GotBool r) st
  | Connect address result =>
      let (r, st) := connect address st in reply result (GotBool r) st
  | Listeners result => reply result (GotListeners (listeners st)) st
  | Subscribe topic_name inbox => (subscribe topic_name inbox st).2
  | Unsubscribe topic_name result =>
      let (r, st) := unsubscribe topic_name st in reply result (GotBool r) st
  | Publish topic_name message => publish topic_name message st
  end.

Definition serve st : State :=
  match from_service st with
  | request :: q => handle_request request (set_queue q st)
  | [] => st
  end.

Fixpoint serve_all (fuel : nat) st : State :=
  match fuel with
  | O => st
  | Datatypes.S fuel => match from_service st with [] => st | _ => serve_all fuel (serve st) end
  end.

Definition poll (ready : list (GossipsubEvent PeerId TopicHash)) st : State :=
  let st := foldl handle_event st ready in
  serve_all (length (from_service st)) st.

(** The service: each method opens a channel and queues a request; the result
    is the channel it returns. *)
Definition send_request (request : ToWorkerMsg Multiaddr) st : State :=
  set_queue (from_service st ++ [request]) st.

Definition oneshot st : nat * State :=
  (fresh st, mkState (swarm st) (inbox st) (from_service st)
               (<[fresh st := Waiting]> (replies st)) (streams st) (Datatypes.S (fresh st))).
Definition mpsc st : nat * State :=
  (fresh st, mkState (swarm st) (inbox st) (from_service st) (replies st)
               (<[fresh st := mkStream [] true true]> (streams st)) (Datatypes.S (fresh st))).

Definition service_listen (address : Multiaddr) st : nat * State :=
  let (id, st) := oneshot st in (id, send_request (Listen address id) st).
Definition service_listeners st : nat * State :=
  let (id, st) := oneshot st in (id, send_request (Listeners id) st).
Definition service_connect (address : Multiaddr) st : nat * State :=
  let (id, st) := oneshot st in (id, send_request (Connect address id) st).
Definition service_subscribe (topic_name : string) st : nat * State :=
  let (id, st) := mpsc st in (id, send_request (Subscribe topic_name id) st).
Definition service_unsubscribe (topic_name : string) st : nat * State :=
  let (id, st) := oneshot st in (id, send_request (Unsubscribe topic_name id) st).
Definition service_publish (topic_name : string) (message : bytes) st : State :=
  send_request (Publish topic_name message) st.

(** One action of a client, of the network, or of the worker.  [names] are the
    topics the clients use. *)
Inductive step (names : string -> Prop) : State -> State -> Prop :=
| step_listen st a : step names st (service_listen a st).2
| step_listeners st : step names st (service_listeners st).2
| step_connect st a : step names st (service_connect a st).2
| step_subscribe st t : names t -> step names st (service_subscribe t st).2
| step_unsubscribe st t : names t -> step names st (service_unsubscribe t st).2
| step_publish st t m : step names st (service_publish t m st)
| step_close st id : step names st
    (set_streams (alter (fun c => mkStream (received c) false (sender_alive c)) id
      (streams st)) st)
| step_event st e : step names st (handle_event st e)
| step_serve st : step names st (serve st).

Inductive reachable (names : string -> Prop) : State -> Prop :=
| reach_new s : (forall t, subscribed s t = false) -> reachable names (worker_new s)
| reach_step st st' : reachable names st -> step names st st' -> reachable names st'.
End gossip.
