(* ===== verification/GossipFacts.v ===== *)
(** * The publisher/subscriber worker: what it guarantees

    Every request is answered once, in order; a stream is open exactly while its
    sender is kept somewhere; messages reach the streams registered for their
    topics; and what unsubscribing does to the inbox map. *)
From stdpp Require Import prelude gmap strings list.
From Stdlib Require Import ZArith Lia.
From S2P Require Import Prelude Frame Gossip.

Section facts.
Context {S PeerId Multiaddr TopicHash : Type}.
Context `{!EqDecision TopicHash, !Countable TopicHash, !Swarm S Multiaddr,
  !TopicHashing TopicHash}.

Abbreviation st_t := (@State S PeerId Multiaddr TopicHash _ _).
Abbreviation request_t := (ToWorkerMsg Multiaddr).
Implicit Types (st : st_t) (r : request_t) (id : nat) (h : TopicHash) (t : string).

(** The channel a request carries. *)
Definition reply_id r : option nat :=
  match r with
  | Listen _ id | Connect _ id | Listeners id | Unsubscribe _ id => Some id
  | _ => None
  end.
Definition stream_id r : option nat :=
  match r with Subscribe _ id => Some id | _ => None end.

(** Whether a stream exists and still has its sender. *)
Definition alive st id : option bool := sender_alive <$> streams st !! id.

Lemma alive_unbounded_send id m st id' :
  alive (unbounded_send id m st) id' = alive st id'.
Proof.
  unfold alive, unbounded_send; cbn [streams set_streams].
  destruct (decide (id = id')) as [<-|]; [|by rewrite lookup_alter_ne].
  rewrite lookup_alter_eq. by destruct (streams st !! id) as [[? [] ?]|].
Qed.

Lemma alive_drop_sender id st id' :
  alive (drop_sender id st) id' =
    if decide (id' = id) then (fun _ => false) <$> alive st id else alive st id'.
Proof.
  unfold alive, drop_sender; cbn [streams set_streams]. case_decide as Hid; [subst|].
  - rewrite lookup_alter_eq. by destruct (streams st !! id).
  - by rewrite lookup_alter_ne.
Qed.

Lemma alive_drop_sender_opt o st id :
  alive (drop_sender_opt o st) id =
    if decide (o = Some id) then (fun _ => false) <$> alive st id else alive st id.
Proof.
  destruct o as [old|]; cbn [drop_sender_opt]; [|by rewrite decide_False].
  rewrite alive_drop_sender. repeat case_decide; by simplify_eq.
Qed.

(** An event of the swarm only adds to the streams. *)
Lemma handle_event_same st (e : GossipsubEvent PeerId TopicHash) :
  let st' := handle_event st e in
  inbox st' = inbox st /\ from_service st' = from_service st /\ replies st' = replies st /\
  fresh st' = fresh st /\ swarm st' = swarm st /\ forall id, alive st' id = alive st id.
Proof.
  cbn zeta. destruct e as [p i m| |]; try done. cbn [handle_event].
  revert st. induction (topics m) as [|h hs IH]; intros st; [done|]. cbn [foldl].
  specialize (IH (dispatch_message m st h)). break. unfold dispatch_message in *.
  destruct (inbox st !! h); [|done].
  repeat (split; [etrans; [eassumption|done]|]). intros id'.
  etrans; [done|]. rewrite <- (alive_unbounded_send n
    (mkMessage (source m) (gdata m)) st id'). naive_solver.
Qed.

Local Ltac answered := split; [done|split; [done|eexists; by split; [|reflexivity]]].

(** What serving a request does to the replies, and to the streams. *)
Lemma handle_request_replies r st :
  let st' := handle_request r st in
  from_service st' = from_service st /\ fresh st' = fresh st /\
  match reply_id r with
  | Some id => exists v, v <> Waiting /\ replies st' = <[id := v]> (replies st)
  | None => replies st' = replies st
  end.
Proof.
  cbn zeta. destruct r as [a id|a id|id|t id|t id|t m]; cbn [handle_request reply_id].
  - unfold listen. destruct (listen_on a (swarm st)). answered.
  - unfold connect. destruct (dial_addr a (swarm st)). answered.
  - answered.
  - unfold subscribe. destruct (gossip_subscribe t (swarm st)) as [[] ?]; [|done].
    cbn. by destruct (inbox st !! _).
  - unfold unsubscribe. destruct (gossip_unsubscribe t (swarm st)) as [[] ?]; [|answered].
    cbn. destruct (inbox st !! _); answered.
  - done.
Qed.

(** Every queued request waits for its answer, and nothing else does. *)
Record replies_ok st : Prop := {
  ro_fresh id : is_Some (replies st !! id) -> id < fresh st;
  ro_waiting id : replies st !! id = Some Waiting <-> id ∈ omap reply_id (from_service st);
  ro_once : NoDup (omap reply_id (from_service st));
}.

Lemma replies_ok_ext st st' :
  replies st' = replies st -> from_service st' = from_service st -> fresh st' = fresh st ->
  replies_ok st -> replies_ok st'.
Proof. intros Hr Hq Hf [? ? ?]. split; rewrite ?Hr, ?Hq, ?Hf; auto. Qed.

Lemma replies_ok_oneshot st r :
  reply_id r = Some (fresh st) -> replies_ok st -> replies_ok (send_request r (oneshot st).2).
Proof.
  intros Hr [Hf Hw Ho]. assert (Hnew : fresh st ∉ omap reply_id (from_service st)).
  { rewrite <- Hw. intros Hin. specialize (Hf (fresh st)). rewrite Hin in Hf.
    assert (fresh st < fresh st) by eauto. lia. }
  split; cbn; rewrite ?omap_app; cbn; rewrite ?Hr.
  - intros id. rewrite lookup_insert. case_decide; [lia|]. intros Hs%Hf. lia.
  - intros id. rewrite lookup_insert, elem_of_app, list_elem_of_singleton.
    case_decide; [naive_solver|]. rewrite Hw. naive_solver.
  - apply NoDup_app. split; [done|]. split; [|apply NoDup_singleton].
    intros id Hid ->%list_elem_of_singleton. done.
Qed.

(** A request that opens no reply channel. *)
Lemma replies_ok_send st st' r :
  reply_id r = None -> replies st' = replies st -> from_service st' = from_service st ++ [r] ->
  fresh st <= fresh st' -> replies_ok st -> replies_ok st'.
Proof.
  intros Hr Hrep Hq Hf [Hfr Hw Ho].
  split; rewrite ?Hrep, ?Hq, ?omap_app; cbn; rewrite ?Hr, ?app_nil_r; auto.
  intros id Hid%Hfr. lia.
Qed.

Lemma replies_ok_serve st : replies_ok st -> replies_ok (serve st).
Proof.
  intros Hok. unfold serve. destruct (from_service st) as [|r q] eqn:Hq; [done|].
  destruct Hok as [Hf Hw Ho].
  destruct (handle_request_replies r (set_queue q st)) as (Hq' & Hf' & Hr).
  revert Hq' Hf' Hr. generalize (handle_request r (set_queue q st)) as st'. intros st' Hq' Hf' Hr.
  cbn [from_service fresh set_queue] in Hq', Hf'. rewrite Hq in Hw, Ho. cbn in Hw, Ho.
  destruct (reply_id r) as [rid|] eqn:Hrid.
  - destruct Hr as (v & Hv & Hr). cbn [replies set_queue] in Hr.
    apply NoDup_cons in Ho as [Hnot Ho].
    split; rewrite ?Hq', ?Hf', ?Hr; [| |done].
    + intros id. rewrite lookup_insert. case_decide as Hid; [subst|by auto].
      intros _. apply Hf. exists Waiting. apply Hw. by left.
    + intros id. rewrite lookup_insert. case_decide as Hid; [subst|].
      * split; [congruence|done].
      * rewrite Hw, elem_of_cons. naive_solver.
  - cbn [replies set_queue] in Hr. split; rewrite ?Hq', ?Hf', ?Hr; auto.
Qed.

Lemma replies_ok_step names st st' : step names st st' -> replies_ok st -> replies_ok st'.
Proof.
  destruct 1 as [st a|st|st a|st t|st t|st t m|st id|st e|st]; intros Hok.
  - by apply (replies_ok_oneshot st (Listen a (fresh st))).
  - by apply (replies_ok_oneshot st (Listeners (fresh st))).
  - by apply (replies_ok_oneshot st (Connect a (fresh st))).
  - apply (replies_ok_send st _ (Subscribe t (fresh st))); try done. cbn. lia.
  - by apply (replies_ok_oneshot st (Unsubscribe t (fresh st))).
  - by apply (replies_ok_send st _ (Publish t m)).
  - by apply (replies_ok_ext st).
  - destruct (handle_event_same st e) as (_ & Hq & Hr & Hf & _). by apply (replies_ok_ext st).
  - by apply replies_ok_serve.
Qed.

Lemma reachable_replies names st : reachable names st -> replies_ok st.
Proof.
  induction 1 as [s Hs|st st' Hr IH Hs]; [|by eapply replies_ok_step].
  split; cbn; [by intros id [? Hid]|intros id; split; [done|by intros ?%elem_of_nil]|constructor].
Qed.

(** An answer given stays as it is. *)
Lemma step_answer_stable names st st' id (v : Reply Multiaddr) :
  step names st st' -> replies_ok st -> v <> Waiting -> replies st !! id = Some v ->
  replies st' !! id = Some v.
Proof.
  intros Hs [Hf Hw Ho] Hv Hid.
  assert (Hold : id <> fresh st) by (assert (id < fresh st) by eauto; lia).
  destruct Hs as [st a|st|st a|st t|st t|st t m|st i|st e|st]; cbn;
    rewrite ?lookup_insert_ne by done; try done.
  - by destruct (handle_event_same st e) as (_ & _ & -> & _).
  - unfold serve. destruct (from_service st) as [|r q] eqn:Hq; [done|].
    destruct (handle_request_replies r (set_queue q st)) as (_ & _ & Hr).
    destruct (reply_id r) as [rid|] eqn:Hrid; [|by rewrite Hr].
    destruct Hr as (w & _ & ->). rewrite lookup_insert_ne; [done|]. intros ->.
    cbn in Hw. rewrite Hrid in Hw.
    assert (replies st !! id = Some Waiting) by (apply Hw; by left). congruence.
Qed.

Lemma serve_all_drains n st :
  length (from_service st) <= n -> from_service (serve_all n st) = [].
Proof.
  revert st. induction n as [|n IH]; intros st Hn; cbn.
  - by destruct (from_service st); [|cbn in Hn; lia].
  - destruct (from_service st) as [|r q] eqn:Hq; [done|]. apply IH.
    unfold serve. rewrite Hq.
    destruct (handle_request_replies r (set_queue q st)) as (-> & _). cbn in *. lia.
Qed.

Lemma serve_all_reachable names n st : reachable names st -> reachable names (serve_all n st).
Proof.
  revert st. induction n as [|n IH]; intros st Hr; [done|]. cbn.
  destruct (from_service st); [done|]. apply IH. eapply reach_step; [done|constructor].
Qed.

Lemma poll_reachable names evs st : reachable names st -> reachable names (poll evs st).
Proof.
  intros Hr. unfold poll. apply serve_all_reachable. revert st Hr.
  induction evs as [|e evs IH]; intros st Hr; [done|]. cbn. apply IH.
  eapply reach_step; [done|constructor].
Qed.

(** C18: every request is answered exactly once.  Whatever the clients, the
    network and the worker do, in any interleaving: the channels that wait are
    those of the queued requests, one each; an answer once given never changes;
    and one poll of the worker, whatever events are ready, empties the queue
    and so leaves no request unanswered. *)
Theorem requests_answered_once names st : reachable names st ->
  (forall id, replies st !! id = Some Waiting <-> id ∈ omap reply_id (from_service st)) /\
  NoDup (omap reply_id (from_service st)) /\
  (forall st' id (v : Reply Multiaddr), step names st st' -> v <> Waiting ->
     replies st !! id = Some v -> replies st' !! id = Some v) /\
  (forall evs, from_service (poll evs st) = [] /\
     forall id, replies (poll evs st) !! id <> Some Waiting).
Proof.
  intros Hr. pose proof (reachable_replies _ _ Hr) as Hok.
  split; [apply (ro_waiting _ Hok)|]. split; [apply (ro_once _ Hok)|]. split.
  - intros st' id v Hs. by apply step_answer_stable with names.
  - intros evs.
    assert (Hq : from_service (poll evs st) = []) by (by apply serve_all_drains).
    split; [done|]. intros id.
    pose proof (reachable_replies _ _ (poll_reachable _ evs _ Hr)) as Hok'.
    rewrite (ro_waiting _ Hok'), Hq. apply not_elem_of_nil.
Qed.

(** ** Streams *)

(** A stream is open exactly while its sender is in the inbox map or in a
    queued subscription, and in one place only. *)
Record streams_ok st : Prop := {
  sk_fresh id : is_Some (alive st id) -> id < fresh st;
  sk_open id : alive st id = Some true <->
    (exists h, inbox st !! h = Some id) \/ id ∈ omap stream_id (from_service st);
  sk_inj h h' id : inbox st !! h = Some id -> inbox st !! h' = Some id -> h = h';
  sk_disj h id : inbox st !! h = Some id -> id ∉ omap stream_id (from_service st);
  sk_once : NoDup (omap stream_id (from_service st));
}.

Lemma streams_ok_ext st st' :
  inbox st' = inbox st -> omap stream_id (from_service st') = omap stream_id (from_service st) ->
  fresh st <= fresh st' -> (forall id, alive st' id = alive st id) ->
  streams_ok st -> streams_ok st'.
Proof.
  intros Hi Hq Hf Ha [Hfr Ho Hin Hd Hn].
  split; rewrite ?Hi, ?Hq; auto; intros id; rewrite ?Ha; auto.
  intros Hs%Hfr. lia.
Qed.

Lemma streams_ok_send st r : stream_id r = None -> streams_ok st -> streams_ok (send_request r st).
Proof.
  intros Hr. apply streams_ok_ext; try done. cbn. rewrite omap_app; cbn.
  by rewrite Hr, app_nil_r.
Qed.

Lemma streams_ok_oneshot st : streams_ok st -> streams_ok (oneshot st).2.
Proof. apply streams_ok_ext; try done. cbn. lia. Qed.

Lemma streams_ok_subscribe st t : streams_ok st -> streams_ok (service_subscribe t st).2.
Proof.
  intros [Hf Ho Hi Hd Hn].
  assert (Hnew : alive st (fresh st) = None).
  { apply eq_None_not_Some. intros Hs%Hf. lia. }
  assert (Hopen : ~ ((exists h, inbox st !! h = Some (fresh st)) \/
    fresh st ∈ omap stream_id (from_service st))) by (rewrite <- Ho; congruence).
  split; cbn; rewrite ?omap_app; cbn.
  - intros id. unfold alive; cbn. rewrite lookup_insert. case_decide; [lia|].
    intros Hs%Hf. lia.
  - intros id. unfold alive; cbn. rewrite lookup_insert, elem_of_app, list_elem_of_singleton.
    case_decide; [naive_solver|]. fold (alive st id). rewrite Ho. naive_solver.
  - done.
  - intros h id Hid. rewrite elem_of_app, list_elem_of_singleton.
    intros [Hin| ->]; [by eapply Hd|]. eauto.
  - apply NoDup_app. split; [done|]. split; [|apply NoDup_singleton].
    intros id Hid ->%list_elem_of_singleton. tauto.
Qed.

(** Taking an entry out of the inbox map and dropping its sender. *)
Lemma streams_ok_remove st h :
  streams_ok st ->
  streams_ok (set_inbox (delete h (inbox st)) (drop_sender_opt (inbox st !! h) st)).
Proof.
  intros [Hf Ho Hi Hd Hn]. destruct (inbox st !! h) as [old|] eqn:Hold; cbn [drop_sender_opt].
  2: { rewrite delete_id by done. by split. }
  set (st' := set_inbox _ _).
  assert (Ha : forall id, alive st' id =
    if decide (id = old) then (fun _ => false) <$> alive st old else alive st id)
    by (intros id; exact (alive_drop_sender old st id)).
  split; try change (inbox st') with (delete h (inbox st));
    try change (from_service st') with (from_service st);
    try change (fresh st') with (fresh st); [| | | |done].
  - intros id. rewrite Ha. case_decide; [subst; rewrite fmap_is_Some|]; apply Hf.
  - intros id. rewrite Ha. setoid_rewrite lookup_delete_Some. case_decide as Hid; [subst id|].
    + destruct (alive st old) as [b|] eqn:Hb; cbn; (split; [done|]);
        intros [(h' & Hne & Hh')|Hin]; try (by destruct Hne; eapply Hi);
        by destruct (Hd _ _ Hold).
    + rewrite Ho. split; [|naive_solver]. intros [(h' & Hh')|Hin]; [|by right].
      left. exists h'. split; [|done]. intros <-. congruence.
  - intros h1 h2 id [_ H1]%lookup_delete_Some [_ H2]%lookup_delete_Some. by eapply Hi.
  - intros h1 id [_ H1]%lookup_delete_Some. by eapply Hd.
Qed.

(** Registering the stream of the subscription at the head of the queue. *)
Lemma streams_ok_register st h t id q :
  from_service st = Subscribe t id :: q -> inbox st !! h = None -> streams_ok st ->
  streams_ok (set_inbox (<[h := id]> (inbox st)) (set_queue q st)).
Proof.
  intros Hq Hh [Hf Ho Hi Hd Hn]. rewrite Hq in Ho, Hd, Hn. cbn in Ho, Hd, Hn.
  apply NoDup_cons in Hn as [Hnot Hn].
  assert (Hfree : forall h', inbox st !! h' <> Some id).
  { intros h' Hh'. apply (Hd _ _ Hh'). by left. }
  split; cbn [inbox from_service fresh set_inbox set_queue]; [done| | | |done].
  - intros id'. change (alive _ id') with (alive st id'). rewrite Ho, elem_of_cons.
    split.
    + intros [(h' & Hh')|[->|Hin]].
      * left. exists h'. rewrite lookup_insert_ne; [done|congruence].
      * left. exists h. apply lookup_insert_eq.
      * by right.
    + intros [(h' & [[_ ->]|[_ Hh']]%lookup_insert_Some)|Hin]; naive_solver.
  - intros h1 h2 id' H1%lookup_insert_Some H2%lookup_insert_Some.
    destruct H1 as [[<- <-]|[? H1]], H2 as [[<- Heq]|[? H2]]; subst;
      first [done|by destruct (Hfree h1)|by destruct (Hfree h2)|by eapply Hi].
  - intros h1 id' [[<- <-]|[? H1]]%lookup_insert_Some; [done|].
    intros Hin. apply (Hd _ _ H1). by right.
Qed.

(** Dropping the sender of the subscription at the head of the queue. *)
Lemma streams_ok_refuse st t id q :
  from_service st = Subscribe t id :: q -> streams_ok st ->
  streams_ok (drop_sender id (set_queue q st)).
Proof.
  intros Hq [Hf Ho Hi Hd Hn]. rewrite Hq in Ho, Hd, Hn. cbn in Ho, Hd, Hn.
  apply NoDup_cons in Hn as [Hnot Hn].
  split; cbn [inbox from_service fresh set_inbox set_queue drop_sender set_streams]; try done.
  - intros id'. rewrite alive_drop_sender. case_decide; [subst; rewrite fmap_is_Some|]; apply Hf.
  - intros id'. rewrite alive_drop_sender. change (alive (set_queue q st)) with (alive st).
    case_decide as Hid; [subst id'|rewrite Ho, elem_of_cons; naive_solver].
    destruct (alive st id) as [b|]; cbn; (split; [done|]); intros [(h' & Hh')|Hin]; try done;
      by destruct (Hd _ _ Hh'); left.
  - intros h1 id' H1 Hin. apply (Hd _ _ H1). by right.
Qed.

Lemma streams_ok_swarm st s : streams_ok st -> streams_ok (set_swarm s st).
Proof. by apply streams_ok_ext. Qed.

Lemma streams_ok_pop st r q :
  from_service st = r :: q -> stream_id r = None -> streams_ok st -> streams_ok (set_queue q st).
Proof.
  intros Hq Hr. apply streams_ok_ext; try done. rewrite Hq. cbn. by rewrite Hr.
Qed.

Lemma streams_ok_reply st id v : streams_ok st -> streams_ok (reply id v st).
Proof. by apply streams_ok_ext. Qed.

Lemma streams_ok_serve st : streams_ok st -> streams_ok (serve st).
Proof.
  intros Hok. unfold serve. destruct (from_service st) as [|r q] eqn:Hq; [done|].
  destruct r as [a id|a id|id|t id|t id|t m]; cbn [handle_request].
  - unfold listen. destruct (listen_on _ _).
    by eapply streams_ok_reply, streams_ok_swarm, streams_ok_pop.
  - unfold connect. destruct (dial_addr _ _).
    by eapply streams_ok_reply, streams_ok_swarm, streams_ok_pop.
  - by eapply streams_ok_reply, streams_ok_pop.
  - unfold subscribe; cbn [swarm set_queue].
    destruct (gossip_subscribe t (swarm st)) as [[] s]; cbn [snd].
    + change (inbox (set_swarm s (set_queue q st))) with (inbox st).
      pose proof (streams_ok_remove (set_swarm s st) (no_hash t) (streams_ok_swarm _ s Hok)) as Hrm.
      cbn [inbox set_swarm] in Hrm.
      eapply streams_ok_register with (h := no_hash t) (q := q) in Hrm; first last.
      * apply lookup_delete_eq.
      * cbn. destruct (inbox st !! no_hash t); exact Hq.
      * cbn in Hrm. rewrite insert_delete_eq in Hrm. revert Hrm.
        by destruct (inbox st !! no_hash t).
    + by eapply (streams_ok_refuse (set_swarm s st)), streams_ok_swarm.
  - unfold unsubscribe; cbn [swarm set_queue].
    destruct (gossip_unsubscribe t (swarm st)) as [[] s].
    + apply streams_ok_reply. apply (streams_ok_remove (set_swarm s (set_queue q st))).
      by eapply streams_ok_swarm, streams_ok_pop.
    + by eapply streams_ok_reply, streams_ok_swarm, streams_ok_pop.
  - by eapply streams_ok_swarm, streams_ok_pop.
Qed.

Lemma streams_ok_step names st st' : step names st st' -> streams_ok st -> streams_ok st'.
Proof.
  destruct 1 as [st a|st|st a|st t|st t|st t m|st id|st e|st]; intros Hok.
  1,2,3,5: by apply streams_ok_send, streams_ok_oneshot.
  - by apply streams_ok_subscribe.
  - by apply streams_ok_send.
  - apply (streams_ok_ext st); try done. intros id'. unfold alive; cbn.
    destruct (decide (id = id')) as [<-|]; [|by rewrite lookup_alter_ne].
    rewrite lookup_alter_eq. by destruct (streams st !! id).
  - destruct (handle_event_same st e) as (Hi & Hq & _ & Hf & _ & Ha).
    apply (streams_ok_ext st); auto; [by rewrite Hq|by rewrite Hf].
  - by apply streams_ok_serve.
Qed.

Lemma reachable_streams names st : reachable names st -> streams_ok st.
Proof.
  induction 1 as [s Hs|st st' Hr IH Hs]; [|by eapply streams_ok_step].
  split; cbn; try done; try constructor.
  - by intros id [? Hid].
  - done.
  - intros [(h & Hh)|Hin%elem_of_nil]; [by rewrite lookup_empty in Hh|done].
Qed.
End facts.

(** ** Messages *)
Section delivery.
Context {S PeerId Multiaddr TopicHash : Type}.
Context `{!EqDecision TopicHash, !Countable TopicHash, !Swarm S Multiaddr,
  !TopicHashing TopicHash}.

Abbreviation st_t := (@State S PeerId Multiaddr TopicHash _ _).
Implicit Types (st : st_t) (id : nat) (t : string).

(** How many of the topics of a message are registered to a stream. *)
Definition hits st id (hs : list TopicHash) : nat :=
  length (filter (fun h => inbox st !! h = Some id) hs).

Lemma dispatch_message_streams (m : GossipsubMessage PeerId TopicHash) st h id c :
  streams st !! id = Some c ->
  streams (dispatch_message m st h) !! id =
    Some (mkStream (received c ++
            (if listening c then replicate (hits st id [h]) (mkMessage (source m) (gdata m))
             else [])) (listening c) (sender_alive c)).
Proof.
  intros Hc. unfold dispatch_message, hits. rewrite filter_cons, filter_nil.
  destruct (inbox st !! h) as [id'|] eqn:Hh.
  2: { rewrite decide_False by congruence. cbn. rewrite Hc.
       destruct c as [? [] ?]; cbn; by rewrite app_nil_r. }
  unfold unbounded_send; cbn [streams set_streams].
  destruct (decide (id' = id)) as [->|Hne].
  - rewrite lookup_alter_eq, Hc, decide_True by done.
    destruct c as [? [] ?]; cbn; [done|by rewrite app_nil_r].
  - rewrite lookup_alter_ne, Hc, decide_False by congruence.
    destruct c as [? [] ?]; cbn; by rewrite app_nil_r.
Qed.

(** Delivery.  A message that arrives is put into every listening stream
    registered for its topics, once per such topic, at the end, with its source
    and its data; every other stream, and every stream nobody listens to, keeps
    what it had. *)
Lemma message_delivered st p i (m : GossipsubMessage PeerId TopicHash) id c :
  streams st !! id = Some c ->
  streams (handle_event st (GMessage p i m)) !! id =
    Some (mkStream (received c ++
            (if listening c
             then replicate (hits st id (topics m)) (mkMessage (source m) (gdata m))
             else [])) (listening c) (sender_alive c)).
Proof.
  cbn [handle_event]. revert st c. induction (topics m) as [|h hs IH]; intros st c Hc.
  - cbn. rewrite Hc. destruct c as [? [] ?]; cbn; by rewrite app_nil_r.
  - cbn [foldl]. rewrite (IH _ _ (dispatch_message_streams m st h id c Hc)).
    cbn [received listening sender_alive].
    assert (Hsame : inbox (dispatch_message m st h) = inbox st).
    { unfold dispatch_message. by destruct (inbox st !! h). }
    unfold hits. rewrite Hsame, !filter_cons, filter_nil.
    destruct c as [l [] b]; cbn; [|by rewrite !app_nil_r].
    rewrite <- (assoc_L (++)), <- replicate_add. do 3 f_equal.
    by case_decide.
Qed.

(** ** Subscriptions *)
Context `{!SwarmLaws S Multiaddr, !TopicHashingLaws TopicHash}.
Context (names : string -> Prop).

(** No topic in use is named like the hash of another one in use. *)
Definition no_collision : Prop :=
  forall t u, names t -> names u -> (sha256_hash t : TopicHash) <> no_hash u.

Definition request_named (r : ToWorkerMsg Multiaddr) : Prop :=
  match r with Subscribe t _ | Unsubscribe t _ => names t | _ => True end.

Record routes_ok st : Prop := {
  rt_named t : subscribed (swarm st) t = true -> names t;
  rt_queue : Forall request_named (from_service st);
  rt_inbox t : subscribed (swarm st) t = true -> is_Some (inbox st !! no_hash t);
}.

Lemma routes_ok_ext st st' :
  (forall t, subscribed (swarm st') t = subscribed (swarm st) t) -> inbox st' = inbox st ->
  Forall request_named (from_service st') -> routes_ok st -> routes_ok st'.
Proof. intros Hs Hi Hq [H1 H2 H3]. split; rewrite ?Hi; auto; intros t; rewrite Hs; auto. Qed.

Lemma routes_ok_subscribe st t id :
  names t -> routes_ok st -> routes_ok (subscribe t id st).2.
Proof.
  intros Ht Hok. unfold subscribe.
  pose proof (subscribe_view (Multiaddr := Multiaddr) t (swarm st)) as Hv.
  pose proof (subscribe_result (Multiaddr := Multiaddr) t (swarm st)) as Hres.
  destruct (gossip_subscribe t (swarm st)) as [[] s]; cbn [fst snd] in *.
  - assert (Hst : forall st', swarm st' = s -> from_service st' = from_service st ->
      inbox st' = <[no_hash t := id]> (inbox st) -> routes_ok st').
    { intros st' <- Hq' Hi. split.
      - intros u. rewrite Hv. case_bool_decide; [by subst|apply (rt_named _ Hok)].
      - rewrite Hq'. apply (rt_queue _ Hok).
      - intros u. rewrite Hv, Hi, lookup_insert. case_decide; [by eauto|].
        case_bool_decide; [by subst|apply (rt_inbox _ Hok)]. }
    apply Hst; by destruct (inbox st !! no_hash t) eqn:Hold;
      cbn [inbox set_swarm set_inbox]; rewrite ?Hold.
  - apply (routes_ok_ext st); try done; [|apply (rt_queue _ Hok)]. intros u. cbn. rewrite Hv.
    case_bool_decide; [subst|done]. destruct (subscribed (swarm st) t); done.
Qed.

Lemma routes_ok_unsubscribe st t :
  no_collision -> names t -> routes_ok st -> routes_ok (unsubscribe t st).2.
Proof.
  intros Hnc Ht Hok. unfold unsubscribe.
  pose proof (unsubscribe_view (Multiaddr := Multiaddr) t (swarm st)) as Hv.
  pose proof (unsubscribe_result (Multiaddr := Multiaddr) t (swarm st)) as Hres.
  destruct (gossip_unsubscribe t (swarm st)) as [[] s]; cbn [fst snd] in *.
  - assert (Hst : forall st', swarm st' = s -> from_service st' = from_service st ->
      inbox st' = delete (sha256_hash t) (inbox st) -> routes_ok st').
    { intros st' <- Hq' Hi. split.
      - intros u. rewrite Hv. intros [_ Hu]%andb_prop. by apply (rt_named _ Hok).
      - rewrite Hq'. apply (rt_queue _ Hok).
      - intros u. rewrite Hv, Hi. intros [_ Hu]%andb_prop.
        rewrite lookup_delete_ne; [by apply (rt_inbox _ Hok)|].
        apply Hnc; [done|by apply (rt_named _ Hok)]. }
    apply Hst; by destruct (inbox st !! sha256_hash t) eqn:Hold;
      cbn [inbox set_swarm set_inbox]; rewrite ?Hold.
  - apply (routes_ok_ext st); try done; [|apply (rt_queue _ Hok)]. intros u. cbn. rewrite Hv.
    case_bool_decide; [subst|done]. by rewrite <- Hres.
Qed.

Lemma routes_ok_serve st : no_collision -> routes_ok st -> routes_ok (serve st).
Proof.
  intros Hnc Hok. unfold serve. destruct (from_service st) as [|r q] eqn:Hq; [done|].
  pose proof (rt_queue _ Hok) as Hqs. rewrite Hq in Hqs. inversion Hqs as [|?? Hr Hqs']; subst.
  apply (routes_ok_ext _ (set_queue q st)) in Hok; [|done..].
  destruct r as [a id|a id|id|t id|t id|t m]; cbn [handle_request].
  - unfold listen; cbn [swarm set_queue].
    destruct (listen_on a (swarm st)) as [? s] eqn:Hs.
    apply (routes_ok_ext _ _) with (4 := Hok); try done. intros u. cbn.
    by rewrite <- (listen_view a (swarm st)), Hs.
  - unfold connect; cbn [swarm set_queue].
    destruct (dial_addr a (swarm st)) as [? s] eqn:Hs.
    apply (routes_ok_ext _ _) with (4 := Hok); try done. intros u. cbn.
    by rewrite <- (dial_view a (swarm st)), Hs.
  - by apply (routes_ok_ext _ _) with (4 := Hok).
  - by apply routes_ok_subscribe.
  - apply (routes_ok_unsubscribe _ t Hnc Hr) in Hok.
    destruct (unsubscribe t (set_queue q st)) as [b st'].
    apply (routes_ok_ext _ _) with (4 := Hok); [done..|apply (rt_queue _ Hok)].
  - apply (routes_ok_ext _ _) with (4 := Hok); try done. intros u.
    apply (publish_view (Multiaddr := Multiaddr)).
Qed.

Lemma reachable_routes st : no_collision -> reachable names st -> routes_ok st.
Proof.
  intros Hnc. induction 1 as [s Hs|st st' Hr IH Hs].
  { split; cbn; [|constructor|]; intros t; by rewrite Hs. }
  destruct Hs as [st a|st|st a|st t|st t|st t m|st id|st e|st];
    try (apply (routes_ok_ext st); try done; cbn; apply Forall_app; split;
         [apply (rt_queue _ IH)|by apply Forall_singleton]).
  - by apply (routes_ok_ext st); try done; apply (rt_queue _ IH).
  - destruct (handle_event_same st e) as (Hi & Hq & _ & _ & Hsw & _).
    apply (routes_ok_ext st); auto; [by rewrite Hsw|rewrite Hq; apply (rt_queue _ IH)].
  - by apply routes_ok_serve.
Qed.

(** C19: the life of a stream.  In every reachable state a stream is open exactly
    while it is registered for a topic or its subscription is still queued; no
    stream is registered for two topics; and, when no topic in use is named like
    the hash of another, every topic the swarm is subscribed to has a stream, so
    no message for it is dropped. *)
Theorem streams_and_subscriptions st : reachable names st ->
  (forall id, alive st id = Some true <->
     (exists h, inbox st !! h = Some id) \/ id ∈ omap stream_id (from_service st)) /\
  (forall h h' id, inbox st !! h = Some id -> inbox st !! h' = Some id -> h = h') /\
  (no_collision -> forall t, subscribed (swarm st) t = true ->
     exists id, inbox st !! no_hash t = Some id /\ alive st id = Some true).
Proof.
  intros Hr. pose proof (reachable_streams _ _ Hr) as Hok.
  split; [apply (sk_open _ Hok)|]. split; [apply (sk_inj _ Hok)|].
  intros Hnc t Ht. destruct (rt_inbox _ (reachable_routes _ Hnc Hr) _ Ht) as [id Hid].
  exists id. split; [done|]. apply (sk_open _ Hok). by eauto.
Qed.

(** C20: unsubscribing does not end the stream.  A subscription is registered
    under the topic's name but removed under the topic's SHA-256 hash: when a
    subscribed topic is unsubscribed, the request is answered with success and
    the swarm drops the subscription, but the stream stays registered and open,
    until the topic is subscribed again, which is when it ends; and a topic
    named like the hash, if there is one, loses its stream instead. *)
Theorem unsubscribe_keeps_stream st t rid q id : reachable names st ->
  from_service st = Unsubscribe t rid :: q -> subscribed (swarm st) t = true ->
  inbox st !! no_hash t = Some id ->
  let st' := serve st in
  replies st' !! rid = Some (GotBool true) /\ subscribed (swarm st') t = false /\
  ((sha256_hash t : TopicHash) <> no_hash t ->
     inbox st' !! no_hash t = Some id /\ alive st' id = Some true /\
     forall id', id' <> id -> let st2 := (subscribe t id' st').2 in
       alive st2 id = Some false /\ inbox st2 !! no_hash t = Some id') /\
  (forall u id', (sha256_hash t : TopicHash) = no_hash u -> u <> t ->
     subscribed (swarm st) u = true -> inbox st !! no_hash u = Some id' ->
     subscribed (swarm st') u = true /\ inbox st' !! no_hash u = None /\
     alive st' id' = Some false).
Proof.
  intros Hr Hq Ht Hid. cbn zeta.
  pose proof (reachable_streams _ _ Hr) as Hok.
  assert (Hlive : forall h i, inbox st !! h = Some i -> alive st i = Some true).
  { intros h i Hi. apply (sk_open _ Hok). by eauto. }
  unfold serve. rewrite Hq. cbn [handle_request]. unfold unsubscribe; cbn [swarm set_queue].
  pose proof (unsubscribe_view (Multiaddr := Multiaddr) t (swarm st)) as Hv.
  pose proof (unsubscribe_result (Multiaddr := Multiaddr) t (swarm st)) as Hres.
  destruct (gossip_unsubscribe t (swarm st)) as [b s]; cbn [fst snd] in *.
  rewrite Ht in Hres. subst b.
  change (inbox (set_swarm s (set_queue q st))) with (inbox st).
  set (st1 := drop_sender_opt _ _).
  assert (Hst1 : inbox st1 = inbox st /\ swarm st1 = s /\ replies st1 = replies st)
    by (by subst st1; destruct (inbox st !! sha256_hash t)).
  destruct Hst1 as (Hi1 & Hs1 & Hr1).
  assert (Ha1 : forall i, alive st1 i =
    if decide (inbox st !! sha256_hash t = Some i) then (fun _ => false) <$> alive st i
    else alive st i) by (intros i; exact (alive_drop_sender_opt _ (set_swarm s (set_queue q st)) i)).
  split; [apply lookup_insert_eq|]. cbn [swarm reply set_replies set_inbox]. rewrite Hs1.
  split; [rewrite Hv; by rewrite bool_decide_true|]. split.
  - intros Hne.
    assert (Hkeep : alive st1 id = Some true).
    { rewrite Ha1, decide_False; [by eapply Hlive|]. intros Hi. by apply Hne; eapply sk_inj. }
    cbn [inbox reply set_replies set_inbox]. rewrite lookup_delete_ne by done.
    split; [done|]. split; [exact Hkeep|]. intros id' Hid'. unfold subscribe.
    cbn [swarm reply set_replies set_inbox]. rewrite Hs1.
    pose proof (subscribe_result (Multiaddr := Multiaddr) t s) as Hres2.
    rewrite Hv, bool_decide_true in Hres2 by done. cbn in Hres2.
    destruct (gossip_subscribe t s) as [b s2]; cbn [fst] in Hres2. subst b. cbn [snd].
    cbn [inbox set_swarm reply set_replies set_inbox].
    rewrite lookup_delete_ne, Hid by done. cbn [drop_sender_opt].
    split; [|apply lookup_insert_eq].
    change (alive (drop_sender id st1) id = Some false).
    by rewrite alive_drop_sender, decide_True, Hkeep by done.
  - intros u id' Hu Hut Hsu Hid'. rewrite Hv, bool_decide_false by done.
    split; [done|]. cbn [inbox reply set_replies set_inbox]. rewrite <- Hu.
    split; [apply lookup_delete_eq|].
    change (alive st1 id' = Some false). rewrite Ha1, Hu, decide_True by done.
    by rewrite (Hlive _ _ Hid').
Qed.
End delivery.
