(* ===== verification/Network.v ===== *)
(** * A network of publisher/subscriber workers

    Several nodes, each with the worker of [Gossip], and the messages published
    between them.  What libp2p does is to hand a node, some time later and any
    number of times, a message that some node published ([net_deliver]); what the
    workers do with it is [pubsub/gossipsub.rs].

    Two records are kept beside the workers, for the statements only: the topic
    each stream was asked for, and what the clients of each node asked to
    publish. *)
From stdpp Require Import prelude gmap strings list relations.
From Stdlib Require Import ZArith Lia.
From S2P Require Import Prelude Frame Gossip GossipFacts.

Section network.
Context {S PeerId Multiaddr TopicHash : Type}.
Context `{!EqDecision TopicHash, !Countable TopicHash, !Swarm S Multiaddr,
  !TopicHashing TopicHash}.
Context `{!EqDecision PeerId}.

Abbreviation worker_t := (@State S PeerId Multiaddr TopicHash _ _).

Record Node : Type := mkNode { worker : worker_t; asked : gmap nat string }.

Record Network : Type := mkNetwork {
  nodes : PeerId -> Node;
  requested : list (PeerId * string * bytes);
  published : list (PeerId * string * bytes);
}.
Implicit Types (net : Network) (p q : PeerId) (n : Node) (st : worker_t).

Definition set_node p n net : Network :=
  mkNetwork (fun q => if decide (q = p) then n else nodes net q) (requested net) (published net).
Definition on_worker (f : worker_t -> worker_t) p net : Network :=
  set_node p (mkNode (f (worker (nodes net p))) (asked (nodes net p))) net.

(** What a client of a node does besides subscribing and publishing. *)
Inductive client_step : worker_t -> worker_t -> Prop :=
| client_listen st a : client_step st (service_listen a st).2
| client_listeners st : client_step st (service_listeners st).2
| client_connect st a : client_step st (service_connect a st).2
| client_unsubscribe st t : client_step st (service_unsubscribe t st).2
| client_close st id : client_step st
    (set_streams (alter (fun c => mkStream (received c) false (sender_alive c)) id
      (streams st)) st).

(** What serving the next request publishes. *)
Definition publishes p st : list (PeerId * string * bytes) :=
  match from_service st with Publish t m :: _ => [(p, t, m)] | _ => [] end.

(** A published message as it reaches a node. *)
Definition gossip_message p (t : string) (m : bytes) : GossipsubMessage PeerId TopicHash :=
  mkGossipsubMessage p m [no_hash t].

Inductive net_step : Network -> Network -> Prop :=
| net_client net p st' :
    client_step (worker (nodes net p)) st' -> net_step net (on_worker (fun _ => st') p net)
| net_subscribe net p t :
    let n := nodes net p in
    net_step net (set_node p (mkNode (service_subscribe t (worker n)).2
      (<[fresh (worker n) := t]> (asked n))) net)
| net_publish net p t m :
    net_step net
      (let net' := on_worker (service_publish t m) p net in
       mkNetwork (nodes net') (requested net ++ [(p, t, m)]) (published net))
| net_serve net p :
    net_step net
      (let net' := on_worker serve p net in
       mkNetwork (nodes net') (requested net)
         (published net ++ publishes p (worker (nodes net p))))
| net_deliver net p q via id t m :
    (p, t, m) ∈ published net ->
    net_step net (on_worker (fun st => handle_event st (GMessage via id (gossip_message p t m))) q net)
| net_event net q e :
    (forall via id m, e <> GMessage via id m) ->
    net_step net (on_worker (fun st => handle_event st e) q net).

Inductive net_reachable : Network -> Prop :=
| net_start (swarms : PeerId -> S) :
    net_reachable (mkNetwork (fun p => mkNode (worker_new (swarms p)) ∅) [] [])
| net_next net net' : net_reachable net -> net_step net net' -> net_reachable net'.

(** ** Invariants of one node

    A stream stays with the topic it was asked for: the request that carries it and
    the inbox entry that holds it are for that topic. *)
Record node_ok (requests announced : list (PeerId * string * bytes)) p n : Prop := {
  nk_fresh id : is_Some (streams (worker n) !! id) \/ is_Some (asked n !! id) ->
    id < fresh (worker n);
  nk_queue t id : Subscribe t id ∈ from_service (worker n) -> asked n !! id = Some t;
  nk_inbox h id : inbox (worker n) !! h = Some id ->
    exists t, asked n !! id = Some t /\ h = no_hash t;
  nk_publish t m : Publish t m ∈ from_service (worker n) -> (p, t, m) ∈ requests;
  nk_received id c msg : streams (worker n) !! id = Some c -> msg ∈ received c ->
    exists t u, asked n !! id = Some t /\ (no_hash u : TopicHash) = no_hash t /\
      (from msg, u, data msg) ∈ announced;
}.

Definition nodes_ok net : Prop :=
  forall p, node_ok (requested net) (published net) p (nodes net p).
Definition net_ok net : Prop :=
  nodes_ok net /\ forall x, x ∈ published net -> x ∈ requested net.


(** ** The invariants are kept *)

Lemma node_ok_mono rs an rs' an' p n :
  rs ⊆ rs' -> an ⊆ an' -> node_ok rs an p n -> node_ok rs' an' p n.
Proof.
  intros Hrs Han [Hf Hq Hi Hp Hr]. split; [done|done|done|eauto|].
  intros id c msg Hc Hm. destruct (Hr _ _ _ Hc Hm) as (t & u & ? & ? & ?). eauto 6.
Qed.

(** A step of the worker that asks for nothing new and receives nothing. *)
Lemma node_ok_quiet rs an p st st' a :
  fresh st <= fresh st' ->
  (forall id c, streams st' !! id = Some c ->
     exists c0, streams st !! id = Some c0 /\ received c = received c0) ->
  (forall t id, Subscribe t id ∈ from_service st' -> Subscribe t id ∈ from_service st) ->
  (forall t m, Publish t m ∈ from_service st' -> Publish t m ∈ from_service st \/ (p, t, m) ∈ rs) ->
  (forall h id, inbox st' !! h = Some id -> inbox st !! h = Some id \/
     exists t, h = no_hash t /\ Subscribe t id ∈ from_service st) ->
  node_ok rs an p (mkNode st a) -> node_ok rs an p (mkNode st' a).
Proof.
  intros Hfr Hst Hsub Hpub Hin [Hf Hq Hi Hp Hr]; cbn [worker asked] in *. split; cbn [worker asked].
  - intros id [[c Hc]|Ha].
    + destruct (Hst _ _ Hc) as (c0 & Hc0 & _). assert (id < fresh st) by eauto. lia.
    + assert (id < fresh st) by eauto. lia.
  - eauto.
  - intros h id Hh. destruct (Hin _ _ Hh) as [?|(t & -> & Ht)]; eauto.
  - intros t m Hm. destruct (Hpub _ _ Hm); auto.
  - intros id c msg Hc Hm. destruct (Hst _ _ Hc) as (c0 & Hc0 & Hrc).
    rewrite Hrc in Hm. eauto.
Qed.

(** Dropping a sender leaves what was received. *)
Lemma drop_sender_received o st id c :
  streams (drop_sender_opt o st) !! id = Some c ->
  exists c0, streams st !! id = Some c0 /\ received c = received c0.
Proof.
  destruct o as [old|]; cbn [drop_sender_opt]; [|by eauto].
  unfold drop_sender; cbn [streams set_streams].
  destruct (decide (old = id)) as [->|]; [rewrite lookup_alter_eq|rewrite lookup_alter_ne by done; by eauto].
  intros (c0 & Hc0 & ->)%fmap_Some. by eauto.
Qed.

(** What serving a request does to the inbox map and to the streams. *)
Lemma handle_request_quiet (r : ToWorkerMsg Multiaddr) st :
  let st' := handle_request r st in
  (forall h id, inbox st' !! h = Some id -> inbox st !! h = Some id \/
     exists t, h = no_hash t /\ r = Subscribe t id) /\
  (forall id c, streams st' !! id = Some c ->
     exists c0, streams st !! id = Some c0 /\ received c = received c0).
Proof.
  cbn zeta. destruct r as [a id|a id|id|t id|t id|t m]; cbn [handle_request].
  - unfold listen. destruct (listen_on _ _). split; eauto.
  - unfold connect. destruct (dial_addr _ _). split; eauto.
  - split; eauto.
  - unfold subscribe. destruct (gossip_subscribe t (swarm st)) as [[] s]; cbn [snd].
    + split; [|intros id' c; apply (drop_sender_received (inbox st !! no_hash t) (set_swarm s st))].
      intros h id'. cbn [inbox set_inbox]. rewrite lookup_insert.
      case_decide; [intros [= ->]; eauto|auto].
    + split; [by left|]. apply (drop_sender_received (Some id) (set_swarm s st)).
  - unfold unsubscribe. destruct (gossip_unsubscribe t (swarm st)) as [[] s].
    + split; [|intros id' c; apply (drop_sender_received (inbox st !! sha256_hash t) (set_swarm s st))].
      intros h id'. cbn [inbox set_inbox reply set_replies]. intros [_ ?]%lookup_delete_Some. by left.
    + split; eauto.
  - split; eauto.
Qed.

Lemma node_ok_serve rs an p n :
  node_ok rs an p n -> node_ok rs an p (mkNode (serve (worker n)) (asked n)).
Proof.
  destruct n as [st a]; cbn [worker asked]. intros Hok. unfold serve.
  destruct (from_service st) as [|r q] eqn:Hq; [done|].
  destruct (handle_request_replies r (set_queue q st)) as (Hq' & Hf & _).
  destruct (handle_request_quiet r (set_queue q st)) as (Hi & Hs).
  revert Hok. cbn [from_service fresh set_queue] in *.
  apply node_ok_quiet; rewrite ?Hq', ?Hf, ?Hq; [done|exact Hs|by right|left; by right|].
  intros h id Hh. destruct (Hi _ _ Hh) as [?|(t & -> & ->)]; [by left|].
  right. exists t. split; [done|by left].
Qed.

Lemma node_ok_client rs an p n st' :
  client_step (worker n) st' -> node_ok rs an p n -> node_ok rs an p (mkNode st' (asked n)).
Proof.
  destruct n as [st a]; cbn [worker asked]. intros Hs.
  destruct Hs as [st addr|st|st addr|st t|st id]; apply node_ok_quiet; cbn;
    try lia; try (by eauto);
    try (intros ? ?; rewrite elem_of_app, list_elem_of_singleton; naive_solver).
  intros id' c. destruct (decide (id = id')) as [->|];
    [rewrite lookup_alter_eq|rewrite lookup_alter_ne by done; by eauto].
  intros (c0 & Hc0 & ->)%fmap_Some. by eauto.
Qed.

Lemma node_ok_subscribe rs an p n t :
  node_ok rs an p n ->
  node_ok rs an p (mkNode (service_subscribe t (worker n)).2
    (<[fresh (worker n) := t]> (asked n))).
Proof.
  destruct n as [st a]; cbn [worker asked]. intros [Hf Hq Hi Hp Hr]; cbn [worker asked] in *.
  assert (Hnew : a !! fresh st = None).
  { apply eq_None_not_Some. intros Ha. assert (fresh st < fresh st) by eauto. lia. }
  split; cbn.
  - intros id. rewrite !lookup_insert. case_decide; [lia|]. intros Hid.
    assert (id < fresh st) by eauto. lia.
  - intros u id [Hu|Hu%list_elem_of_singleton]%elem_of_app.
    + rewrite lookup_insert_ne; [eauto|]. intros <-. apply Hq in Hu. congruence.
    + injection Hu as -> ->. apply lookup_insert_eq.
  - intros h id Hh. destruct (Hi _ _ Hh) as (u & Hu & ->).
    exists u. rewrite lookup_insert_ne; [done|]. congruence.
  - intros u m [Hu|Hu%list_elem_of_singleton]%elem_of_app; [eauto|done].
  - intros id c msg. rewrite lookup_insert. case_decide as Hid.
    + intros [= <-]. by intros ?%elem_of_nil.
    + intros Hc Hm. rewrite lookup_insert_ne by done. eauto.
Qed.

Lemma node_ok_event rs an p n (e : GossipsubEvent PeerId TopicHash) :
  (forall via id m, e <> GMessage via id m) ->
  node_ok rs an p n -> node_ok rs an p (mkNode (handle_event (worker n) e) (asked n)).
Proof. by destruct n, e as [via id m| |]; intros Hne; [destruct (Hne via id m)|..]. Qed.

(** A message handed to a node goes to the stream registered for its topic. *)
Lemma deliver_streams st via i p t (m : bytes) id :
  streams (handle_event st (GMessage via i (gossip_message p t m))) !! id =
  (fun c => mkStream (received c ++
     (if listening c && bool_decide (inbox st !! (no_hash t : TopicHash) = Some id)
      then [mkMessage p m] else [])) (listening c) (sender_alive c)) <$> streams st !! id.
Proof.
  cbn [handle_event foldl topics gossip_message]. unfold dispatch_message.
  assert (Hsame : forall c : Stream PeerId,
    mkStream (received c ++ []) (listening c) (sender_alive c) = c).
  { intros []. by rewrite app_nil_r. }
  destruct (inbox st !! no_hash t) as [id'|]; unfold unbounded_send; cbn.
  - destruct (decide (id' = id)) as [->|Hne].
    + rewrite lookup_alter_eq, bool_decide_true by done.
      destruct (streams st !! id) as [[l [] s]|]; cbn; by rewrite ?app_nil_r.
    + rewrite lookup_alter_ne, bool_decide_false by (done || naive_solver).
      destruct (streams st !! id) as [c|]; cbn; by rewrite ?andb_false_r, ?Hsame.
  - destruct (streams st !! id) as [c|]; cbn; by rewrite ?andb_false_r, ?Hsame.
Qed.

Lemma node_ok_deliver rs an q n via i p t m :
  (p, t, m) ∈ an -> node_ok rs an q n ->
  node_ok rs an q (mkNode (handle_event (worker n) (GMessage via i (gossip_message p t m))) (asked n)).
Proof.
  destruct n as [st a]; cbn [worker asked]. intros Han [Hf Hq Hi Hp Hr]; cbn [worker asked] in *.
  destruct (handle_event_same st (GMessage via i (gossip_message p t m)))
    as (Hi' & Hq' & _ & Hf' & _).
  split; cbn [worker asked]; rewrite ?Hf', ?Hq', ?Hi'; [|done|done|done|].
  - intros id. rewrite deliver_streams, fmap_is_Some. apply Hf.
  - intros id c msg. rewrite deliver_streams. intros (c0 & Hc0 & ->)%fmap_Some; cbn [received].
    intros [Hm|Hm]%elem_of_app; [by eauto|].
    destruct (listening c0); cbn in Hm; [|by apply elem_of_nil in Hm].
    case_bool_decide as Hreg; [|by apply elem_of_nil in Hm].
    apply list_elem_of_singleton in Hm as ->.
    destruct (Hi _ _ Hreg) as (u & Hu & Htu). by eauto 6.
Qed.

Lemma nodes_ok_node net p n rs an :
  requested net ⊆ rs -> published net ⊆ an -> node_ok rs an p n -> nodes_ok net ->
  nodes_ok (mkNetwork (nodes (set_node p n net)) rs an).
Proof.
  intros Hrs Han Hn Hall q. cbn. case_decide; [by subst|]. by eapply node_ok_mono, Hall.
Qed.

(** The record of what was published only grows from the requests. *)
Lemma publishes_requested rs an p n :
  node_ok rs an p n -> forall x, x ∈ publishes p (worker n) -> x ∈ rs.
Proof.
  intros Hok x. unfold publishes. destruct (from_service (worker n)) as [|[] q] eqn:Hq;
    try (by intros ?%elem_of_nil).
  intros ->%list_elem_of_singleton. apply (nk_publish _ _ _ _ Hok). rewrite Hq. by left.
Qed.

Lemma net_step_nodes net net' : net_step net net' -> nodes_ok net -> nodes_ok net'.
Proof.
  intros Hs Hall.
  destruct Hs as [net p st' Hc|net p t|net p t m|net p|net p q via i t m Hp|net q e He].
  - apply nodes_ok_node; try done. by apply node_ok_client.
  - apply nodes_ok_node; try done. by apply node_ok_subscribe.
  - apply (nodes_ok_node net p _ (requested net ++ [(p, t, m)])); try set_solver.
    apply (node_ok_mono (requested net ++ [(p, t, m)]) (published net)); try set_solver.
    assert (Hn : node_ok (requested net ++ [(p, t, m)]) (published net) p (nodes net p))
      by (eapply node_ok_mono, Hall; set_solver).
    revert Hn. destruct (nodes net p) as [st a]. apply node_ok_quiet; cbn; eauto;
      intros ? ?; rewrite elem_of_app, list_elem_of_singleton; [naive_solver|].
    intros [?|[= -> ->]]; [by left|right; set_solver].
  - apply (nodes_ok_node net p _ (requested net)); try set_solver.
    eapply node_ok_mono, node_ok_serve, Hall; set_solver.
  - apply nodes_ok_node; try done. by apply node_ok_deliver.
  - apply nodes_ok_node; try done. by apply node_ok_event.
Qed.
Lemma net_step_published net net' : net_step net net' -> nodes_ok net ->
  requested net ⊆ requested net' /\
  forall x, x ∈ published net' -> x ∈ published net \/ x ∈ requested net.
Proof.
  intros Hs Hall.
  destruct Hs as [net p st' Hc|net p t|net p t m|net p|net p q via i t m Hp|net q e He];
    cbn [requested published]; (split; [set_solver|]); auto.
  intros x [Hx|Hx]%elem_of_app; [by left|right]. by eapply publishes_requested.
Qed.

Lemma net_step_ok net net' : net_step net net' -> net_ok net -> net_ok net'.
Proof.
  intros Hs [Hall Hsub]. split; [by eapply net_step_nodes|].
  destruct (net_step_published _ _ Hs Hall) as [Hr Hp]. intros x [?|?]%Hp; auto.
Qed.

Lemma net_reachable_ok net : net_reachable net -> net_ok net.
Proof.
  induction 1 as [swarms|net net' Hr IH Hs]; [|by eapply net_step_ok].
  split; [|done]. intros p. split; cbn; try (by intros; set_solver).
  intros id [[? Hid]|[? Hid]]; by rewrite lookup_empty in Hid.
Qed.

(** ** Nothing that was asked for is lost *)

(** What a client asked to publish is out, or waits for the worker. *)
Definition on_the_way net : Prop :=
  forall p t m, (p, t, m) ∈ requested net ->
    (p, t, m) ∈ published net \/ Publish t m ∈ from_service (worker (nodes net p)).

Lemma on_the_way_node net p n rs an :
  (forall t m, (p, t, m) ∈ rs -> (p, t, m) ∈ requested net \/ Publish t m ∈ from_service (worker n)) ->
  (forall q t m, q <> p -> (q, t, m) ∈ rs -> (q, t, m) ∈ requested net) ->
  published net ⊆ an ->
  (forall t m, Publish t m ∈ from_service (worker (nodes net p)) ->
     (p, t, m) ∈ an \/ Publish t m ∈ from_service (worker n)) ->
  on_the_way net -> on_the_way (mkNetwork (nodes (set_node p n net)) rs an).
Proof.
  intros Hrs Hother Han Hq Hw q t m; cbn [requested published nodes set_node].
  case_decide as Hqp; [subst q|].
  - intros [Hin|?]%Hrs; [|by right]. destruct (Hw _ _ _ Hin) as [?|?]; [left; auto|auto].
  - intros Hin%Hother; [|done]. destruct (Hw _ _ _ Hin) as [?|?]; [left; auto|by right].
Qed.

Lemma client_step_queue st st' : client_step st st' -> from_service st ⊆ from_service st'.
Proof. destruct 1; cbn; [set_solver..|done]. Qed.

Lemma net_step_on_the_way net net' : net_step net net' -> on_the_way net -> on_the_way net'.
Proof.
  intros Hs. destruct Hs as [net p st' Hc|net p t|net p t m|net p|net p q via i t m Hp|net q e He];
    apply on_the_way_node; cbn [worker]; try done; try (by left).
  - intros t m Hm. right. by apply (client_step_queue _ _ Hc).
  - intros u m Hm. right. cbn. set_solver.
  - intros u v [?|[= -> ->]%list_elem_of_singleton]%elem_of_app; [by left|right; cbn; set_solver].
  - intros q u v Hq [?|[= -> -> ->]%list_elem_of_singleton]%elem_of_app; done.
  - intros u v Hm. right. cbn. set_solver.
  - set_solver.
  - intros t m. unfold serve, publishes. destruct (from_service _) as [|r q] eqn:Hq; [by intros ?%elem_of_nil|].
    destruct (handle_request_replies r (set_queue q (worker (nodes net p)))) as (-> & _).
    intros [<-|?]%elem_of_cons; [left; set_solver|by right].
  - intros u v Hm. right.
    by destruct (handle_event_same (worker (nodes net q)) (GMessage via i (gossip_message p t m))) as (_ & -> & _).
  - intros u v Hm. right. by destruct (handle_event_same (worker (nodes net q)) e) as (_ & -> & _).
Qed.
Lemma net_reachable_on_the_way net : net_reachable net -> on_the_way net.
Proof.
  induction 1 as [swarms|net net' _ IH Hs]; [by intros ??? ?%elem_of_nil|by eapply net_step_on_the_way].
Qed.

(** The worker of a node can serve all that is queued, the other nodes staying as they
    are. *)
Definition served_by p net net' : Prop :=
  requested net' = requested net /\ forall q, q <> p -> nodes net' q = nodes net q.
Lemma serves_the_queue net p : exists net',
  rtc (fun a b => net_step a b /\ served_by p a b) net net' /\
  from_service (worker (nodes net' p)) = [].
Proof.
  remember (length (from_service (worker (nodes net p)))) as k eqn:Hk. revert net Hk.
  induction k as [|k IH]; intros net Hk.
  - exists net. split; [apply rtc_refl|]. by apply nil_length_inv.
  - destruct (from_service (worker (nodes net p))) as [|r q] eqn:Hq; [done|].
    set (net1 := mkNetwork (nodes (on_worker serve p net)) (requested net)
      (published net ++ publishes p (worker (nodes net p)))).
    destruct (IH net1) as (net' & Hr & He).
    { cbn. rewrite decide_True by done. cbn. unfold serve. rewrite Hq.
      destruct (handle_request_replies r (set_queue q (worker (nodes net p)))) as (-> & _).
      by cbn in *; simplify_eq. }
    exists net'. split; [|done]. eapply rtc_l; [|exact Hr]. split; [apply net_serve|].
    split; [done|]. intros q' Hq'. cbn. by rewrite decide_False.
Qed.

Context `{!TopicHashingLaws TopicHash}.

(** What a stream holds was asked for on its topic. *)
Lemma received_requested net q id c t msg :
  net_ok net -> streams (worker (nodes net q)) !! id = Some c ->
  asked (nodes net q) !! id = Some t -> msg ∈ received c -> (from msg, t, data msg) ∈ requested net.
Proof using Type*.
  intros [Hall Hsub] Hc Ht Hm.
  destruct (nk_received _ _ _ _ (Hall q) _ _ _ Hc Hm) as (t' & u & Ht' & Hu & Hin).
  apply no_hash_inj in Hu. simplify_eq. by apply Hsub.
Qed.

(** C13: from a publisher to a subscriber.  In a network of workers, whatever the
    clients do and in whatever order messages are handed over, lost or repeated:
    every message in the stream of a subscription was asked to be published, on
    the topic of the subscription, by the client of the node the message names;
    and a message published on a topic that reaches a node with a listening
    stream registered for the topic is put at the end of that stream, every other
    stream of the node staying as it was. *)
Theorem network_delivery net : net_reachable net ->
  (forall q id c t msg, streams (worker (nodes net q)) !! id = Some c ->
     asked (nodes net q) !! id = Some t -> msg ∈ received c ->
     (from msg, t, data msg) ∈ requested net) /\
  (forall p q via i t m id c, (p, t, m) ∈ published net ->
     inbox (worker (nodes net q)) !! (no_hash t : TopicHash) = Some id ->
     streams (worker (nodes net q)) !! id = Some c -> listening c = true ->
     exists net', net_step net net' /\
       nodes net' q =
         mkNode (handle_event (worker (nodes net q)) (GMessage via i (gossip_message p t m)))
           (asked (nodes net q)) /\
       streams (worker (nodes net' q)) !! id =
         Some (mkStream (received c ++ [mkMessage p m]) true (sender_alive c)) /\
       forall id', id' <> id ->
         streams (worker (nodes net' q)) !! id' = streams (worker (nodes net q)) !! id').
Proof using Type*.
  intros Hr. apply net_reachable_ok in Hr. split.
  - intros q id c t msg. by apply received_requested.
  - intros p q via i t m id c Hp Hreg Hc Hl.
    eexists. split; [by apply (net_deliver net p q via i t m)|].
    cbn [on_worker set_node nodes]. rewrite decide_True by done. split; [done|].
    cbn [worker]. split.
    + rewrite deliver_streams, Hc; cbn. by rewrite Hl, bool_decide_true.
    + intros id' Hne. rewrite deliver_streams, Hreg, bool_decide_false by naive_solver.
      destruct (streams _ !! id') as [[]|]; cbn; by rewrite ?andb_false_r, ?app_nil_r.
Qed.
End network.
