(* ===== verification/Discovery.v ===== *)
(** * Peer discovery

    [robonomics/protocol/src/pubsub/discovery.rs], written against the trait
    [PubSub] ([pubsub.rs]): an interface here, which the worker of [Gossip]
    implements ([gossip_service]). *)
From stdpp Require Import prelude gmap strings list.
From Stdlib Require Import ZArith Lia.
From S2P Require Import Prelude Frame Gossip GossipFacts.
Local Open Scope Z_scope.

(** The part of the trait [PubSub] discovery uses: an awaited call gives [None]
    when its channel was cancelled. *)
Class PubSubService (W Multiaddr : Type) : Type := {
  ps_listeners : W -> option (list Multiaddr) * W;
  ps_connect : Multiaddr -> W -> option bool * W;
  ps_publish : string -> bytes -> W -> W;
}.
#[export] Hint Mode PubSubService ! - : typeclass_instances.

(** [struct DiscoveryMessage]. *)
Record DiscoveryMessage (Multiaddr : Type) : Type := mkDiscoveryMessage {
  dm_peer_id : string;
  dm_timestamp : Z;
  dm_listeners : list Multiaddr;
}.
Arguments mkDiscoveryMessage {Multiaddr} _ _ _.
Arguments dm_peer_id {Multiaddr} _.
Arguments dm_timestamp {Multiaddr} _.
Arguments dm_listeners {Multiaddr} _.

Definition DISCOVERY_TOPIC_NAME : string := "_robonomics_pubsub_peer_discovery".

(** [timestamp]: whole seconds since the epoch, of a clock in nanoseconds, and
    zero for a clock set before it. *)
Definition timestamp (now : Z) : Z := if now <? 0 then 0 else now / 10 ^ 9.

Section discovery.
Context {W PeerId Multiaddr : Type}.
Context `{!PubSubService W Multiaddr, !EqDecision PeerId}.
(** [bincode], and [PeerId::to_base58]. *)
Context (serialize : DiscoveryMessage Multiaddr -> option bytes).
Context (deserialize : bytes -> option (DiscoveryMessage Multiaddr)).
Context (to_base58 : PeerId -> string).
(** The local peer. *)
Context (self : PeerId).

(** One round of [discovery]'s loop, at a given time; the loop then sleeps for a
    minute. *)
Definition discovery_round (now : Z) (w : W) : outcome Empty_set W :=
  match ps_listeners w with
  | (Some listeners, w) =>
      if (0 <? length listeners)%nat then
        b ← expect_some "called `Result::unwrap()` on an `Err` value"
              (serialize (mkDiscoveryMessage (to_base58 self) (timestamp now) listeners));
        Return (ps_publish DISCOVERY_TOPIC_NAME b w)
      else Return w
  | (None, w) => Return w
  end.

(** [discovery], as far as the clock readings given: one round per reading. *)
Fixpoint discovery (clock : list Z) (w : W) : outcome Empty_set W :=
  match clock with
  | [] => Return w
  | now :: clock => w ← discovery_round now w; discovery clock w
  end.

(** [connect]: the addresses are dialled one after the other, results ignored. *)
Definition connect (w : W) (msg : Message PeerId) : W :=
  if decide (from msg = self) then w
  else match deserialize (data msg) with
       | Some message => foldl (fun w addr => (ps_connect addr w).2) w (dm_listeners message)
       | None => w
       end.

(** [start]'s second task: [for_each] handles the messages of the discovery
    topic in order. *)
Definition handle_messages (msgs : list (Message PeerId)) (w : W) : W := foldl connect w msgs.

(** Of an announcement only the addresses count: neither the peer it names nor its
    time is looked at, nor who else sent it. *)
Lemma announcement_unchecked (w : W) (p q : PeerId) v v' m m' :
  p <> self -> q <> self -> deserialize v = Some m -> deserialize v' = Some m' ->
  dm_listeners m = dm_listeners m' -> connect w (mkMessage p v) = connect w (mkMessage q v').
Proof.
  intros Hp Hq Hm Hm' Hl. unfold connect; cbn [from data].
  by rewrite !decide_False, Hm, Hm', Hl by done.
Qed.
End discovery.

(** ** The worker as the service

    A call is queued, and awaited while the worker is polled. *)
Section service.
Context {S PeerId Multiaddr TopicHash : Type}.
Context `{!EqDecision TopicHash, !Countable TopicHash, !Swarm S Multiaddr,
  !TopicHashing TopicHash}.
Abbreviation st_t := (@State S PeerId Multiaddr TopicHash _ _).

Definition await_listeners (st : st_t) : option (list Multiaddr) * st_t :=
  let (id, st) := service_listeners st in
  let st := poll [] st in
  (match replies st !! id with Some (GotListeners l) => Some l | _ => None end, st).

Definition await_connect (address : Multiaddr) (st : st_t) : option bool * st_t :=
  let (id, st) := service_connect address st in
  let st := poll [] st in
  (match replies st !! id with Some (GotBool b) => Some b | _ => None end, st).

#[export] Instance gossip_service : PubSubService st_t Multiaddr := {
  ps_listeners := await_listeners;
  ps_connect := await_connect;
  ps_publish := service_publish;
}.

Lemma await_listeners_idle (st : st_t) :
  from_service st = [] ->
  (await_listeners st).1 = Some (swarm_listeners (swarm st)) /\
  swarm (await_listeners st).2 = swarm st /\ from_service (await_listeners st).2 = [].
Proof.
  intros Hq. unfold await_listeners, service_listeners, oneshot, poll, send_request.
  cbn. rewrite Hq. cbn. by rewrite lookup_insert_eq.
Qed.

Lemma await_connect_idle (a : Multiaddr) (st : st_t) :
  from_service st = [] ->
  (await_connect a st).1 = Some (dial_addr a (swarm st)).1 /\
  swarm (await_connect a st).2 = (dial_addr a (swarm st)).2 /\
  from_service (await_connect a st).2 = [].
Proof.
  intros Hq. unfold await_connect, service_connect, oneshot, poll, send_request.
  cbn. rewrite Hq. cbn. unfold serve; cbn.
  unfold Gossip.connect; cbn. destruct (dial_addr a (swarm st)) as [b s]; cbn.
  by rewrite lookup_insert_eq.
Qed.

Lemma dial_all (l : list Multiaddr) (st : st_t) :
  from_service st = [] ->
  let st' := foldl (fun w a => (ps_connect a w).2) st l in
  swarm st' = foldl (fun s a => (dial_addr a s).2) (swarm st) l /\ from_service st' = [].
Proof.
  revert st. induction l as [|a l IH]; intros st Hq; [done|]. cbn [foldl].
  destruct (await_connect_idle a st Hq) as (_ & Hs & Hq').
  rewrite <- Hs. exact (IH _ Hq').
Qed.

Context `{!EqDecision PeerId}.
Context (serialize : DiscoveryMessage Multiaddr -> option bytes).
Context (deserialize : bytes -> option (DiscoveryMessage Multiaddr)).
Context (to_base58 : PeerId -> string).

(** C27: discovery connects the nodes.  With idle workers, a round on a node that
    listens somewhere publishes one message on the discovery topic, from which
    every other node dials exactly the listed addresses, in order; the node
    itself ignores it, and a node that listens nowhere publishes nothing. *)
Theorem discovery_connects (pa pb : PeerId) (a b : st_t) (now : Z) (wire : bytes) :
  let ls := swarm_listeners (swarm a) in
  let message := mkDiscoveryMessage (to_base58 pa) (timestamp now) ls in
  from_service a = [] -> from_service b = [] -> pa <> pb ->
  serialize message = Some wire -> deserialize wire = Some message ->
  exists a', discovery_round serialize to_base58 pa now a = Return a' /\
    swarm (poll [] a') =
      (if decide (ls = []) then swarm a
       else gossip_publish DISCOVERY_TOPIC_NAME wire (swarm a)) /\
    swarm (connect deserialize pb b (mkMessage pa wire)) =
      foldl (fun s addr => (dial_addr addr s).2) (swarm b) ls /\
    connect deserialize pa a (mkMessage pa wire) = a.
Proof.
  cbn zeta. intros Ha Hb Hne Hser Hde. unfold discovery_round, connect. cbn [from data].
  destruct (await_listeners_idle a Ha) as (Hl & Hs & Hq).
  cbn [ps_listeners gossip_service].
  destruct (await_listeners a) as [l a1]; cbn [fst snd] in *. subst l. cbn beta iota.
  rewrite (decide_False (P := pa = pb)), (decide_True (P := pa = pa)), Hde by done.
  destruct (dial_all (swarm_listeners (swarm a)) b Hb) as [Hdial _].
  rewrite Hser. cbn [dm_listeners].
  destruct (swarm_listeners (swarm a)) as [|x l] eqn:Hls; cbn [length Nat.ltb Nat.leb].
  - eexists. split; [done|]. split; [|split; done].
    unfold poll; cbn. by rewrite Hq.
  - eexists. split; [done|]. split; [|split; [exact Hdial|done]].
    unfold poll, ps_publish; cbn. unfold service_publish, send_request; cbn. rewrite Hq; cbn.
    by rewrite Hs.
Qed.
End service.
