(* ===== verification/DiscoveryNet.v ===== *)
(** * Peer discovery in a network

    The nodes of [Network], each with the discovery of
    [robonomics/protocol/src/pubsub/discovery.rs] beside its other clients.  Here the
    two tasks of the discovery, the worker and the network take their steps in any
    order, while [Discovery] has one round at a time on idle workers.  A node that
    does not run this code may put any message on the network, in the name of any
    node. *)
From stdpp Require Import prelude gmap strings list.
From Stdlib Require Import ZArith Lia.
From S2P Require Import Prelude Frame Gossip GossipFacts Network Discovery.

Section discovering.
Context {S PeerId Multiaddr TopicHash : Type}.
Context `{!EqDecision TopicHash, !Countable TopicHash, !Swarm S Multiaddr,
  !TopicHashing TopicHash}.
Context `{!EqDecision PeerId}.
Context (serialize : DiscoveryMessage Multiaddr -> option bytes).
Context (deserialize : bytes -> option (DiscoveryMessage Multiaddr)).
Context (to_base58 : PeerId -> string).
(** The nodes that run this code, and the addresses their users gave them. *)
Context (honest : PeerId -> Prop) (bootnodes : PeerId -> list Multiaddr).

Abbreviation worker_t := (@State S PeerId Multiaddr TopicHash _ _).
Abbreviation network_t := (@Network S PeerId Multiaddr TopicHash _ _).

(** The network, and, for the statements only, the addresses the swarm of a node has
    told its worker it listens on. *)
Record Discovering : Type := mkDiscovering {
  net : network_t;
  listened : list (PeerId * Multiaddr);
}.
Implicit Types (d : Discovering) (n : network_t) (p q : PeerId) (st : worker_t).

(** What serving the next request tells of the swarm. *)
Definition tells p st : list (PeerId * Multiaddr) :=
  match from_service st with
  | Listeners _ :: _ => (fun a => (p, a)) <$> swarm_listeners (swarm st)
  | _ => []
  end.

Inductive discovering_step : Discovering -> Discovering -> Prop :=
(** The workers and the network. *)
| d_serve n l p :
    discovering_step (mkDiscovering n l)
      (let n' := on_worker serve p n in
       mkDiscovering (mkNetwork (nodes n') (requested n)
           (published n ++ publishes p (Network.worker (nodes n p))))
         (l ++ tells p (Network.worker (nodes n p))))
| d_deliver n l p q via id t m : (p, t, m) ∈ published n ->
    discovering_step (mkDiscovering n l)
      (mkDiscovering (on_worker (fun st => handle_event st (GMessage via id (gossip_message p t m))) q n) l)
| d_event n l q e : (forall via id m, e <> GMessage via id m) ->
    discovering_step (mkDiscovering n l)
      (mkDiscovering (on_worker (fun st => handle_event st e) q n) l)
(** The other clients of a node: those of an honest one connect to its bootnodes
    only, and do not publish on the topic of the discovery. *)
| d_client n l p st' : client_step (Network.worker (nodes n p)) st' ->
    (honest p -> forall a, st' = (service_connect a (Network.worker (nodes n p))).2 -> a ∈ bootnodes p) ->
    discovering_step (mkDiscovering n l) (mkDiscovering (on_worker (fun _ => st') p n) l)
| d_subscribe n l p t :
    let nd := nodes n p in
    discovering_step (mkDiscovering n l)
      (mkDiscovering (set_node p (mkNode (service_subscribe t (Network.worker nd)).2
        (<[fresh (Network.worker nd) := t]> (asked nd))) n) l)
| d_publish n l p t m : (honest p -> t <> DISCOVERY_TOPIC_NAME) ->
    discovering_step (mkDiscovering n l)
      (let n' := on_worker (service_publish t m) p n in
       mkDiscovering (mkNetwork (nodes n') (requested n ++ [(p, t, m)]) (published n)) l)
(** A node that is not honest sends what it likes, as if from whom it likes; it is
    recorded as the one who asked for it. *)
| d_forge n l p s t m : ~ honest p ->
    discovering_step (mkDiscovering n l)
      (mkDiscovering (mkNetwork (nodes n) (requested n ++ [(p, t, m)]) (published n ++ [(s, t, m)])) l)
(** [discovery]: what the worker answered to a request for the listeners is announced. *)
| d_announce n l p id ls now wire :
    replies (Network.worker (nodes n p)) !! id = Some (GotListeners ls) -> ls <> [] ->
    serialize (mkDiscoveryMessage (to_base58 p) (timestamp now) ls) = Some wire ->
    discovering_step (mkDiscovering n l)
      (let n' := on_worker (service_publish DISCOVERY_TOPIC_NAME wire) p n in
       mkDiscovering (mkNetwork (nodes n') (requested n ++ [(p, DISCOVERY_TOPIC_NAME, wire)])
         (published n)) l)
(** [connect]: an address of an announcement of another node. *)
| d_connect n l q id c msg m a :
    asked (nodes n q) !! id = Some DISCOVERY_TOPIC_NAME ->
    streams (Network.worker (nodes n q)) !! id = Some c -> msg ∈ received c -> from msg <> q ->
    deserialize (data msg) = Some m -> a ∈ dm_listeners m ->
    discovering_step (mkDiscovering n l)
      (mkDiscovering (on_worker (fun st => (service_connect a st).2) q n) l).

Inductive discovering_reachable : Discovering -> Prop :=
| discovering_start (swarms : PeerId -> S) :
    discovering_reachable
      (mkDiscovering (mkNetwork (fun p => mkNode (worker_new (swarms p)) ∅) [] []) [])
| discovering_next d d' :
    discovering_reachable d -> discovering_step d d' -> discovering_reachable d'.

(** Every step is one of the network, or a forged message. *)
Lemma discovering_network d d' : discovering_step d d' ->
  net_step (net d) (net d') \/
  exists p s t m, ~ honest p /\ nodes (net d') = nodes (net d) /\
    requested (net d') = requested (net d) ++ [(p, t, m)] /\
    published (net d') = published (net d) ++ [(s, t, m)].
Proof.
  destruct 1; cbn [net]; [left..|right|left|left].
  - apply net_serve.
  - by apply net_deliver.
  - by apply net_event.
  - by apply net_client.
  - apply net_subscribe.
  - apply net_publish.
  - by eauto 10.
  - apply net_publish.
  - apply (net_client _ _ _ (client_connect (Network.worker (nodes n q)) a)).
Qed.

(** The workers keep the invariants of [Network]; and a message on the network was
    asked for by its source, or by a node that is not honest. *)
Definition heard_ok n : Prop :=
  nodes_ok n /\
  forall s t m, (s, t, m) ∈ published n -> exists p, (p, t, m) ∈ requested n /\ (honest p -> s = p).

Lemma heard_step d d' : discovering_step d d' -> heard_ok (net d) -> heard_ok (net d').
Proof.
  intros Hs [Hall Hsrc]. destruct (discovering_network _ _ Hs) as [Hn|(p & s & t & m & Hp & Hn & Hr & Ha)].
  - split; [by eapply net_step_nodes|]. destruct (net_step_published _ _ Hn Hall) as [Hr Hp].
    intros s t m [Hin|Hin]%Hp; [|by eauto].
    destruct (Hsrc _ _ _ Hin) as (p & ? & ?). by eauto.
  - split; [intros q|]; rewrite ?Hn, Hr, Ha.
    + eapply node_ok_mono, Hall; set_solver.
    + intros s' t' m' [Hin|[= -> -> ->]%list_elem_of_singleton]%elem_of_app.
      * destruct (Hsrc _ _ _ Hin) as (q & ? & ?). exists q. split; [set_solver|done].
      * exists p. split; [set_solver|done].
Qed.
Lemma discovering_heard d : discovering_reachable d -> heard_ok (net d).
Proof.
  induction 1 as [swarms|d d' _ IH Hs]; [|by eapply heard_step].
  split; [|by intros s t m ?%elem_of_nil].
  apply net_reachable_ok, net_start.
Qed.

(** ** What is dialled was announced *)

(** An announcement of another node, with an address. *)
Definition announced (rs : list (PeerId * string * bytes)) q (a : Multiaddr) : Prop :=
  exists p wire m, p <> q /\ (p, DISCOVERY_TOPIC_NAME, wire) ∈ rs /\
    deserialize wire = Some m /\ a ∈ dm_listeners m.

(** The worker of a node: it has answered with addresses its swarm told it, and the
    node, if honest, asks to connect to bootnodes and to what was announced. *)
Record worker_good (rs : list (PeerId * string * bytes)) (ls : list (PeerId * Multiaddr)) p st :
    Prop := {
  wg_replies id l : replies st !! id = Some (GotListeners l) -> Forall (fun a => (p, a) ∈ ls) l;
  wg_connect a id : honest p -> Connect a id ∈ from_service st -> a ∈ bootnodes p \/ announced rs p a;
}.

Record good d : Prop := {
  gd_worker p : worker_good (requested (net d)) (listened d) p (Network.worker (nodes (net d) p));
  gd_announced p wire : honest p -> (p, DISCOVERY_TOPIC_NAME, wire) ∈ requested (net d) ->
    exists m, serialize m = Some wire /\ Forall (fun a => (p, a) ∈ listened d) (dm_listeners m);
}.

Lemma worker_good_mono rs ls rs' ls' p st :
  rs ⊆ rs' -> ls ⊆ ls' -> worker_good rs ls p st -> worker_good rs' ls' p st.
Proof.
  intros Hrs Hls [Hr Hc]. split.
  - intros id l Hl. eapply Forall_impl; [by eapply Hr|]. auto.
  - intros a id Hp Ha. destruct (Hc a id Hp Ha) as [?|(q & wire & m & ? & ? & ? & ?)]; [by left|].
    right. exists q, wire, m. auto.
Qed.

(** A change of the worker that answers with nothing new, and asks to connect to what
    it may. *)
Lemma worker_good_change rs ls p st st' :
  (forall id l, replies st' !! id = Some (GotListeners l) ->
     replies st !! id = Some (GotListeners l) \/ Forall (fun a => (p, a) ∈ ls) l) ->
  (forall a id, honest p -> Connect a id ∈ from_service st' ->
     Connect a id ∈ from_service st \/ a ∈ bootnodes p \/ announced rs p a) ->
  worker_good rs ls p st -> worker_good rs ls p st'.
Proof.
  intros H1 H2 [Hr Hc]. split.
  - intros id l Hl. destruct (H1 _ _ Hl); eauto.
  - intros a id Hp Ha. destruct (H2 _ _ Hp Ha); eauto.
Qed.

(** A request is queued, its channel still empty. *)
Lemma worker_good_request rs ls p st r id st' :
  replies st' = replies st \/ replies st' = <[id := Waiting]> (replies st) ->
  from_service st' = from_service st ++ [r] ->
  (forall a i, honest p -> r = Connect a i -> a ∈ bootnodes p \/ announced rs p a) ->
  worker_good rs ls p st -> worker_good rs ls p st'.
Proof.
  intros Hr Hq Hc. apply worker_good_change.
  - intros i l. destruct Hr as [-> | ->]; [by left|]. rewrite lookup_insert.
    case_decide; [done|by left].
  - intros a i Hp. rewrite Hq, elem_of_app, list_elem_of_singleton. intros [?|Ha]; [by left|].
    right. by eapply Hc.
Qed.

Lemma serve_replies st id l : replies (serve st) !! id = Some (GotListeners l) ->
  replies st !! id = Some (GotListeners l) \/
  exists i rest, from_service st = Listeners i :: rest /\ l = swarm_listeners (swarm st).
Proof.
  unfold serve. destruct (from_service st) as [|[a i|a i|i|t i|t i|t m] q] eqn:Hq;
    cbn [handle_request]; [by left|..].
  - unfold listen. destruct (listen_on a _). cbn. rewrite lookup_insert. case_decide; [done|by left].
  - unfold Gossip.connect. destruct (dial_addr a _). cbn. rewrite lookup_insert.
    case_decide; [done|by left].
  - cbn. rewrite lookup_insert. case_decide; [intros [= <-]; by eauto|by left].
  - unfold Gossip.subscribe. destruct (gossip_subscribe t _) as [[] ?]; cbn; [|by left].
    destruct (inbox st !! _); by left.
  - unfold Gossip.unsubscribe. destruct (gossip_unsubscribe t _) as [[] ?]; cbn;
      [destruct (inbox st !! _); cbn|]; rewrite lookup_insert; (case_decide; [done|by left]).
  - by left.
Qed.

Lemma worker_good_serve rs ls p st :
  worker_good rs (ls ++ tells p st) p st -> worker_good rs (ls ++ tells p st) p (serve st).
Proof.
  apply worker_good_change.
  - intros id l Hl. destruct (serve_replies _ _ _ Hl) as [?|(i & q & Hq & ->)]; [by left|].
    right. apply Forall_forall. intros a Ha. apply elem_of_app. right.
    unfold tells. rewrite Hq. by apply list_elem_of_fmap_2.
  - intros a id _. unfold serve. destruct (from_service st) as [|r q] eqn:Hq; [rewrite Hq; by left|].
    destruct (handle_request_replies r (set_queue q st)) as (-> & _). left. by right.
Qed.

Lemma good_node d p nd rs an ls :
  requested (net d) ⊆ rs -> listened d ⊆ ls -> worker_good rs ls p (Network.worker nd) ->
  (forall q wire, honest q -> (q, DISCOVERY_TOPIC_NAME, wire) ∈ rs ->
     (q, DISCOVERY_TOPIC_NAME, wire) ∈ requested (net d) \/
     exists m, serialize m = Some wire /\ Forall (fun a => (q, a) ∈ ls) (dm_listeners m)) ->
  good d -> good (mkDiscovering (mkNetwork (nodes (set_node p nd (net d))) rs an) ls).
Proof.
  intros Hrs Hls Hnd Hnew [Hw Ha]. split; cbn [net listened nodes requested set_node].
  - intros q. case_decide as Hq; [by subst|]. by eapply worker_good_mono, Hw.
  - intros q wire Hq Hin. destruct (Hnew q wire Hq Hin) as [Hold|?]; [|done].
    destruct (Ha q wire Hq Hold) as (m & ? & Hm). exists m. split; [done|].
    eapply Forall_impl; [exact Hm|]. auto.
Qed.
(** The same when nothing is asked to be published. *)
Lemma good_quiet d p nd an :
  worker_good (requested (net d)) (listened d) p (Network.worker nd) -> good d ->
  good (mkDiscovering (mkNetwork (nodes (set_node p nd (net d))) (requested (net d)) an) (listened d)).
Proof. intros Hnd. apply good_node; try done. by left. Qed.

Ltac request st := eapply (worker_good_request _ _ _ st _ (fresh st)); [by auto|reflexivity|intros a' i' Hp' Hr'; try done|].

Lemma client_good rs ls p st st' :
  client_step st st' ->
  (honest p -> forall a, st' = (service_connect a st).2 -> a ∈ bootnodes p) ->
  worker_good rs ls p st -> worker_good rs ls p st'.
Proof.
  intros Hs Hb. destruct Hs as [st a|st|st a|st t|st id]; intros Hw.
  - request st. exact Hw.
  - request st. exact Hw.
  - request st; [|exact Hw]. simplify_eq. left. by apply Hb.
  - request st. exact Hw.
  - revert Hw. apply worker_good_change; by left.
Qed.

Context `{!TopicHashingLaws TopicHash}.

(** What the stream of the discovery of an honest node holds was announced. *)
Lemma received_announced n q id c msg m a :
  heard_ok n -> honest q -> asked (nodes n q) !! id = Some DISCOVERY_TOPIC_NAME ->
  streams (Network.worker (nodes n q)) !! id = Some c -> msg ∈ received c -> from msg <> q ->
  deserialize (data msg) = Some m -> a ∈ dm_listeners m -> announced (requested n) q a.
Proof using Type*.
  intros [Hall Hsrc] Hq Ht Hc Hm Hne Hde Ha.
  destruct (nk_received _ _ _ _ (Hall q) _ _ _ Hc Hm) as (t & u & Ht' & Hu & Hin).
  apply no_hash_inj in Hu. simplify_eq.
  destruct (Hsrc _ _ _ Hin) as (p & Hreq & Hp). exists p, (data msg), m.
  split; [|done]. intros ->. by rewrite (Hp Hq) in Hne.
Qed.

Lemma discovering_step_good d d' : heard_ok (net d) -> discovering_step d d' -> good d -> good d'.
Proof.
  intros Hok Hs Hd. pose proof (gd_worker _ Hd) as Hw.
  destruct Hs as [n l p|n l p q via id t m Hm|n l q e He|n l p st' Hc Hb|n l p t nd|n l p t m Ht
    |n l p s t m Hp|n l p id ls now wire Hr Hne Hwire|n l q id c msg m a Hid Hc Hm Hne Hde Ha]; cbn [net listened] in *.
  - apply (good_node (mkDiscovering n l) p); cbn [net listened Network.worker]; try set_solver.
    eapply worker_good_serve, worker_good_mono, Hw; set_solver.
  - apply (good_quiet (mkDiscovering n l) q); [|done]. cbn [net listened Network.worker].
    eapply worker_good_change, Hw.
    + destruct (handle_event_same (Network.worker (nodes n q)) (GMessage via id (gossip_message p t m)))
        as (_ & _ & -> & _). by left.
    + intros a i _. destruct (handle_event_same (Network.worker (nodes n q)) (GMessage via id (gossip_message p t m)))
        as (_ & -> & _). by left.
  - apply (good_quiet (mkDiscovering n l) q); [|done]. cbn [net listened Network.worker].
    eapply worker_good_change, Hw.
    + destruct (handle_event_same (Network.worker (nodes n q)) e) as (_ & _ & -> & _). by left.
    + intros a i _. destruct (handle_event_same (Network.worker (nodes n q)) e) as (_ & -> & _). by left.
  - apply (good_quiet (mkDiscovering n l) p); [|done]. by eapply client_good.
  - apply (good_quiet (mkDiscovering n l) p); [|done]. cbn [net listened Network.worker].
    request (Network.worker nd). apply Hw.
  - apply (good_node (mkDiscovering n l) p); cbn [net listened Network.worker]; [set_solver|done| | |done].
    + request (Network.worker (nodes n p)). eapply worker_good_mono, Hw; set_solver.
    + intros q wire Hq [?|[= -> <- ->]%list_elem_of_singleton]%elem_of_app; [by left|]. by destruct (Ht Hq).
  - destruct Hd as [_ Ha]. split; cbn [net listened nodes requested].
    + intros q. eapply worker_good_mono, Hw; set_solver.
    + intros q wire Hq [Hin|[= -> _ _]%list_elem_of_singleton]%elem_of_app; [by eapply Ha|done].
  - apply (good_node (mkDiscovering n l) p); cbn [net listened Network.worker]; [set_solver|done| | |done].
    + request (Network.worker (nodes n p)). eapply worker_good_mono, Hw; set_solver.
    + intros q w Hq [?|[= -> ->]%list_elem_of_singleton]%elem_of_app; [by left|]. right.
      eexists. split; [exact Hwire|]. cbn [dm_listeners]. by eapply wg_replies.
  - apply (good_quiet (mkDiscovering n l) q); [|done]. cbn [net listened Network.worker].
    request (Network.worker (nodes n q)); [|by apply Hw]. simplify_eq. right. by eapply received_announced.
Qed.

Lemma discovering_good d : discovering_reachable d -> good d.
Proof.
  induction 1 as [swarms|d d' Hr IH Hs].
  - split; cbn; [|by intros p w ? ?%elem_of_nil]. intros p. split; cbn; [|by intros a i ? ?%elem_of_nil].
    intros id l. by rewrite lookup_empty.
  - eapply discovering_step_good; [|exact Hs|exact IH]. by apply discovering_heard.
Qed.

(** C28: what a node dials was announced.  Let any number of nodes discover each
    other, the tasks of each, its worker, its other clients and the network taking
    their steps in any order, and let the nodes that do not run this code send any
    messages, also in the name of others.  An honest node asks its worker to connect
    to an address only if its user gave it as a bootnode, or another node announced
    it; and what an honest node announced, its own swarm had told it that it listens
    on. *)
Theorem dials_are_announced d q a id :
  discovering_reachable d -> honest q ->
  Connect a id ∈ from_service (Network.worker (nodes (net d) q)) ->
  a ∈ bootnodes q \/
  exists p wire m, p <> q /\ (p, DISCOVERY_TOPIC_NAME, wire) ∈ requested (net d) /\
    deserialize wire = Some m /\ a ∈ dm_listeners m /\
    (honest p -> (forall m' w, serialize m' = Some w -> deserialize w = Some m') ->
     (p, a) ∈ listened d).
Proof using Type*.
  intros Hr Hq Hin. pose proof (discovering_good _ Hr) as [Hw Ha].
  destruct (wg_connect _ _ _ _ (Hw q) a id Hq Hin) as [?|(p & wire & m & Hne & Hreq & Hde & Hl)];
    [by left|right].
  exists p, wire, m. do 4 (split; [done|]). intros Hp Hround.
  destruct (Ha p wire Hp Hreq) as (m' & Hser & Hall).
  apply Hround in Hser. simplify_eq. rewrite Forall_forall in Hall. by apply Hall.
Qed.
End discovering.
