(* ===== verification/Vanity.v ===== *)
(** * Vanity addresses

    [bin/subkey/src/vanity.rs]: the search for a key whose address contains a
    pattern.  Strings are sequences of characters (code points), and their UTF-8
    bytes where the code works on bytes ([len], slicing, [find]). *)
From stdpp Require Import prelude list strings.
From Stdlib Require Import ZArith Lia.
From S2P Require Import Prelude.
Local Open Scope Z_scope.

(** ** UTF-8 *)

Definition char_ok (c : Z) : Prop := 0 <= c < 1114112.

Definition utf8_char (c : Z) : bytes :=
  if c <? 128 then [c]
  else if c <? 2048 then [192 + c / 64; 128 + c mod 64]
  else if c <? 65536 then [224 + c / 4096; 128 + (c / 64) mod 64; 128 + c mod 64]
  else [240 + c / 262144; 128 + (c / 4096) mod 64; 128 + (c / 64) mod 64; 128 + c mod 64].

Definition utf8 (s : list Z) : bytes := s ≫= utf8_char.

(** [str::is_char_boundary], on the bytes of a string. *)
Definition is_char_boundary (v : bytes) (n : nat) : bool :=
  match n with
  | O => true
  | _ => match v !! n with
         | None => (n =? length v)%nat
         | Some b => negb ((128 <=? b) && (b <? 192))
         end
  end.

(** [&s[0..n]]. *)
Definition slice_to {E} (v : bytes) (n : nat) : outcome E bytes :=
  if is_char_boundary v n then Return (take n v)
  else Panic "byte index is not a char boundary".

(** [str::find]: the position of the first occurrence. *)
Fixpoint is_prefix (u v : bytes) : bool :=
  match u, v with
  | [], _ => true
  | x :: u, y :: v => (x =? y) && is_prefix u v
  | _ :: _, [] => false
  end.

Fixpoint str_find (v u : bytes) : option nat :=
  if is_prefix u v then Some 0%nat
  else match v with
       | [] => None
       | _ :: v => S <$> str_find v u
       end.

(** ** Seeds and scores *)

Definition good_waypoint (done : Z) : Z :=
  if done <=? 1000000 then 100000
  else if done <=? 10000000 then 1000000
  else if done <=? 100000000 then 10000000
  else 100000000.

(** [next_seed]: the loop over the bytes stops at the first one below 255. *)
Fixpoint next_seed (seed : bytes) : bytes :=
  match seed with
  | [] => []
  | b :: seed => if b =? 255 then 0 :: next_seed seed else wrap 8 (b + 1) :: seed
  end.

(** [calculate_score]: the loop over [truncate], by the size of the snip that is
    left; [usize] arithmetic. *)
Fixpoint score_snips (desired key : bytes) (snip_size : nat) : outcome string Z :=
  match snip_size with
  | O => Return 0
  | S n =>
      truncated ← slice_to desired snip_size;
      match str_find key truncated with
      | Some pos =>
          Return (wrap 64 (wrap 64 (47 - Z.of_nat pos) + wrap 64 (Z.of_nat snip_size * 48)))
      | None => score_snips desired key n
      end
  end.

Definition calculate_score (desired key : bytes) : outcome string Z :=
  score_snips desired key (length desired).

(** [KeyPair]. *)
Record KeyPair (Pair : Type) : Type := mkKeyPair { pair : Pair; seed : bytes; score : Z }.
Arguments mkKeyPair {Pair} _ _ _.
Arguments pair {Pair} _.
Arguments seed {Pair} _.
Arguments score {Pair} _.

Section vanity.
(** [char::is_alphanumeric]; the cryptography [C]: the default seed, the key of a
    seed and its address; the random bytes of the [n]-th call of [OsRng]. *)
Context {Pair : Type}.
Context (is_alphanumeric : Z -> bool).
Context (seed_default : bytes) (from_seed : bytes -> Pair) (ss58_from_pair : Pair -> bytes).
Context (os_rng : nat -> bytes).

Definition validate_base58 (c : Z) : bool :=
  is_alphanumeric c && negb (existsb (Z.eqb c) [48; 108; 73; 79]).

Definition err_empty : string := "Pattern must not be empty".
Definition err_chars : string :=
  "Pattern can only contains valid characters in base58 (all alphanumeric except for 0, l, I and O)".

(** The variables of [generate_key]'s loop; [s_rng] counts the calls of [OsRng]. *)
Record Search : Type := mkSearch { s_done : Z; s_best : Z; s_seed : bytes; s_rng : nat }.

(** One turn of the loop: the key pair returned, or the variables of the next
    turn. *)
Definition search_turn (desired : bytes) (st : Search) : outcome string (KeyPair Pair + Search) :=
  let top := 45 + Z.of_nat (length desired) * 48 in
  let '(sd, rng) :=
    if s_done st mod 100000 =? 0 then (os_rng (s_rng st), S (s_rng st))
    else (next_seed (s_seed st), s_rng st) in
  let p := from_seed sd in
  let ss58 := ss58_from_pair p in
  sc ← calculate_score desired ss58;
  if (s_best st <? sc) || (length desired <? 2)%nat then
    if top <=? sc then Return (inl (mkKeyPair p sd sc))
    else Return (inr (mkSearch (s_done st + 1) sc sd rng))
  else Return (inr (mkSearch (s_done st + 1) (s_best st) sd rng)).

(** The loop, for at most [fuel] turns. *)
Fixpoint search (fuel : nat) (desired : bytes) (st : Search) : outcome string (option (KeyPair Pair)) :=
  match fuel with
  | O => Return None
  | S fuel =>
      r ← search_turn desired st;
      match r with
      | inl kp => Return (Some kp)
      | inr st => search fuel desired st
      end
  end.

Definition generate_key (fuel : nat) (desired : list Z) : outcome string (option (KeyPair Pair)) :=
  match desired with
  | [] => Fail err_empty
  | _ =>
      if negb (forallb validate_base58 desired) then Fail err_chars
      else search fuel (utf8 desired) (mkSearch 0 0 seed_default 0)
  end.

(** The seed of the [k]-th turn: a random one every hundred thousand turns, then
    the successor of the one before. *)
Fixpoint seed_at (k : nat) : bytes :=
  match k with
  | O => os_rng 0
  | S j => if Z.of_nat k mod 100000 =? 0 then os_rng (Z.to_nat (Z.of_nat k / 100000))
           else next_seed (seed_at j)
  end.

(** The address tried in the [k]-th turn. *)
Definition address_at (k : nat) : bytes := ss58_from_pair (from_seed (seed_at k)).
End vanity.
