(* ===== verification/VanityFacts.v ===== *)
(** * Vanity addresses: what the search finds

    The seeds tried are consecutive numbers, the score orders the keys by the
    length of the match and then by its position, and the search returns the
    first key whose address has the whole pattern in its first positions.  A
    pattern with a character that is not ASCII makes it panic. *)
From stdpp Require Import prelude list strings.
From Stdlib Require Import ZArith Lia.
From S2P Require Import Prelude Vanity.
Local Open Scope Z_scope.

(** ** Seeds *)

Lemma next_seed_ok s :
  Forall byte_ok s ->
  Forall byte_ok (next_seed s) /\ length (next_seed s) = length s /\
  le_value (next_seed s) = (le_value s + 1) mod 256 ^ Z.of_nat (length s).
Proof.
  induction 1 as [|b s Hb Hs (IHok & IHlen & IHv)]; [done|]. cbn [next_seed].
  pose proof (le_value_range _ Hs) as Hr. unfold byte_ok, in_width in Hb.
  destruct (Z.eqb_spec b 255) as [->|Hne]; cbn [length le_value]; rewrite pow256_succ.
  - split; [by constructor|]. split; [by rewrite IHlen|]. rewrite IHv.
    replace (255 + 256 * le_value s + 1) with (256 * (le_value s + 1)) by lia.
    rewrite Z.mul_mod_distr_l by lia. lia.
  - assert (Hw : wrap 8 (b + 1) = b + 1) by (apply wrap_small; unfold in_width; lia).
    rewrite Hw. split; [constructor; [unfold byte_ok, in_width; lia|done]|].
    split; [done|]. rewrite Z.mod_small by lia. lia.
Qed.

(** ** Search in a string *)

Lemma is_prefix_spec u v : is_prefix u v = true <-> take (length u) v = u.
Proof.
  revert v. induction u as [|x u IH]; intros [|y v]; cbn; try done.
  rewrite andb_true_iff, Z.eqb_eq, IH. split; [intros [-> ?]; by f_equal|by intros [= -> ?]].
Qed.

(** [pos] is the first position where [u] occurs in [v]. *)
Definition first_occurrence (v u : bytes) (pos : nat) : Prop :=
  take (length u) (drop pos v) = u /\
  forall q, (q < pos)%nat -> take (length u) (drop q v) <> u.

Lemma str_find_some v u pos : str_find v u = Some pos -> first_occurrence v u pos.
Proof.
  revert pos. induction v as [|x v IH]; intros pos.
  - cbn. destruct (is_prefix u []) eqn:Hp; [|done]. intros [= <-].
    apply is_prefix_spec in Hp. split; [done|lia].
  - cbn [str_find]. destruct (is_prefix u (x :: v)) eqn:Hp.
    + intros [= <-]. apply is_prefix_spec in Hp. split; [done|lia].
    + intros (q & Hq & ->)%fmap_Some. destruct (IH _ Hq) as [Ho Hmin].
      split; [done|]. intros [|r] Hr.
      * rewrite drop_0. rewrite <- is_prefix_spec. by rewrite Hp.
      * cbn. apply Hmin. lia.
Qed.

Lemma str_find_none v u : str_find v u = None -> forall q, take (length u) (drop q v) <> u.
Proof.
  induction v as [|x v IH]; cbn [str_find]; destruct (is_prefix u _) eqn:Hp; try done; intros H q.
  - rewrite drop_nil, <- is_prefix_spec. by rewrite Hp.
  - apply fmap_None in H. destruct q as [|q]; [|by apply IH].
    rewrite drop_0, <- is_prefix_spec. by rewrite Hp.
Qed.

Lemma str_find_bound v u pos :
  str_find v u = Some pos -> u <> [] -> (pos < length v)%nat.
Proof.
  intros [Ho _]%str_find_some Hu. destruct (decide (pos < length v)%nat); [done|].
  rewrite drop_ge, take_nil in Ho by lia. by subst.
Qed.

(** A string of small characters does not contain a big one. *)
Lemma str_find_absent v u b :
  Forall (fun c => c < 128) v -> b ∈ u -> 128 <= b -> str_find v u = None.
Proof.
  intros Hv Hb Hbig. destruct (str_find v u) as [pos|] eqn:Hf; [|done].
  apply str_find_some in Hf as [Ho _]. rewrite <- Ho in Hb.
  rewrite Forall_forall in Hv. apply elem_of_take in Hb as (i & Hi & _).
  rewrite lookup_drop in Hi. apply list_elem_of_lookup_2 in Hi. specialize (Hv _ Hi). lia.
Qed.

(** ** Scores *)

Lemma ascii_boundary v n :
  Forall (fun c => 0 <= c < 128) v -> (n <= length v)%nat -> is_char_boundary v n = true.
Proof.
  intros Hv Hn. destruct n as [|n]; [done|]. unfold is_char_boundary.
  destruct (v !! S n) as [b|] eqn:Hb.
  - rewrite Forall_forall in Hv. apply list_elem_of_lookup_2, Hv in Hb.
    by rewrite (proj2 (Z.leb_gt 128 b)) by lia.
  - apply lookup_ge_None in Hb. apply Nat.eqb_eq. lia.
Qed.

(** What the score says: no part of the pattern's beginning occurs, or the longest
    part that does has [n] bytes and first occurs at [pos]. *)
Definition score_means (desired key : bytes) (m : nat) (s : Z) : Prop :=
  (s = 0 /\ forall n, (1 <= n <= m)%nat -> str_find key (take n desired) = None) \/
  exists n pos, (1 <= n <= m)%nat /\ (pos <= 47)%nat /\
    str_find key (take n desired) = Some pos /\
    s = 47 - Z.of_nat pos + 48 * Z.of_nat n /\
    forall k, (n < k <= m)%nat -> str_find key (take k desired) = None.

Lemma score_snips_means desired key m :
  (forall n, (n <= length desired)%nat -> is_char_boundary desired n = true) ->
  (m <= length desired)%nat -> (length key <= 48)%nat -> 48 * Z.of_nat m + 47 < 2 ^ 64 ->
  exists s, score_snips desired key m = Return s /\ score_means desired key m s.
Proof.
  intros Hb Hm Hk. induction m as [|m IH]; intros Hmax.
  - exists 0. split; [done|]. left. split; [done|]. lia.
  - destruct IH as (s & Hs & Hmean); [lia|lia|]. cbn [score_snips].
    unfold slice_to. rewrite Hb by done. cbn [mbind outcome_bind].
    destruct (str_find key (take (S m) desired)) as [pos|] eqn:Hf.
    + assert (Hpos : (pos < length key)%nat).
      { apply str_find_bound in Hf; [done|]. destruct desired; [cbn in *; lia|done]. }
      eexists. split; [reflexivity|]. right. exists (S m), pos.
      split; [lia|]. split; [lia|]. split; [done|]. split; [|lia].
      rewrite !wrap_small; unfold in_width; rewrite ?wrap_small; unfold in_width; lia.
    + exists s. split; [done|]. destruct Hmean as [[-> Hno]|(n & pos & Hn & Hp & Hf' & -> & Hno)].
      * left. split; [done|]. intros n Hn. destruct (decide (n = S m)) as [->|]; [done|].
        apply Hno. lia.
      * right. exists n, pos. split; [lia|]. do 3 (split; [done|]).
        intros k Hk'. destruct (decide (k = S m)) as [->|]; [done|]. apply Hno. lia.
Qed.

(** What a score measures.  For an ASCII pattern and an address of at most 48
    bytes the score is computed without overflow: it is zero when not even the
    first character of the pattern occurs, and otherwise 48 points per byte of the
    longest beginning of the pattern that occurs, plus 47 less its first position:
    a longer match always beats a shorter one, an earlier one a later one. *)
Lemma score_spec (desired key : bytes) :
  Forall (fun c => 0 <= c < 128) desired -> (length key <= 48)%nat ->
  48 * Z.of_nat (length desired) + 47 < 2 ^ 64 ->
  exists s, calculate_score desired key = Return s /\
    ((s = 0 /\ forall n, (1 <= n <= length desired)%nat ->
        forall q, take n (drop q key) <> take n desired) \/
     (exists n pos, (1 <= n <= length desired)%nat /\ (pos <= 47)%nat /\
        s = 48 * Z.of_nat n + (47 - Z.of_nat pos) /\
        first_occurrence key (take n desired) pos /\
        forall k q, (n < k <= length desired)%nat -> take k (drop q key) <> take k desired)).
Proof.
  intros Ha Hk Hmax.
  destruct (score_snips_means desired key (length desired)) as (s & Hs & Hm); auto.
  { intros n. by apply ascii_boundary. }
  assert (Hnone : forall n q, (n <= length desired)%nat ->
    str_find key (take n desired) = None -> take n (drop q key) <> take n desired).
  { intros n q Hn H. pose proof (str_find_none _ _ H q) as Hq.
    by rewrite length_take, Nat.min_l in Hq by lia. }
  exists s. split; [done|]. destruct Hm as [[-> Hno]|(n & pos & Hn & Hp & Hf & -> & Hno)].
  - left. split; [done|]. intros n Hn q. apply Hnone; [lia|]. by apply Hno.
  - right. exists n, pos. split; [done|]. split; [done|]. split; [lia|].
    split; [by apply str_find_some|]. intros k q Hk'. apply Hnone; [lia|]. by apply Hno.
Qed.

(** ** The search *)
Section search.
Context {Pair : Type}.
Context (from_seed : bytes -> Pair) (ss58_from_pair : Pair -> bytes).
Context (os_rng : nat -> bytes).

Abbreviation seed_at' := (seed_at os_rng).
Abbreviation address_at' := (address_at from_seed ss58_from_pair os_rng).
Abbreviation search' := (search from_seed ss58_from_pair os_rng).
Abbreviation turn' := (search_turn from_seed ss58_from_pair os_rng).

(** The seeds tried are consecutive.  In every run of a hundred thousand
    turns the seeds are the successors, as little-endian numbers modulo their
    size, of the random seed the run starts with: no seed is tried twice in a
    run, as long as the run is shorter than the seed space. *)
Lemma seeds_consecutive (len q r : nat) :
  (forall n, length (os_rng n) = len /\ Forall byte_ok (os_rng n)) -> (r < Z.to_nat 100000)%nat ->
  le_value (seed_at' (Z.to_nat 100000 * q + r)) =
    (le_value (os_rng q) + Z.of_nat r) mod 256 ^ Z.of_nat len.
Proof.
  intros Hrng Hr.
  assert (Hstart : seed_at' (Z.to_nat 100000 * q) = os_rng q).
  { destruct q as [|q]; [by rewrite Nat.mul_0_r|].
    destruct (Z.to_nat 100000 * S q)%nat as [|k] eqn:Hk; [lia|]. cbn [seed_at].
    rewrite <- Hk. replace (Z.of_nat (Z.to_nat 100000 * S q)) with (Z.of_nat (S q) * 100000) by lia.
    rewrite Z.mod_mul, Z.div_mul by lia. by rewrite Nat2Z.id. }
  assert (Hall : forall r, (r < Z.to_nat 100000)%nat ->
    let s := seed_at' (Z.to_nat 100000 * q + r) in
    Forall byte_ok s /\ length s = len /\
    le_value s = (le_value (os_rng q) + Z.of_nat r) mod 256 ^ Z.of_nat len).
  { clear r Hr. induction r as [|r IH]; intros Hr; cbn zeta.
    - rewrite Nat.add_0_r, Hstart. destruct (Hrng q) as [Hl Hok]. split; [done|].
      split; [done|]. rewrite Z.add_0_r, <- Hl, Z.mod_small; [done|]. by apply le_value_range.
    - destruct IH as (Hok & Hl & Hv); [lia|]. rewrite Nat.add_succ_r. cbn [seed_at].
      destruct (Z.eqb_spec (Z.of_nat (S (Z.to_nat 100000 * q + r)) mod 100000) 0) as [Hz|_].
      { exfalso. replace (Z.of_nat (S (Z.to_nat 100000 * q + r)))
          with (Z.of_nat (S r) + Z.of_nat q * 100000) in Hz by lia.
        rewrite Z.mod_add, Z.mod_small in Hz by lia. lia. }
      destruct (next_seed_ok _ Hok) as (Hok' & Hl' & Hv').
      split; [done|]. split; [by rewrite Hl'|]. rewrite Hv', Hl, Hv.
      rewrite Z.add_mod_idemp_l by lia. f_equal. lia. }
  by apply Hall.
Qed.

(** A hit: the whole pattern occurs in the address of turn [k] at position 0, 1
    or 2. *)
Definition hit (desired : bytes) (k : nat) : Prop :=
  exists pos, (pos <= 2)%nat /\ str_find (address_at' k) desired = Some pos.

(** The variables before turn [k]. *)
Definition at_turn (k : nat) (st : Search) : Prop :=
  s_done st = Z.of_nat k /\
  s_rng st = Z.to_nat ((Z.of_nat k + 99999) / 100000) /\
  match k with O => True | S j => s_seed st = seed_at' j end.

Lemma turn_seed k st :
  at_turn k st ->
  (if s_done st mod 100000 =? 0 then (os_rng (s_rng st), S (s_rng st))
   else (next_seed (s_seed st), s_rng st)) =
  (seed_at' k, Z.to_nat ((Z.of_nat (S k) + 99999) / 100000)).
Proof.
  intros (Hd & Hr & Hs). rewrite Hd, Hr.
  pose proof (Z.div_mod (Z.of_nat k) 100000 ltac:(lia)) as Hdm.
  pose proof (Z.mod_pos_bound (Z.of_nat k) 100000 ltac:(lia)) as Hm.
  destruct (Z.eqb_spec (Z.of_nat k mod 100000) 0) as [Hz|Hz].
  - assert (H1 : (Z.of_nat k + 99999) / 100000 = Z.of_nat k / 100000).
    { symmetry. apply Z.div_unique with 99999; lia. }
    assert (H2 : (Z.of_nat (S k) + 99999) / 100000 = Z.of_nat k / 100000 + 1).
    { symmetry. apply Z.div_unique with 0; lia. }
    rewrite H1, H2. f_equal; [|lia].
    destruct k as [|k]; [done|]. cbn [seed_at]. by rewrite (proj2 (Z.eqb_eq _ _) Hz).
  - destruct k as [|k]; [done|]. rewrite Hs. cbn [seed_at].
    rewrite (proj2 (Z.eqb_neq _ _) Hz). f_equal. f_equal.
    transitivity (Z.of_nat (S k) / 100000 + 1).
    + symmetry. apply Z.div_unique with (Z.of_nat (S k) mod 100000 - 1); lia.
    + apply Z.div_unique with (Z.of_nat (S k) mod 100000); lia.
Qed.

(** For an ASCII pattern and addresses of the usual length. *)
Context (desired : bytes).
Context (Hascii : Forall (fun c => 0 <= c < 128) desired).
Context (Hsize : 48 * Z.of_nat (length desired) + 47 < 2 ^ 64).
Context (Haddr : forall k, (length (address_at' k) <= 48)%nat).

Lemma score_top k s :
  calculate_score desired (address_at' k) = Return s ->
  (45 + Z.of_nat (length desired) * 48 <= s <-> hit desired k /\ desired <> []).
Proof using Hascii Hsize Haddr.
  intros Hs.
  destruct (score_snips_means desired (address_at' k) (length desired)) as (s' & Hs' & Hm); auto.
  { intros n. by apply ascii_boundary. }
  unfold calculate_score in Hs. rewrite Hs' in Hs. injection Hs as ->. unfold hit.
  destruct Hm as [[-> Hno]|(n & pos & Hn & Hp & Hf & -> & Hno)].
  - split; [lia|]. intros [(pos & _ & Hf) Hne].
    rewrite <- (firstn_all desired), Hno in Hf; [done|]. destruct desired; [done|cbn; lia].
  - split.
    + intros Hle. assert (n = length desired) as -> by lia. rewrite firstn_all in Hf.
      split; [exists pos; split; [lia|done]|]. intros Hnil. rewrite Hnil in Hn. cbn in Hn. lia.
    + intros [(pos' & Hpos' & Hf') _].
      assert (n = length desired) as ->.
      { destruct (decide (n = length desired)); [done|].
        rewrite <- (firstn_all desired), Hno in Hf'; [done|lia]. }
      rewrite firstn_all in Hf. assert (pos = pos') as -> by congruence. lia.
Qed.

(** A turn without a hit goes on; a turn with a hit returns its key. *)
Lemma turn_spec k st :
  desired <> [] -> at_turn k st -> s_best st < 45 + Z.of_nat (length desired) * 48 ->
  exists s, calculate_score desired (address_at' k) = Return s /\
    (hit desired k ->
       turn' desired st = Return (inl (mkKeyPair (from_seed (seed_at' k)) (seed_at' k) s))) /\
    (~ hit desired k -> exists st',
       turn' desired st = Return (inr st') /\ at_turn (S k) st' /\
       s_best st' < 45 + Z.of_nat (length desired) * 48).
Proof using Hascii Hsize Haddr.
  intros Hne Hat Hbest.
  destruct (score_snips_means desired (address_at' k) (length desired)) as (s & Hs & _); auto.
  { intros n. by apply ascii_boundary. }
  exists s. split; [exact Hs|]. pose proof (score_top k s Hs) as Htop.
  unfold search_turn. rewrite (turn_seed k st Hat).
  change (ss58_from_pair (from_seed (seed_at' k))) with (address_at' k).
  unfold calculate_score. rewrite Hs. cbn [mbind outcome_bind].
  assert (Hnext : forall b, at_turn (S k)
    (mkSearch (s_done st + 1) b (seed_at' k) (Z.to_nat ((Z.of_nat (S k) + 99999) / 100000)))).
  { intros b. destruct Hat as (Hd & _ & _). split; [cbn; lia|done]. }
  split.
  - intros Hhit. assert (Hle : 45 + Z.of_nat (length desired) * 48 <= s) by tauto.
    rewrite (proj2 (Z.ltb_lt (s_best st) s)) by lia. cbn [orb].
    by rewrite (proj2 (Z.leb_le _ _) Hle).
  - intros Hno. assert (Hgt : s < 45 + Z.of_nat (length desired) * 48).
    { apply Z.nle_gt. tauto. }
    rewrite (proj2 (Z.leb_gt _ _) Hgt).
    destruct (_ || _); eexists; (split; [done|]; split; [apply Hnext|done]).
Qed.

Lemma search_spec fuel k st :
  desired <> [] -> at_turn k st -> s_best st < 45 + Z.of_nat (length desired) * 48 ->
  (forall j, (k <= j < k + fuel)%nat -> ~ hit desired j) /\
    search' fuel desired st = Return None \/
  exists j s, (k <= j < k + fuel)%nat /\ hit desired j /\
    (forall i, (k <= i < j)%nat -> ~ hit desired i) /\
    calculate_score desired (address_at' j) = Return s /\
    search' fuel desired st =
      Return (Some (mkKeyPair (from_seed (seed_at' j)) (seed_at' j) s)).
Proof using Hascii Hsize Haddr.
  intros Hne. revert k st. induction fuel as [|fuel IH]; intros k st Hat Hbest.
  { left. split; [lia|done]. }
  destruct (turn_spec k st Hne Hat Hbest) as (s & Hs & Hhit & Hmiss).
  assert (Hdec : Decision (hit desired k)).
  { unfold hit. destruct (str_find (address_at' k) desired) as [pos|].
    - destruct (decide (pos <= 2)%nat); [left; by exists pos|].
      right. intros (p & Hp & [= <-]). lia.
    - right. by intros (? & _ & ?). }
  cbn [search]. destruct Hdec as [Hh|Hh].
  - right. exists k, s. rewrite (Hhit Hh). cbn. split; [lia|].
    split; [done|]. split; [lia|done].
  - destruct (Hmiss Hh) as (st' & -> & Hat' & Hbest'). cbn [mbind outcome_bind].
    destruct (IH (S k) st' Hat' Hbest') as [[Hno ->]|(j & s' & Hj & Hhj & Hbefore & Hsj & ->)].
    + left. split; [|done]. intros j Hj.
      destruct (decide (j = k)) as [->|]; [done|]. apply Hno. lia.
    + right. exists j, s'. split; [lia|]. split; [done|]. split; [|by split].
      intros i Hi. destruct (decide (i = k)) as [->|]; [done|]. apply Hbefore. lia.
Qed.
End search.

(** ** Characters that are not ASCII *)

Lemma utf8_ascii s : Forall (fun c => 0 <= c < 128) s -> utf8 s = s.
Proof.
  unfold utf8. induction 1 as [|c s Hc Hs IH]; [done|]. rewrite bind_cons, IH.
  unfold utf8_char. by rewrite (proj2 (Z.ltb_lt c 128)) by lia.
Qed.

Lemma utf8_char_wide c :
  char_ok c -> 128 <= c ->
  exists b0 b1 rest, utf8_char c = b0 :: b1 :: rest /\ 128 <= b0 /\ 128 <= b1 < 192.
Proof.
  intros Hc Hw. unfold char_ok in Hc. unfold utf8_char.
  rewrite (proj2 (Z.ltb_ge c 128)) by lia.
  pose proof (Z.mod_pos_bound c 64 ltac:(lia)).
  pose proof (Z.mod_pos_bound (c / 64) 64 ltac:(lia)).
  pose proof (Z.mod_pos_bound (c / 4096) 64 ltac:(lia)).
  pose proof (Z.div_pos c 64 ltac:(lia) ltac:(lia)).
  pose proof (Z.div_pos c 4096 ltac:(lia) ltac:(lia)).
  pose proof (Z.div_pos c 262144 ltac:(lia) ltac:(lia)).
  repeat case_match; do 3 eexists; (split; [reflexivity|lia]).
Qed.

Lemma first_wide s :
  Forall char_ok s -> Exists (fun c => 128 <= c) s ->
  exists a b0 b1 rest, utf8 s = a ++ b0 :: b1 :: rest /\
    Forall (fun c => 0 <= c < 128) a /\ 128 <= b0 /\ 128 <= b1 < 192.
Proof.
  unfold utf8. induction 1 as [|c s Hc Hs IH]; intros Hex; [by apply Exists_nil in Hex|].
  rewrite bind_cons. destruct (decide (128 <= c)) as [Hw|Hw].
  - destruct (utf8_char_wide c Hc Hw) as (b0 & b1 & rest & -> & Hb).
    by exists [], b0, b1, (rest ++ (s ≫= utf8_char)).
  - apply Exists_cons in Hex as [?|Hex]; [lia|].
    destruct (IH Hex) as (a & b0 & b1 & rest & -> & Ha & Hb).
    unfold char_ok in Hc. unfold utf8_char at 1. rewrite (proj2 (Z.ltb_lt c 128)) by lia.
    exists (c :: a), b0, b1, rest. split; [done|]. split; [|done].
    constructor; [lia|done].
Qed.

(** Slicing inside the first such character panics, and no longer beginning of the
    pattern is found before. *)
Lemma score_snips_panics a b0 b1 rest key m :
  Forall (fun c => c < 128) key -> 128 <= b0 -> 128 <= b1 < 192 ->
  (length a < m <= length (a ++ b0 :: b1 :: rest))%nat ->
  score_snips (a ++ b0 :: b1 :: rest) key m = Panic "byte index is not a char boundary".
Proof.
  intros Hkey Hb0 Hb1. induction m as [|m IH]; [lia|]. intros Hm. cbn [score_snips].
  unfold slice_to. destruct (is_char_boundary _ (S m)) eqn:Hb; [|done].
  cbn [mbind outcome_bind].
  destruct (decide (m = length a)) as [->|Hne].
  { exfalso. unfold is_char_boundary in Hb.
    replace (S (length a)) with (length a + 1)%nat in Hb by lia.
    rewrite lookup_app_r in Hb by lia.
    replace (length a + 1 - length a)%nat with 1%nat in Hb by lia. cbn in Hb.
    rewrite (proj2 (Z.leb_le 128 b1)), (proj2 (Z.ltb_lt b1 192)) in Hb by lia.
    replace (length a + 1)%nat with (S (length a)) in Hb by lia. done. }
  rewrite (str_find_absent key _ b0); [apply IH; lia|done| |done].
  apply elem_of_take. exists (length a). split; [|lia].
  rewrite lookup_app_r, Nat.sub_diag by lia. done.
Qed.

Section generate.
Context {Pair : Type}.
Context (is_alphanumeric : Z -> bool).
Context (seed_default : bytes) (from_seed : bytes -> Pair) (ss58_from_pair : Pair -> bytes).
Context (os_rng : nat -> bytes).

Abbreviation address_at' := (address_at from_seed ss58_from_pair os_rng).
Abbreviation hit' := (hit from_seed ss58_from_pair os_rng).
Abbreviation generate_key' :=
  (generate_key is_alphanumeric seed_default from_seed ss58_from_pair os_rng).

(** More turns change nothing once the search has returned. *)
Lemma search_more fuel fuel' desired st key :
  (fuel <= fuel')%nat ->
  search from_seed ss58_from_pair os_rng fuel desired st = Return (Some key) ->
  search from_seed ss58_from_pair os_rng fuel' desired st = Return (Some key).
Proof.
  revert fuel' st. induction fuel as [|fuel IH]; intros fuel' st Hle; [done|].
  destruct fuel' as [|fuel']; [lia|]. cbn [search].
  destruct (search_turn _ _ _ _ _) as [[k|st']| |]; cbn; try done. apply IH. lia.
Qed.

Lemma generate_key_more fuel fuel' desired key :
  (fuel <= fuel')%nat ->
  generate_key' fuel desired = Return (Some key) -> generate_key' fuel' desired = Return (Some key).
Proof.
  intros Hle. unfold generate_key. destruct desired as [|c desired]; [done|].
  destruct (negb _); [done|]. by apply search_more.
Qed.

(** What the search does within the turns it may take. *)
Lemma generate_key_cases (fuel : nat) (desired : list Z) :
  desired <> [] -> forallb (validate_base58 is_alphanumeric) desired = true ->
  Forall (fun c => 0 <= c < 128) desired ->
  48 * Z.of_nat (length desired) + 47 < 2 ^ 64 ->
  (forall k, (length (address_at' k) <= 48)%nat) ->
  (forall j, (j < fuel)%nat -> ~ hit' desired j) /\ generate_key' fuel desired = Return None \/
  exists j s, (j < fuel)%nat /\ hit' desired j /\ (forall i, (i < j)%nat -> ~ hit' desired i) /\
    generate_key' fuel desired =
      Return (Some (mkKeyPair (from_seed (seed_at os_rng j)) (seed_at os_rng j) s)).
Proof.
  intros Hne Hvalid Hascii Hsize Haddr. unfold generate_key.
  rewrite Hvalid, (utf8_ascii _ Hascii). cbn [negb].
  destruct (search_spec from_seed ss58_from_pair os_rng desired Hascii Hsize Haddr fuel 0
    (mkSearch 0 0 seed_default 0) Hne) as [[Hno Hs]|(j & s & Hj & Hhit & Hbefore & _ & Hs)];
    [done|cbn [s_best]; lia|left|right].
  - split; [intros j Hj; apply Hno; lia|]. by destruct desired.
  - exists j, s. split; [lia|]. split; [done|].
    split; [intros i Hi; apply Hbefore; lia|]. by destruct desired.
Qed.

(** C30: the search is exact, and stops exactly when it can.  For an ASCII pattern
    the validation accepts, the search returns the key of the first turn whose
    address has the whole pattern at position 0, 1 or 2, as soon as it may take
    that turn; it returns for some number of turns if and only if there is such a
    turn at all, more turns change nothing, and it neither fails nor panics. *)
Theorem generate_key_first_hit (desired : list Z) :
  desired <> [] -> forallb (validate_base58 is_alphanumeric) desired = true ->
  Forall (fun c => 0 <= c < 128) desired ->
  48 * Z.of_nat (length desired) + 47 < 2 ^ 64 ->
  (forall k, (length (address_at' k) <= 48)%nat) ->
  (forall j, hit' desired j -> (forall i, (i < j)%nat -> ~ hit' desired i) ->
     exists s, forall fuel, (j < fuel)%nat -> generate_key' fuel desired =
       Return (Some (mkKeyPair (from_seed (seed_at os_rng j)) (seed_at os_rng j) s))) /\
  ((exists fuel key, generate_key' fuel desired = Return (Some key)) <-> exists j, hit' desired j) /\
  (forall fuel, (forall j, (j < fuel)%nat -> ~ hit' desired j) ->
     generate_key' fuel desired = Return None).
Proof.
  intros Hne Hvalid Hascii Hsize Haddr.
  assert (Hcases := fun fuel => generate_key_cases fuel desired Hne Hvalid Hascii Hsize Haddr).
  assert (Hnone : forall fuel, (forall j, (j < fuel)%nat -> ~ hit' desired j) ->
    generate_key' fuel desired = Return None).
  { intros fuel Hno. destruct (Hcases fuel) as [[_ H]|(j & s & Hj & Hh & _)]; [done|].
    by destruct (Hno j). }
  split; [|split; [split|done]].
  - intros j Hj Hbefore. destruct (Hcases (S j)) as [[Hno _]|(j' & s & Hj' & Hh & Hb & Hs)].
    { destruct (Hno j); [lia|done]. }
    assert (j' = j) as ->.
    { destruct (decide (j' = j)); [done|]. by destruct (Hbefore j'); [lia|]. }
    exists s. intros fuel Hf. by apply (generate_key_more (S j)).
  - intros (fuel & key & Hk). destruct (Hcases fuel) as [[_ H]|(j & s & _ & Hh & _)]; [congruence|].
    by exists j.
  - intros [j Hj]. destruct (Hcases (S j)) as [[Hno _]|(i & s & _ & _ & _ & H)].
    { by destruct (Hno j); [lia|]. }
    by eauto.
Qed.

(** The validation lets patterns through that make the search panic.
    [char::is_alphanumeric] accepts letters and digits outside ASCII, which no
    address contains; with such a character in it, a pattern is cut in the
    middle of the character by the very first score. *)
Lemma non_ascii_pattern_panics (fuel : nat) (desired : list Z) :
  Forall char_ok desired -> forallb (validate_base58 is_alphanumeric) desired = true ->
  Exists (fun c => 128 <= c) desired ->
  Forall (fun c => c < 128) (address_at' 0) ->
  generate_key' (S fuel) desired = Panic "byte index is not a char boundary".
Proof.
  intros Hok Hvalid Hwide Haddr. unfold generate_key. rewrite Hvalid. cbn [negb].
  destruct (first_wide desired Hok Hwide) as (a & b0 & b1 & rest & Heq & Ha & Hb0 & Hb1).
  destruct desired as [|c desired]; [by apply Exists_nil in Hwide|].
  assert (Hscore : calculate_score (utf8 (c :: desired)) (address_at' 0) =
    Panic "byte index is not a char boundary").
  { unfold calculate_score. rewrite Heq. apply score_snips_panics; try done.
    rewrite length_app. cbn. lia. }
  cbn [search]. unfold search_turn.
  change ((if s_done (mkSearch 0 0 seed_default 0) mod 100000 =? 0 then _ else _))
    with (os_rng 0, 1%nat).
  cbn beta iota. change (ss58_from_pair (from_seed (os_rng 0))) with (address_at' 0).
  by rewrite Hscore.
Qed.
End generate.
