(* ===== verification/Runtime.v ===== *)
(** * The runtimes

    [bin/node/robonomics-runtime/src] ([constants.rs], [impls.rs], [lib.rs]),
    [bin/node/ipci-runtime/src], [bin/node/robonomics-runtime/parachain/src] and
    [bin/node/primitives/src]: the versions, the currency and time units, the
    parameters derived from them, the pallets each runtime is made of, and the
    code of the runtimes proper: fees, votes and signed transactions. *)
From stdpp Require Import prelude strings list.
From Stdlib Require Import ZArith Lia.
From S2P Require Import Prelude Frame.
Local Open Scope string_scope.
Local Open Scope Z_scope.

(** [sp_version::RuntimeVersion], without the list of its interfaces. *)
Record RuntimeVersion : Type := mkVersion {
  spec_name : string;
  impl_name : string;
  authoring_version : Z;
  spec_version : Z;
  impl_version : Z;
  transaction_version : Z;
}.

(** [construct_runtime!]: the pallets, in order, with their parts. *)
Inductive Part : Type :=
| PModule | PCall | PStorage | PConfig | PEvent | PInherent | PValidateUnsigned | POrigin.
#[export] Instance Part_eq_dec : EqDecision Part.
Proof. solve_decision. Defined.

Record Pallet : Type := mkPallet { pallet_name : string; parts : list Part }.

(** The pallets whose unsigned transactions the runtime can validate. *)
Definition validates_unsigned (ps : list Pallet) : list string :=
  pallet_name <$> filter (fun p => PValidateUnsigned ∈ parts p) ps.

(** The code the three runtimes share, over their constants. *)
Module Common.
(** [time]: the units of time in blocks, for a time per block. *)
Definition SECS_PER_BLOCK (millisecs : Z) : Z := millisecs / 1000.
Definition MINUTES (millisecs : Z) : Z := 60 / SECS_PER_BLOCK millisecs.
Definition HOURS (millisecs : Z) : Z := MINUTES millisecs * 60.
Definition DAYS (millisecs : Z) : Z := HOURS millisecs * 24.

(** [CurrencyToVoteHandler]: with [total] the total issuance, [factor], and the
    conversions from a balance to [u64] votes and from a [u128] number of votes
    to a balance. *)
Definition factor (total : Z) : Z := Z.max (total / u64_max) 1.
Definition to_votes (total x : Z) : Z := wrap 64 (x / factor total).
Definition to_balance (total x : Z) : Z := wrap 128 (x * factor total).

(** A ratio as the code writes it, numerator and denominator: [from_percent] of
    [Perbill], [Permill], [Percent] and [Perquintill], the [saturating_sub] of two
    percentages, and the part of a weight, which is a whole number of weight for
    the ratios used here. *)
Abbreviation Ratio := (Z * Z)%type.
Definition from_percent (p : Z) : Ratio := (p, 100).
Definition saturating_sub (r s : Ratio) : Ratio := (Z.max (r.1 - s.1) 0, r.2).
Definition part_of (r : Ratio) (weight : Z) : Z := r.1 * weight / r.2.
Definition AVERAGE_ON_INITIALIZE_WEIGHT : Ratio := from_percent 10.
Definition AvailableBlockRatio : Ratio := from_percent 75.
Definition MaximumExtrinsicWeight (MaximumBlockWeight : Z) : Z :=
  part_of (saturating_sub AvailableBlockRatio AVERAGE_ON_INITIALIZE_WEIGHT) MaximumBlockWeight.

(** The arguments of [curve!], in millionths. *)
Record RewardCurve : Type := mkRewardCurve {
  min_inflation : Z;
  max_inflation : Z;
  ideal_stake : Z;
  falloff : Z;
  max_piece_count : Z;
  test_precision : Z;
}.

(** [u32::checked_next_power_of_two]. *)
Definition checked_next_power_of_two (n : Z) : option Z :=
  let p := 2 ^ Z.log2_up (Z.max n 1) in
  if p <=? u32_max then Some p else None.

(** The period of [create_transaction], and the current block, a [u32] number
    that starts at one. *)
Definition period (BlockHashCount : Z) : Z :=
  default 2 ((fun c => c / 2) <$> checked_next_power_of_two BlockHashCount).
Definition current_block (block_number : Z) : Z := Z.max (block_number - 1) 0.

Section create_transaction.
(** [Era::mortal], the construction of a signed payload (which can fail), its
    encoding, the signature of the application key, and [unlookup]. *)
Context {Call Public AccountId Address Signature Era Payload : Type}.
Context (mortal : Z -> Z -> Era).

(** [SignedExtra], as far as it holds data. *)
Record SignedExtra : Type := mkExtra { check_era : Era; check_nonce : Z; charge_tip : Z }.

Context (payload_new : Call -> SignedExtra -> option Payload).
Context (payload_bytes : Payload -> bytes).
Context (app_sign : bytes -> Public -> option Signature).
Context (unlookup : AccountId -> Address).

Definition create_transaction (BlockHashCount block_number : Z) (call : Call) (public : Public)
    (account : AccountId) (nonce : Z) :
    option (Call * (Address * Signature * SignedExtra)) :=
  let era := mortal (period BlockHashCount) (current_block block_number) in
  let extra := mkExtra era nonce 0 in
  raw_payload ← payload_new call extra;
  signature ← app_sign (payload_bytes raw_payload) public;
  Some (call, (unlookup account, signature, extra)).
End create_transaction.
End Common.

Import Common (Ratio, from_percent, part_of).

Module Robonomics.
Definition VERSION : RuntimeVersion := mkVersion "robonomics" "robonomics-airalab" 1 1 1 1.

Definition COASE : Z := 1000.
Definition GLUSHKOV : Z := 1000 * COASE.
Definition XRT : Z := 1000 * GLUSHKOV.
Definition deposit (items bytes : Z) : Z := items * 150 * GLUSHKOV + bytes * 60 * GLUSHKOV.

Definition MILLISECS_PER_BLOCK : Z := 8000.
Definition SECS_PER_BLOCK : Z := Common.SECS_PER_BLOCK MILLISECS_PER_BLOCK.
Definition SLOT_DURATION : Z := MILLISECS_PER_BLOCK.
Definition PRIMARY_PROBABILITY : Z * Z := (1, 4).
Definition MINUTES : Z := Common.MINUTES MILLISECS_PER_BLOCK.
Definition HOURS : Z := Common.HOURS MILLISECS_PER_BLOCK.
Definition DAYS : Z := Common.DAYS MILLISECS_PER_BLOCK.
Definition EPOCH_DURATION_IN_BLOCKS : Z := 10 * MINUTES.
(** The slot fill rate is [MILLISECS_PER_BLOCK / SLOT_DURATION], which is one:
    the floating-point product is exact. *)
Definition EPOCH_DURATION_IN_SLOTS : Z :=
  EPOCH_DURATION_IN_BLOCKS * (MILLISECS_PER_BLOCK / SLOT_DURATION).

(** [parameter_types!]. *)
Definition BlockHashCount : Z := 2400.
Definition MaximumBlockLength : Z := 5 * 1024 * 1024.
Definition DepositBase : Z := deposit 1 88.
Definition DepositFactor : Z := deposit 0 32.
Definition MaxSignatories : Z := 100.
Definition MinimumPeriod : Z := SLOT_DURATION / 2.
Definition UncleGenerations : Z := 5.
Definition EpochDuration : Z := EPOCH_DURATION_IN_SLOTS.
Definition ExpectedBlockTime : Z := MILLISECS_PER_BLOCK.
Definition IndexDeposit : Z := 1 * GLUSHKOV.
Definition ExistentialDeposit : Z := 1 * COASE.
Definition TransferFee : Z := 1 * GLUSHKOV.
Definition CreationFee : Z := 1 * GLUSHKOV.
Definition TransactionByteFee : Z := 0.
Definition SessionsPerEra : Z := 10.
Definition BondingDuration : Z := 24 * 28.
Definition SlashDeferDuration : Z := 24 * 7.
Definition MaxNominatorRewardedPerValidator : Z := 64.
Definition ElectionLookahead : Z := 25.
Definition MaxIterations : Z := 5.
Definition WindowSize : Z := 101.
Definition ReportLatency : Z := 1000.
Definition BasicDeposit : Z := 10 * XRT.
Definition FieldDeposit : Z := 250 * COASE.
Definition SubAccountDeposit : Z := 2 * XRT.
Definition MaxSubAccounts : Z := 100.
Definition MaxAdditionalFields : Z := 100.
Definition MaxRegistrars : Z := 20.
Definition SessionDuration : Z := EPOCH_DURATION_IN_SLOTS.
Definition ImOnlineUnsignedPriority : Z := u64_max.
Definition StakingUnsignedPriority : Z := u64_max / 2.
Definition ProposalBondMinimum : Z := 1 * XRT.
Definition SpendPeriod : Z := 1 * DAYS.
Definition TipCountdown : Z := 1 * DAYS.
Definition TipReportDepositBase : Z := 1 * XRT.
Definition TipReportDepositPerByte : Z := 1 * GLUSHKOV.
Definition CouncilMotionDuration : Z := 5 * DAYS.
Definition CouncilMaxProposals : Z := 100.
Definition DESIRED_MEMBERS : Z := 7.
Definition CandidacyBond : Z := 32 * XRT.
Definition VotingBond : Z := 1 * XRT.
Definition TermDuration : Z := 7 * DAYS.
Definition DesiredRunnersUp : Z := 5.
Definition DesiredMembers : Z := DESIRED_MEMBERS.

(** The weights of a block, with the weight of a second, and the other ratios;
    identifiers are strings of eight bytes. *)
Definition MaximumBlockWeight (WEIGHT_PER_SECOND : Z) : Z := 2 * WEIGHT_PER_SECOND.
Definition AvailableBlockRatio : Ratio := Common.AvailableBlockRatio.
Definition MaximumExtrinsicWeight (WEIGHT_PER_SECOND : Z) : Z :=
  Common.MaximumExtrinsicWeight (MaximumBlockWeight WEIGHT_PER_SECOND).
Definition TargetBlockFullness : Ratio := from_percent 25.
Definition AdjustmentVariable : Ratio := (1, 100000).
Definition MinimumMultiplier : Ratio := (1, 1000000000).
Definition DisabledValidatorsThreshold : Ratio := from_percent 17.
Definition REWARD_CURVE : Common.RewardCurve :=
  Common.mkRewardCurve 100000 800000 666666 50000 100 5000.
Definition MinSolutionScoreBump : Ratio := (5, 10000).
Definition OffencesWeightSoftLimit (WEIGHT_PER_SECOND : Z) : Z :=
  part_of (from_percent 60) (MaximumBlockWeight WEIGHT_PER_SECOND).
Definition MaximumSchedulerWeight (WEIGHT_PER_SECOND : Z) : Z :=
  part_of (from_percent 80) (MaximumBlockWeight WEIGHT_PER_SECOND).
Definition ProposalBond : Ratio := from_percent 5.
Definition Burn : Ratio := from_percent 50.
Definition TipFindersFee : Ratio := from_percent 20.
Definition TreasuryModuleId : string := "py/trsry".
Definition ElectionsPhragmenModuleId : string := "phrelect".

(** [create_transaction]. *)
Definition create_transaction {Call Public AccountId Address Signature Era Payload : Type}
    mortal payload_new payload_bytes app_sign unlookup block_number call public account nonce :
    option (Call * (Address * Signature * @Common.SignedExtra Era)) :=
  @Common.create_transaction Call Public AccountId Address Signature Era Payload mortal
    payload_new payload_bytes app_sign unlookup BlockHashCount block_number call public account
    nonce.

(** [impls.rs]: the conversions of this runtime. *)
Definition factor : Z -> Z := Common.factor.
Definition to_votes : Z -> Z -> Z := Common.to_votes.
Definition to_balance : Z -> Z -> Z := Common.to_balance.

(** [fee::TARGET_BLOCK_FULLNESS] of [constants.rs]. *)
Definition TARGET_BLOCK_FULLNESS : Ratio := from_percent 25.

(** [SessionKeys]: the pallets the keys of a session are for. *)
Definition SessionKeys : list string := ["Babe"; "Grandpa"; "ImOnline"; "AuthorityDiscovery"].

Definition pallets : list Pallet := [
  mkPallet "System" [PModule; PCall; PConfig; PStorage; PEvent];
  mkPallet "Utility" [PModule; PCall; PStorage; PEvent];
  mkPallet "Timestamp" [PModule; PCall; PStorage; PInherent];
  mkPallet "Identity" [PModule; PCall; PStorage; PEvent];
  mkPallet "Indices" [PModule; PCall; PStorage; PEvent; PConfig];
  mkPallet "Balances" [PModule; PCall; PStorage; PEvent; PConfig];
  mkPallet "TransactionPayment" [PModule; PStorage];
  mkPallet "Multisig" [PModule; PCall; PStorage; PEvent];
  mkPallet "RandomnessCollectiveFlip" [PModule; PCall; PStorage];
  mkPallet "Session" [PModule; PCall; PStorage; PEvent; PConfig];
  mkPallet "Authorship" [PModule; PCall; PStorage; PInherent];
  mkPallet "Staking" [PModule; PCall; PStorage; PEvent; PConfig];
  mkPallet "Offences" [PModule; PCall; PStorage; PEvent];
  mkPallet "Historical" [PModule];
  mkPallet "Babe" [PModule; PCall; PStorage; PConfig; PInherent; PValidateUnsigned];
  mkPallet "FinalityTracker" [PModule; PCall; PInherent];
  mkPallet "Grandpa" [PModule; PCall; PStorage; PConfig; PEvent];
  mkPallet "ImOnline" [PModule; PCall; PStorage; PEvent; PValidateUnsigned; PConfig];
  mkPallet "AuthorityDiscovery" [PModule; PCall; PConfig];
  mkPallet "Treasury" [PModule; PCall; PStorage; PConfig; PEvent];
  mkPallet "Elections" [PModule; PCall; PStorage; PEvent; PConfig];
  mkPallet "Council" [PModule; PCall; PStorage; POrigin; PEvent; PConfig];
  mkPallet "Scheduler" [PModule; PCall; PStorage; PEvent];
  mkPallet "Liability" [PModule; PCall; PStorage; PEvent; PValidateUnsigned];
  mkPallet "Datalog" [PModule; PCall; PStorage; PEvent];
  mkPallet "Launch" [PModule; PCall; PStorage; PEvent];
  mkPallet "Sudo" [PModule; PCall; PStorage; PEvent; PConfig]].

(** [DealWithFees] and [impls::Author], over the imbalances of the currency:
    what [ration] splits an imbalance into, and the balances the treasury and
    the author have received. *)
Section fees.
Context (ration : Z -> Z -> Z -> Z * Z).

(** [ration_merge_into]. *)
Definition ration_merge_into (tips a b : Z) (split : Z * Z) : Z * Z :=
  let (x, y) := ration tips a b in (split.1 + x, split.2 + y).

(** [Author]: the balance of the author after [resolve_creating]. *)
Definition on_nonzero_unbalanced (amount author : Z) : Z := author + amount.

(** [OnUnbalanced::on_unbalanced] hands a non-zero imbalance to
    [on_nonzero_unbalanced]; a zero one changes nothing. *)
Definition on_unbalanceds (fees_then_tips : list Z) (treasury author : Z) : Z * Z :=
  match fees_then_tips with
  | [] => (treasury, author)
  | fees :: rest =>
      let split := ration fees 80 20 in
      let split := match rest with
                   | [] => split
                   | tips :: _ => ration_merge_into tips 80 20 split
                   end in
      (treasury + split.1, on_nonzero_unbalanced split.2 author)
  end.
End fees.
End Robonomics.

Module Ipci.
Definition VERSION : RuntimeVersion := mkVersion "ipci" "ipci-airalab" 1 15 15 2.

Definition U_MITO : Z := 1000000.
Definition MITO : Z := 1000000 * U_MITO.
Definition deposit (items bytes : Z) : Z := items * 15 * MITO / 100 + bytes * 6 * MITO / 100.

Definition MILLISECS_PER_BLOCK : Z := 6000.
Definition SECS_PER_BLOCK : Z := Common.SECS_PER_BLOCK MILLISECS_PER_BLOCK.
Definition SLOT_DURATION : Z := MILLISECS_PER_BLOCK.
Definition PRIMARY_PROBABILITY : Z * Z := (1, 4).
Definition MINUTES : Z := Common.MINUTES MILLISECS_PER_BLOCK.
Definition HOURS : Z := Common.HOURS MILLISECS_PER_BLOCK.
Definition DAYS : Z := Common.DAYS MILLISECS_PER_BLOCK.
Definition EPOCH_DURATION_IN_BLOCKS : Z := 10 * MINUTES.
Definition EPOCH_DURATION_IN_SLOTS : Z :=
  EPOCH_DURATION_IN_BLOCKS * (MILLISECS_PER_BLOCK / SLOT_DURATION).

Definition BlockHashCount : Z := 2400.
Definition MaximumBlockLength : Z := 5 * 1024 * 1024.
Definition DepositBase : Z := deposit 1 88.
Definition DepositFactor : Z := deposit 0 32.
Definition MaxSignatories : Z := 100.
Definition MinimumPeriod : Z := SLOT_DURATION / 2.
Definition UncleGenerations : Z := 5.
Definition EpochDuration : Z := EPOCH_DURATION_IN_SLOTS.
Definition ExpectedBlockTime : Z := MILLISECS_PER_BLOCK.
Definition IndexDeposit : Z := 1 * U_MITO.
Definition ExistentialDeposit : Z := 50000 * U_MITO.
Definition TransactionByteFee : Z := 1 * U_MITO.
Definition SessionsPerEra : Z := 10.
Definition BondingDuration : Z := 24 * 28.
Definition SlashDeferDuration : Z := 24 * 7.
Definition ElectionLookahead : Z := 25.
Definition BasicDeposit : Z := 10 * MITO.
Definition FieldDeposit : Z := 250 * U_MITO.
Definition SubAccountDeposit : Z := 2 * MITO.
Definition SessionDuration : Z := EPOCH_DURATION_IN_SLOTS.
Definition ImOnlineUnsignedPriority : Z := u64_max.
Definition StakingUnsignedPriority : Z := u64_max / 2.
Definition MaxNominatorRewardedPerValidator : Z := 64.
Definition MaxIterations : Z := 5.
Definition WindowSize : Z := 101.
Definition ReportLatency : Z := 1000.
Definition MaxSubAccounts : Z := 100.
Definition MaxAdditionalFields : Z := 100.
Definition MaxRegistrars : Z := 20.

(** The weights of a block, with the weight of a second, and the other ratios;
    identifiers are strings of eight bytes. *)
Definition MaximumBlockWeight (WEIGHT_PER_SECOND : Z) : Z := 2 * WEIGHT_PER_SECOND.
Definition AvailableBlockRatio : Ratio := Common.AvailableBlockRatio.
Definition MaximumExtrinsicWeight (WEIGHT_PER_SECOND : Z) : Z :=
  Common.MaximumExtrinsicWeight (MaximumBlockWeight WEIGHT_PER_SECOND).
Definition TargetBlockFullness : Ratio := from_percent 25.
Definition AdjustmentVariable : Ratio := (3, 100000).
Definition MinimumMultiplier : Ratio := (1, 1000000000).
Definition DisabledValidatorsThreshold : Ratio := from_percent 17.
Definition REWARD_CURVE : Common.RewardCurve :=
  Common.mkRewardCurve 50000 150000 666666 50000 100 5000.
Definition MinSolutionScoreBump : Ratio := (5, 10000).
Definition OffencesWeightSoftLimit (WEIGHT_PER_SECOND : Z) : Z :=
  part_of (from_percent 60) (MaximumBlockWeight WEIGHT_PER_SECOND).

(** [create_transaction]. *)
Definition create_transaction {Call Public AccountId Address Signature Era Payload : Type}
    mortal payload_new payload_bytes app_sign unlookup block_number call public account nonce :
    option (Call * (Address * Signature * @Common.SignedExtra Era)) :=
  @Common.create_transaction Call Public AccountId Address Signature Era Payload mortal
    payload_new payload_bytes app_sign unlookup BlockHashCount block_number call public account
    nonce.

(** [WeightToFee::polynomial]: the coefficients (degree, sign, fraction in
    billionths, integer); [perbill p q] is
    [Perbill::from_rational_approximation], in billionths. *)
Record Coefficient : Type := mkCoefficient {
  degree : Z; negative : bool; coeff_frac : Z; coeff_integer : Z }.

Section fees.
Context (perbill : Z -> Z -> Z) (ExtrinsicBaseWeight : Z).

Definition polynomial : list Coefficient :=
  let p := U_MITO in
  let q := MITO * ExtrinsicBaseWeight in
  [mkCoefficient 1 false (perbill (p mod q) q) (p / q)].
End fees.

(** [SessionKeys]: the pallets the keys of a session are for. *)
Definition SessionKeys : list string := ["Babe"; "Grandpa"; "ImOnline"; "AuthorityDiscovery"].

Definition pallets : list Pallet := [
  mkPallet "System" [PModule; PCall; PStorage; PConfig; PEvent];
  mkPallet "Utility" [PModule; PCall; PStorage; PEvent];
  mkPallet "Timestamp" [PModule; PCall; PStorage; PInherent];
  mkPallet "Identity" [PModule; PCall; PStorage; PEvent];
  mkPallet "Indices" [PModule; PCall; PStorage; PEvent; PConfig];
  mkPallet "Balances" [PModule; PCall; PStorage; PEvent; PConfig];
  mkPallet "TransactionPayment" [PModule; PStorage];
  mkPallet "Multisig" [PModule; PCall; PStorage; PEvent];
  mkPallet "RandomnessCollectiveFlip" [PModule; PCall; PStorage];
  mkPallet "Session" [PModule; PCall; PStorage; PEvent; PConfig];
  mkPallet "Authorship" [PModule; PCall; PStorage; PInherent];
  mkPallet "Staking" [PModule; PCall; PStorage; PEvent; PConfig];
  mkPallet "Offences" [PModule; PCall; PStorage; PEvent];
  mkPallet "Historical" [PModule];
  mkPallet "Babe" [PModule; PCall; PStorage; PConfig; PInherent; PValidateUnsigned];
  mkPallet "FinalityTracker" [PModule; PCall; PInherent];
  mkPallet "Grandpa" [PModule; PCall; PStorage; PConfig; PEvent];
  mkPallet "ImOnline" [PModule; PCall; PStorage; PEvent; PValidateUnsigned; PConfig];
  mkPallet "AuthorityDiscovery" [PModule; PCall; PConfig];
  mkPallet "Datalog" [PModule; PCall; PStorage; PEvent];
  mkPallet "Sudo" [PModule; PCall; PStorage; PEvent; PConfig]].
(** [impls.rs]: the conversions of this runtime. *)
Definition factor : Z -> Z := Common.factor.
Definition to_votes : Z -> Z -> Z := Common.to_votes.
Definition to_balance : Z -> Z -> Z := Common.to_balance.

End Ipci.

Module Parachain.
Definition VERSION : RuntimeVersion := mkVersion "robonomics" "robonomics-airalab" 1 1 1 1.

Definition COASE : Z := 1000.
Definition GLUSHKOV : Z := 1000 * COASE.
Definition XRT : Z := 1000 * GLUSHKOV.
Definition deposit (items bytes : Z) : Z := items * 150 * GLUSHKOV / 100 + bytes * 60 * GLUSHKOV.

Definition MILLISECS_PER_BLOCK : Z := 6000.
Definition SECS_PER_BLOCK : Z := Common.SECS_PER_BLOCK MILLISECS_PER_BLOCK.
Definition MINUTES : Z := Common.MINUTES MILLISECS_PER_BLOCK.
Definition HOURS : Z := Common.HOURS MILLISECS_PER_BLOCK.
Definition DAYS : Z := Common.DAYS MILLISECS_PER_BLOCK.

Definition BlockHashCount : Z := 2400.
Definition MaximumBlockLength : Z := 10 * 1024 * 1024.
Definition DepositBase : Z := deposit 1 88.
Definition DepositFactor : Z := deposit 0 32.
Definition MaxSignatories : Z := 100.
Definition MinimumPeriod : Z := MILLISECS_PER_BLOCK / 2.
Definition IndexDeposit : Z := 1 * GLUSHKOV.
Definition ExistentialDeposit : Z := 1 * COASE.
Definition TransactionByteFee : Z := 100 * COASE.
Definition BasicDeposit : Z := 10 * XRT.
Definition FieldDeposit : Z := 250 * COASE.
Definition SubAccountDeposit : Z := 2 * XRT.
Definition SpendPeriod : Z := 1 * DAYS.
Definition TipCountdown : Z := 1 * DAYS.
Definition CouncilMotionDuration : Z := 5 * DAYS.
Definition CandidacyBond : Z := 32 * XRT.
Definition VotingBond : Z := 1 * XRT.
Definition TermDuration : Z := 7 * DAYS.
Definition TransferFee : Z := 1 * GLUSHKOV.
Definition CreationFee : Z := 1 * GLUSHKOV.
Definition MaxSubAccounts : Z := 100.
Definition MaxAdditionalFields : Z := 100.
Definition MaxRegistrars : Z := 20.
Definition ProposalBondMinimum : Z := 1 * XRT.
Definition TipReportDepositBase : Z := 1 * XRT.
Definition TipReportDepositPerByte : Z := 1 * GLUSHKOV.
Definition CouncilMaxProposals : Z := 100.
Definition DESIRED_MEMBERS : Z := 7.
Definition DesiredMembers : Z := DESIRED_MEMBERS.
Definition DesiredRunnersUp : Z := 5.

(** The weights of a block, with the weight of a second, and the other ratios;
    identifiers are strings of eight bytes. *)
Definition MaximumBlockWeight (WEIGHT_PER_SECOND : Z) : Z := 4 * WEIGHT_PER_SECOND.
Definition AvailableBlockRatio : Ratio := Common.AvailableBlockRatio.
Definition MaximumExtrinsicWeight (WEIGHT_PER_SECOND : Z) : Z :=
  Common.MaximumExtrinsicWeight (MaximumBlockWeight WEIGHT_PER_SECOND).
Definition TargetBlockFullness : Ratio := from_percent 25.
Definition AdjustmentVariable : Ratio := (1, 100000).
Definition MinimumMultiplier : Ratio := (1, 1000000000).
Definition MaximumSchedulerWeight (WEIGHT_PER_SECOND : Z) : Z :=
  part_of (from_percent 80) (MaximumBlockWeight WEIGHT_PER_SECOND).
Definition ProposalBond : Ratio := from_percent 5.
Definition Burn : Ratio := from_percent 50.
Definition TipFindersFee : Ratio := from_percent 20.
Definition TreasuryModuleId : string := "py/trsry".
Definition ElectionsPhragmenModuleId : string := "phrelect".

(** [create_transaction]. *)
Definition create_transaction {Call Public AccountId Address Signature Era Payload : Type}
    mortal payload_new payload_bytes app_sign unlookup block_number call public account nonce :
    option (Call * (Address * Signature * @Common.SignedExtra Era)) :=
  @Common.create_transaction Call Public AccountId Address Signature Era Payload mortal
    payload_new payload_bytes app_sign unlookup BlockHashCount block_number call public account
    nonce.

(** [SessionKeys]: the pallets the keys of a session are for. *)
Definition SessionKeys : list string := [].

Definition pallets : list Pallet := [
  mkPallet "System" [PModule; PCall; PConfig; PStorage; PEvent];
  mkPallet "Utility" [PModule; PCall; PStorage; PEvent];
  mkPallet "Timestamp" [PModule; PCall; PStorage; PInherent];
  mkPallet "Identity" [PModule; PCall; PStorage; PEvent];
  mkPallet "Indices" [PModule; PCall; PStorage; PEvent; PConfig];
  mkPallet "Balances" [PModule; PCall; PStorage; PEvent; PConfig];
  mkPallet "GenericAsset" [PModule; PCall; PStorage; PEvent; PConfig];
  mkPallet "TransactionPayment" [PModule; PStorage];
  mkPallet "Multisig" [PModule; PCall; PStorage; PEvent];
  mkPallet "RandomnessCollectiveFlip" [PModule; PCall; PStorage];
  mkPallet "Liability" [PModule; PCall; PStorage; PEvent; PValidateUnsigned];
  mkPallet "Datalog" [PModule; PCall; PStorage; PEvent];
  mkPallet "Launch" [PModule; PCall; PStorage; PEvent];
  mkPallet "ParachainUpgrade" [PModule; PCall; PStorage; PInherent; PEvent];
  mkPallet "ParachainInfo" [PModule; PStorage; PConfig];
  mkPallet "MessageBroker" [PModule; PCall; PInherent; PEvent];
  mkPallet "TokenDealer" [PModule; PCall; PEvent];
  mkPallet "Treasury" [PModule; PCall; PStorage; PConfig; PEvent];
  mkPallet "Elections" [PModule; PCall; PStorage; PEvent; PConfig];
  mkPallet "Council" [PModule; PCall; PStorage; POrigin; PEvent; PConfig];
  mkPallet "Scheduler" [PModule; PCall; PStorage; PEvent];
  mkPallet "Sudo" [PModule; PCall; PStorage; PEvent; PConfig]].
(** [impls.rs]: the conversions of this runtime. *)
Definition factor : Z -> Z := Common.factor.
Definition to_votes : Z -> Z -> Z := Common.to_votes.
Definition to_balance : Z -> Z -> Z := Common.to_balance.

End Parachain.
