(* ===== verification/RuntimeApi.v ===== *)
(** * The runtime interfaces

    [impl_runtime_apis!] of the three runtimes ([bin/node/*-runtime/src/lib.rs],
    [robonomics-runtime/parachain/src/lib.rs]): what the node calls.  "This is
    just a bunch of proxying", of the executive and of the pallets, which are
    Substrate's ([Modules]); what the runtimes do themselves is the version, the
    BABE configuration, the proofs that a session owned a key, which leave the
    runtime encoded and come back with a report, and the list of benchmarks. *)
From stdpp Require Import prelude strings list.
From Stdlib Require Import ZArith Lia.
From S2P Require Import Prelude Codec Runtime.
Local Open Scope string_scope.
Local Open Scope Z_scope.

(** [sp_version::NativeVersion]. *)
Record NativeVersion : Type := mkNativeVersion {
  runtime_version : RuntimeVersion;
  can_author_with : list Z;
}.

(** [native_version], the same in the three runtimes. *)
Definition native_version (VERSION : RuntimeVersion) : NativeVersion := mkNativeVersion VERSION [].

(** [wasm_binary_unwrap] of the Robonomics runtime. *)
Definition wasm_binary_unwrap (WASM_BINARY : option bytes) : outcome Empty_set bytes :=
  expect_some "Development wasm binary is not available. This means the client is built with `BUILD_DUMMY_WASM_BINARY` flag and it is only usable for production chains. Please rebuild with the flag disabled."
    WASM_BINARY.

(** [sp_consensus_babe::BabeGenesisConfiguration]. *)
Inductive AllowedSlots : Type :=
| PrimarySlots
| PrimaryAndSecondaryPlainSlots
| PrimaryAndSecondaryVRFSlots.

Record BabeGenesisConfiguration : Type := mkBabeGenesisConfiguration {
  slot_duration : Z;
  epoch_length : Z;
  c : Z * Z;
  genesis_authorities : list (bytes * Z);
  randomness : bytes;
  allowed_slots : AllowedSlots;
}.

Section api.
(** The state of the runtime, what it exchanges with the node, and the proof
    of [Historical]. *)
Context {W Block Header Extrinsic Hash InherentData CheckInherentsResult ApplyExtrinsicResult
  TransactionSource TransactionValidity AccountId DispatchInfo Metadata GrandpaEquivocation
  BabeEquivocation Proof Batch : Type}.
Context `{!Codec Proof}.

(** A call of the runtime changes its state, and may panic. *)
Abbreviation M := (SO W Empty_set).

(** The executive and the pallets, as far as the interfaces call them.  A public
    key is its bytes, a key type its four bytes. *)
Record Modules : Type := mkModules {
  Executive_execute_block : Block -> M unit;
  Executive_initialize_block : Header -> M unit;
  Runtime_metadata : Metadata;
  Executive_apply_extrinsic : Extrinsic -> M ApplyExtrinsicResult;
  Executive_finalize_block : M Header;
  create_extrinsics : InherentData -> M (list Extrinsic);
  check_extrinsics : InherentData -> Block -> M CheckInherentsResult;
  RandomnessCollectiveFlip_random_seed : M Hash;
  Executive_validate_transaction : TransactionSource -> Extrinsic -> M TransactionValidity;
  Executive_offchain_worker : Header -> M unit;
  Grandpa_authorities : M (list (bytes * Z));
  Grandpa_submit_unsigned_equivocation_report : GrandpaEquivocation -> Proof -> M (option unit);
  Historical_prove : bytes * bytes -> M (option Proof);
  Babe_slot_duration : Z;
  Babe_authorities : M (list (bytes * Z));
  Babe_randomness : M bytes;
  Babe_current_epoch_start : M Z;
  Babe_submit_unsigned_equivocation_report : BabeEquivocation -> Proof -> M (option unit);
  AuthorityDiscovery_authorities : M (list bytes);
  System_account_nonce : AccountId -> M Z;
  TransactionPayment_query_info : Extrinsic -> Z -> M DispatchInfo;
  SessionKeys_generate : option bytes -> M bytes;
  SessionKeys_decode_into_raw_public_keys : bytes -> option (list (bytes * bytes));
}.

(** [fg_primitives::KEY_TYPE] and [sp_consensus_babe::KEY_TYPE]. *)
Context (grandpa_KEY_TYPE babe_KEY_TYPE : bytes).
Context (modules : Modules).

(** [sp_api::Core], [sp_api::Metadata]. *)
Record CoreApi : Type := mkCoreApi {
  version : RuntimeVersion;
  execute_block : Block -> M unit;
  initialize_block : Header -> M unit;
  metadata : Metadata;
}.
(** [sp_block_builder::BlockBuilder], [TaggedTransactionQueue],
    [OffchainWorkerApi]. *)
Record BlockApi : Type := mkBlockApi {
  apply_extrinsic : Extrinsic -> M ApplyExtrinsicResult;
  finalize_block : M Header;
  inherent_extrinsics : InherentData -> M (list Extrinsic);
  check_inherents : Block -> InherentData -> M CheckInherentsResult;
  random_seed : M Hash;
  validate_transaction : TransactionSource -> Extrinsic -> M TransactionValidity;
  offchain_worker : Header -> M unit;
}.
(** [GrandpaApi]: the set of the authority is not used. *)
Record GrandpaApi : Type := mkGrandpaApi {
  grandpa_authorities : M (list (bytes * Z));
  grandpa_submit_report : GrandpaEquivocation -> bytes -> M (option unit);
  grandpa_key_ownership_proof : Z -> bytes -> M (option bytes);
}.
(** [BabeApi]: the slot of the authority is not used. *)
Record BabeApi : Type := mkBabeApi {
  configuration : M BabeGenesisConfiguration;
  current_epoch_start : M Z;
  babe_key_ownership_proof : Z -> bytes -> M (option bytes);
  babe_submit_report : BabeEquivocation -> bytes -> M (option unit);
}.
(** [AccountNonceApi], [TransactionPaymentApi], [sp_session::SessionKeys]. *)
Record AccountApi : Type := mkAccountApi {
  account_nonce : AccountId -> M Z;
  query_info : Extrinsic -> Z -> M DispatchInfo;
  generate_session_keys : option bytes -> M bytes;
  decode_session_keys : bytes -> option (list (bytes * bytes));
}.

Definition core_api (VERSION : RuntimeVersion) : CoreApi := {|
  version := VERSION;
  execute_block := Executive_execute_block modules;
  initialize_block := Executive_initialize_block modules;
  metadata := Runtime_metadata modules;
|}.

Definition block_api : BlockApi := {|
  apply_extrinsic := Executive_apply_extrinsic modules;
  finalize_block := Executive_finalize_block modules;
  inherent_extrinsics data := create_extrinsics modules data;
  check_inherents block data := check_extrinsics modules data block;
  random_seed := RandomnessCollectiveFlip_random_seed modules;
  validate_transaction := Executive_validate_transaction modules;
  offchain_worker := Executive_offchain_worker modules;
|}.

(** A proof that comes back: nothing is submitted when it does not decode. *)
Definition submit_report {Equivocation : Type} (submit : Equivocation -> Proof -> M (option unit))
    (equivocation_proof : Equivocation) (key_owner_proof : bytes) : M (option unit) :=
  match (decode key_owner_proof : option Proof) with
  | Some key_owner_proof => submit equivocation_proof key_owner_proof
  | None => mret None
  end.

(** A proof that leaves. *)
Definition key_ownership_proof (KEY_TYPE authority_id : bytes) : M (option bytes) :=
  p ← Historical_prove modules (KEY_TYPE, authority_id);
  mret (encode <$> p).

Definition grandpa_api : GrandpaApi := {|
  grandpa_authorities := Grandpa_authorities modules;
  grandpa_submit_report := submit_report (Grandpa_submit_unsigned_equivocation_report modules);
  grandpa_key_ownership_proof _set_id := key_ownership_proof grandpa_KEY_TYPE;
|}.

(** [EpochDuration] and [PRIMARY_PROBABILITY] are the runtime's. *)
Definition babe_configuration (EpochDuration : Z) (PRIMARY_PROBABILITY : Z * Z) :
    M BabeGenesisConfiguration :=
  authorities ← Babe_authorities modules;
  seed ← Babe_randomness modules;
  mret (mkBabeGenesisConfiguration (Babe_slot_duration modules) EpochDuration PRIMARY_PROBABILITY
    authorities seed PrimaryAndSecondaryPlainSlots).

Definition babe_api (EpochDuration : Z) (PRIMARY_PROBABILITY : Z * Z) : BabeApi := {|
  configuration := babe_configuration EpochDuration PRIMARY_PROBABILITY;
  current_epoch_start := Babe_current_epoch_start modules;
  babe_key_ownership_proof _slot_number := key_ownership_proof babe_KEY_TYPE;
  babe_submit_report := submit_report (Babe_submit_unsigned_equivocation_report modules);
|}.

Definition account_api : AccountApi := {|
  account_nonce := System_account_nonce modules;
  query_info := TransactionPayment_query_info modules;
  generate_session_keys := SessionKeys_generate modules;
  decode_session_keys := SessionKeys_decode_into_raw_public_keys modules;
|}.

(** The interfaces of the runtimes of a chain with its own consensus, and of a
    parachain, which leaves it to the relay chain. *)
Record RuntimeApis : Type := mkRuntimeApis {
  core : CoreApi;
  blocks : BlockApi;
  grandpa : option GrandpaApi;
  babe : option BabeApi;
  discovery_authorities : option (M (list bytes));
  accounts : AccountApi;
}.

Definition robonomics_apis : RuntimeApis := {|
  core := core_api Robonomics.VERSION;
  blocks := block_api;
  grandpa := Some grandpa_api;
  babe := Some (babe_api Robonomics.EpochDuration Robonomics.PRIMARY_PROBABILITY);
  discovery_authorities := Some (AuthorityDiscovery_authorities modules);
  accounts := account_api;
|}.

Definition ipci_apis : RuntimeApis := {|
  core := core_api Ipci.VERSION;
  blocks := block_api;
  grandpa := Some grandpa_api;
  babe := Some (babe_api Ipci.EpochDuration Ipci.PRIMARY_PROBABILITY);
  discovery_authorities := Some (AuthorityDiscovery_authorities modules);
  accounts := account_api;
|}.

Definition parachain_apis : RuntimeApis := {|
  core := core_api Parachain.VERSION;
  blocks := block_api;
  grandpa := None;
  babe := None;
  discovery_authorities := None;
  accounts := account_api;
|}.

(** [RuntimeApiCollection] of the node's [service.rs]: the interfaces a runtime must
    implement for a full node, and those a runtime here does; [ApiExt] is generated
    for every runtime. *)
Definition RuntimeApiCollection : list string := [
  "TaggedTransactionQueue"; "ApiExt"; "BabeApi"; "GrandpaApi"; "BlockBuilder";
  "TransactionPaymentApi"; "AccountNonceApi"; "Metadata"; "OffchainWorkerApi"; "SessionKeys";
  "AuthorityDiscoveryApi"].
Definition implemented (apis : RuntimeApis) : list string :=
  let given {A} (o : option A) (n : string) := match o with Some _ => [n] | None => [] end in
  (["ApiExt"; "Core"; "Metadata"; "BlockBuilder"; "TaggedTransactionQueue"; "OffchainWorkerApi"] ++
   given (grandpa apis) "GrandpaApi" ++ given (babe apis) "BabeApi" ++
   given (discovery_authorities apis) "AuthorityDiscoveryApi" ++
   ["AccountNonceApi"; "TransactionPaymentApi"; "SessionKeys"])%list.

(** The two runtimes with their own consensus can run a full node; the parachain
    lacks exactly what the relay chain does for it. *)
Lemma runtime_api_collection :
  (forall apis, apis = robonomics_apis \/ apis = ipci_apis ->
     forall i, i ∈ RuntimeApiCollection -> i ∈ implemented apis) /\
  filter (fun i => i ∉ implemented parachain_apis) RuntimeApiCollection =
    ["BabeApi"; "GrandpaApi"; "AuthorityDiscoveryApi"].
Proof.
  split; [|by vm_compute].
  intros apis Hapis i. revert i. apply Forall_forall.
  destruct Hapis as [-> | ->]; apply (bool_decide_unpack _); by vm_compute.
Qed.

(** ** Benchmarks

    [add_benchmark!] appends the batches of a pallet when it is the one asked
    for, and may fail; [whitelist] are the storage keys not counted. *)
Context (add_benchmark : string -> string -> list Batch -> SO W string (list Batch)).

(** The pallet crates and the modules that are benchmarked. *)
Definition robonomics_benchmarks : list (string * string) := [
  ("pallet_babe", "Babe"); ("pallet_balances", "Balances"); ("pallet_collective", "Council");
  ("pallet_elections_phragmen", "Elections"); ("pallet_grandpa", "Grandpa");
  ("pallet_identity", "Identity"); ("pallet_im_online", "ImOnline");
  ("pallet_indices", "Indices"); ("pallet_multisig", "Multisig");
  ("pallet_offences", "OffencesBench"); ("pallet_scheduler", "Scheduler");
  ("pallet_session", "SessionBench"); ("pallet_staking", "Staking");
  ("frame_system", "SystemBench"); ("pallet_timestamp", "Timestamp");
  ("pallet_treasury", "Treasury"); ("pallet_utility", "Utility")].

Definition ipci_benchmarks : list (string * string) := [
  ("pallet_babe", "Babe"); ("pallet_balances", "Balances"); ("pallet_grandpa", "Grandpa");
  ("pallet_identity", "Identity"); ("pallet_im_online", "ImOnline");
  ("pallet_indices", "Indices"); ("pallet_multisig", "Multisig");
  ("pallet_offences", "OffencesBench"); ("pallet_session", "SessionBench");
  ("pallet_staking", "Staking"); ("frame_system", "SystemBench");
  ("pallet_timestamp", "Timestamp"); ("pallet_utility", "Utility")].

Definition add_benchmarks (benches : list (string * string)) : SO W string (list Batch) :=
  foldl (fun batches b => l ← batches; add_benchmark b.1 b.2 l) (mret []) benches.

Definition dispatch_benchmark (benches : list (string * string)) : SO W string (list Batch) :=
  batches ← add_benchmarks benches;
  match batches with
  | [] => so_throw "Benchmark not found for this pallet."
  | _ => mret batches
  end.

(** ** What the interfaces promise *)

Lemma key_ownership_proof_eq KEY_TYPE id st :
  key_ownership_proof KEY_TYPE id st =
  match Historical_prove modules (KEY_TYPE, id) st with
  | (Return p, st') => (Return (encode <$> p), st')
  | (Fail e, st') => (Fail e, st')
  | (Panic m, st') => (Panic m, st')
  end.
Proof. unfold key_ownership_proof. so_unfold. by destruct (Historical_prove _ _ _) as [[] ?]. Qed.

(** A report with a proof the runtime made is the pallet's report with the proof
    [Historical] gave. *)
Lemma report_round_trip {Equivocation : Type} (submit : Equivocation -> Proof -> M (option unit))
    KEY_TYPE id st p st' e :
  CodecLaws Proof ->
  (forall k s q s', Historical_prove modules k s = (Return (Some q), s') -> encodable q) ->
  key_ownership_proof KEY_TYPE id st = (Return (Some p), st') ->
  exists q, Historical_prove modules (KEY_TYPE, id) st = (Return (Some q), st') /\
    submit_report submit e p = submit e q.
Proof.
  intros Hlaws Henc. rewrite key_ownership_proof_eq.
  destruct (Historical_prove modules (KEY_TYPE, id) st) as [[[q|]| |] s] eqn:Hp; try done.
  intros [= <- <-]. exists q. split; [done|].
  unfold submit_report. by rewrite decode_encode by (by eapply Henc).
Qed.

Lemma report_undecodable {Equivocation : Type} (submit : Equivocation -> Proof -> M (option unit))
    e p st :
  (decode p : option Proof) = None -> submit_report submit e p st = (Return None, st).
Proof. intros Hd. unfold submit_report. by rewrite Hd. Qed.
End api.

Section facts.
Context {W Block Header Extrinsic Hash InherentData CheckInherentsResult ApplyExtrinsicResult
  TransactionSource TransactionValidity AccountId DispatchInfo Metadata GrandpaEquivocation
  BabeEquivocation Proof : Type}.
Context `{!Codec Proof, !CodecLaws Proof}.
Context (grandpa_KEY_TYPE babe_KEY_TYPE : bytes).
Context (modules : @Modules W Block Header Extrinsic Hash InherentData CheckInherentsResult
  ApplyExtrinsicResult TransactionSource TransactionValidity AccountId DispatchInfo Metadata
  GrandpaEquivocation BabeEquivocation Proof).

(** [Historical] gives proofs that can be encoded. *)
Hypothesis proofs_encodable : forall k s q s',
  Historical_prove modules k s = (Return (Some q), s') -> encodable q.

Abbreviation robonomics := (robonomics_apis grandpa_KEY_TYPE babe_KEY_TYPE modules).
Abbreviation ipci := (ipci_apis grandpa_KEY_TYPE babe_KEY_TYPE modules).

(** C34: reports of equivocations.  In both runtimes with their own consensus, for
    Grandpa and for BABE: the key ownership proof that a runtime gave for an
    authority, which is the one [Historical] has of the key of that consensus,
    reaches the pallet of that consensus as it was when it comes back with a
    report, in whatever state; and bytes that are no proof never reach a pallet,
    the report being refused with the state as it was. *)
Theorem reports_round_trip apis g b :
  apis = robonomics \/ apis = ipci -> grandpa apis = Some g -> babe apis = Some b ->
  (forall set_id id st p st', grandpa_key_ownership_proof g set_id id st = (Return (Some p), st') ->
     exists q, Historical_prove modules (grandpa_KEY_TYPE, id) st = (Return (Some q), st') /\
       forall e, grandpa_submit_report g e p =
         Grandpa_submit_unsigned_equivocation_report modules e q) /\
  (forall slot id st p st', babe_key_ownership_proof b slot id st = (Return (Some p), st') ->
     exists q, Historical_prove modules (babe_KEY_TYPE, id) st = (Return (Some q), st') /\
       forall e, babe_submit_report b e p = Babe_submit_unsigned_equivocation_report modules e q) /\
  (forall p, (decode p : option Proof) = None -> forall st,
     (forall e, grandpa_submit_report g e p st = (Return None, st)) /\
     (forall e, babe_submit_report b e p st = (Return None, st))).
Proof using Type*.
  intros Hapis Hg Hb.
  assert (g = grandpa_api grandpa_KEY_TYPE modules) as -> by (by destruct Hapis; simplify_eq/=).
  assert (exists d c, b = babe_api babe_KEY_TYPE modules d c) as (d & c & ->)
    by (destruct Hapis; simplify_eq/=; by eauto).
  cbn. split; [|split].
  1,2: intros _ id st p st' Hp; rewrite key_ownership_proof_eq in Hp;
    destruct (Historical_prove _ _ _) as [[[q|]| |] s] eqn:Hq; simplify_eq/=;
    exists q; split; [done|]; intros e; unfold submit_report;
    by rewrite decode_encode by (by eapply proofs_encodable).
  intros p Hp st. split; intros e; by apply report_undecodable.
Qed.

(** The BABE configuration: when BABE takes twice the minimum period of the
    timestamps as the duration of a slot, as it documents, a slot is as long as
    the runtimes say; an epoch, meant to last ten minutes, does in IPCI and lasts
    40 seconds less in Robonomics, whose minutes are seven blocks of 8 seconds. *)
Lemma babe_epochs g b st conf st' :
  let check (apis : RuntimeApis) minimum slot epoch :=
    Babe_slot_duration modules = 2 * minimum -> grandpa apis = Some g -> babe apis = Some b ->
    configuration b st = (Return conf, st') ->
    slot_duration conf = slot /\ slot_duration conf * epoch_length conf = epoch /\
    c conf = (1, 4) /\ allowed_slots conf = PrimaryAndSecondaryPlainSlots in
  check robonomics Robonomics.MinimumPeriod Robonomics.SLOT_DURATION (560 * 1000) /\
  check ipci Ipci.MinimumPeriod Ipci.SLOT_DURATION (600 * 1000).
Proof using Type.
  cbn zeta. split; intros Hs _ [= <-]; cbn [configuration babe_api]; unfold babe_configuration;
    so_unfold; destruct (Babe_authorities modules st) as [[] s]; try done;
    destruct (Babe_randomness modules s) as [[] s2]; try done;
    intros [= <- <-]; cbn; by rewrite Hs.
Qed.
End facts.

(** A benchmark is dispatched unless no pallet answers to its name. *)
Section benchmarks.
Context {W Batch : Type} (add_benchmark : string -> string -> list Batch -> SO W string (list Batch)).

Lemma dispatch_benchmark_spec benches st batches st' :
  dispatch_benchmark add_benchmark benches st = (Return batches, st') ->
  batches <> [] /\ add_benchmarks add_benchmark benches st = (Return batches, st').
Proof.
  unfold dispatch_benchmark. so_unfold.
  destruct (add_benchmarks add_benchmark benches st) as [[[|x l]| |] s]; intros; by simplify_eq.
Qed.
End benchmarks.

(** *** The storage keys the benchmarks do not count

    [whitelist]: the key of a value with its comment, as a hexadecimal literal. *)
Definition hex_digit (c : Ascii.ascii) : option Z :=
  let n := Z.of_nat (Ascii.nat_of_ascii c) in
  if bool_decide (48 <= n <= 57) then Some (n - 48)
  else if bool_decide (97 <= n <= 102) then Some (n - 87) else None.
Fixpoint hex_pairs (l : list Ascii.ascii) : option bytes :=
  match l with
  | [] => Some []
  | c :: d :: l =>
      hi ← hex_digit c; lo ← hex_digit d; rest ← hex_pairs l; Some (16 * hi + lo :: rest)
  | _ => None
  end.
Definition hex_literal (s : string) : option bytes := hex_pairs (String.list_ascii_of_string s).

Definition robonomics_whitelist : list (string * string) := [
  ("Block Number",
   "26aa394eea5630e07c48ae0c9558cef702a5c1b19ab7a04f536c519aca4983ac");
  ("Total Issuance",
   "c2261276cc9d1f8598ea4b6a74b15c2f57c875e4cff74148e4628f264b974c80");
  ("Execution Phase",
   "26aa394eea5630e07c48ae0c9558cef7ff553b5a9862a516939d82b3d3d8661a");
  ("Event Count",
   "26aa394eea5630e07c48ae0c9558cef70a98fdbe9ce6c55837576c60c7af3850");
  ("System Events",
   "26aa394eea5630e07c48ae0c9558cef780d41e5e16056765bc8461851072c9d7");
  ("Caller 0 Account",
   "26aa394eea5630e07c48ae0c9558cef7b99d880ec681799c0cf30e8886371da946c154ffd9992e395af90b5b13cc6f295c77033fce8a9045824a6690bbf99c6db269502f0a8d1d2a008542d5690a0749");
  ("Treasury Account",
   "26aa394eea5630e07c48ae0c9558cef7b99d880ec681799c0cf30e8886371da95ecffd7b6c0f78751baa9d281e0bfa3a6d6f646c70792f74727372790000000000000000000000000000000000000000")].

Definition ipci_whitelist : list (string * string) := [
  ("Block Number",
   "26aa394eea5630e07c48ae0c9558cef702a5c1b19ab7a04f536c519aca4983ac");
  ("Total Issuance",
   "c2261276cc9d1f8598ea4b6a74b15c2f57c875e4cff74148e4628f264b974c80");
  ("Execution Phase",
   "26aa394eea5630e07c48ae0c9558cef7ff553b5a9862a516939d82b3d3d8661a");
  ("Event Count",
   "26aa394eea5630e07c48ae0c9558cef70a98fdbe9ce6c55837576c60c7af3850");
  ("System Events",
   "26aa394eea5630e07c48ae0c9558cef780d41e5e16056765bc8461851072c9d7");
  ("Caller 0 Account",
   "26aa394eea5630e07c48ae0c9558cef7b99d880ec681799c0cf30e8886371da946c154ffd9992e395af90b5b13cc6f295c77033fce8a9045824a6690bbf99c6db269502f0a8d1d2a008542d5690a0749");
  ("Treasury Account",
   "26aa394eea5630e07c48ae0c9558cef7b99d880ec681799c0cf30e8886371da95ecffd7b6c0f78751baa9d281e0bfa3a6d6f646c70792f74727372790000000000000000000000000000000000000000")].

(** A key of a map in FRAME: the hash of the name of the pallet, that of the item,
    and then the hash of the key and the key itself. *)
Definition ascii_bytes (s : string) : bytes :=
  (fun c => Z.of_nat (Ascii.nat_of_ascii c)) <$> String.list_ascii_of_string s.
(** [ModuleId::into_account]: ["modl"], the identifier, and zeros up to 32 bytes. *)
Definition module_account (id : string) : bytes :=
  let b := (ascii_bytes "modl" ++ ascii_bytes id)%list in
  (b ++ replicate (32 - length b) 0)%list.
Definition whitelisted (whitelist : list (string * string)) (name : string) : option bytes :=
  k ← snd <$> list_find (fun k => k.1 = name) whitelist; hex_literal k.2.

(** The two lists are the same keys, of 32 bytes, or 80 for an entry of a map.  All
    but one are of the same pallet, the two accounts are entries of one map, and that of
    the treasury is the account of the module identifier of the Robonomics treasury;
    IPCI has no treasury, and the key stands for nothing there. *)
Lemma whitelist_keys :
  robonomics_whitelist = ipci_whitelist /\
  (fun k => length <$> hex_literal k.2) <$> robonomics_whitelist =
    (Some <$> [32; 32; 32; 32; 32; 80; 80]%nat) /\
  (filter (fun k => take 16 <$> hex_literal k.2 <>
     take 16 <$> whitelisted robonomics_whitelist "Block Number") robonomics_whitelist).*1 =
    ["Total Issuance"] /\
  take 32 <$> whitelisted robonomics_whitelist "Caller 0 Account" =
    take 32 <$> whitelisted robonomics_whitelist "Treasury Account" /\
  drop 48 <$> whitelisted robonomics_whitelist "Treasury Account" =
    Some (module_account Runtime.Robonomics.TreasuryModuleId) /\
  "Treasury" ∉ pallet_name <$> Runtime.Ipci.pallets.
Proof.
  repeat (split; [by vm_compute|]). apply (bool_decide_unpack _). by vm_compute.
Qed.
