(* ===== verification/RuntimeConfig.v ===== *)
(** * The configurations of the pallets

    The [impl <pallet>::Trait for Runtime] of the three runtimes
    ([bin/node/*-runtime/src/lib.rs], [robonomics-runtime/parachain/src/lib.rs]):
    for every pallet the associated types, as they are written.  A type is its
    path and arguments; what the paths mean is checked against what the
    file brings into scope ([use], [parameter_types!], its own types, the pallets of
    [construct_runtime!]) in [RuntimeWiring]. *)
From stdpp Require Import prelude strings list.
From Stdlib Require Import ZArith Lia.
From S2P Require Import Prelude Runtime.
Local Open Scope string_scope.
Local Open Scope Z_scope.

(** A type: [a::b], [a::b<T, U>], [(T, U)], [<T as Trait>::Name]. *)
#[warnings="-register-all"]
Inductive Ty : Type :=
| Path (p : list string)
| App (p : list string) (args : list Ty)
| Tuple (l : list Ty)
| Assoc (self trait : Ty) (name : string).

Abbreviation Name n := (Path [n]).
Abbreviation Unit := (Tuple []).

(** [impl a::b::Trait<T> for Runtime { type A = ..; }]. *)
Record Config : Type := mkConfig {
  config_pallet : list string;
  config_instance : list Ty;
  assoc_types : list (string * Ty);
}.

(** [node_primitives]. *)
Module Primitives.
Definition aliases : list (string * Ty) := [
  ("BlockNumber", Name "u32");
  ("Signature", Name "MultiSignature");
  ("AccountId", Assoc (Assoc (Name "Signature") (Name "Verify") "Signer") (Name "IdentifyAccount")
     "AccountId");
  ("AccountIndex", Name "u32");
  ("Balance", Name "u128");
  ("Moment", Name "u64");
  ("Index", Name "u32");
  ("Hash", Path ["sp_core"; "H256"]);
  ("Timestamp", Name "u64");
  ("DigestItem", App ["generic"; "DigestItem"] [Name "Hash"]);
  ("Header", App ["generic"; "Header"] [Name "BlockNumber"; Name "BlakeTwo256"]);
  ("Block", App ["generic"; "Block"] [Name "Header"; Name "OpaqueExtrinsic"]);
  ("BlockId", App ["generic"; "BlockId"] [Name "Block"])].
End Primitives.

Module Robonomics.
Import Runtime.Robonomics.
Definition config_frame_system : Config := mkConfig ["frame_system"] [] [
  ("Call", Name "Call");
  ("BaseCallFilter", Unit);
  ("Version", Name "Version");
  ("AccountId", Name "AccountId");
  ("Lookup", Name "Indices");
  ("Index", Name "Index");
  ("BlockNumber", Name "BlockNumber");
  ("Hash", Name "Hash");
  ("Hashing", Name "BlakeTwo256");
  ("Header", App ["generic"; "Header"] [Name "BlockNumber"; Name "BlakeTwo256"]);
  ("Event", Name "Event");
  ("Origin", Name "Origin");
  ("DbWeight", Name "RocksDbWeight");
  ("BlockHashCount", Name "BlockHashCount");
  ("BlockExecutionWeight", Name "BlockExecutionWeight");
  ("MaximumExtrinsicWeight", Name "MaximumExtrinsicWeight");
  ("MaximumBlockWeight", Name "MaximumBlockWeight");
  ("MaximumBlockLength", Name "MaximumBlockLength");
  ("ExtrinsicBaseWeight", Name "ExtrinsicBaseWeight");
  ("AvailableBlockRatio", Name "AvailableBlockRatio");
  ("ModuleToIndex", Name "ModuleToIndex");
  ("AccountData", App ["pallet_balances"; "AccountData"] [Name "Balance"]);
  ("OnNewAccount", Unit);
  ("OnKilledAccount", Unit);
  ("SystemWeightInfo", Unit)].

Definition config_pallet_multisig : Config := mkConfig ["pallet_multisig"] [] [
  ("Event", Name "Event");
  ("Call", Name "Call");
  ("Currency", Name "Balances");
  ("DepositBase", Name "DepositBase");
  ("DepositFactor", Name "DepositFactor");
  ("MaxSignatories", Name "MaxSignatories");
  ("WeightInfo", Unit)].

Definition config_pallet_utility : Config := mkConfig ["pallet_utility"] [] [
  ("Call", Name "Call");
  ("Event", Name "Event");
  ("WeightInfo", Unit)].

Definition config_pallet_timestamp : Config := mkConfig ["pallet_timestamp"] [] [
  ("Moment", Name "Moment");
  ("OnTimestampSet", Name "Babe");
  ("MinimumPeriod", Name "MinimumPeriod");
  ("WeightInfo", Unit)].

Definition config_pallet_babe : Config := mkConfig ["pallet_babe"] [] [
  ("EpochDuration", Name "EpochDuration");
  ("ExpectedBlockTime", Name "ExpectedBlockTime");
  ("EpochChangeTrigger", Path ["pallet_babe"; "ExternalTrigger"]);
  ("KeyOwnerProofSystem", Name "Historical");
  ("KeyOwnerProof", Assoc (Path ["Self"; "KeyOwnerProofSystem"]) (App ["KeyOwnerProofSystem"]
     [Tuple [Name "KeyTypeId"; Path ["pallet_babe"; "AuthorityId"]]]) "Proof");
  ("KeyOwnerIdentification", Assoc (Path ["Self"; "KeyOwnerProofSystem"]) (App
     ["KeyOwnerProofSystem"] [Tuple [Name "KeyTypeId"; Path ["pallet_babe"; "AuthorityId"]]])
     "IdentificationTuple");
  ("HandleEquivocation", App ["pallet_babe"; "EquivocationHandler"] [Path ["Self";
     "KeyOwnerIdentification"]; Name "Offences"])].

Definition config_pallet_authorship : Config := mkConfig ["pallet_authorship"] [] [
  ("FindAuthor", App ["pallet_session"; "FindAccountFromAuthorIndex"] [Name "Self"; Name "Babe"]);
  ("UncleGenerations", Name "UncleGenerations");
  ("FilterUncle", Unit);
  ("EventHandler", Tuple [Name "Staking"; Name "ImOnline"])].

Definition config_pallet_indices : Config := mkConfig ["pallet_indices"] [] [
  ("AccountIndex", Name "AccountIndex");
  ("Currency", Name "Balances");
  ("Deposit", Name "IndexDeposit");
  ("Event", Name "Event");
  ("WeightInfo", Unit)].

Definition config_pallet_balances : Config := mkConfig ["pallet_balances"] [] [
  ("Balance", Name "Balance");
  ("DustRemoval", Unit);
  ("Event", Name "Event");
  ("ExistentialDeposit", Name "ExistentialDeposit");
  ("AccountStore", App ["frame_system"; "Module"] [Name "Runtime"]);
  ("WeightInfo", Unit)].

Definition config_pallet_transaction_payment : Config :=
  mkConfig ["pallet_transaction_payment"] [] [
  ("Currency", Name "Balances");
  ("OnTransactionPayment", Name "DealWithFees");
  ("TransactionByteFee", Name "TransactionByteFee");
  ("WeightToFee", App ["IdentityFee"] [Name "Balance"]);
  ("FeeMultiplierUpdate", App ["TargetedFeeAdjustment"] [Name "Self"; Name "TargetBlockFullness";
     Name "AdjustmentVariable"; Name "MinimumMultiplier"])].

Definition config_pallet_session : Config := mkConfig ["pallet_session"] [] [
  ("SessionManager", Name "Staking");
  ("SessionHandler", Assoc (Name "SessionKeys") (Name "OpaqueKeys") "KeyTypeIdProviders");
  ("ShouldEndSession", Name "Babe");
  ("Event", Name "Event");
  ("Keys", Name "SessionKeys");
  ("ValidatorId", Assoc (Name "Self") (Path ["frame_system"; "Trait"]) "AccountId");
  ("ValidatorIdOf", App ["pallet_staking"; "StashOf"] [Name "Self"]);
  ("DisabledValidatorsThreshold", Name "DisabledValidatorsThreshold");
  ("NextSessionRotation", Name "Babe");
  ("WeightInfo", Unit)].

Definition config_pallet_session_historical : Config :=
  mkConfig ["pallet_session"; "historical"] [] [
  ("FullIdentification", App ["pallet_staking"; "Exposure"] [Name "AccountId"; Name "Balance"]);
  ("FullIdentificationOf", App ["pallet_staking"; "ExposureOf"] [Name "Runtime"])].

Definition config_pallet_staking : Config := mkConfig ["pallet_staking"] [] [
  ("Currency", Name "Balances");
  ("CurrencyToVote", Path ["impls"; "CurrencyToVoteHandler"]);
  ("UnixTime", Name "Timestamp");
  ("Event", Name "Event");
  ("Slash", Unit);
  ("Reward", Unit);
  ("RewardRemainder", Unit);
  ("SlashDeferDuration", Name "SlashDeferDuration");
  ("SlashCancelOrigin", App ["frame_system"; "EnsureRoot"] [Assoc (Name "Self") (Path
     ["frame_system"; "Trait"]) "AccountId"]);
  ("SessionsPerEra", Name "SessionsPerEra");
  ("BondingDuration", Name "BondingDuration");
  ("SessionInterface", Name "Self");
  ("RewardCurve", Name "RewardCurve");
  ("MaxIterations", Name "MaxIterations");
  ("MinSolutionScoreBump", Name "MinSolutionScoreBump");
  ("MaxNominatorRewardedPerValidator", Name "MaxNominatorRewardedPerValidator");
  ("NextNewSession", Name "Session");
  ("ElectionLookahead", Name "ElectionLookahead");
  ("Call", Name "Call");
  ("UnsignedPriority", Name "StakingUnsignedPriority");
  ("WeightInfo", Unit)].

Definition config_pallet_authority_discovery : Config :=
  mkConfig ["pallet_authority_discovery"] [] [].

Definition config_pallet_grandpa : Config := mkConfig ["pallet_grandpa"] [] [
  ("Event", Name "Event");
  ("Call", Name "Call");
  ("KeyOwnerProofSystem", Name "Historical");
  ("KeyOwnerProof", Assoc (Path ["Self"; "KeyOwnerProofSystem"]) (App ["KeyOwnerProofSystem"]
     [Tuple [Name "KeyTypeId"; Name "GrandpaId"]]) "Proof");
  ("KeyOwnerIdentification", Assoc (Path ["Self"; "KeyOwnerProofSystem"]) (App
     ["KeyOwnerProofSystem"] [Tuple [Name "KeyTypeId"; Name "GrandpaId"]]) "IdentificationTuple");
  ("HandleEquivocation", App ["pallet_grandpa"; "EquivocationHandler"] [Path ["Self";
     "KeyOwnerIdentification"]; Name "Offences"])].

Definition config_pallet_finality_tracker : Config := mkConfig ["pallet_finality_tracker"] [] [
  ("OnFinalizationStalled", Name "Grandpa");
  ("WindowSize", Name "WindowSize");
  ("ReportLatency", Name "ReportLatency")].

Definition config_pallet_identity : Config := mkConfig ["pallet_identity"] [] [
  ("Event", Name "Event");
  ("Currency", Name "Balances");
  ("BasicDeposit", Name "BasicDeposit");
  ("FieldDeposit", Name "FieldDeposit");
  ("SubAccountDeposit", Name "SubAccountDeposit");
  ("MaxSubAccounts", Name "MaxSubAccounts");
  ("MaxAdditionalFields", Name "MaxAdditionalFields");
  ("MaxRegistrars", Name "MaxRegistrars");
  ("Slashed", Unit);
  ("ForceOrigin", App ["frame_system"; "EnsureRoot"] [Assoc (Name "Self") (Path ["frame_system";
     "Trait"]) "AccountId"]);
  ("RegistrarOrigin", App ["frame_system"; "EnsureRoot"] [Assoc (Name "Self") (Path
     ["frame_system"; "Trait"]) "AccountId"]);
  ("WeightInfo", Unit)].

Definition config_pallet_sudo : Config := mkConfig ["pallet_sudo"] [] [
  ("Event", Name "Event");
  ("Call", Name "Call")].

Definition config_pallet_im_online : Config := mkConfig ["pallet_im_online"] [] [
  ("Event", Name "Event");
  ("AuthorityId", Name "ImOnlineId");
  ("ReportUnresponsiveness", Name "Offences");
  ("SessionDuration", Name "SessionDuration");
  ("UnsignedPriority", Name "ImOnlineUnsignedPriority");
  ("WeightInfo", Unit)].

Definition config_pallet_offences : Config := mkConfig ["pallet_offences"] [] [
  ("Event", Name "Event");
  ("IdentificationTuple", App ["pallet_session"; "historical"; "IdentificationTuple"] [Name
     "Self"]);
  ("OnOffenceHandler", Name "Staking");
  ("WeightSoftLimit", Name "OffencesWeightSoftLimit");
  ("WeightInfo", Unit)].

Definition config_pallet_scheduler : Config := mkConfig ["pallet_scheduler"] [] [
  ("Event", Name "Event");
  ("Origin", Name "Origin");
  ("Call", Name "Call");
  ("PalletsOrigin", Name "OriginCaller");
  ("ScheduleOrigin", App ["frame_system"; "EnsureRoot"] [Name "AccountId"]);
  ("MaximumWeight", Name "MaximumSchedulerWeight");
  ("WeightInfo", Unit)].

Definition config_pallet_treasury : Config := mkConfig ["pallet_treasury"] [] [
  ("ModuleId", Name "TreasuryModuleId");
  ("Currency", Name "Balances");
  ("ApproveOrigin", App ["pallet_collective"; "EnsureMembers"] [Name "_4"; Name "AccountId"; Name
     "CouncilCollective"]);
  ("RejectOrigin", App ["pallet_collective"; "EnsureMembers"] [Name "_2"; Name "AccountId"; Name
     "CouncilCollective"]);
  ("Tippers", Name "Elections");
  ("TipCountdown", Name "TipCountdown");
  ("TipFindersFee", Name "TipFindersFee");
  ("TipReportDepositBase", Name "TipReportDepositBase");
  ("TipReportDepositPerByte", Name "TipReportDepositPerByte");
  ("Event", Name "Event");
  ("ProposalRejection", Unit);
  ("ProposalBond", Name "ProposalBond");
  ("ProposalBondMinimum", Name "ProposalBondMinimum");
  ("SpendPeriod", Name "SpendPeriod");
  ("Burn", Name "Burn");
  ("BurnDestination", Unit);
  ("WeightInfo", Unit)].

Definition config_pallet_collective : Config :=
  mkConfig ["pallet_collective"] [Name "CouncilCollective"] [
  ("Origin", Name "Origin");
  ("Proposal", Name "Call");
  ("Event", Name "Event");
  ("MotionDuration", Name "CouncilMotionDuration");
  ("MaxProposals", Name "CouncilMaxProposals");
  ("WeightInfo", Unit)].

Definition config_pallet_elections_phragmen : Config :=
  mkConfig ["pallet_elections_phragmen"] [] [
  ("ModuleId", Name "ElectionsPhragmenModuleId");
  ("Event", Name "Event");
  ("Currency", Name "Balances");
  ("ChangeMembers", Name "Council");
  ("InitializeMembers", Name "Council");
  ("CurrencyToVote", Path ["impls"; "CurrencyToVoteHandler"]);
  ("CandidacyBond", Name "CandidacyBond");
  ("VotingBond", Name "VotingBond");
  ("LoserCandidate", Unit);
  ("BadReport", Unit);
  ("KickedMember", Unit);
  ("DesiredMembers", Name "DesiredMembers");
  ("DesiredRunnersUp", Name "DesiredRunnersUp");
  ("TermDuration", Name "TermDuration");
  ("WeightInfo", Unit)].

Definition config_pallet_robonomics_liability : Config :=
  mkConfig ["pallet_robonomics_liability"] [] [
  ("Event", Name "Event");
  ("Technics", Path ["pallet_robonomics_liability"; "technics"; "PureIPFS"]);
  ("Economics", Path ["pallet_robonomics_liability"; "economics"; "Communism"]);
  ("Liability", App ["pallet_robonomics_liability"; "signed"; "SignedLiability"] [Path ["Self";
     "Technics"]; Path ["Self"; "Economics"]; Name "Signature"; Assoc (Name "Signature") (Path
     ["traits"; "Verify"]) "Signer"; Name "AccountId"])].

Definition config_pallet_robonomics_datalog : Config :=
  mkConfig ["pallet_robonomics_datalog"] [] [
  ("Time", Name "Timestamp");
  ("Record", App ["Vec"] [Name "u8"]);
  ("Event", Name "Event")].

Definition config_pallet_robonomics_launch : Config := mkConfig ["pallet_robonomics_launch"] [] [
  ("Parameter", Name "bool");
  ("Event", Name "Event")].

(** Every configuration of the file. *)
Definition configs : list Config := [
  config_frame_system; config_pallet_multisig; config_pallet_utility; config_pallet_timestamp;
  config_pallet_babe; config_pallet_authorship; config_pallet_indices; config_pallet_balances;
  config_pallet_transaction_payment; config_pallet_session; config_pallet_session_historical;
  config_pallet_staking; config_pallet_authority_discovery; config_pallet_grandpa;
  config_pallet_finality_tracker; config_pallet_identity; config_pallet_sudo;
  config_pallet_im_online; config_pallet_offences; config_pallet_scheduler;
  config_pallet_treasury; config_pallet_collective; config_pallet_elections_phragmen;
  config_pallet_robonomics_liability; config_pallet_robonomics_datalog;
  config_pallet_robonomics_launch].

(** [impl frame_system::offchain::SigningTypes for Runtime] and
    [SendTransactionTypes<C>], for any [C] that is a call. *)
Definition config_signing_types : Config :=
  mkConfig ["frame_system"; "offchain"; "SigningTypes"] [] [
  ("Public", Assoc (Name "Signature") (Path ["traits"; "Verify"]) "Signer");
  ("Signature", Name "Signature")].
Definition config_send_transaction_types (C : Ty) : Config :=
  mkConfig ["frame_system"; "offchain"; "SendTransactionTypes"] [C] [
  ("OverarchingCall", Name "Call");
  ("Extrinsic", Name "UncheckedExtrinsic")].

(** [parameter_types!]: the names and their types, and the numbers among them. *)
Definition parameters : list (string * Ty) := [
  ("BlockHashCount", Name "BlockNumber"); ("MaximumBlockWeight", Name "Weight");
  ("AvailableBlockRatio", Name "Perbill"); ("MaximumExtrinsicWeight", Name "Weight");
  ("MaximumBlockLength", Name "u32"); ("Version", Name "RuntimeVersion");
  ("DepositBase", Name "Balance"); ("DepositFactor", Name "Balance");
  ("MaxSignatories", Name "u16"); ("MinimumPeriod", Name "Moment");
  ("UncleGenerations", Name "BlockNumber"); ("EpochDuration", Name "u64");
  ("ExpectedBlockTime", Name "Moment"); ("IndexDeposit", Name "Balance");
  ("ExistentialDeposit", Name "Balance"); ("TransferFee", Name "Balance");
  ("CreationFee", Name "Balance"); ("TransactionByteFee", Name "Balance");
  ("TargetBlockFullness", Name "Perquintill"); ("AdjustmentVariable", Name "Multiplier");
  ("MinimumMultiplier", Name "Multiplier"); ("DisabledValidatorsThreshold", Name "Perbill");
  ("SessionsPerEra", Path ["sp_staking"; "SessionIndex"]);
  ("BondingDuration", Path ["pallet_staking"; "EraIndex"]);
  ("SlashDeferDuration", Path ["pallet_staking"; "EraIndex"]);
  ("RewardCurve", Name "PiecewiseLinear"); ("MaxNominatorRewardedPerValidator", Name "u32");
  ("ElectionLookahead", Name "BlockNumber"); ("MaxIterations", Name "u32");
  ("MinSolutionScoreBump", Name "Perbill"); ("WindowSize", Name "BlockNumber");
  ("ReportLatency", Name "BlockNumber"); ("BasicDeposit", Name "Balance");
  ("FieldDeposit", Name "Balance"); ("SubAccountDeposit", Name "Balance");
  ("MaxSubAccounts", Name "u32"); ("MaxAdditionalFields", Name "u32");
  ("MaxRegistrars", Name "u32"); ("SessionDuration", Name "BlockNumber");
  ("ImOnlineUnsignedPriority", Name "TransactionPriority");
  ("StakingUnsignedPriority", Name "TransactionPriority");
  ("OffencesWeightSoftLimit", Name "Weight"); ("MaximumSchedulerWeight", Name "Weight");
  ("ProposalBond", Name "Permill"); ("ProposalBondMinimum", Name "Balance");
  ("SpendPeriod", Name "BlockNumber"); ("Burn", Name "Permill");
  ("TipCountdown", Name "BlockNumber"); ("TipFindersFee", Name "Percent");
  ("TipReportDepositBase", Name "Balance"); ("TipReportDepositPerByte", Name "Balance");
  ("TreasuryModuleId", Name "ModuleId"); ("CouncilMotionDuration", Name "BlockNumber");
  ("CouncilMaxProposals", Name "u32"); ("CandidacyBond", Name "Balance");
  ("VotingBond", Name "Balance"); ("TermDuration", Name "BlockNumber");
  ("DesiredMembers", Name "u32"); ("DesiredRunnersUp", Name "u32");
  ("ElectionsPhragmenModuleId", Name "LockIdentifier")].
Definition values : list (string * Z) := [
  ("BlockHashCount", BlockHashCount); ("MaximumBlockLength", MaximumBlockLength);
  ("DepositBase", DepositBase); ("DepositFactor", DepositFactor);
  ("MaxSignatories", MaxSignatories); ("MinimumPeriod", MinimumPeriod);
  ("UncleGenerations", UncleGenerations); ("EpochDuration", EpochDuration);
  ("ExpectedBlockTime", ExpectedBlockTime); ("IndexDeposit", IndexDeposit);
  ("ExistentialDeposit", ExistentialDeposit); ("TransferFee", TransferFee);
  ("CreationFee", CreationFee); ("TransactionByteFee", TransactionByteFee);
  ("SessionsPerEra", SessionsPerEra); ("BondingDuration", BondingDuration);
  ("SlashDeferDuration", SlashDeferDuration);
  ("MaxNominatorRewardedPerValidator", MaxNominatorRewardedPerValidator);
  ("ElectionLookahead", ElectionLookahead); ("MaxIterations", MaxIterations);
  ("WindowSize", WindowSize); ("ReportLatency", ReportLatency); ("BasicDeposit", BasicDeposit);
  ("FieldDeposit", FieldDeposit); ("SubAccountDeposit", SubAccountDeposit);
  ("MaxSubAccounts", MaxSubAccounts); ("MaxAdditionalFields", MaxAdditionalFields);
  ("MaxRegistrars", MaxRegistrars); ("SessionDuration", SessionDuration);
  ("ImOnlineUnsignedPriority", ImOnlineUnsignedPriority);
  ("StakingUnsignedPriority", StakingUnsignedPriority);
  ("ProposalBondMinimum", ProposalBondMinimum); ("SpendPeriod", SpendPeriod);
  ("TipCountdown", TipCountdown); ("TipReportDepositBase", TipReportDepositBase);
  ("TipReportDepositPerByte", TipReportDepositPerByte);
  ("CouncilMotionDuration", CouncilMotionDuration); ("CouncilMaxProposals", CouncilMaxProposals);
  ("CandidacyBond", CandidacyBond); ("VotingBond", VotingBond); ("TermDuration", TermDuration);
  ("DesiredMembers", DesiredMembers); ("DesiredRunnersUp", DesiredRunnersUp)].

(** What [use] brings in. *)
Definition imports : list string := [
  "StakerStatus"; "Encode"; "construct_runtime"; "debug"; "parameter_types"; "Currency";
  "Imbalance"; "KeyOwnerProofSystem"; "LockIdentifier"; "OnUnbalanced"; "Randomness";
  "BlockExecutionWeight"; "ExtrinsicBaseWeight"; "RocksDbWeight"; "WEIGHT_PER_SECOND";
  "IdentityFee"; "Weight"; "AccountId"; "AccountIndex"; "Balance"; "BlockNumber"; "Hash";
  "Index"; "Moment"; "Signature"; "fg_primitives"; "GrandpaId"; "GrandpaAuthorityList";
  "ImOnlineId"; "pallet_session_historical"; "Multiplier"; "TargetedFeeAdjustment";
  "RuntimeDispatchInfo"; "impl_runtime_apis"; "AuthorityDiscoveryId"; "KeyTypeId"; "_2"; "_4";
  "OpaqueMetadata"; "CheckInherentsResult"; "InherentData"; "PiecewiseLinear"; "traits";
  "BlakeTwo256"; "BlockT"; "NumberFor"; "OpaqueKeys"; "SaturatedConversion"; "Saturating";
  "StaticLookup"; "TransactionPriority"; "TransactionSource"; "TransactionValidity";
  "create_runtime_str"; "generic"; "impl_opaque_keys"; "ApplyExtrinsicResult";
  "FixedPointNumber"; "ModuleId"; "Perbill"; "Percent"; "Permill"; "Perquintill";
  "NativeVersion"; "RuntimeVersion"].

(** The types the file names, and its other types and modules. *)
Definition aliases : list (string * Ty) := [
  ("NegativeImbalance", Assoc (Name "Balances") (App ["Currency"] [Name "AccountId"])
     "NegativeImbalance");
  ("CouncilCollective", Path ["pallet_collective"; "Instance1"]);
  ("Context", App ["frame_system"; "ChainContext"] [Name "Runtime"]);
  ("Address", Assoc (Name "Indices") (Name "StaticLookup") "Source");
  ("Header", App ["generic"; "Header"] [Name "BlockNumber"; Name "BlakeTwo256"]);
  ("Block", App ["generic"; "Block"] [Name "Header"; Name "UncheckedExtrinsic"]);
  ("BlockId", App ["generic"; "BlockId"] [Name "Block"]);
  ("SignedExtra", Tuple [App ["frame_system"; "CheckSpecVersion"] [Name "Runtime"]; App
     ["frame_system"; "CheckTxVersion"] [Name "Runtime"]; App ["frame_system"; "CheckGenesis"]
     [Name "Runtime"]; App ["frame_system"; "CheckEra"] [Name "Runtime"]; App ["frame_system";
     "CheckNonce"] [Name "Runtime"]; App ["frame_system"; "CheckWeight"] [Name "Runtime"]; App
     ["pallet_transaction_payment"; "ChargeTransactionPayment"] [Name "Runtime"]]);
  ("UncheckedExtrinsic", App ["generic"; "UncheckedExtrinsic"] [Name "Address"; Name "Call"; Name
     "Signature"; Name "SignedExtra"]);
  ("SignedPayload", App ["generic"; "SignedPayload"] [Name "Call"; Name "SignedExtra"]);
  ("CheckedExtrinsic", App ["generic"; "CheckedExtrinsic"] [Name "AccountId"; Name "Call"; Name
     "SignedExtra"]);
  ("Executive", App ["frame_executive"; "Executive"] [Name "Runtime"; Name "Block"; Name
     "Context"; Name "Runtime"; Name "AllModules"])].
Definition structs : list string := [
  "constants"; "impls"; "DealWithFees"; "SessionKeys"].

(** The crates of the pallets, and their instances. *)
Definition crates : list (string * string) := [
  ("System", "frame_system"); ("Utility", "pallet_utility"); ("Timestamp", "pallet_timestamp");
  ("Identity", "pallet_identity"); ("Indices", "pallet_indices");
  ("Balances", "pallet_balances"); ("TransactionPayment", "pallet_transaction_payment");
  ("Multisig", "pallet_multisig");
  ("RandomnessCollectiveFlip", "pallet_randomness_collective_flip");
  ("Session", "pallet_session"); ("Authorship", "pallet_authorship");
  ("Staking", "pallet_staking"); ("Offences", "pallet_offences");
  ("Historical", "pallet_session_historical"); ("Babe", "pallet_babe");
  ("FinalityTracker", "pallet_finality_tracker"); ("Grandpa", "pallet_grandpa");
  ("ImOnline", "pallet_im_online"); ("AuthorityDiscovery", "pallet_authority_discovery");
  ("Treasury", "pallet_treasury"); ("Elections", "pallet_elections_phragmen");
  ("Council", "pallet_collective"); ("Scheduler", "pallet_scheduler");
  ("Liability", "pallet_robonomics_liability"); ("Datalog", "pallet_robonomics_datalog");
  ("Launch", "pallet_robonomics_launch"); ("Sudo", "pallet_sudo")].
End Robonomics.

Module Ipci.
Import Runtime.Ipci.
Definition config_frame_system : Config := mkConfig ["frame_system"] [] [
  ("Call", Name "Call");
  ("BaseCallFilter", Unit);
  ("Version", Name "Version");
  ("AccountId", Name "AccountId");
  ("Lookup", Name "Indices");
  ("Index", Name "Index");
  ("BlockNumber", Name "BlockNumber");
  ("Hash", Name "Hash");
  ("Hashing", Name "BlakeTwo256");
  ("Header", App ["generic"; "Header"] [Name "BlockNumber"; Name "BlakeTwo256"]);
  ("Event", Name "Event");
  ("Origin", Name "Origin");
  ("DbWeight", Name "RocksDbWeight");
  ("BlockExecutionWeight", Name "BlockExecutionWeight");
  ("ExtrinsicBaseWeight", Name "ExtrinsicBaseWeight");
  ("BlockHashCount", Name "BlockHashCount");
  ("MaximumExtrinsicWeight", Name "MaximumExtrinsicWeight");
  ("MaximumBlockWeight", Name "MaximumBlockWeight");
  ("MaximumBlockLength", Name "MaximumBlockLength");
  ("AvailableBlockRatio", Name "AvailableBlockRatio");
  ("ModuleToIndex", Name "ModuleToIndex");
  ("AccountData", App ["pallet_balances"; "AccountData"] [Name "Balance"]);
  ("OnNewAccount", Unit);
  ("OnKilledAccount", Unit);
  ("SystemWeightInfo", Unit)].

Definition config_pallet_utility : Config := mkConfig ["pallet_utility"] [] [
  ("Call", Name "Call");
  ("Event", Name "Event");
  ("WeightInfo", Unit)].

Definition config_pallet_multisig : Config := mkConfig ["pallet_multisig"] [] [
  ("Event", Name "Event");
  ("Call", Name "Call");
  ("Currency", Name "Balances");
  ("DepositBase", Name "DepositBase");
  ("DepositFactor", Name "DepositFactor");
  ("MaxSignatories", Name "MaxSignatories");
  ("WeightInfo", Unit)].

Definition config_pallet_timestamp : Config := mkConfig ["pallet_timestamp"] [] [
  ("Moment", Name "Moment");
  ("OnTimestampSet", Name "Babe");
  ("MinimumPeriod", Name "MinimumPeriod");
  ("WeightInfo", Unit)].

Definition config_pallet_babe : Config := mkConfig ["pallet_babe"] [] [
  ("EpochDuration", Name "EpochDuration");
  ("ExpectedBlockTime", Name "ExpectedBlockTime");
  ("EpochChangeTrigger", Path ["pallet_babe"; "ExternalTrigger"]);
  ("KeyOwnerProofSystem", Name "Historical");
  ("KeyOwnerProof", Assoc (Path ["Self"; "KeyOwnerProofSystem"]) (App ["KeyOwnerProofSystem"]
     [Tuple [Name "KeyTypeId"; Path ["pallet_babe"; "AuthorityId"]]]) "Proof");
  ("KeyOwnerIdentification", Assoc (Path ["Self"; "KeyOwnerProofSystem"]) (App
     ["KeyOwnerProofSystem"] [Tuple [Name "KeyTypeId"; Path ["pallet_babe"; "AuthorityId"]]])
     "IdentificationTuple");
  ("HandleEquivocation", App ["pallet_babe"; "EquivocationHandler"] [Path ["Self";
     "KeyOwnerIdentification"]; Name "Offences"])].

Definition config_pallet_authorship : Config := mkConfig ["pallet_authorship"] [] [
  ("FindAuthor", App ["pallet_session"; "FindAccountFromAuthorIndex"] [Name "Self"; Name "Babe"]);
  ("UncleGenerations", Name "UncleGenerations");
  ("FilterUncle", Unit);
  ("EventHandler", Tuple [Name "Staking"; Name "ImOnline"])].

Definition config_pallet_indices : Config := mkConfig ["pallet_indices"] [] [
  ("AccountIndex", Name "AccountIndex");
  ("Currency", Name "Balances");
  ("Deposit", Name "IndexDeposit");
  ("Event", Name "Event");
  ("WeightInfo", Unit)].

Definition config_pallet_balances : Config := mkConfig ["pallet_balances"] [] [
  ("Event", Name "Event");
  ("Balance", Name "Balance");
  ("DustRemoval", Unit);
  ("ExistentialDeposit", Name "ExistentialDeposit");
  ("AccountStore", App ["frame_system"; "Module"] [Name "Runtime"]);
  ("WeightInfo", Unit)].

Definition config_pallet_transaction_payment : Config :=
  mkConfig ["pallet_transaction_payment"] [] [
  ("Currency", Name "Balances");
  ("OnTransactionPayment", Unit);
  ("TransactionByteFee", Name "TransactionByteFee");
  ("WeightToFee", Name "WeightToFee");
  ("FeeMultiplierUpdate", App ["TargetedFeeAdjustment"] [Name "Self"; Name "TargetBlockFullness";
     Name "AdjustmentVariable"; Name "MinimumMultiplier"])].

Definition config_pallet_session : Config := mkConfig ["pallet_session"] [] [
  ("SessionManager", Name "Staking");
  ("SessionHandler", Assoc (Name "SessionKeys") (Name "OpaqueKeys") "KeyTypeIdProviders");
  ("ShouldEndSession", Name "Babe");
  ("Event", Name "Event");
  ("Keys", Name "SessionKeys");
  ("ValidatorId", Assoc (Name "Self") (Path ["frame_system"; "Trait"]) "AccountId");
  ("ValidatorIdOf", App ["pallet_staking"; "StashOf"] [Name "Self"]);
  ("DisabledValidatorsThreshold", Name "DisabledValidatorsThreshold");
  ("NextSessionRotation", Name "Babe");
  ("WeightInfo", Unit)].

Definition config_pallet_session_historical : Config :=
  mkConfig ["pallet_session"; "historical"] [] [
  ("FullIdentification", App ["pallet_staking"; "Exposure"] [Name "AccountId"; Name "Balance"]);
  ("FullIdentificationOf", App ["pallet_staking"; "ExposureOf"] [Name "Runtime"])].

Definition config_pallet_staking : Config := mkConfig ["pallet_staking"] [] [
  ("Currency", Name "Balances");
  ("CurrencyToVote", Path ["impls"; "CurrencyToVoteHandler"]);
  ("UnixTime", Name "Timestamp");
  ("Event", Name "Event");
  ("Slash", Unit);
  ("Reward", Unit);
  ("RewardRemainder", Unit);
  ("SlashDeferDuration", Name "SlashDeferDuration");
  ("SlashCancelOrigin", App ["frame_system"; "EnsureRoot"] [Assoc (Name "Self") (Path
     ["frame_system"; "Trait"]) "AccountId"]);
  ("SessionsPerEra", Name "SessionsPerEra");
  ("BondingDuration", Name "BondingDuration");
  ("SessionInterface", Name "Self");
  ("RewardCurve", Name "RewardCurve");
  ("MaxIterations", Name "MaxIterations");
  ("MinSolutionScoreBump", Name "MinSolutionScoreBump");
  ("MaxNominatorRewardedPerValidator", Name "MaxNominatorRewardedPerValidator");
  ("NextNewSession", Name "Session");
  ("ElectionLookahead", Name "ElectionLookahead");
  ("Call", Name "Call");
  ("UnsignedPriority", Name "StakingUnsignedPriority");
  ("WeightInfo", Unit)].

Definition config_pallet_authority_discovery : Config :=
  mkConfig ["pallet_authority_discovery"] [] [].

Definition config_pallet_grandpa : Config := mkConfig ["pallet_grandpa"] [] [
  ("Event", Name "Event");
  ("Call", Name "Call");
  ("KeyOwnerProofSystem", Name "Historical");
  ("KeyOwnerProof", Assoc (Path ["Self"; "KeyOwnerProofSystem"]) (App ["KeyOwnerProofSystem"]
     [Tuple [Name "KeyTypeId"; Name "GrandpaId"]]) "Proof");
  ("KeyOwnerIdentification", Assoc (Path ["Self"; "KeyOwnerProofSystem"]) (App
     ["KeyOwnerProofSystem"] [Tuple [Name "KeyTypeId"; Name "GrandpaId"]]) "IdentificationTuple");
  ("HandleEquivocation", App ["pallet_grandpa"; "EquivocationHandler"] [Path ["Self";
     "KeyOwnerIdentification"]; Name "Offences"])].

Definition config_pallet_finality_tracker : Config := mkConfig ["pallet_finality_tracker"] [] [
  ("OnFinalizationStalled", Name "Grandpa");
  ("WindowSize", Name "WindowSize");
  ("ReportLatency", Name "ReportLatency")].

Definition config_pallet_identity : Config := mkConfig ["pallet_identity"] [] [
  ("Event", Name "Event");
  ("Currency", Name "Balances");
  ("BasicDeposit", Name "BasicDeposit");
  ("FieldDeposit", Name "FieldDeposit");
  ("SubAccountDeposit", Name "SubAccountDeposit");
  ("MaxSubAccounts", Name "MaxSubAccounts");
  ("MaxAdditionalFields", Name "MaxAdditionalFields");
  ("MaxRegistrars", Name "MaxRegistrars");
  ("Slashed", Unit);
  ("ForceOrigin", App ["frame_system"; "EnsureRoot"] [Assoc (Name "Self") (Path ["frame_system";
     "Trait"]) "AccountId"]);
  ("RegistrarOrigin", App ["frame_system"; "EnsureRoot"] [Assoc (Name "Self") (Path
     ["frame_system"; "Trait"]) "AccountId"]);
  ("WeightInfo", Unit)].

Definition config_pallet_sudo : Config := mkConfig ["pallet_sudo"] [] [
  ("Event", Name "Event");
  ("Call", Name "Call")].

Definition config_pallet_im_online : Config := mkConfig ["pallet_im_online"] [] [
  ("Event", Name "Event");
  ("AuthorityId", Name "ImOnlineId");
  ("ReportUnresponsiveness", Name "Offences");
  ("SessionDuration", Name "SessionDuration");
  ("UnsignedPriority", Name "ImOnlineUnsignedPriority");
  ("WeightInfo", Unit)].

Definition config_pallet_offences : Config := mkConfig ["pallet_offences"] [] [
  ("Event", Name "Event");
  ("IdentificationTuple", App ["pallet_session"; "historical"; "IdentificationTuple"] [Name
     "Self"]);
  ("OnOffenceHandler", Name "Staking");
  ("WeightSoftLimit", Name "OffencesWeightSoftLimit");
  ("WeightInfo", Unit)].

Definition config_pallet_robonomics_datalog : Config :=
  mkConfig ["pallet_robonomics_datalog"] [] [
  ("Time", Name "Timestamp");
  ("Record", App ["Vec"] [Name "u8"]);
  ("Event", Name "Event")].

(** Every configuration of the file. *)
Definition configs : list Config := [
  config_frame_system; config_pallet_utility; config_pallet_multisig; config_pallet_timestamp;
  config_pallet_babe; config_pallet_authorship; config_pallet_indices; config_pallet_balances;
  config_pallet_transaction_payment; config_pallet_session; config_pallet_session_historical;
  config_pallet_staking; config_pallet_authority_discovery; config_pallet_grandpa;
  config_pallet_finality_tracker; config_pallet_identity; config_pallet_sudo;
  config_pallet_im_online; config_pallet_offences; config_pallet_robonomics_datalog].

(** [impl frame_system::offchain::SigningTypes for Runtime] and
    [SendTransactionTypes<C>], for any [C] that is a call. *)
Definition config_signing_types : Config :=
  mkConfig ["frame_system"; "offchain"; "SigningTypes"] [] [
  ("Public", Assoc (Name "Signature") (Path ["traits"; "Verify"]) "Signer");
  ("Signature", Name "Signature")].
Definition config_send_transaction_types (C : Ty) : Config :=
  mkConfig ["frame_system"; "offchain"; "SendTransactionTypes"] [C] [
  ("OverarchingCall", Name "Call");
  ("Extrinsic", Name "UncheckedExtrinsic")].

(** [parameter_types!]: the names and their types, and the numbers among them. *)
Definition parameters : list (string * Ty) := [
  ("BlockHashCount", Name "BlockNumber"); ("MaximumBlockWeight", Name "Weight");
  ("AvailableBlockRatio", Name "Perbill"); ("MaximumExtrinsicWeight", Name "Weight");
  ("MaximumBlockLength", Name "u32"); ("Version", Name "RuntimeVersion");
  ("DepositBase", Name "Balance"); ("DepositFactor", Name "Balance");
  ("MaxSignatories", Name "u16"); ("MinimumPeriod", Name "Moment");
  ("UncleGenerations", Name "BlockNumber"); ("EpochDuration", Name "u64");
  ("ExpectedBlockTime", Name "Moment"); ("IndexDeposit", Name "Balance");
  ("ExistentialDeposit", Name "Balance"); ("TransactionByteFee", Name "Balance");
  ("TargetBlockFullness", Name "Perquintill"); ("AdjustmentVariable", Name "Multiplier");
  ("MinimumMultiplier", Name "Multiplier"); ("DisabledValidatorsThreshold", Name "Perbill");
  ("SessionsPerEra", Path ["sp_staking"; "SessionIndex"]);
  ("BondingDuration", Path ["pallet_staking"; "EraIndex"]);
  ("SlashDeferDuration", Path ["pallet_staking"; "EraIndex"]);
  ("RewardCurve", Name "PiecewiseLinear"); ("MaxNominatorRewardedPerValidator", Name "u32");
  ("ElectionLookahead", Name "BlockNumber"); ("MaxIterations", Name "u32");
  ("MinSolutionScoreBump", Name "Perbill"); ("WindowSize", Name "BlockNumber");
  ("ReportLatency", Name "BlockNumber"); ("BasicDeposit", Name "Balance");
  ("FieldDeposit", Name "Balance"); ("SubAccountDeposit", Name "Balance");
  ("MaxSubAccounts", Name "u32"); ("MaxAdditionalFields", Name "u32");
  ("MaxRegistrars", Name "u32"); ("SessionDuration", Name "BlockNumber");
  ("ImOnlineUnsignedPriority", Name "TransactionPriority");
  ("StakingUnsignedPriority", Name "TransactionPriority");
  ("OffencesWeightSoftLimit", Name "Weight")].
Definition values : list (string * Z) := [
  ("BlockHashCount", BlockHashCount); ("MaximumBlockLength", MaximumBlockLength);
  ("DepositBase", DepositBase); ("DepositFactor", DepositFactor);
  ("MaxSignatories", MaxSignatories); ("MinimumPeriod", MinimumPeriod);
  ("UncleGenerations", UncleGenerations); ("EpochDuration", EpochDuration);
  ("ExpectedBlockTime", ExpectedBlockTime); ("IndexDeposit", IndexDeposit);
  ("ExistentialDeposit", ExistentialDeposit); ("TransactionByteFee", TransactionByteFee);
  ("SessionsPerEra", SessionsPerEra); ("BondingDuration", BondingDuration);
  ("SlashDeferDuration", SlashDeferDuration);
  ("MaxNominatorRewardedPerValidator", MaxNominatorRewardedPerValidator);
  ("ElectionLookahead", ElectionLookahead); ("MaxIterations", MaxIterations);
  ("WindowSize", WindowSize); ("ReportLatency", ReportLatency); ("BasicDeposit", BasicDeposit);
  ("FieldDeposit", FieldDeposit); ("SubAccountDeposit", SubAccountDeposit);
  ("MaxSubAccounts", MaxSubAccounts); ("MaxAdditionalFields", MaxAdditionalFields);
  ("MaxRegistrars", MaxRegistrars); ("SessionDuration", SessionDuration);
  ("ImOnlineUnsignedPriority", ImOnlineUnsignedPriority);
  ("StakingUnsignedPriority", StakingUnsignedPriority)].

(** What [use] brings in. *)
Definition imports : list string := [
  "BalancesCall"; "StakerStatus"; "Encode"; "construct_runtime"; "debug"; "parameter_types";
  "KeyOwnerProofSystem"; "Randomness"; "BlockExecutionWeight"; "ExtrinsicBaseWeight";
  "RocksDbWeight"; "WEIGHT_PER_SECOND"; "Weight"; "WeightToFeeCoefficients";
  "WeightToFeeCoefficient"; "WeightToFeePolynomial"; "AccountId"; "AccountIndex"; "Balance";
  "BlockNumber"; "Hash"; "Index"; "Moment"; "Signature"; "fg_primitives"; "GrandpaId";
  "GrandpaAuthorityList"; "ImOnlineId"; "pallet_session_historical"; "Multiplier";
  "TargetedFeeAdjustment"; "RuntimeDispatchInfo"; "impl_runtime_apis"; "AuthorityDiscoveryId";
  "KeyTypeId"; "OpaqueMetadata"; "CheckInherentsResult"; "InherentData"; "PiecewiseLinear";
  "traits"; "BlakeTwo256"; "BlockT"; "NumberFor"; "OpaqueKeys"; "SaturatedConversion";
  "Saturating"; "StaticLookup"; "TransactionPriority"; "TransactionSource";
  "TransactionValidity"; "create_runtime_str"; "generic"; "impl_opaque_keys";
  "ApplyExtrinsicResult"; "FixedPointNumber"; "Perbill"; "Perquintill"; "NativeVersion";
  "RuntimeVersion"].

(** The types the file names, and its other types and modules. *)
Definition aliases : list (string * Ty) := [
  ("Context", App ["frame_system"; "ChainContext"] [Name "Runtime"]);
  ("Address", Assoc (Name "Indices") (Name "StaticLookup") "Source");
  ("Header", App ["generic"; "Header"] [Name "BlockNumber"; Name "BlakeTwo256"]);
  ("Block", App ["generic"; "Block"] [Name "Header"; Name "UncheckedExtrinsic"]);
  ("BlockId", App ["generic"; "BlockId"] [Name "Block"]);
  ("SignedExtra", Tuple [App ["frame_system"; "CheckSpecVersion"] [Name "Runtime"]; App
     ["frame_system"; "CheckTxVersion"] [Name "Runtime"]; App ["frame_system"; "CheckGenesis"]
     [Name "Runtime"]; App ["frame_system"; "CheckEra"] [Name "Runtime"]; App ["frame_system";
     "CheckNonce"] [Name "Runtime"]; App ["frame_system"; "CheckWeight"] [Name "Runtime"]; App
     ["pallet_transaction_payment"; "ChargeTransactionPayment"] [Name "Runtime"]]);
  ("UncheckedExtrinsic", App ["generic"; "UncheckedExtrinsic"] [Name "Address"; Name "Call"; Name
     "Signature"; Name "SignedExtra"]);
  ("SignedPayload", App ["generic"; "SignedPayload"] [Name "Call"; Name "SignedExtra"]);
  ("CheckedExtrinsic", App ["generic"; "CheckedExtrinsic"] [Name "AccountId"; Name "Call"; Name
     "SignedExtra"]);
  ("Executive", App ["frame_executive"; "Executive"] [Name "Runtime"; Name "Block"; Name
     "Context"; Name "Runtime"; Name "AllModules"])].
Definition structs : list string := [
  "constants"; "impls"; "WeightToFee"; "SessionKeys"].

(** The crates of the pallets, and their instances. *)
Definition crates : list (string * string) := [
  ("System", "frame_system"); ("Utility", "pallet_utility"); ("Timestamp", "pallet_timestamp");
  ("Identity", "pallet_identity"); ("Indices", "pallet_indices");
  ("Balances", "pallet_balances"); ("TransactionPayment", "pallet_transaction_payment");
  ("Multisig", "pallet_multisig");
  ("RandomnessCollectiveFlip", "pallet_randomness_collective_flip");
  ("Session", "pallet_session"); ("Authorship", "pallet_authorship");
  ("Staking", "pallet_staking"); ("Offences", "pallet_offences");
  ("Historical", "pallet_session_historical"); ("Babe", "pallet_babe");
  ("FinalityTracker", "pallet_finality_tracker"); ("Grandpa", "pallet_grandpa");
  ("ImOnline", "pallet_im_online"); ("AuthorityDiscovery", "pallet_authority_discovery");
  ("Datalog", "pallet_robonomics_datalog"); ("Sudo", "pallet_sudo")].
End Ipci.

Module Parachain.
Import Runtime.Parachain.
Definition config_frame_system : Config := mkConfig ["frame_system"] [] [
  ("Call", Name "Call");
  ("BaseCallFilter", Unit);
  ("Version", Name "Version");
  ("AccountId", Name "AccountId");
  ("Lookup", Name "Indices");
  ("Index", Name "Index");
  ("BlockNumber", Name "BlockNumber");
  ("Hash", Name "Hash");
  ("Hashing", Name "BlakeTwo256");
  ("Header", App ["generic"; "Header"] [Name "BlockNumber"; Name "BlakeTwo256"]);
  ("Event", Name "Event");
  ("Origin", Name "Origin");
  ("DbWeight", Name "RocksDbWeight");
  ("BlockHashCount", Name "BlockHashCount");
  ("BlockExecutionWeight", Name "BlockExecutionWeight");
  ("MaximumBlockWeight", Name "MaximumBlockWeight");
  ("MaximumBlockLength", Name "MaximumBlockLength");
  ("MaximumExtrinsicWeight", Name "MaximumExtrinsicWeight");
  ("ExtrinsicBaseWeight", Name "ExtrinsicBaseWeight");
  ("AvailableBlockRatio", Name "AvailableBlockRatio");
  ("ModuleToIndex", Name "ModuleToIndex");
  ("AccountData", App ["pallet_balances"; "AccountData"] [Name "Balance"]);
  ("OnNewAccount", Unit);
  ("OnKilledAccount", Unit);
  ("SystemWeightInfo", Unit)].

Definition config_pallet_multisig : Config := mkConfig ["pallet_multisig"] [] [
  ("Event", Name "Event");
  ("Call", Name "Call");
  ("Currency", Name "Balances");
  ("DepositBase", Name "DepositBase");
  ("DepositFactor", Name "DepositFactor");
  ("MaxSignatories", Name "MaxSignatories");
  ("WeightInfo", Unit)].

Definition config_pallet_utility : Config := mkConfig ["pallet_utility"] [] [
  ("Call", Name "Call");
  ("Event", Name "Event");
  ("WeightInfo", Unit)].

Definition config_pallet_timestamp : Config := mkConfig ["pallet_timestamp"] [] [
  ("Moment", Name "Moment");
  ("OnTimestampSet", Unit);
  ("MinimumPeriod", Name "MinimumPeriod");
  ("WeightInfo", Unit)].

Definition config_pallet_indices : Config := mkConfig ["pallet_indices"] [] [
  ("AccountIndex", Name "AccountIndex");
  ("Currency", Name "Balances");
  ("Deposit", Name "IndexDeposit");
  ("Event", Name "Event");
  ("WeightInfo", Unit)].

Definition config_pallet_balances : Config := mkConfig ["pallet_balances"] [] [
  ("Balance", Name "Balance");
  ("DustRemoval", Unit);
  ("Event", Name "Event");
  ("ExistentialDeposit", Name "ExistentialDeposit");
  ("AccountStore", App ["frame_system"; "Module"] [Name "Runtime"]);
  ("WeightInfo", Unit)].

Definition config_pallet_generic_asset : Config := mkConfig ["pallet_generic_asset"] [] [
  ("Balance", Name "Balance");
  ("AssetId", Name "u32");
  ("Event", Name "Event")].

Definition config_pallet_transaction_payment : Config :=
  mkConfig ["pallet_transaction_payment"] [] [
  ("Currency", Name "Balances");
  ("OnTransactionPayment", Name "Treasury");
  ("TransactionByteFee", Name "TransactionByteFee");
  ("WeightToFee", App ["IdentityFee"] [Name "Balance"]);
  ("FeeMultiplierUpdate", App ["TargetedFeeAdjustment"] [Name "Self"; Name "TargetBlockFullness";
     Name "AdjustmentVariable"; Name "MinimumMultiplier"])].

Definition config_pallet_identity : Config := mkConfig ["pallet_identity"] [] [
  ("Event", Name "Event");
  ("Currency", Name "Balances");
  ("BasicDeposit", Name "BasicDeposit");
  ("FieldDeposit", Name "FieldDeposit");
  ("SubAccountDeposit", Name "SubAccountDeposit");
  ("MaxSubAccounts", Name "MaxSubAccounts");
  ("MaxAdditionalFields", Name "MaxAdditionalFields");
  ("MaxRegistrars", Name "MaxRegistrars");
  ("Slashed", Unit);
  ("ForceOrigin", App ["frame_system"; "EnsureRoot"] [Assoc (Name "Self") (Path ["frame_system";
     "Trait"]) "AccountId"]);
  ("RegistrarOrigin", App ["frame_system"; "EnsureRoot"] [Assoc (Name "Self") (Path
     ["frame_system"; "Trait"]) "AccountId"]);
  ("WeightInfo", Unit)].

Definition config_pallet_sudo : Config := mkConfig ["pallet_sudo"] [] [
  ("Event", Name "Event");
  ("Call", Name "Call")].

Definition config_pallet_scheduler : Config := mkConfig ["pallet_scheduler"] [] [
  ("Event", Name "Event");
  ("Origin", Name "Origin");
  ("Call", Name "Call");
  ("PalletsOrigin", Name "OriginCaller");
  ("ScheduleOrigin", App ["frame_system"; "EnsureRoot"] [Name "AccountId"]);
  ("MaximumWeight", Name "MaximumSchedulerWeight");
  ("WeightInfo", Unit)].

Definition config_pallet_treasury : Config := mkConfig ["pallet_treasury"] [] [
  ("ModuleId", Name "TreasuryModuleId");
  ("Currency", Name "Balances");
  ("ApproveOrigin", App ["pallet_collective"; "EnsureMembers"] [Name "_4"; Name "AccountId"; Name
     "CouncilCollective"]);
  ("RejectOrigin", App ["pallet_collective"; "EnsureMembers"] [Name "_2"; Name "AccountId"; Name
     "CouncilCollective"]);
  ("Tippers", Name "Elections");
  ("TipCountdown", Name "TipCountdown");
  ("TipFindersFee", Name "TipFindersFee");
  ("TipReportDepositBase", Name "TipReportDepositBase");
  ("TipReportDepositPerByte", Name "TipReportDepositPerByte");
  ("Event", Name "Event");
  ("ProposalRejection", Unit);
  ("ProposalBond", Name "ProposalBond");
  ("ProposalBondMinimum", Name "ProposalBondMinimum");
  ("SpendPeriod", Name "SpendPeriod");
  ("Burn", Name "Burn");
  ("BurnDestination", Unit);
  ("WeightInfo", Unit)].

Definition config_pallet_collective : Config :=
  mkConfig ["pallet_collective"] [Name "CouncilCollective"] [
  ("Origin", Name "Origin");
  ("Proposal", Name "Call");
  ("Event", Name "Event");
  ("MotionDuration", Name "CouncilMotionDuration");
  ("MaxProposals", Name "CouncilMaxProposals");
  ("WeightInfo", Unit)].

Definition config_pallet_elections_phragmen : Config :=
  mkConfig ["pallet_elections_phragmen"] [] [
  ("ModuleId", Name "ElectionsPhragmenModuleId");
  ("Event", Name "Event");
  ("Currency", Name "Balances");
  ("ChangeMembers", Name "Council");
  ("InitializeMembers", Name "Council");
  ("CurrencyToVote", Path ["impls"; "CurrencyToVoteHandler"]);
  ("CandidacyBond", Name "CandidacyBond");
  ("VotingBond", Name "VotingBond");
  ("LoserCandidate", Unit);
  ("BadReport", Unit);
  ("KickedMember", Unit);
  ("DesiredMembers", Name "DesiredMembers");
  ("DesiredRunnersUp", Name "DesiredRunnersUp");
  ("TermDuration", Name "TermDuration");
  ("WeightInfo", Unit)].

Definition config_cumulus_message_broker : Config := mkConfig ["cumulus_message_broker"] [] [
  ("Event", Name "Event");
  ("DownwardMessageHandlers", Name "TokenDealer");
  ("UpwardMessage", Path ["cumulus_upward_message"; "RococoUpwardMessage"]);
  ("ParachainId", Name "ParachainInfo");
  ("XCMPMessage", App ["cumulus_token_dealer"; "XCMPMessage"] [Name "AccountId"; Name "Balance"]);
  ("XCMPMessageHandlers", Name "TokenDealer")].

Definition config_cumulus_token_dealer : Config := mkConfig ["cumulus_token_dealer"] [] [
  ("Event", Name "Event");
  ("UpwardMessageSender", Name "MessageBroker");
  ("UpwardMessage", Path ["cumulus_upward_message"; "RococoUpwardMessage"]);
  ("Currency", Name "Balances");
  ("XCMPMessageSender", Name "MessageBroker")].

Definition config_parachain_info : Config := mkConfig ["parachain_info"] [] [].

Definition config_pallet_robonomics_liability : Config :=
  mkConfig ["pallet_robonomics_liability"] [] [
  ("Event", Name "Event");
  ("Technics", Path ["pallet_robonomics_liability"; "technics"; "PureIPFS"]);
  ("Economics", Path ["pallet_robonomics_liability"; "economics"; "Communism"]);
  ("Liability", App ["pallet_robonomics_liability"; "signed"; "SignedLiability"] [Path ["Self";
     "Technics"]; Path ["Self"; "Economics"]; Name "Signature"; Assoc (Name "Signature") (Name
     "Verify") "Signer"; Name "AccountId"])].

Definition config_pallet_robonomics_datalog : Config :=
  mkConfig ["pallet_robonomics_datalog"] [] [
  ("Time", Name "Timestamp");
  ("Record", App ["Vec"] [Name "u8"]);
  ("Event", Name "Event")].

Definition config_pallet_robonomics_launch : Config := mkConfig ["pallet_robonomics_launch"] [] [
  ("Parameter", Name "bool");
  ("Event", Name "Event")].

Definition config_cumulus_parachain_upgrade : Config :=
  mkConfig ["cumulus_parachain_upgrade"] [] [
  ("Event", Name "Event");
  ("OnValidationFunctionParams", Unit)].

(** Every configuration of the file. *)
Definition configs : list Config := [
  config_frame_system; config_pallet_multisig; config_pallet_utility; config_pallet_timestamp;
  config_pallet_indices; config_pallet_balances; config_pallet_generic_asset;
  config_pallet_transaction_payment; config_pallet_identity; config_pallet_sudo;
  config_pallet_scheduler; config_pallet_treasury; config_pallet_collective;
  config_pallet_elections_phragmen; config_cumulus_message_broker; config_cumulus_token_dealer;
  config_parachain_info; config_pallet_robonomics_liability; config_pallet_robonomics_datalog;
  config_pallet_robonomics_launch; config_cumulus_parachain_upgrade].

(** [impl frame_system::offchain::SigningTypes for Runtime] and
    [SendTransactionTypes<C>], for any [C] that is a call. *)
Definition config_signing_types : Config :=
  mkConfig ["frame_system"; "offchain"; "SigningTypes"] [] [
  ("Public", Assoc (Name "Signature") (Path ["traits"; "Verify"]) "Signer");
  ("Signature", Name "Signature")].
Definition config_send_transaction_types (C : Ty) : Config :=
  mkConfig ["frame_system"; "offchain"; "SendTransactionTypes"] [C] [
  ("OverarchingCall", Name "Call");
  ("Extrinsic", Name "UncheckedExtrinsic")].

(** [parameter_types!]: the names and their types, and the numbers among them. *)
Definition parameters : list (string * Ty) := [
  ("BlockHashCount", Name "BlockNumber"); ("MaximumBlockWeight", Name "Weight");
  ("AvailableBlockRatio", Name "Perbill"); ("MaximumExtrinsicWeight", Name "Weight");
  ("MaximumBlockLength", Name "u32"); ("Version", Name "RuntimeVersion");
  ("DepositBase", Name "Balance"); ("DepositFactor", Name "Balance");
  ("MaxSignatories", Name "u16"); ("MinimumPeriod", Name "Moment");
  ("IndexDeposit", Name "Balance"); ("ExistentialDeposit", Name "Balance");
  ("TransferFee", Name "Balance"); ("CreationFee", Name "Balance");
  ("TransactionByteFee", Name "Balance"); ("TargetBlockFullness", Name "Perquintill");
  ("AdjustmentVariable", Name "Multiplier"); ("MinimumMultiplier", Name "Multiplier");
  ("BasicDeposit", Name "Balance"); ("FieldDeposit", Name "Balance");
  ("SubAccountDeposit", Name "Balance"); ("MaxSubAccounts", Name "u32");
  ("MaxAdditionalFields", Name "u32"); ("MaxRegistrars", Name "u32");
  ("MaximumSchedulerWeight", Name "Weight"); ("ProposalBond", Name "Permill");
  ("ProposalBondMinimum", Name "Balance"); ("SpendPeriod", Name "BlockNumber");
  ("Burn", Name "Permill"); ("TipCountdown", Name "BlockNumber");
  ("TipFindersFee", Name "Percent"); ("TipReportDepositBase", Name "Balance");
  ("TipReportDepositPerByte", Name "Balance"); ("TreasuryModuleId", Name "ModuleId");
  ("CouncilMotionDuration", Name "BlockNumber"); ("CouncilMaxProposals", Name "u32");
  ("CandidacyBond", Name "Balance"); ("VotingBond", Name "Balance");
  ("TermDuration", Name "BlockNumber"); ("DesiredMembers", Name "u32");
  ("DesiredRunnersUp", Name "u32"); ("ElectionsPhragmenModuleId", Name "LockIdentifier")].
Definition values : list (string * Z) := [
  ("BlockHashCount", BlockHashCount); ("MaximumBlockLength", MaximumBlockLength);
  ("DepositBase", DepositBase); ("DepositFactor", DepositFactor);
  ("MaxSignatories", MaxSignatories); ("MinimumPeriod", MinimumPeriod);
  ("IndexDeposit", IndexDeposit); ("ExistentialDeposit", ExistentialDeposit);
  ("TransferFee", TransferFee); ("CreationFee", CreationFee);
  ("TransactionByteFee", TransactionByteFee); ("BasicDeposit", BasicDeposit);
  ("FieldDeposit", FieldDeposit); ("SubAccountDeposit", SubAccountDeposit);
  ("MaxSubAccounts", MaxSubAccounts); ("MaxAdditionalFields", MaxAdditionalFields);
  ("MaxRegistrars", MaxRegistrars); ("ProposalBondMinimum", ProposalBondMinimum);
  ("SpendPeriod", SpendPeriod); ("TipCountdown", TipCountdown);
  ("TipReportDepositBase", TipReportDepositBase);
  ("TipReportDepositPerByte", TipReportDepositPerByte);
  ("CouncilMotionDuration", CouncilMotionDuration); ("CouncilMaxProposals", CouncilMaxProposals);
  ("CandidacyBond", CandidacyBond); ("VotingBond", VotingBond); ("TermDuration", TermDuration);
  ("DesiredMembers", DesiredMembers); ("DesiredRunnersUp", DesiredRunnersUp)].

(** What [use] brings in. *)
Definition imports : list string := [
  "Encode"; "construct_runtime"; "debug"; "parameter_types"; "LockIdentifier"; "Randomness";
  "BlockExecutionWeight"; "ExtrinsicBaseWeight"; "RocksDbWeight"; "WEIGHT_PER_SECOND";
  "IdentityFee"; "Weight"; "AccountId"; "AccountIndex"; "Balance"; "BlockNumber"; "Hash";
  "Index"; "Moment"; "Signature"; "Multiplier"; "TargetedFeeAdjustment"; "RuntimeDispatchInfo";
  "impl_runtime_apis"; "KeyTypeId"; "_2"; "_4"; "OpaqueMetadata"; "create_runtime_str";
  "generic"; "impl_opaque_keys"; "traits"; "BlakeTwo256"; "BlockT"; "SaturatedConversion";
  "Saturating"; "StaticLookup"; "Verify"; "TransactionSource"; "TransactionValidity";
  "FixedPointNumber"; "ModuleId"; "Perbill"; "Percent"; "Permill"; "Perquintill";
  "NativeVersion"; "RuntimeVersion"].

(** The types the file names, and its other types and modules. *)
Definition aliases : list (string * Ty) := [
  ("CouncilCollective", Path ["pallet_collective"; "Instance1"]);
  ("Context", App ["frame_system"; "ChainContext"] [Name "Runtime"]);
  ("Address", Assoc (Name "Indices") (Name "StaticLookup") "Source");
  ("Header", App ["generic"; "Header"] [Name "BlockNumber"; Name "BlakeTwo256"]);
  ("Block", App ["generic"; "Block"] [Name "Header"; Name "UncheckedExtrinsic"]);
  ("BlockId", App ["generic"; "BlockId"] [Name "Block"]);
  ("SignedExtra", Tuple [App ["frame_system"; "CheckSpecVersion"] [Name "Runtime"]; App
     ["frame_system"; "CheckTxVersion"] [Name "Runtime"]; App ["frame_system"; "CheckGenesis"]
     [Name "Runtime"]; App ["frame_system"; "CheckEra"] [Name "Runtime"]; App ["frame_system";
     "CheckNonce"] [Name "Runtime"]; App ["frame_system"; "CheckWeight"] [Name "Runtime"]; App
     ["pallet_transaction_payment"; "ChargeTransactionPayment"] [Name "Runtime"]]);
  ("UncheckedExtrinsic", App ["generic"; "UncheckedExtrinsic"] [Name "Address"; Name "Call"; Name
     "Signature"; Name "SignedExtra"]);
  ("SignedPayload", App ["generic"; "SignedPayload"] [Name "Call"; Name "SignedExtra"]);
  ("CheckedExtrinsic", App ["generic"; "CheckedExtrinsic"] [Name "AccountId"; Name "Call"; Name
     "SignedExtra"]);
  ("Executive", App ["frame_executive"; "Executive"] [Name "Runtime"; Name "Block"; Name
     "Context"; Name "Runtime"; Name "AllModules"])].
Definition structs : list string := [
  "constants"; "impls"; "SessionKeys"].

(** The crates of the pallets, and their instances. *)
Definition crates : list (string * string) := [
  ("System", "frame_system"); ("Utility", "pallet_utility"); ("Timestamp", "pallet_timestamp");
  ("Identity", "pallet_identity"); ("Indices", "pallet_indices");
  ("Balances", "pallet_balances"); ("GenericAsset", "pallet_generic_asset");
  ("TransactionPayment", "pallet_transaction_payment"); ("Multisig", "pallet_multisig");
  ("RandomnessCollectiveFlip", "pallet_randomness_collective_flip");
  ("Liability", "pallet_robonomics_liability"); ("Datalog", "pallet_robonomics_datalog");
  ("Launch", "pallet_robonomics_launch"); ("ParachainUpgrade", "cumulus_parachain_upgrade");
  ("ParachainInfo", "parachain_info"); ("MessageBroker", "cumulus_message_broker");
  ("TokenDealer", "cumulus_token_dealer"); ("Treasury", "pallet_treasury");
  ("Elections", "pallet_elections_phragmen"); ("Council", "pallet_collective");
  ("Scheduler", "pallet_scheduler"); ("Sudo", "pallet_sudo")].
End Parachain.
