(* ===== verification/RuntimeWiring.v ===== *)
(** * How the runtimes are put together

    The checks of the configurations of [RuntimeConfig]: that their names mean
    something, that pallets and configurations match, who may call what is
    restricted, and that the parameters fit their types. *)
From stdpp Require Import prelude strings list.
From Stdlib Require Import ZArith Lia.
From S2P Require Import Prelude Runtime RuntimeConfig.
Local Open Scope string_scope.
Local Open Scope Z_scope.

(** ** Names *)

(** The paths a type is written with. *)
Fixpoint paths (t : Ty) : list (list string) :=
  match t with
  | Path p => [p]
  | App p args => p :: flat_map paths args
  | Tuple l => flat_map paths l
  | Assoc self trait _ => paths self ++ paths trait
  end.

(** A runtime file: its pallets, and what is in scope. *)
Record RuntimeFile : Type := mkRuntimeFile {
  file_pallets : list Pallet;
  file_crates : list (string * string);
  file_configs : list Config;
  file_aliases : list (string * Ty);
  file_parameters : list (string * Ty);
  file_values : list (string * Z);
  file_council : option Z;
  file_scope : list string;
}.

Definition config_crate (c : Config) : string := String.concat "_" (config_pallet c).

(** [Self::A] is a type of the same configuration; any other path starts with a
    name in scope. *)
Definition path_resolves (f : RuntimeFile) (c : Config) (p : list string) : bool :=
  match p with
  | [] => false
  | ["Self"] => true
  | "Self" :: a :: _ => bool_decide (a ∈ (assoc_types c).*1)
  | x :: _ => bool_decide (x ∈ file_scope f)
  end.

Definition config_resolves (f : RuntimeFile) (c : Config) : bool :=
  forallb (path_resolves f c)
    (flat_map paths (config_instance c) ++ flat_map (fun a => paths a.2) (assoc_types c)).

(** The types of the parameters and of the aliases are written in the file itself. *)
Definition type_resolves (f : RuntimeFile) (t : Ty) : bool :=
  forallb (path_resolves f (mkConfig [] [] [])) (paths t).

(** What the language has, what [construct_runtime!] makes, and the other
    crates that are named in a type. *)
Definition builtin : list string := ["u8"; "u16"; "u32"; "u64"; "u128"; "bool"; "Vec"].
Definition constructed : list string :=
  ["Runtime"; "Call"; "Event"; "Origin"; "OriginCaller"; "ModuleToIndex"; "AllModules"].

Definition dependencies : list string :=
  ["frame_executive"; "sp_staking"; "cumulus_upward_message"].

Definition robonomics_file : RuntimeFile :=
  let crates := Robonomics.crates in
  mkRuntimeFile Runtime.Robonomics.pallets crates Robonomics.configs Robonomics.aliases
    Robonomics.parameters Robonomics.values (Some Runtime.Robonomics.DESIRED_MEMBERS)
    (builtin ++ constructed ++ dependencies ++ crates.*1 ++ crates.*2 ++
     Robonomics.imports ++ Robonomics.aliases.*1 ++ Robonomics.structs ++
     Robonomics.parameters.*1).
Definition ipci_file : RuntimeFile :=
  let crates := Ipci.crates in
  mkRuntimeFile Runtime.Ipci.pallets crates Ipci.configs Ipci.aliases
    Ipci.parameters Ipci.values None
    (builtin ++ constructed ++ dependencies ++ crates.*1 ++ crates.*2 ++
     Ipci.imports ++ Ipci.aliases.*1 ++ Ipci.structs ++
     Ipci.parameters.*1).
Definition parachain_file : RuntimeFile :=
  let crates := Parachain.crates in
  mkRuntimeFile Runtime.Parachain.pallets crates Parachain.configs Parachain.aliases
    Parachain.parameters Parachain.values (Some Runtime.Parachain.DESIRED_MEMBERS)
    (builtin ++ constructed ++ dependencies ++ crates.*1 ++ crates.*2 ++
     Parachain.imports ++ Parachain.aliases.*1 ++ Parachain.structs ++
     Parachain.parameters.*1).

(** The parameters a configuration names, and those no configuration does. *)
Definition config_names (c : Config) : list string :=
  omap head (flat_map (fun a => paths a.2) (assoc_types c)).
Definition unused_parameters (f : RuntimeFile) : list string :=
  filter (fun p => p ∉ flat_map config_names (file_configs f)) (file_parameters f).*1.

(** A pallet listed with events is one configured with the runtime's. *)
Definition has_events (f : RuntimeFile) (crate : string) : bool :=
  existsb (fun pc => bool_decide (PEvent ∈ parts pc.1) && String.eqb pc.2.2 crate)
    (zip (file_pallets f) (file_crates f)).
Definition configured_events (c : Config) : bool :=
  existsb (fun a => String.eqb a.1 "Event" &&
    match a.2 with Path ["Event"] => true | _ => false end) (assoc_types c).

(** The configuration of a runtime is well formed. *)
Record well_formed (f : RuntimeFile) : Prop := {
  wf_pallets : (file_crates f).*1 = pallet_name <$> file_pallets f;
  wf_configured : forall crate, crate ∈ (file_crates f).*2 ->
    crate <> "pallet_randomness_collective_flip" ->
    exists c, c ∈ file_configs f /\ config_crate c = crate;
  wf_present : forall c, c ∈ file_configs f -> config_crate c ∈ (file_crates f).*2;
  wf_once : NoDup (config_crate <$> file_configs f);
  wf_keys : forall c, c ∈ file_configs f -> NoDup (assoc_types c).*1;
  wf_resolves : forall c, c ∈ file_configs f -> config_resolves f c = true;
  wf_types : forall n t, (n, t) ∈ (file_parameters f ++ file_aliases f)%list -> type_resolves f t = true;
  wf_events : forall c, c ∈ file_configs f -> configured_events c = has_events f (config_crate c);
}.

(** The checks that decide it. *)
Definition check_file (f : RuntimeFile) : bool :=
  bool_decide ((file_crates f).*1 = pallet_name <$> file_pallets f) &&
  forallb (fun crate => String.eqb crate "pallet_randomness_collective_flip" ||
    existsb (fun c => String.eqb (config_crate c) crate) (file_configs f)) (file_crates f).*2 &&
  forallb (fun c => bool_decide (config_crate c ∈ (file_crates f).*2)) (file_configs f) &&
  bool_decide (NoDup (config_crate <$> file_configs f)) &&
  forallb (fun c => bool_decide (NoDup (assoc_types c).*1)) (file_configs f) &&
  forallb (config_resolves f) (file_configs f) &&
  forallb (fun p => type_resolves f p.2) (file_parameters f ++ file_aliases f)%list &&
  forallb (fun c => Bool.eqb (configured_events c) (has_events f (config_crate c)))
    (file_configs f).

Lemma forallb_elem {A} (p : A -> bool) l x : forallb p l = true -> x ∈ l -> p x = true.
Proof. rewrite forallb_forall. intros H Hx. apply H. by apply list_elem_of_In. Qed.

Lemma check_file_sound f : check_file f = true -> well_formed f.
Proof.
  unfold check_file. rewrite !andb_true_iff, !bool_decide_eq_true.
  intros (((((((H1 & H2) & H3) & H4) & H5) & H6) & H7) & H8).
  split; [done| | |done| | | |].
  - intros crate Hc Hne. pose proof (forallb_elem _ _ _ H2 Hc) as Hx; cbn in Hx.
    apply orb_true_iff in Hx as [Hx%String.eqb_eq|Hx]; [done|].
    apply existsb_exists in Hx as (c & Hin & Heq%String.eqb_eq).
    exists c. split; [by apply list_elem_of_In|done].
  - intros c Hc. pose proof (forallb_elem _ _ _ H3 Hc) as Hx; cbn in Hx.
    by apply bool_decide_eq_true in Hx.
  - intros c Hc. pose proof (forallb_elem _ _ _ H5 Hc) as Hx; cbn in Hx.
    by apply bool_decide_eq_true in Hx.
  - intros c Hc. by apply (forallb_elem _ _ _ H6).
  - intros n t Ht. by apply (forallb_elem _ _ _ H7) in Ht.
  - intros c Hc. pose proof (forallb_elem _ _ _ H8 Hc) as Hx; cbn in Hx.
    by apply eqb_prop in Hx.
Qed.

(** ** Origins

    Who may call what is restricted.  [EnsureRoot] of [frame_system] admits the root,
    [EnsureMembers] of [pallet_collective] a motion that enough members agreed to; of
    any other type nothing is known here, so that it may admit anybody. *)
Inductive Caller : Type :=
| RootCaller | SignedCaller | UnsignedCaller | MembersCaller (agreed : Z).
Inductive Ensure : Type :=
| EnsureRoot
| EnsureMembers (n : Z)
| OtherOrigin (t : Ty).

Definition members_number (t : Ty) : option Z :=
  match t with
  | Path ["_1"] => Some 1 | Path ["_2"] => Some 2 | Path ["_3"] => Some 3 | Path ["_4"] => Some 4
  | Path ["_5"] => Some 5
  | _ => None
  end.
Definition ensure_of (t : Ty) : Ensure :=
  match t with
  | App ["frame_system"; "EnsureRoot"] _ => EnsureRoot
  | App ["pallet_collective"; "EnsureMembers"] (n :: _) =>
      match members_number n with Some n => EnsureMembers n | None => OtherOrigin t end
  | _ => OtherOrigin t
  end.
Definition admits (e : Ensure) (c : Caller) : bool :=
  match e, c with
  | EnsureRoot, RootCaller => true
  | EnsureMembers n, MembersCaller agreed => n <=? agreed
  | OtherOrigin _, _ => true
  | _, _ => false
  end.

(** An associated type that restricts a call: one named [..Origin], but for the type
    of origins itself and of those a pallet dispatches with; or any whose type is
    named [Ensure..]. *)
Definition ends_with (suffix s : string) : bool :=
  let n := (String.length s - String.length suffix)%nat in
  String.eqb (String.substring n (String.length suffix) s) suffix.
Definition named_ensure (t : Ty) : bool :=
  match t with
  | Path p | App p _ => match last p with Some n => String.prefix "Ensure" n | None => false end
  | _ => false
  end.
Definition restricts (a : string * Ty) : bool :=
  ends_with "Origin" a.1 && negb (String.eqb a.1 "Origin") && negb (String.eqb a.1 "PalletsOrigin")
  || named_ensure a.2.

(** The origins the pallets of a runtime are configured with, all of them. *)
Definition origins (f : RuntimeFile) : list (string * string * Ensure) :=
  flat_map (fun c => (fun a => (config_crate c, a.1, ensure_of a.2)) <$>
    filter (fun a => restricts a = true) (assoc_types c)) (file_configs f).

(** No account alone, signed or not, is admitted; the council is to the treasury only,
    by more than half of its seats to approve and by two members to reject. *)
Definition origin_safe (f : RuntimeFile) (pallet key : string) (e : Ensure) : Prop :=
  admits e SignedCaller = false /\ admits e UnsignedCaller = false /\
  forall agreed, admits e (MembersCaller agreed) = true ->
    pallet = "pallet_treasury" /\ exists size, file_council f = Some size /\
      (key = "ApproveOrigin" /\ size < 2 * agreed \/ key = "RejectOrigin" /\ 2 <= agreed).
Definition origin_expected (f : RuntimeFile) (pallet key : string) (e : Ensure) : bool :=
  match e, file_council f with
  | EnsureRoot, _ => true
  | EnsureMembers n, Some size => String.eqb pallet "pallet_treasury" &&
      (String.eqb key "ApproveOrigin" && (size <? 2 * n) ||
       String.eqb key "RejectOrigin" && (2 <=? n))
  | _, _ => false
  end.

Lemma origin_expected_safe f pallet key e :
  origin_expected f pallet key e = true -> origin_safe f pallet key e.
Proof.
  unfold origin_expected, origin_safe. destruct e as [|n|t]; [done| |done]. intros H.
  destruct (file_council f) as [size|]; [|done]. split; [done|]. split; [done|].
  intros agreed Ha%Z.leb_le.
  rewrite andb_true_iff, orb_true_iff, !andb_true_iff, !String.eqb_eq, Z.ltb_lt, Z.leb_le in H.
  destruct H as [-> H]. split; [done|]. exists size. split; [done|].
  destruct H as [[-> H]|[-> H]]; [left|right]; (split; [done|lia]).
Qed.

(** C33: the runtimes are put together soundly.  In each of the three runtimes
    every pallet is configured, once, and every configuration is of a pallet of
    the runtime (the collective coin flip has none); every type a configuration, a
    parameter or an alias names is in scope, and [Self] types are the
    configuration's own; the pallets that deposit events are exactly those that
    get the event type of the runtime.  Every parameter is used, but for two fees
    of Robonomics and of the parachain that no pallet takes.  Of the calls these
    pallets restrict, which are listed, none is open to an account alone, signed or
    not: they are the root's, but for the spending of the treasury, which more than
    half of the seats of the council approve and two members reject. *)
Theorem configurations_well_formed :
  (forall f, f ∈ [robonomics_file; ipci_file; parachain_file] ->
     well_formed f /\
     forall pallet key e, (pallet, key, e) ∈ origins f -> origin_safe f pallet key e) /\
  unused_parameters robonomics_file = ["TransferFee"; "CreationFee"] /\
  unused_parameters ipci_file = [] /\
  unused_parameters parachain_file = ["TransferFee"; "CreationFee"] /\
  (let staking := [("pallet_staking", "SlashCancelOrigin")] in
   let identity := [("pallet_identity", "ForceOrigin"); ("pallet_identity", "RegistrarOrigin")] in
   let scheduler := [("pallet_scheduler", "ScheduleOrigin")] in
   let treasury := [("pallet_treasury", "ApproveOrigin"); ("pallet_treasury", "RejectOrigin")] in
   (origins robonomics_file).*1 = (staking ++ identity ++ scheduler ++ treasury)%list /\
   (origins ipci_file).*1 = (staking ++ identity)%list /\
   (origins parachain_file).*1 = (identity ++ scheduler ++ treasury)%list).
Proof.
  split; [|repeat split; by vm_compute].
  intros f Hf. split.
  - apply check_file_sound. revert f Hf. apply Forall_forall.
    repeat constructor; by vm_compute.
  - intros pallet key e He. apply origin_expected_safe.
    assert (Hall : forallb (fun o => origin_expected f o.1.1 o.1.2 o.2) (origins f) = true).
    { clear He. revert f Hf. apply Forall_forall. repeat constructor; by vm_compute. }
    exact (forallb_elem _ _ _ Hall He).
Qed.

Lemma configurations_well_formed_witness :
  config_resolves ipci_file Ipci.config_pallet_staking = true /\
  exists c, c ∈ file_configs ipci_file /\ config_crate c = "pallet_babe".
Proof.
  destruct configurations_well_formed as [H _].
  destruct (H ipci_file (list_elem_of_further _ _ _ (list_elem_of_here _ _))) as [Hwf _].
  split.
  - apply (wf_resolves _ Hwf). do 11 apply list_elem_of_further. apply list_elem_of_here.
  - apply (wf_configured _ Hwf); [|discriminate].
    apply (bool_decide_unpack _). vm_compute. exact I.
Defined.

(** ** Parameters *)

(** The width of a numeric type: of the language, of [node_primitives], or of
    Substrate. *)
Definition primitive_width (n : string) : option Z :=
  if String.eqb n "u8" then Some 8 else if String.eqb n "u16" then Some 16
  else if String.eqb n "u32" then Some 32 else if String.eqb n "u64" then Some 64
  else if String.eqb n "u128" then Some 128 else None.

Definition type_width (t : Ty) : option Z :=
  match t with
  | Path [n] =>
      if String.eqb n "TransactionPriority" then Some 64
      else match primitive_width n, list_find (fun a => a.1 = n) Primitives.aliases with
           | Some w, _ => Some w
           | None, Some (_, (_, Path [m])) => primitive_width m
           | None, _ => None
           end
  | Path ["sp_staking"; "SessionIndex"] | Path ["pallet_staking"; "EraIndex"] => Some 32
  | _ => None
  end.

(** The type of a parameter. *)
Definition parameter_type (f : RuntimeFile) (n : string) : option Ty :=
  (fun p => p.2.2) <$> list_find (fun p => p.1 = n) (file_parameters f).

Definition value_fits (f : RuntimeFile) (p : string * Z) : bool :=
  match parameter_type f p.1 ≫= type_width with
  | Some w => bool_decide (in_width w p.2)
  | None => false
  end.

(** The parameters fit.  Every number of [parameter_types!] in the three
    runtimes is in the range of the type it is declared with.  An extrinsic of a
    block may take 13 twentieths of its weight, offences less and what is
    scheduled more, all below the weight of the block; the slots of Robonomics and
    IPCI are twice the minimum period of the timestamps; slashes are deferred a
    quarter of the bonding duration; and an election of staking starts before the
    session it is for has ended. *)
Lemma parameters_fit (WEIGHT_PER_SECOND : Z) :
  0 < WEIGHT_PER_SECOND -> (20 | WEIGHT_PER_SECOND) -> 4 * WEIGHT_PER_SECOND < 2 ^ 64 ->
  Forall (fun f => Forall (fun p => exists t w, parameter_type f p.1 = Some t /\
      type_width t = Some w /\ in_width w p.2) (file_values f))
    [robonomics_file; ipci_file; parachain_file] /\
  (let check maximum extrinsic offences scheduled :=
     20 * extrinsic = 13 * maximum /\ offences < extrinsic < scheduled /\
     scheduled < maximum /\ in_width 64 maximum in
   let w := WEIGHT_PER_SECOND in
   check (Runtime.Robonomics.MaximumBlockWeight w) (Runtime.Robonomics.MaximumExtrinsicWeight w)
     (Runtime.Robonomics.OffencesWeightSoftLimit w) (Runtime.Robonomics.MaximumSchedulerWeight w) /\
   check (Runtime.Parachain.MaximumBlockWeight w) (Runtime.Parachain.MaximumExtrinsicWeight w)
     0 (Runtime.Parachain.MaximumSchedulerWeight w) /\
   Runtime.Ipci.MaximumExtrinsicWeight w = Runtime.Robonomics.MaximumExtrinsicWeight w /\
   Runtime.Ipci.OffencesWeightSoftLimit w = Runtime.Robonomics.OffencesWeightSoftLimit w) /\
  2 * Runtime.Robonomics.MinimumPeriod = Runtime.Robonomics.SLOT_DURATION /\
  2 * Runtime.Ipci.MinimumPeriod = Runtime.Ipci.SLOT_DURATION /\
  4 * Runtime.Robonomics.SlashDeferDuration = Runtime.Robonomics.BondingDuration /\
  4 * Runtime.Ipci.SlashDeferDuration = Runtime.Ipci.BondingDuration /\
  Runtime.Robonomics.ElectionLookahead < Runtime.Robonomics.EPOCH_DURATION_IN_BLOCKS /\
  Runtime.Ipci.ElectionLookahead < Runtime.Ipci.EPOCH_DURATION_IN_BLOCKS.
Proof.
  intros Hpos [k ->] Hmax. split; [|split; [|by vm_compute]].
  - assert (Hall : Forall (fun f => forallb (value_fits f) (file_values f) = true)
      [robonomics_file; ipci_file; parachain_file]) by (repeat constructor; by vm_compute).
    eapply Forall_impl; [exact Hall|]. intros f Hf. apply Forall_forall. intros p Hp.
    pose proof (forallb_elem _ _ _ Hf Hp) as H. unfold value_fits in H.
    destruct (parameter_type f p.1) as [t|]; [|done]; cbn in H.
    destruct (type_width t) as [w|] eqn:Hw; [|done]. apply bool_decide_eq_true in H. by eauto.
  - change (Runtime.Ipci.MaximumExtrinsicWeight) with Runtime.Robonomics.MaximumExtrinsicWeight.
    change (Runtime.Ipci.OffencesWeightSoftLimit) with Runtime.Robonomics.OffencesWeightSoftLimit.
    assert (Hpart : forall r w q, r.2 = 100 -> r.1 * w = q * 100 -> Common.part_of r w = q).
    { intros [n d] w q; cbn. intros -> Hq. unfold Common.part_of; cbn.
      rewrite Hq. apply Z.div_mul. lia. }
    unfold Runtime.Robonomics.MaximumExtrinsicWeight, Runtime.Parachain.MaximumExtrinsicWeight,
      Common.MaximumExtrinsicWeight, Runtime.Robonomics.OffencesWeightSoftLimit,
      Runtime.Robonomics.MaximumSchedulerWeight, Runtime.Parachain.MaximumSchedulerWeight,
      Runtime.Robonomics.MaximumBlockWeight, Runtime.Parachain.MaximumBlockWeight, in_width.
    cbn zeta.
    rewrite (Hpart _ (2 * (k * 20)) (26 * k)), (Hpart _ (2 * (k * 20)) (24 * k)),
      (Hpart _ (2 * (k * 20)) (32 * k)), (Hpart _ (4 * (k * 20)) (52 * k)),
      (Hpart _ (4 * (k * 20)) (64 * k)) by (cbn; lia).
    repeat split; lia.
Qed.

Lemma parameters_fit_witness :
  Runtime.Robonomics.MaximumExtrinsicWeight (10 ^ 12) = 13 * 10 ^ 11 /\
  2 * Runtime.Ipci.MinimumPeriod = Runtime.Ipci.SLOT_DURATION.
Proof.
  assert (H1 : 0 < 10 ^ 12) by reflexivity.
  assert (H2 : (20 | 10 ^ 12)) by (exists (5 * 10 ^ 10); reflexivity).
  assert (H3 : 4 * 10 ^ 12 < 2 ^ 64) by reflexivity.
  destruct (parameters_fit (10 ^ 12) H1 H2 H3) as (_ & ((He & _) & _) & _ & H4 & _).
  split; [|exact H4].
  change (Runtime.Robonomics.MaximumBlockWeight (10 ^ 12)) with (2 * 10 ^ 12) in He. lia.
Defined.

(** The types for the transactions of offchain workers are in scope in every file, for
    the calls of every pallet constructed there, and the type that signs is named the
    same way as the account in [node_primitives]. *)
Lemma offchain_types f signing (send : Ty -> Config) :
  (f, signing, send) ∈ [
    (robonomics_file, Robonomics.config_signing_types, Robonomics.config_send_transaction_types);
    (ipci_file, Ipci.config_signing_types, Ipci.config_send_transaction_types);
    (parachain_file, Parachain.config_signing_types, Parachain.config_send_transaction_types)] ->
  config_resolves f signing = true /\
  (forall crate, crate ∈ (file_crates f).*2 ->
     config_resolves f (send (App [crate; "Call"] [Name "Runtime"])) = true) /\
  exists verify, assoc_types signing !! 0%nat = Some ("Public", Assoc (Name "Signature") verify "Signer").
Proof.
  intros Hf.
  assert (Hall : forallb (fun x => config_resolves x.1.1 x.1.2 && forallb (fun crate =>
      config_resolves x.1.1 (x.2 (App [crate; "Call"] [Name "Runtime"]))) (file_crates x.1.1).*2)
    [(robonomics_file, Robonomics.config_signing_types, Robonomics.config_send_transaction_types);
     (ipci_file, Ipci.config_signing_types, Ipci.config_send_transaction_types);
     (parachain_file, Parachain.config_signing_types, Parachain.config_send_transaction_types)] = true)
    by (vm_compute; reflexivity).
  pose proof (forallb_elem _ _ _ Hall Hf) as H. apply andb_true_iff in H as [H1 H2]. cbn in H1, H2.
  split; [done|]. split; [intros crate Hc; exact (forallb_elem _ _ _ H2 Hc)|].
  rewrite !elem_of_cons in Hf. destruct Hf as [[= -> -> ->]|[[= -> -> ->]|[[= -> -> ->]|Hf]]];
    [by eexists..|]. by apply not_elem_of_nil in Hf.
Qed.
