(* ===== verification/RuntimeMocks.v ===== *)
(** * The runtimes of the tests and of the client

    Besides the three runtimes of the nodes the repository declares the types of
    four more: the mock runtimes the tests of the pallets run on ([mod tests] of
    [robonomics/frame/*/src/lib.rs]) and [Robonomics] of the remote client
    ([robonomics/protocol/src/runtime.rs]).  As in [RuntimeConfig] an
    implementation of a trait is a table of its associated types; the [Trait] of
    the pallet under test has no path. *)
From stdpp Require Import prelude strings list.
From Stdlib Require Import ZArith Lia.
From S2P Require Import Prelude Runtime RuntimeConfig RuntimeWiring.
Local Open Scope string_scope.
Local Open Scope Z_scope.

Module LiabilityTests.
Definition config_frame_system : Config := mkConfig ["frame_system"] [] [
  ("Origin", Name "Origin");
  ("Index", Name "u64");
  ("BlockNumber", Name "u64");
  ("Call", Unit);
  ("Hash", Name "H256");
  ("Hashing", Path ["sp_runtime"; "traits"; "BlakeTwo256"]);
  ("AccountId", Name "AccountId");
  ("Lookup", App ["IdentityLookup"] [Path ["Self"; "AccountId"]]);
  ("Header", Name "Header");
  ("Event", Name "MetaEvent");
  ("BlockHashCount", Name "BlockHashCount");
  ("MaximumBlockWeight", Name "MaximumBlockWeight");
  ("MaximumBlockLength", Name "MaximumBlockLength");
  ("AvailableBlockRatio", Name "AvailableBlockRatio");
  ("Version", Unit);
  ("ModuleToIndex", Unit);
  ("AccountData", Unit);
  ("OnNewAccount", Unit);
  ("OnKilledAccount", Unit);
  ("DbWeight", Unit);
  ("BlockExecutionWeight", Unit);
  ("ExtrinsicBaseWeight", Unit);
  ("MaximumExtrinsicWeight", Unit);
  ("BaseCallFilter", Unit);
  ("SystemWeightInfo", Unit)].

Definition config_pallet : Config := mkConfig [] [] [
  ("Event", Name "MetaEvent");
  ("Technics", Name "PureIPFS");
  ("Economics", Name "Communism");
  ("Liability", App ["SignedLiability"] [Path ["Self"; "Technics"]; Path ["Self"; "Economics"];
     Name "Signature"; Assoc (Name "Signature") (Name "Verify") "Signer"; Name "AccountId"])].

Definition configs : list Config := [config_frame_system; config_pallet].

Definition parameters : list (string * Ty) := [
  ("BlockHashCount", Name "u64"); ("MaximumBlockWeight", Name "Weight");
  ("MaximumBlockLength", Name "u32"); ("AvailableBlockRatio", Name "Perbill")].
Definition values : list (string * Z) := [
  ("BlockHashCount", 250); ("MaximumBlockWeight", 1024); ("MaximumBlockLength", 2 * 1024)].
End LiabilityTests.

Module DatalogTests.
Definition config_frame_system : Config := mkConfig ["frame_system"] [] [
  ("Origin", Name "Origin");
  ("Index", Name "u64");
  ("BlockNumber", Name "u64");
  ("Call", Unit);
  ("Hash", Name "H256");
  ("Hashing", Path ["sp_runtime"; "traits"; "BlakeTwo256"]);
  ("AccountId", Name "u64");
  ("Lookup", App ["IdentityLookup"] [Path ["Self"; "AccountId"]]);
  ("Header", Name "Header");
  ("Event", Unit);
  ("BlockHashCount", Name "BlockHashCount");
  ("MaximumBlockWeight", Name "MaximumBlockWeight");
  ("MaximumBlockLength", Name "MaximumBlockLength");
  ("AvailableBlockRatio", Name "AvailableBlockRatio");
  ("Version", Unit);
  ("ModuleToIndex", Unit);
  ("AccountData", Unit);
  ("OnNewAccount", Unit);
  ("OnKilledAccount", Unit);
  ("DbWeight", Unit);
  ("BlockExecutionWeight", Unit);
  ("ExtrinsicBaseWeight", Unit);
  ("MaximumExtrinsicWeight", Unit);
  ("BaseCallFilter", Unit);
  ("SystemWeightInfo", Unit)].

Definition config_pallet_timestamp : Config := mkConfig ["pallet_timestamp"] [] [
  ("Moment", Name "Moment");
  ("OnTimestampSet", Unit);
  ("MinimumPeriod", Unit);
  ("WeightInfo", Unit)].

Definition config_pallet : Config := mkConfig [] [] [
  ("Time", Name "Timestamp");
  ("Record", App ["Vec"] [Name "u8"]);
  ("Event", Unit)].

Definition configs : list Config := [config_frame_system; config_pallet_timestamp; config_pallet].

Definition parameters : list (string * Ty) := [
  ("BlockHashCount", Name "u64"); ("MaximumBlockWeight", Name "Weight");
  ("MaximumBlockLength", Name "u32"); ("AvailableBlockRatio", Name "Perbill");
  ("MinimumPeriod", Name "Moment")].
Definition values : list (string * Z) := [
  ("BlockHashCount", 250); ("MaximumBlockWeight", 1024); ("MaximumBlockLength", 2 * 1024);
  ("MinimumPeriod", 5)].
End DatalogTests.

Module LaunchTests.
Definition config_frame_system : Config := mkConfig ["frame_system"] [] [
  ("Origin", Name "Origin");
  ("Index", Name "u64");
  ("BlockNumber", Name "u64");
  ("Call", Unit);
  ("Hash", Name "H256");
  ("Hashing", Path ["sp_runtime"; "traits"; "BlakeTwo256"]);
  ("AccountId", Name "u64");
  ("Lookup", App ["IdentityLookup"] [Path ["Self"; "AccountId"]]);
  ("Header", Name "Header");
  ("Event", Unit);
  ("BlockHashCount", Name "BlockHashCount");
  ("MaximumBlockWeight", Name "MaximumBlockWeight");
  ("MaximumBlockLength", Name "MaximumBlockLength");
  ("AvailableBlockRatio", Name "AvailableBlockRatio");
  ("Version", Unit);
  ("ModuleToIndex", Unit);
  ("AccountData", Unit);
  ("OnNewAccount", Unit);
  ("OnKilledAccount", Unit);
  ("DbWeight", Unit);
  ("BlockExecutionWeight", Unit);
  ("ExtrinsicBaseWeight", Unit);
  ("MaximumExtrinsicWeight", Unit);
  ("BaseCallFilter", Unit);
  ("SystemWeightInfo", Unit)].

Definition config_pallet : Config := mkConfig [] [] [
  ("Parameter", Name "bool");
  ("Event", Unit)].

Definition configs : list Config := [config_frame_system; config_pallet].

Definition parameters : list (string * Ty) := [
  ("BlockHashCount", Name "u64"); ("MaximumBlockWeight", Name "Weight");
  ("MaximumBlockLength", Name "u32"); ("AvailableBlockRatio", Name "Perbill");
  ("MinimumPeriod", Name "Moment")].
Definition values : list (string * Z) := [
  ("BlockHashCount", 250); ("MaximumBlockWeight", 1024); ("MaximumBlockLength", 2 * 1024);
  ("MinimumPeriod", 5)].
End LaunchTests.

(** [protocol/src/runtime.rs]: the runtime of the remote client. *)
Module ClientRuntime.
Definition config_runtime : Config := mkConfig ["Runtime"] [] [
  ("Signature", Name "MultiSignature");
  ("Extra", App ["DefaultExtra"] [Name "Self"])].

Definition config_system_system : Config := mkConfig ["system"; "System"] [] [
  ("Index", Name "u32");
  ("BlockNumber", Name "u32");
  ("Hash", Path ["sp_core"; "H256"]);
  ("Hashing", Name "BlakeTwo256");
  ("AccountId", Name "AccountId");
  ("Address", App ["pallet_indices"; "address"; "Address"] [Path ["Self"; "AccountId"]; Name
     "u32"]);
  ("Header", App ["Header"] [Path ["Self"; "BlockNumber"]; Name "BlakeTwo256"]);
  ("Extrinsic", Name "OpaqueExtrinsic");
  ("AccountData", App ["balances"; "AccountData"] [Assoc (Name "Self") (Path ["balances";
     "Balances"]) "Balance"])].

Definition config_balances_balances : Config := mkConfig ["balances"; "Balances"] [] [
  ("Balance", Name "u128")].

Definition config_pallet_datalog_datalog : Config := mkConfig ["pallet_datalog"; "Datalog"] [] [
  ("Record", App ["Vec"] [Name "u8"])].

Definition config_pallet_launch_launch : Config := mkConfig ["pallet_launch"; "Launch"] [] [
  ("Parameter", Name "bool")].

Definition configs : list Config := [
  config_runtime; config_system_system; config_balances_balances; config_pallet_datalog_datalog;
  config_pallet_launch_launch].
Definition aliases : list (string * Ty) := [
  ("AccountId", Assoc (Assoc (Name "MultiSignature") (Name "Verify") "Signer") (Name
     "IdentifyAccount") "AccountId")].
End ClientRuntime.

(** ** The types behind the names *)

Definition lookup_name {A : Type} (n : string) (l : list (string * A)) : option A :=
  (fun p => p.2.2) <$> list_find (fun p => p.1 = n) l.

(** The configuration of a trait, and a type in it. *)
Definition config_of (cs : list Config) (path : list string) : option Config :=
  snd <$> list_find (fun c => config_pallet c = path) cs.
Definition type_in (cs : list Config) (path : list string) (key : string) : option Ty :=
  config_of cs path ≫= fun c => lookup_name key (assoc_types c).

(** A type without the modules in its paths, its aliases and the types of the
    traits [cs] expanded, for at most [fuel] names deep; [Self::A] is a type of the
    configuration [here]. *)
Section expand.
Context (cs : list Config) (aliases : list (string * Ty)) (here : list string).

Definition base_name (p : list string) : string := default "" (last p).

Fixpoint expand (fuel : nat) (t : Ty) : Ty :=
  match fuel with
  | O => t
  | S fuel =>
      match t with
      | Path ["Self"; key] =>
          match type_in cs here key with Some t => expand fuel t | None => t end
      | Path p =>
          match lookup_name (base_name p) aliases with
          | Some t => expand fuel t
          | None => Path [base_name p]
          end
      | App p args => App [base_name p] (expand fuel <$> args)
      | Tuple l => Tuple (expand fuel <$> l)
      | Assoc (Path ["Self"]) (Path path) key =>
          match type_in cs path key with Some t => expand fuel t | None => t end
      | Assoc self trait name => Assoc (expand fuel self) (expand fuel trait) name
      end
  end.

Definition expanded (path : list string) (key : string) : option Ty :=
  expand 8 <$> type_in cs path key.
End expand.

(** ** The client and the nodes

    What the client takes for the types of the chain: the numbers, hashes and
    accounts of its transactions, the two kinds of address, and what the two
    pallets record. *)
Definition client_view : list (option Ty) :=
  let system := ["system"; "System"] in
  let ty path := expanded ClientRuntime.configs ClientRuntime.aliases path path in
  (ty system <$> ["Index"; "BlockNumber"; "Hash"; "Hashing"; "AccountId"; "Header"; "AccountData"]) ++
  [ty ["balances"; "Balances"] "Balance";
   match ty system "Address" with Some (App _ [account; index]) => Some index | _ => None end;
   ty ["pallet_datalog"; "Datalog"] "Record"; ty ["pallet_launch"; "Launch"] "Parameter"].

Definition runtime_view (cs : list Config) : list (option Ty) :=
  let aliases := Primitives.aliases in
  let ty path := expanded cs aliases path path in
  (ty ["frame_system"] <$>
     ["Index"; "BlockNumber"; "Hash"; "Hashing"; "AccountId"; "Header"; "AccountData"]) ++
  [ty ["pallet_balances"] "Balance"; ty ["pallet_indices"] "AccountIndex";
   ty ["pallet_robonomics_datalog"] "Record"; ty ["pallet_robonomics_launch"] "Parameter"].

(** ** The mocks and the runtimes *)

(** The types a configuration of a mock sets are those that the configuration of
    the same trait sets in a runtime. *)
Definition same_keys (c c' : Config) : bool :=
  forallb (fun k => bool_decide (k ∈ (assoc_types c').*1)) (assoc_types c).*1 &&
  forallb (fun k => bool_decide (k ∈ (assoc_types c).*1)) (assoc_types c').*1.

Lemma same_keys_spec c c' :
  same_keys c c' = true -> forall k, k ∈ (assoc_types c).*1 <-> k ∈ (assoc_types c').*1.
Proof.
  unfold same_keys. rewrite andb_true_iff. intros [H1 H2] k. split; intros Hk.
  - by apply (forallb_elem _ _ _ H1), bool_decide_eq_true in Hk.
  - by apply (forallb_elem _ _ _ H2), bool_decide_eq_true in Hk.
Qed.

(** The mocks, with the crate of the pallet that is tested. *)
Definition mocks : list (string * list Config) :=
  [("pallet_robonomics_liability", LiabilityTests.configs);
   ("pallet_robonomics_datalog", DatalogTests.configs);
   ("pallet_robonomics_launch", LaunchTests.configs)].
Definition mock_crate (tested : string) (c : Config) : string :=
  match config_pallet c with [] => tested | _ => config_crate c end.

Definition same_traits (cs : list Config) (m : string * list Config) : bool :=
  forallb (fun c => match list_find (fun c' => config_crate c' = mock_crate m.1 c) cs with
                    | Some (_, c') => same_keys c c' | None => false end) m.2.

Definition unused_values (cs : list Config) (values : list (string * Z)) : list string :=
  filter (fun p => p ∉ flat_map config_names cs) values.*1.

(** ** Facts *)

(** The client and the nodes mean the same by a transaction: in Robonomics and in
    the parachain every type of [client_view] is known, and is the runtime's. *)
Lemma client_types_agree cs :
  cs = Robonomics.configs \/ cs = Parachain.configs ->
  client_view = runtime_view cs /\ Forall is_Some client_view.
Proof.
  intros Hcs. split; [destruct Hcs as [-> | ->]; by vm_compute|].
  apply (bool_decide_unpack _). by vm_compute.
Qed.

(** The mocks are runtimes: each configures exactly the types that the runtimes
    with the three pallets configure in the same traits.  The minimum period of
    the timestamps that two of them declare is used by neither. *)
Lemma mocks_configure tested configs c :
  (tested, configs) ∈ mocks -> c ∈ configs ->
  forall cs, cs = Robonomics.configs \/ cs = Parachain.configs ->
  exists c', c' ∈ cs /\ config_crate c' = mock_crate tested c /\
    forall k, k ∈ (assoc_types c).*1 <-> k ∈ (assoc_types c').*1.
Proof.
  intros Hm Hc cs Hcs.
  assert (Hall : forallb (same_traits cs) mocks = true)
    by (destruct Hcs as [-> | ->]; by vm_compute).
  pose proof (forallb_elem _ _ _ (forallb_elem _ _ _ Hall Hm) Hc) as H; cbn in H.
  destruct (list_find _ cs) as [[i c']|] eqn:Hf; [|done].
  apply list_find_Some in Hf as (Hi & He & _).
  exists c'. split; [by eapply list_elem_of_lookup_2|]. split; [done|by apply same_keys_spec].
Qed.

Lemma mocks_unused :
  unused_values DatalogTests.configs DatalogTests.values = ["MinimumPeriod"] /\
  unused_values LaunchTests.configs LaunchTests.values = ["MinimumPeriod"] /\
  unused_values LiabilityTests.configs LiabilityTests.values = [].
Proof. by vm_compute. Qed.
