(* ===== verification/Stakes.v ===== *)
(** * The stake holders

    The genesis balances listed in the [currency] modules of
    [bin/node/ipci-runtime/src/constants.rs] and
    [bin/node/robonomics-runtime/parachain/src/constants.rs]: the full ECDSA
    public key of each holder, as a number of 64 bytes, and the balance in whole
    coins ([MITO] and [XRT]). *)
From Stdlib Require Import ZArith List.
Import ListNotations.
Local Open Scope Z_scope.

Definition ipci_stake_holders_1 : list (Z * Z) := [
  (0xadf0295af32437b7352e4858dbd872fb7d2e36c370d99a5c8dc0888038d4d0d2657118f34bb2a91707e4152e1e3730fb05d94f1a4ed592c54b9fc579c6b5c73b, 183054);
  (0x776f5f06e1271d6deabb776b93a0062c6fea8afabc4864a5b46a38d5dd33f2df0794118ef774512d125b4b7a5b53e333c6c6d54fe09f432115acaf5e1793decc, 10000);
  (0xf5776abcb3da2466cb4a549aa74d09dcfc08882f2bb5aba199758e9e71902f1c4a02ad63db33e4837548dec6d2b51e1e19bd46183eba7bdc7350606cb98762c5, 3334);
  (0x90275ae00acd3bece6acbaf4d27da09153e9b1ca33c7a3142bdac2b8b2ab3d95c9489f5c717a00999fd2ac64f797fbd518c452b9aa761198445c572a9afb1772, 10000);
  (0xef92a940e94cd7b494de2784cdfa2c55c6fd0b7b01e5589c8d7ba303e867e0512ceb5c90c54ac83f983790c0df1336e0f54a461712317c20f23543ba66b6daba, 9816);
  (0x069e1744e4860fec3cb7193a60c6f5049e417179e46469c04c46241456c141154a015f876cf1646ff42c648b79a4ab9363c061f0fc6bb01c497edab55f3038f0, 8334);
  (0xb1724781416f2991e052e9bb0615e984fb984863793735a0bdb1fdf2864c6ad7f592ab0e9fc36119cd6c55d11d66af76d17bc0cb9bb9e83a9370eeb2013f4c8a, 6667);
  (0xc3264d6cdba86dc4b8168c6f8a0ace7e8cc4778000809a90855c11d2bbbe70a76736cf51914e59c2840ad9e10421e7366b77e9abd7b09ab0d2f81ba52f66a90d, 6667);
  (0x3d368c62ec53f5b48f48faa07f20a2c61100a167011e3e5b7307b62ce359242ed45a03aa2ba04143a435598fa9919a18dc8f7582b457330d1235ca5f9a1c50ce, 1);
  (0x9e535c6910b9915a7596e129c7591d0aa29bb18100295e0a5b793107a19ede6e4d5c0a4bc75ecc035942cfe898fc2d0df9ea2f1473d62dfbae01c4baa32b5dea, 1208);
  (0x1acb3bf5c37187fd37abfda16efb25e309e1a7e0e131fbb4d0005c8db04953cec772eb0bcc378adcf6995e960956dd4cbf0ccd38f7d1f4215fafd119ee4ab2b6, 23000);
  (0x0c611c8db9229c12c2982d2dd0324dd3f3bb029d71da852789c68b617a78389af51d0a74d3a1a92de40c6c3204641966009c951c976f98fe91bef2e73cf0020f, 264);
  (0xa19bc5d298e95ea4f0a3dae5d11514ddf05febe87e17ce15a37793bf67beffec0abbf06176a52b5e0d2ad74b546e3ac8c7dfbbef64626305dca13a2b17f11b09, 11434);
  (0x4c92421bf6e871a49be4f8bddb2493010280dcc87a34a07ef4b09ca2635b2c7b7f2fdfb46b35961445a47d831d36ac2c30c823182a4f3e8f691de928bad30c1b, 36327);
  (0xecacd597c798bc10813da350d9e85b01bf0f96b03481a678e0da3c663ce5a39bd533d18bdb98c61b122f72be0a8020b0402de0b3861301d298d7c100ce24daab, 1334);
  (0x9090dc592bbbe8e7b3f9d6689b23a67419a7f2e3ebc73b51873e8a04c155ce8643884b90e65b8e8520a0fee376ed0c0579201ad7e3a70847fe80df518fcfa107, 84);
  (0x5a3648b3e89cac46f50dc3cc74e9c337963c5ac002ebd8ddf15402fce69c5d96cf6f1085e55571b0543312d11527aa70eced161488382556a98d7d6ed5b5c94f, 512);
  (0xf0b4a651f87f35e14aaef2a96ce97c2d1ab7fc242459fc3f0d1bba8544b8266ddec8f84929041ea7ac22b272e28502fd51b80fb329b699dcb7cdf3779094df87, 6667);
  (0x1ad0c295726904827513fa8c5c7f4a0c4a203fce1120b96db7b3d7b5d50f93b3b12d2b3b3b0d4f224275b4dfb05082a8a7f196da141726e6cd9cb857964832c1, 3620);
  (0x2ea9b6b503aca26afdfc92390ef8abcdda1e4f0ce9b1e73c75bff946a49a4cd52610356de8f38b3913d3541a40fb83139ee1662d2f65626713e01554fb96f6ae, 33333);
  (0x612838e8741bde0c0edab262f192395f9f4c1a7c2ccdad20e540de15e9f2a5980f739c190b1a5ca9f157af5c30784ba05598d6c1639a60f56999fe07c2fbdc8d, 15667);
  (0xa48c6cbe89ce7ff324799acc5702b2ddcaa3df92600e08d9c00f2ba582f1374beb221a8c46787c381386086970cdb1dcad15e91e8c7b3cb39ad42b8db064fa53, 16667);
  (0x7b10b54b3b8691a10d77e058221d9cbf4173b233473c950a755556dadb60a6621e0ee5397d3ede79ecd381ea606b4dbd6f4f33414d7dad32c64ca20f851b7447, 3340);
  (0x4d072f2029909ebebe1307091307f3e98bff0fafdc6bd63b83fb5d39b2fbb934e1b4ca8127765e98833dd5a9e288e583d050fc77f4bb78bc7b21e900fa8eb64f, 3334);
  (0x0177929080d90d32098703596cad9a8fa389199643bb7c3de9debcb579cb5898059ef47247f75f5dd97ab563c05c6d7d3dd730505d28e5ba9e8034968b834652, 2000);
  (0xfcf544f381de32d50733627f270ec9a10e62d648d9db9044031d2d851720d8e76de7a38187f3bdbf098e70c1b12cf81f98e38e72843ff3b40a53ed69af0d9608, 21334);
  (0x5375b00ad75ba3da86db9ef4cc951bfb5f38aaea8cbc91629ec4a4ab145e6eafc5de307a2de0ccc26a9209d1f22ad367949b4c5ff8cf24a479e926d5dbb04e58, 637);
  (0xbed4e9e2127dfb0e5dbf1c5630e6c4ef104bbf14cf17ff750f8ab20a3e9a87cdb24fb965f4a3218647d5a0dbbb6d64a6b8ced487b2e8467178d68c7fe25b4b9c, 3334);
  (0x6473c7e12824d98f7ad21c44e35ef77f944ac7980592977e6d2d9cbfe8dd218f6afb08b55fcd76ee9d5d25c45012dd737e40684100be2259401ad0f6cb5adf38, 314);
  (0x9b11afd1ce16445d0d37d9ffc229066eb9c86469264ebce6dfdf5df84846b671147ab1a0dc08ada29dfc782a33be454fc13133902e008298288031a471739c3d, 1667);
  (0xe446caa5ccc987767ddb70826adb8ae7bd004d4ff468a4ed338077e7595e0082b845d1431985a803ce16803ba6908a325872cf6e8ad9d4333104b392becb52ca, 3334);
  (0x27c03a520c19571cdbe4388fb2ca1a616d2f14dca9c1225e6c90d50d80c4d09f5f4489c0fee3ec5abc5139914a76f14791f8449079cb63321c71ddf67df07909, 150);
  (0x549158c51757a4e197cd1883b6ab4478801e3240724364c7afd1fa11a4860e1f3b3d5325fe4e0aefea4920f8112eb61d03db91c6c5b4fe983942645765951369, 15000);
  (0xc45a634a45cd19c2774b6699dca60f370e69494532ac47dfbd98a7ccd6f44ba78e0dc2166bc66836e79694909bd83fe98ce750859c9f8ca86aad217300e2dff5, 6667);
  (0xfff9fa0b3cd9ba58193b4e8be8a1654d1715977fadc633a672da7ae6e0ae27745d8b113d8c3fde1388906c6960164bc117f969b434866e0206eec61493c41b5d, 3334);
  (0xe4dbe6f98b7bed6ef86dd4f808562d2005b227638cc8b67a1a349f7dc1711b07a0ef59827e77ba18fb4aac8aa7ba83d79537c8a290b1fe495651d627012cfb5f, 3683);
  (0x2e5c6f9751f9da691bf630f1919b25778f5f4a703183038c0da88ef138bdf469cac4c5ff6dac10b51a5b678c32ae39fd58066028e8ebf170f9108d55862fbcb8, 633);
  (0xcb7a367212275d374767c0aac76685b29487eefc72dd3108f388bddcacdfed49341d6c8c9c1e9c0db7063a23b3ebe825f219cc253422bfafd8ce5c94beafd03a, 31667);
  (0x955361d4e2754c5570c8fe8078b11bc549e3d11da308b1c8569552ac6eddb4aa7deb1e9b1431b0b274b0e65d383f2b746ddd2a8966b2ae71eebac8fae73a42dd, 10000);
  (0x3d73db137ee7b1e76b22a58c517f0262583bfb648830815da59620746075e233bba596a234fa5f1e2be13c05e66987819fd4c6a449ada6712b91e314ca7d5160, 16667);
  (0x774ed670ab451bcf82d953664f1fdf0b0961deaefd93f78cc76667ead19b10311c1cd34083eb31ae97e6c92fab987c1b01cbc812c580b5a9c36b82bf81ade327, 1134);
  (0x413e35bcddfb34991d6db4fb8b024caf68759495b8af849690f34216c9d93307da9a6104bc1e457474715fb0f6883b7ef492d5df5cdac658c2565e3d02d3d652, 1334);
  (0xba8fd80107bea5fb491a9100b06fa6a134881b5d6e348faa3c24291807ef1e655a327db35198250d3901ce7b14b52600caab6328c5672ffa8af28f50902e51e4, 667);
  (0x4c671c26e9587c85cffb5b21c2e54653868d6877e01202e0f5b0c82ac087287ff05ecef3aaa6a319ae428d3f378f5e09147d243552c705e1af1ed9dd67b2a8e2, 1667);
  (0xf6c4f530802b1a1dc15aa627a2ee1dd1dd132b775b88e6c7e7bf6fbbb464d7e21f327083db5396e7f979fe996897d5692d8a343e251da171a41334d142593d06, 634);
  (0x894c4d9e5c3f8e87e6f067504acd2e589232a700c14b12861401a1e78f4ecdc168a6ff02e7f7918cc45c21cc88f7370ff004f6ac63c06fccd56862ec7fa894e8, 2667);
  (0x650cc2688668cf1659de9286a082fe1a83f2e534c84c624a82595b91aee8a35bac4265ab1f165bbfdd746ac773ce7f83a8b5b137e2f70362fcfbbe10ae83e968, 23346);
  (0xd55ffda4a7dae498b6d4bf69b42a37d050636011e70e90aae5b28feeaec0cecced1592507f8d492978229258c900fb8a243941676bc211bf819dea5e666a760e, 10000);
  (0xece1d4871642376633c0428f8e988276a7036052b72c50d61e48d83547735ceaf498b694f1b337d3515d316f919e63c4f801d8d89f7ef1fcaf2fae7461027450, 3334);
  (0xa885069e325c49b49008fb6f34f7b179efb6b556f03c82152da2a8a7830af8ceddec34c4c6cc53903e69658479425c288e370f8dac7501667b1254dffbd38fe6, 13267);
  (0xad4f1f07704440e0c655fda9745ac13275a42717345c1466ee6fd488be0e7bd58eb202087c6d6d66d0209270d6ab2cd99dd784b80ddf3f90b539acb106d51813, 334);
  (0x4d3680eab64aebcc573baa8fe5350f0d8ffd1081a6f1924627590c3d785baeaef00ff2123c2f264be143335504aa358a1cfb884321d719af5859fb89c7dc5181, 834);
  (0x749bbcd76aabc8d53d87e385357b3ac2015e57b355421d576110d06c8c3ac8565204bab23a4257cf701016931a143be29ae0c6e8cdf11808fdb468620ce1ef5b, 3167);
  (0xaf6047015118373c5a1e8cd9ddf131f17ec3f5969591fef33774ca8816e858e6e8060f0dff5caee145163343d770f51d6d9aeb5541e2100f41341f579bd5c484, 6667);
  (0x0bd50a5c715c2c3ab4c6f026c1c416c470950aa241da2481075c2a76f6d93015b5505a0882422ad7925e20862388009c5e3aae0f8f598a614b6386e66baa5f1b, 3334);
  (0xb3e2c5dc950f5d3f5d328c4fba9d8cf39023544fe4f2e21f13b2dfc5c182132fa8cc1722b4f67c98816b1829f05ac23c2787411672c7cde10d0984fa3e183e74, 334);
  (0x977981698c11bd5a8a59e147ebee2678e51bb702c51f1a413d5feb5bb014af60a05eea9a438da7388ef92a1b3efb22389b99e90c741d904edf9f9f31d27f4b1f, 187);
  (0x6fbea73029b27d418ea90324f8819c1ca9b47ab2a1550625e2074be16f9a8617b309f0504e8eed27a29fdc0bd5893be6ce9f15409db54cfff4f44c0b272c27f8, 34);
  (0x4b1dbce9eb78330be4136b2ef2609cff95a76a6bdd1f67b8e8fbd75d533dce0a532bf38a0a857fac85ab5370afacd652e5ab767427b8fc5bd0f11372376e53c0, 3537);
  (0x398222a57d2fc369170575e728ca356acac4406288eb555a0598950ac24ad8603186f1a09fe2e5c4af1229aef6e2af7bb2257f19f58d26bcee12c2db631de1b9, 500);
  (0x4c5904514893966c716d53e28bab69a94dc1300f533f8f22a0c27a09a8258c217deec74f429fbddd0004d87932b0aa9748d73d618c76925513ff92ce3ae60c54, 100);
  (0x651289ddda04ed8f08711c7cfae6dafb8c2f46ca73009c9be3981492051b28aa0b41bc0373b05a2b230cfbdb676eadca5a5da191e369624541b7472159beb9f3, 1667);
  (0xa7d214a4a7ebf03ec73003f33be31c129e7e023e551c5dad3dfc8bfd0f03b15a58a2f75369d693681dff417661ef4981fa936bd58df214820c6407147e0ec653, 3334);
  (0xba532df9e0ebccdf8964d1f5b163eeb117f4f34b4d26927213f0254694fdb2cdc5851cf061cdc0d1aa1237274bcdc2067ad5d44eaa039eebb45d6f1f142af5aa, 334);
  (0xa24625ce90152d0a1b4bd6aa66a273b0684d69bac4d338c64e1bf5479965f0bec261cf29ecfc0b727d847a5967c211bfa253b9c70b1b7feb2b419d95401b27ca, 43323);
  (0xadba0e0a181cdd816804acce15b14e4528717e8c545c7082b0193477aaaa5de28286ff618fe4deb617d6574c31678eab75863d2416ce1f0b40c2ff46c3a0dd9c, 3334);
  (0x4e695668b7682965ad909995e8309dfd1a348bd489b644ac8822042eb9632b485b29fdb93879d5c85c11a3ff5c72e1f065884a0e6c1b8b3bcf762ef35ae21788, 524);
  (0x20449af394327a21b8add9df8dba02b4f7343b827ae974c289f935ee18951f148814885ae47d0f52d979c18f06db2a755050bacdc7a3a126eb4305af4c5454db, 117);
  (0xe118330a8a494aa29dbf18f6607d061f7958b57c632d029e881bdc74225cd09d7823ac9b0cc2ca2200645c4d4e07e11409bc7b0ffbc1d5e062e86e1341562139, 167);
  (0xa3615a414ea68c471c4928a3ef2c6cb5dff899395cf4f4bd9cadc3798b9b2f4a29775d6f829aaa769a992405f69dfad763dbfb2c9328bc5811d98e17d10ffa43, 52329);
  (0x5771edb55a1017f329095987b51235a2bc6f49e0f2bc16f4cce621706f1e21b03121a1faa47c7d89a157f3746451891f514304eee4daca3478678aac6b8c9917, 3300);
  (0x5cbbb4689d4cdac2d4d4929df6dd6e9121284f204e660892694a4cefaa8b18fd37307e449dc220d93d3f31d50bdfe9ca9553395ede5cafb4acf872dfc0ef908a, 257);
  (0x282b831cb00b711e44a8b78183ab394f46e8418fefca462518ce473efe65d01841ba5429256bfb23c26bd2d8267ed69a41fc9063bec43490495986425a6fbef3, 167);
  (0x0b41c0bce6ee69109578fd6c19538495ba184b8bf073964f0e9a2af4527cf66585d034445f7cc905abee4e093e178b073c9c522f8278a20b6d8c7ddd931cfbc8, 19967);
  (0xe183cf08a0a25536c150efd12eb1bb8857115794b40844df1c54beccdf6130a8fd56fffafc404b63a44491947bc4f002fdc91db914bd8e0bf493306c0d6def08, 9);
  (0x43a7f21db8cbf21fff4831d22669a840df9f5bfb128d743cdf8c032e17d04ede098d447a7555d6b9cfd22e261771c039bd5f115b3d0c069749df4bf539690f3c, 334);
  (0x953a0f8ea91d9c6a755b95f55538666135e185161aeaa9c3c9615df2e5fd1389bceafb22cc34996b1667c6c01d76dae3b32ebf9e7baa43534658815533ef9772, 16667);
  (0x37617cd2b79f02259fced96ee229240becf6df4f9756773213e6f498d5b7151fd12cd877add38c8e572f6a9d31d60e714fa3647613cb3f48cd8d23c0f2243dc6, 3330);
  (0x51aa8e998d7d99025f41e05f4efe9486dd6c4cf80019d22b9c31b592174adf5852d3ed83660c74742054fda127137fdb3059f58770f5fb6c9cf0ebea9236b61b, 33333);
  (0x5965a88f5d6fac0c06628e5e61769dfa71a1ed6042fe3380d67eac5d9239fefbc7f7955225b5c1680d9ddd26b5fec590e8f2aa5e7fa6bf3922b72e0a1fa6056b, 67);
  (0xe2751f1a84aa8a3734dfbe5b8fc77d6f92c461d1077486bb927b1d1965058ea0da4959ecbc8ac17b761d57458598230700da3b4f2a8a823042e4cda703f7032e, 1);
  (0x72e3223a0bc0a5d3fad618e349d17eb3aaacebda6ab460aa3300ecadbe5c646db9502fe74797100062931d938929639e0c480b88f607d45e8ce5705615a7553b, 5000);
  (0x6a81980f36fd213f08a767cc6d06279c16ac4c4164c634abc091937711d43e9bcf10488e6305aad75262035529308e80c3fc8e170b04554185d95b370047624d, 9000);
  (0x20e45d2530e4ac1bd9a952e544df7062cb03990716944c2962f62d21de961ecf75a32263d8c0beb8b3ebe480caba1d57f256d7187e4d077790f6a014b7b9220c, 3330);
  (0xc9db7e90f4558f6019499f2e65ca91e8e82c9d4bef2ba4eaeb5a465daf0a756552a7ce31613e45b0f187c521fc52ab4e6d764d4c080f155b8537831b868b02f0, 599);
  (0x3d848b4ce58f7dbd97bac04df618dcedba19b397853405469219f069186f8f1af1994ecbd2b6a3bced5f9d2994f09de77b8e2d6fff1c1ad7061e074695acc413, 30);
  (0x62275407d640c379a821dd05da2ce6c6bf5ece026d0cf4561574482a029fff9d7387711a6a5317b23e5f140a32dbe65e18e90b028704957b5671da6830911913, 11);
  (0xf2da22f5942290fd9fae5e6b9b2b215753dc8bd87041097fa72d8f584dea11fc5d86a4f979f684ada83d13219b9e8b73a9095137c75e60d72ac4b2c51bd251ea, 334);
  (0xcfa9ae0337f827a780e89f1fe69b8de0805aefed2862cba50b675cf069e46c2c96cc6f73d9bb486ad463408b9a519aac02fd3d2dd2d412ff099d15346af2fcc4, 400);
  (0x7c89fce093b059a7ce64a7046d60b1f0ab289bb82d8a3b69687464851c8c3e77f0f87254afabcdb1f951fd7050926b543f44ebdba3fe714b807f66d6123a7c69, 3334);
  (0x1b3f9c9134a8a5a4ca3a73c8aeee6e4b7f5da5c755e306b1752b6964420467f65cb8e2fa43be7fc869731f0a092a5ed7ee079065136718a1a0ce35b48338aace, 16088);
  (0x0f06145a534b3b107331928309dcb6200b83a8818fe74aa1f5a91ac1d3ef55c867a8f77e228ca12b8809ed2b0d101eb024ef19eea593bfb2281e254c5f2c94f2, 3334);
  (0x63eec5ca2d3f2d6baaabbf7dd64cc306141428f495113cdda42598756facbeadacf9c2a9ab8e74f729a545a0be7390701f0f11b859ec22a26b7aec5127418650, 33667);
  (0x4a5fabb8b575800ee8e96b7c0575a00c4fd8f82ff2b6f880a10e44c2567bb494deb1c81f0d7b78f03b517b2365fea1f139c42a98e61581dd2f7781bc99639053, 867);
  (0x67ca41019c00d168cd01319a30d69cf4cafd76a2718ca4ddee6faa99fc9855bf8f0ccfbcb042638a342189dd5561e80c8b6a93ca116419f5c91995023e60558d, 3334);
  (0x17d08e5cf2716cf40468a31ef5251609277c946dd1141c350202aa2be01ef68b4c7bfe737958e40d2093d5bb5e859346abb85c9af06c2f07c212321e45ce637a, 3334);
  (0xbfcae14d5b4410cdce9a5d71d15010fc6b05ba75162c59d30cc9f349b619dc715e90d0bce231aac8c87bf6a4c6ee740dbfcbce55928cd010ea2d1059dc6765de, 29380);
  (0xfd982a3932eaa53bbd76ae7d3d1d7aa29c1f45a25f8aa097795c3654fb4bee1f8ed9b008fe427e2ef92981c06ac9ec88cc098b093296eed57626c3b11b7c64a6, 99400);
  (0x89b32e007b87ec02bb3f1581a53dc465c48d4c3dd7cca3912fbd0fc2b4198f5f254b119d7635e26958189bbc7935e63acb012a442b157a819616dc069039d189, 434);
  (0xfc22bcbbdfbf74d4a53222411342d0226f5b8b9bf06b80b3a61f01bece0181b64a8ab245ec79ea97706a026cc8e47550659d94bbbfb11d9c040dcbd8ba0754b3, 1);
  (0xd411750dc1dd12005f5de13896bdbc3b59a6ab4de4dcef734fabc1949321e9ebf9e6b4d0a220f47a7586b87dec386d26da2d7198ad9dbe41a49f97b924f14661, 667);
  (0xf79c5c10aff30e6a6feb8dec211550a00bec4d2f9746e43c7feb65c6ea060c7830949f70d43f7ac24b9133d6f8da6c3b95e4d670fe89b4853e291488d5b34b85, 43320);
  (0xa937a9892a050012e9026147d175412db7adb7de9e42d557b944e317aab2314cab6efe263280c65c09acea5be3d183bfa5a96939ae6ad4666e3f04c569a773ef, 6660);
  (0x4ba278a155a985874f1e7e8be6593d20259c15da7a070ea9ed33b41726ca222abef79d34aacb6ee0dbaa8bfd2290d5ac1d4bb028b211896025dd3e3eaa529c31, 788);
  (0xf727cb26438acda0f81b81a2e73bacd2958ae33c21a3ac1518c8bd4fbc86e683a3c64861102e5f9bc6bfec17e060b97bb2f66d184e892e77dda3dc207f7e4230, 5000);
  (0x27e7e0aade2514f8bffee3cd8b17d18c9c1a785be83b1b2ac6a68e5d9c2895d6d6f5a84f323c625a20372064060693c8376c2ebfae9457305de707daae624bab, 30632);
  (0x2dd186240543b760b020217877fe41f1ec55b5fe433fdd68c5045ca1f4c1043a0a86a9a643c46032e7ee56460f810a1ba35e8b4bbee64b9b8d73bdf1cd84e398, 400);
  (0x03665631b5e2e0fdebe0ba175a830583d5c07dfdb1ed06f81455b3cabc086a7817efa73b590a5315bfda1e9543d24a70d96c2c3cc44ed322e7b35930e860ddd7, 13050);
  (0x680ab85ffdb0746a05e9221f39ffb0120d29afa6c175e0966e12c8825339694a3d709bece4afd8d24aafa341ee043b5a7fe0d01049887d812f23928e21cfc5f1, 300);
  (0x9393de7d998f4bbd208fd84cf65a422291cdf6cb30105d842fc19134c5b8637de8ac7c31d9d0a26fc46f108a806fdc067fdf2e6de9af947063d314263775bc2f, 5202);
  (0x07b2216eb79681275a76d244e8ca9fee066f45acdb3e1c91f1a0bc3bcdc7590852e07467fa97cbe6e8913f5f40a138ee1011b4257a391bd0b45b242a5155bc19, 2426);
  (0xf4bcf3edd598ff8d8aae361964c7c6c2c76d5c289b2038415b3bbe07eb8ad79d9f91de40a8844816b7b6badcb33a65ced695a92f0b2cb0d641b06f539841e3f6, 15698);
  (0x6927df714103e2d2a21fa4d1123c4bf688da3da75f4bed7df33000e2ed8bc188429206276de1e4973af6fb6368799fb8d2e54f50e657fb39edcb65f6cf96c870, 14);
  (0x1ebbe268bccf1d42d6d5d59481905721913b085d5705f16922bf330069d98c0de18fca94eea55866af928c0ebed1291b60a3fa8541e1e2f12bbe28a10553514b, 37);
  (0xe053dbf584e21af9e6ab95ce3c6192b6f74484183c18d4e91ee579145af72e81a5f66938a2359e22e24c1b1039ce8d6ac2c5ce9618169ce007b449550dfae3ff, 375);
  (0x79059c758bdfd19854924e5ed7d008d0763c8c6aa30899be18301394ffaecfb546022d3663cffa0ac9f8f0a58ded7786a186b17e9f3f5b95b9bc90fbe966a6c5, 300);
  (0x21824eafba9179d1c15ac06486cfa21eae55dd16ff952fed8e6e55bd1fcab2e90b28bc3ec7788fa64f507177110b37508c116c240f9c0037075522185914b616, 6000);
  (0x4d9fb6274ca1472f02fb51ff4c80efac46fd9c010f098f9e83ca71616123910cc7eda992525f588e975d5b0c8860832193adb8b4d47f31cc18b969ef52ba4b00, 7650);
  (0x036d3e8af5484e48f27db6b49abc8f1ca984b777154684ef1b3899a740e10eb2b296fcf101d7bd05461ffcaec3d578b56cb762b3e9039cf577c2a3586774967b, 180);
  (0x7d0bb99161371760d6432c294d5ee6241db2c43879a356fb4c730b19955213bf48805d73477e210d288b5e706798361f13c82910038fd1f42b86344e8a080369, 1050);
  (0xc0ab19e844c7c981d5170688236e3392817a41471dc41bc55634e09626f76b852328f5caef4d0926204cd56a2eb68d55d188a1582879c588b78a6572541768f2, 112);
  (0xfcb3c44cc1e1da6fb246d9abf5febf21457fa70eff85b35cba56ed9c4f71db3ca48387344472803dbf84f296f255cf2cfa454bb334824e0b3448c8d8490b2454, 51);
  (0x53fc06c8c909a3ef9931e0c560e2d2bacfa9b832d271dd05c71cba62c8d93fd45b86a27943e2522dd414bdfa527057c5839ff6483e4763b0c28c929be84194ba, 375);
  (0x6f6c0b0d402ac9feec53224b2063cf9c326e22cbebb295bb25eee0c70afab998fd1638b2fc76471de913e6390bb86c6b91cccae081b031e9667d3de29d4d4a6a, 74)].

Definition ipci_stake_holders_2 : list (Z * Z) := [
  (0x05692ca992d1e973f65c6495a0115acf3b6ae04ab24f1ac0eb049bb4734b438617a207cb5858a3517b84a49efa5b344a1af2d2e61be5673f24ef86209ababa48, 75);
  (0xc5f0a4b4a94b8e007e352b583c293e8582d582061243fbd135c323662962c6206e67ace7530008c2c934b8fc4c66408286bffeae6b6ce49f0f38486efaa9ea08, 450);
  (0x74c4d22b2d5a076bfd0a55cc6e382b1261a30a3726b258addda15386842157a9cf031ca08c501bec22b72d804f2b6b71c0c69358cc4268363f41f9ecd1d7cb19, 150);
  (0x720fc34448ef912e6233292a21275698ca802af88dc2df732c3de727dffa68d3ed166ab30ef8788d8bb94186f99cc413d7b22efb5c63e643ae778e981f47e7be, 763);
  (0x12a15fbf755dd51528470879424810426f645081488b640f2b3e3e9ea3105b529ea1808be20a5cb9df55e13df0da9fe9b01c6937ccbc22299602596bb140d72a, 195);
  (0x626ad8329c4ac28001a11942e69afcc7f036f86ff0465f4a7a19e102e414287d662d3ff5abeb7965a8547f2b643287bd1b11bf0b01aa6dd2280eb7f93f10ef78, 45);
  (0xb0d003238dc86ffd2dc2d158aaf035db0aa96cc363f2a0dc976786cebfc91d078ff2098474dcd463da3511f15b91aebb68d622429aa053ae924985b022abedd9, 300);
  (0x2f9cba943d25629db78fc4930c0e4e7b5dc4298e902d1936f74676ea4f75a16665831bb3a17d32bec8548b63eb1874253479c015eecad492a8cb15bf8b03def4, 150);
  (0xfea355eaa54ade1116fe06abc377255a996111f711b8e2e05a24d679611eef0f4c9d2a98cbba9dfed531452fe4627a2f1b36c7df1ac7c3c3bf3c66d85c9d8dd4, 199);
  (0xf83a4e16aefd6ea541d0693d0e69b64ec2c702998a36c3900f545365d86d73d46e3e03b9f7881e8a144cc5ed50839ee44e53ef61639abc1d94cfe4a289deac56, 150);
  (0x8de92e232022e468832496fad5e2eaa5beda21af0cd75290c762de17131c3e0b59d222d9ca2a720897221f5b91e11ff315dd3d6412c221ca9b5cdc02846e075b, 300);
  (0x0f61974e0a01d8913866f9a55a16999b8e0d618f519d6ee6e38c6eba8b6e63bcec91bcaf6da202cc2278e3f0a9b9df98d5d5915e3c5327b726a1e299e7820437, 150);
  (0x08d905411a688cc8ceea965899d7cf41befad60e4190b1c3f37bbbf4d5f9fe77d6e059242c094925c0ea62001b82660c89fbc84e370545cd481930a8c6f3a942, 650);
  (0xd6068b0a7b3304f326afb3999a96d78d363c40abaeb9929ac141ee2eb43947154ae67396e7161e4cde1b56c89cec6269ed8da40c7f0e8d9a377f5a221006a6d1, 225);
  (0x44101c00ee9ece5ead0feffa0283508143e398a46965910f9bd9e38cd07aeb47296fc57bf8a9a2cd2c578f2a32b11ac4a5911f3b18e50408161facc5a70e095f, 675);
  (0x520c8dc249974d92c0e14e932c608952f7b5915085a55acac077a9c0be774b073e231eaf4b900d4e06c7a8c866595b2dc9a9d1557b1f3f9f9e386974e644fab0, 448);
  (0x27ce684ee594ed5e59e22b4c7deb21daa4d56d2bddc9ad0c23fc827d4bad2d66bcda2a903ae954c42e6c13c39696f7f71a6479ca1a003ab37b779b2d96e69d16, 129447);
  (0xcc44d0a1cce09f218336cce30e93da43f18c581f8aeb41bb9c9bec758c8ebbb0ff7f525a2ddb37d003ca2faca772ff8cc44f389d53e14aec5724ecbac74b8dd0, 460);
  (0xa26f4090cbed4f348cd31dbc309fe9e8ff05f6600c5ef85d5934559eea8d87802f5184d5cef4063587436a4d2af042ae5dbe6b0a1ecbd7c5c019aba4e83f1b6b, 24);
  (0x79f194d4a261bce82f51bcaee5796d9791ba88ccbd29c59d6c7e49d7d91fb3b7096d412199e2f727f140536d61e97831cddd9862d13b803bd44e9391cf1829ae, 135);
  (0x4e82ea48651c9648d694dd9eac47152f27e2c3a46b4c8343862ff8fa7927994c5c7f900cf8b509c09c1cbb19494fdb461131a34a56120e985f072bb3e6004c92, 2250);
  (0x05efb174820c1e9e4c5b9a237785027be21a2ad4578ef08028f9da032fea9acd64ea4239f85bfcc3dbcc0e7105d22aadd43c3ffada90316b9771b8c3e1ac60f8, 3000);
  (0x027c7bd9ef503f22e752db1b684ff18ea3cd4179ea6b46dcedb66372e9d4b9aa03be088f43e57f866d16a4cf6d12d02a8d6f24c863f242939eb0e301b54c7664, 11);
  (0xa4d3e58338503d3f4982e7b55536da3c6d274121f32453e214f45dc9ba297f06da1f8dc21651d7a4bc6c616f2ee3e7bcd0de202dcb6401f819b16bf48077531b, 75);
  (0xbc59f32126fe34783d108c729d4aa86801306d67d5a7d8d34c737a225277ba0da53e6f1756fef42b194e21aab5cc733d4467c41caa068c04a65c012ba01e294d, 150);
  (0x2c6848316051ef7487987bd3eefdc06821df02539649f10bb054daad13697f2479f8aa830d2df1ce32d3f5b2db65532189ff056e932f031deb403106d6ddf1e0, 150);
  (0xecb8527b77a361a1778ae33bc63da2bb8961d9f81410db22ddd7e67d9c65f0a7144b67ef804f2765c6e645ff46d8f64841b7ce8e250923df6fcd6975c53e7ac1, 150);
  (0xa44fb914681b4484b959e78848216f0160c9732e999c242f80684cdf09799ee3b3f085532b3d5a0fd96ad34753f690ee90df076e2569036e988aaa754ba1be53, 2700);
  (0xb19efb61d64629fdeacbdcf8237865161d8e54e32b60eab0580c26a82273b0509c3847903ed65136064aca5fa10e0e130c5c58bea02487f1152060c6927fd194, 2700);
  (0x7f407c086ffe0b9f93cac422e57e8e65507219870aface603275bb4e8b649d936360325c43886036204f869e44e63c5a4844479aaf097b7a54808ec90e520fe1, 4500);
  (0xfc3d0d5e9f3727aab1eb2989fc74953d27a7e45a20dda1c996504e0db7be8e76712a1d934540cc05e36718a0bc611b4d961797445548b39462a85de429a5f366, 43510);
  (0x26bb69c25bb7131eca2cb3d62031e0c339f2000f4038c4f635be3698a9901de5bcdaec5a9bc8476aca8d63e66c2a23bb54d3e979b51449cf289c29373b097474, 500);
  (0xcd7fee8275ba4c8dcae7c4dc1bef79923ed8fd8d529b039ebc4cd89dc39e5f8c4a0e337690f9c7d10c9dcd3d9740f046ec7a83875ce3b2c87a0efd9a882b33fe, 4632);
  (0x9e83c058ab2033d094f71d49b7c70ec75a88efa6d4d9ca0850850bad8b5c6f53518492d4b4130988a612ac59dac01906f8d077de7a4289ae0ffce070821e32bd, 675);
  (0xfe7dcb408f69241e2fadd9d5678fc70c746cb3452aee0ffacd89dd52bcf44924ed532196c1e0cc4d47339c2da61d400ac748c2a3faaf67babffd5c4f44bc7df3, 300);
  (0xaf30d6736246a316794280079ca3eebac801e254364475ed7aec4d5a20f94e37fb9447848919bc5671464f6090e593b7d3a024582e954018d0831cc289a3f458, 900);
  (0x5bc3a006764a0650af064c89add4cc9b05a6729dc4f147a8ca25e99b84f706fccfcf4dde37dec244cb33cdcbfcf4ce017d3bb4e88f5a43007f06f71715a321af, 310);
  (0xe01c5f66b94fdb173b71ac1e65dc5dda63dd7d7708622cab2609ba80c848356a3f1e7000db776b3b0b9694e014989dd0faad4af019f4bad8d729d408ab34e7c0, 4500);
  (0x01975118d6c6ec286fbe7381a205d86d22c28ff370da017158947ce028ab478ee5a09aee2e0bd914699fa22905528d9e34c4d12dd7043061d5c2a34c6f75a507, 1500);
  (0xdcf2a553e6cbfce1305f515b14786cb8df886959a7b217054ba1a6339f460186b5a44a19e52312a8b6e3f332d4a68c9d6f95fdace6552f0aafc8d266d800efff, 1);
  (0x3f493d91273d670753b6cf6aa1f124ff7d11a77bb8169f1d8828c4fb6d2c82ab837e135e133f73af1eb8926d572e529d5a822f95327a9aae309aab63349d5a99, 300);
  (0x58cf634a257d5d92133425ff1657cb343777604bff4432c193a0b0ef81eb6d4039b5fb9aa616d873cf0c4814af888e40633880f279b366fd1824b838784c6d24, 31207);
  (0xc05636d1a34307a6b327e3c694309d939e2dab333deebd50442ea4d1e40f9e6fab7572ab86b7a067029b5b2cad7b582daefedc62a674b22d3201036a3ea2078b, 12000);
  (0x502ba6363ddb0bed765ad87415af6fa7e9bab856789ce8e3618c6454a9ec57222580f7a8392f0959e067d822ea31a60ffe77fb8c361191d8e6487eac346e9857, 1499);
  (0xf60fc5d6e78779ffda68af1556658125e7b526152e6cb25e24fdfc4bfca0f107f8076c05d69b0b48e96762b29ce122f8c38a0eefc17665a2744a34f0aab70d84, 325);
  (0xb512d80c4c7f10e9cc012ee553787a263257a1560540fc3d48d78ab78015c8b40074f67d8416c4edaf02bd702fba3edbfb95306e4b9ae3926db876fdf2cbbc87, 269);
  (0x5986a70b6c8746839ab9b44845d37e9660a9540786614156f12592190b3a79672cbe7b365157628639fbc027d3ebc2c3ad497c71f0466dfe2f366227b44592b4, 130);
  (0x8307d1cbb0a30b62fff1ae5afe8c4fa76b1cdff2865d7acfbf6b7a06aa3f376bf54d18db08d0c6f47b2d7fb6a5cf287d6d145163c7db9b874002f3602faf13c0, 7500);
  (0x362350dbd18f334bfa9aad028b28d310f858caf3cc6f57a3954de19fa4da0ea8300b427ef34fa31406342146aaba16b22a5fb9bfc85a7c61b93bb927b7ac639a, 298);
  (0x3724f519ef1dc0599adc7a894ed07f375f1db038c0d1f79ef5beb9b50b7102eff8f76511aba738c9ac6ffea625f65ad35b12a9536b125eb6d6e9374ae508a8e1, 1999);
  (0xa8539421b6e107d04e09e6ee39c790e30c6d251d0c69b305243330458e5a4ad1397b2a7f2072d1be77cc68ef68f8a6cf1bb1f70e96fd01054b0e8f02b0533222, 1);
  (0xbb72618d35356fd7f67c5a6df1bbd1c4a7b7cd5e7f373622eb8c6fe3b38e9050f68c8a2dbb5f2a1b27b1215715e0bf6b11cd6f48e38275b49c6a965564e7492e, 1);
  (0xcd8a32eb1971b833884869a18d64df830c2eb656e9ec5c34563d7d1a44f45834b3a525cb099ca4616b781b2edd38e1ed8e5b27fc0b501d01863b031435f9b5b8, 1);
  (0x85060584a009b92ab71be70bf43dff7bc72a8ed5efeea479a013f9b3306862d403e68253ceb01b53cfd9cea68e6baa77319c91d49b875ec3113cad4e3dc7de97, 1);
  (0x7ce1c1f8923798cf1ee5def144f8de856b7f644cb84769e2a6ec6cf77c0a90a504553c2102a4aaf227b454cd53b1d72af9e1a243b3ac5d99936d62828ec2ca7b, 1);
  (0x797ca98e153b3026a8979cd6cb2dd341e4b16f787338fda7b2239444bebcc1ad78b5290ee92adb49d7e59a5f828f2334bdc5d3a0322a5ce91ea09d584b2c8337, 1);
  (0xde005b588ff2e41b1efcb4c5359dafda54c70811a7d089a2a320b41cdf789cf39665cca63056afe62c40fa7280312167468a9d527dec80d0df974bc0529032ea, 100);
  (0x029d9062260a189ee6810408dbc602f0c2527d1054912170b2878a00e39fb0202aee99fadf3327b4ca9749e0498f4d220661033faedc6873c8916b0b9d3d22da, 1);
  (0xfa43b3065aed5d1a762a56c2eb4503d3ddf26867eb7c11272d8a3a36a1ca86c6cafd48172cc1febd18a603c5de73ee849f008e3baf46e52aaa8758f8ef8523fa, 1);
  (0x5282a66bbb3398f3735f0ce393102f4132cde6c2eca051a2e97409b7f1e5c73d58e5e39128864c2f5931f9bbf111e6b090998df7dde9bb127cd2574c2f29b6c1, 1);
  (0x7b8721737122826772820d8740ecee884da1b3d21f876ff0d3781d8457f4609c61cd3c95737653c33e8848b80f7280c9ac750a011b5a6f2fee66476bbee8c16f, 1);
  (0x0088c629b01faba27aa47c33cce6750aba49714058dcbeefa2e9465da49601fc1d38afd637093fada74d1a3d118b5fef3f5e210a99cf06a8290569bedc6ed68a, 1);
  (0x6c489eb03aac097146c823f3d2f4e2a0ef4afe9712b1c07a48a7578369428ff9db0654926264cbfe62a4e9dbf33f0380b161d945638a8e59103b01d1b6c734f3, 1);
  (0x8b4296072f1dc76ba56f3566eb910c89c6d7bc21bdc46b515fe73abd2cb333c62d300d5db1f120e7748850d71c3624737e44a636afee3dbc775158bfa1018a43, 1);
  (0xe1cb1c9cbe022e885c2d32d230e799b1ef4429aa42eb9080cbabf6eb0b67d6dea9d050afac52fd5aa56270278ba613f2fb07f9002cce330b068eb6068d5c30bc, 1);
  (0x4d6d8c6367a08d03d3ad8f93f6757e619e333b2f9c97ba4ef00054e27a9974753954f5e58680e1e8806a820f61fa86f49cc0fc6cef0de515b8973ba185b5bea7, 1);
  (0x22e2f3b957f2a97e3377a7234e6fee15a86cac6a7d35115ad6cd8346e5396dfbdbcf09f1b86780b2d606c04fdfb4b748e40b472dc7a67334689b26d0ae1b4ac7, 1);
  (0x215b035ccc0e32254e729b049789c4609466fdf9d272ad404a7a26cbb671cba2e31cd9a132339edfa66805f69a23c0e2179143ef0f96952234a5b285739ec0f2, 1801);
  (0x51a1fb68bedbbb0d71d1b2f37dfef98c68cc424e634d95a390609756375b829a4d3c77b7066bb0cc2bc836b770bbbb88a1601b0e779363c9b3f993ee930265fe, 127);
  (0x891ce67326cf8ca5acc4336c092e0443fa5593bdf4513df5b5282d8fed511982b0db17e277695947f91eb2aee00dc8d835d2921e8ce5994610c411d7267ae02b, 146400);
  (0x1af8d9eed1f923b1599df2bd50e2ec2b5a479f68ac64621c6c04ed881776eeac0f681e36ca6ffc5b53eee7951d2c908446ae8cea218f62256caaca1c9561374d, 1);
  (0xd666a8fdba8dc58b79b75565e91888f5bc33f879648021a00631c17884073478749224534474a33e7f1eabb6dedf7a4f16abcc67c77030f8d3fbb276963503ae, 14);
  (0x973639da3d86d4b12a1186b0c5d82554a380fc1d44d55f3df1bffeb94873df1464fdd98df15652e6fe67ac341d555dfeab816c40e99f9081ccf92fa8b66ad7a0, 148);
  (0x8cd8f20f8862f3b68a9d6988a11799a08d9cf02102850b89c9863db74d2554d24d0236475ec00888b6554b05f78287d0982e2e269076c7ef97c34a0b7da04782, 5000);
  (0x21c769aab0cee8184f4ddb5700343d2e6c79f65b31fc31a56c3a313a88f4ce3a4b42394c91a8903a50cfd9d3f25c03f5da969c3b0a0ec0d728b21300cc835d0d, 485);
  (0x81919214c9febb3a9d1cba6f1bff19107f447290b2cce7a8f113efc561f7c8a38ee04b26eeb3498f58d13fc5864106acde4a79109f91adcad5f994f97da06e42, 580);
  (0x0cc4ed21767b2a3ddfe6fdad5bccd51d9a4aa0d330e1f556f108176cfba1184a1dc408b06a03053d17a8ccf3f669bcbf1e5bc2e20e087e9780a4072a0725dbb5, 440);
  (0x7976aaaa31f617ac69edafe74931128117d5d6705e902e70c15b53c413b91d756dadad375bb26f7429a2c1e71b4f645f6ddd37a4fd1dda8d6cbe3fbcbf8b5e2f, 50);
  (0xfe7adcad2dbbf1f5f38aaa1645a82355a1c9d6dfbf1fa3011db50f23d21a4a33f1d63cd7e161c088dedd81d534f9416bfc2b3b4d6d66bf9383adf92d36dec27d, 25);
  (0xa3e249729fef91d281ac15f45fd662f7ef2230823de49472e905fdae44f3742053d3820585a579d3ca295d9c01f6e05333bd17c0fdea55398c53e05122bfe64c, 41250);
  (0xecd8a18ca53cc0ec152a345e870890cf9e1d72b59621e64c5f1464f757d0b5a353c1ab770375e5185b022adfca591e9485dd704db530a2b156bd59f251172623, 100);
  (0xd2ed76342aba6a4910df152342f33f1b60bb28f98b2cc473ed57bbf994476bf01f023fcc5a9bad3d68d7ef834fb1260667975af4a0dfef21eb8ea6acd217daae, 30000);
  (0x89a491f713afc81ada9e7b3c3d44d073b576494dcfef288e030be9b80d8c890e76f0b0e9619e301812e16a601f47aa87c9e1492a277b86de1852f853111baceb, 100);
  (0x6a2713266d66f8410b0334754a5cb05b188cb76e211d7e0c2b31bb67e0597075b165d71ece4c5bfa15258a5070d90ad7a065ffeb8875585b63aecb60e0c61ae2, 60000);
  (0xf83c8e8c3ef4a3fac793ad93d5ad71a5fa1b6bb5945e4d641685d6d58cf4fc3080c462c4fd91cf9252554b4abf8f11f63293e3d2e60b8e17324512f00d682468, 100);
  (0x4ce4fb56b970d045e19230498a458dadf9736af94ab5cca715484b1fe4c8edc15e56b5e40316820f630e767adf1a656c46afcf123c4e4805c2c88e0e8df66615, 41);
  (0x145ae3776b8462eb289e354581401580b34f3f93518722885baf946766b9f31cd974adcb86091f43ea3307eac27681620595819767edc833a6e02376615df20b, 1001);
  (0xdd6d07c7ca77c3fdacb88a41f1557e4e2b382cec2282c6e2921b549b80d53ec69c6e0289cecc6d665ebe747260f09090099283ba5cca7cd719198eec71894442, 282);
  (0x18704b1d1a43af1811bdd5c990bea0e0bdc2eb316fd65ed5f11896d3d20c77db5bf289264f9d71bdeaa995483d107a6dd61e8d07f5d8dff8b4a1879857f805ec, 3001);
  (0xd5921387da8d3380bd0867eac8c8380c58735e9275dd673f13cb3f8267af13d6bc49f758afbe1356d9adc536d4f92b5ef156e5c531428bd10910d295cc778ede, 1000);
  (0xaf636de12bb6ce76038e89b6734da6545e55da8f127ba637449f6d872b7b64790e8354927b000d0d76231304d82b7f82d0a8e1695b376b411aeeade71dfebe80, 2549);
  (0xbe7992ce5d40dee66f5d2efd0e25020a7f612a94805c6e6075521a393b27ba6bcbcf98396b9cbcafbb13d78f834c7d5563e5eac7cbf2d3a712e1946a3ee28f15, 12998);
  (0xb34db548cb75baecbabd7f7cd7b1f4641f1e5756ca5b1f09cc9f14f438121d5670a991e40e4c0aa25f386b6d8cccfc90671a14b4604f6a56f448e12bf285489e, 3200);
  (0x9c80f1ab28128630682cc4304008a79774d4139b1cb481d37cc7a4fc15c1f69968c04a37af93db0162ebe76372fb8d60e2e70a4ec4ec302080d67688b3f43ce2, 14978);
  (0x6ea7ce4e190ef7a8848db2f3ad52bd9509349cfbf4596ba7e8bb355be9b3770695bcbdfb7606b5b710c14ecc40773f676d83cb4722fc1066c8b544d2192c885e, 11002);
  (0xa9894ec1eab96d46216c7b56deb80e3fa6e6a3d5233d2fb5455aa063be8840210d55c8ffd9bc01b63c112425575bb0fb0d85001157a665116fd0e7aff577465c, 196793);
  (0x5f272240adf3a93bfcc7ccb2a28a1a4ebc146f7d31835590fda7b066bdf8452e8fa1fdfc264548c95d05eaaf7c39a6449b76573a0f0cd478d43fd10d28a7f8bf, 249);
  (0x66f1ce502c9225fcba7bde31e81754d5fbb8cfe49f9db579be520bae765f57873c86adda013761713a7ff43591cabf5a364fe4d1d102e13d006b7b08ec49e49e, 2001);
  (0x38555ae7cbf6d048257c81dbaec2ca095677b8cb69b385b0644da41600e24a2b52825359ffc20b917c26eb2af6fbca03ba2c1ad54d5a55f79405169a07537e4c, 1000);
  (0x1046c1a4edc7517eeecf284a56e0be13199f284c6ff421da951e2431aaa3e66b870a6e533f06c2c6ab0347711016299c575460e0ac23b90d49abf28ee519a750, 150);
  (0x7af8f084f9bed5ae06e3f51a32fca257324c8a1f80abaf2992bd788d63bf302d346d1a3596999bcece8bd6ecc48bdf572e87a279e07666725068bf4b22ed526a, 13050);
  (0xdaecb9a26f171b20317aeff7c44e0f52235f7cbbcdea591754c890796b981eac24317ca43c6d80e3b43665246cdf3ea155b59a983b782baa631b7e1b9df3418a, 15);
  (0xe28957f67b2ceb54520bdec058db7aa82650030cef80c692bfd5b94de3e454faa9968aec0e3a375bea8847d4db5660e0344343427bc4670faadc81fcd9155ca8, 1);
  (0x113b7251ab7aba4dc499657dc549500f68ae0bb85d1c3ac5a1d45ff81b2389ff469288273240be93f13306adcf886dadc42bfd99bbe7548c02829b49685305fd, 2681);
  (0x0b194207573dd6d483132a637d48bc103336794e1a052ea66656fc26bf12639ca3540f8f847f9d2e7cd77c12fe349839fc6d869cecba28e5f040793497383874, 2);
  (0x018a58b9a493ca642054285ff4670db20d4d7eb21f51c1da3e69f3f03366e9efb05d086736ed2a55f0c7ef0030ee0dc87e0b4938c690b0eba7cef13209425bf9, 1);
  (0x0645a6de403da3ed86bafc04a409a7c4daf61fea6eb55518b0458862e8c8c5fb45a0b189f3e12585a481360659f20f81940ac9724698ee36d49c55374478e543, 5);
  (0xfcfe849a46779c349cb56d2a5949b1bf001a4311fa0e78df00f2ad98b0468382c36d74f261365a526babb07e11d809d1b7e513d0fca6d8553cf23005823a8b70, 2);
  (0x6584686f4b33cbaab912435442f73ac171734d7f66568dafa848e6e496231f402b3fd367118fe6822e961c4e8589b2dee7d165dfdc4014c4d9c68217049e0bf2, 530);
  (0x87929c2df46a739209c6eff4dd190b902492c64cd55d69faa229884511facac3435373ebe5f772f4e6822a0dd624bf6f504f3320f0345c93594436fd1d707394, 5);
  (0x5b78fd109efcc58aaa7e48a4e9a07ac6a615b23a15d5560b2ec93642a474de4317fbf1d0bac0ffa784f60bd23576442ac1c87f8d0789def77decb6e9f59c798d, 736);
  (0x33a4d44d51d2ce8572fae15be57c915e8835c460b2b49ded425219c2744803f871e161cdf4ff0f184ac1343dbdcb5433788c96315595a5ea7583c9057488c224, 1);
  (0xe3c85d8dded2a494b3df00b1a64dc1521667568d666cc35630b4f4cdfb922346c59f7bce0f77ae239ac683bcbb451584a827b99bc5816514f013f548fc9392dc, 6);
  (0x59bd91588c7b5e66d115ce5d2a4fd48b9e6399e4df074e2add9de46a438bdb9ebd40250f549efd986ae14b53bdc8f0ef3fad1dee3933c684d3959219e8656091, 5);
  (0x8936623b30754126646f690ac854375a750b10f5c116b39cd6bbf2d0f744787b0c9b806c04660ce06ea87d6db33ca289f2bb88314da784e2ad8bf638a71fba54, 1);
  (0x6d229d9515fb7adc4764a67dff68be8314d99ce5bdbf6b8123d1dae5e6e6d409e6a16d1d202de8807502e2fbcc68299547dfc93fd92edcb0703cdc28e464f863, 9);
  (0x4e3edcda30afd7087d4b4b19140eb23a09f66731dba992bb8481c34375c0927be2bd3a57c9c7199dfe110dd1f422da44bcd9f160e27dc67258bb06c8b1cd894c, 10879);
  (0xbce33ba37f5121471acb0a218e0049b0ca3e57931823754c2167d6dc9e9734cd6052eed1bb2289f8c4b1511c0ccae9d6e297c87ee074e7e39d9ca24683845c34, 1);
  (0x2b9163c4ccaab7de46a5a83980dbebde7a1eec6f161ca959e3e69dd56159b1180b21dbee265c72ae5d1b2e4fecdcc296f164a3b0ea7cc8a7e4775778e56fe477, 1);
  (0x5b33f4a9feced66690fd42fc768b1a3301690bc580711f00c8dfdf10d1570d62ee4cd7a8a3d58dcd9f8e1e9b8f1de5430b1622060f77dcfeee4c70b296674f1e, 1934);
  (0x8c3e3d1d4503f43bf6e624e71bbeb76c871f8c67473f7cd68c62ffbcbb381e35dcdc3809eab706aeee390b67fd9192e7e1f9046f58b9afb00fcaa79f3c6f25fe, 324);
  (0xe2477d19e4fe4e8277e8a36f6dcb2934bf05714d6eb1bc6af5283914187ed97be1209a6c0b88ce941915046ce2c3627748d88b05a4ebd508e7514c8de5373550, 956);
  (0xc8758c068df9893f750680c0d4e683fa73691c1712d6cbb6d7c8664c403550690eb9d42ba87c04cf835eee224260f77cd05242eb56a99be8171d78586274a2b9, 500);
  (0xda0dc3a8f3151b15c4cf8290b518e052b3091176468671b00da06429443e32c3dfcebf444e65e74a3ca057edac2c0c48ae26de461670746e40a6905abe351e64, 4049)].

Definition ipci_stake_holders : list (Z * Z) := ipci_stake_holders_1 ++ ipci_stake_holders_2.

Definition parachain_stake_holders_1 : list (Z * Z) := [
  (0x4c92421bf6e871a49be4f8bddb2493010280dcc87a34a07ef4b09ca2635b2c7b7f2fdfb46b35961445a47d831d36ac2c30c823182a4f3e8f691de928bad30c1b, 2190);
  (0xdaecb9a26f171b20317aeff7c44e0f52235f7cbbcdea591754c890796b981eac24317ca43c6d80e3b43665246cdf3ea155b59a983b782baa631b7e1b9df3418a, 1051);
  (0xe28957f67b2ceb54520bdec058db7aa82650030cef80c692bfd5b94de3e454faa9968aec0e3a375bea8847d4db5660e0344343427bc4670faadc81fcd9155ca8, 1);
  (0x113b7251ab7aba4dc499657dc549500f68ae0bb85d1c3ac5a1d45ff81b2389ff469288273240be93f13306adcf886dadc42bfd99bbe7548c02829b49685305fd, 255);
  (0x6ea7ce4e190ef7a8848db2f3ad52bd9509349cfbf4596ba7e8bb355be9b3770695bcbdfb7606b5b710c14ecc40773f676d83cb4722fc1066c8b544d2192c885e, 10587);
  (0x27e7e0aade2514f8bffee3cd8b17d18c9c1a785be83b1b2ac6a68e5d9c2895d6d6f5a84f323c625a20372064060693c8376c2ebfae9457305de707daae624bab, 2);
  (0x4ce4fb56b970d045e19230498a458dadf9736af94ab5cca715484b1fe4c8edc15e56b5e40316820f630e767adf1a656c46afcf123c4e4805c2c88e0e8df66615, 5);
  (0x0b194207573dd6d483132a637d48bc103336794e1a052ea66656fc26bf12639ca3540f8f847f9d2e7cd77c12fe349839fc6d869cecba28e5f040793497383874, 2);
  (0x18704b1d1a43af1811bdd5c990bea0e0bdc2eb316fd65ed5f11896d3d20c77db5bf289264f9d71bdeaa995483d107a6dd61e8d07f5d8dff8b4a1879857f805ec, 203);
  (0x145ae3776b8462eb289e354581401580b34f3f93518722885baf946766b9f31cd974adcb86091f43ea3307eac27681620595819767edc833a6e02376615df20b, 502);
  (0xef92a940e94cd7b494de2784cdfa2c55c6fd0b7b01e5589c8d7ba303e867e0512ceb5c90c54ac83f983790c0df1336e0f54a461712317c20f23543ba66b6daba, 1037);
  (0x018a58b9a493ca642054285ff4670db20d4d7eb21f51c1da3e69f3f03366e9efb05d086736ed2a55f0c7ef0030ee0dc87e0b4938c690b0eba7cef13209425bf9, 1);
  (0xfc3d0d5e9f3727aab1eb2989fc74953d27a7e45a20dda1c996504e0db7be8e76712a1d934540cc05e36718a0bc611b4d961797445548b39462a85de429a5f366, 1513);
  (0x0645a6de403da3ed86bafc04a409a7c4daf61fea6eb55518b0458862e8c8c5fb45a0b189f3e12585a481360659f20f81940ac9724698ee36d49c55374478e543, 5);
  (0x5f272240adf3a93bfcc7ccb2a28a1a4ebc146f7d31835590fda7b066bdf8452e8fa1fdfc264548c95d05eaaf7c39a6449b76573a0f0cd478d43fd10d28a7f8bf, 1);
  (0xbe7992ce5d40dee66f5d2efd0e25020a7f612a94805c6e6075521a393b27ba6bcbcf98396b9cbcafbb13d78f834c7d5563e5eac7cbf2d3a712e1946a3ee28f15, 8572);
  (0xfcfe849a46779c349cb56d2a5949b1bf001a4311fa0e78df00f2ad98b0468382c36d74f261365a526babb07e11d809d1b7e513d0fca6d8553cf23005823a8b70, 2);
  (0x6584686f4b33cbaab912435442f73ac171734d7f66568dafa848e6e496231f402b3fd367118fe6822e961c4e8589b2dee7d165dfdc4014c4d9c68217049e0bf2, 811);
  (0x87929c2df46a739209c6eff4dd190b902492c64cd55d69faa229884511facac3435373ebe5f772f4e6822a0dd624bf6f504f3320f0345c93594436fd1d707394, 5);
  (0x5b78fd109efcc58aaa7e48a4e9a07ac6a615b23a15d5560b2ec93642a474de4317fbf1d0bac0ffa784f60bd23576442ac1c87f8d0789def77decb6e9f59c798d, 292);
  (0x33a4d44d51d2ce8572fae15be57c915e8835c460b2b49ded425219c2744803f871e161cdf4ff0f184ac1343dbdcb5433788c96315595a5ea7583c9057488c224, 2009);
  (0x66f1ce502c9225fcba7bde31e81754d5fbb8cfe49f9db579be520bae765f57873c86adda013761713a7ff43591cabf5a364fe4d1d102e13d006b7b08ec49e49e, 1001);
  (0xe3c85d8dded2a494b3df00b1a64dc1521667568d666cc35630b4f4cdfb922346c59f7bce0f77ae239ac683bcbb451584a827b99bc5816514f013f548fc9392dc, 6);
  (0x59bd91588c7b5e66d115ce5d2a4fd48b9e6399e4df074e2add9de46a438bdb9ebd40250f549efd986ae14b53bdc8f0ef3fad1dee3933c684d3959219e8656091, 5);
  (0x8936623b30754126646f690ac854375a750b10f5c116b39cd6bbf2d0f744787b0c9b806c04660ce06ea87d6db33ca289f2bb88314da784e2ad8bf638a71fba54, 1);
  (0x6d229d9515fb7adc4764a67dff68be8314d99ce5bdbf6b8123d1dae5e6e6d409e6a16d1d202de8807502e2fbcc68299547dfc93fd92edcb0703cdc28e464f863, 9);
  (0x4e3edcda30afd7087d4b4b19140eb23a09f66731dba992bb8481c34375c0927be2bd3a57c9c7199dfe110dd1f422da44bcd9f160e27dc67258bb06c8b1cd894c, 10879);
  (0xbce33ba37f5121471acb0a218e0049b0ca3e57931823754c2167d6dc9e9734cd6052eed1bb2289f8c4b1511c0ccae9d6e297c87ee074e7e39d9ca24683845c34, 1);
  (0x2b9163c4ccaab7de46a5a83980dbebde7a1eec6f161ca959e3e69dd56159b1180b21dbee265c72ae5d1b2e4fecdcc296f164a3b0ea7cc8a7e4775778e56fe477, 1);
  (0xc8758c068df9893f750680c0d4e683fa73691c1712d6cbb6d7c8664c403550690eb9d42ba87c04cf835eee224260f77cd05242eb56a99be8171d78586274a2b9, 3);
  (0xe9b52b69341e1a5a6828efe51c9dc8fba230000d2793beab4fdc8d484b719fc613f0e4a86523833b86064fac351ae6dd65b8723b14de74285312a706c6ec3c02, 23142);
  (0xfe4af50f61117b626d7f669807724b2cb7894f315e0185b967635f8e60c1ab2600913cb7a3eec9c6a10327fdb505c780929bede9b6734cf6662bafb4b34a1962, 1);
  (0x03773c3d6bc8a74faec0f4e035cfcb037b0d4b3a2970bbe9cc80c90e91a463a02e47b19c92fda2587993644ad199b2b93ff75edc30a12ea2cdb946ab6ffd3c80, 18);
  (0x38555ae7cbf6d048257c81dbaec2ca095677b8cb69b385b0644da41600e24a2b52825359ffc20b917c26eb2af6fbca03ba2c1ad54d5a55f79405169a07537e4c, 2000);
  (0x53fc06c8c909a3ef9931e0c560e2d2bacfa9b832d271dd05c71cba62c8d93fd45b86a27943e2522dd414bdfa527057c5839ff6483e4763b0c28c929be84194ba, 100);
  (0x765817ebf8073771a4c81d85824eb1a94f878b3d270c2674cfd286eb7fb0d6d20025c907faf73ac6ddaf1d080c2d181ef96ee8d8ab219a08155dba3c7f46278e, 4);
  (0x5449ec4c875f3f20fa74da60c31424d644031395a647a92b1d3738556c266df10fb6f34cbe2cb9265f9a57f9f95221dad28206f5094a5c4de6b7e32dfa976e05, 880);
  (0x2fef6fdf773e093e5943595cf584655f0377bb8bfc230706df2704a8bae876be992e4bdf10920fd9916e585121e76c99727bcd34b30603f98f2a8bbed64c9e73, 2);
  (0x9184e91e0dda8bbcd45f139f7e4761159072a6324dffc0fbc3d9c476bf3735998f9d7b79bfa1fb1f1b0412aab2c59f182dbd19484ffa40f517ea2dd503bb5e55, 66);
  (0xaf636de12bb6ce76038e89b6734da6545e55da8f127ba637449f6d872b7b64790e8354927b000d0d76231304d82b7f82d0a8e1695b376b411aeeade71dfebe80, 201);
  (0x6938e8ea4ce432bb695c18100c95659fb5704c16dc71dd70d220f8c0810067a73449aa0c6f1485530f7cf4bf054619e1a4da8daafbed199c691c18e544c1abaa, 94);
  (0xae619ed9b46f5be4af379c48f4acceeafc7236989ed8741820cd3d1a357097db79a06cb1ebd04e471e4c6effafd53dbe325bf0f90e2bf7cf2ca53d213c4ff9ac, 65);
  (0x1289be53f1684f21eaf4eb15b359e445b3806522369d058f606eddaeb6f341ab91003da8c25afdab5a8b4284596e7958a7048dfc0c054667ea72061c11dcb2d2, 16);
  (0xa66a78fded5658da8af3255b4d1a0545a71c1ce2142380eabf41058f757158ac04b4ef9a6dd2cb0e15b879970cd1dfd736298d29a371cbd6321b10c85660c9be, 76);
  (0xf0601114bbeb7fc19c3e3a8fa4bf902bce7202fb37c8c96a182d091fee901ac402b7e9ae9bcbdc78cbd0208c4dd6f80686fb3872a91296d0aa93045c192d8883, 1);
  (0xbab43638247fd95b0066312f5f44e3826151c88adec77d06f56f2896373c82881dfc8d5e4908a21625a7bd3fea5141113498ef122e529f7a1790496e5d317275, 120);
  (0x1877c644dbc567bb147da0c38e746f6e5795fb66d4ce337131a4a66e1f5d323c6cde10bc424565464e56a5a94c5837f537f5a3d5105b24cbaba1c2c2a11faa1c, 15);
  (0x1988463963841d851b8a2f156f7bf8cf1d65f3ad16a43e7455f9573b7a992b95a3fb098e2d7c5aec82754a7ab6e4d0d791f087a94ba24f63063f30b900a2e782, 4);
  (0xacde5f6adefd0e035d5406bbfe156bc96ace19e63e316792a28c8f932e831cf4f7c2af768d4fa3a1e39460c582065cf0d98eaf51a28ce937a60f470e5a59fb39, 96);
  (0x73683a24f8121641cb6da8f9804bae05940ec561d4ef7dedb8d11a315bd86dfa07292cd3d792e01e8ff1bf068a000152c024cf398a2326c6ed1436367b600c3b, 2);
  (0x2737f3ebaa7f0f6c9faa3524b480f75d7c327cd3a848aed5bbcbffabd70fd290689b40d71fc294fde564e02558b4710d349977ea04af743a161b4e20c6ce6348, 56);
  (0xea6915920a67510e5037d016e664ca90067974fc10a9d9207b0a88262e710ad428e2c0ea7d236360335df2d76ab1279c35c451f5decd55ea0af227f711725dfb, 8);
  (0x8cd8f20f8862f3b68a9d6988a11799a08d9cf02102850b89c9863db74d2554d24d0236475ec00888b6554b05f78287d0982e2e269076c7ef97c34a0b7da04782, 4069);
  (0xcf2c41e9d58788287c4a4bbe8a215863e60bc9945d7a2e27c9a4344a0c5223a2744500f2506a0a8354829131a9890f156087a2afe56d82232949ff5201138683, 70);
  (0x9962f709a6b814314bf68cdb4ecfcc4d783d09cbb5210394216dde06e68d7ce23d5f16b9d5ed1f339703a651bf5abbf798560b0782a8ec17577d0edef602888c, 120);
  (0x5b4b754310f1b390830041b725f68d26b1d595ec3aff832955cb6609e9a01b2cb6edb1d14ea2f6f03c7bbdefdc2c806aea1e038ca49cdbe0f3f8de29345bd57d, 160);
  (0xf461f9a34c185cf9d76090264f12a0ab409effcb59c02961bbf35594940a89430c64a811d5ea13a554fbf5c125055e4837ca0d609875d104255251e2ac838ac8, 80);
  (0xf39fabbad1c1612c931ca1b2245ceda6f74b40e2401214b3b9ec72f525be668de37eb02b05131da4cc1a925e566a165dc0efedf8a8aab0fc64e6b7da6af604b2, 45);
  (0xa6ff5f7e2c98b773f5762cd6f48d9a48b6d29c852664310229f73621596412c2db7ec31b85a4be4b405a0b628d45e73060f8cee37219de5741cd755c9b1a77d5, 6);
  (0x71ed0c305dfaabe431c85c7b33fb74b8effd956b088682ca991443110bcc839c6b1f87129549c3c43a16d391e84e21f2c6b240585481fe48f2f61d3e0b2c7213, 1);
  (0x8984b8746a06b6378c924ac6d3f412351418a5b7e9794aca8218c681e653c8f43e8944d130677886774a7ff383dbfc7e80bd6ef06d388817f65b77b5b05e4315, 120);
  (0xb1d5ad3026220a2f569b3f2f778bba6fb3185b90f649c183ac445178a29b7ac391b4ed70fd2fa4e44de09194cd1efa4fa093269ba2307fb877220cc3e5784065, 6);
  (0x5c745b945b246c7b269de1fab38a9a0c31bf6fc334cc36a126dc4a01a0b5515a70fc07dc14986f9710f2115d8de6fbefb9d9a7d7262bb4c6921ed59073b6848f, 40);
  (0x200d334a6cb626cd02efd39e7479331786e8ee70b9cf332966ed886081c20b4e083154cdee16c43e90cb74681e6ca94e2d71477b8836c67d6093b3e10b5a20c9, 1379);
  (0x07ed0b91b20d39b9f20876f92db6a0d5993ae7d5fcd23d5fa3d6d22e3bd58a5a751026babcc9dac4d33e5a6b458cd813d0cb7da01699dbc8f60ed4fd4f6d4f72, 26);
  (0x0cc4ed21767b2a3ddfe6fdad5bccd51d9a4aa0d330e1f556f108176cfba1184a1dc408b06a03053d17a8ccf3f669bcbf1e5bc2e20e087e9780a4072a0725dbb5, 441);
  (0x9e600278162aa931d29f574d5dc613545b27c72c60ab4016099b134fbe1fafd4c1b7c4d37036c8c49faae57bc0e616e3bcd2b27d89821560b337d005371e7722, 21);
  (0x17c617e92cf8b54725f59d4c7410f44d0b7f3eaf47bd34c9d92c9e4bb406e818cd7ea517d802898eec99b1d50cfb9329bc7c5b9356918e18cbdc542a8caaeb4c, 291);
  (0xc4f6ab1c9bae07941941d57bfdf372c32342c17d84d0fbfe990000d6803c5d2531a46d2a7f67b13fc74e058951567275c246f9fd1ddf265306dc48711ab19ab9, 641);
  (0x67326443018b63c365b3872af749cee29c12c973accb4e9cca73232228e542f26da82e2da8bcd5d76c06d498053a70fa83030bca1628e36c6b6ab60e23847d6e, 200);
  (0x9b80cd4aecfa8ac71370a43fb8bd124164c9f18b9d441a6d32b475927d402dacfcee9a3eed5e541e95bdabd83420aa26367be3e47ae94ca24895ba58fdc15f73, 1);
  (0xf2bd3ace215597523784a17fa723b9c92c7be2e70b069d71b9628a8853a9abea48a7cfe41c68d5cc2bcbb0e2108199fc60697910367cb05fd577335993ca91e8, 30);
  (0x1a24e9988cf5f5ce7bd53e65146114e730cf94d5199095aec069e2d97c654dea841714d86b167abf3b63c6dad1da4382d056fc5b6800357bd8ee7e43c638508b, 21);
  (0x85cd4199e77b14980cc4b15eb9f3ee4462507edb3bf4d71d76cd15a7405fa7fc59d2992384c6ff167f6dae5593502635ddd88464045106fe09484a34a97f74a5, 599);
  (0xfa733c6bfde07b0996b87a6727d9ed74612b8d02d4944171cfc0eb34e08604442fa7b94981b40923602bf0e9e13de50fd4ceac89d1d3268f2b12f511ef260469, 1);
  (0x0b0449704f23045b2f6b3aa8f7746eb82155e0c68257d689dff01c94306ec61b1693f067c6680d0a273b1ff33f0394a7f34e2c1b98f2bb0f5441cdffc55033f2, 110);
  (0x49f8314f489cfa33bb4f9ccf90e80c4b9cb9d159bc8178916c3aea35e1009a37f938922bc0b0b88211206daf168b6979ae3cd63d73d5567737284f74c1e9647b, 10);
  (0x5e51c2ec869e8ec54b7f24866d829e2bf2de87085698d7d4396a7073c35e5841038b952271c78bd19ed4810ce6e7a1755e6cce193284177713d344ffef48b794, 2);
  (0xfc83bb4479406e49625f2a05936efb7c84ff48e2b983d1068c5923fad50dc6ed50b3f595750aa88c6f5927022206b9713b4d6f5c1c8d96ff442e21c02663dd7e, 703);
  (0x68430ded8c9b2cbf8b83d1e26b817141a7393f9f82f03aab19743ebb12bbf281810a1ce9da2271ee739b1d242e233dd90edf7c9c14d24c7f15310420db4af787, 359);
  (0xb1dbc50a6259bbc8a661ef7a558a34798c4bb9b1992a1b9a3b169058836da00d637cf4d40560d9e6601df9644497b6714f67b6f5f03034f252c05b427fb6edb2, 47);
  (0x48e819e158fcb023487aa7851429dc4280f13650aacd6a60a61ebefcecb57a66ea43823296691794358de2419abddbfc4db04c5ac47e53482689fe685476b61c, 201);
  (0xb2dc8585c6aaa4693b94f017e9d9ed3346258a034d75d97a91d5babc5c0da83a47afc8cbcc122f8ce11206d67505ff50b2b3180c6c7f91fb8e2eedcc5f0d85e9, 48);
  (0x1e5edcab072a96ab4300293461bb82481dffb744765457916982f194c60d76391d1c212582cb183bbaf11a34961c60b465d40441076fa1f770ab35d20aba485e, 200);
  (0x6ad01db6a8016f2b1e887c5c4b9aa29309b81337fc6830ef8034e48e78afe4420c41e95d43eb9a766989bb046a0bfd99dccd6e26bcb365638ae8d919ad85d6ff, 54);
  (0xbcc7e6ed9a58c8e9bca1f993513a7d1158bb1d51e2cfb7e6860fd46daaf4ce9427f2a3558b5a13f1a23e673f4e2797e541fd89477cf6528c22989c1c47c4ce82, 40);
  (0x340356e84d4c09a74ceb4bb72774b12d573971ef760a91984cebed114496f659d70fde5955695891229701854a8e64e4b73ebf6c7670400368943041ef167c37, 82);
  (0x23f395528d4b3466e083f6ea529fccd6a9165c7a017142de4abf00c53a121884cc3a48eaac556b03e97d5dfaf4b4241acd1d5e8bd2f9a891fa923b53705c10e4, 2);
  (0x7de7498041403dab9077927196d55763943049c4ad4886c72e741b66693755aef7a858cc947884c10f81bea0aaced97fb46f45bc69f8ea786dc98ee2704d9596, 129);
  (0x13c8ce126ee46fba49f3d6ad6e5b368da6460301bd26e0beff0fff2a6f711ed19fc0e54295468029500486b697985700bc1ae28bf2300e0a497f67e7fea65f1d, 37);
  (0x21824eafba9179d1c15ac06486cfa21eae55dd16ff952fed8e6e55bd1fcab2e90b28bc3ec7788fa64f507177110b37508c116c240f9c0037075522185914b616, 361);
  (0xb7867de887ca7b9a732f87fe58bc5c68be6e810604332610ccc2687a6eb00da9782c5336f95a40f5392775b625b1e8c3ea32af130c50a97e11206d9305aef6e0, 141);
  (0xc7d0728a795f1c1b2337e0734d8c16bac3e10c751da8686e29b3426a55a5bee0ca834bf6b6bc76c892658ad3a06205efd6680fb87dfedcd2aae829a82ebf13f0, 163);
  (0x9e791846756bef3d8cd29a67fd31f57a12c5eb2f5be7f8c2946f1cab7ea519755fb67d0c607f709faf7c4865b9fb3c32c679a3011516e050ed394b88bdd88f13, 220);
  (0x0287d8b28dea13e375b847f23ce90240efd65d7ebd604137221b3a39cc2e42eaf96c77194f9881ec78558d0d61b11e1c37456023809103af4fddaf1379ed1148, 20);
  (0xf84b188fdd58c2b717b0e5ed0b75163ed2b1330656d05113ad0e279ca9d83813816f3718770cda35fe0c74e877fcdd98ae794f5f264ba13421d0034be0428d41, 1);
  (0xd1939f2fce818cdeb62a31600c8cb2ab010260e36a5b0189a9293b91b22bd13588010cc1f4473882c9ef36c509d7bf6faea6d597bddc6ff53c8a5d8e29c61ae5, 13);
  (0xac6a6689f15d4be575a59b56a360eb24012e1f46abfed644b0cbb95a7da9e62ae93974d71d6451c295580d8b12c6c3df298bc04f8e957d7b9f9cc46849c03ee8, 50);
  (0x9a3db8697c149bc5613c3d0484261b849e26c94f8239490837497373c0ec1254f1c9fcd9fd199656a83d10287f7b1b6064c3b0c5dd1433255909113236ed55f1, 10);
  (0x1ded97505a419d73f917b5380159050288550c42e474e75278a1ceeb05cdddbec7739eb43943639c533650b7c562518fa1f6db970ce3e23cfed6fdfd080c457f, 3);
  (0x73c58145b6e4329fc8a91fd21b0d4a5342e24b7dffd0e6d8d02134d57ff3cdaa1545b8452d9049bc92e93750a62cbcb7eecf883372392b344428fe858e6d9080, 1);
  (0x07b2216eb79681275a76d244e8ca9fee066f45acdb3e1c91f1a0bc3bcdc7590852e07467fa97cbe6e8913f5f40a138ee1011b4257a391bd0b45b242a5155bc19, 360);
  (0x7c51944c3d854ffeea89fbcbcc220876659cdb62b121cfe4be7eda4be6d9dcaf824465e6180aff7d4053afebc3b279411dd6ce82fab40891dda440daaee29682, 1);
  (0xbf800934225629c7b60ccf3c727fee1da53201a0314eb488d044850ebab76fc5e54d76f13544bb085628f07cf8c8fe57f2adc6991ed6f06fa1645566fa9ca9f7, 8);
  (0xf42f3f3dde61cb819406ed2d2a9bbc58582c22d6df4f6521288a5727d6086dbcb41e62095e6f399ec5c3c9605db35fbd0b2e2116d2843a8533215e02617379fb, 11);
  (0x8d1210810a74c98f214f6ca836e4bbea2bb223c2e5e4f53ee092d53cd988901ce3e5991b7b5d53819eaf05e4c07fcf6f2ec7f24ac710360c5975cc45ef800bb0, 9330);
  (0xb9fef1f3dbb9dc0fa747b3da16f83cc5886740675956178e3f9b26163fc2f987517be5d4b088a426239ad35b31e1430b37cce847b191e57c909f3cd01ed95507, 15);
  (0x41d45ffa33b1897f97bce7c670f030f5683ad907874b50aa5fb53ac0874192e053b12fc3e08fe3c7353ee476b51a58bb3b9e06150e4758fd1e31777bdb46e157, 2381);
  (0x64e8513fb7be863913123c760580f6fe9a91b105bf5bce544b83994227d4ab4a803d34a45bf7725dce322964a4bf598cc393e9b2d98d3199653eed71857bee6e, 26);
  (0xc4244dd10effcdc5fb4e8f4041e87daab4fb162acbe0a891b10db6d5ff7df0581c6ceb806e7f61a24358cc212d1553f48aa992316438a0feac4a9b0763e9e80f, 467);
  (0x7eff5aa465aa9d697af6ee7912e2be2ab6c23bcc8b2a3381ae17a93339fdea256275264e54904cc80fe09d0351e546996efce323767aa6dfcb8b4ce9684793e8, 1);
  (0xb76db9c8a17cc9143b7bc199d7982eeb337606f0661d58677f7ff8889d1016adec8af653ad6b26f8ff5db71871c2fa649302713c88a410b6669e78b875d6c977, 1);
  (0xa16e389195dd2de0fac64f295ec77372019f9a7a296d694d71a7e0ec9a08022b7626548f5d17ce1241b3d5c41730c9d308bf8ba170c8476122895a5e100347f8, 12);
  (0xaefb80fcb978e8005c849e222c057ef49112e11e5197877886a267e9360993f9d1a536116ccd3b97c916bae763c3b4cc7b08031c5cc98e724d751039a579467a, 372);
  (0x56fe2f1d8a5a10ce611b8f25fa937b5931d22ef1bfc5b7d29a16fed4adb9ed705a3a3b13cbd0d6a55462e56e39fa88c1c187964020093c1911aff6aee0d21220, 5);
  (0xfa8666874e01a1356299de0a55e9a06c314560f479fa484630c6d12e2d4186f29efca4b83a48a01af418e787c763c38e7e870b4970c570fc4dc7c7b4e0a21331, 16);
  (0xeed6d5e563f2e74178737b408ac43a2075351574ba141cd5f946530b861a07b6ffbbf53173f4443493bb22e88e3b63f500c20ce8182064f61470f06cffa677cd, 1);
  (0x89e0eb58293d6e7d4754906e7b7f6d1fc768572e6473221f4113d10247deff87e3bf23209519b6553180c36bbd30017be228ff25505ae6425cd2369617cd4e62, 46);
  (0x43b5dfb283cead552b1f6fd12f50338e689c95e90ffeff4808b160ee242fd6d94f476bcde4ae634a40ac853d29fed69d003ada36785027976db1a7bf980fe4cc, 6);
  (0xff30b0e64774be1e410b5bbebc7de0c7a104f16cca252cdea160ec56443b66afa76c42307fe1e86480f2875fa99befbcff1242970225f818d043a5ea38a88cae, 7);
  (0x9a43301ebcb4fcd2ece01f9d4bc1f11fab39d1111252d6de075389587e693cf75da11b6510c19c9029f73daf1a097802a339f7b7e87fbe352d6550b79d254ead, 6);
  (0xae9a4f95e3f442b88ea699448e77301866634f1e62b428fe7251f060103f95063187130a9645f28338c52b38a77e1124dc44e2bae2868d64770417cef1bee9d4, 3);
  (0x7e6a5d1da6344786a4d02a4c786577ab3f7ad23a07ca0927f7f59aa937aa3785cbc961c67ef0b7e93e08b6944b414cfe78af2c606ff581e5ae84f0d45b5f9bef, 1);
  (0x6d14ad4d7e7375930f84be133df0ae15ea5c940a6e15c50a421834c6a85f80a15169bc6329ad2892ee8aabf632bb571922c83083eb065362d1c103d0dbbe7f50, 1);
  (0x9522a0c3a44eec77572eb0ba240bfe0c4c1fd60ce1560ff46313855a139e8f61deec35be1b2ea007feedce5fc767fa4f8b5859fb051441db34c244976b5fc124, 1);
  (0xb2043d0919bf87b5b61a408dfb095c397c14529f07ac40752e1be95122150f105d4766ebf160045d532ce918627e0b0ae8ee53f4c1dfb9f3e2a3f18000aa9c76, 1);
  (0x4e45b60303dc05c118fd6c602fb81367d5b8eb5680b9da90865da62d583dfde0f9484f6dc477aae804b4b8e95c4de653213dbaf15e89fc9a344fa47a07fb3d4a, 212);
  (0x04429965c114dd681973ecb2590de499a1c991cee7d6bd99fb7e0e5bed3060410a337d61bf2b1a4c0d89e63d3fb0f667da65069a2246e784d3b79ea9383f00e2, 10);
  (0x428a8b24943c78880e10dacdb6ecd8bcc91945a13ded04ca24cdb0e62f8c6907f3867328c4e921d8a69a582d148e4f537a9d2fee138871fc01ba5a8093829148, 7);
  (0xf3d6be4e348022ed2ead0e2229a9d465963ee6feff3a1b41c3eafd57e9f37187ec1c899bd5ce578079fc9900feff940214442a0ef53138eb019ce14f878425d9, 223);
  (0x69d0901468bad64fe71cf6a80d72f9ba6b607f29b5deb8b5cab2abaa25a3e60cae706f41af4aa67b264c59f51c364a92f5963bd62a7b74ece425ac959d1d7a0f, 102);
  (0xea64ceaf660edda8697fa144c3e40d00f9de5df1a1e5d6473fbefd321119df2ac709c545bf2e790c3b90435d9dbfbfb3de13336d231c20757670952d7b7fd453, 2);
  (0x5bee0086c38481fad91539d2fdea388210ec8e0ba4668c299c68cdf5f10d0f9b7a555c128bfd22ec63ffda22aaf80ff9b0bf7f8981258c5f6c498708a9acc99a, 7);
  (0xe857d29c5693952479f1b97b9cc783d941476eb41e5f3a0c7f6f01f5440e451f5dbf6531f1a5e384052660bc2823adda2a532878916c8c97bc394e7f4f7ff90b, 113);
  (0xbccbcdd4029620f5daf46aa93870bd3bc9114df59b8c936cf2f390fad0ad5921fce9a540e6113a65381ac524d354443579c250b749a6b951672b43491810a9ed, 1);
  (0x8d7dd193d407c3ed5cf1d28fdc43c1d8df5ed2a494beff9f74741f351cbfd5ebb462774c35a036287d6f78c603f3e41adc6c867a751b85dfe78dbee33269981e, 320);
  (0x619dd55a5bf6b64799fd0c30d793ca2ad3c37de119067a4f5ab5e5c98a8e70a9b64349ae985d04a16b50eae40f9ce1d30179e339c4d9856ffd5da204549279d1, 36);
  (0x808f26af43fbca49f0090ce554edd1b17098dc9bfe4575c2c5665b507748749130ef6bc29afada1bdffacc59dabe132fbfc14398ec2baf0b085c96a1d7c3ebbe, 254);
  (0x7bc36b6f49c91c1d5a1288d5fcca59ff67caf76294bed877c5eb2c1233986f1f832bf8da32279fc7b0187d2d038aa4e40bad4a3f10b2c1cf5424b1e0c7ccccc4, 2);
  (0x762f07968a5131256be9c724cc2f12648ec8dbed1b96e0287fbe740b85ba9b2a3b7da65179ca1e92886e04fa0d6e86887494ceb941f3131f0e164783e8f9deff, 1);
  (0x3cfb8c160d30f39e500f08384d6bb91e929c7f2518a3573f20bfa6521eb222027cf1703fdec48ff3359e7adb66fd2574d897c0e33ce6429b178bc0ccce7824d2, 1);
  (0x0017bcccac8d2c3957ad33539743d1fcbabef8a3945bc83d79c17accca0bc51a0170cabe6d7cb94d38d4bfab569798b5304b0eadfd2fe01bb91610fc7939d7cb, 40);
  (0x6c2e0f1088a1c6cb6c9589295d5ac70690c9f9b6b4885580a9729e3ba0bcd65987cd08c0728700ab33049244d048f1786138dcbcc24295bc6ca5c4df49e58ed1, 10);
  (0xebe1046d2de22f83d413dc01e926a00e1664669d594628f88212897b3cd18c83192eeb85000384b1d413846cffdd748a441e289b5dacb81849209d0686c12f22, 24);
  (0x8c65ce84eb99615b55b5b16eb5b1d6fb27909f1f74f230fc8274848626220255d15dd7a9b353be4781222eba3b4d43b215d9a2dea3a67d49c6b23646a7f65767, 77)].

Definition parachain_stake_holders_2 : list (Z * Z) := [
  (0x706c9c0ff2595cb2d1f2e677acbf68480428725c8adf78c9fe8f652a18097720dd085b6a9b17bbfa8604f54834dafe43cbbfbd5493268d3f66e342677584d8ca, 5);
  (0xa25b7cf45981ec4f181814815953787ccc20960b2bc286daf294b3b30e5aeeefc3aabe7a4af2e6d83f660bf6dc8af909671ab32e29b99d0eed9291c7e700a8b6, 88);
  (0xaf967348237453e66284f9c4fe6f7a56a1fb7d5ce02dd0aca37b25646837cbe8377cca889f1a76756a18f47ee2cfd1616cab325ee122c551d3ad04512e68471d, 9);
  (0x5b9524dd98bc986d066c3dd3aad3c6eaba34d02d36a50cad3f651d2af9abd844bf835ebb872f24ff204ced0480b286caaba0948e66d465eda7d557d3241718a0, 2);
  (0x8af234bde5e909feab30755f4f4fa8d9d6680678efa8ae99b9a36355f66ab7ceba87532fd78400f72989ad81de9c1820d85f722b7ecdc7bbcad44f989fa1b5d5, 23);
  (0x3ed709fb6ae369cb98cdb20a8fd0640345bc5a75101bccc0991a33c4df24282fe9843be2712abb5f594c39e5ced7a3cb37436a2cf897721f16ce7782d0c58f76, 101);
  (0xe2ddefdd6a0cddbbd0690163e8ea7a2689f4de8ded0aea6c9e6f0e5b2b3b17cbf31c82a5f99fa852f9c6522edf488449508023a413ee03aa6ab6db8a028aa983, 1);
  (0x8e20f29b4fbc7ef2fb8e349380780cfecceb5539acd958004d368e4361dcf2e5c6e3548bbe50639be6a07d27a8756b903da1a6e8a21d148f29c113d2b7585d70, 174);
  (0x3c8342ba88a9962e453eadccd777ab91f420870ee506eeb5e855cdd3289e8743b050b030953f209870343966267a95e161ce58f639149db96dafeac3acf76f9b, 1);
  (0x84c88016df8f3bce8842ba731183f8e949480c7e411a5585cb5a60e3948e36d1a08e4d119a85fb4ec6d08b140a7da61a3b2858bbc0a1e8a64c80d79cc6d66ef0, 104);
  (0xfeeb464cb84788c6a4b9258f10192ea74ba3c8fbaa83cfd4b73876d36f5685c1ba0b76dcacc40541fb23d453990f92c3cc8662481f72c2b0ae3359d79f300e2f, 2);
  (0x811e47c3f9dd03cec244f67a0d45d4b41981fff97c16ad97b67e867b82e69ea5b598bff986cf12b6a0c6e66a3e481e5ff2557eaf622d03e0885510004cebac0f, 1);
  (0xf8c4b5ea34f1a2ac7e240e51387a256878e93be18e48fde388897a0aecdcdf6d65c191cb2b07b386649575840815bfe3daa3f883cfc06f432dec975cb1e94408, 107);
  (0xa1844e590e786ea37faff4dd45f88cb421067be9cae80537c407ef40f6f782039acddd26b5257be8ac7766e292e668008d75c6ec89d18ad5718704641fc7dccf, 25);
  (0xab9cfe8a33ad0ed1162ce36875b08a53ea446cf60e051f300e07fb9ee6261b22824cbd5dc8e858249bb63897fa458bfcd57aeccad7508513af0d5882a9667ceb, 40);
  (0xf10bc4c41e2d93ed0fe069a09aea1e1afac4bc1ddaf0e00371aeba82412ae1941b5a896066690059b70fa07c5a9f4aceeb9eab28c96cf13229dae0ac04bcacce, 6);
  (0xeda7f01c2ec768aee3bc01a0115dcd9ced414fba0a9eda86455b6f71664ce9e4ba9d5f03bd193ac03df507fe2ac8998cc314161859d41c65db76f5feb2008943, 2);
  (0x6c94d94d1e5b5b955f926764d520f6d1b85e490476d2336df1d37c5ff5c1710b8df913b19a381f350f3eb9d6fea2fe199f6e111148bbcac1b632bde577293fec, 1387);
  (0xb6738c9d5421609b6417669705c758381c5a17c51d8eb42536b84677f5447a3f518b71acd7e2f24a176bc95693e073f9bf2b88c02f1b323bb1996becad148612, 150);
  (0xfbc1814417b4a0e0551022caca6decb5acf8e091be532f370c8dc6ad23a145f3b99d1f02adb762e62996e32f01d8c911ae130d1dd7d2031012d8f7e838c64406, 273);
  (0x5d86cee36ba23f14e68a21fac62bf8dc6fbc8fcded927d20251f806dd754a19d968ec45175ffe607fa095f55256133deff81b5d49c93c6cf9504c45fb9114eab, 2);
  (0x09193e8e1158ee917994d9b0d88e2f7b34110fab73b0417e87695ce3922a8f95a8a55079767ecd84d9ce09cb2afc5d5914d30f1064d9a416f54895ec6ff0e746, 30);
  (0x4bf11744191216039a12722456edfa2386c61a5aa63c6e10b3980cf71b305fcdf821ce3717a139825e3cf5b452dcfb174d88f3091c181e437d19304039f8e6f5, 18);
  (0xbf7bff2970989a50bcf9be4c046088f06df1d9f8774c13c98c9f9842c2e3f7dd3578d5e8ace2a5b312dfb12f5d096a6f85f06d05144e1282914ff938e51d1b8f, 91);
  (0xf306617d7b18fe3306171909d61332302e660cc873fe8097dea94c136ecd1744d843ee1d935c6abe944caaff943fead9245471cadad7b967e7d7e0091a1efa62, 93);
  (0xaf7883894f983bcb1aaedd01591c1b7b29584503903c6181e2896915590464a171c5255cbfffc064d92c96922f06bd2c4a8cb4dc67f5b29d839bcfeb95b7df6a, 116);
  (0xe8e5ae900d6ad2d46e8210d919a2133f1b80b7ae78f0ba21ead64f9f366d9ce1c43552a934e52b4e9f18d253ddd8b0cbf3acd503f7c8c897635a867de58f18e8, 7);
  (0x5b0e690e4b52f12271466518f7a4f2b38edb5c5efaf39cf5ab06826791d4ac10af39096b89af11c27330aa329ee37c8c09f7cc19aca9947419bcd0ce093a8dcc, 69);
  (0x04a1cebdeab1d514ee8e7eb1b25cf7b0b246086cee4a8ab0cebe0efbdf403ba7a60322fd607ab047d17b5bf97549b7187becb2eca8414e28747a7336a659b5f7, 472);
  (0xf38c4a4f9de91365cffd40d0b76f36acb54ba23940639ab9e63eaac28c5026d39f9b2bc9fa48fd3210510540c1595e7c413f41e5397195c950cac4c7536e5fdc, 87);
  (0x431dce7caf49eb01f0dbed2160cb068a43e4714ede2bc9cb583c7d48d6d57f43f3290bd18de41be048b9f82b42dc77b0c6ae9fab7c84efc11183515160e7dfd5, 85);
  (0xfd2f43395d1f9fd289fc8aedc9772c8a08e702a640e2daa47510284b83f700b6ef74cf3f9aba10e2bc23f6cb909e7c3416881d3531df0208a3cced0ac344ad7b, 2);
  (0x813edc4a0ad717245e8d1fb8133e7b124b727a11b2a567d1eb0e9e886c375767a90962424ada6f649fb649d7c5ecbb06d9a08b01ba6c2cc0af1c4892dbfd6d1f, 182);
  (0x8c32ae68a41724623cbe2c3fb0389efcee13cc60650c59d39c6ae071bbc5d44d798acffa35854b1d0a6475522125504a1acb9fa3fb916555dcd5fda76fecaefc, 5);
  (0x5aff1d65cebf8db842c72df75973d84e138ac9d8b2d863c1991776eb33f3cc62b904083fae4830c51b61a11716537f90f5c07dd086cb4a88ea6a02c8370ac9db, 64);
  (0x9db283f898a16957811e590e027f0dfa4e604ce8d6d519557aea20307ece1931be17727bd30a9e1a93420e9d535cb56e54213c8f32a56f794b7e33fbf9447472, 6);
  (0xf7b380c7210685a886291891bb4efbf0246bb5e0c7218182795a0929d72beceb7e311badd2c839cd373283cd0bd265e202cd6aef9d30e598b6ebfe5fd5c86e09, 294);
  (0xda61aa2e960f3e844344c216a7663531cfb4a488f665362912fbb127009dec7695ad6e864d8049f9267b3ab23708f23e795652132656ae6290aff27dde4c69ad, 163);
  (0x1bc184824a2e0bb0945bf7ea8bdb5005e9464f9daac576fd21c3a30ebd6eeff25c9166ffb44bc7bab89d9f960f4b8cd4cfcf52ff06398b00626f02a6a4eb6665, 1);
  (0x5e69d2e84d30957aea8301c658a00703aa1e4b9b6630021f13834f508ca1c1d841600535596cc7acfe15c5c0602dc2119835b76f5e1d771470d96548b9c10b4e, 109);
  (0x530c6e981f2a62849acd5c9cd58c79b1ffbbe24f2ea628b431ff8820341815c9a0c299ca956aaafc6df775eceb26adb1992d387efdca779072b06ab06d289708, 5);
  (0xc74c64307aebe87ac15b255843b0522f255a4365dfd5e4c14d16ae5fe488510cf13a83654e4ebe9e262c64402060ed06e46ac4e405455fd0f9f8ba5dd5dfbc4a, 31);
  (0x5a01bd724cfdbd3ca7924a8d4de2c0eab3bc1c72c2747107e5b41d5f42ad4d5a4223840da570f6790ae37cba1d26307c5962a63fd42111894de385dba469f190, 391);
  (0x884baf1690153212859b3d751854777b6c863d265d014b911703e60fcd37c4d18562d700e9ae63042dc1edf6152fad3e82a153bd1bb06aa2cdfc6706d67ae516, 51);
  (0xba1bd9a97e7020bfa3a60d4eeaef2b7cefc063be750d8f65b7ccd9e9bc917f09acc24978e01466f3be2a1a1fbdba453dab60fd4aafdbc6a36526d3567cd8eb64, 110);
  (0x5cf6760f2fbdd6294dbc9dd336ef553477c12369ae2df0abd97416e1a16d3d48d406d9ee56072950e2d631bc6277294a855969e30d8a8d3cb5506d4d0b0ed3f3, 486);
  (0x4a17d33f82874962895e87338bf0348111b170483002db6a415095ae50574d6fed0d5e823cbe92fab0e421b96d8cba96afdb1b8728cebf5d0163f9941afd0622, 1);
  (0x39f6e866d00f4a97f4f2d87359d903323cc46dc6eff1dc0be645b619602808b9dab52573c02a7e8a80601495d58b600aeae396ef4ca951aed494219f8b7b5fa1, 1);
  (0x64e2a869d0502f7459ac8885883b32ef446230884a241aad46dde695c42b435c23bab5443d7e5e6bc457d87d54d3e9ae82ce9228dd7ec06754335df9d759b14a, 81);
  (0xf75983b08fcb34a08bd107d613d59d8579f227ce82bf7d3c3de379f7eee0b397314b6f0d671cb0d23198bcb0a5c8aaf00aab4f9565c317e37869e5bde8f4d358, 201);
  (0xdf3bf16f744079bd6c3f7b2c0e8491514da824b762a9ebdcae09c82cebbbecdb673eeee083e43f67b068403cfba68b0d068715caedd24a3c2b0db48621e4aa3a, 90);
  (0x9b886f2452842d7716ce857eb87745fb1b6996b8d3fc100ca00eb5ccfd12eaa5c43ff874e291290b6db40b38dd031ffbc79241e71e27ae436bbc09364cb4e182, 197);
  (0x2522c8e9e8a025ef419d9079d16f380cc1e623f9375c5b0e55fa11827ac02fcf33ad0b5ba8182fa1bb8783c17fd55699f6e99c1d612706702060938a138e8af7, 19);
  (0x49b5220be78369585b898497796593e33f3067863341782e183fc33f27b8a698da1608d5792555e61a3fdc23c7b7d1032709e627728858463211fe03f2990165, 119);
  (0x80032e6337ada28b251e0b0581b0d321bc329b3bd8dac92d350039bede4a7cc54bc13d76c46967ca7d4f6db44ca6602614cb22b5100c8673f45631e8fb1e327b, 22);
  (0x323a0d24b7ed72aac2d78ec93d4fb98f5e15b906b2f405a8be381c5cbb46bd8f75dda2eb72b235e64ac0898ae97f1bb5e8b0327538592a6327cd3a540a7b021f, 900);
  (0x92b4e380012a2aefc5eaf3a4daad8cfad28f151459a23e2d960b207239168152928f3472b6e0689eb0f487c86ad7602e298408c82e82dd1e3dcd326b4e542928, 174);
  (0x6746c88a9151a15e89da8d86a74b830abb5fce2efb9480af9558d416c368844b512f0e4208c56bab6042f67882b7ab17f1cf08d1a3352ded077bd4d9c23fafa2, 54);
  (0x02b800ab75ec2b42e8a59e139c1f38a285f07e93df9ef906e07dd8cf008f30579236b5b9fe2302cec506599ecb8d8c237b2ede63e32c658b5ef2504ef4587738, 1);
  (0xf6cd468f26318102ed5b3c68c7131493baf6e79ad1a4b926c641d5eae1196904f6a7049a13fc43ea3f1cd45332091fff1c65bf3d1dca841ebb67abd913e178df, 172);
  (0x364149404d724f05261bef3cae2345bcda0ac6986cdd2f5daa54af88d384790e74217a6c75fd8ba9c14c30991893cf96162bcba03654321a34c058b4c70c6c52, 304);
  (0x64eda393efeab517c4683b5a1bd799d2221442531943951893907a7d3d7a955aa4896c4e950115792076be35b34b3a90a2cde81f6a5110903f089d1a2cb798df, 1);
  (0x77944e15dd26fcb8a205075a73eddffe9ef5cf8ef24341e836169720f2a729ccd006e47a564000ee5ebfe4c479854841bdd1e054795669dd00b69fdb8a4598f2, 148);
  (0x99b6e9a0cbae1898156ea613f6269f5aaa846e5f0636155e8c78d03f03b22a6c1b9a4abbda58190c18a38feb501e8e62c434768b6e0a1bc1ad68a8580ab16d94, 5);
  (0xf7807fe7158f7fdb6fab22181eb3b4bd6173fce48506bb6a4ef9cb61cbd2b96daae1416be456b9572f9c7c30895409b2b93f84c15919c394cc9f97d261554781, 10);
  (0xfc08314a2e8f3e9f9716d76dec66db33dd86472da1303043435c4a5296b5cdec224825209002f5574655237a49987caaabaf807fa921e9880bcf6d184b318fb3, 189);
  (0xb88ee2a2093781fa28d024ec0af842c8a943187bd35f1a531db899020f0409e505f769ba746ad1270788d5bc1d1af32d4ba01956732b8d9cc7ea4a0456316e18, 951);
  (0x5060d318c65d5643a0d8101a7225e225db225981ff5e608f0a619fdb40370d29ae4356415dbe38205d2408e739c020e4bc44bf85107f6a3057713edbe9129b41, 1);
  (0x333e07e55a149a70be0c23c8aebcfb51b1e5340e381cf7a266bd360f72d3280c953bac5a38fa7d3472394c92d175707611ecdf879e1b817b69899d2b190e9139, 57);
  (0xf7bbe9baa2fa5327ef7401bdeb4734144667e20e6d208acd6500f7b2fa175798e29306768c597448a37ec71982e5b11733bf3c2cd7f48944fc3fd8543f479dde, 24);
  (0x69fefb885823808583d854047c2081db0f49e59442f414c7390d8941ec210526822b507785c7ac8657d34641980e44b13a443306b50b37b679ef3bf94dc21202, 70);
  (0xec21a308426559598127a32fb81bf18364f3fb87e92fda1e9e003087667c729428311c236c4181a4cb0b47b8b69de4a6f4331f7b301844f759d7940d2b92a221, 17);
  (0x035df5b68c8cb9f5df26b33162c2d616cc34d2dc0a380a775d901c2c3d86ee2c1181f016328ee628b0bcfe3c50c2b5576601ad3e0f91cfe8bc50e5de3e4d4d55, 6);
  (0x95847fbdc9bbd1b510abcfe5e0e4ada2fa0607a9db3b0a9226fc220947b5b0ee43e2ef524fa8885fcb260e42918dcbc211490a5499fb825ddc67159633a41c3b, 313);
  (0x16ed156776dbd1ebebc9233a02d0406ca0f02ae8b4e9d639ddf4bcfb9e1b4986ecd05008c27bd696a387b3b9a96dca62fab5e1d25e25a4f18b0b0a70e49dd8b9, 55);
  (0xeeaa0c5385d4451c6dca5f23576580b249fe9756c06c331842f1531f3deae31ec216c1ed819906edf1abd41ac34d6d2ba8de7512b40ab9fd88ea8a65ac83977b, 1);
  (0xb2eee6872535a6dfd42cccb3d37a7883cf03cc69d920adb78c74dfdea74daa9dc0e74e5fbef1f1bb1c268fdef54f95c1b2b3c0063d4b8d20a76232a140e03d65, 86);
  (0xb6d114c6c4a4e65a3e89c8b44f4aa20212b3dcb5cbd48dca407476d5129272ff22c03ad52b7afdc5debafe81953c130d4a2c94aa06e35f67c171f244ddf83774, 4);
  (0x1b2ac5a230d29c0dc744439f7a2cdaf9a89953654678e6357f675dc5dd648b76825b708941af5379ca5a00c8abcdca258881534c47f23ec4905ea8be29d110ba, 65);
  (0x75ef7fb82c72af519cfbf8b091eef7b38d9f38368b9f0a23311b4cfee0515fcfee0098bf47e216d9a66a1791987846b82cf92ba095e3241ceb748193c7289348, 209);
  (0xc2221868290a9ed8a3726364d90d6252096c2793babe5c46aaea5e486687416926a4fb735c3dd681063ce5e2394816bf3d43cf26725773e11aeee8abb88fe6c4, 209);
  (0x4621ea12a23dc76e092b4108c889c12d07e3b407486d8f41f6909d84e6624e18c2e51383b09d8a72ce3a174097ad939f0c590db5e8efc4b2cb0afd1329b0bd44, 187);
  (0x121504000f56fde22fb7d4ac5d3e87b58e7ca116372b7db81c67e317ecb400aa1e001d386f47eb74fe2719b03a0fd51a6aba1deafa7e35e7b475c628f11aae61, 12);
  (0x3363de84dfcd6f83e7914fe43f620df9b74a19ea54bf8f868227026a40fef970e9a01b209b3675d20d21efb943a235f2b6ae33af4ccbc80ee39ff7b458ee1e51, 125);
  (0x90d2832cf6ad5bc490f1348807925a85c2fcf97978b15004462d4893ffb3951008ed934d20a69f5e44126120f9c9f31e4ef1cca112fd2f1d44e38a60f0e275fc, 791);
  (0xab51b776c7d3616457784d50cf949cdfcef804a11d644aaedc0ef3d544bbce303160c99fd37600a64639629267cf2bf392f167aec51cd8103b5a758582abb9f7, 1);
  (0xbec805c1628bf784f6d991a8887d722c4c1b46bf412f53244e6f59d85d41ecd013f00f55b9c50afe2bfb11a1ce5dc25df34d055452c1adc1e7de166a37a1ae78, 21);
  (0x6f9435c2964859b4da775a3fad20e730f37f54207374266e2f1b98d5ce3dec979f9a637eb574ae9f7402f95f74088ba625cf501761139b6632d5c6b69d0bd480, 20);
  (0x5eaa2b1eab160c96e237bdba482e39395034f0cd03d45b6db49a15fa23b97159fb2ccd100a56174bc07c0cd7f5bbff91d9a3f463507d57fc0233a488cf952769, 72);
  (0xd22f40bcf6068a44ac6d1e6194fb3cbed5a524636d6e4cffb9560bef6d1e981494b95384d72283b0ca959ff135e2c67ffbba2b32aa5df50d66b0ba444bde450e, 2);
  (0x5643e23d28a71bcccaf01de781ee0e331609733251ed8f712c1e82065ff0bf47ce05632b95aec94a7b8634aa1dad1cadff4fcb747fd8acdf20226b8ad04d0023, 76);
  (0xb50c7f867e1352b2167e3fc3954893bd9216b65ff12fa839bd94a7f23c389e6feeb149e45932f5a7b42376202cf6caa79ca3d39516658aea35def70f8bcb39b5, 3);
  (0x33fb9659681001c73891cdf4d286009d3373eff1b86a7b4ab28702e7128cdfa5868c81606a0ae1117f89f7f7972100cd82aa907e06adc8ac59c8bf423ed5eb19, 46);
  (0xfcb9d8914df835c60d19cf72654f999607513bec5f691fc316abf9bb1fbf4aa75a97e3d31f7d1edd60ae74f530c239c9e45038cf7cfebac5a64f5a5fd07a5b17, 33);
  (0x00796f2ef6a962eb0d80513c63f8f41b9e38aed6edd6158b03d4e9051efdc14ff212769b632cb7242f341774848055b1ab9e328abea868d52f44f3355244fcf2, 13);
  (0xd6b390883f024784ed0c1c39dfe5097a6e2f883de4fafc1c0aa78ca678bed040f46eb273375e50201bcd1d21a09ae59f1c5f9586c70ba5683969877f8e97c083, 4);
  (0x3abbd00001fb33dc3b007578db5ef941303ebd35e96809781a89c4a36c43e181394aecbed5911f505ce06e07b031cb6aa917b39ca2bd3258635cea0ad6f9fe18, 59);
  (0x23f4ae60d056e643a58d23fa310fa72ab924f98caa9b415b2a2ea8646888d9249bd404e10a272bd922f3c9c8d7f3375f6ef6bbf446066dc06ff6669ab38577ca, 18);
  (0xf06a0a19412bd6598a4a0475a0b252697e0696956ad1adaa9adadc136132263e9cdb922375e99a66d0752223c43ed8b907af40f50c3fd2ec0dddc484231515f3, 15);
  (0xe9cbe0c017050388b5589b7ce669aa56e4b837bd549c279b85c684ca46b87739c7c449630b4afb04bfe9c33f92949ac3831802a959322b9a85a536d082743420, 31);
  (0xe276d61e05b58eafc135345f197c123c734d95ae0c29d59e073c30617a8f57ae00f0ab6b58a1a837dc8a96b21f3d5d3311e5d8018e4d21211c8d69bdad6a41ef, 126);
  (0x1c59b72595c67a37fddde2e30ada21b299173714ac9e1ea8273ae09a43c76b58d6ab41906048ff6804881a10516ca99df65e94e849de99e5590ad47a3303b51f, 29);
  (0xe2d30054dfeca922b8be44b4d36d23d1b47f0bff5d10633078586b76396f7b36e98298d07f5e41909499729e90286c70bdad8ea913b37475895fc511a853ecf1, 10);
  (0x16166c296805ad3e6870fbf8f940478fa385867659cd60be72fe5d6add2af76243be72c1debbbb8bf26d3be6d0b8ae8597fe757d23d6eca3b469f8d2e51c4075, 63);
  (0x3e8168f9224c31db0e1f1c1c91942d83b0685441e5e6a0a4deb9b18e3dc5b613d90478b32b5f7a6237d577325d62e93df652aa113ead73369c7a8fc8d9f7a86a, 12);
  (0x6ebbefd8e413f5b527caa238ddb09da04c6b3d04532142f34a3311d4fc38e792223570a6fd2df65ab7ca3fa6d37eb715ca21c2afabe1ac2af45d33756e5954c7, 152);
  (0xf9d8cf4b00c93b159ab12225959bd2dc77e095fbc71851745831dc0db466120c853ed8c41296b4a6cbb8bd7056110ce8805ebc01f191526adb1a50dde48707b7, 7);
  (0xfdabb476d1aa9243cb9ce4bc6b40cd8cc5394c26f636f1f861d2cb2fddc83fae8cba84abd7ae1be521aca71231d9cbb94f978b07fa4ca1c8ebe572ad41588d53, 30);
  (0x487913117c7a90ca5a369efac2a11c89689cdb68e8f60cc4f77a8c0777e3522f1387559785726e34af33e403ff523c0a0a818761a80d7eba3a890cb803226476, 128);
  (0xff6fb61d3d2dbae7a0da0460fcff100c85fa13e1a8368218627e376c7626787ef10dda1600ea83c2a051f1fb8896b55f291be086ccef4c16af1992b224237e7a, 87);
  (0xc46581db09f6900b13dc7c4472adf1aabfcead0b36be190e15fdd6d23df4136a36b0cb49e4f89218b8066086037b5c359122a17a27653ba52a4ad57da5053790, 30);
  (0x2cbabb23740629941ae48885ef06725944d6e9f9934ec8e4d75b89feb92feb8da5de481a131d5a57f8263fc6971a9c06d4382e0a85bf01e7bf2da54e8154fb35, 160);
  (0xed7a913d7831d4168818b2058015d051021e7771aeb73af287e5179c3ef16c89d5e401d294d26025e1186daa12156df55d4eb174cdb5f2fef02052023dd17fb2, 66);
  (0xc01c5d8e37a97e4b037f9b023f1383c5c001c7f0411f7bc906c966023ee82a7cf06441e0ca72bbf8310d534bddf612c48309195b102cc3667131b95a8d24f543, 12);
  (0xa87a0a597008f070663034e5bd15ec0b8ceadbf16374c52bd0cb96f9cd97b5dfab956a15af168b2c9a6fa77be47b246d60fab67c6fd1ef4a6ad911f8bd6ea315, 7);
  (0xf0e4297b6192bd671022f96e0b602a3d06e9754ea79ed4b916327062118fdb26e9fc33148a72f612c139d2d0a77a08904692500d852df1e60c5f8f5c4dc6665a, 28);
  (0x7fb9ed14b4d90ac3e2b2986f95cd9a5f01ca2fd12a094f93308e846cc279704db5521f9c8a5842a05642f2615edf4520d9587dfddf837deffa6a597efe7c9aa8, 81);
  (0xb29f3b1596ae554a9abc31875acab691b19c622df936074040a10e5a1ebe5c26e04bd39a51fcb63dbda1d11c981cda1198f0549c6ccb25a3a026747178fbbcd2, 267);
  (0x805e0eb289e44cd4417285456b13ad4a096df241039d5de904ecdab19aa54dd60067a89d232301c8bc4306875022c4ce4be7aaf7fb4e1a344bc55b3a0b9f0409, 20);
  (0x8da26ba2d2cdb29983897eb490a1116488583eb0c1a252a85cac00732718fa2ec648598706d955098b4835bcb619d5e7f8801f6486352e8e924b8dea02673cbf, 64);
  (0x1891c84239bbbebb83f758a4ec0ae6124de1251900a591772a0934805a367120466cda9d42a0f6a7ecd365c72eb72e1052b9d33bd878ce16fcec28e86e69927d, 7);
  (0xd515eda218237f5e41fcdfbcafb2c86b543f753aa15c38603bef1ffb2a23c4e28889e42b5449c0af99f642b1331932c190b14c992eaa4da61bbecc4ee35f157c, 32);
  (0x409712bad3e90b49b7d2df66cc216feea93b3e7eec3166b195750840b0068f149364bec3b444b4e30509b7eed31b2d4f4b388e2b17e41bda5a550f79e368113b, 131);
  (0x2a9678f96d7b36ef663fa8afa5ab2bd0a7dea2dcc752a07056415755fe0e0fefb92349bf27e7f09124148287a3e59a2768cb088fe76490214b0bf7c00144ed25, 191);
  (0x520e8dcde4c0fea051957265dd0f98f3fd4add0277f4bbd5e71e085d49766d3e1daa9011483049fad1910a76bf39c7feafc54b4e69f9f556612ac5c37c83d2da, 10);
  (0x97dc08ff78b710bc7963e2f6b9f72bf6e79e50071dbb69878b1aaef199b391cd00cb9f00a39595c138d11e63fdae0ea89409a696f70ff0cd05f67af6fa23c0ad, 78);
  (0xda07969306a1143ca85050bdea0977c6eef52ff5ee9ca841684d505c1bef76e0c1e22bcf3e2e6cd72e74a2ca0ad44b941aaa2b1e30d2910164f9504bbf67f011, 500);
  (0xc4b3153fae4b89041e448cc9c4c0e4d7a6e0249c4e33c4e23298662b02dc0d7965f2034bb17049e7522bd216d20a1b7fa1b7cafede488c7acbfc3d715b7bd13b, 121);
  (0x81166cbcceabb888e512bb7cb03d1cd9270882a9b23bf6f7efa15d9d8bbea02ed80dd69364d06fe56a87806d47820f5a2ce77d5520af91dd6ad282d673e3a927, 375);
  (0x813884e9c9534dbe4aaa94e6ecc00e6a71a1dae0a4e2f4fc4848c8864e0935e0df410532e3d2796551764d65619717058ee4399dec3b995b598345d86ca3b9b2, 57);
  (0xb301488cb46c83eda096c1188171537cc135688b4484085aa1c90dc8ae736a0e13d6226ae34d917ace432618d7ab8dfa2dc2e204f8fec7bd0af10eae80514e4f, 21);
  (0xbc157f50b2a1d30fddfe1122c60493cffe940791a1b6e11c9f089d125642ba962045b30bc40d41ef1eb7ae876be3b35b66c13bc162cd9d338966a4641e727e32, 34);
  (0x0a4b1eea2de1c960d64890cdb960a95c2e93283f1170ec6b5b047b32566fa0269eafc9e22cbea3a996f7f61970fa6d185d7cd8a0a71f1ddb96bec08145c4da4b, 11);
  (0x094c5c367541966fd9359635be100b225b242dc1d5bdab58edbe0a064f509827e9d8eeb92105a0e7e7557f2391d521e935bba55b9023ba80402b214ee5ca7f27, 23);
  (0x1707b0f6fe76c42cbd85aefe66bcdbf667fced92d6ea55d213c575386d14f67282b98fc2aad3b2e36f77e24d8e767a4820fe803481331175c3edf4dc0ed2ba97, 82);
  (0x5252a8b51296dfd15afed87c0f3a0fcf9e50631646bbd59ee3d8b456082b569592c6d470c57788067bd943dc3e0a3df977a3d6ed530939a0ecd05cdc1a6947de, 1001);
  (0x65bcee0c89637bbed6410ea306ca6411dba05ab6dd06d84ab8edc9e17e82dae13ccb6ac001891ecaeff89ea91607ab32c8f419bcd53882dc281917866e832dc0, 182);
  (0x7553d01794f12d03718856787d2a0a1c9e5e274416de0e592e9f97356027983ebaf812b27be6d547ad21946f46de876f90652c6b3172026dccfe6426ec49f542, 186);
  (0x8a448386566538a5436dccd73e5a13bf3f93a7e6a67c1587496b132c6ccf5b43998c11c18dc72ea0c99120aaa6809490519c5fe1c57e5107d8e58a684dc0854e, 141);
  (0x1e89f57a9c3e9a3e3aebcb22ced6532e2333aee1db5b963fc0d32f6c421208c1093f792556a3eb721144e51b03e7b68a1a3429ae857e0fe40ef3eb5f2026e00e, 11);
  (0x84acffa94495de13bcb2b7b83725327fb9807f59fd56747ad0cf39a5f3c637ab99e12a36ca16af2febc555f0bd027cee230907e4564ae7b2cf2d6e3134ec2764, 41);
  (0xa1a3f1eed74b0114ab05ef8f01cf546055d87f0adc9d20249a45f67277dca89272c2524477104eee2afd1f42f995f10a2161614c398795b5ee58e6aa0b61e708, 102);
  (0x3a7326a307d464ce95027c8e99a8421cf1aece58d22b6d8257b3e8d1f6837b8400e03412a8301393adc4556d91957e2eb72ca562b18a3243db3b71a85bdb16f1, 381);
  (0xbc71e24679109f743a800883a221c6650bada9b8ee38b0e37633c9d2a14cdbbd646242a7bb1a195b4814f96211fdbfff97c2f96da1181d4c133f86e8a570c4f7, 292);
  (0xadf7fac511f35e7171c2507897dd195c577250fcd00ec600ce63b9046ba580cc433ba2cdc0f5f9187f73b90c0c1ded6af6cc28ca213ade64ddcd135b9085bd7a, 499)].

Definition parachain_stake_holders : list (Z * Z) := parachain_stake_holders_1 ++ parachain_stake_holders_2.
