(* ===== verification/RuntimeFacts.v ===== *)
(** * The runtimes: what their constants and conversions amount to *)
From stdpp Require Import prelude strings list.
From Stdlib Require Import ZArith Lia.
From S2P Require Import Prelude Frame Runtime Stakes.
Local Open Scope string_scope.
Local Open Scope Z_scope.

(** ** Time *)

(** How long a day of blocks is.  The units of time count whole blocks, so a
    day of [DAYS] blocks is never longer than a day, and is one exactly when the
    seconds per block divide a minute.  IPCI and the parachain (6 seconds) are
    exact; with the 8 seconds of Robonomics an hour lasts 56 minutes, a day 22
    hours and 24 minutes, and an epoch, meant to be ten minutes, 70 blocks. *)
Lemma day_of_blocks (millisecs : Z) :
  1 <= Common.SECS_PER_BLOCK millisecs <= 60 ->
  (Common.DAYS millisecs * Common.SECS_PER_BLOCK millisecs <= 24 * 60 * 60 /\
   (Common.DAYS millisecs * Common.SECS_PER_BLOCK millisecs = 24 * 60 * 60 <->
    (Common.SECS_PER_BLOCK millisecs | 60))) /\
  Ipci.DAYS * Ipci.SECS_PER_BLOCK = 24 * 60 * 60 /\
  Parachain.DAYS * Parachain.SECS_PER_BLOCK = 24 * 60 * 60 /\
  Robonomics.HOURS * Robonomics.SECS_PER_BLOCK = 56 * 60 /\
  Robonomics.DAYS * Robonomics.SECS_PER_BLOCK = 22 * 60 * 60 + 24 * 60 /\
  Robonomics.EPOCH_DURATION_IN_SLOTS = 70.
Proof.
  intros Hs. split; [|done]. unfold Common.DAYS, Common.HOURS, Common.MINUTES.
  set (s := Common.SECS_PER_BLOCK millisecs) in *.
  pose proof (Z.div_mod 60 s ltac:(lia)) as Hdm.
  pose proof (Z.mod_pos_bound 60 s ltac:(lia)) as Hmod.
  replace (60 / s * 60 * 24 * s) with (1440 * (s * (60 / s))) by lia.
  split; [lia|]. rewrite <- (Z.mod_divide 60 s) by lia. lia.
Qed.

(** ** Votes *)

Lemma factor_pos total : 1 <= Common.factor total.
Proof. unfold Common.factor. lia. Qed.

(** The stake of one account is less than twice the range of the votes. *)
Lemma votes_bound total x : 0 <= x <= total -> 0 <= x / Common.factor total < 2 * 2 ^ 64.
Proof.
  intros Hx. pose proof (factor_pos total) as Hf.
  split; [apply Z.div_pos; lia|]. apply Z.div_lt_upper_bound; [lia|].
  unfold Common.factor in *. unfold u64_max in *.
  pose proof (Z.div_mod total (2 ^ 64 - 1) ltac:(lia)).
  pose proof (Z.mod_pos_bound total (2 ^ 64 - 1) ltac:(lia)). nia.
Qed.

(** C35: votes and balances.  The conversion divides by a factor, one while the
    total issuance fits in 64 bits, and keeps the result in 64 bits.  While the
    quotient fits, converting back gives a balance at most [factor - 1] lower and
    never overflows; but it need not fit: an account that holds more than
    [factor * 2^64] loses [2^64] votes, so that one holding exactly [2^64] of a
    total issuance of [2^64] has none. *)
Theorem votes_conversion (total x : Z) :
  0 <= x <= total -> total <= u128_max ->
  (total <= u64_max -> Common.to_votes total x = x) /\
  (x < Common.factor total * 2 ^ 64 ->
     Common.to_votes total x = x / Common.factor total /\
     Common.to_balance total (Common.to_votes total x) <= x <
       Common.to_balance total (Common.to_votes total x) + Common.factor total) /\
  (Common.factor total * 2 ^ 64 <= x ->
     Common.to_votes total x = x / Common.factor total - 2 ^ 64) /\
  Common.to_votes (2 ^ 64) (2 ^ 64) = 0.
Proof.
  intros Hx Ht. pose proof (factor_pos total) as Hf. pose proof (votes_bound total x Hx) as Hb.
  assert (Hsmall : x < Common.factor total * 2 ^ 64 ->
    Common.to_votes total x = x / Common.factor total).
  { intros Hlt. apply wrap_small. split; [lia|]. apply Z.div_lt_upper_bound; lia. }
  split; [|split; [|split; [|done]]].
  - intros Hle. assert (Common.factor total = 1) as Hone.
    { unfold Common.factor, u64_max in *.
      destruct (decide (total = 2 ^ 64 - 1)) as [->|]; [done|]. rewrite Z.div_small; lia. }
    rewrite Hsmall, Hone, Z.div_1_r; [done|]. rewrite Hone. unfold u64_max in Hle. lia.
  - intros Hlt. rewrite Hsmall by done. split; [done|].
    pose proof (Z.div_mod x (Common.factor total) ltac:(lia)).
    pose proof (Z.mod_pos_bound x (Common.factor total) ltac:(lia)).
    unfold Common.to_balance. rewrite wrap_small; [nia|].
    unfold in_width, u128_max in *. nia.
  - intros Hge. unfold Common.to_votes, wrap.
    assert (2 ^ 64 <= x / Common.factor total) by (apply Z.div_le_lower_bound; lia).
    symmetry. apply Z.mod_unique with 1; lia.
Qed.

(** The genesis stakes convert exactly.  The tables of stake holders of IPCI
    and of the parachain list no account twice and nobody without a stake, and
    their totals fit in 64 bits, so every holder's votes are the balance. *)
Lemma genesis_stakes_exact :
  let check (unit : Z) (holders : list (Z * Z)) :=
    let total := sumZ ((fun h => h.2 * unit) <$> holders) in
    NoDup (holders.*1) /\ total <= u64_max /\
    Forall (fun h => Common.to_votes total (h.2 * unit) = h.2 * unit /\ 0 < h.2) holders in
  check Ipci.MITO ipci_stake_holders /\ check Parachain.XRT parachain_stake_holders.
Proof.
  cbn zeta.
  split; (split; [apply (bool_decide_unpack _); by vm_compute|]; split; [by vm_compute|]);
    apply (bool_decide_unpack _); by vm_compute.
Qed.

(** ** Fees *)

(** The fees are shared, not lost.  Whatever [ration] does, as long as it
    splits an imbalance into two parts that add up, the treasury and the author
    together receive the fees and the tips; when it gives the first part four
    fifths, they receive 80% and 20% of each. *)
Lemma fees_conserved (ration : Z -> Z -> Z -> Z * Z) (fees tips treasury author : Z) :
  (forall x, let (y, z) := ration x 80 20 in y + z = x) ->
  let '(t, a) := Robonomics.on_unbalanceds ration [fees; tips] treasury author in
  t + a = treasury + author + fees + tips /\
  ((forall x, ration x 80 20 = (x * 80 / 100, x - x * 80 / 100)) ->
     t = treasury + fees * 80 / 100 + tips * 80 / 100).
Proof.
  intros Hr. cbn. unfold Robonomics.ration_merge_into, Robonomics.on_nonzero_unbalanced.
  pose proof (Hr fees) as H1. pose proof (Hr tips) as H2.
  destruct (ration fees 80 20) as [x y] eqn:E1, (ration tips 80 20) as [x' y'] eqn:E2.
  cbn. split; [lia|]. intros Hx. rewrite Hx in E1, E2. simplify_eq. lia.
Qed.

(** The same for the payments of any number of extrinsics, each its fees and its tips:
    nothing is lost, and the treasury has four fifths of it all, but for less than one
    unit for each fee and each tip. *)
Lemma fees_over_blocks (ration : Z -> Z -> Z -> Z * Z) (payments : list (Z * Z)) :
  (forall x, ration x 80 20 = (x * 80 / 100, x - x * 80 / 100)) ->
  forall treasury author,
  let '(t, a) := foldl (fun '(t, a) '(fees, tips) => Robonomics.on_unbalanceds ration [fees; tips] t a)
    (treasury, author) payments in
  let paid := sumZ ((fun '(fees, tips) => fees + tips) <$> payments) in
  t + a = treasury + author + paid /\
  80 * paid - 200 * Z.of_nat (length payments) <= 100 * (t - treasury) <= 80 * paid.
Proof.
  intros Hr. induction payments as [|[fees tips] payments IH]; intros treasury author; [cbn; lia|].
  cbn [foldl]. pose proof (fees_conserved ration fees tips treasury author) as Hc.
  destruct (Robonomics.on_unbalanceds ration [fees; tips] treasury author) as [t1 a1].
  destruct Hc as [Hsum Ht]; [intros x; rewrite Hr; lia|]. specialize (Ht Hr). specialize (IH t1 a1).
  destruct (foldl _ (t1, a1) payments) as [t a].
  cbn -[Z.mul Z.of_nat] in *. unfold sumZ in *. cbn [foldr] in *. rewrite Nat2Z.inj_succ.
  pose proof (Z.div_mod (fees * 80) 100 ltac:(lia)). pose proof (Z.mod_pos_bound (fees * 80) 100 ltac:(lia)).
  pose proof (Z.div_mod (tips * 80) 100 ltac:(lia)). pose proof (Z.mod_pos_bound (tips * 80) 100 ltac:(lia)).
  lia.
Qed.

(** Weight is free on IPCI.  The polynomial that turns weight into a fee has
    no integer part, and its fraction, [U_MITO] over [MITO] times the base weight
    of an extrinsic, is less than a billionth for any base weight above a
    thousand, which is what a [Perbill] can represent: every coefficient is
    zero. *)
Lemma ipci_weight_is_free (perbill : Z -> Z -> Z) (ExtrinsicBaseWeight : Z) :
  (forall p q, 0 <= p < q -> 0 <= perbill p q /\ perbill p q * q <= p * 10 ^ 9) ->
  1000 < ExtrinsicBaseWeight ->
  Ipci.polynomial perbill ExtrinsicBaseWeight = [Ipci.mkCoefficient 1 false 0 0].
Proof.
  intros Hp Hw. unfold Ipci.polynomial.
  assert (Hq : Ipci.U_MITO < Ipci.MITO * ExtrinsicBaseWeight).
  { unfold Ipci.MITO, Ipci.U_MITO. lia. }
  assert (0 < Ipci.U_MITO) by done.
  rewrite Z.mod_small, Z.div_small by lia. do 2 f_equal.
  destruct (Hp Ipci.U_MITO (Ipci.MITO * ExtrinsicBaseWeight) ltac:(lia)) as [H0 H1].
  revert H0 H1. generalize (perbill Ipci.U_MITO (Ipci.MITO * ExtrinsicBaseWeight)).
  unfold Ipci.MITO, Ipci.U_MITO. intros z. nia.
Qed.

(** Who may be sent an unsigned transaction.  In Robonomics the unsigned
    transactions of [Babe], [ImOnline] and [Liability] can be validated, in IPCI
    those of the first two, in the parachain those of [Liability]; those of
    [Grandpa] and [Staking], whose equivocation reports and election solutions are
    configured to be sent unsigned, cannot. *)
Lemma unsigned_transactions :
  validates_unsigned Robonomics.pallets = ["Babe"; "ImOnline"; "Liability"] /\
  validates_unsigned Ipci.pallets = ["Babe"; "ImOnline"] /\
  validates_unsigned Parachain.pallets = ["Liability"] /\
  "Grandpa" ∈ pallet_name <$> Robonomics.pallets /\ "Staking" ∈ pallet_name <$> Robonomics.pallets /\
  NoDup (pallet_name <$> Robonomics.pallets) /\ NoDup (pallet_name <$> Ipci.pallets) /\
  NoDup (pallet_name <$> Parachain.pallets).
Proof. repeat split; try done; apply (bool_decide_unpack _); by vm_compute. Qed.

(** ** Signed transactions *)
Section transactions.
Context {Call Public AccountId Address Signature Era Payload : Type}.
Context (mortal : Z -> Z -> Era).
Abbreviation extra_t := (@Common.SignedExtra Era).
Context (payload_new : Call -> extra_t -> option Payload).
Context (payload_bytes : Payload -> bytes).
Context (app_sign : bytes -> Public -> option Signature).
Context (unlookup : AccountId -> Address).
Context (verify : Signature -> bytes -> Public -> bool).

(** A signed transaction of an offchain worker is what was asked for: the
    call, the account's address, the nonce and no tip, mortal for the biggest
    power of two of blocks the chain remembers (2048 of 2400) from the block
    before the one being built, under a signature of exactly that payload; and
    there is none when the payload cannot be built or no key can sign it. *)
Lemma create_transaction_spec (n : Z) (call : Call) (public : Public) (account : AccountId)
    (nonce : Z) :
  (forall m p s, app_sign m p = Some s -> verify s m p = true) ->
  Common.period Robonomics.BlockHashCount = 2048 /\
  match Common.create_transaction mortal payload_new payload_bytes app_sign unlookup
    Robonomics.BlockHashCount n call public account nonce with
  | Some (call', (address, signature, extra)) =>
      call' = call /\ address = unlookup account /\
      extra = Common.mkExtra (mortal 2048 (Z.max (n - 1) 0)) nonce 0 /\
      exists payload, payload_new call extra = Some payload /\
        verify signature (payload_bytes payload) public = true
  | None =>
      forall payload,
        payload_new call (Common.mkExtra (mortal 2048 (Z.max (n - 1) 0)) nonce 0) = Some payload ->
        app_sign (payload_bytes payload) public = None
  end.
Proof.
  intros Hsign. split; [done|]. unfold Common.create_transaction.
  change (Common.period Robonomics.BlockHashCount) with 2048. unfold Common.current_block.
  set (extra := Common.mkExtra _ _ _).
  destruct (payload_new call extra) as [payload|] eqn:Hp; cbn; [|by intros payload ?].
  destruct (app_sign (payload_bytes payload) public) as [s|] eqn:Hs; cbn.
  - repeat (split; [done|]). by eauto.
  - intros ? [= <-]. done.
Qed.
End transactions.
