(* ===== verification/Chain.v ===== *)
(** * The Robonomics pallets in one runtime

    The runtimes of Robonomics and of the parachain compose the liability pallet
    (over [PureIPFS], [Communism] and [SignedLiability]), the datalog pallet (with
    [Vec<u8>] records and the timestamp pallet as its clock) and the launch pallet
    (with [bool] parameters) with the pallets of Substrate
    ([robonomics-runtime/src/lib.rs]: the [Trait] implementations and
    [construct_runtime!]).  The other pallets are a state [W] of their own, which
    holds the time.

    What drives the pallets is Substrate's executive and the pallets that
    dispatch calls themselves (Utility, Multisig, Scheduler, Council, Sudo): a
    call reaches a pallet with the origin [none] only as an unsigned extrinsic,
    which the executive validates first; with any other origin it can come from
    anywhere.  [chain_step] is one such dispatch, or a step of the other
    pallets.

    The call of another pallet is a transition of the whole chain, given as a
    parameter, since some of them are not confined to their own storage: with the
    origin of the root, which the Sudo pallet can give, [System::set_storage],
    [kill_storage], [kill_prefix] and [set_code] replace anything, the storage of
    the three pallets and their code included.  Those dispatches are told apart by
    a parameter too ([raw]); of the rest [OtherPallets] asks that they change the
    storage of their own pallets only.  The histories of [chain_step] are those
    without a raw dispatch: no property of the three pallets survives one. *)
From stdpp Require Import prelude gmap strings list list_numbers.
From Stdlib Require Import ZArith Lia.
From S2P Require Import Prelude Frame Codec Currency Agreement Liability.
From S2P Require Import LiabilityFacts SignedPallet Datalog Launch Runtime.
Local Open Scope Z_scope.

Section chain.
Context {Origin AccountId Sig W OtherCall : Type}.
Context `{!FrameSystem Origin AccountId, !Verify Sig AccountId}.
Context `{!EqDecision AccountId, !Countable AccountId}.
Context `{!Codec bytes, !Codec unit, !Codec AccountId, !Codec Z}.
(** [Timestamp::now()]; the validation of the other pallets' calls. *)
Context (now : W -> Z).
Context (other_validate : OtherCall -> W -> option TransactionValidity).
Context (pallet_index : Z).

(** The codecs of the types the runtimes chose. *)
#[export] Instance chain_parameter_codec : Codec (technical_parameter PureIPFS) :=
  (_ : Codec bytes).
#[export] Instance chain_report_codec : Codec (technical_report PureIPFS) := (_ : Codec bytes).
#[export] Instance chain_price_codec : Codec (economical_parameter Communism) :=
  (_ : Codec unit).

(** [type Liability] of the two runtimes. *)
Definition RuntimeLiability : Type := SignedLiability PureIPFS Communism AccountId.

(** [enum Call] of [construct_runtime!]: the calls of the three pallets, and those
    of the others. *)
Inductive RuntimeCall : Type :=
| CallLiability (c : @Liability.Call AccountId Z Sig PureIPFS Communism)
| CallDatalog (c : @Datalog.Call bytes)
| CallLaunch (c : @Launch.Call AccountId bool)
| CallOther (c : OtherCall).

Record Chain : Type := mkChain {
  liability : @Liability.State AccountId W Z PureIPFS Communism _ _;
  datalog : @Datalog.State AccountId Z bytes _ _;
  launches : @Launch.State AccountId bool;
}.

Definition set_liability l ch : Chain := mkChain l (datalog ch) (launches ch).
Definition set_datalog d ch : Chain := mkChain (liability ch) d (launches ch).
Definition set_launches l ch : Chain := mkChain (liability ch) (datalog ch) l.

(** The state of the other pallets; the clock of the datalog pallet is theirs. *)
Definition others (ch : Chain) : W := world (liability ch).
Definition set_others (w : W) (ch : Chain) : Chain :=
  mkChain (set_world w (liability ch)) (Datalog.set_clock (now w) (datalog ch)) (launches ch).

Definition chain_genesis (w : W) : Chain :=
  mkChain (genesis w) (Datalog.genesis (now w)) (Launch.mkState []).

(** The dispatch of the other pallets' calls, and which dispatches write raw storage
    or replace the code. *)
Context (other_dispatch : Origin -> OtherCall -> Chain -> DispatchResult * Chain).
Context (raw : Origin -> OtherCall -> bool).

(** [Dispatchable for Call]. *)
Definition runtime_dispatch (o : Origin) (c : RuntimeCall) (ch : Chain) : DispatchResult * Chain :=
  match c with
  | CallLiability c =>
      let (r, l) := Liability.dispatch (Self := RuntimeLiability) pallet_index o c (liability ch) in
      (r, set_liability l ch)
  | CallDatalog c =>
      let (r, d) := Datalog.dispatch o c (datalog ch) in (r, set_datalog d ch)
  | CallLaunch c =>
      let (r, l) := Launch.dispatch o c (launches ch) in (r, set_launches l ch)
  | CallOther c => other_dispatch o c ch
  end.

(** [GetDispatchInfo for Call]: the weight of a call. *)
Definition runtime_weight (other_weight : OtherCall -> Z) (c : RuntimeCall) : Z :=
  match c with
  | CallLiability c => Liability.weight c
  | CallDatalog c => Datalog.weight c
  | CallLaunch c => Launch.weight c
  | CallOther c => other_weight c
  end.

(** The calls of the three pallets are light: with [10 ^ 12] units of weight in a second
    the heaviest is a 6500th of what an extrinsic may weigh. *)
Lemma pallet_calls_fit (WEIGHT_PER_SECOND : Z) (other_weight : OtherCall -> Z) (c : RuntimeCall) :
  10 ^ 12 <= WEIGHT_PER_SECOND -> (forall o, c <> CallOther o) ->
  6500 * runtime_weight other_weight c <= Robonomics.MaximumExtrinsicWeight WEIGHT_PER_SECOND /\
  6500 * runtime_weight other_weight c <= Parachain.MaximumExtrinsicWeight WEIGHT_PER_SECOND.
Proof.
  intros HW Hc. assert (Hw : runtime_weight other_weight c <= 200000000).
  { destruct c as [c|c|c|o]; [by destruct c..|by destruct (Hc o)]. }
  unfold Robonomics.MaximumExtrinsicWeight, Parachain.MaximumExtrinsicWeight,
    Robonomics.MaximumBlockWeight, Parachain.MaximumBlockWeight, Common.MaximumExtrinsicWeight,
    Common.part_of. cbn -[Z.mul Z.div Z.pow].
  split; apply Z.div_le_lower_bound; lia.
Qed.

(** [ValidateUnsigned for Runtime], which [construct_runtime!] makes of the pallets
    listed with [ValidateUnsigned]; [None] is [NoUnsignedValidator]: the pool
    refuses the transaction, and a block may hold it (it may be an inherent). *)
Definition runtime_validate_unsigned (ch : Chain) (c : RuntimeCall) :
    option TransactionValidity :=
  match c with
  | CallLiability c => Some (validate_unsigned (Self := RuntimeLiability) (liability ch) c)
  | CallDatalog _ | CallLaunch _ => None
  | CallOther c => other_validate c (others ch)
  end.

(** A call is made of values of its types, the index has not run out, and the call
    does not write raw storage. *)
Definition runtime_call_ok (o : Origin) (ch : Chain) (c : RuntimeCall) : Prop :=
  match c with
  | CallLiability c => call_ok (liability ch) c
  | CallOther c => raw o c = false
  | _ => True
  end.

(** What happened, for the record: the dispatches, with the time of each. *)
Record Happened : Type := mkHappened { origin : Origin; call : RuntimeCall; time : Z }.

Inductive chain_step : Chain -> list Happened -> Chain -> Prop :=
| step_unsigned ch c :
    (forall e, runtime_validate_unsigned ch c <> Some (Err e)) -> runtime_call_ok none ch c ->
    chain_step ch [mkHappened none c (now (others ch))] (runtime_dispatch none c ch).2
| step_origin ch o c :
    is_ok (ensure_none o) = false -> runtime_call_ok o ch c ->
    chain_step ch [mkHappened o c (now (others ch))] (runtime_dispatch o c ch).2
| step_others ch w :
    now (others ch) <= now w -> chain_step ch [] (set_others w ch).

(** The states of a chain, with its history. *)
Inductive chain_reachable : list Happened -> Chain -> Prop :=
| chain_start w : chain_reachable [] (chain_genesis w)
| chain_next h ch hs ch' :
    chain_reachable h ch -> chain_step ch hs ch' -> chain_reachable (h ++ hs) ch'.

(** The log of an account, read off the history. *)
Definition replay_happened (a : AccountId) (log : list (Z * bytes)) (h : Happened) :
    list (Z * bytes) :=
  match call h, ensure_signed (origin h) with
  | CallDatalog (Datalog.call_record r), Ok b =>
      if decide (b = a) then log ++ [(time h, r)] else log
  | CallDatalog Datalog.call_erase, Ok b => if decide (b = a) then [] else log
  | _, _ => log
  end.
Definition history_log (hs : list Happened) (a : AccountId) : list (Z * bytes) :=
  foldl (replay_happened a) [] hs.

(** The launch requests, read off the history. *)
Definition happened_launch (h : Happened) : option (@Launch.Event AccountId bool) :=
  match call h, ensure_signed (origin h) with
  | CallLaunch (Launch.call_launch robot param), Ok a => Some (Launch.NewLaunch a robot param)
  | _, _ => None
  end.
End chain.

(** The calls of the other pallets, but for the raw ones, change the storage of the
    other pallets; and the timestamp pallet never sets the time back. *)
Class OtherPallets {Origin AccountId W OtherCall : Type} `{!EqDecision AccountId, !Countable AccountId}
    (now : W -> Z)
    (other_dispatch : Origin -> OtherCall -> @Chain AccountId W _ _ ->
       DispatchResult * @Chain AccountId W _ _)
    (raw : Origin -> OtherCall -> bool) : Prop :=
  others_only o c ch : raw o c = false ->
    exists w, (other_dispatch o c ch).2 = set_others now w ch /\ now (others ch) <= now w.

Section facts.
Context {Origin AccountId Sig W OtherCall : Type}.
Context `{!FrameSystem Origin AccountId, !Verify Sig AccountId}.
Context `{!EqDecision AccountId, !Countable AccountId}.
Context `{!Codec bytes, !Codec unit, !Codec AccountId, !Codec Z}.
Context (now : W -> Z).
Abbreviation chain_t := (@Chain AccountId W _ _).
Context (other_dispatch : Origin -> OtherCall -> chain_t -> DispatchResult * chain_t).
Context (raw : Origin -> OtherCall -> bool).
Context (other_validate : OtherCall -> W -> option TransactionValidity).
Context (pallet_index : Z).
Context `{!OtherPallets now other_dispatch raw}.

Abbreviation call_t := (@RuntimeCall AccountId Sig OtherCall).
Abbreviation history := (list (@Happened Origin AccountId Sig OtherCall)).
Abbreviation run := (runtime_dispatch pallet_index other_dispatch).
Abbreviation step := (chain_step now other_validate pallet_index other_dispatch raw).
Abbreviation reach := (chain_reachable now other_validate pallet_index other_dispatch raw).
Implicit Types (ch : chain_t) (c : call_t) (h : history) (o : Origin) (a : AccountId).

(** [Communism] leaves the other pallets alone. *)
Lemma liability_world o (c : @Liability.Call AccountId Z Sig PureIPFS Communism) l :
  world (Liability.dispatch (Self := @RuntimeLiability AccountId) (W := W) pallet_index o c l).2 =
    world l.
Proof.
  destruct c; cbn [Liability.dispatch]; rewrite ?create_eq, ?finalize_eq;
    repeat case_match; try done;
    match goal with
    | H : on_start _ _ = _ |- _ => injection H as _ <-; done
    | H : on_finish _ _ _ = _ |- _ => injection H as _ <-; done
    end.
Qed.
Abbreviation liability_reach :=
  (SignedPallet.reachable (Origin := Origin) (Sig := Sig) (T := PureIPFS) (E := Communism)
    pallet_index (fun _ _ : W => True)).

(** The parts of a chain, each a state its own pallet reaches, and what they say of
    the history. *)
Record chain_ok h ch : Prop := {
  co_liability : liability_reach (liability ch);
  co_datalog : Datalog.reachable (Origin := Origin) Z.le (datalog ch);
  co_clock : Datalog.clock (datalog ch) = now (others ch);
  co_log a : Datalog.datalog (datalog ch) a = history_log h a;
  co_launches : Launch.events (launches ch) = omap happened_launch h;
}.

Lemma chain_genesis_ok w : chain_ok [] (chain_genesis now w).
Proof. split; [constructor|constructor|done|done|done]. Qed.

Lemma set_others_ok h ch w :
  now (others ch) <= now w -> chain_ok h ch -> chain_ok h (set_others now w ch).
Proof.
  intros Hw [Hl Hd Hc Hlog Hla].
  split; cbn [set_others liability datalog launches]; [| |done|exact Hlog|done].
  - by apply (reach_world pallet_index).
  - apply Datalog.reach_clock; [done|]. by rewrite Hc.
Qed.

Lemma history_log_snoc h x a : history_log (h ++ [x]) a = replay_happened a (history_log h a) x.
Proof. unfold history_log. by rewrite foldl_app. Qed.

Lemma datalog_clock o (c : @Datalog.Call bytes) (d : @Datalog.State AccountId Z bytes _ _) :
  Datalog.clock (Datalog.dispatch o c d).2 = Datalog.clock d.
Proof.
  destruct c; cbn [Datalog.dispatch]; rewrite ?Datalog.record_eq, ?Datalog.erase_eq;
    by destruct (ensure_signed o).
Qed.

(** A dispatch is in the log of the signer alone. *)
Lemma datalog_log o (c : @Datalog.Call bytes) (d : @Datalog.State AccountId Z bytes _ _) t a :
  Datalog.clock d = t ->
  Datalog.datalog (Datalog.dispatch o c d).2 a =
    replay_happened a (Datalog.datalog d a)
      (mkHappened o (CallDatalog c : call_t) t).
Proof.
  intros <-. destruct c; cbn [Datalog.dispatch];
    rewrite ?Datalog.record_eq, ?Datalog.erase_eq; unfold replay_happened; cbn [call origin time];
    (destruct (ensure_signed o) as [b|]; [|done]); unfold Datalog.datalog; cbn [Datalog.Datalog snd];
    case_decide as Hb; subst; by autorewrite with robo.
Qed.

Lemma run_ok h ch o c :
  runtime_call_ok raw o ch c -> chain_ok h ch ->
  chain_ok (h ++ [mkHappened o c (now (others ch))]) (run o c ch).2.
Proof using Type*.
  intros Hc [Hl Hd Hck Hlog Hla]. destruct c as [c|c|c|c]; cbn [runtime_dispatch].
  - destruct (Liability.dispatch _ _ _ _) as [r l] eqn:Hs; cbn [snd].
    apply (f_equal snd) in Hs; cbn [snd] in Hs; subst l.
    split; cbn [set_liability liability datalog launches]; [|done| | |].
    + by apply (reach_dispatch pallet_index).
    + unfold others; cbn. by rewrite liability_world.
    + intros a. rewrite history_log_snoc. exact (Hlog a).
    + rewrite omap_app. cbn. by rewrite app_nil_r.
  - destruct (Datalog.dispatch o c (datalog ch)) as [r d] eqn:Hs; cbn [snd].
    apply (f_equal snd) in Hs; cbn [snd] in Hs; subst d.
    split; cbn [set_datalog liability datalog launches]; [done| | | |].
    + by apply Datalog.reach_dispatch.
    + by rewrite datalog_clock.
    + intros a. rewrite history_log_snoc, <- Hlog. by apply datalog_log.
    + rewrite omap_app. cbn. by rewrite app_nil_r.
  - destruct c as [robot param]; cbn [Launch.dispatch]. rewrite Launch.launch_eq.
    assert (Hsame : forall a, history_log (h ++ [mkHappened o
      (CallLaunch (Launch.call_launch robot param) : call_t) (now (others ch))]) a = history_log h a).
    { intros a. by rewrite history_log_snoc. }
    destruct (ensure_signed o) as [b|e] eqn:Hb;
      (split; [done|done|done| |]; [intros a; rewrite Hsame; apply Hlog|]);
      rewrite omap_app, <- Hla; cbn; unfold happened_launch; cbn; rewrite Hb, ?app_nil_r; done.
  - destruct (others_only (now := now) o c ch Hc) as (w & -> & Hw).
    apply set_others_ok; [done|].
    + split; try done.
      * intros a. rewrite history_log_snoc. exact (Hlog a).
      * rewrite omap_app. cbn. by rewrite app_nil_r.
Qed.

Lemma reachable_chain_ok h ch : reach h ch -> chain_ok h ch.
Proof using Type*.
  induction 1 as [w|h ch hs ch' Hr IH Hs]; [apply chain_genesis_ok|].
  destruct Hs; [by apply run_ok..|]. rewrite app_nil_r. by apply set_others_ok.
Qed.
(** C5: the chain is its history.  In every state of the chain (no dispatch of its
    history writing raw storage) the three pallets
    are each in a state of their own, as if the others were not there; the log of
    every account is what the dispatches of the history with its signed origin
    recorded since its last erasure, in their order and at their times, whatever
    extrinsic, batch, proposal or schedule made them; and the launch requests are
    those of the history, each in the name of the account that signed it. *)
Theorem chain_history h ch : reach h ch ->
  liability_reach (liability ch) /\ Datalog.reachable (Origin := Origin) Z.le (datalog ch) /\
  Datalog.clock (datalog ch) = now (others ch) /\
  (forall a, Datalog.datalog (datalog ch) a = history_log h a) /\
  Launch.events (launches ch) = omap happened_launch h.
Proof using Type*. intros Hr. by destruct (reachable_chain_ok _ _ Hr). Qed.

Context `{!FrameSystemLaws Origin AccountId}.

(** ** What stays valid

    The steps of a chain after a state of it. *)
Definition later : chain_t -> chain_t -> Prop := 
  rtc (fun ch ch' => exists hs : history, step ch hs ch').

Context `{!CodecLaws bytes, !CodecLaws unit, !CodecLaws AccountId}.
Hypothesis decode_empty : (decode [] : option (@RuntimeLiability AccountId)) = None.

Lemma reachable_storage_ok h ch : reach h ch ->
  storage_ok (Sig := Sig) (liability ch).
Proof using Type*.
  intros Hr. destruct (reachable_chain_ok _ _ Hr) as [Hl _ _ _ _].
  by apply (reachable_ok (T := PureIPFS) (E := Communism) pallet_index (fun _ _ => True)) in Hl.
Qed.

(** A step keeps the liabilities there are, and the flags of the finished ones. *)
Lemma run_keeps o c ch i : runtime_call_ok raw o ch c -> 0 <= i < latest_index (liability ch) ->
  liability_of (liability (run o c ch).2) i = liability_of (liability ch) i /\
  (is_finalized (liability ch) i = true -> is_finalized (liability (run o c ch).2) i = true).
Proof using Type*.
  intros Hc Hi. destruct c as [c|c|c|c]; cbn [runtime_dispatch].
  - pose proof (dispatch_keeps (Self := @RuntimeLiability AccountId) pallet_index o c
      (liability ch) i) as H.
    destruct (Liability.dispatch _ _ _ _) as [r l]. apply H. lia.
  - by destruct (Datalog.dispatch _ _ _).
  - by destruct (Launch.dispatch _ _ _).
  - by destruct (others_only (now := now) o c ch Hc) as (w & -> & _).
Qed.
Lemma step_keeps ch (hs : history) ch' i : step ch hs ch' -> 0 <= i < latest_index (liability ch) ->
  liability_of (liability ch') i = liability_of (liability ch) i /\
  (is_finalized (liability ch) i = true -> is_finalized (liability ch') i = true).
Proof using Type*. intros [] Hi; [by apply run_keeps..|done]. Qed.

Lemma later_keeps h ch ch' i (l : @RuntimeLiability AccountId) : reach h ch -> later ch ch' ->
  decode (liability_of (liability ch) i) = Some l ->
  decode (liability_of (liability ch') i) = Some l /\
  (is_finalized (liability ch) i = true -> is_finalized (liability ch') i = true).
Proof using Type*.
  intros Hr Hl. revert h Hr. induction Hl as [ch|ch ch1 ch' [hs Hs] Hl IH]; intros h Hr Hd; [done|].
  pose proof (decoded_in_range (Sig := Sig) decode_empty _ _ _ (reachable_storage_ok _ _ Hr) Hd) as Hi.
  destruct (step_keeps _ _ _ i Hs Hi) as [Hk Hf].
  assert (Hr1 : reach (h ++ hs) ch1) by (by eapply chain_next).
  destruct (IH _ Hr1) as [Hd' Hf']; [by rewrite Hk|]. split; [done|]. by auto.
Qed.

(** C22: what is valid stays valid.  A liability transaction that validates in a
    state of the chain validates in every later state, with the same tags, whatever
    happened in between (but for raw writes of storage), itself included.  So one that creates a liability can be
    included again and again, and makes a new liability every time; one that
    reports can be included again too, and fails from the first report on, without
    the pool ever refusing it. *)
Theorem valid_forever h ch ch' lc v :
  reach h ch -> later ch ch' ->
  runtime_validate_unsigned other_validate ch (CallLiability lc : call_t) = Some (Ok v) ->
  runtime_validate_unsigned other_validate ch' (CallLiability lc : call_t) = Some (Ok v) /\
  match lc with
  | call_create t e pe po _ _ =>
      exists ch2, run (none : Origin) (CallLiability lc) ch' = (Ok tt, ch2) /\
        latest_index (liability ch2) = index_next (latest_index (liability ch')) /\
        liability_of (liability ch2) (latest_index (liability ch')) =
          encode (signed_new t e pe po : @RuntimeLiability AccountId)
  | call_finalize i _ _ =>
      is_finalized (liability ch) i = true ->
      run (none : Origin) (CallLiability lc) ch' = (Err (Other "already finalized"), ch')
  end.
Proof using Type*.
  intros Hr Hl Hv. destruct lc as [t e pe po p q|i r p]; cbn [runtime_validate_unsigned] in *.
  - split; [exact Hv|]. revert Hv. cbn [validate_unsigned runtime_dispatch Liability.dispatch].
    rewrite create_eq, ensure_none_none.
    destruct (negb _); [done|]. destruct (negb _); [done|]. intros _. cbn.
    eexists. split; [done|]. split; [done|]. unfold liability_of; cbn. apply storage_get_insert_eq.
  - revert Hv. cbn [validate_unsigned].
    destruct (decode (liability_of (liability ch) i)) as [l|] eqn:Hd; [|done].
    destruct (later_keeps _ _ _ _ _ Hr Hl Hd) as [Hd' Hf].
    destruct (decode (liability_of (liability ch') i)) as [l'|]; [|done].
    injection Hd' as ->. intros Hv.
    split; [exact Hv|]. intros Hfin. cbn [runtime_dispatch Liability.dispatch].
    rewrite finalize_eq, ensure_none_none, (Hf Hfin). by destruct ch'.
Qed.
End facts.
