(* ===== verification/Subkey.v ===== *)
(** * The key tool

    [bin/subkey/src/main.rs] and [rpc.rs]: the commands of [subkey], over the
    cryptography, the codecs and the operating system they call.  A command is a
    program on a [World]: files, standard input, the terminal, what was printed,
    the process-wide default address format, and the keys that got to a node; the
    machine decides which of the calls to the operating system and to a node fail. *)
From stdpp Require Import prelude gmap strings list pretty.
From Stdlib Require Import ZArith Lia Ascii.
From Stdlib Require Import String.
From S2P Require Import Prelude Codec Vanity Runtime.
Local Open Scope string_scope.
Local Open Scope Z_scope.

(** ** Data *)

(** [enum OutputType], [TryFrom<&str>]. *)
Inductive OutputType : Type := Json | Text.

Definition output_try_from (s : string) : option OutputType :=
  if decide (s = "json") then Some Json
  else if decide (s = "text") then Some Text
  else None.

(** [enum Error]. *)
Inductive Error : Type :=
| Static (msg : string)
| Io (err : string)
| Formatted (msg : string).

(** [clap::ArgMatches]: the values and the flags given to a command. *)
Record Args : Type := mkArgs { values : gmap string string; flags : gset string }.
Definition value_of (m : Args) (name : string) : option string := values m !! name.
Definition is_present (m : Args) (name : string) : bool :=
  bool_decide (name ∈ flags m) || bool_decide (is_Some (values m !! name)).

Record ArgMatches : Type := mkMatches { top : Args; subcommand : option (string * Args) }.

(** [get_app], as far as the names of the arguments of each command. *)
Definition declared_args (command : string) : list string :=
  match command with
  | "generate" => ["words"]
  | "generate-node-key" | "inspect-node-key" => ["file"]
  | "inspect" => ["uri"]
  | "sign" => ["hex"; "suri"]
  | "sign-transaction" => ["call"; "nonce"; "password"; "prior-block-hash"; "suri"]
  | "transfer" => ["genesis"; "from"; "to"; "amount"; "index"]
  | "vanity" => ["number"; "pattern"]
  | "verify" => ["hex"; "sig"; "uri"]
  | "insert" => ["suri"; "key-type"; "node-url"]
  | "moduleid" => ["id"]
  | _ => []
  end.

(** A command line that was parsed gives values to declared arguments only. *)
Definition parsed (command : string) (m : Args) : Prop :=
  forall name, is_present m name = true -> name ∈ declared_args command.

(** [main]: the cryptography by the flags. *)
Inductive Scheme : Type := SchemeEd25519 | SchemeEcdsa | SchemeSr25519.
Definition scheme_of (m : Args) : Scheme :=
  if is_present m "ed25519" then SchemeEd25519
  else if is_present m "secp256k1" then SchemeEcdsa
  else SchemeSr25519.

(** The bytes of a string. *)
Definition str_bytes (s : string) : bytes := (fun c => Z.of_nat (nat_of_ascii c)) <$> list_ascii_of_string s.

(** [str::parse] for an unsigned integer up to [max]: an optional plus sign and
    decimal digits. *)
Fixpoint parse_digits (max acc : Z) (l : list ascii) : option Z :=
  match l with
  | [] => Some acc
  | c :: l =>
      let d := Z.of_nat (nat_of_ascii c) - 48 in
      if (0 <=? d) && (d <=? 9) && (acc * 10 + d <=? max)
      then parse_digits max (acc * 10 + d) l else None
  end.

Definition parse_uint (max : Z) (s : string) : option Z :=
  match list_ascii_of_string s with
  | [] => None
  | c :: l =>
      if Ascii.eqb c "+"
      then match l with [] => None | _ => parse_digits max 0 l end
      else parse_digits max 0 (c :: l)
  end.

(** [get_usage], for the names of [Ss58AddressFormat::all] and of its default. *)
Definition get_usage (networks : list string) (default_network : string) : string :=
  "
		-e, --ed25519 'Use Ed25519/BIP39 cryptography'
		-k, --secp256k1 'Use SECP256k1/ECDSA/BIP39 cryptography'
		-s, --sr25519 'Use Schnorr/Ristretto x25519/BIP39 cryptography'
		[network] -n, --network <network> 'Specify a network. One of " +:+
  String.concat "/" networks +:+ ". Default is " +:+ default_network +:+ "'
		[password] -p, --password <password> 'The password for the key'
		--password-interactive 'You will be prompted for the password for the key.'
		[output] -o, --output <output> 'Specify an output format. One of text, json. Default is text.'
	".

(** ** The types of the runtime

    [SignatureT] and [PublicT]: what a signature and a public key of a scheme are as
    the [MultiSignature] and the [MultiSigner] of the runtime; by default, nothing. *)
Section into_runtime.
Context {Sr25519 Ed25519 Ecdsa : Type}.
Inductive Multi : Type :=
| MultiEd25519 (x : Ed25519)
| MultiSr25519 (x : Sr25519)
| MultiEcdsa (x : Ecdsa).

Definition unsupported : string := "This cryptography isn't supported for this runtime.".
Definition signature_into_runtime {T : Type} (self : T) : outcome Empty_set Multi := Panic unsupported.
Definition public_into_runtime {T : Type} (self : T) : outcome Empty_set Multi := Panic unsupported.

Definition sr25519_signature (self : Sr25519) : outcome Empty_set Multi := Return (MultiSr25519 self).
Definition ed25519_signature (self : Ed25519) : outcome Empty_set Multi := Return (MultiEd25519 self).
Definition ecdsa_signature (self : Ecdsa) : outcome Empty_set Multi := Return (MultiEcdsa self).
Definition sr25519_public (self : Sr25519) : outcome Empty_set Multi := Return (MultiSr25519 self).
Definition ed25519_public (self : Ed25519) : outcome Empty_set Multi := Return (MultiEd25519 self).
Definition ecdsa_public (self : Ecdsa) : outcome Empty_set Multi := Return (MultiEcdsa self).
End into_runtime.

(** ** The cryptography

    [sp_core::Pair] with its public keys, seeds and signatures, and the two
    runtime conversions of [PublicT] and [SignatureT], for one scheme. *)
Class Crypto (Pair Public Seed Signature AccountId Version : Type) : Type := {
  from_string : string -> option string -> option Pair;
  from_phrase : string -> option string -> option (Pair * Seed);
  from_string_with_seed : string -> option string -> option (Pair * option Seed);
  public : Pair -> Public;
  public_bytes : Public -> bytes;
  public_from_slice : bytes -> option Public;
  public_from_string : string -> option Public;
  public_from_string_with_version : string -> option (Public * Version);
  public_to_ss58check_with_version : Public -> Version -> string;
  seed_bytes : Seed -> bytes;
  sign : Pair -> bytes -> Signature;
  verify_sig : Signature -> bytes -> Public -> bool;
  signature_bytes : Signature -> bytes;
  signature_len : nat;
  signature_of_bytes : bytes -> Signature;
  into_account : Public -> AccountId;
  account_bytes : AccountId -> bytes;
  account_to_ss58check : Version -> AccountId -> string;
}.

Section subkey.
Context {Pair Public Seed Signature AccountId Version Hash Call Mnemonic : Type}.
Context `{!Crypto Pair Public Seed Signature AccountId Version}.
Context `{!Codec Call, !Codec Hash}.

(** Libraries: hexadecimal, the address formats, JSON, mnemonics, and the
    runtime's signed payloads and extrinsics. *)
Context (hex_decode : bytes -> result string bytes) (hex_display : bytes -> string).
Context (trim_end : string -> string) (utf8_decode : bytes -> option string).
Context (version_of_name : string -> option Version) (version_name : Version -> string).
Context (json_pretty : list (string * string) -> string).
Context (phrase : Mnemonic -> string) (mnemonic_new : Z -> Mnemonic).
Context (account_try_from : bytes -> option AccountId).
Context (account_from_ss58check : string -> option AccountId).
Context (ipci_genesis robonomics_genesis : Hash) (hash_bytes : Hash -> bytes).

(** How the machine treats the tool: where a line breaks off on a closed standard
    output or error, given what was printed before; whether the standard input and an
    existing file can be read; what becomes of a file that is written, which is
    truncated first; and of a request to a node, which may get there although its
    answer does not come back. *)
Inductive Written : Type := WriteDone | NotOpened (e : string) | CutOff (e : string) (n : nat).
Inductive Requested : Type :=
| RpcDone | RpcFailed (e : string) (reached : bool) | RpcPanics (msg : string).
Record Machine : Type := mkMachine {
  stdout_breaks : list string -> string -> option nat;
  stderr_breaks : list string -> string -> option nat;
  stdin_error : option string;
  read_error : string -> option string;
  write_outcome : string -> bytes -> Written;
  rpc_outcome : string * string * string * bytes -> Requested;
}.

(** What the tool works on, on its machine. *)
Record World : Type := mkWorld {
  machine : Machine;
  files : gmap string bytes;
  stdin : bytes;
  tty : list string;
  stdout : list string;
  stderr : list string;
  default_version : Version;
  (** The keys that got to a node. *)
  inserted : list (string * string * string * bytes);
}.

Abbreviation IO := (SO World Error).

Definition set_files (f : gmap string bytes) (w : World) : World :=
  mkWorld (machine w) f (stdin w) (tty w) (stdout w) (stderr w) (default_version w) (inserted w).
Definition set_stdin (v : bytes) (w : World) : World :=
  mkWorld (machine w) (files w) v (tty w) (stdout w) (stderr w) (default_version w) (inserted w).
Definition set_tty (l : list string) (w : World) : World :=
  mkWorld (machine w) (files w) (stdin w) l (stdout w) (stderr w) (default_version w) (inserted w).
Definition add_stdout (s : string) (w : World) : World :=
  mkWorld (machine w) (files w) (stdin w) (tty w) ((stdout w ++ [s])%list) (stderr w)
    (default_version w) (inserted w).
Definition add_stderr (s : string) (w : World) : World :=
  mkWorld (machine w) (files w) (stdin w) (tty w) (stdout w) ((stderr w ++ [s])%list)
    (default_version w) (inserted w).
Definition set_version (v : Version) (w : World) : World :=
  mkWorld (machine w) (files w) (stdin w) (tty w) (stdout w) (stderr w) v (inserted w).
Definition add_inserted (k : string * string * string * bytes) (w : World) : World :=
  mkWorld (machine w) (files w) (stdin w) (tty w) (stdout w) (stderr w) (default_version w)
    ((inserted w ++ [k])%list).

(** [println!] and [eprintln!] panic when the line cannot be written. *)
Definition broken_stdout : string := "failed printing to stdout".
Definition broken_stderr : string := "failed printing to stderr".
Definition println (s : string) : IO unit := fun w =>
  match stdout_breaks (machine w) (stdout w) s with
  | None => (Return tt, add_stdout s w)
  | Some n => (Panic broken_stdout, add_stdout (String.substring 0 n s) w)
  end.
Definition eprintln (s : string) : IO unit := fun w =>
  match stderr_breaks (machine w) (stderr w) s with
  | None => (Return tt, add_stderr s w)
  | Some n => (Panic broken_stderr, add_stderr (String.substring 0 n s) w)
  end.
Definition set_default_ss58_version (v : Version) : IO unit := so_modify (set_version v).
(** [RpcClient::insert_key]: the request is a task of a new runtime ([rt::run]), which
    may not start; its failure is printed by the task, whose panics go no further,
    and not returned. *)
Definition insert_key (url key_type suri : string) (pub : bytes) : IO unit := fun w =>
  let key := (url, key_type, suri, pub) in
  match rpc_outcome (machine w) key with
  | RpcDone => (Return tt, add_inserted key w)
  | RpcFailed e reached =>
      (Return tt, (eprintln ("Error inserting key: " +:+ e)
                     (if reached then add_inserted key w else w)).2)
  | RpcPanics msg => (Panic msg, w)
  end.
Definition read_password_from_tty : IO string := fun w =>
  match tty w with
  | s :: tty' => (Return s, set_tty tty' w)
  | [] => (Fail (Io "no terminal"), w)
  end.
Definition read_to_end : IO bytes := fun w =>
  match stdin_error (machine w) with
  | None => (Return (stdin w), set_stdin [] w)
  | Some e => (Fail (Io e), set_stdin [] w)
  end.

(** ** The helpers *)

Definition decode_hex (message : bytes) : outcome Error bytes :=
  match hex_decode message with
  | Ok v => Return v
  | Err e => Fail (Formatted ("Invalid hex (" +:+ e +:+ ")"))
  end.

Definition get_uri (match_name : string) (matches : Args) : IO string :=
  match value_of matches match_name with
  | Some uri => fun w =>
      match files w !! uri, read_error (machine w) uri with
      | Some content, None =>
          match utf8_decode content with
          | Some s => (Return (trim_end s), w)
          | None => (Fail (Io "stream did not contain valid UTF-8"), w)
          end
      | Some _, Some e => (Fail (Io e), w)
      | None, _ => (Return uri, w)
      end
  | None => read_password_from_tty
  end.

Definition generate_mnemonic (matches : Args) : outcome Error Mnemonic :=
  match value_of matches "words" with
  | Some words =>
      num ← match parse_uint u64_max words with
            | Some n => Return n
            | None => Fail (Static "Invalid number given for --words")
            end;
      if existsb (Z.eqb num) [12; 15; 18; 21; 24] then Return (mnemonic_new num)
      else Fail (Static "Invalid number of words given for phrase: must be 12/15/18/21/24")
  | None => Return (mnemonic_new 12)
  end.

Definition read_message_from_stdin (should_decode : bool) : IO bytes :=
  message ← read_to_end;
  if should_decode then so_lift (decode_hex message) else mret message.

Definition read_required_parameter (max : Z) (matches : Args) (name : string) : outcome Error Z :=
  match value_of matches name with
  | Some str_value =>
      match parse_uint max str_value with
      | Some n => Return n
      | None => Fail (Formatted ("Invalid `" +:+ name +:+ "' parameter; expecting an integer."))
      end
  | None => Panic "parameter is required; thus it can't be None; qed"
  end.

Definition read_genesis_hash (matches : Args) : IO Hash :=
  genesis_hash ← so_lift (
    match default "ipci" (value_of matches "genesis") with
    | "ipci" => Return ipci_genesis
    | "robonomics" => Return robonomics_genesis
    | h =>
        v ← decode_hex (str_bytes h);
        expect_some "Invalid genesis hash or unrecognized chain identifier" (decode v)
    end);
  _ ← println ("Using a genesis hash of " +:+ hex_display (hash_bytes genesis_hash));
  mret genesis_hash.

Definition read_signature (matches : Args) : outcome Error Signature :=
  match value_of matches "sig" with
  | None => Panic "signature parameter is required; thus it can't be None; qed"
  | Some sig =>
      sig_data ← decode_hex (str_bytes sig);
      if (List.length sig_data =? signature_len)%nat then Return (signature_of_bytes sig_data)
      else Fail (Formatted ("signature has an invalid length. read " +:+
        pretty (List.length sig_data) +:+ " bytes, expected " +:+ pretty signature_len +:+
        " bytes"))
  end.

(** [if uri.starts_with("0x") { &uri[2..] } else { uri }] *)
Definition strip_0x (uri : string) : string :=
  match uri with
  | String "0" (String "x" rest) => rest
  | _ => uri
  end.

Definition read_public_key (matched_uri : option string) : outcome Error Public :=
  uri ← expect_some "parameter is required; thus it can't be None; qed" matched_uri;
  let uri := strip_0x uri in
  match hex_decode (str_bytes uri) with
  | Ok pubkey_vec => expect_some "source slice length does not match" (public_from_slice pubkey_vec)
  | Err _ =>
      expect_some "Invalid URI; expecting either a secret URI or a public URI."
        (public_from_string uri)
  end.

Definition read_account_id (matched_uri : option string) : outcome Error AccountId :=
  uri ← expect_some "parameter is required; thus it can't be None; qed" matched_uri;
  let uri := strip_0x uri in
  match hex_decode (str_bytes uri) with
  | Ok data_vec =>
      expect_some "Invalid hex length for account ID; should be 32 bytes" (account_try_from data_vec)
  | Err _ =>
      expect_some "Invalid SS58-check address given for account ID." (account_from_ss58check uri)
  end.

(** [Crypto::pair_from_suri]; [Ed25519] overrides it with [from_legacy_string],
    which is the instance's [from_string]. *)
Definition pair_from_suri (suri : string) (password : option string) : outcome Error Pair :=
  expect_some "Invalid phrase" (from_string suri password).

Definition read_pair (matched_suri password : option string) : outcome Error Pair :=
  match matched_suri with
  | Some suri => pair_from_suri suri password
  | None => Fail (Static "parameter is required; thus it can't be None; qed")
  end.

Definition format_signature (signature : Signature) : string := hex_display (signature_bytes signature).
Definition format_seed (seed : Seed) : string := "0x" +:+ hex_display (seed_bytes seed).
Definition format_public_key (public_key : Public) : string :=
  "0x" +:+ hex_display (public_bytes public_key).
Definition format_account_id (public_key : Public) : string :=
  "0x" +:+ hex_display (account_bytes (into_account public_key)).

Definition do_sign (suri : string) (message : bytes) (password : option string) :
    outcome Error string :=
  pair ← read_pair (Some suri) password;
  Return (format_signature (sign pair message)).

Definition do_verify (matches : Args) (uri : string) (message : bytes) : outcome Error bool :=
  signature ← read_signature matches;
  pubkey ← read_public_key (Some uri);
  Return (verify_sig signature message pubkey).

(** [print_from_uri]: the account of a secret phrase, of a secret URI, or of a
    public key, as text or as JSON. *)
Definition text_lines (first : string) (fields : list (string * string)) : string :=
  foldl (fun acc f => acc +:+ String "010" (String " " (String " " (f.1 +:+ f.2)))) first fields.

Definition ss58_from_pair (v : Version) (pair : Pair) : string :=
  account_to_ss58check v (into_account (public pair)).

Definition print_secret (json_key text_key : string) (uri seed : string) (pair : Pair)
    (v dflt : Version) (output : OutputType) : IO unit :=
  let public_key := public pair in
  match output with
  | Json => println (json_pretty
      [(json_key, uri); ("networkId", version_name v); ("secretSeed", seed);
       ("publicKey", format_public_key public_key); ("accountId", format_account_id public_key);
       ("ss58Address", ss58_from_pair dflt pair)])
  | Text => println (text_lines (text_key +:+ " `" +:+ uri +:+ "` is account:")
      [("Network ID/version: ", version_name v); ("Secret seed:        ", seed);
       ("Public key (hex):   ", format_public_key public_key);
       ("Account ID:         ", format_account_id public_key);
       ("SS58 Address:       ", ss58_from_pair dflt pair)])
  end.

Definition print_public (uri : string) (public_key : Public) (v : Version)
    (output : OutputType) : IO unit :=
  match output with
  | Json => println (json_pretty
      [("publicKeyUri", uri); ("networkId", version_name v);
       ("publicKey", format_public_key public_key); ("accountId", format_account_id public_key);
       ("ss58Address", public_to_ss58check_with_version public_key v)])
  | Text => println (text_lines ("Public Key URI `" +:+ uri +:+ "` is account:")
      [("Network ID/version: ", version_name v);
       ("Public key (hex):   ", format_public_key public_key);
       ("Account ID:         ", format_account_id public_key);
       ("SS58 Address:       ", public_to_ss58check_with_version public_key v)])
  end.

Definition print_from_uri (uri : string) (password : option string)
    (network_override : option Version) (output : OutputType) : IO unit :=
  dflt ← so_gets default_version;
  let v := default dflt network_override in
  match from_phrase uri password with
  | Some (pair, seed) =>
      print_secret "secretPhrase" "Secret phrase" uri (format_seed seed) pair v dflt output
  | None =>
      match from_string_with_seed uri password with
      | Some (pair, seed) =>
          let seed := match seed with Some seed => format_seed seed | None => "n/a" end in
          print_secret "secretKeyUri" "Secret Key URI" uri seed pair v dflt output
      | None =>
          match public_from_string_with_version uri with
          | Some (public_key, v) =>
              print_public uri public_key (default v network_override) output
          | None => eprintln "Invalid phrase/URI given"
          end
      end
  end.

(** [create_extrinsic]: the extra data and the additional data that are signed
    with the call; [payload_bytes] is [SignedPayload::using_encoded]. *)
Record Extra : Type := mkSignedExtra { immortal : bool; nonce : Z; tip : Z }.
Record Additional : Type := mkAdditional {
  add_spec_version : Z; add_transaction_version : Z; add_genesis : Hash; add_era_hash : Hash }.
Record UncheckedExtrinsic : Type := mkExtrinsic {
  function : Call; signer : AccountId; signature : Signature; extra : Extra }.

Context (payload_bytes : Call -> Extra -> Additional -> bytes).
Context (extrinsic_bytes : UncheckedExtrinsic -> bytes).

Definition create_extrinsic (function : Call) (index : Z) (signer : Pair) (genesis_hash : Hash) :
    UncheckedExtrinsic :=
  let extra := mkSignedExtra true index 0 in
  let additional := mkAdditional (spec_version Robonomics.VERSION)
    (transaction_version Robonomics.VERSION) genesis_hash genesis_hash in
  let signature := sign signer (payload_bytes function extra additional) in
  mkExtrinsic function (into_account (public signer)) signature extra.

Definition print_extrinsic (extrinsic : UncheckedExtrinsic) : IO unit :=
  println ("0x" +:+ hex_display (extrinsic_bytes extrinsic)).

(** What the commands call besides: the balances' [transfer] call, node keys,
    vanity keys, key types, module accounts. *)
Context (transfer : AccountId -> Z -> Call).
Context (node_key_generate : bytes * string) (node_key_from_bytes : bytes -> option string).
Context (generate_vanity : string -> outcome string Seed).
Context (key_type_ok : string -> bool) (module_account : bytes -> AccountId).
Context (SubstrateAccount : Version) (usage : string).

Definition require (o : option string) (msg : string) : IO string :=
  match o with Some s => mret s | None => so_throw (Static msg) end.
Definition fail_static {A} (m : outcome string A) : outcome Error A :=
  match m with Return a => Return a | Fail e => Fail (Static e) | Panic p => Panic p end.

(** [fs::write]: the file is opened and truncated, and then written. *)
Definition write_file (name : string) (content : bytes) : IO unit := fun w =>
  match write_outcome (machine w) name content with
  | WriteDone => (Return tt, set_files (<[name := content]> (files w)) w)
  | NotOpened e => (Fail (Io e), w)
  | CutOff e n => (Fail (Io e), set_files (<[name := take n content]> (files w)) w)
  end.
Definition read_file (name : string) : IO bytes := fun w =>
  match files w !! name, read_error (machine w) name with
  | Some content, None => (Return content, w)
  | Some _, Some e => (Fail (Io e), w)
  | None, _ => (Fail (Io "No such file or directory"), w)
  end.

(** The commands of [execute], after the common options. *)
Definition run_generate (matches : Args) (password : option string) (network : option Version)
    (output : OutputType) : IO unit :=
  mnemonic ← so_lift (generate_mnemonic matches);
  print_from_uri (phrase mnemonic) password network output.

Definition run_generate_node_key (matches : Args) : IO unit :=
  file ← require (value_of matches "file") "Output file name is required";
  _ ← write_file file node_key_generate.1;
  println node_key_generate.2.

Definition run_inspect (matches : Args) (password : option string) (network : option Version)
    (output : OutputType) : IO unit :=
  uri ← get_uri "uri" matches;
  print_from_uri uri password network output.

Definition run_inspect_node_key (matches : Args) : IO unit :=
  file ← require (value_of matches "file") "Input file name is required";
  file_content ← read_file file;
  match node_key_from_bytes file_content with
  | Some peer_id => println peer_id
  | None => so_throw (Static "Bad node key file")
  end.

Definition run_sign (matches : Args) (password : option string) : IO unit :=
  suri ← get_uri "suri" matches;
  message ← read_message_from_stdin (is_present matches "hex");
  signature ← so_lift (do_sign suri message password);
  println signature.

Definition run_verify (matches : Args) : IO unit :=
  uri ← get_uri "uri" matches;
  message ← read_message_from_stdin (is_present matches "hex");
  is_valid_signature ← so_lift (do_verify matches uri message);
  if (is_valid_signature : bool) then println "Signature verifies correctly."
  else so_throw (Static "Signature invalid.").

Definition run_vanity (matches : Args) (network : option Version) (output : OutputType) : IO unit :=
  let desired := default "" (value_of matches "pattern") in
  seed ← so_lift (fail_static (generate_vanity desired));
  print_from_uri (format_seed seed) None network output.

Definition run_transfer (matches : Args) (password : option string) : IO unit :=
  signer ← so_lift (read_pair (value_of matches "from") password);
  index ← so_lift (read_required_parameter u32_max matches "index");
  genesis_hash ← read_genesis_hash matches;
  to ← so_lift (read_account_id (value_of matches "to"));
  amount ← so_lift (read_required_parameter u128_max matches "amount");
  print_extrinsic (create_extrinsic (transfer to amount) index signer genesis_hash).

Definition run_sign_transaction (matches : Args) (password : option string) : IO unit :=
  signer ← so_lift (read_pair (value_of matches "suri") password);
  index ← so_lift (read_required_parameter u32_max matches "nonce");
  genesis_hash ← read_genesis_hash matches;
  call ← so_lift (expect_some "call is required; qed" (value_of matches "call"));
  function ← so_lift (expect_some "called `Option::unwrap()` on a `None` value"
    (ok (hex_decode (str_bytes call)) ≫= decode));
  print_extrinsic (create_extrinsic function index signer genesis_hash).

Definition run_insert (matches : Args) (password : option string) : IO unit :=
  suri ← get_uri "suri" matches;
  pair ← so_lift (read_pair (Some suri) password);
  let node_url := default "http://localhost:9933" (value_of matches "node-url") in
  key_type ← require (value_of matches "key-type") "Key type id is required";
  if key_type_ok key_type then insert_key node_url key_type suri (public_bytes (public pair))
  else so_throw (Static
    "Cannot convert argument to keytype: argument should be 4-character string").

Definition run_moduleid (matches : Args) (password : option string) (network : option Version)
    (output : OutputType) : IO unit :=
  id ← get_uri "id" matches;
  if (String.length id =? 8)%nat then
    let v := default SubstrateAccount network in
    print_from_uri (account_to_ss58check v (module_account (str_bytes id))) password network output
  else so_throw (Static "a module id must be a string of 8 characters").

(** [execute]: the common options, then the command. *)
Definition read_password (matches : Args) : IO (option string) :=
  let password := value_of matches "password" in
  if bool_decide (is_Some password) && is_present matches "password-interactive" then
    so_throw (Static "`--password` given and `--password-interactive` selected!")
  else if is_present matches "password-interactive" then
    p ← read_password_from_tty; mret (Some p)
  else mret password.

Definition read_network (matches : Args) : IO (option Version) :=
  match value_of matches "network" with
  | None => mret None
  | Some network =>
      match version_of_name network with
      | None => so_throw
          (Static "Invalid network name. See --help for available networks.")
      | Some v => _ ← set_default_ss58_version v; mret (Some v)
      end
  end.

Definition read_output (matches : Args) : IO OutputType :=
  match value_of matches "output" with
  | None => mret Text
  | Some s =>
      match output_try_from s with
      | Some o => mret o
      | None => so_throw (Static "Invalid output name. See --help for available outputs.")
      end
  end.

Definition execute (matches : ArgMatches) : IO unit :=
  password ← read_password (top matches);
  maybe_network ← read_network (top matches);
  output ← read_output (top matches);
  match subcommand matches with
  | Some ("generate", m) => run_generate m password maybe_network output
  | Some ("generate-node-key", m) => run_generate_node_key m
  | Some ("inspect", m) => run_inspect m password maybe_network output
  | Some ("inspect-node-key", m) => run_inspect_node_key m
  | Some ("sign", m) => run_sign m password
  | Some ("verify", m) => run_verify m
  | Some ("vanity", m) => run_vanity m maybe_network output
  | Some ("transfer", m) => run_transfer m password
  | Some ("sign-transaction", m) => run_sign_transaction m password
  | Some ("insert", m) => run_insert m password
  | Some ("moduleid", m) => run_moduleid m password maybe_network output
  | _ => println usage
  end.
End subkey.
