(* ===== verification/SubkeyFacts.v ===== *)
(** * The key tool: what its commands guarantee *)
From stdpp Require Import prelude gmap strings list pretty.
From Stdlib Require Import ZArith Lia Ascii.
From Stdlib Require Import String.
From S2P Require Import Prelude Codec Vanity Runtime Subkey.
Local Open Scope string_scope.
Local Open Scope Z_scope.

Section facts.
Context {Pair Public Seed Signature AccountId Version Hash Call : Type}.
Context `{!Crypto Pair Public Seed Signature AccountId Version}.
Context `{!Codec Call, !Codec Hash}.
Context (hex_decode : bytes -> result string bytes) (hex_display : bytes -> string).
Context (ipci_genesis robonomics_genesis : Hash) (hash_bytes : Hash -> bytes).
Context (payload_bytes : Call -> Extra -> @Additional Hash -> bytes).
Context (extrinsic_bytes : @UncheckedExtrinsic Signature AccountId Call -> bytes).

Abbreviation sign_transaction :=
  (run_sign_transaction hex_decode hex_display ipci_genesis robonomics_genesis hash_bytes
     payload_bytes extrinsic_bytes).
Abbreviation genesis_of :=
  (read_genesis_hash (Version := Version) hex_decode hex_display ipci_genesis robonomics_genesis
     hash_bytes).
Abbreviation new_extrinsic := (create_extrinsic payload_bytes).
Implicit Types (w : @World Version) (m : Args).

(** A digit string never denotes more than the bound. *)
Lemma parse_digits_bound max acc l n :
  0 <= acc <= max -> parse_digits max acc l = Some n -> 0 <= n <= max.
Proof.
  revert acc. induction l as [|c l IH]; intros acc Ha; cbn; [congruence|].
  destruct (_ && _ && _) eqn:Hc; [|done].
  apply andb_prop in Hc as [[H1%Z.leb_le H2%Z.leb_le]%andb_prop H3%Z.leb_le].
  apply IH. lia.
Qed.

Lemma parse_uint_bound max s n : 0 <= max -> parse_uint max s = Some n -> 0 <= n <= max.
Proof.
  intros Hm. unfold parse_uint. destruct (list_ascii_of_string s) as [|c l]; [done|].
  destruct (Ascii.eqb c "+"); [destruct l; [done|]|]; apply parse_digits_bound; lia.
Qed.

(** What the signature scheme and the hexadecimal form promise. *)
Record scheme_ok : Prop := {
  hex_round v : Forall byte_ok v -> hex_decode (str_bytes (hex_display v)) = Ok v;
  sig_bytes s : Forall byte_ok (signature_bytes s);
  pub_bytes (p : Public) : Forall byte_ok (public_bytes p);
  sig_round s : signature_of_bytes (signature_bytes s) = s;
  sig_length s : List.length (signature_bytes s) = signature_len;
  public_round (p : Public) : public_from_slice (public_bytes p) = Some p;
  verify_signed (p : Pair) v : verify_sig (sign p v) v (public p) = true;
}.

(** What was signed verifies, for every secret URI, password and message. *)
Lemma do_sign_verify (suri : string) (password : option string) (message : bytes)
    (pair : Pair) :
  scheme_ok -> from_string suri password = Some pair ->
  let sig := hex_display (signature_bytes (sign pair message)) in
  do_sign hex_display suri message password = Return sig /\
  forall m, value_of m "sig" = Some sig ->
    forall other, do_verify hex_decode m (format_public_key hex_display (public pair)) other =
      Return (verify_sig (sign pair message) other (public pair)).
Proof.
  intros [Hhex Hsb Hpb Hsig Hlen Hpub Hver] Hpair. cbn zeta.
  unfold do_sign, read_pair, pair_from_suri. rewrite Hpair. split; [done|].
  intros m Hm other. unfold do_verify, read_signature. rewrite Hm.
  unfold decode_hex. rewrite Hhex by apply Hsb. cbn [mbind outcome_bind].
  rewrite Hlen, Nat.eqb_refl. cbn [mbind outcome_bind].
  unfold read_public_key, format_public_key. cbn [expect_some mbind outcome_bind].
  change (strip_0x ("0x" +:+ hex_display (public_bytes (public pair))))
    with (hex_display (public_bytes (public pair))).
  rewrite Hhex, Hpub by apply Hpb. cbn [expect_some mbind outcome_bind].
  by rewrite Hsig.
Qed.

(** What standard input holds, as the [hex] flag says to read it, if it can be read. *)
Definition stdin_message m w : outcome Error bytes :=
  match stdin_error (machine w) with
  | Some e => Fail (Io e)
  | None => if is_present m "hex" then decode_hex hex_decode (stdin w) else Return (stdin w)
  end.
(** A standard output that takes every line. *)
Definition prints_all (mc : Machine) : Prop := forall out s, stdout_breaks mc out s = None.
Lemma println_all s w : prints_all (machine w) -> println s w = (Return tt, add_stdout s w).
Proof. intros H. unfold println. by rewrite H. Qed.

Lemma read_message_eq m w :
  read_message_from_stdin hex_decode (is_present m "hex") w =
    (stdin_message m w, set_stdin [] w).
Proof.
  unfold read_message_from_stdin, stdin_message, read_to_end. so_unfold.
  by destruct (stdin_error (machine w)), (is_present m "hex").
Qed.

Context (trim_end : string -> string) (utf8_decode : bytes -> option string).
Abbreviation run_sign' := (run_sign hex_decode hex_display trim_end utf8_decode).
Abbreviation run_verify' := (run_verify hex_decode trim_end utf8_decode).

(** An argument that names no file is the URI itself. *)
Lemma get_uri_literal name m uri w :
  value_of m name = Some uri -> files w !! uri = None ->
  get_uri trim_end utf8_decode name m w = (Return uri, w).
Proof. intros Hm Hf. unfold get_uri. by rewrite Hm, Hf. Qed.

(** C32: what [subkey sign] prints, [subkey verify] accepts.  On a standard output that
    works, for every secret URI, password and message, read as bytes or as hexadecimal: signing prints one
    line, and verifying that line against the public key of the URI prints that it
    verifies when standard input holds the same message, and fails, printing
    nothing, when it holds one for which the signature is not valid. *)
Theorem sign_then_verify m m' (suri : string) (password : option string) (pair : Pair)
    w w' (message other : bytes) :
  scheme_ok -> prints_all (machine w) -> prints_all (machine w') ->
  from_string suri password = Some pair ->
  value_of m "suri" = Some suri -> files w !! suri = None ->
  stdin_message m w = Return message -> stdin_message m' w' = Return other ->
  value_of m' "uri" = Some (format_public_key hex_display (public pair)) ->
  files w' !! format_public_key hex_display (public pair) = None ->
  exists sig w1 w2,
    run_sign' m password w = (Return tt, w1) /\ stdout w1 = (stdout w ++ [sig])%list /\
    (value_of m' "sig" = Some sig ->
       (other = message ->
          run_verify' m' w' = (Return tt, w2) /\
          stdout w2 = (stdout w' ++ ["Signature verifies correctly."])%list) /\
       (verify_sig (sign pair message) other (public pair) = false ->
          exists w3, run_verify' m' w' = (Fail (Static "Signature invalid."), w3) /\
            stdout w3 = stdout w')).
Proof.
  intros Hok Hall Hall' Hpair Hm Hw Hmsg Hmsg' Hm' Hw'.
  destruct (do_sign_verify suri password message pair Hok Hpair) as [Hs Hv].
  set (sig := hex_display (signature_bytes (sign pair message))) in *.
  set (w0 := set_stdin [] w').
  exists sig, (add_stdout sig (set_stdin [] w)), (add_stdout "Signature verifies correctly." w0).
  split; [|split].
  - unfold run_sign. erewrite so_bind_return by (by apply get_uri_literal).
    erewrite so_bind_return by (rewrite read_message_eq, Hmsg; done).
    erewrite so_bind_return by (unfold so_lift; by rewrite Hs). by apply println_all.
  - done.
  - intros Hsig.
    assert (Hrun : run_verify' m' w' =
      (if verify_sig (sign pair message) other (public pair)
       then println "Signature verifies correctly." w0
       else (Fail (Static "Signature invalid."), w0))).
    { unfold run_verify. erewrite so_bind_return by (by apply get_uri_literal).
      erewrite so_bind_return by (rewrite read_message_eq, Hmsg'; done).
      erewrite so_bind_return by (unfold so_lift; by rewrite (Hv _ Hsig)).
      by destruct (verify_sig _ _ _). }
    rewrite Hrun. split.
    + intros ->. rewrite (verify_signed Hok). split; [by apply println_all|done].
    + intros ->. by exists w0.
Qed.

(** ** Transactions *)

Lemma parsed_absent command m name :
  parsed command m -> name ∉ declared_args command -> value_of m name = None.
Proof.
  intros Hp Hn. destruct (value_of m name) eqn:Hv; [|done]. destruct Hn. apply Hp.
  unfold is_present, value_of in *. rewrite Hv.
  by rewrite (bool_decide_true (is_Some _)), orb_true_r.
Qed.

(** [sign-transaction] always signs for IPCI.  The command declares no
    [genesis] argument, so the genesis hash is the default, IPCI's, whatever
    the command line says; and the declared [prior-block-hash] and [password]
    change nothing. *)
Lemma sign_transaction_genesis m (password : option string) w :
  parsed "sign-transaction" m -> prints_all (machine w) ->
  (genesis_of m w).1 = Return ipci_genesis /\
  forall name value, name = "prior-block-hash" \/ name = "password" ->
    sign_transaction (mkArgs (<[name := value]> (values m)) (flags m)) password w =
      sign_transaction m password w.
Proof.
  intros Hp Hall. split.
  - unfold read_genesis_hash.
    rewrite (parsed_absent "sign-transaction" m "genesis" Hp); [|by apply (bool_decide_unpack _)].
    cbn [default]. so_unfold. by rewrite println_all.
  - intros name value Hname. unfold run_sign_transaction, read_genesis_hash,
      read_required_parameter, value_of; cbn [values].
    by destruct Hname; subst; rewrite !lookup_insert_ne by done.
Qed.

(** What a node whose runtime has the given version and genesis checks of an
    immortal extrinsic. *)
Definition node_accepts (verify_account : Signature -> bytes -> AccountId -> bool)
    (version : RuntimeVersion) (genesis : Hash) (xt : @UncheckedExtrinsic Signature AccountId Call) : bool :=
  verify_account (signature xt)
    (payload_bytes (function xt) (extra xt)
       (mkAdditional (spec_version version) (transaction_version version) genesis genesis))
    (signer xt).

(** Only Robonomics accepts what the tool signs.  The extrinsics carry the
    versions of the Robonomics runtime: a Robonomics node with the genesis they
    were made for accepts them, and no IPCI node does, whatever the genesis
    chosen, although IPCI's is the default.  (The signature scheme is ideal, and
    two different payloads have different signed bytes: collisions of the hash of
    a long payload are left aside.) *)
Lemma extrinsics_for_robonomics_only
    (verify_account : Signature -> bytes -> AccountId -> bool)
    (f : Call) (index : Z) (pair : Pair) (genesis other : Hash) :
  (forall v v', verify_account (sign pair v) v' (into_account (public pair)) = true <-> v = v') ->
  (forall f e a a', payload_bytes f e a = payload_bytes f e a' -> a = a') ->
  node_accepts verify_account Robonomics.VERSION genesis (new_extrinsic f index pair genesis) = true /\
  node_accepts verify_account Ipci.VERSION other (new_extrinsic f index pair genesis) = false.
Proof.
  intros Hver Hinj. unfold node_accepts, create_extrinsic; cbn [function extra signature signer].
  split; [by apply Hver|]. apply not_true_iff_false. rewrite Hver. by intros Heq%Hinj.
Qed.
End facts.
