(* ===== verification/SubkeyEffects.v ===== *)
(** * The key tool: what its commands leave behind

    The commands of [subkey] read files, print, and at most write one node key
    file or send one key to a node.  A computation is quiet when, however it
    ends, the files and the keys at nodes are what they were; the commands are quiet
    by construction, but for two. *)
From stdpp Require Import prelude gmap strings list pretty.
From Stdlib Require Import ZArith Lia Ascii.
From Stdlib Require Import String.
From S2P Require Import Prelude Codec Vanity Runtime Subkey.
Local Open Scope string_scope.
Local Open Scope Z_scope.

Section quiet.
Context {Version : Type}.
Abbreviation world := (@World Version).
Abbreviation IO := (SO world Error).

(** Files and keys are as they were, on the same machine. *)
Definition unchanged (w w' : world) : Prop :=
  machine w' = machine w /\ files w' = files w /\ inserted w' = inserted w.
#[export] Instance unchanged_preorder : PreOrder unchanged.
Proof.
  split; [done|]. intros w1 w2 w3 (H1 & H2 & H3) (H4 & H5 & H6).
  split; [|split]; etrans; eassumption.
Qed.

Definition quiet {A} (m : IO A) : Prop := forall w, unchanged w (m w).2.

Lemma quiet_ret {A} (a : A) : quiet (mret a).
Proof. done. Qed.
Lemma quiet_lift {A} (m : outcome Error A) : quiet (so_lift m).
Proof. done. Qed.
Lemma quiet_throw {A} (e : Error) : quiet (so_throw e : IO A).
Proof. done. Qed.
Lemma quiet_gets {A} (f : world -> A) : quiet (so_gets f).
Proof. done. Qed.
Lemma quiet_bind {A B} (m : IO A) (f : A -> IO B) :
  quiet m -> (forall a, quiet (f a)) -> quiet (m ≫= f).
Proof.
  intros Hm Hf w. unfold mbind, SO_bind. specialize (Hm w).
  destruct (m w) as [[a|e|p] w1]; cbn [snd] in *; [|done|done].
  etrans; [exact Hm|apply Hf].
Qed.
Lemma quiet_println s : quiet (println s).
Proof. intros w. unfold println. by destruct (stdout_breaks _ _ _). Qed.
Lemma quiet_eprintln s : quiet (eprintln s).
Proof. intros w. unfold eprintln. by destruct (stderr_breaks _ _ _). Qed.
Lemma quiet_set_default v : quiet (set_default_ss58_version v).
Proof. done. Qed.
Lemma quiet_read_tty : quiet read_password_from_tty.
Proof. intros w. unfold read_password_from_tty. by destruct (tty w). Qed.
Lemma quiet_read_to_end : quiet read_to_end.
Proof. intros w. unfold read_to_end. by destruct (stdin_error (machine w)). Qed.
Lemma quiet_read_file name : quiet (read_file name).
Proof. intros w. unfold read_file. by destruct (files w !! name), (read_error (machine w) name). Qed.
Lemma quiet_require o msg : quiet (require o msg).
Proof. by destruct o. Qed.
End quiet.

Create HintDb quiet.
#[export] Hint Resolve quiet_ret quiet_lift quiet_throw quiet_gets quiet_bind quiet_println
  quiet_eprintln quiet_set_default quiet_read_tty quiet_read_to_end quiet_read_file quiet_require
  : quiet.

(** Binds, cases and the lemmas of the database. *)
Ltac quiet :=
  repeat (intros; first
    [ solve [eauto with quiet nocore]
    | apply quiet_bind
    | match goal with |- quiet (match ?x with _ => _ end) => destruct x end ]).

Section commands.
Context {Pair Public Seed Signature AccountId Version Hash Call Mnemonic : Type}.
Context `{!Crypto Pair Public Seed Signature AccountId Version}.
Context `{!Codec Call, !Codec Hash}.
Context (hex_decode : bytes -> result string bytes) (hex_display : bytes -> string).
Context (trim_end : string -> string) (utf8_decode : bytes -> option string).
Context (version_of_name : string -> option Version) (version_name : Version -> string).
Context (json_pretty : list (string * string) -> string).
Context (phrase : Mnemonic -> string) (mnemonic_new : Z -> Mnemonic).
Context (account_try_from : bytes -> option AccountId).
Context (account_from_ss58check : string -> option AccountId).
Context (ipci_genesis robonomics_genesis : Hash) (hash_bytes : Hash -> bytes).
Context (payload_bytes : Call -> Extra -> @Additional Hash -> bytes).
Context (extrinsic_bytes : @UncheckedExtrinsic Signature AccountId Call -> bytes).
Context (transfer : AccountId -> Z -> Call).
Context (node_key_generate : bytes * string) (node_key_from_bytes : bytes -> option string).
Context (generate_vanity : string -> outcome string Seed).
Context (key_type_ok : string -> bool) (module_account : bytes -> AccountId).
Context (SubstrateAccount : Version) (usage : string).

Abbreviation world := (@World Version).
Abbreviation execute' :=
  (execute hex_decode hex_display trim_end utf8_decode version_of_name version_name json_pretty
     phrase mnemonic_new account_try_from account_from_ss58check ipci_genesis robonomics_genesis
     hash_bytes payload_bytes extrinsic_bytes transfer node_key_generate node_key_from_bytes
     generate_vanity key_type_ok module_account SubstrateAccount usage).
Abbreviation run_insert' := (run_insert trim_end utf8_decode key_type_ok).
Abbreviation run_node_key := (run_generate_node_key node_key_generate).
Implicit Types (w : world) (m : Args).

Lemma quiet_get_uri name m : quiet (Version := Version) (get_uri trim_end utf8_decode name m).
Proof.
  unfold get_uri. destruct (value_of m name) as [uri|]; [|quiet].
  intros w. destruct (files w !! uri) as [c|], (read_error (machine w) uri); try done.
  by destruct (utf8_decode c).
Qed.
Lemma quiet_read_message b : quiet (Version := Version) (read_message_from_stdin hex_decode b).
Proof. unfold read_message_from_stdin. quiet. Qed.
Lemma quiet_print_from_uri uri password v output :
  quiet (print_from_uri (Version := Version) hex_display version_name json_pretty uri password v
    output).
Proof. unfold print_from_uri, print_secret, print_public. quiet. Qed.
Lemma quiet_genesis m :
  quiet (read_genesis_hash (Version := Version) hex_decode hex_display ipci_genesis
    robonomics_genesis hash_bytes m).
Proof. unfold read_genesis_hash. quiet. Qed.
#[local] Hint Resolve quiet_get_uri quiet_read_message quiet_print_from_uri quiet_genesis : quiet.

Lemma quiet_read_password m : quiet (Version := Version) (read_password m).
Proof. unfold read_password. quiet. Qed.
Lemma quiet_read_network m : quiet (Version := Version) (read_network version_of_name m).
Proof. unfold read_network. quiet. Qed.
Lemma quiet_read_output m : quiet (Version := Version) (read_output m).
Proof. unfold read_output. quiet. Qed.

Lemma quiet_generate m password network output :
  quiet (run_generate (Version := Version) hex_display version_name json_pretty phrase mnemonic_new
    m password network output).
Proof. unfold run_generate. quiet. Qed.
Lemma quiet_inspect m password network output :
  quiet (run_inspect (Version := Version) hex_display trim_end utf8_decode version_name
    json_pretty m password network output).
Proof. unfold run_inspect. quiet. Qed.
Lemma quiet_inspect_node_key m :
  quiet (Version := Version) (run_inspect_node_key node_key_from_bytes m).
Proof. unfold run_inspect_node_key. quiet. Qed.
Lemma quiet_sign m password :
  quiet (run_sign (Version := Version) hex_decode hex_display trim_end utf8_decode m password).
Proof. unfold run_sign. quiet. Qed.
Lemma quiet_verify m :
  quiet (run_verify (Version := Version) hex_decode trim_end utf8_decode m).
Proof. unfold run_verify. quiet. Qed.
Lemma quiet_vanity m network output :
  quiet (run_vanity (Version := Version) hex_display version_name json_pretty generate_vanity m
    network output).
Proof. unfold run_vanity. quiet. Qed.
Lemma quiet_transfer m password :
  quiet (run_transfer (Version := Version) hex_decode hex_display account_try_from
    account_from_ss58check ipci_genesis robonomics_genesis hash_bytes payload_bytes
    extrinsic_bytes transfer m password).
Proof. unfold run_transfer, print_extrinsic. quiet. Qed.
Lemma quiet_sign_transaction m password :
  quiet (run_sign_transaction (Version := Version) hex_decode hex_display ipci_genesis
    robonomics_genesis hash_bytes payload_bytes extrinsic_bytes m password).
Proof. unfold run_sign_transaction, print_extrinsic. quiet. Qed.
Lemma quiet_moduleid m password network output :
  quiet (run_moduleid (Version := Version) hex_display trim_end utf8_decode version_name
    json_pretty module_account SubstrateAccount m password network output).
Proof. unfold run_moduleid. quiet. Qed.

(** What a command is: quiet, or one of the two that are not. *)
Definition command_kind (c : string) m (password : option string) (p : SO world Error unit) : Prop :=
  (quiet p /\ c <> "generate-node-key" /\ c <> "insert") \/ (c = "generate-node-key" /\ p = run_node_key m) \/
  (c = "insert" /\ p = run_insert' m password).

Lemma execute_eq ms w :
  exists p, execute' ms w =
      (password ← read_password (top ms);
       maybe_network ← read_network version_of_name (top ms);
       output ← read_output (top ms);
       p password maybe_network output) w /\
    forall password network output,
      (quiet (p password network output) /\ subcommand ms = None) \/
      exists c m, subcommand ms = Some (c, m) /\
        command_kind c m password (p password network output).
Proof.
  eexists. split; [unfold execute; reflexivity|]. intros password network output.
  destruct (subcommand ms) as [[c m]|]; [|left; split; [quiet|done]]. right. exists c, m. split; [done|].
  unfold command_kind. repeat case_match;
    first [by right; left|by right; right|left; split; [|split; discriminate]];
    auto using quiet_println, quiet_generate, quiet_inspect, quiet_inspect_node_key, quiet_sign, quiet_verify,
      quiet_vanity, quiet_transfer, quiet_sign_transaction, quiet_moduleid.
Qed.

(** What the two commands that are not quiet leave of the file they name, and of the key
    they send, given how they end. *)
Definition key_written (file : string) w (r : outcome Error unit) w' : Prop :=
  inserted w' = inserted w /\
  match write_outcome (machine w) file node_key_generate.1 with
  | WriteDone => files w' = <[file := node_key_generate.1]> (files w) /\
      (r = Return tt \/ r = Panic broken_stdout)
  | NotOpened e => files w' = files w /\ r = Fail (Io e)
  | CutOff e n => files w' = <[file := take n node_key_generate.1]> (files w) /\ r = Fail (Io e)
  end.
Definition key_sent (key : string * string * string * bytes) w (r : outcome Error unit) w' : Prop :=
  files w' = files w /\
  match rpc_outcome (machine w) key with
  | RpcDone => r = Return tt /\ inserted w' = (inserted w ++ [key])%list
  | RpcFailed e reached =>
      r = Return tt /\ inserted w' = (inserted w ++ (if reached then [key] else []))%list
  | RpcPanics msg => r = Panic msg /\ inserted w' = inserted w
  end.

Lemma node_key_effects m w r w' :
  run_node_key m w = (r, w') ->
  (unchanged w w' /\ r <> Return tt) \/
  exists file, value_of m "file" = Some file /\ key_written file w r w'.
Proof.
  unfold run_generate_node_key, require. destruct (value_of m "file") as [file|];
    [|intros [= <- <-]; by left].
  intros Hrun. right. exists file. split; [done|]. revert Hrun. unfold key_written.
  so_unfold. unfold write_file. destruct (write_outcome _ _ _) as [|e|e n].
  - unfold println. destruct (stdout_breaks _ _ _); intros [= <- <-]; by auto.
  - by intros [= <- <-].
  - by intros [= <- <-].
Qed.

Lemma insert_effects m password w r w' :
  run_insert' m password w = (r, w') ->
  (unchanged w w' /\ r <> Return tt) \/
  exists suri pair key_type,
    (get_uri trim_end utf8_decode "suri" m w).1 = Return suri /\
    from_string suri password = Some pair /\
    value_of m "key-type" = Some key_type /\ key_type_ok key_type = true /\
    key_sent (default "http://localhost:9933" (value_of m "node-url"), key_type, suri,
      public_bytes (public pair)) w r w'.
Proof.
  unfold run_insert. pose proof (quiet_get_uri "suri" m w) as Hq.
  unfold mbind at 1, SO_bind at 1.
  destruct (get_uri _ _ _ _ w) as [[suri|e|p] w1]; cbn [fst snd] in *;
    [|intros [= <- <-]; by left..].
  unfold read_pair, pair_from_suri.
  destruct (from_string suri password) as [pair|] eqn:Hp;
    [|intros [= <- <-]; by left].
  unfold require. destruct (value_of m "key-type") as [kt|] eqn:Hk;
    [|intros [= <- <-]; by left].
  so_unfold. cbn [expect_some]. destruct (key_type_ok kt) eqn:Hok; [|intros [= <- <-]; by left].
  intros Hrun. right. exists suri, pair, kt. repeat (split; [done|]).
  destruct Hq as (Hm & Hf & Hi). revert Hrun. unfold key_sent, insert_key. rewrite <- Hm.
  destruct (rpc_outcome _ _) as [|e reached|msg].
  - intros [= <- <-]. cbn. by rewrite Hi.
  - intros [= <- <-]. pose proof (quiet_eprintln ("Error inserting key: " +:+ e)
      (if reached then add_inserted (default "http://localhost:9933" (value_of m "node-url"), kt, suri,
         public_bytes (public pair)) w1 else w1)) as (_ & Hf' & Hi').
    rewrite Hf', Hi'. destruct reached; cbn; rewrite Hf, Hi, ?app_nil_r; done.
  - intros [= <- <-]. by rewrite Hf, Hi.
Qed.

End commands.
