(* ===== verification/Tests.v ===== *)
(** * The tests of the repository

    The [mod tests] of the pallets ([robonomics/frame/*/src/lib.rs]) and of the
    key tool ([bin/subkey/src]) as programs on the models: an assertion that does
    not hold panics.  Base58 and the key pairs of phrases are library calls.
    Every test passes, whatever the libraries give for its literals, as long as
    they do what they document. *)
From stdpp Require Import prelude gmap strings list list_numbers.
From Stdlib Require Import ZArith Lia.
From S2P Require Import Prelude Frame Codec Currency Agreement Liability SignedPallet.
From S2P Require Import Datalog Launch Vanity VanityFacts Subkey SubkeyFacts.
Local Open Scope Z_scope.

#[export] Instance result_eq_dec {E A} `{!EqDecision E, !EqDecision A} : EqDecision (result E A).
Proof. solve_decision. Defined.

(** ** Assertions *)
Section assertions.
Context {St : Type}.
Abbreviation Test := (SO St Empty_set unit).

Definition assert (b : bool) : Test := so_lift (if b then Return tt else Panic "assertion failed").
Definition assert_eq {A : Type} `{!EqDecision A} (get : St -> A) (expected : A) : Test :=
  fun st => ((if decide (get st = expected) then Return tt else Panic "assertion failed"), st).
Definition assert_ok (call : SE St DispatchError unit) : Test :=
  fun st => let (r, st') := call st in
    ((if is_ok r then Return tt else Panic "Expected Ok(_). Got Err"), st').
Definition assert_err (call : SE St DispatchError unit) (e : DispatchError) : Test :=
  fun st => let (r, st') := call st in
    ((if decide (r = Err e) then Return tt else Panic "assertion failed"), st').
Definition unwrap {A : Type} (o : option A) : SO St Empty_set A :=
  so_lift (expect_some "called `Option::unwrap()` on a `None` value" o).

(** [Result::expect] of a call that may itself panic. *)
Definition expect {E A : Type} (msg : string) (m : outcome E A) : SO St Empty_set A :=
  so_lift (match m with Return a => Return a | Fail _ => Panic msg | Panic p => Panic p end).

(** [execute_with]: the test runs from the state of [new_test_ext]. *)
Definition passes (new_test_ext : St) (t : Test) : Prop := (t new_test_ext).1 = Return tt.

Lemma assert_eq_true {A} `{!EqDecision A} (get : St -> A) v st :
  get st = v -> assert_eq get v st = (Return tt, st).
Proof. intros H. unfold assert_eq. by rewrite decide_True. Qed.
Lemma assert_ok_true call st st' : call st = (Ok tt, st') -> assert_ok call st = (Return tt, st').
Proof. intros H. unfold assert_ok. by rewrite H. Qed.
Lemma assert_err_true call e st st' :
  call st = (Err e, st') -> assert_err call e st = (Return tt, st').
Proof. intros H. unfold assert_err. rewrite H. by rewrite decide_True. Qed.
End assertions.

(** An equality that holds by computation. *)
Ltac check_eq := erewrite (so_bind_return (assert_eq _ _)) by (apply assert_eq_true; reflexivity).

Definition ipfs_hash : string := "QmWboFP8XeBtFMbNYK3Ne8Z3gKFBSR5iQzkKgeNgQz3dz4".

(** ** [frame/liability/src/lib.rs] *)
Module LiabilityTests.
Section tests.
(** Accounts, signatures and [sr25519] pairs; [Pair::from_string]. *)
Context {AccountId Sig P : Type}.
Context `{!Verify Sig AccountId, P_pair : !Agreement.Pair P Sig AccountId}.
Context `{!Codec bytes, !Codec unit, !Codec AccountId, !Codec Z}.
Context (from_base58 : string -> option bytes) (from_string : string -> option P).
Context (pallet_index : Z).

#[local] Instance parameter_codec : Codec (technical_parameter PureIPFS) := (_ : Codec bytes).
#[local] Instance report_codec : Codec (technical_report PureIPFS) := (_ : Codec bytes).
#[local] Instance price_codec : Codec (economical_parameter Communism) := (_ : Codec unit).

(** [impl Trait for Runtime], and a storage nobody has used. *)
Abbreviation Liability := (SignedLiability PureIPFS Communism AccountId).
Abbreviation st_t := (@State AccountId unit Z PureIPFS Communism _ _).
Abbreviation Origin := (RawOrigin AccountId).
Abbreviation Test := (SO st_t Empty_set unit).
Definition new_test_ext : st_t := genesis tt.

(** [literal.from_base58().unwrap()]. *)
Definition task_of (literal : string) : SO st_t Empty_set (technical_parameter PureIPFS) :=
  unwrap (from_base58 literal).

Definition test_initial_setup : Test := assert_eq latest_index 0.

Definition get_params_proof (uri : string) (technics : technical_parameter PureIPFS)
    (economics : economical_parameter Communism) : SO st_t Empty_set (AccountId * Sig) :=
  pair ← unwrap (from_string uri);
  let sender := pair_account pair in
  let signature : Sig := ProofSigner_proof_params (E := Communism) technics economics pair in
  mret (sender, signature).

Definition get_report_proof (uri : string) (index : Z) (report : technical_report PureIPFS) :
    SO st_t Empty_set Sig :=
  pair ← unwrap (from_string uri);
  mret (ProofSigner_proof_report index report pair : Sig).

Definition test_liability_proofs : Test :=
  technics ← task_of ipfs_hash;
  let economics : economical_parameter Communism := tt in
  p ← get_params_proof "//Alice" technics economics;
  let '(sender, params_proof) := p : AccountId * Sig in
  let liability : Liability :=
    new (Index := Z) (Proof := Sig) technics economics sender sender in
  _ ← assert (check_params liability params_proof sender);
  let index := 1 in
  report ← task_of ipfs_hash;
  report_proof ← get_report_proof "//Alice" index report;
  assert (check_report liability index report report_proof).

Definition test_liability_lifecycle : Test :=
  let create := Liability.create (Self := Liability) (Origin := Origin) (W := unit) pallet_index in
  let finalize :=
    Liability.finalize (Self := Liability) (Origin := Origin) (AccountId := AccountId) (W := unit)
      pallet_index in
  let error e := pallet_error pallet_index e in
  _ ← assert_eq latest_index 0;
  technics ← task_of ipfs_hash;
  let economics : economical_parameter Communism := tt in
  alice ← get_params_proof "//Alice" technics economics;
  let '(promisee, promisee_proof) := alice : AccountId * Sig in
  bob ← get_params_proof "//Bob" technics economics;
  let '(promisor, promisor_proof) := bob : AccountId * Sig in
  _ ← assert_err (create none technics economics promisee promisor promisor_proof promisor_proof)
        (error BadPromiseeProof);
  _ ← assert_eq latest_index 0;
  _ ← assert_err (create none technics economics promisee promisor promisee_proof promisee_proof)
        (error BadPromisorProof);
  _ ← assert_eq latest_index 0;
  _ ← assert_ok (create none technics economics promisee promisor promisee_proof promisor_proof);
  _ ← assert_eq latest_index 1;
  _ ← assert_eq (fun st => is_finalized st 0) false;
  let index := 0 in
  report ← task_of ipfs_hash;
  bad_proof ← get_report_proof "//Alice" index report;
  good_proof ← get_report_proof "//Bob" index report;
  _ ← assert_err (finalize none 0 report bad_proof) (error BadReportProof);
  _ ← assert_eq (fun st => is_finalized st 0) false;
  _ ← assert_ok (finalize none 0 report good_proof);
  assert_eq (fun st => is_finalized st 0) true.
End tests.

Section results.
Context {AccountId Sig P : Type}.
Context `{!Verify Sig AccountId, P_pair : !Agreement.Pair P Sig AccountId, !PairLaws P Sig AccountId}.
Context `{!Codec bytes, !Codec unit, !Codec AccountId, !Codec Z}.
Context `{!CodecLaws bytes, !CodecLaws unit, !CodecLaws AccountId}.
Context (from_base58 : string -> option bytes) (from_string : string -> option P).
Context (pallet_index : Z) (task : technical_parameter PureIPFS) (alice bob : P).

(** The literals, and two keys whose signatures do not pass for each other. *)
Hypothesis decoded : from_base58 ipfs_hash = Some task.
Hypothesis alice_pair : from_string "//Alice" = Some alice.
Hypothesis bob_pair : from_string "//Bob" = Some bob.
Hypothesis different : forall m,
  verify (pair_sign alice m : Sig) m (pair_account bob) = false /\
  verify (pair_sign bob m : Sig) m (pair_account alice) = false.
Hypothesis encodable_terms :
  encodable task /\ encodable tt /\ encodable (pair_account alice) /\ encodable (pair_account bob).

Abbreviation st_t := (@State AccountId unit Z PureIPFS Communism _ _).
Abbreviation Liability := (SignedLiability PureIPFS Communism AccountId).
Abbreviation passes' := (passes (new_test_ext : st_t)).
Implicit Types (st : st_t).

Lemma params_proof_run uri pair t e (st : st_t) :
  from_string uri = Some pair ->
  get_params_proof from_string uri t e st =
    (Return (pair_account pair, pair_sign pair (encode (t, e)) : Sig), st).
Proof. intros H. unfold get_params_proof, unwrap. so_unfold. by rewrite H. Qed.
Lemma report_proof_run uri pair i r (st : st_t) :
  from_string uri = Some pair ->
  get_report_proof from_string uri i r st = (Return (pair_sign pair (encode (i, r)) : Sig), st).
Proof. intros H. unfold get_report_proof, unwrap. so_unfold. by rewrite H. Qed.

Lemma task_run (st : st_t) : task_of from_base58 ipfs_hash st = (Return task, st).
Proof using decoded. unfold task_of, unwrap. by rewrite decoded. Qed.

Lemma liability_proofs_pass : passes' (test_liability_proofs from_base58 from_string).
Proof using decoded alice_pair PairLaws0.
  unfold passes, test_liability_proofs.
  rewrite (so_bind_return _ _ _ _ _ (task_run _)).
  rewrite (so_bind_return _ _ _ _ _ (params_proof_run _ _ _ _ _ alice_pair)).
  rewrite (so_bind_return (assert _) _ _ tt new_test_ext).
  - rewrite (so_bind_return _ _ _ _ _ (task_run _)).
    rewrite (so_bind_return _ _ _ _ _ (report_proof_run _ _ _ _ _ alice_pair)).
    unfold assert, so_lift; cbn. unfold signed_check_report; cbn. by rewrite verify_pair_sign.
  - unfold assert, so_lift; cbn. unfold signed_check_params; cbn. by rewrite verify_pair_sign.
Qed.

(** The storage after the creation of the test. *)
Definition free : economical_parameter Communism := tt.
Definition work : technical_report PureIPFS := task.
Abbreviation alice_id := (pair_account alice : AccountId).
Abbreviation bob_id := (pair_account bob : AccountId).
Abbreviation proof_of p := (pair_sign p (encode (task, free)) : Sig).
Abbreviation create' :=
  (Liability.create (Self := Liability) (Origin := RawOrigin AccountId) (W := unit) pallet_index
     none task free alice_id bob_id).
Abbreviation finalize' :=
  (Liability.finalize (Self := Liability) (Origin := RawOrigin AccountId) (AccountId := AccountId)
     (W := unit) pallet_index none 0 work).
Definition agreement : Liability := signed_new task free alice_id bob_id.
Definition created : st_t := after_create agreement task free alice_id bob_id tt new_test_ext.

Lemma verified (q : P) m : verify (pair_sign q m : Sig) m (pair_account q) = true.
Proof using PairLaws0. apply verify_pair_sign. Qed.
Lemma refused_alice m : verify (pair_sign alice m : Sig) m bob_id = false.
Proof using different. apply different. Qed.
Lemma refused_bob m : verify (pair_sign bob m : Sig) m alice_id = false.
Proof using different. apply different. Qed.

Lemma create_runs :
  create' (proof_of bob) (proof_of bob) new_test_ext =
    (Err (pallet_error pallet_index BadPromiseeProof), new_test_ext) /\
  create' (proof_of alice) (proof_of alice) new_test_ext =
    (Err (pallet_error pallet_index BadPromisorProof), new_test_ext) /\
  create' (proof_of alice) (proof_of bob) new_test_ext = (Ok tt, created).
Proof using different PairLaws0.
  rewrite !create_eq, !ensure_none_none. cbn [check_params new signed_agreement].
  unfold signed_check_params; cbn [technics economics signed_new].
  by rewrite refused_bob, !verified, refused_alice.
Qed.

Lemma created_decodes : (decode (liability_of created 0) : option Liability) = Some agreement.
Proof using encodable_terms CodecLaws0 CodecLaws1 CodecLaws2.
  unfold liability_of, created, after_create; cbn [LiabilityOf]. rewrite storage_get_insert_eq.
  apply decode_encode. destruct encodable_terms as (? & ? & ? & ?). by repeat split.
Qed.

Lemma finalize_runs :
  finalize' (pair_sign alice (encode (0, work)) : Sig) created =
    (Err (pallet_error pallet_index BadReportProof), created) /\
  finalize' (pair_sign bob (encode (0, work)) : Sig) created =
    (Ok tt, after_finalize 0 work tt created).
Proof using different PairLaws0 encodable_terms CodecLaws0 CodecLaws1 CodecLaws2.
  rewrite !finalize_eq, !ensure_none_none. rewrite created_decodes.
  change (is_finalized created 0) with false. cbn [check_report signed_agreement].
  unfold signed_check_report; cbn [promisor agreement signed_new].
  by rewrite refused_alice, verified.
Qed.

Lemma liability_lifecycle_passes :
  passes' (test_liability_lifecycle from_base58 from_string pallet_index).
Proof using Type*.
  destruct create_runs as (Hc1 & Hc2 & Hc3). destruct finalize_runs as (Hf1 & Hf2).
  unfold passes, test_liability_lifecycle.
  check_eq.
  rewrite (so_bind_return _ _ _ _ _ (task_run _)).
  rewrite (so_bind_return _ _ _ _ _ (params_proof_run _ _ _ _ _ alice_pair)).
  rewrite (so_bind_return _ _ _ _ _ (params_proof_run _ _ _ _ _ bob_pair)).
  rewrite (so_bind_return _ _ _ _ _ (assert_err_true _ _ _ _ Hc1)).
  check_eq.
  rewrite (so_bind_return _ _ _ _ _ (assert_err_true _ _ _ _ Hc2)).
  check_eq.
  rewrite (so_bind_return _ _ _ _ _ (assert_ok_true _ _ _ Hc3)).
  check_eq.
  check_eq.
  rewrite (so_bind_return _ _ _ _ _ (task_run _)).
  rewrite (so_bind_return _ _ _ _ _ (report_proof_run _ _ _ _ _ alice_pair)).
  rewrite (so_bind_return _ _ _ _ _ (report_proof_run _ _ _ _ _ bob_pair)).
  rewrite (so_bind_return _ _ _ _ _ (assert_err_true _ _ _ _ Hf1)).
  check_eq.
  rewrite (so_bind_return _ _ _ _ _ (assert_ok_true _ _ _ Hf2)).
  unfold assert_eq, is_finalized, after_finalize; cbn [IsFinalized]. by rewrite storage_get_insert_eq.
Qed.

End results.
End LiabilityTests.

(** ** [frame/datalog/src/lib.rs] *)
Module DatalogTests.
Section tests.
Context (from_base58 : string -> option bytes).
Abbreviation st_t := (@Datalog.State Z Z bytes _ _).
Abbreviation Test := (SO st_t Empty_set unit).
Abbreviation record := (Datalog.record (Origin := RawOrigin Z)).
Abbreviation erase := (Datalog.erase (Origin := RawOrigin Z)).

(** The timestamp pallet starts at zero. *)
Definition new_test_ext : st_t := Datalog.genesis 0.

Definition test_store_data : Test :=
  let sender := 1 in
  let r := [42] in
  _ ← assert_ok (record (signed sender) r);
  assert_eq (fun st => Datalog.datalog st sender) [(0, r)].

Definition test_erase_data : Test :=
  let sender := 1 in
  let r := [1; 2; 3] in
  _ ← assert_ok (record (signed sender) r);
  _ ← assert_eq (fun st => Datalog.datalog st sender) [(0, r)];
  _ ← assert_ok (erase (signed sender));
  assert_eq (fun st => match Datalog.datalog st sender with [] => true | _ => false end) true.

Definition test_bad_origin : Test := assert_err (record none []) BadOrigin.

Definition test_store_ipfs_hashes : Test :=
  let sender := 1 in
  r ← unwrap (from_base58 "QmWboFP8XeBtFMbNYK3Ne8Z3gKFBSR5iQzkKgeNgQz3dz4");
  _ ← assert_ok (record (signed sender) r);
  _ ← assert_eq (fun st => Datalog.datalog st sender) [(0, r)];
  r2 ← unwrap (from_base58 "zdj7WWYAEceQ6ncfPZeRFjozov4dC7FaxU7SuMwzW4VuYBDta");
  _ ← assert_ok (record (signed sender) r2);
  _ ← assert_eq (fun st => Datalog.datalog st sender) [(0, r); (0, r2)];
  r3 ← unwrap (from_base58 "QmWboFP8XeBtFMbNYK3Ne8Z3gKFBSR5iQzkKgeNgQz3dz2");
  _ ← assert_ok (record (signed sender) r3);
  assert_eq (fun st => Datalog.datalog st sender) [(0, r); (0, r2); (0, r3)].

Lemma datalog_tests_pass :
  is_Some (from_base58 "QmWboFP8XeBtFMbNYK3Ne8Z3gKFBSR5iQzkKgeNgQz3dz4") ->
  is_Some (from_base58 "zdj7WWYAEceQ6ncfPZeRFjozov4dC7FaxU7SuMwzW4VuYBDta") ->
  is_Some (from_base58 "QmWboFP8XeBtFMbNYK3Ne8Z3gKFBSR5iQzkKgeNgQz3dz2") ->
  Forall (passes new_test_ext)
    [test_store_data; test_erase_data; test_bad_origin; test_store_ipfs_hashes].
Proof.
  intros [r H1] [r2 H2] [r3 H3]. repeat constructor.
  unfold passes, test_store_ipfs_hashes, unwrap. rewrite H1, H2, H3.
  erewrite (so_bind_return (so_lift _)) by reflexivity.
  erewrite (so_bind_return (assert_ok _)) by reflexivity. check_eq.
  erewrite (so_bind_return (so_lift _)) by reflexivity.
  erewrite (so_bind_return (assert_ok _)) by reflexivity. check_eq.
  erewrite (so_bind_return (so_lift _)) by reflexivity.
  erewrite (so_bind_return (assert_ok _)) by reflexivity.
  by rewrite assert_eq_true.
Qed.
End tests.
End DatalogTests.

(** ** [frame/launch/src/lib.rs] *)
Module LaunchTests.
Abbreviation Test := (SO (@Launch.State Z bool) Empty_set unit).
Abbreviation launch := (Launch.launch (Origin := RawOrigin Z)).
Definition new_test_ext : @Launch.State Z bool := Launch.mkState [].

Definition test_launch : Test :=
  let sender := 1 in
  let robot := 42 in
  assert_ok (launch (signed sender) robot true).
Definition test_bad_origin : Test := assert_err (launch none 0 false) BadOrigin.

Lemma launch_tests_pass : Forall (passes new_test_ext) [test_launch; test_bad_origin].
Proof. repeat constructor. Qed.
End LaunchTests.

(** ** [bin/subkey/src/vanity.rs] *)
Module VanityTests.
(** The tests have no state. *)
Abbreviation Test := (SO unit Empty_set unit).
Definition ascii_bytes (s : string) : bytes :=
  (fun c => Z.of_nat (Ascii.nat_of_ascii c)) <$> String.list_ascii_of_string s.
Definition assert_score (desired key : string) (score : Z) : Test :=
  assert_eq (fun _ => match calculate_score (ascii_bytes desired) (ascii_bytes key) with
                      | Return s => Some s | _ => None end) (Some score).

Definition test_score_1_char_100 : Test :=
  assert_score "j" "5jolkadotwHY5k9GpdTgpqs9xjuNvtv8EcwCFpEeyEf3KHim" 94.
Definition test_score_100 : Test :=
  assert_score "Polkadot" "5PolkadotwHY5k9GpdTgpqs9xjuNvtv8EcwCFpEeyEf3KHim" 430.
Definition test_score_50_2 : Test :=
  assert_score "Polkadot" "5PolkXXXXwHY5k9GpdTgpqs9xjuNvtv8EcwCFpEeyEf3KHim" 238.
Definition test_score_0 : Test :=
  assert_score "Polkadot" "5GUWv4bLCchGUHJrzULXnh4JgXsMpTKRnjuXTY7Qo1Kh9uYK" 0.

Section patterns.
Context {Pair : Type} (is_alphanumeric : Z -> bool).
Context (seed_default : bytes) (from_seed : bytes -> Pair) (ss58_from_pair : Pair -> bytes).
Context (os_rng : nat -> bytes) (fuel : nat).

Definition assert_key (pattern : string) (expected : bool) : Test :=
  assert (Bool.eqb expected
    match generate_key is_alphanumeric seed_default from_seed ss58_from_pair os_rng fuel
            (ascii_bytes pattern) with
    | Return (Some _) => true | _ => false end).

Definition test_invalid_pattern : Test :=
  _ ← assert_key "" false;
  _ ← assert_key "0" false;
  _ ← assert_key "l" false;
  _ ← assert_key "I" false;
  _ ← assert_key "O" false;
  assert_key "!" false.

(** [str::contains]; a search that is still running has no key. *)
Definition contains (s pattern : bytes) : bool := bool_decide (is_Some (str_find s pattern)).
Definition test_generation_with_single_char : Test :=
  key ← unwrap (match generate_key is_alphanumeric seed_default from_seed ss58_from_pair os_rng fuel
                        (ascii_bytes "j") with Return o => o | _ => None end);
  assert (contains (ss58_from_pair (pair key)) (ascii_bytes "j")).
Definition test_valid_pattern : Test :=
  _ ← assert_key "o" true;
  assert_key "L" true.

(** The tests that search for a key pass as soon as the turns they may take have an
    address with the letter in one of its first three positions. *)
Lemma search_tests_pass :
  (forall k, (length (address_at from_seed ss58_from_pair os_rng k) <= 48)%nat) ->
  Forall (fun p => forallb (validate_base58 is_alphanumeric) (ascii_bytes p) = true /\
      exists j, (j < fuel)%nat /\ hit from_seed ss58_from_pair os_rng (ascii_bytes p) j)
    ["j"; "o"; "L"]%string ->
  Forall (passes tt) [test_generation_with_single_char; test_valid_pattern].
Proof.
  intros Haddr Hhits.
  assert (Hkey : forall p, p ∈ ["j"; "o"; "L"]%string -> exists key,
    generate_key is_alphanumeric seed_default from_seed ss58_from_pair os_rng fuel (ascii_bytes p) =
      Return (Some key) /\ contains (ss58_from_pair (pair key)) (ascii_bytes p) = true).
  { intros p Hp. pose proof (proj1 (Forall_forall _ _) Hhits p Hp) as [Hv (j & Hj & Hh)].
    assert (Hb : ascii_bytes p <> [] /\ Forall (fun c => 0 <= c < 128) (ascii_bytes p) /\
      48 * Z.of_nat (length (ascii_bytes p)) + 47 < 2 ^ 64).
    { clear Hv Hh. revert p Hp. apply Forall_forall. repeat constructor; done. }
    destruct Hb as (Hne & Ha & Hs).
    destruct (generate_key_cases is_alphanumeric seed_default from_seed ss58_from_pair os_rng fuel
      (ascii_bytes p) Hne Hv Ha Hs Haddr) as [[Hno _]|(i & s & _ & Hi & _ & Hk)];
      [by destruct (Hno j)|].
    eexists. split; [exact Hk|]. destruct Hi as (pos & _ & Hi). cbn [pair].
    apply bool_decide_eq_true. exists pos. exact Hi. }
  destruct (Hkey "j"%string) as (kj & Hj & Hc); [apply (bool_decide_unpack _); by vm_compute|].
  destruct (Hkey "o"%string) as (ko & Ho & _); [apply (bool_decide_unpack _); by vm_compute|].
  destruct (Hkey "L"%string) as (kl & Hl & _); [apply (bool_decide_unpack _); by vm_compute|].
  unfold test_generation_with_single_char, test_valid_pattern, assert_key, passes, unwrap.
  rewrite Hj, Ho, Hl. constructor; [|by repeat constructor].
  unfold assert. so_unfold. cbn [expect_some]. by rewrite Hc.
Qed.

(** An error, not a search that is still running. *)
Definition fails (pattern : string) : Prop :=
  exists e, generate_key is_alphanumeric seed_default from_seed ss58_from_pair os_rng fuel
    (ascii_bytes pattern) = Fail e.

Lemma vanity_tests_pass :
  is_alphanumeric 33 = false ->
  Forall (passes tt) [test_score_1_char_100; test_score_100; test_score_50_2; test_score_0;
    test_invalid_pattern] /\
  Forall fails [""; "0"; "l"; "I"; "O"; "!"]%string.
Proof.
  intros Hb.
  assert (Hf : Forall fails [""; "0"; "l"; "I"; "O"; "!"]%string).
  { rewrite !Forall_cons, Forall_nil.
    assert (Hbad : forall l, forallb (validate_base58 is_alphanumeric) l = false -> l <> [] ->
      generate_key is_alphanumeric seed_default from_seed ss58_from_pair os_rng fuel l =
        Fail err_chars) by (intros [|x l] Hl ?; [done|]; unfold generate_key; by rewrite Hl).
    split; [by eexists|].
    repeat split; eexists; apply Hbad; try done; unfold validate_base58; cbn [ascii_bytes];
      vm_compute; rewrite ?Hb; by repeat case_match. }
  split; [|done]. constructor; [by vm_compute|]. constructor; [by vm_compute|].
  constructor; [by vm_compute|]. constructor; [by vm_compute|]. constructor; [|done].
  repeat match goal with H : Forall fails (_ :: _) |- _ => apply Forall_cons in H as [[? ?] ?] end.
  unfold passes, test_invalid_pattern, assert_key.
  repeat match goal with H : generate_key _ _ _ _ _ _ _ = _ |- _ => rewrite H; clear H end.
  by vm_compute.
Qed.
End patterns.
End VanityTests.

(** ** [bin/subkey/src/main.rs] *)
Module SubkeyTests.
Section tests.
Context {P Public Seed Signature AccountId Version Mnemonic : Type}.
Context `{!Crypto P Public Seed Signature AccountId Version}.
Context (hex_decode : bytes -> result string bytes) (hex_display : bytes -> string).
Context (phrase : Mnemonic -> string) (mnemonic_new : Z -> Mnemonic).
Abbreviation Test := (SO unit Empty_set unit).

(** The command lines of the test. *)
Definition generate_args : Args := mkArgs ∅ ∅.
Definition verify_args (signature public_key : string) : Args :=
  mkArgs {["sig"%string := signature; "uri"%string := public_key]} ∅.

Definition test_generate_sign_verify : Test :=
  let password := None in
  mnemonic ← expect "generate failed" (generate_mnemonic mnemonic_new generate_args);
  p ← unwrap (from_phrase (phrase mnemonic) password);
  let '(pair, seed) := p : P * Seed in
  let public_key := format_public_key hex_display (public pair) in
  let seed := format_seed hex_display seed in
  let message := str_bytes "Blah Blah
" in
  signature ← expect "signing failed" (do_sign hex_display seed message password);
  verified ← expect "verify failed"
    (do_verify hex_decode (verify_args signature public_key) public_key message);
  assert verified.

(** [should_work]: a hash decoded, and copied from the slice of its bytes. *)
Definition decode_hash (v : bytes) : option bytes :=
  if (32 <=? length v)%nat then Some (take 32 v) else None.
Definition copy_from_slice (v : bytes) : outcome Empty_set bytes :=
  if (length v =? 32)%nat then Return v
  else Panic "source slice length does not match destination slice length".
Definition hash_literal : string :=
  "0123456789012345678901234567890123456789012345678901234567890123".
Definition should_work : Test :=
  d1 ← unwrap (ok (hex_decode (str_bytes hash_literal)) ≫= decode_hash);
  v ← unwrap (ok (hex_decode (str_bytes hash_literal)));
  d2 ← so_lift (copy_from_slice v);
  assert (bool_decide (d1 = d2)).

Lemma should_work_passes v :
  hex_decode (str_bytes hash_literal) = Ok v -> length v = 32%nat -> passes tt should_work.
Proof.
  intros Hv Hl. unfold passes, should_work, unwrap, copy_from_slice. rewrite Hv. so_unfold.
  cbn [ok mbind option_bind expect_some]. unfold decode_hash. rewrite Hl. cbn [Nat.leb Nat.eqb].
  rewrite (take_ge v) by lia. unfold assert. cbn [expect_some]. by rewrite bool_decide_true.
Qed.

(** The seed a phrase gives is, with [0x], a URI of the same pair. *)
Lemma subkey_test_passes (pair : P) (seed : Seed) :
  scheme_ok hex_decode hex_display ->
  from_phrase (phrase (mnemonic_new 12)) None = Some (pair, seed) ->
  from_string (format_seed hex_display seed) None = Some pair ->
  passes tt test_generate_sign_verify.
Proof.
  intros Hok Hphrase Hseed. unfold passes, test_generate_sign_verify.
  erewrite so_bind_return by reflexivity.
  erewrite so_bind_return by (unfold unwrap; rewrite Hphrase; reflexivity).
  destruct (do_sign_verify hex_decode hex_display _ None (str_bytes "Blah Blah
") pair Hok Hseed) as [Hs Hv].
  erewrite so_bind_return by (unfold expect; rewrite Hs; reflexivity).
  erewrite so_bind_return by (unfold expect; rewrite Hv by reflexivity; reflexivity).
  by rewrite (verify_signed _ _ Hok).
Qed.
End tests.
End SubkeyTests.

(** ** The pallets *)
Section pallet_tests.
Context {AccountId Sig P : Type}.
Context `{!Verify Sig AccountId, P_pair : !Agreement.Pair P Sig AccountId, !PairLaws P Sig AccountId}.
Context `{!Codec bytes, !Codec unit, !Codec AccountId, !Codec Z}.
Context `{!CodecLaws bytes, !CodecLaws unit, !CodecLaws AccountId}.
Context (from_base58 : string -> option bytes) (from_string : string -> option P).

(** The tests of the pallets pass, whatever the codecs, the signatures and the
    keys are, as long as they keep the laws of their interfaces, the literals are
    base58, and the signatures of Alice and Bob do not pass for each other's: the
    initial state, the proofs, the life of a liability with every refusal on the
    way; what is recorded, erased and refused in the datalog; and the launch. *)
Lemma pallet_tests_pass (pallet_index : Z) (task r2 r3 : bytes) (alice bob : P) :
  from_base58 ipfs_hash = Some task ->
  from_base58 "zdj7WWYAEceQ6ncfPZeRFjozov4dC7FaxU7SuMwzW4VuYBDta" = Some r2 ->
  from_base58 "QmWboFP8XeBtFMbNYK3Ne8Z3gKFBSR5iQzkKgeNgQz3dz2" = Some r3 ->
  from_string "//Alice" = Some alice -> from_string "//Bob" = Some bob ->
  (forall m, verify (pair_sign alice m : Sig) m (pair_account bob) = false /\
     verify (pair_sign bob m : Sig) m (pair_account alice) = false) ->
  (encodable task /\ encodable tt /\ encodable (pair_account alice) /\
     encodable (pair_account bob)) ->
  Forall (passes (LiabilityTests.new_test_ext (AccountId := AccountId)))
    [LiabilityTests.test_initial_setup;
     LiabilityTests.test_liability_proofs from_base58 from_string;
     LiabilityTests.test_liability_lifecycle from_base58 from_string pallet_index] /\
  Forall (passes DatalogTests.new_test_ext)
    [DatalogTests.test_store_data; DatalogTests.test_erase_data; DatalogTests.test_bad_origin;
     DatalogTests.test_store_ipfs_hashes from_base58] /\
  Forall (passes LaunchTests.new_test_ext)
    [LaunchTests.test_launch; LaunchTests.test_bad_origin].
Proof.
  intros Htask H2 H3 Ha Hb Hdiff Henc. split; [|split].
  - constructor; [done|]. constructor.
    { by eapply LiabilityTests.liability_proofs_pass. }
    constructor; [|done]. by eapply LiabilityTests.liability_lifecycle_passes.
  - apply DatalogTests.datalog_tests_pass; by eexists.
  - apply LaunchTests.launch_tests_pass.
Qed.
End pallet_tests.
