(* ===== verification/RosApi.v ===== *)
(** * The ROS interface of a node

    [substrate-ros/api/src]: the author, chain, state and system interfaces and
    the ROS services and topics in front of them.  The node behind them is not
    part of the repository: [NodeClient] is what the code calls of it, with the
    node's state threaded through the calls that change it. *)
From stdpp Require Import prelude strings list.
From Stdlib Require Import ZArith Lia.
From S2P Require Import Prelude Codec.
Local Open Scope string_scope.
Local Open Scope Z_scope.

(** [ros_api::Hash], 32 bytes; the default of a ROS message holds zeros. *)
Abbreviation Hash := bytes.
Definition zero_hash : Hash := replicate 32 0.

Inductive BlockId (Number : Type) : Type :=
| IdHash (h : Hash)
| IdNumber (n : Number).
Arguments IdHash {Number} h.
Arguments IdNumber {Number} n.

(** [sc_rpc::system::helpers]: [Health], and [SystemInfo]. *)
Record Health : Type := mkHealth { peers : Z; is_syncing : bool; should_have_peers : bool }.
Record SystemInfo (Properties : Type) : Type := mkSystemInfo {
  impl_name : string; impl_version : string; chain_name : string; properties : Properties }.
Arguments mkSystemInfo {Properties} _ _ _ _.
Arguments impl_name {Properties} _.
Arguments impl_version {Properties} _.
Arguments chain_name {Properties} _.
Arguments properties {Properties} _.

(** A block of an import or finality notification. *)
Record Notification : Type := mkNotification {
  is_new_best : bool; number : Z; block_hash_of : Hash }.

(** What the code calls of the client, the transaction pool and the network;
    errors as they are displayed. *)
Class NodeClient (N Header Block Xt Number RtVersion : Type) : Type := {
  best_hash : N -> Hash;
  finalized_hash : N -> Hash;
  client_header : BlockId Number -> N -> result string (option Header);
  header_hash : Header -> Hash;
  client_block : BlockId Number -> N -> result string (option Block);
  number_of_u32 : Z -> Number;
  generate_session_keys : BlockId Number -> SE N string bytes;
  submit_one : BlockId Number -> Xt -> SE N string Hash;
  ready : N -> list Xt;
  remove_invalid : list Hash -> N -> list Hash * N;
  executor_call : BlockId Number -> string -> bytes -> N -> result string bytes;
  client_storage_keys : BlockId Number -> bytes -> N -> result string (list bytes);
  client_storage : BlockId Number -> bytes -> N -> result string (option bytes);
  client_storage_hash : BlockId Number -> bytes -> N -> result string (option Hash);
  runtime_version_at : BlockId Number -> N -> result string RtVersion;
  num_connected : N -> Z;
  is_major_syncing : N -> bool;
}.

Section api.
Context {N Header Block Xt Number RtVersion Properties : Type}.
Context `{!NodeClient N Header Block Xt Number RtVersion, !Codec Xt}.
(** [serde_json::to_string], and [hex::encode]. *)
Context (header_json : option Header -> string) (block_json : option Block -> string).
Context (version_json : RtVersion -> string) (properties_json : Properties -> string).
Context (hex_encode : bytes -> string).
Implicit Types (n : N).

(** ** [author/mod.rs] *)

Definition rotate_keys : SE N string bytes := fun n =>
  generate_session_keys (IdHash (best_hash n)) n.

Definition submit_extrinsic (ext : bytes) : SE N string Hash := fun n =>
  match (decode ext : option Xt) with
  | None => (Err "Extrinsic decode failure", n)
  | Some xt => submit_one (IdHash (best_hash n)) xt n
  end.

Definition pending_extrinsics n : list bytes := encode <$> ready n.

Definition remove_extrinsics (hashes : list Hash) n : list Hash * N := remove_invalid hashes n.

(** ** [chain/mod.rs] *)

Definition unwrap_or_best (mb_hash : option Hash) n : Hash :=
  match mb_hash with Some hash => hash | None => best_hash n end.

Definition header (hash : option Hash) n : result string string :=
  map_err (fun e => "header request error: " +:+ e)
    (header_json <$> client_header (IdHash (unwrap_or_best hash n)) n).

Definition block (hash : option Hash) n : result string string :=
  map_err (fun e => "block request error: " +:+ e)
    (block_json <$> client_block (IdHash (unwrap_or_best hash n)) n).

Definition block_hash (number : option Z) n : result string Hash :=
  match number with
  | Some num =>
      mb_header ← map_err (fun e => "header request error: " +:+ e)
                    (client_header (IdNumber (number_of_u32 num)) n);
      Ok (match mb_header with Some h => header_hash h | None => zero_hash end)
  | None => Ok (best_hash n)
  end.

Definition finalized_head n : Hash := finalized_hash n.

(** ** [state/mod.rs] *)

Definition state_error {A} (m : result string A) : result string A :=
  map_err (fun e => "state error: " +:+ e) m.

Definition call (method : string) (data : bytes) (block : option Hash) n : result string bytes :=
  state_error (executor_call (IdHash (unwrap_or_best block n)) method data n).

Definition storage_keys (key_prefix : bytes) (block : option Hash) n : result string (list bytes) :=
  state_error (client_storage_keys (IdHash (unwrap_or_best block n)) key_prefix n).

Definition storage (key : bytes) (block : option Hash) n : result string (option bytes) :=
  state_error (client_storage (IdHash (unwrap_or_best block n)) key n).

Definition storage_hash (key : bytes) (block : option Hash) n : result string (option Hash) :=
  state_error (client_storage_hash (IdHash (unwrap_or_best block n)) key n).

Definition storage_size (key : bytes) (block : option Hash) n : result string (option Z) :=
  (fun x : option bytes => (fun v => wrap 64 (Z.of_nat (length v))) <$> x) <$>
    state_error (storage key block n).

Definition runtime_version (block : option Hash) n : result string string :=
  version_json <$> state_error (runtime_version_at (IdHash (unwrap_or_best block n)) n).

(** ** [system/mod.rs] *)

Definition system_health n : Health := mkHealth (num_connected n) (is_major_syncing n) true.

(** ** The services: [ros_api.rs] of the four parts

    A hash of zeros stands for no hash ([to_hash], [zero_guard]); a service
    answers with its default response, with the fields it sets. *)
Definition zero_guard (mb_zero : Hash) : option Hash :=
  if decide (mb_zero = zero_hash) then None else Some mb_zero.
Definition to_hash (hash : Hash) : option Hash :=
  if decide (hash = zero_hash) then None else Some hash.

Record TriggerRes : Type := mkTriggerRes { success : bool; message : string }.

Definition srv_rotate_keys : SE N string TriggerRes := fun n =>
  match rotate_keys n with
  | (Ok keys, n) => (Ok (mkTriggerRes true (hex_encode keys)), n)
  | (Err e, n) => (Err e, n)
  end.
Definition srv_submit_extrinsic (extrinsic : bytes) : SE N string Hash := submit_extrinsic extrinsic.
Definition srv_pending_extrinsics n : list bytes :=
  foldl (fun acc xt => (acc ++ [[] ++ xt])%list) [] (pending_extrinsics n).
Definition srv_remove_extrinsics (extrinsics : list Hash) n : list Hash * N :=
  let (removed, n) := remove_extrinsics extrinsics n in
  (foldl (fun acc xt => (acc ++ [xt])%list) [] removed, n).

Definition srv_get_block (hash : Hash) n : result string string := block (to_hash hash) n.
Definition srv_get_block_hash (num : Z) n : result string Hash := block_hash (Some num) n.
Definition srv_get_block_header (hash : Hash) n : result string string := header (to_hash hash) n.
Definition srv_get_best_hash n : result string Hash := block_hash None n.
Definition srv_get_finalized_hash n : Hash := finalized_head n.

Definition srv_call (method : string) (data : bytes) (block : Hash) n : result string bytes :=
  call method data (zero_guard block) n.
Definition srv_storage_keys (prefix : bytes) (block : Hash) n : result string (list bytes) :=
  storage_keys prefix (zero_guard block) n.
Definition srv_storage (key : bytes) (block : Hash) n : result string bytes :=
  default [] <$> storage key (zero_guard block) n.
Definition srv_storage_hash (key : bytes) (block : Hash) n : result string Hash :=
  default zero_hash <$> storage_hash key (zero_guard block) n.
Definition srv_storage_size (key : bytes) (block : Hash) n : result string Z :=
  default 0 <$> storage_size key (zero_guard block) n.
Definition srv_runtime_version n : result string TriggerRes :=
  mkTriggerRes true <$> runtime_version None n.

Definition srv_system_name (info : SystemInfo Properties) : TriggerRes :=
  mkTriggerRes true (impl_name info).
Definition srv_system_version (info : SystemInfo Properties) : TriggerRes :=
  mkTriggerRes true (impl_version info).
Definition srv_system_chain (info : SystemInfo Properties) : TriggerRes :=
  mkTriggerRes true (chain_name info).
Definition srv_system_properties (info : SystemInfo Properties) : TriggerRes :=
  mkTriggerRes true (properties_json (properties info)).
Definition srv_system_health n : Z * bool :=
  let health := system_health n in (wrap 32 (peers health), is_syncing health).

(** ** The topics *)
Inductive Publication : Type :=
| PubNumber (topic : string) (data : Z)
| PubHash (topic : string) (data : Hash)
| PubText (topic : string) (data : string)
| PubHealth (topic : string) (peers : Z) (is_syncing : bool).

Definition import_notifications (blocks : list Notification) : list Publication :=
  blocks ≫= fun block =>
    if is_new_best block then
      [PubNumber "/chain/best_number" (number block); PubHash "/chain/best_hash" (block_hash_of block)]
    else [].

Definition finality_notifications (blocks : list Notification) : list Publication :=
  blocks ≫= fun block =>
    [PubNumber "/chain/finalized_number" (number block);
     PubHash "/chain/finalized_hash" (block_hash_of block)].

(** One turn, each second, of the four system publishers. *)
Definition publish_system (info : SystemInfo Properties) n : list Publication :=
  let health := system_health n in
  [PubText "/system/name" (impl_name info); PubText "/system/version" (impl_version info);
   PubText "/system/chain_name" (chain_name info);
   PubHealth "/system/health" (wrap 32 (peers health)) (is_syncing health)].

(** ** [start]: the services are registered one after the other, and the first
    failure is the result *)
Definition system_services : list string :=
  ["/system/name"; "/system/version"; "/system/chain_name"; "/system/properties"; "/system/health"].
Definition author_services : list string :=
  ["/author/rotate_keys"; "/author/submit_extrinsic"; "/author/pending_extrinsics";
   "/author/remove_extrinsic"].
Definition state_services : list string :=
  ["/state/call"; "/state/keys"; "/state/query"; "/state/hash"; "/state/size"; "/runtime/version"].
Definition chain_services : list string :=
  ["/chain/block"; "/chain/block_hash"; "/chain/block_header"; "/chain/best_hash";
   "/chain/finalized_hash"].

Definition system_topics : list string :=
  ["/system/name"; "/system/version"; "/system/chain_name"; "/system/health"].
Definition chain_topics : list string :=
  ["/chain/best_hash"; "/chain/best_number"; "/chain/finalized_number"; "/chain/finalized_hash"].

(** [rosrust::service] and [rosrust::publish]. *)
Context {R Service RosError : Type} (register : string -> SE R RosError Service).
Context (advertise : string -> SE R RosError unit).

Fixpoint start_publishers (topics : list string) : SE R RosError unit :=
  match topics with
  | [] => mret tt
  | topic :: topics => _ ← advertise topic; start_publishers topics
  end.

Fixpoint start_services (names : list string) : SE R RosError (list Service) :=
  match names with
  | [] => mret []
  | name :: names =>
      s ← register name;
      ss ← start_services names;
      mret (s :: ss)
  end.

Definition start : SE R RosError (list Service) :=
  _ ← start_publishers system_topics;
  _ ← start_publishers chain_topics;
  a ← start_services system_services;
  b ← start_services author_services;
  c ← start_services state_services;
  d ← start_services chain_services;
  mret ((a ++ b ++ c ++ d)%list).
End api.

(** ** What the services answer *)
Section facts.
Context {N Header Block Xt Number RtVersion Properties : Type}.
Context `{!NodeClient N Header Block Xt Number RtVersion, !Codec Xt, !CodecLaws Xt}.
Context (header_json : option Header -> string) (block_json : option Block -> string).
Implicit Types (n : N).

Lemma zero_guard_some h : h <> zero_hash -> zero_guard h = Some h /\ to_hash h = Some h.
Proof. intros. unfold zero_guard, to_hash. by rewrite decide_False by done. Qed.

(** What a block request is about.  A request with a hash is answered from
    that block, one with the zero hash from the best block; and the hash of a
    block number the chain does not have is answered, without an error, with the
    zero hash, so that asking for the block of that answer gives the best
    block. *)
Lemma block_requests n (h : Hash) (num : Z) :
  (h <> zero_hash ->
     srv_get_block block_json h n = map_err (fun e => "block request error: " +:+ e)
       (block_json <$> client_block (IdHash h) n) /\
     srv_get_block_header header_json h n = map_err (fun e => "header request error: " +:+ e)
       (header_json <$> client_header (IdHash h) n)) /\
  srv_get_block block_json zero_hash n = map_err (fun e => "block request error: " +:+ e)
    (block_json <$> client_block (IdHash (best_hash n)) n) /\
  (client_header (IdNumber (number_of_u32 num)) n = Ok None ->
     srv_get_block_hash num n = Ok zero_hash /\
     (srv_get_block_hash num n ≫= fun h' => srv_get_block block_json h' n) =
       (srv_get_best_hash n ≫= fun h' => block block_json (Some h') n)) /\
  (forall hd, client_header (IdNumber (number_of_u32 num)) n = Ok (Some hd) ->
     srv_get_block_hash num n = Ok (header_hash hd)).
Proof.
  split; [|split; [done|split]].
  - intros Hh. destruct (zero_guard_some h Hh) as [_ Ht].
    unfold srv_get_block, srv_get_block_header. by rewrite Ht.
  - intros Hn. unfold srv_get_block_hash, block_hash. by rewrite Hn.
  - intros hd Hn. unfold srv_get_block_hash, block_hash. by rewrite Hn.
Qed.

(** Absent and empty look the same.  For a key that is not stored the query
    service answers with no bytes and the size service with zero, as they do for
    a key stored with an empty value; the hash service answers with the zero
    hash, which tells the two apart unless the value hashes to zero; other
    answers are the stored value and its length. *)
Lemma storage_requests n (key : bytes) (at_block : Hash) :
  let id := IdHash (unwrap_or_best (zero_guard at_block) n) in
  (client_storage id key n = Ok None \/ client_storage id key n = Ok (Some []) ->
     srv_storage key at_block n = Ok [] /\ srv_storage_size key at_block n = Ok 0) /\
  (forall v, client_storage id key n = Ok (Some v) -> Z.of_nat (length v) <= u64_max ->
     srv_storage key at_block n = Ok v /\
     srv_storage_size key at_block n = Ok (Z.of_nat (length v))) /\
  (client_storage_hash id key n = Ok None -> srv_storage_hash key at_block n = Ok zero_hash) /\
  (forall h, client_storage_hash id key n = Ok (Some h) -> srv_storage_hash key at_block n = Ok h) /\
  (forall e, client_storage id key n = Err e ->
     srv_storage key at_block n = Err ("state error: " +:+ e) /\
     srv_storage_size key at_block n = Err ("state error: " +:+ ("state error: " +:+ e))).
Proof.
  cbn zeta. unfold srv_storage, srv_storage_size, srv_storage_hash, storage_size, storage,
    storage_hash, state_error.
  split; [|split; [|split; [|split]]].
  - by intros [-> | ->].
  - intros v -> Hv. cbn. split; [done|]. rewrite wrap_small; [done|].
    unfold in_width, u64_max in *. lia.
  - by intros ->.
  - by intros h ->.
  - by intros e ->.
Qed.

Lemma foldl_snoc {A} (acc l : list A) : foldl (fun acc x => (acc ++ [x])%list) acc l = (acc ++ l)%list.
Proof.
  revert acc. induction l as [|x l IH]; intros acc; cbn; [by rewrite app_nil_r|].
  by rewrite IH, <- (assoc_L (++)).
Qed.

(** The pool through ROS.  Bytes that are no extrinsic are refused without
    touching the pool, every other submission is the pool's own answer for the
    decoded extrinsic at the best block, and the pending extrinsics are listed in
    the pool's order, each in the bytes that would submit it again. *)
Lemma pool_requests n (ext : bytes) :
  (forall xt : Xt, xt ∈ ready n -> encodable xt) ->
  ((decode ext : option Xt) = None ->
     srv_submit_extrinsic ext n = (Err "Extrinsic decode failure", n)) /\
  (forall xt : Xt, decode ext = Some xt ->
     srv_submit_extrinsic ext n = submit_one (IdHash (best_hash n)) xt n) /\
  srv_pending_extrinsics n = encode <$> ready n /\
  (decode <$> srv_pending_extrinsics n) = Some <$> ready n.
Proof.
  intros Henc. unfold srv_submit_extrinsic, submit_extrinsic.
  assert (Hp : srv_pending_extrinsics n = encode <$> ready n).
  { unfold srv_pending_extrinsics, pending_extrinsics. by rewrite foldl_snoc. }
  split; [by intros ->|]. split; [by intros xt ->|]. split; [done|].
  rewrite Hp, <- list_fmap_compose. apply list_fmap_ext.
  intros i xt Hxt. apply decode_encode, Henc. by eapply list_elem_of_lookup_2.
Qed.
End facts.

(** ** Starting *)
Section start.
Context {R Service RosError : Type} (register : string -> SE R RosError Service).

Lemma start_services_ok (names : list string) r ss r' :
  start_services register names r = (Ok ss, r') -> length ss = length names.
Proof.
  revert r ss r'. induction names as [|name names IH]; intros r ss r'; cbn.
  - by intros [= <- <-].
  - intros (s & r1 & _ & (ss' & r2 & Hss & [= <- <-])%SE_bind_ok)%SE_bind_ok.
    cbn. f_equal. by eapply IH.
Qed.

Lemma start_services_app (l k : list string) r :
  start_services register (l ++ k) r =
    (a ← start_services register l; b ← start_services register k; mret ((a ++ b)%list)) r.
Proof.
  revert r. induction l as [|x l IH]; intros r.
  - cbn. se_unfold. by destruct (start_services register k r) as [[?|?] ?].
  - cbn. se_unfold. destruct (register x r) as [[s|e] r1]; [|done].
    rewrite IH. se_unfold. destruct (start_services register l r1) as [[a|e] r2]; [|done].
    by destruct (start_services register k r2) as [[b|e] r3].
Qed.

(** Registering four lists one after the other. *)
Lemma services_in_parts r :
  (a ← start_services register system_services; b ← start_services register author_services;
   c ← start_services register state_services; d ← start_services register chain_services;
   mret ((a ++ b ++ c ++ d)%list)) r =
  start_services register
    (system_services ++ author_services ++ state_services ++ chain_services)%list r.
Proof.
  rewrite start_services_app. unfold mbind, SE_bind, mret, SE_ret.
  destruct (start_services register system_services r) as [[a|e] r1]; [|done].
  rewrite start_services_app. unfold mbind, SE_bind, mret, SE_ret.
  destruct (start_services register author_services r1) as [[b|e] r2]; [|done].
  rewrite start_services_app. unfold mbind, SE_bind, mret, SE_ret.
  destruct (start_services register state_services r2) as [[c|e] r3]; [|done].
  by destruct (start_services register chain_services r3) as [[d|e] r4].
Qed.

Context (advertise : string -> SE R RosError unit).

(** Starting the ROS interface advertises the eight topics and then registers
    the twenty services, under different names, in one fixed order; it succeeds
    only when all of that does, and the first registration that fails is the
    error reported, and no further one is attempted. *)
Lemma start_registers_all r :
  let topics := (system_topics ++ chain_topics)%list in
  let names := (system_services ++ author_services ++ state_services ++ chain_services)%list in
  start register advertise r =
    (_ ← start_publishers advertise topics; start_services register names) r /\
  NoDup topics /\ NoDup names /\ length topics = 8%nat /\ length names = 20%nat /\
  (forall ss r', start register advertise r = (Ok ss, r') -> length ss = 20%nat) /\
  (forall l name k r0 r1 e r2 a, names = (l ++ name :: k)%list ->
     start_publishers advertise topics r = (Ok tt, r0) ->
     start_services register l r0 = (Ok a, r1) -> register name r1 = (Err e, r2) ->
     start register advertise r = (Err e, r2)).
Proof.
  cbn zeta. set (topics := (system_topics ++ _)%list). set (names := (system_services ++ _)%list).
  assert (Hs : start register advertise r =
    (_ ← start_publishers advertise topics; start_services register names) r).
  { unfold topics, names, start. cbn [app system_topics chain_topics start_publishers].
    unfold mbind, SE_bind, mret, SE_ret.
    repeat match goal with
    | |- context [advertise ?t ?r] => destruct (advertise t r) as [[[]|?] ?]; [|done]
    end.
    apply services_in_parts. }
  split; [done|]. split; [apply (bool_decide_unpack _); by vm_compute|].
  split; [apply (bool_decide_unpack _); by vm_compute|]. split; [done|]. split; [done|].
  rewrite Hs. split.
  - intros ss r' (? & r0 & _ & Hss)%SE_bind_ok. by apply start_services_ok in Hss.
  - intros l name k r0 r1 e r2 a -> Ht Hl Hname. unfold mbind, SE_bind. rewrite Ht.
    rewrite start_services_app. se_unfold. rewrite Hl. cbn. se_unfold. by rewrite Hname.
Qed.
End start.

(** ** The objects behind the services ([mod.rs] of the four parts)

    Their fields are shared references: a clone refers to the same client, pool and
    network.  Above they are the node itself. *)
Section objects.
Context {Client Pool Keystore Network Properties : Type}.

Record Author : Type := mkAuthor { author_client : Client; pool : Pool; keystore : Keystore }.
Definition author_new (client : Client) (pool : Pool) (keystore : Keystore) : Author :=
  mkAuthor client pool keystore.
Definition author_clone (self : Author) : Author :=
  mkAuthor (author_client self) (pool self) (keystore self).

Record FullChain : Type := mkFullChain { chain_client : Client }.
Definition full_chain_new (client : Client) : FullChain := mkFullChain client.
Definition full_chain_clone (self : FullChain) : FullChain := mkFullChain (chain_client self).

Record FullState : Type := mkFullState { state_client : Client }.
Definition full_state_new (client : Client) : FullState := mkFullState client.
Definition full_state_clone (self : FullState) : FullState := mkFullState (state_client self).

Record System : Type := mkSystem { info : SystemInfo Properties; network : Network }.
Definition system_new (info : SystemInfo Properties) (network : Network) : System :=
  mkSystem info network.
Definition system_clone (self : System) : System := mkSystem (info self) (network self).

(** [BlockchainEvents for FullChain]: the streams of the client. *)
Context {StorageKey StorageEvents : Type}.
Context (client_imports client_finality : Client -> list Notification).
Context (client_storage_changes : option (list StorageKey) ->
  option (list (StorageKey * option (list StorageKey))) -> Client -> result string StorageEvents).
Definition import_notification_stream (self : FullChain) : list Notification :=
  client_imports (chain_client self).
Definition finality_notification_stream (self : FullChain) : list Notification :=
  client_finality (chain_client self).
Definition storage_changes_notification_stream filter_keys child_filter_keys (self : FullChain) :
    result string StorageEvents :=
  client_storage_changes filter_keys child_filter_keys (chain_client self).

(** What is published of the blocks of a chain is that of its client, through any
    clone of it. *)
Lemma published_through_clones (client : Client) :
  let chain := full_chain_clone (full_chain_new client) in
  import_notifications (import_notification_stream chain) =
    import_notifications (client_imports client) /\
  finality_notifications (finality_notification_stream chain) =
    finality_notifications (client_finality client).
Proof. done. Qed.
End objects.
