(* ===== verification/Support.v ===== *)
(** * What surrounds the programs

    The build scripts ([bin/node/cli/build.rs] and the [build.rs] of the three
    runtimes), the identity of a node ([robonomics/protocol/src/id.rs]), and the ROS
    messages that are generated ([substrate-ros/msgs/src/lib.rs]) with the types the
    services and topics of [RosApi] have. *)
From stdpp Require Import prelude strings list.
From Stdlib Require Import ZArith Lia.
From S2P Require Import Prelude Codec RosApi.
Local Open Scope string_scope.

(** ** [bin/node/cli/build.rs] *)
Module BuildScript.
Inductive Shell : Type := Bash | Fish | Zsh | Elvish | PowerShell.
(** A path by its components. *)
Abbreviation Path := (list string).
(** What the script does to the world, through the standard library, [clap] and
    [substrate_build_script_utils]. *)
Inductive Action : Type :=
| CreateDir (path : Path)
| GenCompletions (bin_name : string) (shell : Shell) (path : Path)
| GenerateCargoKeys
| RerunIfGitHeadChanged.
Abbreviation Run := (SO (list Action) Empty_set).

Definition act (a : Action) : Run unit := so_modify (fun l => (l ++ [a])%list).
Definition unwrap {A} (o : option A) : Run A :=
  so_lift (expect_some "called `Option::unwrap()` on a `None` value" o).

(** [Path::parent]: without its last component, or none when there is none. *)
Definition parent (p : Path) : option Path :=
  match p with [] => None | _ => Some (take (length p - 1) p) end.

(** [build_completion]; [out_dir] is the environment's [OUT_DIR], and that the
    directory cannot be created is not looked at. *)
Definition build_completion (out_dir : option Path) (shell : Shell) : Run unit :=
  match out_dir with
  | None => mret tt
  | Some outdir =>
      dir ← unwrap (parent outdir);
      dir ← unwrap (parent dir);
      dir ← unwrap (parent dir);
      let path := (dir ++ ["completion-scripts"])%list in
      _ ← act (CreateDir path);
      act (GenCompletions "robonomics" shell path)
  end.

Definition shells : list Shell := [Bash; Fish; Zsh; Elvish; PowerShell].
Definition build_shell_completion (out_dir : option Path) : Run unit :=
  foldl (fun m shell => _ ← m; build_completion out_dir shell) (mret tt) shells.

(** [main], with and without the feature [cli]. *)
Definition cli_main (out_dir : option Path) : Run unit :=
  _ ← build_shell_completion out_dir;
  _ ← act GenerateCargoKeys;
  act RerunIfGitHeadChanged.
Definition main (feature_cli : bool) (out_dir : option Path) : Run unit :=
  if feature_cli then cli_main out_dir else mret tt.

(** The directory of the profile of cargo, where [OUT_DIR] is
    [<profile>/build/<package>/out]. *)
Lemma parent_snoc p x : parent (p ++ [x])%list = Some p.
Proof.
  unfold parent. destruct (p ++ [x])%list as [|y l] eqn:H; [by destruct p|]. rewrite <- H.
  rewrite length_app, Nat.add_sub. by rewrite take_app_length.
Qed.

(** Without [OUT_DIR] no completion is made; with the directory cargo gives, one for
    every shell, in [completion-scripts] under the directory of the profile; and a
    directory with less than three components stops the build before anything is
    made. *)
Lemma cli_main_spec p b pkg out :
  cli_main None [] = (Return tt, [GenerateCargoKeys; RerunIfGitHeadChanged]) /\
  (let path := (p ++ ["completion-scripts"])%list in
   cli_main (Some (p ++ [b; pkg; out])%list) [] =
     (Return tt, ((shells ≫= fun shell => [CreateDir path; GenCompletions "robonomics" shell path]) ++
        [GenerateCargoKeys; RerunIfGitHeadChanged])%list)) /\
  (forall dir, length dir < 3 ->
     cli_main (Some dir) [] = (Panic "called `Option::unwrap()` on a `None` value", [])).
Proof.
  split; [done|split].
  - cbn zeta. unfold cli_main, build_shell_completion, build_completion, shells, unwrap.
    rewrite (assoc_L (++) p [b; pkg] [out] : (p ++ [b; pkg; out])%list = _), parent_snoc.
    so_unfold. cbn [foldl expect_some].
    rewrite (assoc_L (++) p [b] [pkg] : (p ++ [b; pkg])%list = _), parent_snoc. cbn [expect_some].
    rewrite parent_snoc. reflexivity.
  - intros dir Hd. destruct dir as [|x [|y [|z dir]]]; cbn in Hd; [done..|lia].
Qed.
End BuildScript.

(** ** The build scripts of the runtimes: how the WASM binary is built *)
Record WasmBuilder : Type := mkWasmBuilder {
  with_current_project : bool;
  with_wasm_builder_from_crates : string;
  export_heap_base : bool;
  import_memory : bool;
}.
Definition robonomics_wasm : WasmBuilder := mkWasmBuilder true "2.0.0" true true.
Definition ipci_wasm : WasmBuilder := mkWasmBuilder true "2.0.0" true true.
Definition parachain_wasm : WasmBuilder := mkWasmBuilder true "2.0.0" true true.

(** ** [id.rs] *)
Section identity.
Context {R Keypair PublicKey PeerId : Type}.
(** libp2p: a key pair from the random source, its public key, the name of a key. *)
Context (generate_ed25519 : R -> Keypair * R) (public : Keypair -> PublicKey).
Context (peer_id_from : PublicKey -> PeerId) (to_base58 : PeerId -> string).

(** [random], over the random source and the log. *)
Definition random (w : R * list string) : Keypair * (R * list string) :=
  let (key, r) := generate_ed25519 w.1 in
  let peer_id := peer_id_from (public key) in
  (key, (r, (w.2 ++ ["Generated random peer id: " +:+ to_base58 peer_id])%list)).
End identity.

(** ** The ROS messages *)
Abbreviation RosType := (string * string)%type.

(** [rosmsg_include!]. *)
Definition rosmsgs : list RosType := [
  ("std_msgs", "UInt64"); ("std_msgs", "String"); ("std_msgs", "Bool"); ("std_msgs", "Time");
  ("std_srvs", "Trigger");
  ("substrate_ros_msgs", "ExHash"); ("substrate_ros_msgs", "BlockHash");
  ("substrate_ros_msgs", "RawExtrinsic"); ("substrate_ros_msgs", "PendingExtrinsics");
  ("substrate_ros_msgs", "RemoveExtrinsic"); ("substrate_ros_msgs", "SubmitExtrinsic");
  ("substrate_ros_msgs", "GetBlock"); ("substrate_ros_msgs", "GetBlockHash");
  ("substrate_ros_msgs", "GetBlockHeader"); ("substrate_ros_msgs", "GetBestHead");
  ("substrate_ros_msgs", "GetFinalizedHead"); ("substrate_ros_msgs", "SystemHealth");
  ("substrate_ros_msgs", "SystemHealthInfo"); ("substrate_ros_msgs", "StorageKey");
  ("substrate_ros_msgs", "StateCall"); ("substrate_ros_msgs", "StorageHash");
  ("substrate_ros_msgs", "StorageKeys"); ("substrate_ros_msgs", "StorageQuery");
  ("substrate_ros_msgs", "StorageSize")].

(** The types of the services: [rosrust::service::<T, _>] of the four [ros_api.rs]. *)
Definition Trigger : RosType := ("std_srvs", "Trigger").
Definition own (name : string) : RosType := ("substrate_ros_msgs", name).
Definition system_types : list (string * RosType) := [
  ("/system/name", Trigger); ("/system/version", Trigger); ("/system/chain_name", Trigger);
  ("/system/properties", Trigger); ("/system/health", own "SystemHealth")].
Definition author_types : list (string * RosType) := [
  ("/author/rotate_keys", Trigger); ("/author/submit_extrinsic", own "SubmitExtrinsic");
  ("/author/pending_extrinsics", own "PendingExtrinsics");
  ("/author/remove_extrinsic", own "RemoveExtrinsic")].
Definition state_types : list (string * RosType) := [
  ("/state/call", own "StateCall"); ("/state/keys", own "StorageKeys");
  ("/state/query", own "StorageQuery"); ("/state/hash", own "StorageHash");
  ("/state/size", own "StorageSize"); ("/runtime/version", Trigger)].
Definition chain_types : list (string * RosType) := [
  ("/chain/block", own "GetBlock"); ("/chain/block_hash", own "GetBlockHash");
  ("/chain/block_header", own "GetBlockHeader"); ("/chain/best_hash", own "GetBestHead");
  ("/chain/finalized_hash", own "GetFinalizedHead")].

(** The messages of the topics: what is given to [send]. *)
Definition publication_type (p : Publication) : RosType :=
  match p with
  | PubNumber _ _ => ("std_msgs", "UInt64")
  | PubHash _ _ => own "BlockHash"
  | PubText _ _ => ("std_msgs", "String")
  | PubHealth _ _ _ => own "SystemHealthInfo"
  end.
Definition publication_topic (p : Publication) : string :=
  match p with
  | PubNumber t _ | PubHash t _ | PubText t _ | PubHealth t _ _ => t
  end.

(** The services that are registered are those with a type, their types are
    generated, and a type of this repository serves one service only; whatever is
    published has a generated type, on a topic that was advertised. *)
Lemma ros_types {N Header Block Xt Number RtVersion Properties : Type}
    `{!NodeClient N Header Block Xt Number RtVersion} (info : SystemInfo Properties) (n : N) (blocks : list Notification) :
  system_types.*1 = system_services /\ author_types.*1 = author_services /\
  state_types.*1 = state_services /\ chain_types.*1 = chain_services /\
  Forall (fun t => t ∈ rosmsgs) (system_types ++ author_types ++ state_types ++ chain_types)%list.*2 /\
  NoDup (filter (fun t => t.1 = "substrate_ros_msgs")
    (system_types ++ author_types ++ state_types ++ chain_types)%list.*2) /\
  Forall (fun p => publication_type p ∈ rosmsgs /\ publication_topic p ∈ system_topics)
    (publish_system info n) /\
  Forall (fun p => publication_type p ∈ rosmsgs /\ publication_topic p ∈ chain_topics)
    (import_notifications blocks ++ finality_notifications blocks)%list.
Proof.
  repeat (split; [reflexivity|]).
  split; [apply (bool_decide_unpack _); by vm_compute|].
  split; [apply (bool_decide_unpack _); by vm_compute|].
  assert (Hin : forall p, publication_type p ∈ rosmsgs).
  { intros []; apply (bool_decide_unpack _); by vm_compute. }
  split.
  - repeat constructor; apply Hin || (apply (bool_decide_unpack _); by vm_compute).
  - apply Forall_app. unfold import_notifications, finality_notifications.
    split; apply Forall_bind, Forall_forall; intros [best num h] _; cbn;
      [destruct best|]; repeat constructor; apply Hin || (apply (bool_decide_unpack _); by vm_compute).
Qed.
