(* ===== verification/Service.v ===== *)
(** * The services of a node

    [bin/node/cli/src/service.rs], [bin/node/rpc/src/lib.rs],
    [bin/node/cli/src/parachain.rs] and [parachain/collator.rs]: how a full node,
    a light client and a collator are put together.  The parts (the client, the
    network, BABE, GRANDPA, the collator) are Substrate's and Cumulus's, so the
    model is the sequence of the calls that build, register and start them:
    [Action] is one such call with the arguments this code decides, and the trace
    of a run is the list of the calls made.  Which calls may fail is in the code
    (the [?] operator); when they do is a parameter, [fails]. *)
From stdpp Require Import prelude strings list.
From Stdlib Require Import ZArith Lia.
From S2P Require Import Prelude.
Local Open Scope string_scope.
Local Open Scope list_scope.

(** The executors: one native runtime each. *)
Inductive Executor : Type := IpciExecutor | RobonomicsExecutor | ParachainExecutor.

(** [sc_service::Role]. *)
Inductive Role : Type :=
| Full
| Light
| Authority (sentry_nodes : list string)
| Sentry (validators : list string).

(** What the code reads of [sc_service::Configuration]. *)
Record Configuration : Type := mkConfiguration {
  role : Role;
  offchain_worker_enabled : bool;
  force_authoring : bool;
  disable_grandpa : bool;
  node_name : string;
}.

(** [node_rpc]: the interfaces the handler of a node is extended with, and those
    that are given [deny_unsafe]. *)
Inductive RpcApi : Type :=
| FullSystem (deny_unsafe : bool)
| LightSystem
| TransactionPayment
| BabeRpc (deny_unsafe : bool)
| GrandpaRpc.

Definition create_full (deny_unsafe : bool) : list RpcApi :=
  let io := [] in
  let io := io ++ [FullSystem deny_unsafe] in
  let io := io ++ [TransactionPayment] in
  let io := io ++ [BabeRpc deny_unsafe] in
  let io := io ++ [GrandpaRpc] in
  io.

Definition create_light : list RpcApi :=
  let io := [] in
  let io := io ++ [LightSystem] in
  io.

(** What the handlers are made of: the parts of the node they are given. *)
Section deps.
Context {C P SC Config EpochChanges KeyStore VoterState AuthoritySet RemoteBlockchain Fetcher : Type}.

Record LightDeps : Type := mkLightDeps {
  light_client : C; light_pool : P; remote_blockchain : RemoteBlockchain; fetcher : Fetcher }.
Record BabeDeps : Type := mkBabeDeps {
  babe_config : Config; shared_epoch_changes : EpochChanges; babe_keystore : KeyStore }.
Record GrandpaDeps : Type := mkGrandpaDeps {
  shared_voter_state : VoterState; shared_authority_set : AuthoritySet }.
Record FullDeps : Type := mkFullDeps {
  full_client : C; full_pool : P; select_chain : SC; deny_unsafe : bool;
  babe_deps : BabeDeps; grandpa_deps : GrandpaDeps }.

Inductive Handler : Type :=
| HandleFullSystem (client : C) (pool : P) (deny_unsafe : bool)
| HandleLightSystem (client : C) (blockchain : RemoteBlockchain) (fetcher : Fetcher) (pool : P)
| HandleTransactionPayment (client : C)
| HandleBabe (client : C) (epochs : EpochChanges) (keystore : KeyStore) (config : Config)
    (select_chain : SC) (deny_unsafe : bool)
| HandleGrandpa (authority_set : AuthoritySet) (voter_state : VoterState).

Definition full_handlers (deps : FullDeps) : list Handler :=
  let babe := babe_deps deps in
  let grandpa := grandpa_deps deps in
  [HandleFullSystem (full_client deps) (full_pool deps) (deny_unsafe deps);
   HandleTransactionPayment (full_client deps);
   HandleBabe (full_client deps) (shared_epoch_changes babe) (babe_keystore babe) (babe_config babe)
     (select_chain deps) (deny_unsafe deps);
   HandleGrandpa (shared_authority_set grandpa) (shared_voter_state grandpa)].
Definition light_handlers (deps : LightDeps) : list Handler :=
  [HandleLightSystem (light_client deps) (remote_blockchain deps) (fetcher deps) (light_pool deps)].

Definition handler_api (h : Handler) : RpcApi :=
  match h with
  | HandleFullSystem _ _ deny => FullSystem deny
  | HandleLightSystem _ _ _ _ => LightSystem
  | HandleTransactionPayment _ => TransactionPayment
  | HandleBabe _ _ _ _ _ deny => BabeRpc deny
  | HandleGrandpa _ _ => GrandpaRpc
  end.
Definition handler_client (h : Handler) : option C :=
  match h with
  | HandleFullSystem c _ _ | HandleLightSystem c _ _ _ | HandleTransactionPayment c
  | HandleBabe c _ _ _ _ _ => Some c
  | HandleGrandpa _ _ => None
  end.

(** The handlers of a node are those of its interfaces, in their order, all on the one
    client, and those that can do harm deny it exactly when the node does. *)
Lemma handlers_of_interfaces (full : FullDeps) (light : LightDeps) :
  handler_api <$> full_handlers full = create_full (deny_unsafe full) /\
  handler_api <$> light_handlers light = create_light /\
  Forall (fun c => c = full_client full) (omap handler_client (full_handlers full)) /\
  Forall (fun c => c = light_client light) (omap handler_client (light_handlers light)).
Proof. by repeat constructor. Qed.
End deps.

(** The role of an authority discovery module. *)
Inductive DiscoveryRole : Type := DiscoverAuthority | DiscoverSentry.

(** [sc_finality_grandpa::Config]. *)
Record GrandpaConfig : Type := mkGrandpaConfig {
  gossip_duration_ms : Z;
  justification_period : Z;
  grandpa_name : string;
  observer_enabled : bool;
  with_keystore : bool;
  grandpa_is_authority : bool;
}.

Inductive Action : Type :=
| NewFullParts (e : Executor)
| NewLightParts (e : Executor)
| FullPool
| LightPool
| GrandpaBlockImport
| GrandpaLightBlockImport
| BabeConfig
| BabeBlockImport
| BabeImportQueue (justification_import finality_proof_import : bool)
| CumulusImportQueue
| RegisterTimestamp
| BuildNetwork (on_demand finality_proof_request block_announce_validator finality_proofs : bool)
| BuildOffchainWorkers
| SpawnTasks (on_demand : bool) (rpc : bool -> list RpcApi)
| StartBabe (force_authoring : bool)
| SpawnEssential (name : string)
| SpawnAuthorityDiscovery (sentries : list string) (r : DiscoveryRole)
| RunGrandpaVoter (c : GrandpaConfig)
| SetupDisabledGrandpa
| StartCollator (para_id : Z)
| StartFullNode (para_id : Z)
| StartNetwork.

Section services.
Context {Error : Type}.
(** When a fallible call fails, after the calls made so far. *)
Context (fails : list Action -> Action -> option Error).
(** [Role::is_authority] and [Role::is_network_authority] of [sc_service]. *)
Context (is_authority is_network_authority : Role -> bool).

Abbreviation Run := (SE (list Action) Error).

(** A call that cannot fail, and a call followed by [?]. *)
Definition call (a : Action) : Run unit := se_modify (fun tr => tr ++ [a]).
Definition try_call (a : Action) : Run unit := fun tr =>
  match fails tr a with
  | Some e => (Err e, tr ++ [a])
  | None => (Ok tt, tr ++ [a])
  end.
Definition when (b : bool) (m : Run unit) : Run unit := if b then m else mret tt.

(** [new_partial]. *)
Definition new_partial (e : Executor) : Run (bool -> list RpcApi) :=
  _ ← try_call (NewFullParts e);
  _ ← call FullPool;
  _ ← try_call GrandpaBlockImport;
  _ ← try_call BabeConfig;
  _ ← try_call BabeBlockImport;
  _ ← try_call (BabeImportQueue true false);
  mret create_full.

(** The block that spawns authority discovery. *)
Definition spawn_authority_discovery (r : Role) : Run unit :=
  match r with
  | Authority sentry_nodes => call (SpawnAuthorityDiscovery sentry_nodes DiscoverAuthority)
  | Sentry _ => call (SpawnAuthorityDiscovery [] DiscoverSentry)
  | _ => mret tt
  end.

Definition grandpa_config (config : Configuration) : GrandpaConfig := {|
  gossip_duration_ms := 333;
  justification_period := 512;
  grandpa_name := node_name config;
  observer_enabled := false;
  with_keystore := is_authority (role config);
  grandpa_is_authority := is_network_authority (role config);
|}.

(** The GRANDPA voter, or what replaces it when it is disabled. *)
Definition start_grandpa (config : Configuration) : Run unit :=
  if negb (disable_grandpa config) then
    _ ← try_call (RunGrandpaVoter (grandpa_config config));
    call (SpawnEssential "grandpa-voter")
  else try_call SetupDisabledGrandpa.

(** [new_full_base]. *)
Definition new_full_base (e : Executor) (config : Configuration) : Run unit :=
  rpc_extensions_builder ← new_partial e;
  _ ← try_call (BuildNetwork false false false true);
  _ ← when (offchain_worker_enabled config) (call BuildOffchainWorkers);
  _ ← try_call (SpawnTasks false rpc_extensions_builder);
  _ ← match role config with
      | Authority _ =>
          _ ← try_call (StartBabe (force_authoring config));
          call (SpawnEssential "babe-proposer")
      | _ => mret tt
      end;
  _ ← spawn_authority_discovery (role config);
  _ ← start_grandpa config;
  call StartNetwork.

(** [new_light_base]. *)
Definition new_light_base (e : Executor) (config : Configuration) : Run unit :=
  _ ← try_call (NewLightParts e);
  _ ← call LightPool;
  _ ← try_call GrandpaLightBlockImport;
  _ ← try_call BabeConfig;
  _ ← try_call BabeBlockImport;
  _ ← try_call (BabeImportQueue false true);
  _ ← try_call (BuildNetwork true true false true);
  _ ← call StartNetwork;
  _ ← when (offchain_worker_enabled config) (call BuildOffchainWorkers);
  try_call (SpawnTasks true (fun _ => create_light)).

(** [ipci::new_full], [ipci::new_light], [robonomics::new_full] and
    [robonomics::new_light]. *)
Definition ipci_new_full := new_full_base IpciExecutor.
Definition ipci_new_light := new_light_base IpciExecutor.
Definition robonomics_new_full := new_full_base RobonomicsExecutor.
Definition robonomics_new_light := new_light_base RobonomicsExecutor.

(** [parachain::new_partial]. *)
Definition parachain_new_partial : Run unit :=
  _ ← try_call (NewFullParts ParachainExecutor);
  _ ← call FullPool;
  try_call CumulusImportQueue.

(** [collator::run_node]; an error of this code is made from a text. *)
Context (of_string : string -> Error).

Definition run_node (config : Configuration) (para_id : Z) (validator : bool) : Run unit :=
  match role config with
  | Light => se_throw (of_string "Light client not supported!")
  | _ =>
      _ ← parachain_new_partial;
      _ ← call RegisterTimestamp;
      _ ← try_call (BuildNetwork false false true false);
      _ ← try_call (SpawnTasks false (fun _ => []));
      _ ← (if validator then try_call (StartCollator para_id)
           else try_call (StartFullNode para_id));
      call StartNetwork
  end.
End services.

(** ** The plans

    What a node of each kind is made of, in order.  A plan is performed call by
    call, up to the first one that fails. *)

Definition full_plan (is_authority is_network_authority : Role -> bool) (e : Executor)
    (config : Configuration) : list Action :=
  [NewFullParts e; FullPool; GrandpaBlockImport; BabeConfig; BabeBlockImport;
   BabeImportQueue true false; BuildNetwork false false false true] ++
  (if offchain_worker_enabled config then [BuildOffchainWorkers] else []) ++
  [SpawnTasks false create_full] ++
  (match role config with
   | Authority sentries =>
       [StartBabe (force_authoring config); SpawnEssential "babe-proposer";
        SpawnAuthorityDiscovery sentries DiscoverAuthority]
   | Sentry _ => [SpawnAuthorityDiscovery [] DiscoverSentry]
   | _ => []
   end) ++
  (if disable_grandpa config then [SetupDisabledGrandpa]
   else [RunGrandpaVoter (grandpa_config is_authority is_network_authority config);
         SpawnEssential "grandpa-voter"]) ++
  [StartNetwork].

Definition light_plan (e : Executor) (config : Configuration) : list Action :=
  [NewLightParts e; LightPool; GrandpaLightBlockImport; BabeConfig; BabeBlockImport;
   BabeImportQueue false true; BuildNetwork true true false true; StartNetwork] ++
  (if offchain_worker_enabled config then [BuildOffchainWorkers] else []) ++
  [SpawnTasks true (fun _ => create_light)].

Definition collator_plan (para_id : Z) (validator : bool) : list Action :=
  [NewFullParts ParachainExecutor; FullPool; CumulusImportQueue; RegisterTimestamp;
   BuildNetwork false false true false; SpawnTasks false (fun _ => []);
   if validator then StartCollator para_id else StartFullNode para_id; StartNetwork].

(** The calls that the code does not check. *)
Definition infallible (a : Action) : bool :=
  match a with
  | FullPool | LightPool | RegisterTimestamp | BuildOffchainWorkers | SpawnEssential _
  | SpawnAuthorityDiscovery _ _ | StartNetwork => true
  | _ => false
  end.

Section plans.
Context {Error : Type} (fails : list Action -> Action -> option Error).

(** Perform a plan after the calls of [tr]. *)
Fixpoint perform (plan : list Action) (tr : list Action) : result Error unit * list Action :=
  match plan with
  | [] => (Ok tt, tr)
  | a :: plan =>
      match (if infallible a then None else fails tr a) with
      | Some e => (Err e, tr ++ [a])
      | None => perform plan (tr ++ [a])
      end
  end.

(** A performed plan is the whole of it, or its part up to a call that failed. *)
Lemma perform_spec plan tr :
  (perform plan tr = (Ok tt, tr ++ plan)) \/
  (exists done a rest e, plan = done ++ a :: rest /\ infallible a = false /\
     fails (tr ++ done) a = Some e /\ perform plan tr = (Err e, tr ++ done ++ [a])).
Proof.
  revert tr. induction plan as [|a plan IH]; intros tr; cbn [perform].
  - left. by rewrite app_nil_r.
  - assert (Hgo : perform plan (tr ++ [a]) = (Ok tt, tr ++ a :: plan) \/
      (exists done b rest e, a :: plan = done ++ b :: rest /\ infallible b = false /\
        fails (tr ++ done) b = Some e /\
        perform plan (tr ++ [a]) = (Err e, tr ++ done ++ [b]))).
    { destruct (IH (tr ++ [a])) as [Hok|(d & b & rest & e & -> & Hb & Hf & Hp)].
      - left. by rewrite Hok, <- (assoc_L (++)).
      - right. exists (a :: d), b, rest, e. rewrite Hp, <- !(assoc_L (++)).
        rewrite <- (assoc_L (++)) in Hf. done. }
    destruct (infallible a) eqn:Ha; [done|].
    destruct (fails tr a) as [e|] eqn:Hf; [|done].
    right. exists [], a, plan, e. by rewrite app_nil_r.
Qed.

Lemma perform_app p q tr :
  perform (p ++ q) tr =
  match perform p tr with
  | (Ok _, tr') => perform q tr'
  | (Err e, tr') => (Err e, tr')
  end.
Proof.
  revert tr. induction p as [|a p IH]; intros tr; cbn [app perform]; [done|].
  by destruct (if infallible a then None else fails tr a).
Qed.

(** Steps of a service, as steps of a plan. *)
Lemma try_call_perform {A} a (k : unit -> SE (list Action) Error A) tr :
  infallible a = false ->
  (_ ← try_call fails a; k tt) tr =
  match perform [a] tr with
  | (Ok _, tr') => k tt tr'
  | (Err e, tr') => (Err e, tr')
  end.
Proof.
  intros Ha. cbn [perform]. rewrite Ha. unfold mbind, SE_bind, try_call.
  by destruct (fails tr a).
Qed.
End plans.

(** Unfold a straight-line service and case on each of its calls. *)
Ltac run_calls :=
  repeat (progress (cbn [perform app infallible]; se_unfold; unfold try_call, call, when) ||
    match goal with
    | |- context [match ?f ?tr ?a with _ => _ end] =>
        match type of f with list Action -> Action -> _ => destruct (f tr a) end
    end); try done.

(** Decide which calls are in a plan, once its membership is a disjunction. *)
Ltac in_plan :=
  split; intros H;
  repeat match goal with
  | H : _ \/ _ |- _ => destruct H
  | H : exists _, _ |- _ => destruct H
  | H : False |- _ => destruct H
  | H : @eq Action _ _ |- _ => first [discriminate H | injection H as H; subst]
  end; try discriminate; try done; eauto 20.

Section facts.
Context {Error : Type} (fails : list Action -> Action -> option Error).
Context (is_authority is_network_authority : Role -> bool) (of_string : string -> Error).

Lemma full_performs e config tr :
  new_full_base fails is_authority is_network_authority e config tr =
  perform fails (full_plan is_authority is_network_authority e config) tr.
Proof.
  unfold new_full_base, new_partial, full_plan, spawn_authority_discovery, start_grandpa.
  destruct (role config), (offchain_worker_enabled config), (disable_grandpa config);
    cbn [negb]; run_calls.
Qed.

Lemma light_performs e config tr :
  new_light_base fails e config tr = perform fails (light_plan e config) tr.
Proof.
  unfold new_light_base, light_plan. destruct (offchain_worker_enabled config); run_calls.
Qed.

Lemma collator_performs config para_id validator tr :
  role config <> Light ->
  run_node fails of_string config para_id validator tr =
  perform fails (collator_plan para_id validator) tr.
Proof.
  intros Hr. unfold run_node, parachain_new_partial, collator_plan.
  destruct (role config); [|done|..]; destruct validator; run_calls.
Qed.

(** C37: a full node is put together in full or its network is never started.
    The calls made are those of the plan for its role, or the plan's calls up to
    the first one that fails; starting the network is the last call of the plan;
    BABE is started exactly on an authority, authority discovery exactly on an
    authority or a sentry, and GRANDPA either votes or is set up as disabled. *)
Theorem full_node_plan e config :
  let plan := full_plan is_authority is_network_authority e config in
  (let '(res, tr) := new_full_base fails is_authority is_network_authority e config [] in
   res = Ok tt /\ tr = plan \/
   exists done a rest err, plan = done ++ a :: rest /\ fails done a = Some err /\
     res = Err err /\ tr = done ++ [a] /\ StartNetwork ∉ tr) /\
  (exists before, plan = before ++ [StartNetwork] /\ StartNetwork ∉ before) /\
  (StartBabe (force_authoring config) ∈ plan <->
     exists sentries, role config = Authority sentries) /\
  ((exists sentries r, SpawnAuthorityDiscovery sentries r ∈ plan) <->
     exists l, role config = Authority l \/ role config = Sentry l) /\
  (SetupDisabledGrandpa ∈ plan <-> disable_grandpa config = true) /\
  (RunGrandpaVoter (grandpa_config is_authority is_network_authority config) ∈ plan <->
     disable_grandpa config = false).
Proof.
  cbn zeta. rewrite full_performs.
  set (plan := full_plan _ _ e config).
  assert (Hlast : exists before, plan = before ++ [StartNetwork] /\ StartNetwork ∉ before).
  { unfold plan, full_plan. rewrite !(assoc_L (++)). eexists. split; [reflexivity|].
    destruct (role config), (offchain_worker_enabled config), (disable_grandpa config);
      cbn [app]; rewrite ?elem_of_cons, ?elem_of_nil; naive_solver. }
  split; [|split; [exact Hlast|]].
  - destruct (perform_spec fails plan []) as [->|(d & a & rest & err & Hp & Ha & Hf & ->)].
    { by left. }
    right. exists d, a, rest, err. cbn [app] in Hf |- *. do 4 (split; [done|]).
    destruct Hlast as (before & Hb & Hn). rewrite Hb in Hp. intros Hin.
    destruct (exists_last_or_nil rest) as [->|(rest' & z & ->)].
    + apply app_inj_tail in Hp as [-> <-]. by cbn in Ha.
    + rewrite app_comm_cons, (assoc_L (++)) in Hp. apply app_inj_tail in Hp as [-> _].
      apply Hn. rewrite elem_of_app, elem_of_cons in Hin |- *.
      rewrite elem_of_nil in Hin. naive_solver.
  - unfold plan, full_plan.
    split; [|split; [|split]];
      repeat setoid_rewrite elem_of_app; repeat setoid_rewrite elem_of_cons;
      repeat setoid_rewrite elem_of_nil.
    all: destruct (role config) as [| |l|l], (disable_grandpa config),
      (offchain_worker_enabled config);
      repeat setoid_rewrite elem_of_cons; repeat setoid_rewrite elem_of_nil; in_plan.
Qed.
End facts.
