(* ===== verification/NodeCli.v ===== *)
(** * The command line of a node

    [bin/node/cli/src/chain_spec.rs], [command.rs], [cli.rs], [browser.rs] and
    [bin/node/cli/src/parachain/command.rs]: the chains of the Robonomics family,
    the genesis of the development chain, and what a command line starts.

    Chain specifications are [sc_service]'s: reading one from JSON or building one
    from a genesis is a parameter, as are the keys derived from a secret URI.  The
    two embedded specifications are the resources [ipci.json] and
    [robonomics_parachain.json]. *)
From stdpp Require Import prelude strings list.
From Stdlib Require Import ZArith Lia.
From S2P Require Import Prelude Runtime Service.
Local Open Scope string_scope.
Local Open Scope Z_scope.
Local Open Scope list_scope.

(** The cargo features the code depends on. *)
Record Features : Type := mkFeatures {
  parachain : bool; robonomics_cli : bool; benchmarking_cli : bool }.

Inductive RobonomicsFamily : Type := Unknown | Development | DaoIpci | Parachain.
#[export] Instance RobonomicsFamily_eq_dec : EqDecision RobonomicsFamily.
Proof. solve_decision. Defined.

Definition DAO_IPCI_ID : string := "ipci".
Definition ROBONOMICS_PARACHAIN_ID : string := "robonomics".

(** [RobonomicsChain::family], of a specification with the given identifier. *)
Definition family (features : Features) (id : string) : RobonomicsFamily :=
  if bool_decide (id = DAO_IPCI_ID) then DaoIpci
  else if parachain features && bool_decide (id = ROBONOMICS_PARACHAIN_ID) then Parachain
  else if bool_decide (id = "dev") then Development
  else Unknown.

(** [parachain::chain_spec::Extensions]. *)
Record Extensions : Type := mkExtensions { relay_chain : string; para_id : Z }.

(** ** The development chain *)

(** The five kinds of keys. *)
Inductive KeyKind : Type := Sr25519 | BabeId | GrandpaId | ImOnlineId | AuthorityDiscoveryId.

Section genesis.
Context {Key AccountId : Type}.
(** [Pair::from_string] followed by [public], and the account of a key. *)
Context (public_from_string : KeyKind -> string -> option Key).
Context (into_account : Key -> AccountId).

Abbreviation Fallible := (outcome Empty_set).

Definition get_from_seed (kind : KeyKind) (seed : string) : Fallible Key :=
  expect_some "static values are valid; qed" (public_from_string kind ("//" +:+ seed)).

Definition get_account_id_from_seed (seed : string) : Fallible AccountId :=
  into_account <$> get_from_seed Sr25519 seed.

(** The six components of the tuple of an initial authority. *)
Record InitialAuthority : Type := mkAuthority {
  stash : AccountId; controller : AccountId;
  babe : Key; grandpa : Key; im_online : Key; authority_discovery : Key;
}.

Definition get_authority_keys_from_seed (seed : string) : Fallible InitialAuthority :=
  s ← get_account_id_from_seed (seed +:+ "//stash");
  c ← get_account_id_from_seed seed;
  b ← get_from_seed BabeId seed;
  g ← get_from_seed GrandpaId seed;
  i ← get_from_seed ImOnlineId seed;
  a ← get_from_seed AuthorityDiscoveryId seed;
  Return (mkAuthority s c b g i a).

Record SessionKeys : Type := mkSessionKeys {
  sk_babe : Key; sk_grandpa : Key; sk_im_online : Key; sk_authority_discovery : Key }.

Definition session_keys (babe grandpa im_online authority_discovery : Key) : SessionKeys :=
  mkSessionKeys babe grandpa im_online authority_discovery.

Inductive StakerStatus : Type := Idle | Validator | Nominator (targets : list AccountId).

(** [robonomics_runtime::GenesisConfig], the fields that are set; the lists set
    to [vec![]] are left out. *)
Record GenesisConfig : Type := mkGenesisConfig {
  system_code : bytes;
  balances : list (AccountId * Z);
  session : list (AccountId * AccountId * SessionKeys);
  validator_count : Z;
  minimum_validator_count : Z;
  stakers : list (AccountId * AccountId * Z * StakerStatus);
  invulnerables : list AccountId;
  slash_reward_percent : Z;
  sudo_key : AccountId;
}.

Definition STASH : Z := 1000000.
Definition ENDOWMENT : Z := 1000000000000000000.

Definition mk_genesis (initial_authorities : list InitialAuthority)
    (endowed_accounts : list (AccountId * Z)) (sudo : AccountId) (code : bytes) :
    GenesisConfig := {|
  system_code := code;
  balances := endowed_accounts ++ ((fun x => (stash x, STASH)) <$> initial_authorities);
  session := (fun x =>
    (stash x, stash x,
     session_keys (babe x) (grandpa x) (im_online x) (authority_discovery x)))
    <$> initial_authorities;
  validator_count := 10;
  minimum_validator_count := 3;
  stakers := (fun x => (stash x, controller x, STASH, Validator)) <$> initial_authorities;
  invulnerables := stash <$> initial_authorities;
  slash_reward_percent := 10;
  sudo_key := sudo;
|}.

Definition endowed_seeds : list string :=
  ["Alice"; "Bob"; "Charlie"; "Dave"; "Eve"; "Ferdie"; "Alice//stash"; "Bob//stash";
   "Charlie//stash"; "Dave//stash"; "Eve//stash"; "Ferdie//stash"].

(** [wasm_binary_unwrap]. *)
Context (wasm_binary : bytes).

Definition development_genesis (initial_authorities : list InitialAuthority)
    (endowed_accounts : option (list AccountId)) (sudo : AccountId) : Fallible GenesisConfig :=
  endowed ← match endowed_accounts with
            | Some l => Return l
            | None => mapM get_account_id_from_seed endowed_seeds
            end;
  Return (mk_genesis initial_authorities ((fun acc => (acc, ENDOWMENT)) <$> endowed) sudo
    wasm_binary).

(** The genesis closure of [development_config]. *)
Definition development_config_genesis : Fallible GenesisConfig :=
  alice ← get_authority_keys_from_seed "Alice";
  root ← get_account_id_from_seed "Alice";
  development_genesis [alice] None root.
End genesis.

(** ** The genesis state of the parachain

    The header of block zero, over the storage of a specification: its top entries
    and its children; [trie_root] is the hashing of the headers. *)
Section genesis_state.
Context {Hash : Type} (trie_root : list (bytes * bytes) -> Hash) (encode_hash : Hash -> bytes).

Record Header : Type := mkHeader {
  number : Z; extrinsics_root : Hash; state_root : Hash }.

Record Storage : Type := mkStorage {
  top : list (bytes * bytes); children_default : list (bytes * list (bytes * bytes)) }.

(** [generate_genesis_state], over [build_storage] of the embedded specification
    of the parachain. *)
Definition generate_genesis_state {Error} (built : result Error Storage) : result Error Header :=
  storage ← built;
  let child_roots :=
    (fun '(sk, child_content) => (sk, encode_hash (trie_root child_content)))
      <$> children_default storage in
  Ok (mkHeader 0 (trie_root []) (trie_root (top storage ++ child_roots))).
End genesis_state.

(** ** The commands *)

Section commands.
Context (features : Features).
Context {Spec Genesis Error : Type} (spec_id : Spec -> string).
(** [ChainSpec::from_json_bytes], [from_json_file] and [from_genesis]. *)
Context (from_json_bytes from_json_parachain : bytes -> result string Spec).
Context (from_json_file : string -> result string Spec).
Context (from_genesis : string -> string -> outcome Empty_set Genesis -> Spec).
Context (ipci_json robonomics_parachain_json : bytes).
Context (genesis : outcome Empty_set Genesis).

Definition ipci_config : outcome string Spec :=
  expect_ok "called `Result::unwrap()` on an `Err` value" (from_json_bytes ipci_json).
Definition robonomics_parachain_config : outcome string Spec :=
  expect_ok "called `Result::unwrap()` on an `Err` value"
    (from_json_parachain robonomics_parachain_json).
Definition development_config : Spec := from_genesis "Development" "dev" genesis.

(** [SubstrateCli::load_spec]. *)
Definition load_spec (id : string) : outcome string Spec :=
  if bool_decide (id = "dev") then Return development_config
  else if bool_decide (id = "ipci") then ipci_config
  else if parachain features && (bool_decide (id = "") || bool_decide (id = "parachain")) then
    robonomics_parachain_config
  else try_result (from_json_file id).

(** [SubstrateCli::native_runtime_version]. *)
Definition native_runtime_version (chain_spec : Spec) : outcome Empty_set RuntimeVersion :=
  match family features (spec_id chain_spec) with
  | DaoIpci => Return Ipci.VERSION
  | Development => Return Robonomics.VERSION
  | Parachain => Return Parachain.VERSION
  | Unknown => Panic "Unknown runtime"
  end.

(** *** What is started *)
Context (fails : list Action -> Action -> option Error).
Context (is_authority is_network_authority : Role -> bool) (of_string : string -> Error).

Abbreviation Run := (SE (list Action) Error).
Abbreviation full e := (new_full_base fails is_authority is_network_authority e).
Abbreviation light e := (new_light_base fails e).

(** [parachain::command::run], over [Extensions::try_get], the storage [built] from
    the embedded specification (read as in [robonomics_parachain_config]), and the
    configuration of the relay chain, given its chain and its arguments. *)
Context (extensions : Spec -> option Extensions).
Context {Hash : Type} (trie_root : list (bytes * bytes) -> Hash) (encode_hash : Hash -> bytes).
Context (built : result Error Storage).
Context (create_configuration : option string -> list string -> result string unit).

Definition parachain_id (chain_spec : Spec) : Z :=
  default 100 (para_id <$> extensions chain_spec).
Definition relay_chain_id (chain_spec : Spec) : option string :=
  relay_chain <$> extensions chain_spec.

Definition parachain_run (chain_spec : Spec) (config : Configuration)
    (relaychain_args : list string) (validator : bool) : Run unit :=
  _ ← se_lift (generate_genesis_state trie_root encode_hash built);
  _ ← se_lift (map_err (fun err => of_string ("Relay chain argument error: " +:+ err))
        (create_configuration (relay_chain_id chain_spec) ("robonomics" :: relaychain_args)));
  run_node fails of_string config (parachain_id chain_spec) validator.

(** [enum Subcommand]: [B], [I] and [K] are the commands of [sc_cli], of
    [robonomics_cli] and of [frame_benchmarking_cli]. *)
Context {B I K : Type}.
Inductive Subcommand : Type :=
| Base (subcommand : B)
| Io (subcommand : I)
| Benchmark (subcommand : K).

(** [struct Cli], with the specification and the configuration of the runner that
    [create_runner] makes for it. *)
Record Cli : Type := mkCli {
  subcommand : option Subcommand;
  validator : bool;
  relaychain_args : list string;
}.

(** How the three kinds of subcommands run.  [runner.run_subcommand] is given the
    components of the node, whose types alone tell it the runtime; a benchmark is given
    the executor as a type. *)
Context (run_base : B -> Run unit -> Run unit).
Context (run_io : I -> Run unit).
Context (run_benchmark : K -> Executor -> Run unit).
(** [chain_spec.is_ipci()], which the repository does not declare. *)
Context (is_ipci : Spec -> bool).

Definition unsupported (chain_spec : Spec) : Error :=
  of_string ("unsupported chain spec: " +:+ spec_id chain_spec).

Definition run_node_by_role (e : Executor) (config : Configuration) : Run unit :=
  match role config with
  | Light => light e config
  | _ => full e config
  end.

Definition components (e : Executor) : Run unit :=
  _ ← new_partial fails e; mret tt.

(** [run], after [create_runner]. *)
Definition run (cli : Cli) (chain_spec : Spec) (config : Configuration) : Run unit :=
  match subcommand cli with
  | None =>
      match family features (spec_id chain_spec) with
      | DaoIpci => run_node_by_role IpciExecutor config
      | Development => run_node_by_role RobonomicsExecutor config
      | Parachain =>
          match role config with
          | Light => se_throw (of_string "Light client not supporter!")
          | _ => parachain_run chain_spec config (relaychain_args cli) (validator cli)
          end
      | Unknown => se_throw (unsupported chain_spec)
      end
  | Some (Base s) =>
      match family features (spec_id chain_spec) with
      | DaoIpci => run_base s (components IpciExecutor)
      | Development => run_base s (components RobonomicsExecutor)
      | Parachain => run_base s (parachain_new_partial fails)
      | Unknown => se_throw (unsupported chain_spec)
      end
  | Some (Io s) => run_io s
  | Some (Benchmark s) =>
      if is_ipci chain_spec then run_benchmark s IpciExecutor
      else run_benchmark s RobonomicsExecutor
  end.

(** [browser::start_inner], after the configuration of the browser: only the light
    client of IPCI. *)
Definition browser_start (chain_spec : Spec) (config : Configuration) :
    SO (list Action) Error unit :=
  match family features (spec_id chain_spec) with
  | DaoIpci => fun tr =>
      match light IpciExecutor config tr with
      | (Ok _, tr') => (Return tt, tr')
      | (Err e, tr') => (Fail e, tr')
      end
  | _ => so_lift (Panic "not implemented")
  end.
End commands.

(** [RelayChainCli]: the options of the relay chain's node that are this code's. *)
Record RelayChainCli : Type := mkRelayChainCli {
  chain_id : option string; base_path : option string }.

Definition p2p_listen_port : Z := 30334.
Definition rpc_ws_listen_port : Z := 9945.
Definition rpc_http_listen_port : Z := 9934.
Definition prometheus_listen_port : Z := 9616.

(** [base_path] and [chain_id], given what the shared parameters answer. *)
Definition relay_base_path (cli : RelayChainCli) (shared : option string) : option string :=
  match shared with Some p => Some p | None => base_path cli end.
Definition relay_chain_of (cli : RelayChainCli) (base : string) : string :=
  if bool_decide (base = "") then default "" (chain_id cli) else base.

(** ** Facts *)

Section genesis_facts.
Context {Key AccountId : Type}.
Context (public_from_string : KeyKind -> string -> option Key).
Context (into_account : Key -> AccountId) (wasm_binary : bytes).
(** The keys of the development seeds. *)
Context (key : KeyKind -> string -> Key).
Abbreviation account seed := (into_account (key Sr25519 seed)).

Hypothesis derives :
  forall kind seed, public_from_string kind ("//" +:+ seed) = Some (key kind seed).

Lemma key_derives kind seed :
  get_from_seed public_from_string kind seed = Return (key kind seed).
Proof using derives. unfold get_from_seed. by rewrite derives. Qed.

Lemma account_derives seed :
  get_account_id_from_seed public_from_string into_account seed = Return (account seed).
Proof using derives. unfold get_account_id_from_seed. by rewrite key_derives. Qed.

Lemma seeds_derive (seeds : list string) :
  mapM (get_account_id_from_seed public_from_string into_account) seeds =
    Return ((fun seed => account seed) <$> seeds).
Proof using derives.
  induction seeds as [|s l IH]; [done|].
  cbn [mapM fmap list_fmap]. by rewrite IH, account_derives.
Qed.

(** The development genesis.  It exists whenever the seeds derive keys: twelve
    accounts are endowed, Alice is the only validator, bonded by her stash with
    session keys of her own, and holds sudo; and with distinct seeds giving
    distinct accounts exactly one account is listed twice in the balances: the
    stash of Alice, first with the endowment and then with the stake. *)
Lemma development_genesis_spec :
  (forall s s', account s = account s' -> s = s') ->
  exists g, development_config_genesis public_from_string into_account wasm_binary = Return g /\
    balances g = ((fun s => (account s, ENDOWMENT)) <$> endowed_seeds) ++
      [(account "Alice//stash", STASH)] /\
    NoDup ((fun s => account s) <$> endowed_seeds) /\
    (forall a i j, (balances g).*1 !! i = Some a -> (balances g).*1 !! j = Some a -> (i < j)%nat ->
       a = account "Alice//stash" /\ i = 6%nat /\ j = 12%nat) /\
    stakers g = [(account "Alice//stash", account "Alice", STASH, Validator)] /\
    session g = [(account "Alice//stash", account "Alice//stash",
      mkSessionKeys (key BabeId "Alice") (key GrandpaId "Alice") (key ImOnlineId "Alice")
        (key AuthorityDiscoveryId "Alice"))] /\
    sudo_key g = account "Alice" /\
    Z.of_nat (length (stakers g)) < minimum_validator_count g.
Proof using derives.
  intros Hinj.
  assert (Hnd : NoDup ((fun s => account s) <$> endowed_seeds)).
  { apply NoDup_fmap_2_strong; [by intros ???? ?%Hinj|].
    apply (bool_decide_unpack _). by vm_compute. }
  eexists. split.
  { unfold development_config_genesis, get_authority_keys_from_seed, development_genesis.
    rewrite !account_derives, !key_derives, seeds_derive. reflexivity. }
  unfold mk_genesis; cbn [balances stakers session sudo_key minimum_validator_count].
  split; [done|]. split; [done|]. split; [|repeat split; cbn; lia].
  rewrite fmap_app, <- list_fmap_compose.
  change (fst ∘ (fun acc : AccountId => (acc, ENDOWMENT))) with (fun acc : AccountId => acc).
  rewrite list_fmap_id. intros a i j Hi Hj Hij.
  set (accounts := (fun s => account s) <$> endowed_seeds) in *.
  assert (Hlen : length accounts = 12%nat) by done.
  assert (H6 : accounts !! 6%nat = Some (account "Alice//stash")) by done.
  assert (Hj12 : (j < 13)%nat).
  { apply lookup_lt_Some in Hj. rewrite length_app in Hj. cbn in Hj. lia. }
  rewrite lookup_app_l in Hi by lia.
  destruct (decide (j < 12)%nat) as [Hj'|Hj'].
  - rewrite lookup_app_l in Hj by lia. pose proof (NoDup_lookup _ _ _ _ Hnd Hi Hj). lia.
  - assert (j = 12%nat) as -> by lia. rewrite lookup_app_r in Hj by lia.
    rewrite Hlen in Hj. cbn in Hj. injection Hj as <-. split; [done|]. split; [|done].
    exact (NoDup_lookup _ _ _ _ Hnd Hi H6).
Qed.

(** A genesis made for any authorities is consistent: its stakers, session keys
    and invulnerables are the same stashes in the same order, each stash is bonded
    for exactly what the balances give it in its own entry, and session keys are
    the four keys of that authority; nothing else is added to the endowments. *)
Lemma genesis_consistent (initial : list (@InitialAuthority Key AccountId)) endowed sudo code :
  let g := mk_genesis initial endowed sudo code in
  (stakers g).*1.*1.*1 = invulnerables g /\
  (session g).*1.*1 = invulnerables g /\ (session g).*1.*2 = invulnerables g /\
  balances g = endowed ++ ((fun '(s, _, bonded, _) => (s, bonded)) <$> stakers g) /\
  (forall i x, initial !! i = Some x ->
     invulnerables g !! i = Some (stash x) /\ (session g).*2 !! i =
       Some (mkSessionKeys (babe x) (grandpa x) (im_online x) (authority_discovery x))) /\
  length (session g) = length initial.
Proof.
  cbn zeta. unfold mk_genesis; cbn [stakers invulnerables session balances].
  rewrite <- !list_fmap_compose, length_fmap.
  do 4 (split; [done|]). split; [|done].
  intros i x Hx. by rewrite !list_lookup_fmap, Hx.
Qed.
End genesis_facts.

Section command_facts.
Context (features : Features).
Context {Spec Genesis Error : Type} (spec_id : Spec -> string).
Context (from_json_bytes from_json_parachain : bytes -> result string Spec).
Context (from_json_file : string -> result string Spec).
Context (from_genesis : string -> string -> outcome Empty_set Genesis -> Spec).
Context (ipci_json robonomics_parachain_json : bytes).
Context (genesis : outcome Empty_set Genesis).

Abbreviation load := (load_spec features from_json_bytes from_json_parachain from_json_file
  from_genesis ipci_json robonomics_parachain_json genesis).
Abbreviation family_of s := (family features (spec_id s)).

(** The names of the chains.  With the two embedded specifications readable and
    carrying their identifiers, and the parachain feature on, [dev], [ipci], and
    [parachain] or no name at all load chains of the three families; every other
    name is a file, whose error is the error reported, and whose identifier alone
    decides the family. *)
Lemma load_spec_families :
  parachain features = true ->
  (forall name id g, spec_id (from_genesis name id g) = id) ->
  (exists s, from_json_bytes ipci_json = Ok s /\ spec_id s = "ipci") ->
  (exists s, from_json_parachain robonomics_parachain_json = Ok s /\ spec_id s = "robonomics") ->
  (exists s, load "dev" = Return s /\ family_of s = Development) /\
  (exists s, load "ipci" = Return s /\ family_of s = DaoIpci) /\
  (exists s, load "" = Return s /\ load "parachain" = Return s /\ family_of s = Parachain) /\
  (forall path, path ∉ ["dev"; "ipci"; ""; "parachain"] ->
     load path = try_result (from_json_file path)) /\
  (forall s, family_of s = Unknown <-> spec_id s ∉ ["dev"; "ipci"; "robonomics"]).
Proof.
  intros Hf Hid (si & Hi & Hidi) (sp & Hp & Hidp).
  unfold load_spec, ipci_config, robonomics_parachain_config, family. rewrite Hf, Hi, Hp.
  cbn [expect_ok andb].
  split; [eexists; split; [done|]; unfold development_config; by rewrite Hid|].
  split; [eexists; split; [done|]; by rewrite Hidi|].
  split; [eexists; split; [done|]; split; [done|]; by rewrite Hidp|].
  unfold DAO_IPCI_ID, ROBONOMICS_PARACHAIN_ID. split.
  - intros path Hn. rewrite !not_elem_of_cons in Hn.
    destruct Hn as (? & ? & ? & ? & _). by rewrite !bool_decide_false by done.
  - intros s. rewrite !not_elem_of_cons.
    destruct (decide (spec_id s = "ipci")) as [Hs|]; [rewrite Hs; naive_solver|].
    destruct (decide (spec_id s = "robonomics")) as [Hs|]; [rewrite Hs; naive_solver|].
    destruct (decide (spec_id s = "dev")) as [Hs|]; [rewrite Hs; naive_solver|].
    rewrite !bool_decide_false by done. split; [|done]. repeat split; try done. apply not_elem_of_nil.
Qed.

Context (fails : list Action -> Action -> option Error).
Context (is_authority is_network_authority : Role -> bool) (of_string : string -> Error).
Context (extensions : Spec -> option Extensions).
Context {Hash : Type} (trie_root : list (bytes * bytes) -> Hash) (encode_hash : Hash -> bytes).
Context (built : result Error Storage).
Context (create_configuration : option string -> list string -> result string unit).
Context {B I K : Type}.
Context (run_base : B -> SE (list Action) Error unit -> SE (list Action) Error unit).
Context (run_io : I -> SE (list Action) Error unit).
Context (run_benchmark : K -> Executor -> SE (list Action) Error unit).
Context (is_ipci : Spec -> bool).

Abbreviation run_cli := (run features spec_id fails is_authority is_network_authority of_string
  extensions trie_root encode_hash built create_configuration run_base run_io run_benchmark is_ipci).

(** The version of the native runtime of an executor. *)
Definition executor_version (e : Executor) : RuntimeVersion :=
  match e with
  | IpciExecutor => Ipci.VERSION
  | RobonomicsExecutor => Robonomics.VERSION
  | ParachainExecutor => Parachain.VERSION
  end.

(** What a node of an executor is made of. *)
Definition node_plan (e : Executor) (spec : Spec) (config : Configuration) (validator : bool) :
    list Action :=
  match e, role config with
  | ParachainExecutor, _ => collator_plan (parachain_id extensions spec) validator
  | _, Light => light_plan e config
  | _, _ => full_plan is_authority is_network_authority e config
  end.

(** The components a subcommand of Substrate works on, for an executor: the parts of a
    full node of that runtime, its pool, and what imports blocks. *)
Definition node_components (e : Executor) : SE (list Action) Error unit :=
  match e with ParachainExecutor => parachain_new_partial fails | _ => components fails e end.
Definition components_plan (e : Executor) : list Action :=
  match e with
  | ParachainExecutor => [NewFullParts e; FullPool; CumulusImportQueue]
  | _ => [NewFullParts e; FullPool; GrandpaBlockImport; BabeConfig; BabeBlockImport;
          BabeImportQueue true false]
  end.
Lemma components_perform e tr : node_components e tr = perform fails (components_plan e) tr.
Proof.
  destruct e; unfold node_components, components_plan, components, new_partial, parachain_new_partial;
    run_calls.
Qed.

End command_facts.
