(* ===== verification/RelayChain.v ===== *)
(** * The command lines of the two nodes of a collator

    A parachain collator runs a relay chain node beside its own
    ([bin/node/cli/src/parachain/command.rs]): the arguments after [--] are its
    command line.  [CliConfiguration] is the interface of [sc_cli] as far as the
    code answers it: [RelayChainCli] asks the command line of the relay chain
    ([polkadot_cli::RunCmd]) except for the base path and the chain.  The texts of
    the two programs ([SubstrateCli]) are here as well. *)
From stdpp Require Import prelude strings.
From Stdlib Require Import ZArith Lia.
From S2P Require Import Prelude NodeCli.
Local Open Scope string_scope.
Local Open Scope Z_scope.

(** ** What the programs say of themselves *)
Record SubstrateCli : Type := mkSubstrateCli {
  impl_name : string;
  impl_version : string;
  description : string;
  author : string;
  support_url : string;
  copyright_start_year : Z;
  executable_name : string;
}.

(** [env!] of the crate. *)
Record CrateEnv : Type := mkCrateEnv {
  SUBSTRATE_CLI_IMPL_VERSION : string;
  CARGO_PKG_DESCRIPTION : string;
  CARGO_PKG_AUTHORS : string;
}.

Definition cli (env : CrateEnv) : SubstrateCli := {|
  impl_name := "airalab-robonomics";
  impl_version := SUBSTRATE_CLI_IMPL_VERSION env;
  description := CARGO_PKG_DESCRIPTION env;
  author := CARGO_PKG_AUTHORS env;
  support_url := "https://github.com/airalab/robonomics/issues/new";
  copyright_start_year := 2018;
  executable_name := "robonomics";
|}.

Definition newline : string := String (Ascii.ascii_of_nat 10) "".
Definition relay_executable_name : string := "robonomics".
Definition relay_chain_cli (env : CrateEnv) : SubstrateCli := {|
  impl_name := "Robonomics Network Parachain Collator";
  impl_version := SUBSTRATE_CLI_IMPL_VERSION env;
  description :=
    "Robonomics parachain collator" +:+ newline +:+ newline +:+
    "The command-line arguments provided first will be " +:+
    "passed to the parachain node, while the arguments provided after -- will be passed " +:+
    "to the relaychain node." +:+ newline +:+ newline +:+
    relay_executable_name +:+ " [parachain-args] -- [relaychain-args]";
  author := CARGO_PKG_AUTHORS env;
  support_url := "https://github.com/airalab/robonomics/issues/new";
  copyright_start_year := 2020;
  executable_name := relay_executable_name;
|}.

(** [load_spec] and [native_runtime_version] of [RelayChainCli]: those of Polkadot's own
    command line, started with no argument but its name. *)
Section polkadot.
Context {Polkadot Spec RelayVersion : Type}.
Context (from_iter : list string -> Polkadot).
Context (polkadot_load_spec : Polkadot -> string -> result string Spec).
Context (polkadot_native_runtime_version : Spec -> RelayVersion).
Definition relay_load_spec (id : string) : result string Spec :=
  polkadot_load_spec (from_iter [relay_executable_name]) id.
Definition relay_native_runtime_version (chain_spec : Spec) : RelayVersion :=
  polkadot_native_runtime_version chain_spec.
End polkadot.

(** ** The configuration *)
Section configuration.
Context {SharedParams ImportParams NetworkParams KeystoreParams SocketAddr PrometheusConfig : Type}.
Context {Role PoolOptions RpcMethods Transport Error : Type}.
Abbreviation res A := (result Error A).

Record CliConfiguration : Type := mkCliConfiguration {
  shared_params : SharedParams;
  import_params : option ImportParams;
  network_params : option NetworkParams;
  keystore_params : option KeystoreParams;
  config_base_path : res (option string);
  rpc_http : Z -> res (option SocketAddr);
  rpc_ipc : res (option string);
  rpc_ws : Z -> res (option SocketAddr);
  prometheus_config : Z -> res (option PrometheusConfig);
  init : outcome Error unit;
  config_chain_id : bool -> res string;
  config_role : bool -> res Role;
  transaction_pool : res PoolOptions;
  state_cache_child_ratio : res (option Z);
  rpc_methods : res RpcMethods;
  rpc_ws_max_connections : res (option Z);
  rpc_cors : bool -> res (option (list string));
  telemetry_external_transport : res (option Transport);
  default_heap_pages : res (option Z);
  force_authoring : res bool;
  disable_grandpa : res bool;
  max_runtime_instances : res (option Z);
  announce_block : res bool;
}.

(** [SharedParams::base_path], [RunCmd::from_iter] of the relay chain, and
    [Path::join]. *)
Context (params_base_path : SharedParams -> option string).
Context (run_cmd_from_iter : list string -> CliConfiguration).
Context (join : string -> string -> string).

(** [impl CliConfiguration for RelayChainCli], over its field [base]. *)
Definition relay_configuration (base : CliConfiguration) (relay : RelayChainCli) :
    CliConfiguration := {|
  shared_params := shared_params base;
  import_params := import_params base;
  network_params := network_params base;
  keystore_params := keystore_params base;
  config_base_path := Ok (relay_base_path relay (params_base_path (shared_params base)));
  rpc_http default_listen_port := rpc_http base default_listen_port;
  rpc_ipc := rpc_ipc base;
  rpc_ws default_listen_port := rpc_ws base default_listen_port;
  prometheus_config default_listen_port := prometheus_config base default_listen_port;
  init := Panic "PolkadotCli is never initialized; qed";
  config_chain_id is_dev :=
    chain_id ← config_chain_id base is_dev; Ok (relay_chain_of relay chain_id);
  config_role is_dev := config_role base is_dev;
  transaction_pool := transaction_pool base;
  state_cache_child_ratio := state_cache_child_ratio base;
  rpc_methods := rpc_methods base;
  rpc_ws_max_connections := rpc_ws_max_connections base;
  rpc_cors is_dev := rpc_cors base is_dev;
  telemetry_external_transport := telemetry_external_transport base;
  default_heap_pages := default_heap_pages base;
  force_authoring := force_authoring base;
  disable_grandpa := disable_grandpa base;
  max_runtime_instances := max_runtime_instances base;
  announce_block := announce_block base;
|}.

(** [RelayChainCli::new], and the configuration [run] makes for a parachain whose
    configuration has the base path given. *)
Definition relay_new (base_path chain_id : option string) (relay_chain_args : list string) :
    CliConfiguration * RelayChainCli :=
  (run_cmd_from_iter relay_chain_args, mkRelayChainCli chain_id base_path).

Definition polkadot_cli (config_base_path : option string) (relay_chain_id : option string)
    (relaychain_args : list string) : CliConfiguration :=
  let (base, relay) := relay_new ((fun x => join x "polkadot") <$> config_base_path)
    relay_chain_id (relay_executable_name :: relaychain_args) in
  relay_configuration base relay.

(** ** Facts *)

(** What the relay chain node runs with.  Its chain is the one its arguments name
    or else the one of the parachain specification, an error of the arguments
    staying an error; its files are where its arguments say or else in [polkadot]
    under those of the parachain node, apart from them when [join] is injective;
    and it is never initialised as a program. *)
Lemma relay_chain_options path spec args :
  let base := run_cmd_from_iter (relay_executable_name :: args) in
  let config := polkadot_cli path spec args in
  (forall is_dev,
     match config_chain_id base is_dev with
     | Err e => config_chain_id config is_dev = Err e
     | Ok "" => config_chain_id config is_dev = Ok (default "" spec)
     | Ok chain => config_chain_id config is_dev = Ok chain
     end) /\
  (forall own, params_base_path (shared_params base) = Some own ->
     config_base_path config = Ok (Some own)) /\
  (params_base_path (shared_params base) = None ->
     config_base_path config = Ok ((fun x => join x "polkadot") <$> path)) /\
  (forall A, init config <> Return A).
Proof.
  cbn. split; [|split; [|split; [|done]]].
  - intros is_dev. destruct (config_chain_id _ is_dev) as [chain|e]; [|done].
    cbn. by destruct chain.
  - by intros own ->.
  - by intros ->.
Qed.

End configuration.

(** The ports a relay chain node listens on unless its arguments say otherwise are
    pairwise different, each the successor of the one [sc_cli] documents for a node, so
    that the two nodes of a collator do not ask for the same. *)
Lemma relay_ports_apart :
  NoDup ([p2p_listen_port; rpc_ws_listen_port; rpc_http_listen_port; prometheus_listen_port] ++
    [30333; 9944; 9933; 9615]) /\
  [p2p_listen_port; rpc_ws_listen_port; rpc_http_listen_port; prometheus_listen_port] =
    Z.succ <$> [30333; 9944; 9933; 9615].
Proof. split; [apply (bool_decide_unpack _); by vm_compute|done]. Qed.
