(* ===== verification/Text.v ===== *)
(** * Text

    [String::from_utf8] of the standard library, the inverse of [utf8] of the file
    [Vanity] on the characters a Rust string can hold. *)
From stdpp Require Import prelude list.
From Stdlib Require Import ZArith Lia.
From S2P Require Import Prelude Vanity.
Local Open Scope Z_scope.

(** A [char]: a Unicode scalar value. *)
Definition scalar (c : Z) : Prop := 0 <= c < 55296 \/ 57344 <= c < 1114112.

Definition is_scalar (c : Z) : bool :=
  ((0 <=? c) && (c <? 55296)) || ((57344 <=? c) && (c <? 1114112)).

Definition cont (b : Z) : bool := (128 <=? b) && (b <? 192).

(** The character of two, three and four bytes. *)
Definition char2 (b0 b1 : Z) : option Z :=
  let c := (b0 - 192) * 64 + (b1 - 128) in
  if (192 <=? b0) && (b0 <? 224) && cont b1 && (128 <=? c) then Some c else None.

Definition char3 (b0 b1 b2 : Z) : option Z :=
  let c := (b0 - 224) * 4096 + (b1 - 128) * 64 + (b2 - 128) in
  if (224 <=? b0) && (b0 <? 240) && cont b1 && cont b2 && (2048 <=? c) && is_scalar c
  then Some c else None.

Definition char4 (b0 b1 b2 b3 : Z) : option Z :=
  let c := (b0 - 240) * 262144 + (b1 - 128) * 4096 + (b2 - 128) * 64 + (b3 - 128) in
  if (240 <=? b0) && (b0 <? 248) && cont b1 && cont b2 && cont b3 && (65536 <=? c) && is_scalar c
  then Some c else None.

(** [String::from_utf8]: overlong forms, surrogates and stray bytes are refused. *)
Fixpoint from_utf8 (v : bytes) : option (list Z) :=
  match v with
  | [] => Some []
  | b0 :: v =>
      if (0 <=? b0) && (b0 <? 128) then cons b0 <$> from_utf8 v
      else match v with
      | [] => None
      | b1 :: v =>
          match char2 b0 b1 with
          | Some c => cons c <$> from_utf8 v
          | None =>
              match v with
              | [] => None
              | b2 :: v =>
                  match char3 b0 b1 b2 with
                  | Some c => cons c <$> from_utf8 v
                  | None =>
                      match v with
                      | [] => None
                      | b3 :: v =>
                          match char4 b0 b1 b2 b3 with
                          | Some c => cons c <$> from_utf8 v
                          | None => None
                          end
                      end
                  end
              end
          end
      end
  end.

(** Turn boolean comparisons into arithmetic. *)
Ltac bool_arith :=
  unfold is_scalar, cont in *;
  repeat match goal with
  | H : (_ && _) = true |- _ => apply andb_prop in H as [? H]
  | H : (_ && _) = false |- _ => apply andb_false_iff in H as [H|H]
  | H : (_ || _) = true |- _ => apply orb_prop in H as [H|H]
  | H : (_ || _) = false |- _ => apply orb_false_elim in H as [? H]
  | H : (_ <=? _) = true |- _ => apply Z.leb_le in H
  | H : (_ <=? _) = false |- _ => apply Z.leb_gt in H
  | H : (_ <? _) = true |- _ => apply Z.ltb_lt in H
  | H : (_ <? _) = false |- _ => apply Z.ltb_ge in H
  end.

Lemma char2_some b0 b1 c :
  char2 b0 b1 = Some c -> scalar c /\ utf8_char c = [b0; b1].
Proof.
  unfold char2. intros H. case_match eqn:Hb; [|done]. injection H as <-. bool_arith.
  set (c := (b0 - 192) * 64 + (b1 - 128)) in *.
  assert (c / 64 = b0 - 192 /\ c mod 64 = b1 - 128) as [Hd Hm].
  { split; [symmetry; apply (Z.div_unique _ _ _ (b1 - 128))|
      symmetry; apply (Z.mod_unique _ _ (b0 - 192))]; lia. }
  unfold scalar. split; [lia|]. unfold utf8_char.
  rewrite (proj2 (Z.ltb_ge c 128)), (proj2 (Z.ltb_lt c 2048)) by lia.
  rewrite Hd, Hm. repeat f_equal; lia.
Qed.

Lemma char3_some b0 b1 b2 c :
  char3 b0 b1 b2 = Some c -> scalar c /\ utf8_char c = [b0; b1; b2].
Proof.
  unfold char3. intros H. case_match eqn:Hb; [|done]. injection H as <-.
  set (c := (b0 - 224) * 4096 + (b1 - 128) * 64 + (b2 - 128)) in *.
  assert (Hs : scalar c) by (unfold scalar; bool_arith; lia).
  split; [done|].
  apply andb_prop in Hb as [Hb _]. bool_arith.
  assert (Hq : c / 64 = (b0 - 224) * 64 + (b1 - 128)).
  { symmetry. apply (Z.div_unique _ _ _ (b2 - 128)); lia. }
  assert (c / 4096 = b0 - 224 /\ (c / 64) mod 64 = b1 - 128 /\ c mod 64 = b2 - 128)
    as (D1 & D2 & D3).
  { split; [symmetry; apply (Z.div_unique _ _ _ ((b1 - 128) * 64 + (b2 - 128)))|split].
    1,2: lia.
    - rewrite Hq. symmetry. apply (Z.mod_unique _ _ (b0 - 224)); lia.
    - symmetry. apply (Z.mod_unique _ _ ((b0 - 224) * 64 + (b1 - 128))); lia. }
  unfold utf8_char.
  rewrite (proj2 (Z.ltb_ge c 128)), (proj2 (Z.ltb_ge c 2048)), (proj2 (Z.ltb_lt c 65536)) by lia.
  rewrite D1, D2, D3. repeat f_equal; lia.
Qed.

Lemma char4_some b0 b1 b2 b3 c :
  char4 b0 b1 b2 b3 = Some c -> scalar c /\ utf8_char c = [b0; b1; b2; b3].
Proof.
  unfold char4. intros H. case_match eqn:Hb; [|done]. injection H as <-.
  set (c := (b0 - 240) * 262144 + (b1 - 128) * 4096 + (b2 - 128) * 64 + (b3 - 128)) in *.
  assert (Hs : scalar c) by (unfold scalar; bool_arith; lia).
  split; [done|].
  apply andb_prop in Hb as [Hb _]. bool_arith.
  assert (Hq : c / 64 = (b0 - 240) * 4096 + (b1 - 128) * 64 + (b2 - 128)).
  { symmetry. apply (Z.div_unique _ _ _ (b3 - 128)); lia. }
  assert (Hq' : c / 4096 = (b0 - 240) * 64 + (b1 - 128)).
  { symmetry. apply (Z.div_unique _ _ _ ((b2 - 128) * 64 + (b3 - 128))); lia. }
  assert (c / 262144 = b0 - 240 /\ (c / 4096) mod 64 = b1 - 128 /\
    (c / 64) mod 64 = b2 - 128 /\ c mod 64 = b3 - 128) as (D1 & D2 & D3 & D4).
  { split; [symmetry;
      apply (Z.div_unique _ _ _ ((b1 - 128) * 4096 + (b2 - 128) * 64 + (b3 - 128)))|
      split; [|split]].
    1,2: lia.
    - rewrite Hq'. symmetry. apply (Z.mod_unique _ _ (b0 - 240)); lia.
    - rewrite Hq. symmetry. apply (Z.mod_unique _ _ ((b0 - 240) * 64 + (b1 - 128))); lia.
    - symmetry. apply (Z.mod_unique _ _ ((b0 - 240) * 4096 + (b1 - 128) * 64 + (b2 - 128))); lia. }
  unfold utf8_char.
  rewrite (proj2 (Z.ltb_ge c 128)), (proj2 (Z.ltb_ge c 2048)), (proj2 (Z.ltb_ge c 65536)) by lia.
  rewrite D1, D2, D3, D4. repeat f_equal; lia.
Qed.

(** What is read is what would be written. *)
Lemma from_utf8_some v s : from_utf8 v = Some s -> Forall scalar s /\ utf8 s = v.
Proof.
  revert s. induction v as [v IH] using (induction_ltof1 _ (@length Z)). unfold ltof in IH.
  assert (Hcons : forall c w u s, (length u < length v)%nat -> v = w ++ u ->
    scalar c -> utf8_char c = w -> cons c <$> from_utf8 u = Some s ->
    Forall scalar s /\ utf8 s = v).
  { intros c w u s Hl -> Hc Hw Hs. destruct (from_utf8 u) as [s'|] eqn:Hu; [|done].
    injection Hs as <-. destruct (IH u Hl s' Hu) as [Hf Hv].
    split; [by constructor|]. unfold utf8 in *. cbn. by rewrite Hw, Hv. }
  intros s. destruct v as [|b0 v]; cbn [from_utf8]; [by intros [= <-]|].
  destruct ((0 <=? b0) && (b0 <? 128)) eqn:H0.
  { apply (Hcons b0 [b0]); [cbn; lia|done|unfold scalar; bool_arith; lia|].
    unfold utf8_char. bool_arith. by rewrite (proj2 (Z.ltb_lt b0 128)) by done. }
  destruct v as [|b1 v]; [done|]. destruct (char2 b0 b1) as [c|] eqn:H2.
  { apply char2_some in H2 as []. by eapply (Hcons c [b0; b1]); [cbn; lia|..]. }
  destruct v as [|b2 v]; [done|]. destruct (char3 b0 b1 b2) as [c|] eqn:H3.
  { apply char3_some in H3 as []. by eapply (Hcons c [b0; b1; b2]); [cbn; lia|..]. }
  destruct v as [|b3 v]; [done|]. destruct (char4 b0 b1 b2 b3) as [c|] eqn:H4; [|done].
  apply char4_some in H4 as []. by eapply (Hcons c [b0; b1; b2; b3]); [cbn; lia|..].
Qed.

(** The bytes of a character, by their number. *)
Lemma utf8_char_cases c :
  scalar c ->
  (utf8_char c = [c] /\ 0 <= c < 128) \/
  (exists b0 b1, utf8_char c = [b0; b1] /\ char2 b0 b1 = Some c /\ 128 <= b0) \/
  (exists b0 b1 b2, utf8_char c = [b0; b1; b2] /\ char2 b0 b1 = None /\
     char3 b0 b1 b2 = Some c /\ 128 <= b0) \/
  (exists b0 b1 b2 b3, utf8_char c = [b0; b1; b2; b3] /\ char2 b0 b1 = None /\
     char3 b0 b1 b2 = None /\ char4 b0 b1 b2 b3 = Some c /\ 128 <= b0).
Proof.
  intros Hc. unfold utf8_char.
  pose proof (Z.div_mod c 64 ltac:(lia)) as E1. pose proof (Z.mod_pos_bound c 64 ltac:(lia)).
  pose proof (Z.div_mod (c / 64) 64 ltac:(lia)) as E2.
  pose proof (Z.mod_pos_bound (c / 64) 64 ltac:(lia)).
  pose proof (Z.div_mod (c / 4096) 64 ltac:(lia)) as E3.
  pose proof (Z.mod_pos_bound (c / 4096) 64 ltac:(lia)).
  rewrite (Z.div_div c 64 64) in E2 by lia. rewrite (Z.div_div c 4096 64) in E3 by lia.
  change (64 * 64) with 4096 in *. change (4096 * 64) with 262144 in *.
  unfold scalar in Hc.
  destruct (c <? 128) eqn:C1; [left; bool_arith; split; [done|lia]|].
  destruct (c <? 2048) eqn:C2; [|destruct (c <? 65536) eqn:C3].
  - right; left. do 2 eexists. split; [reflexivity|]. bool_arith. split; [|lia].
    unfold char2. case_match eqn:Hb; [f_equal; lia|]. bool_arith; lia.
  - do 2 right; left. do 3 eexists. split; [reflexivity|]. bool_arith. split; [|split; [|lia]].
    + unfold char2. case_match eqn:Hb; [|done]. bool_arith. lia.
    + unfold char3. case_match eqn:Hb; [f_equal; lia|]. bool_arith; lia.
  - do 3 right. do 4 eexists. split; [reflexivity|]. bool_arith.
    split; [|split; [|split; [|lia]]].
    + unfold char2. case_match eqn:Hb; [|done]. bool_arith. lia.
    + unfold char3. case_match eqn:Hb; [|done]. apply andb_prop in Hb as [Hb _]. bool_arith. lia.
    + unfold char4. case_match eqn:Hb; [f_equal; lia|]. bool_arith; lia.
Qed.

Lemma ascii_test_false b : 128 <= b -> (0 <=? b) && (b <? 128) = false.
Proof. intros. apply andb_false_iff. right. apply Z.ltb_ge. lia. Qed.

(** What is written is read back. *)
Lemma from_utf8_utf8 s : Forall scalar s -> from_utf8 (utf8 s) = Some s.
Proof.
  induction 1 as [|c s Hc Hs IH]; [done|].
  change (utf8 (c :: s)) with (utf8_char c ++ utf8 s).
  destruct (utf8_char_cases c Hc) as
    [[-> Hb]|[(b0 & b1 & -> & H2 & Hb)|[(b0 & b1 & b2 & -> & H2 & H3 & Hb)|
     (b0 & b1 & b2 & b3 & -> & H2 & H3 & H4 & Hb)]]]; cbn [app from_utf8].
  - rewrite (proj2 (Z.leb_le 0 c)), (proj2 (Z.ltb_lt c 128)) by lia. cbn [andb]. by rewrite IH.
  - by rewrite ascii_test_false, H2, IH.
  - by rewrite ascii_test_false, H2, H3, IH.
  - by rewrite ascii_test_false, H2, H3, H4, IH.
Qed.
