(* ===== verification/Streams.v ===== *)
(** * Streams, sinks and the standard output

    What [robonomics/io/src] and [robonomics/cli/src] use of streams and sinks:
    [StreamExt::forward], as the loop it is, over a stream that may be pending and a
    sink that may fail; and, as an interface with its laws, the buffered standard
    output behind [sink::virt::stdout], of which the terminal may have less than it
    was given. *)
From stdpp Require Import prelude gmap strings list.
From Stdlib Require Import ZArith Lia.
From S2P Require Import Prelude.
Local Open Scope nat_scope.
Local Open Scope list_scope.

Abbreviation text := (list Z).

(** ** Sinks

    [start_send] takes an item once the sink is ready for it ([poll_ready]);
    [poll_flush] is one poll, which need not get everything out; [poll_close]
    gets everything out. *)
Record Sink (W E A : Type) : Type := mkSink {
  start_send : A -> SE W E unit;
  poll_flush : SE W E unit;
  poll_close : SE W E unit;
}.
Arguments mkSink {_ _ _} _ _ _.
Arguments start_send {_ _ _} _ _.
Arguments poll_flush {_ _ _} _.
Arguments poll_close {_ _ _} _.

(** A sink of what [g] makes of the items, as when a stream is mapped by [g] first. *)
Definition sink_with {W E A B} (g : B -> A) (s : Sink W E A) : Sink W E B :=
  mkSink (fun b => start_send s (g b)) (poll_flush s) (poll_close s).

(** A sink that is left as it is. *)
Definition left_open {W E A} (s : Sink W E A) : Sink W E A :=
  mkSink (start_send s) (poll_flush s) (mret tt).

(** The sender of an unbounded channel ([mpsc::unbounded]): what is sent waits in the
    channel, and there is nothing to flush. *)
Definition channel_sender {E A} : Sink (list A) E A :=
  mkSink (fun a => se_modify (fun c => c ++ [a])) (mret tt) (mret tt).

(** ** [forward]

    The polls of a stream: nothing yet, or a message for the stream's function; the
    answer to it may take some polls more. *)
Inductive Poll (A : Type) : Type := Pending | Ready (a : A) (polls : nat).
Arguments Pending {_}.
Arguments Ready {_} a polls.

(** An effect whose error is looked at later. *)
Definition settled {W E A} (m : SE W E A) : SE W E (result E A) :=
  fun w => let (r, w') := m w in (Ok r, w').
Fixpoint polled_in_vain {W E A} (n : nat) (s : Sink W E A) : SE W E unit :=
  match n with O => mret tt | S n => _ ← poll_flush s; polled_in_vain n s end.

(** [futures::stream::Forward], over a stream that computes its items by [f], one when
    it is asked for ([then], or [map] with a blocking call).  While the stream is
    pending the sink is flushed; an item is sent; at the end the sink is closed; but
    an error of the stream ends it as it is, without a flush. *)
Fixpoint forward_then {W E A B} (polls : list (Poll A)) (f : A -> SE W E B) (s : Sink W E B) :
    SE W E unit :=
  match polls with
  | [] => poll_close s
  | Pending :: polls => _ ← poll_flush s; forward_then polls f s
  | Ready a n :: polls =>
      r ← settled (f a); _ ← polled_in_vain n s; b ← se_lift r;
      _ ← start_send s b; forward_then polls f s
  end.

(** The pace of a stream: for every message, how many polls are in vain before it is
    there and how many until its answer is; the last pair is for the end. *)
Abbreviation Pace := (list (nat * nat)).
Fixpoint paced {A} (pace : Pace) (msgs : list A) : list (Poll A) :=
  let (before, during) := hd (0, 0) pace in
  replicate before Pending ++
    match msgs with [] => [] | a :: msgs => Ready a during :: paced (tail pace) msgs end.
(** A blocking call answers at once. *)
Definition blocking (pace : Pace) : Pace := (fun p => (p.1, 0)) <$> pace.

(** A stream of items that are there without an effect. *)
Definition forward {W E A} (pace : Pace) (items : list (result E A)) (s : Sink W E A) :
    SE W E unit :=
  forward_then (paced pace items) se_lift s.

(** What a spawned [stdin().forward(channel)] puts into its channel: it stops at the
    first error, which nobody sees. *)
Fixpoint until_error {E A} (items : list (result E A)) : list A :=
  match items with
  | Ok a :: items => a :: until_error items
  | _ => []
  end.
(** How the items end. *)
Fixpoint input_result {E A} (items : list (result E A)) : result E unit :=
  match items with
  | [] => Ok tt
  | Ok _ :: items => input_result items
  | Err e :: _ => Err e
  end.

(** The messages of a sequence of polls. *)
Definition readies {A} (polls : list (Poll A)) : list A :=
  omap (fun p => match p with Pending => None | Ready a _ => Some a end) polls.
Definition at_once {A} (p : Poll A) : Prop := match p with Ready _ (S _) => False | _ => True end.

Section polls.
Context {A : Type}.
Implicit Types (polls : list (Poll A)) (msgs : list A) (pace : Pace).

Lemma readies_pending n polls : readies (replicate n Pending ++ polls) = readies polls.
Proof. by induction n. Qed.
Lemma readies_paced pace msgs : readies (paced pace msgs) = msgs.
Proof.
  revert pace. induction msgs as [|a msgs IH]; intros pace; cbn [paced];
    destruct (hd (0, 0) pace) as [i j]; rewrite readies_pending; [done|].
  unfold readies; cbn. f_equal. apply IH.
Qed.

(** Any polls are those of some pace. *)
Lemma paced_pending pace msgs : Pending :: paced pace msgs =
  paced ((S (hd (0, 0) pace).1, (hd (0, 0) pace).2) :: tail pace) msgs.
Proof. destruct msgs; cbn; by destruct (hd (0, 0) pace). Qed.
Lemma paced_of polls : exists pace, polls = paced pace (readies polls).
Proof.
  induction polls as [|[|a n] polls [pace Hp]].
  - by exists [].
  - eexists. change (readies (Pending :: polls)) with (readies polls).
    rewrite <- paced_pending. by rewrite <- Hp.
  - exists ((0, n) :: pace). change (readies (Ready a n :: polls)) with (a :: readies polls).
    cbn. by rewrite <- Hp.
Qed.
Lemma blocking_hd pace : hd (0, 0) (blocking pace) = ((hd (0, 0) pace).1, 0).
Proof. by destruct pace. Qed.
Lemma blocking_tail pace : tail (blocking pace) = blocking (tail pace).
Proof. by destruct pace. Qed.
Lemma paced_blocking pace msgs : Forall at_once (paced (blocking pace) msgs).
Proof.
  revert pace. induction msgs as [|a msgs IH]; intros pace; cbn [paced]; rewrite blocking_hd;
    (apply Forall_app; split; [by apply Forall_replicate|]); constructor; [done|].
  rewrite blocking_tail. apply IH.
Qed.
Lemma blocking_of polls :
  Forall at_once polls -> exists pace, polls = paced (blocking pace) (readies polls).
Proof.
  induction 1 as [|[|a [|n]] polls Ha _ [pace Hp]]; [by exists []| | |done].
  - exists ((S (hd (0, 0) pace).1, 0) :: tail pace).
    change (readies (Pending :: polls)) with (readies polls).
    transitivity (Pending :: paced (blocking pace) (readies polls)); [by f_equal|].
    by rewrite paced_pending, blocking_hd, blocking_tail.
  - exists ((0, 0) :: pace). change (readies (Ready a 0 :: polls)) with (a :: readies polls).
    cbn [paced blocking fmap list_fmap hd tail fst replicate app].
    by f_equal.
Qed.
End polls.

(** ** The standard output

    [io::BufWriter::new(io::stdout()).into_sink()], by its operations on a device [D]:
    [out_send] is [poll_ready] and [start_send] of a line, [out_poll_flush] one poll
    of a flush, [out_close] the whole of it; any of them may fail with an [Io] error.
    [given] are the lines the sink has taken, [written] is what has reached the
    terminal. *)
Class Output (D Io : Type) := {
  out_send : text -> D -> result Io unit * D;
  out_poll_flush : D -> result Io unit * D;
  out_close : D -> result Io unit * D;
  given : D -> list text;
  written : D -> text;
}.

(** The sink takes what it does not refuse, and nothing else; what reaches the
    terminal is a beginning of what was taken and only grows; and once the sink is
    closed all of it is there. *)
Class OutputLaws (D Io : Type) `{!Output D Io} := {
  written_given d : written d `prefix_of` concat (given d);
  send_given s d :
    given (out_send s d).2 = given d ++ (if is_ok (out_send s d).1 then [s] else []);
  send_written s d : written d `prefix_of` written (out_send s d).2;
  poll_flush_given d : given (out_poll_flush d).2 = given d;
  poll_flush_written d : written d `prefix_of` written (out_poll_flush d).2;
  close_given d : given (out_close d).2 = given d;
  close_written d : written d `prefix_of` written (out_close d).2;
  close_all d : is_ok (out_close d).1 = true -> written (out_close d).2 = concat (given d);
}.

(** A standard output that never fails. *)
Definition reliable (D Io : Type) `{!Output D Io} : Prop :=
  (forall s d, is_ok (out_send s d).1 = true) /\
  (forall d, is_ok (out_poll_flush d).1 = true) /\ (forall d, is_ok (out_close d).1 = true).

Lemma reliable_not {D Io} `{!Output D Io} {s d e d'} :
  out_send s d = (Err e, d') \/ out_poll_flush d = (Err e, d') \/ out_close d = (Err e, d') ->
  ~ reliable D Io.
Proof.
  intros H (H1 & H2 & H3). specialize (H1 s d). specialize (H2 d). specialize (H3 d).
  destruct H as [H|[H|H]]; rewrite H in *; done.
Qed.

(** ** Answers one after the other

    [submissions f msgs n bs n']: from [n], every message was accepted in turn, with
    the answers [bs], and led to [n']. *)
Inductive submissions {N E A B} (f : A -> N -> result E B * N) : list A -> N -> list B -> N -> Prop :=
| submissions_nil n : submissions f [] n [] n
| submissions_cons a msgs n b n1 bs n' :
    f a n = (Ok b, n1) -> submissions f msgs n1 bs n' ->
    submissions f (a :: msgs) n (b :: bs) n'.

(** The answers to the messages up to the first error, and where they lead. *)
Fixpoint answers {N E A B} (f : A -> N -> result E B * N) (msgs : list A) (n : N) :
    list B * result E unit * N :=
  match msgs with
  | [] => ([], Ok tt, n)
  | a :: msgs =>
      match f a n with
      | (Ok b, n) => let '(bs, r, n) := answers f msgs n in (b :: bs, r, n)
      | (Err e, n) => ([], Err e, n)
      end
  end.

Lemma submissions_answers {N E A B} (f : A -> N -> result E B * N) sent rest n bs n1 :
  submissions f sent n bs n1 ->
  answers f (sent ++ rest) n =
    let '(bs', r, n') := answers f rest n1 in (bs ++ bs', r, n').
Proof.
  induction 1 as [n|a msgs n b n2 bs n1 Hf _ IH]; cbn [app answers].
  - by destruct (answers f rest n) as [[??]?].
  - rewrite Hf, IH. by destruct (answers f rest n1) as [[??]?].
Qed.
Lemma submissions_length {N E A B} (f : A -> N -> result E B * N) msgs n bs n' :
  submissions f msgs n bs n' -> length bs = length msgs.
Proof. induction 1 as [|a msgs n b n1 bs n' _ _ IH]; [done|]. cbn. by rewrite IH. Qed.
(** Items that need no answer. *)
Lemma submissions_items {N E B} (items : list (result E B)) (n : N) bs n' :
  submissions pair items n bs n' -> items = Ok <$> bs /\ n' = n.
Proof. induction 1 as [|a msgs n b n1 bs n' [= -> <-] _ [-> ->]]; done. Qed.

Lemma se_bind_assoc {S E A B C} (m : SE S E A) (f : A -> SE S E B) (g : B -> SE S E C) s :
  ((m ≫= f) ≫= g) s = (m ≫= (fun a => f a ≫= g)) s.
Proof. unfold mbind, SE_bind. by destruct (m s) as [[a|e] s1]. Qed.

Lemma forward_then_ext {W E A B} polls (f g : A -> SE W E B) (s : Sink W E B) w :
  (forall a w, f a w = g a w) -> forward_then polls f s w = forward_then polls g s w.
Proof.
  intros Hfg. revert w. induction polls as [|[|a n] polls IH]; intros w; cbn [forward_then]; [done| |];
    unfold mbind, SE_bind, settled.
  - destruct (poll_flush s w) as [[[]|e] w1]; [apply IH|done].
  - rewrite Hfg. destruct (g a w) as [r w1]. destruct (polled_in_vain n s w1) as [[[]|e] w2]; [|done].
    destruct r as [b|e]; cbn; [|done]. destruct (start_send s b w2) as [[[]|e] w3]; [apply IH|done].
Qed.

Lemma polled_sink_with {W E A B} (g : B -> A) (s : Sink W E A) n w :
  polled_in_vain n (sink_with g s) w = polled_in_vain n s w.
Proof.
  revert w. induction n as [|n IH]; intros w; [done|]. cbn [polled_in_vain]. unfold mbind, SE_bind.
  cbn [poll_flush sink_with]. by destruct (poll_flush s w) as [[[]|e] w1].
Qed.

Lemma polled_left_open {W E A} n (s : Sink W E A) w :
  polled_in_vain n (left_open s) w = polled_in_vain n s w.
Proof.
  revert w. induction n as [|n IH]; intros w; [done|]. cbn [polled_in_vain]. unfold mbind, SE_bind.
  cbn [poll_flush left_open]. by destruct (poll_flush s w) as [[[]|e] w1].
Qed.

(** What [forward] puts into a channel: the items before the first error. *)
Lemma polled_channel {E A} n (c : list A) : polled_in_vain n (@channel_sender E A) c = (Ok tt, c).
Proof. induction n; [done|]. cbn [polled_in_vain]. by se_unfold. Qed.
Lemma forward_channel {E A} pace (items : list (result E A)) (c : list A) :
  forward pace items channel_sender c = (input_result items, c ++ until_error items).
Proof.
  unfold forward. assert (forall polls c, forward_then polls se_lift (@channel_sender E A) c =
    (input_result (readies polls), c ++ until_error (readies polls))) as H.
  { clear. induction polls as [|[|[a|e] n] polls IH]; intros c.
    - cbn. by rewrite app_nil_r.
    - apply IH.
    - cbn [forward_then]. unfold mbind, SE_bind, settled, se_lift. rewrite polled_channel. cbn -[forward_then].
      rewrite IH. by rewrite <- (assoc_L (++)).
    - cbn [forward_then]. unfold mbind, SE_bind, settled, se_lift. rewrite polled_channel. cbn.
      by rewrite app_nil_r. }
  by rewrite H, readies_paced.
Qed.
Lemma input_result_ok {E A} (items : list (result E A)) :
  input_result items = Ok tt <-> Forall (fun i => is_ok i = true) items.
Proof.
  induction items as [|[a|e] items IH]; cbn [input_result]; rewrite ?Forall_cons; naive_solver.
Qed.
Lemma until_error_app {E A} (xs : list A) (items : list (result E A)) :
  until_error ((Ok <$> xs) ++ items) = xs ++ until_error items.
Proof. induction xs as [|x xs IH]; [done|]. cbn. by rewrite IH. Qed.
Lemma input_result_app {E A} (xs : list A) (items : list (result E A)) :
  input_result ((Ok <$> xs) ++ items) = input_result items.
Proof. by induction xs. Qed.
Lemma until_error_oks {E A} (xs : list A) : until_error (Ok <$> xs : list (result E A)) = xs.
Proof. rewrite <- (app_nil_r (Ok <$> xs)), until_error_app. apply app_nil_r. Qed.
Lemma input_result_oks {E A} (xs : list A) : input_result (Ok <$> xs : list (result E A)) = Ok tt.
Proof. by induction xs. Qed.
