(* ===== verification/IoCli.v ===== *)
(** * The I/O commands

    [robonomics/io/src] (the sources and sinks) and [robonomics/cli/src] (the
    commands [io read] and [io write] that connect them to the standard streams).
    The streams and sinks are those of [Streams]: a stream is the list of its items
    up to its end (of one that does not end, what there was until the process is
    stopped), with the pace at which they come; text is a list of characters.  The
    devices and remote nodes behind the streams are parameters, a remote node being a
    state [N] that the submissions change and the standard output a state [D] with
    the operations of [Output]. *)
From stdpp Require Import prelude gmap strings list.
From Stdlib Require Import ZArith Lia.
From S2P Require Import Prelude Frame Codec Vanity Text Client.
From S2P Require Import Gossip Streams.
Local Open Scope Z_scope.
Local Open Scope list_scope.

(** [io::error::Error] and [cli::error::Error]. *)
Inductive IoError (Serial ChannelSend SecretString Protocol Ipfs Io Ros : Type) : Type :=
| ESerial (e : Serial)
| EChannelSend (e : ChannelSend)
| EPrivateKeyFailure (e : SecretString)
| EProtocol (e : Protocol)
| EIpfs (e : Ipfs)
| EIo (e : Io)
| ERos (e : Ros)
| EOther (s : string).
Arguments ESerial {_ _ _ _ _ _ _} e.
Arguments EChannelSend {_ _ _ _ _ _ _} e.
Arguments EPrivateKeyFailure {_ _ _ _ _ _ _} e.
Arguments EProtocol {_ _ _ _ _ _ _} e.
Arguments EIpfs {_ _ _ _ _ _ _} e.
Arguments EIo {_ _ _ _ _ _ _} e.
Arguments ERos {_ _ _ _ _ _ _} e.
Arguments EOther {_ _ _ _ _ _ _} s.

Inductive CliError (Protocol IoFail : Type) : Type :=
| ProtocolFailure (e : Protocol)
| IoFailure (e : IoFail)
| CliOther (s : string).
Arguments ProtocolFailure {_ _} e.
Arguments IoFailure {_ _} e.
Arguments CliOther {_ _} s.

(** Both errors: the conversion of a text, the cause handed out, which is none, and
    how they are displayed, given how the errors they hold are. *)
Section errors.
Context {Serial ChannelSend SecretString Protocol Ipfs Io Ros : Type}.
Abbreviation Error := (IoError Serial ChannelSend SecretString Protocol Ipfs Io Ros).
Definition io_error_from_str (s : string) : Error := EOther s.
Definition cli_error_from_str (s : string) : CliError Protocol Error := CliOther s.
Definition io_error_source (e : Error) : option Error := None.
Definition cli_error_source (e : CliError Protocol Error) : option Error := None.

Context (serial : Serial -> string) (channel_send : ChannelSend -> string).
Context (secret_string_debug : SecretString -> string) (protocol : Protocol -> string).
Context (ipfs : Ipfs -> string) (io : Io -> string) (ros : Ros -> string).
Definition io_error_display (e : Error) : string :=
  match e with
  | ESerial e => serial e
  | EChannelSend e => channel_send e
  | EPrivateKeyFailure e => "secret string error: " +:+ secret_string_debug e
  | EProtocol e => protocol e
  | EIpfs e => ipfs e
  | EIo e => io e
  | ERos e => ros e
  | EOther s => s
  end.
Definition cli_error_display (e : CliError Protocol Error) : string :=
  match e with
  | ProtocolFailure e => protocol e
  | IoFailure e => io_error_display e
  | CliOther s => s
  end.
End errors.

(** [source::virt] and [sink::virt]: text of a message or of a downloaded object. *)
Definition no_string : text := [60; 110; 111; 32; 115; 116; 114; 105; 110; 103; 62].
Definition message_text (data : bytes) : text := default no_string (from_utf8 data).

(** The standard output: [stdout] appends the end of line. *)
Definition stdout_line (s : text) : text := s ++ [10].

Section io.
Context {N D Serial ChannelSend SecretString Protocol Ipfs Io Ros : Type}.
Context `{!Output D Io}.
Abbreviation Error := (IoError Serial ChannelSend SecretString Protocol Ipfs Io Ros).
Implicit Types (lines : list (result Error text)) (pace : Pace).

(** The remote node and the standard output: the lines printed, and what of them is
    shown on the terminal. *)
Record World : Type := mkWorld { node : N; output : D }.
Definition printed (w : World) : list text := given (output w).
Definition shown (w : World) : text := written (output w).

Abbreviation Run := (SE World Error).

(** [sink_err_into]. *)
Definition on_output (f : D -> result Io unit * D) : Run unit :=
  fun w => let (r, d) := f (output w) in (map_err EIo r, mkWorld (node w) d).
Definition stdout : Sink World Error text :=
  mkSink (fun s => on_output (out_send (stdout_line s)))
    (on_output out_poll_flush) (on_output out_close).
Definition on_node {A} (f : N -> result Error A * N) : Run A :=
  se_zoom node (fun n w => mkWorld n (output w)) f.

(** *** [io write]

    [datalog::submit] and [launch::submit] for a key pair [P] and [hex::encode]
    are those of the protocol; [pair_from_string] reads the key. *)
Context {P : Type} (pair_from_string : string -> result SecretString P).
Context {Hash : Type} (hex_encode : Hash -> text).
Context (datalog_submit : P -> string -> bytes -> N -> result Protocol Hash * N).
Context (launch_submit : P -> string -> string -> bool -> N -> result Protocol Hash * N).
Context (ipfs_add : string -> bytes -> N -> result Ipfs text * N).

(** An operation of the node whose errors are converted by [?] or [Into]. *)
Definition converted {A E} (wrap_error : E -> Error) (f : N -> result E A * N) : Run A :=
  on_node (fun n => let (r, n') := f n in (map_err wrap_error r, n')).

Definition write_datalog (remote suri : string) lines pace : Run unit :=
  pair ← se_lift (map_err EPrivateKeyFailure (pair_from_string suri));
  forward_then (paced pace (until_error lines))
    (fun msg => converted EProtocol (datalog_submit pair remote (utf8 msg)))
    (sink_with hex_encode stdout).

(** ["ON"]. *)
Definition on_text : text := [79; 78].

Definition write_launch (remote suri robot : string) lines pace : Run unit :=
  pair ← se_lift (map_err EPrivateKeyFailure (pair_from_string suri));
  forward_then (paced pace ((fun s => bool_decide (s = on_text)) <$> until_error lines))
    (fun signal => converted EProtocol (launch_submit pair remote robot signal))
    (sink_with hex_encode stdout).

(** The calls to IPFS block ([runtime.block_on]). *)
Definition write_ipfs (remote : string) lines pace : Run unit :=
  forward_then (paced (blocking pace) (until_error lines))
    (fun msg => converted EIpfs (ipfs_add remote (utf8 msg)))
    stdout.

(** *** [io read] *)
Context (ipfs_cat : string -> text -> N -> result Ipfs bytes * N).

Definition read_ipfs (remote : string) lines pace : Run unit :=
  forward_then (paced (blocking pace) (until_error lines))
    (fun hash => converted EIpfs (ipfs_cat remote hash))
    (sink_with message_text stdout).

(** The messages of the topic, in the order they arrive. *)
Definition read_pubsub {PeerId} (msgs : list (Message PeerId)) pace : Run unit :=
  forward pace ((fun msg => Ok (message_text (data msg))) <$> msgs) stdout.

(** [launch]: the events that do not decode are skipped; an account is printed by
    [to_string], a flag as [true] or [false]. *)
Context {AccountId : Type} (to_string : AccountId -> text).
Context (decode_launch : bytes -> option (@NewLaunchEvent AccountId bool)).
Definition bool_text (b : bool) : text :=
  if b then [116; 114; 117; 101] else [102; 97; 108; 115; 101].
Definition launch_text (e : @NewLaunchEvent AccountId bool) : text :=
  to_string (nl_sender e) ++ [32; 62; 62; 32] ++ to_string (nl_robot e) ++ [32; 58; 32]
    ++ bool_text (nl_param e).
(** The spawned task: [sub.next().await.unwrap().unwrap()] in a loop, over what the
    subscription gives; with the panic that ends it, if one does. *)
Fixpoint launch_source {SubxtError} (nexts : list (option (result SubxtError bytes))) :
    list (@NewLaunchEvent AccountId bool) * option string :=
  match nexts with
  | [] => ([], None)
  | None :: _ => ([], Some "called `Option::unwrap()` on a `None` value"%string)
  | Some (Err _) :: _ => ([], Some "called `Result::unwrap()` on an `Err` value"%string)
  | Some (Ok raw) :: nexts =>
      let (events, panic) := launch_source nexts in
      (match decode_launch raw with Some e => e :: events | None => events end, panic)
  end.
Definition read_launch (events : list (@NewLaunchEvent AccountId bool)) pace : Run unit :=
  forward pace ((fun e => Ok (launch_text e)) <$> events) stdout.

(** [sds011]: the measurement of turn [k] is taken [k] periods after the start, in
    seconds, and a failed one is an item like the others; the command prints them in
    the chosen encoding. *)
Definition sds011_delay (period : Z) : Z := wrap 64 (period * 60).
Definition sds011_schedule (period : Z) (turns : nat) : list Z :=
  (fun k => Z.of_nat k * sds011_delay period) <$> seq 0 turns.

Inductive Encoding : Type := Csv | Hex | Json | Debug.
Context {Measure : Type} (encode_measure : Encoding -> Measure -> text).
Context (query : Z -> result Serial Measure) (set_work_period : Z -> result Serial unit).

Definition sds011_items (period : Z) (encoding : Encoding) (turns : nat) :
    list (result Error text) :=
  (fun t => encode_measure encoding <$> map_err ESerial (query t)) <$> sds011_schedule period turns.
Definition read_sds011 (period : Z) (encoding : Encoding) (turns : nat) pace : Run unit :=
  _ ← se_lift (map_err ESerial (set_work_period period));
  forward pace (sds011_items period encoding turns) stdout.

(** *** The ROS source

    The callback makes the future of [sender.send] and drops it: nothing is
    ever put into the channel. *)
Definition ros_callback (channel : list text) (msg : text) : list text := channel.
Definition read_ros (msgs : list text) pace : Run unit :=
  forward pace (Ok <$> foldl ros_callback [] msgs) stdout.
End io.
Arguments World : clear implicits.

(** *** [io write pubsub]

    The lines go into an unbounded channel; a spawned publisher takes them out and
    gives them to the service of [Gossip].  An error of the standard input is the
    command's error. *)
Section pubsub.
Context {S PeerId Multiaddr TopicHash Error : Type}.
Context `{!EqDecision TopicHash, !Countable TopicHash, !Swarm S Multiaddr,
  !TopicHashing TopicHash}.
Abbreviation st_t := (@State S PeerId Multiaddr TopicHash _ _).

(** [virt::pubsub]: listen and connect, the answers dropped. *)
Definition pubsub_setup (address : Multiaddr) (bootnodes : list Multiaddr) (st : st_t) : st_t :=
  foldl (fun st addr => (service_connect addr st).2) (service_listen address st).2 bootnodes.

(** The main task, into the channel; and the publisher, for messages of the channel. *)
Definition write_pubsub (lines : list (result Error text)) (pace : Pace) :
    SE (list text) Error unit :=
  forward pace lines channel_sender.
Definition publisher (topic_name : string) (msgs : list text) (st : st_t) : st_t :=
  foldl (fun st msg => service_publish topic_name (utf8 msg) st) st msgs.
End pubsub.

(** ** Facts *)

Section io_facts.
Context {N D Serial ChannelSend SecretString Protocol Ipfs Io Ros : Type}.
Context `{!Output D Io, !OutputLaws D Io}.
Abbreviation Error := (IoError Serial ChannelSend SecretString Protocol Ipfs Io Ros).
Implicit Types (lines : list (result Error text)) (pace : Pace) (w : World N D).

(** *** What a command that forwards to the standard output did

    [msgs] were asked of the node by [f], each once the answer before was printed.
    Some were taken, and the answers printed in order.  Then either all were taken,
    every answer is printed and everything is shown; or the node refused one, after
    the answers before it; or the standard output failed, which a reliable one does
    not, perhaps with the last answer not printed or an error not seen. *)
Definition forwarded {A B E} (wrap_error : E -> Error) (f : A -> N -> result E B * N)
    (show : B -> text) (msgs : list A) w (r : result Error unit) w' : Prop :=
  shown w `prefix_of` shown w' /\
  exists sent rest bs n1 k, msgs = sent ++ rest /\ submissions f sent (node w) bs n1 /\
    printed w' = printed w ++ ((fun b => stdout_line (show b)) <$> take k bs) /\
    (k = length bs /\ rest = [] /\ r = Ok tt /\ node w' = n1 /\ shown w' = concat (printed w') \/
     k = length bs /\
       (exists a rest' e, rest = a :: rest' /\ f a n1 = (Err e, node w') /\ r = Err (wrap_error e)) \/
     ~ reliable D Io /\ length bs <= S k /\ (exists e, r = Err (EIo e)) /\
       (node w' = n1 \/ exists a rest' e, rest = a :: rest' /\ f a n1 = (Err e, node w')))%nat.

Lemma on_output_cases (op : D -> result Io unit * D) w (r : result Error unit) w' :
  on_output op w = (r, w') ->
  node w' = node w /\ output w' = (op (output w)).2 /\
  (r = Ok tt /\ is_ok (op (output w)).1 = true \/
   exists e, (op (output w)).1 = Err e /\ r = Err (EIo e)).
Proof.
  unfold on_output. destruct (op (output w)) as [[[]|e] d]; intros [= <- <-]; cbn;
    (split; [done|]; split; [done|]); [by left|right; by eexists].
Qed.

(** The three operations on the world. *)
Lemma stdout_flushes w (r : result Error unit) w' :
  poll_flush stdout w = (r, w') ->
  node w' = node w /\ printed w' = printed w /\ shown w `prefix_of` shown w' /\
  (r = Ok tt \/ ~ reliable D Io /\ exists e, r = Err (EIo e)).
Proof.
  intros (Hn & Ho & Hr)%on_output_cases. unfold printed, shown. rewrite Ho.
  split; [done|]. split; [apply poll_flush_given|]. split; [apply poll_flush_written|].
  destruct Hr as [[-> _]|(e & He & ->)]; [by left|]. right. split; [|by eexists].
  destruct (out_poll_flush (output w)) as [r1 d] eqn:Hd; cbn in He; subst r1.
  apply (reliable_not (s := []) (d := output w) (e := e) (d' := d)). by auto.
Qed.
Lemma stdout_closes w (r : result Error unit) w' :
  poll_close stdout w = (r, w') ->
  node w' = node w /\ printed w' = printed w /\ shown w `prefix_of` shown w' /\
  (r = Ok tt /\ shown w' = concat (printed w') \/
   ~ reliable D Io /\ exists e, r = Err (EIo e)).
Proof.
  intros (Hn & Ho & Hr)%on_output_cases. unfold printed, shown. rewrite Ho.
  split; [done|]. split; [apply close_given|]. split; [apply close_written|].
  destruct Hr as [[-> Hok]|(e & He & ->)].
  - left. split; [done|]. by rewrite close_given, close_all.
  - right. split; [|by eexists].
    destruct (out_close (output w)) as [r1 d] eqn:Hd; cbn in He; subst r1.
    apply (reliable_not (s := []) (d := output w) (e := e) (d' := d)). by auto.
Qed.
Lemma stdout_sends s w (r : result Error unit) w' :
  start_send stdout s w = (r, w') ->
  node w' = node w /\ shown w `prefix_of` shown w' /\
  (r = Ok tt /\ printed w' = printed w ++ [stdout_line s] \/
   printed w' = printed w /\ ~ reliable D Io /\ exists e, r = Err (EIo e)).
Proof.
  intros (Hn & Ho & Hr)%on_output_cases. unfold printed, shown. rewrite Ho.
  split; [done|]. split; [apply send_written|]. rewrite send_given.
  destruct Hr as [[-> ->]|(e & He & ->)]; [by left|]. right. rewrite He; cbn.
  split; [by rewrite app_nil_r|]. split; [|by eexists].
  destruct (out_send (stdout_line s) (output w)) as [r1 d] eqn:Hd; cbn in He; subst r1.
  apply (reliable_not (s := stdout_line s) (d := output w) (e := e) (d' := d)). by auto.
Qed.
Lemma stdout_polled n w (r : result Error unit) w' :
  polled_in_vain n stdout w = (r, w') ->
  node w' = node w /\ printed w' = printed w /\ shown w `prefix_of` shown w' /\
  (r = Ok tt \/ ~ reliable D Io /\ exists e, r = Err (EIo e)).
Proof.
  revert w. induction n as [|n IH]; intros w; cbn [polled_in_vain]; [intros [= <- <-]; by auto|].
  unfold mbind, SE_bind. destruct (poll_flush stdout w) as [r1 w1] eqn:H1.
  apply stdout_flushes in H1 as (Hn & Hp & Hs & Hr).
  destruct Hr as [->|(Hrel & e & ->)].
  - intros (Hn' & Hp' & Hs' & Hr')%IH. split; [congruence|]. split; [congruence|].
    split; [by etrans|done].
  - intros [= <- <-]. by eauto 10.
Qed.

Section spec.
Context {A B E : Type} (wrap_error : E -> Error) (f : A -> N -> result E B * N) (show : B -> text).
Implicit Types (msgs : list A).
Abbreviation forwarded_msgs := (forwarded wrap_error f show).

(** Nothing printed before. *)
Lemma forwarded_later msgs w w1 r w' :
  node w1 = node w -> printed w1 = printed w -> shown w `prefix_of` shown w1 ->
  forwarded_msgs msgs w1 r w' -> forwarded_msgs msgs w r w'.
Proof. unfold forwarded. intros -> -> Hs [Hs' H]. split; [by etrans|done]. Qed.
(** A message that was taken, and its answer printed. *)
Lemma forwarded_cons a b msgs w w1 r w' :
  f a (node w) = (Ok b, node w1) -> printed w1 = printed w ++ [stdout_line (show b)] ->
  shown w `prefix_of` shown w1 -> forwarded_msgs msgs w1 r w' -> forwarded_msgs (a :: msgs) w r w'.
Proof.
  intros Hf Hp Hs (Hs' & sent & rest & bs & n1 & k & -> & Hsub & Hp' & Hend).
  split; [by etrans|]. exists (a :: sent), rest, (b :: bs), n1, (S k).
  split; [done|]. split; [by econstructor|]. split.
  - rewrite Hp', Hp. cbn. by rewrite <- (assoc_L (++)).
  - cbn [length]. destruct Hend as [(-> & H)|[(-> & H)|(H1 & H2 & H3)]]; [by auto..|].
    right; right. split; [done|]. split; [lia|done].
Qed.
(** The standard output failed with nothing more printed. *)
Lemma forwarded_fails msgs w e w' :
  ~ reliable D Io -> printed w' = printed w -> shown w `prefix_of` shown w' ->
  (node w' = node w \/ exists a rest r0, msgs = a :: rest /\ f a (node w) = (r0, node w')) ->
  forwarded_msgs msgs w (Err (EIo e)) w'.
Proof.
  intros Hrel Hp Hs Hn. split; [done|].
  destruct Hn as [Hn|(a & rest & [b|e'] & -> & Hf)].
  - exists [], msgs, [], (node w), 0%nat. split; [done|]. split; [constructor|].
    cbn. rewrite app_nil_r. split; [done|]. right; right. split; [done|]. by eauto 10.
  - exists [a], rest, [b], (node w'), 0%nat. split; [done|].
    split; [by repeat econstructor|]. cbn. rewrite app_nil_r. split; [done|].
    right; right. split; [done|]. by eauto 10.
  - exists [], (a :: rest), [], (node w), 0%nat. split; [done|]. split; [constructor|].
    cbn. rewrite app_nil_r. split; [done|]. right; right. split; [done|]. split; [lia|].
    split; [by eexists|]. right. by eauto 10.
Qed.

Lemma forward_then_spec (polls : list (Poll A)) w r w' :
  forward_then polls (fun a => converted wrap_error (f a)) (sink_with show stdout) w = (r, w') ->
  forwarded_msgs (readies polls) w r w'.
Proof.
  revert w. induction polls as [|[|a n] polls IH]; intros w; cbn [forward_then].
  - intros (Hn & Hp & Hs & Hr)%stdout_closes. destruct Hr as [[-> Hall]|(Hrel & e & ->)].
    + split; [done|]. exists [], [], [], (node w), 0%nat. split; [done|]. split; [constructor|].
      cbn. rewrite app_nil_r. split; [done|]. by left.
    + apply forwarded_fails; by auto.
  - cbn [poll_flush sink_with]. unfold mbind, SE_bind.
    destruct (poll_flush stdout w) as [r1 w1] eqn:H1.
    apply stdout_flushes in H1 as (Hn & Hp & Hs & [->|(Hrel & e & ->)]).
    + intros H%IH. by eapply forwarded_later.
    + intros [= <- <-]. by apply forwarded_fails; auto.
  - unfold mbind, SE_bind, settled, converted, on_node, se_zoom, se_lift.
    destruct (f a (node w)) as [r0 n0] eqn:Hf.
    rewrite polled_sink_with. destruct (polled_in_vain n stdout _) as [r2 w2] eqn:H2.
    apply stdout_polled in H2 as (Hn & Hp & Hs & [->|(Hrel & e & ->)]);
      cbn [node] in Hn; change (printed w2 = printed w) in Hp;
      change (shown w `prefix_of` shown w2) in Hs.
    + destruct r0 as [b|e]; cbn [map_err].
      * cbn [start_send sink_with]. destruct (start_send stdout (show b) w2) as [r3 w3] eqn:H3.
        apply stdout_sends in H3 as (Hn3 & Hs3 & [[-> Hp3]|(Hp3 & Hrel & e & ->)]).
        -- intros H%IH. eapply (forwarded_cons a b _ w w3); [congruence|congruence|by etrans|done].
        -- intros [= <- <-]. apply forwarded_fails; [done|congruence|by etrans|]. right.
           exists a, (readies polls), (Ok b). split; [done|]. congruence.
      * intros [= <- <-]. split; [done|].
        exists [], (a :: readies polls), [], (node w), 0%nat. split; [done|]. split; [constructor|].
        cbn. rewrite app_nil_r. split; [done|]. right; left. split; [done|].
        exists a, (readies polls), e. split; [done|]. split; [congruence|done].
    + intros [= <- <-]. apply forwarded_fails; [done..|]. right.
      exists a, (readies polls), r0. split; [done|]. congruence.
Qed.
End spec.

(** On a standard output that does not fail, the pace decides nothing: what is printed
    is the answers up to the first refusal. *)
Lemma forwarded_reliable {A B E} (wrap_error : E -> Error) (f : A -> N -> result E B * N) show msgs
    w r w' :
  reliable D Io -> forwarded wrap_error f show msgs w r w' ->
  let '(bs, r0, n') := answers f msgs (node w) in
  r = map_err wrap_error r0 /\ node w' = n' /\
  printed w' = printed w ++ ((fun b => stdout_line (show b)) <$> bs).
Proof.
  intros Hrel (_ & sent & rest & bs & n1 & k & -> & Hsub & Hp & Hend).
  rewrite (submissions_answers _ _ rest _ _ _ Hsub).
  destruct Hend as [(-> & -> & -> & <- & _)|[(-> & a & rest' & e & -> & Hf & ->)|(Hnot & _)]]; [| |done];
    rewrite take_ge in Hp by lia.
  - cbn. by rewrite app_nil_r.
  - cbn. rewrite Hf, app_nil_r. done.
Qed.

(** A command that only prints [items]: the node is as it was; every item before the
    first error is printed, the error is the result, and when there is none all is
    shown; or the standard output failed on the way. *)
Definition prints (items : list (result Error text)) w (r : result Error unit) w' : Prop :=
  node w' = node w /\ shown w `prefix_of` shown w' /\
  exists k, printed w' = printed w ++ (stdout_line <$> take k (until_error items)) /\
    (k = length (until_error items) /\ r = input_result items /\
       (r = Ok tt -> shown w' = concat (printed w')) \/
     ~ reliable D Io /\ exists e, r = Err (EIo e)).

Lemma forward_prints pace (items : list (result Error text)) w r w' :
  forward pace items stdout w = (r, w') -> prints items w r w'.
Proof.
  intros H. assert (Hf : forward_then (paced pace items) (fun i => converted id (Datatypes.pair i))
    (sink_with id stdout) w = (r, w')).
  { rewrite <- H. apply forward_then_ext. intros i [n d].
    unfold se_lift, converted, on_node, se_zoom. by destruct i. }
  apply (forward_then_spec id) in Hf. rewrite readies_paced in Hf. clear H. rename Hf into H.
  destruct H as (Hs & sent & rest & bs & n1 & k & -> & Hsub & Hp & Hend).
  apply submissions_items in Hsub as [-> ->].
  unfold prints. rewrite until_error_app, input_result_app.
  destruct Hend as [(-> & -> & -> & Hn & Hall)|[(-> & a & rest' & e & -> & [= -> Hn] & ->)|(Hrel & Hk & Hr & Hn)]].
  - split; [done|]. split; [done|]. exists (length bs). cbn. rewrite app_nil_r. split; [done|]. by left.
  - split; [done|]. split; [done|]. exists (length bs). cbn. rewrite app_nil_r. split; [done|]. by left.
  - split; [destruct Hn as [?|(? & ? & ? & _ & [= _ ?])]; done|]. split; [done|].
    exists (k `min` length bs)%nat. rewrite take_app_le by lia. split; [|by right].
    rewrite Hp. f_equal. f_equal. destruct (Nat.le_ge_cases k (length bs)).
    + by rewrite Nat.min_l.
    + rewrite Nat.min_r by done. by rewrite !take_ge.
Qed.
Lemma print_each {A} pace (f : A -> text) (xs : list A) w r w' :
  forward pace ((fun x => Ok (f x)) <$> xs) stdout w = (r, w') -> prints (Ok <$> (f <$> xs)) w r w'.
Proof. rewrite <- (list_fmap_compose f Ok). apply forward_prints. Qed.

(** The same for a main task that is stopped at the end of the items. *)
Lemma stopped_prints pace (xs : list text) w r w' :
  forward pace (Ok <$> xs) (left_open stdout) w = (r : result Error unit, w') ->
  node w' = node w /\ shown w `prefix_of` shown w' /\
  exists k, printed w' = printed w ++ (stdout_line <$> take k xs) /\
    (r = Ok tt \/ ~ reliable D Io /\ exists e, r = Err (EIo e)).
Proof.
  unfold forward.
  pose proof (readies_paced pace (Ok <$> xs : list (result Error text))) as Hx. revert Hx.
  generalize (paced pace (Ok <$> xs : list (result Error text))). intros polls. revert xs w.
  induction polls as [|[|i n] polls IH]; intros xs w Hx; cbn [forward_then].
  - intros [= <- <-]. split; [done|]. split; [done|]. exists 0%nat. cbn. rewrite app_nil_r. by auto.
  - unfold mbind, SE_bind. cbn [poll_flush left_open].
    destruct (poll_flush stdout w) as [r1 w1] eqn:H1.
    apply stdout_flushes in H1 as (Hn & Hp & Hs & [->|(Hrel & e & ->)]).
    + intros (Hn' & Hs' & k & Hk)%(IH xs); [|done]. split; [congruence|]. split; [by etrans|].
      exists k. by rewrite <- Hp.
    + intros [= <- <-]. split; [done|]. split; [done|]. exists 0%nat. cbn. rewrite app_nil_r. by eauto.
  - destruct xs as [|x xs]; [done|]. injection Hx as -> Hx.
    unfold mbind, SE_bind, settled, se_lift. rewrite polled_left_open.
    destruct (polled_in_vain n stdout w) as [r1 w1] eqn:H1.
    apply stdout_polled in H1 as (Hn & Hp & Hs & [->|(Hrel & e & ->)]).
    2: { intros [= <- <-]. split; [done|]. split; [done|]. exists 0%nat. cbn. rewrite app_nil_r. by eauto. }
    cbn [start_send left_open]. destruct (start_send stdout x w1) as [r2 w2] eqn:H2.
    apply stdout_sends in H2 as (Hn2 & Hs2 & [[-> Hp2]|(Hp2 & Hrel & e & ->)]).
    + intros (Hn' & Hs' & k & Hk & Hr)%(IH xs); [|done]. split; [congruence|].
      split; [by do 2 (etrans; [eassumption|])|]. exists (S k). split; [|done].
      rewrite Hk, Hp2, Hp. cbn. by rewrite <- (assoc_L (++)).
    + intros [= <- <-]. split; [congruence|]. split; [by etrans|]. exists 0%nat. cbn.
      rewrite app_nil_r. split; [congruence|]. by eauto.
Qed.

(** A reliable standard output prints all. *)
Lemma prints_reliable (xs : list text) w r w' :
  reliable D Io -> prints (Ok <$> xs) w r w' ->
  r = Ok tt /\ node w' = node w /\ printed w' = printed w ++ (stdout_line <$> xs) /\
  shown w' = concat (printed w').
Proof.
  intros Hrel (Hn & _ & k & Hp & [(-> & -> & Hs)|[Hnot _]]); [|done].
  rewrite until_error_oks, firstn_all in Hp. rewrite input_result_oks in *. by auto.
Qed.

Context {P : Type} (pair_from_string : string -> result SecretString P).
Context {Hash : Type} (hex_encode : Hash -> text).
Context (datalog_submit : P -> string -> bytes -> N -> result Protocol Hash * N).
Context (launch_submit : P -> string -> string -> bool -> N -> result Protocol Hash * N).
Context (ipfs_add : string -> bytes -> N -> result Ipfs text * N).
Context (ipfs_cat : string -> text -> N -> result Ipfs bytes * N).

(** [io write datalog], [launch] and [ipfs], and [io read ipfs].  A secret URI that is
    no key is reported and nothing is sent.  Otherwise the lines read before the first
    input error are sent in order, one request each (a launch is [ON] or anything
    else), and the answer is printed; the first request that fails ends the command
    with its error, after the lines printed so far, and the lines after it are never
    sent; an input error ends the input silently. *)
Lemma io_write_spec remote suri robot lines pace w :
  let datalog := write_datalog pair_from_string hex_encode datalog_submit remote suri lines pace w in
  let launch := write_launch pair_from_string hex_encode launch_submit remote suri robot lines pace w in
  (forall e, pair_from_string suri = Err e ->
     datalog = (Err (EPrivateKeyFailure e), w) /\ launch = (Err (EPrivateKeyFailure e), w)) /\
  (forall pair, pair_from_string suri = Ok pair ->
     forwarded EProtocol (fun line => datalog_submit pair remote (utf8 line)) hex_encode
       (until_error lines) w datalog.1 datalog.2 /\
     forwarded EProtocol (launch_submit pair remote robot) hex_encode
       ((fun line => bool_decide (line = on_text)) <$> until_error lines) w launch.1 launch.2) /\
  (let upload := write_ipfs ipfs_add remote lines pace w in
   forwarded EIpfs (fun line => ipfs_add remote (utf8 line)) id (until_error lines) w upload.1 upload.2) /\
  (let download := read_ipfs ipfs_cat remote lines pace w in
   forwarded EIpfs (ipfs_cat remote) message_text (until_error lines) w download.1 download.2).
Proof.
  cbn zeta. unfold write_datalog, write_launch, write_ipfs, read_ipfs. split; [|split; [|split]].
  - intros e ->. done.
  - intros pair ->. unfold se_lift, mbind at 1 3, SE_bind at 1 3. cbn [map_err]. split.
    + rewrite <- (readies_paced pace (until_error lines)) at 1.
      apply forward_then_spec. apply surjective_pairing.
    + rewrite <- (readies_paced pace (_ <$> _)) at 1.
      apply forward_then_spec. apply surjective_pairing.
  - rewrite <- (readies_paced (blocking pace) (until_error lines)) at 1.
    apply (forward_then_spec EIpfs (fun line => ipfs_add remote (utf8 line)) id).
    apply surjective_pairing.
  - rewrite <- (readies_paced (blocking pace) (until_error lines)) at 1.
    apply (forward_then_spec EIpfs (ipfs_cat remote) message_text). apply surjective_pairing.
Qed.
End io_facts.

Section text_facts.
Context {S PeerId Multiaddr TopicHash N D Serial ChannelSend SecretString Protocol Ipfs Io Ros : Type}.
Context `{!EqDecision TopicHash, !Countable TopicHash, !Swarm S Multiaddr,
  !TopicHashing TopicHash, !Output D Io, !OutputLaws D Io}.
Abbreviation Error := (IoError Serial ChannelSend SecretString Protocol Ipfs Io Ros).
Abbreviation st_t := (@State S PeerId Multiaddr TopicHash _ _).

(** The publisher asks the service to publish what it takes, and nothing else. *)
Lemma publisher_queue topic (msgs : list text) (st : st_t) :
  from_service (publisher topic msgs st) =
    from_service st ++ ((fun msg => Publish topic (utf8 msg)) <$> msgs) /\
  swarm (publisher topic msgs st) = swarm st.
Proof.
  revert st. induction msgs as [|msg msgs IH]; intros st; cbn; [by rewrite app_nil_r|].
  destruct (IH (service_publish topic (utf8 msg) st)) as [Hq Hs]. unfold publisher in *.
  rewrite Hq, Hs. cbn. by rewrite <- (assoc_L (++)).
Qed.

(** A line written to a topic is the line read from it.  [io write pubsub] puts the
    lines before the first input error into the channel, in order, and succeeds
    exactly when there is no such error; its publisher publishes one message for each
    it takes; and [io read pubsub] prints the messages that carry lines as the lines
    they are, and [<no string>] for a message that is no text. *)
Lemma text_survives topic (lines : list (result Error text)) pace (st : st_t) (sender : PeerId)
    (w : World N D) :
  Forall (Forall scalar) (until_error lines) ->
  exists msgs published,
    write_pubsub lines pace [] = (input_result lines, msgs) /\
    from_service (publisher topic msgs st) = from_service st ++ (Publish topic <$> published) /\
    (forall r w', read_pubsub (mkMessage sender <$> published) pace w = (r, w') ->
       prints (Ok <$> until_error lines : list (result Error text)) w r w') /\
    (forall v r w', from_utf8 v = None -> read_pubsub [mkMessage sender v] pace w = (r, w') ->
       prints ([Ok no_string] : list (result Error text)) w r w').
Proof.
  intros Hs. exists (until_error lines), (utf8 <$> until_error lines).
  split; [exact (forward_channel pace lines [])|]. split; [|split].
  - destruct (publisher_queue topic (until_error lines) st) as [-> _].
    by rewrite <- list_fmap_compose.
  - intros r w' H%print_each. rewrite <- !list_fmap_compose in H.
    assert (He : message_text ∘ data ∘ mkMessage sender ∘ utf8 <$> until_error lines = until_error lines).
    { rewrite <- (list_fmap_id (until_error lines)) at 2. apply list_fmap_ext. intros i line Hl.
      cbn. unfold message_text. rewrite from_utf8_utf8; [done|]. by eapply Forall_lookup_1 in Hs. }
    rewrite <- He. rewrite <- !list_fmap_compose. exact H.
  - intros v r w' Hv H%print_each. cbn in H. unfold message_text in H. by rewrite Hv in H.
Qed.

(** Whatever is published, the ROS source prints nothing. *)
Lemma ros_source_silent (msgs : list text) pace (w : World N D) r w' :
  read_ros msgs pace w = (r, w') -> prints ([] : list (result Error text)) w r w'.
Proof.
  unfold read_ros. assert (foldl ros_callback [] msgs = []) as -> by (by induction msgs).
  apply forward_prints.
Qed.
End text_facts.
