(* ===== verification/IoCommands.v ===== *)
(** * The commands [io read] and [io write] as a whole

    [robonomics/cli/src] ([io.rs], [source.rs], [sink.rs], [error.rs]): the
    options of the commands, what [structopt] makes of a command line, and [run],
    which opens a source or a sink of [robonomics/io/src] and forwards one of the
    standard streams.  The streams are those of [IoCli]; opening can fail, and for
    IPFS panic. *)
From stdpp Require Import prelude gmap strings list.
From Stdlib Require Import ZArith Lia Ascii.
From S2P Require Import Prelude Frame Codec Vanity Subkey SubkeyFacts Text Client.
From S2P Require Import Gossip GossipFacts Streams IoCli.
Local Open Scope Z_scope.
Local Open Scope list_scope.

(** ** The options

    A field of a command: a positional argument, or an option with its long name
    or its letter; and the default of a field that may be left out. *)
Inductive Flag : Type := Positional | Long (name : string) | Short (letter : string).
Record Opt : Type := mkOpt { field : string; flag : Flag; default_value : option string }.

Definition SDS011_options : list Opt :=
  [mkOpt "port" (Long "port") (Some "/dev/ttyUSB0"); mkOpt "period" (Long "period") (Some "5");
   mkOpt "encoding" (Short "e") (Some "json")]%string.
(** [bootnodes] may be left out as well: it is a list. *)
Definition pubsub_options (hearbeat long : string) : list Opt :=
  [mkOpt "topic_name" Positional None;
   mkOpt "listen" (Long "listen") (Some "/ip4/0.0.0.0/tcp/0");
   mkOpt "bootnodes" (Long "bootnodes") (Some "");
   mkOpt hearbeat (Long long) (Some "5")]%string.
Definition ipfs_options : list Opt :=
  [mkOpt "remote" (Long "remote") (Some "http://127.0.0.1:5001")]%string.
Definition ros_options : list Opt :=
  [mkOpt "topic_name" Positional None; mkOpt "queue_size" (Long "queue-size") (Some "10")]%string.

(** The subcommands of [read] and of [write], by the names of the command line. *)
Definition source_options : list (string * list Opt) :=
  [("sds011", SDS011_options); ("pubsub", pubsub_options "hearbeat" "hearbeat"); ("ipfs", ipfs_options);
   ("launch", [mkOpt "remote" (Long "remote") (Some "ws://127.0.0.1:9944")]);
   ("ros", ros_options)]%string.
Definition sink_options : list (string * list Opt) :=
  [("pubsub", pubsub_options "hearbeat_secs" "hearbeat-secs");
   ("datalog", [mkOpt "remote" (Long "remote") (Some "ws://localhost:9944");
                mkOpt "suri" (Short "s") None]);
   ("ipfs", ipfs_options);
   ("launch", [mkOpt "remote" (Long "remote") (Some "ws://localhost:9944");
               mkOpt "suri" (Short "s") None; mkOpt "robot" (Short "r") None]);
   ("ros", ros_options)]%string.

(** [usize] of the machine. *)
Definition usize_max : Z := u64_max.

(** [arg_enum!]: the variants, found whatever the case of the letters. *)
Definition lower (c : ascii) : ascii :=
  let n := nat_of_ascii c in
  if bool_decide (65 <= n <= 90)%nat then ascii_of_nat (n + 32) else c.
Definition eq_ignore_ascii_case (s t : string) : bool :=
  bool_decide (lower <$> String.list_ascii_of_string s = lower <$> String.list_ascii_of_string t).
Definition encoding_variants : list (string * Encoding) :=
  [("Csv", Csv); ("Hex", Hex); ("Json", Json); ("Debug", Debug)]%string.
Definition encoding_from_str (s : string) : option Encoding :=
  (fun p => p.2.2) <$> list_find (fun p => eq_ignore_ascii_case p.1 s = true) encoding_variants.

(** The values of a list with [use_delimiter]. *)
Fixpoint split_commas (l : list ascii) (cur : list ascii) : list string :=
  match l with
  | [] => [String.string_of_list_ascii (reverse cur)]
  | c :: l => if Ascii.eqb c "," then String.string_of_list_ascii (reverse cur) :: split_commas l []
              else split_commas l (c :: cur)
  end.
Definition delimited (s : string) : list string :=
  if bool_decide (s = ""%string) then [] else split_commas (String.list_ascii_of_string s) [].

Section commands.
Context {Multiaddr : Type} (multiaddr_from_str : string -> option Multiaddr).

Inductive SourceCmd : Type :=
| SourceSDS011 (port : string) (period : Z) (encoding : Encoding)
| SourcePubSub (topic_name : string) (listen : Multiaddr) (bootnodes : list Multiaddr) (hearbeat : Z)
| SourceIpfs (remote : string)
| SourceLaunch (remote : string)
| SourceRos (topic_name : string) (queue_size : Z).

Inductive SinkCmd : Type :=
| SinkPubSub (topic_name : string) (listen : Multiaddr) (bootnodes : list Multiaddr)
    (hearbeat_secs : Z)
| SinkDatalog (remote suri : string)
| SinkIpfs (remote : string)
| SinkLaunch (remote suri robot : string)
| SinkRos (topic_name : string) (queue_size : Z).

Inductive Operation : Type := Read (source : SourceCmd) | Write (sink : SinkCmd).

(** What [structopt] derives: a field has the value of its option, the last one
    given, or its default, and is converted by [FromStr]; a command line that lacks
    a value or has one that cannot be converted is refused. *)
Definition value (values : gmap string string) (opts : list Opt) (name : string) : option string :=
  match values !! name with
  | Some v => Some v
  | None => list_find (fun o => field o = name) opts ≫= fun p => default_value p.2
  end.

Definition source_from_clap (command : string) (values : gmap string string) : option SourceCmd :=
  opts ← snd <$> list_find (fun p => p.1 = command) source_options;
  let get := value values opts.2 in
  if bool_decide (command = "sds011"%string) then
    port ← get "port"%string; period ← get "period"%string ≫= parse_uint u8_max;
    encoding ← get "encoding"%string ≫= encoding_from_str;
    Some (SourceSDS011 port period encoding)
  else if bool_decide (command = "pubsub"%string) then
    topic_name ← get "topic_name"%string; listen ← get "listen"%string ≫= multiaddr_from_str;
    bootnodes ← get "bootnodes"%string; bootnodes ← mapM multiaddr_from_str (delimited bootnodes);
    hearbeat ← get "hearbeat"%string ≫= parse_uint u64_max;
    Some (SourcePubSub topic_name listen bootnodes hearbeat)
  else if bool_decide (command = "ipfs"%string) then SourceIpfs <$> get "remote"%string
  else if bool_decide (command = "launch"%string) then SourceLaunch <$> get "remote"%string
  else
    topic_name ← get "topic_name"%string;
    queue_size ← get "queue_size"%string ≫= parse_uint usize_max;
    Some (SourceRos topic_name queue_size).

Definition sink_from_clap (command : string) (values : gmap string string) : option SinkCmd :=
  opts ← snd <$> list_find (fun p => p.1 = command) sink_options;
  let get := value values opts.2 in
  if bool_decide (command = "pubsub"%string) then
    topic_name ← get "topic_name"%string; listen ← get "listen"%string ≫= multiaddr_from_str;
    bootnodes ← get "bootnodes"%string; bootnodes ← mapM multiaddr_from_str (delimited bootnodes);
    hearbeat_secs ← get "hearbeat_secs"%string ≫= parse_uint u64_max;
    Some (SinkPubSub topic_name listen bootnodes hearbeat_secs)
  else if bool_decide (command = "datalog"%string) then
    remote ← get "remote"%string; suri ← get "suri"%string; Some (SinkDatalog remote suri)
  else if bool_decide (command = "ipfs"%string) then SinkIpfs <$> get "remote"%string
  else if bool_decide (command = "launch"%string) then
    remote ← get "remote"%string; suri ← get "suri"%string; robot ← get "robot"%string;
    Some (SinkLaunch remote suri robot)
  else
    topic_name ← get "topic_name"%string;
    queue_size ← get "queue_size"%string ≫= parse_uint usize_max;
    Some (SinkRos topic_name queue_size).
End commands.

Arguments SourceCmd : clear implicits.
Arguments SinkCmd : clear implicits.
Arguments Operation : clear implicits.

(** ** The options *)
Section defaults.
Context {Multiaddr : Type} (multiaddr_from_str : string -> option Multiaddr).
Abbreviation source := (source_from_clap multiaddr_from_str).
Abbreviation sink := (sink_from_clap multiaddr_from_str).

(** The defaults are values: a command line with nothing but what it must have is
    accepted, and gives the sensor of the first serial port every five minutes, in
    JSON, whatever address a node listens on, without bootnodes, and the nodes on
    the same machine. *)
Lemma io_defaults (any : Multiaddr) (t suri robot : string) :
  multiaddr_from_str "/ip4/0.0.0.0/tcp/0" = Some any ->
  source "sds011" ∅ = Some (SourceSDS011 "/dev/ttyUSB0" 5 Json) /\
  source "pubsub" {["topic_name"%string := t]} = Some (SourcePubSub t any [] 5) /\
  source "ipfs" ∅ = Some (SourceIpfs "http://127.0.0.1:5001") /\
  source "launch" ∅ = Some (SourceLaunch "ws://127.0.0.1:9944") /\
  source "ros" {["topic_name"%string := t]} = Some (SourceRos t 10) /\
  sink "pubsub" {["topic_name"%string := t]} = Some (SinkPubSub t any [] 5) /\
  sink "datalog" {["suri"%string := suri]} = Some (SinkDatalog "ws://localhost:9944" suri) /\
  sink "ipfs" ∅ = Some (SinkIpfs "http://127.0.0.1:5001") /\
  sink "launch" (<["suri"%string := suri]> {["robot"%string := robot]}) =
    Some (SinkLaunch "ws://localhost:9944" suri robot) /\
  sink "ros" {["topic_name"%string := t]} = Some (SinkRos t 10).
Proof.
  intros Ha. unfold source_from_clap, sink_from_clap.
  repeat split; vm_compute; rewrite ?Ha; done.
Qed.
(** The interval of the sensor is a byte, so its delay in seconds does not wrap. *)
Lemma sds011_period values cmd :
  source "sds011" values = Some cmd ->
  exists port period encoding, cmd = SourceSDS011 port period encoding /\
    in_width 8 period /\ sds011_delay period = period * 60.
Proof.
  intros H.
  change (source "sds011" values) with
    (port ← value values SDS011_options "port";
     period ← value values SDS011_options "period" ≫= parse_uint u8_max;
     encoding ← value values SDS011_options "encoding" ≫= encoding_from_str;
     Some (SourceSDS011 (Multiaddr := Multiaddr) port period encoding)) in H.
  apply bind_Some in H as (port & _ & H).
  apply bind_Some in H as (period & Hp & H). apply bind_Some in Hp as (v & _ & Hp).
  apply bind_Some in H as (encoding & _ & H).
  apply parse_uint_bound in Hp; [|done].
  simplify_eq. exists port, period, encoding. split; [done|].
  unfold u8_max, in_width, sds011_delay, wrap in *. split; [lia|].
  rewrite Z.mod_small; lia.
Qed.
End defaults.

(** ** From the input to the network

    What a request does to the swarm does not depend on anything else of the
    worker, so a poll acts on the swarm request by request. *)
Section swarm.
Context {S PeerId Multiaddr TopicHash : Type}.
Context {Serial ChannelSend SecretString Protocol Ipfs Ios Ros : Type}.
Context `{!EqDecision TopicHash, !Countable TopicHash, !Swarm S Multiaddr,
  !TopicHashing TopicHash}.
Abbreviation Error := (IoError Serial ChannelSend SecretString Protocol Ipfs Ios Ros).
Abbreviation service := (@State S PeerId Multiaddr TopicHash _ _).
Implicit Types (st : service) (s : S).

Definition request_swarm s (r : ToWorkerMsg Multiaddr) : S :=
  match r with
  | Listen a _ => (listen_on a s).2
  | Connect a _ => (dial_addr a s).2
  | Listeners _ => s
  | Subscribe t _ => (gossip_subscribe t s).2
  | Unsubscribe t _ => (gossip_unsubscribe t s).2
  | Publish t m => gossip_publish t m s
  end.

Lemma swarm_handle_request r st : swarm (handle_request r st) = request_swarm (swarm st) r.
Proof.
  destruct r as [a i|a i|i|t i|t i|t m]; cbn; unfold Gossip.listen, Gossip.connect, Gossip.subscribe, Gossip.unsubscribe; cbn.
  - by destruct (listen_on _ _).
  - by destruct (dial_addr _ _).
  - done.
  - destruct (gossip_subscribe _ _) as [[] s']; cbn; [|done]. by destruct (inbox st !! _).
  - destruct (gossip_unsubscribe _ _) as [[] s']; cbn; [|done]. by destruct (inbox st !! _).
  - done.
Qed.

Lemma swarm_serve_all n st : (length (from_service st) <= n)%nat ->
  swarm (serve_all n st) = foldl request_swarm (swarm st) (from_service st).
Proof.
  revert st. induction n as [|n IH]; intros st Hn; cbn [serve_all].
  - by destruct (from_service st); [|cbn in Hn; lia].
  - destruct (from_service st) as [|r q] eqn:Hq; [done|].
    unfold serve. rewrite Hq. cbn [foldl].
    destruct (handle_request_replies r (set_queue q st)) as (Hf & _).
    rewrite IH, Hf, swarm_handle_request; [done|]. rewrite Hf. cbn in *. lia.
Qed.

Lemma swarm_poll st :
  swarm (poll [] st) = foldl request_swarm (swarm st) (from_service st).
Proof. by apply swarm_serve_all. Qed.

Lemma connects_queue bootnodes st s :
  foldl request_swarm s (from_service (foldl (fun st a => (service_connect a st).2) st bootnodes)) =
  foldl (fun s a => (dial_addr a s).2) (foldl request_swarm s (from_service st)) bootnodes.
Proof.
  revert st. induction bootnodes as [|a bootnodes IH]; intros st; [done|]. cbn [foldl].
  rewrite IH. cbn. by rewrite foldl_app.
Qed.
Lemma connects_swarm bootnodes st :
  swarm (foldl (fun st a => (service_connect a st).2) st bootnodes) = swarm st.
Proof. revert st. induction bootnodes as [|a bootnodes IH]; intros st; [done|]. cbn. by rewrite IH. Qed.

(** [io write pubsub] from the input to the network: when the publisher has taken what
    the main task put into the channel, and the worker of the new service is polled
    then, the swarm has been told to listen, to dial the bootnodes in their order, and
    then to publish the lines before the first input error on the topic, in their
    order. *)
Lemma lines_published topic listen bootnodes (lines : list (result Error text)) pace (st : service) :
  from_service st = [] ->
  swarm (poll [] (publisher topic (write_pubsub lines pace []).2 (pubsub_setup listen bootnodes st))) =
    foldl (fun s line => gossip_publish topic (utf8 line) s)
      (foldl (fun s a => (dial_addr a s).2) (listen_on listen (swarm st)).2 bootnodes)
      (until_error lines).
Proof.
  intros Hst. rewrite swarm_poll. unfold write_pubsub. rewrite forward_channel. cbn [snd app].
  destruct (publisher_queue topic (until_error lines) (pubsub_setup listen bootnodes st)) as [-> ->].
  rewrite foldl_app. unfold pubsub_setup. rewrite connects_swarm, connects_queue. cbn. rewrite Hst. cbn.
  generalize (foldl (fun s a => (dial_addr a s).2) (listen_on listen (swarm st)).2 bootnodes).
  induction (until_error lines) as [|line l IH]; intros s; [done|]. cbn. apply IH.
Qed.
End swarm.

(** ** [run] *)
Section run.
Context {S PeerId Multiaddr TopicHash N D Serial ChannelSend SecretString Protocol Ipfs Ios Ros : Type}.
Context `{!EqDecision TopicHash, !Countable TopicHash, !Swarm S Multiaddr,
  !TopicHashing TopicHash, !Output D Ios, !OutputLaws D Ios}.
Abbreviation Failure := (IoError Serial ChannelSend SecretString Protocol Ipfs Ios Ros).
Abbreviation Error := (CliError Protocol Failure).
Abbreviation service := (@State S PeerId Multiaddr TopicHash _ _).

(** The process: the remote node and the standard output; the pubsub service, once
    there is one; the channel to a spawned publisher; the messages given to a ROS
    publisher. *)
Record Process : Type := mkProcess {
  world : World N D;
  pubsub : option service;
  channel : list text;
  ros_published : list (string * text);
}.
Abbreviation Run := (SO Process Error).
Definition set_world (w : World N D) (p : Process) : Process :=
  mkProcess w (pubsub p) (channel p) (ros_published p).
Definition set_channel (c : list text) (p : Process) : Process :=
  mkProcess (world p) (pubsub p) c (ros_published p).

(** [?] and [Into]: [From<robonomics_io::error::Error>]. *)
Definition io_err {A} (m : result Failure A) : outcome Error A := try_result (map_err IoFailure m).
(** A computation on a part of the process. *)
Definition on_part {T A} (get : Process -> T) (set : T -> Process -> Process)
    (f : SE T Failure A) : Run A :=
  fun p => let (r, t) := f (get p) in (io_err r, set t p).
Definition on_world {A} : SE (World N D) Failure A -> Run A := on_part world set_world.

(** How the tasks run beside each other, as far as it matters here: the pace of the
    streams; how many messages the publisher has taken out of its channel when the
    main task returns; whether the panic of a spawned task takes the process with it,
    and how many events the main task has then printed. *)
Context (pace : Pace) (taken : nat) (panic_aborts : bool) (seen : nat).
(** The main task, with what a spawned task has done meanwhile. *)
Definition beside {A} (m : Run A) (task : Process -> Process) : Run A :=
  fun p => let (r, p') := m p in (r, task p').

(** The libraries behind the streams: the sensor; [Gossipsub::new] for a heartbeat
    in seconds, and the messages that reach the stream of a subscription, the
    worker being run; the address and the runtime of the IPFS client; the
    subscription to the events of a remote node, and what it then gives; the topics
    of ROS. *)
Context (sds011_new : string -> result Serial unit) (set_work_period : Z -> result Serial unit).
Context {Measure : Type} (encode_measure : Encoding -> Measure -> text).
Context (query : Z -> result Serial Measure) (turns : nat).
Context (gossipsub_new : Z -> result Protocol service).
Context (arrivals : nat -> service -> list (Message PeerId)).
Context (ipfs_uri_ok : string -> bool) (tokio_runtime : bool).
Context (ipfs_cat : string -> text -> N -> result Ipfs bytes * N).
Context (ipfs_add : string -> bytes -> N -> result Ipfs text * N).
Context {AccountId : Type} (to_string : AccountId -> text).
Context (decode_launch : bytes -> option (@NewLaunchEvent AccountId bool)).
Context {Sub SubxtError : Type} (launch_listen : string -> N -> result Protocol Sub * N).
Context (sub_next : Sub -> list (option (result SubxtError bytes))).
Context (ros_subscribe : string -> Z -> result Ros (list text)).
Context (ros_publisher : string -> Z -> result Ros unit).
Context {P : Type} (pair_from_string : string -> result SecretString P).
Context {Hash : Type} (hex_encode : Hash -> text).
Context (datalog_submit : P -> string -> bytes -> N -> result Protocol Hash * N).
Context (launch_submit : P -> string -> string -> bool -> N -> result Protocol Hash * N).
Implicit Types (lines : list (result Failure text)).

(** [virt::pubsub], up to the spawned tasks. *)
Definition open_pubsub (listen : Multiaddr) (bootnodes : list Multiaddr) (heartbeat : Z) :
    Run service :=
  st ← so_lift (io_err (map_err EProtocol (gossipsub_new heartbeat)));
  let st := pubsub_setup listen bootnodes st in
  _ ← so_modify (fun p => mkProcess (world p) (Some st) (channel p) (ros_published p));
  mret st.

(** [virt::ipfs]: a client and a runtime, or a panic. *)
Definition open_ipfs (uri : string) : Run unit :=
  _ ← so_lift (if ipfs_uri_ok uri then Return tt else Panic "unvalid uri");
  so_lift (if tokio_runtime then Return tt else Panic "unable to start runtime").

(** [virt::launch]: the spawned task subscribes, [listen(remote).await.unwrap()], and
    sends the events; those it sends, and the panic that ends it, if one does. *)
Definition launch_gives (remote : string) (n : N) :
    (list (@NewLaunchEvent AccountId bool) * option string) * N :=
  let (sub, n) := launch_listen remote n in
  (match sub with
   | Ok sub => launch_source decode_launch (sub_next sub)
   | Err _ => ([], Some "called `Result::unwrap()` on an `Err` value"%string)
   end, n).
(** The stream ends with the task.  Should its panic abort the process, the main task
    has printed some of the events by then. *)
Definition run_launch (remote : string) : Run unit :=
  fun p =>
    let '(events, panic, n) := launch_gives remote (node (world p)) in
    let p := set_world (mkWorld n (output (world p))) p in
    match panic with
    | Some msg =>
        if panic_aborts then
          (_ ← on_world (forward pace (Ok <$> (launch_text to_string <$> take seen events)) (left_open stdout));
           so_lift (Panic msg)) p
        else on_world (read_launch to_string events pace) p
    | None => on_world (read_launch to_string events pace) p
    end.

Definition source_run lines (cmd : SourceCmd Multiaddr) : Run unit :=
  match cmd with
  | SourceSDS011 port period encoding =>
      _ ← so_lift (io_err (map_err ESerial (sds011_new port)));
      on_world (read_sds011 encode_measure query set_work_period period encoding turns pace)
  | SourcePubSub topic_name listen bootnodes hearbeat =>
      st ← open_pubsub listen bootnodes hearbeat;
      let (stream, st) := service_subscribe topic_name st in
      _ ← so_modify (fun p => mkProcess (world p) (Some st) (channel p) (ros_published p));
      on_world (read_pubsub (arrivals stream st) pace)
  | SourceIpfs remote =>
      _ ← open_ipfs remote;
      on_world (read_ipfs ipfs_cat remote lines pace)
  | SourceLaunch remote => run_launch remote
  | SourceRos topic_name queue_size =>
      msgs ← so_lift (io_err (map_err ERos (ros_subscribe topic_name queue_size)));
      on_world (read_ros msgs pace)
  end.

(** The publisher tasks, over a channel that is new: they take the first messages, for
    the service, or for a ROS publisher, where it is not looked at whether a message
    was sent. *)
Definition publish_pubsub (topic : string) (p : Process) : Process :=
  mkProcess (world p) (publisher topic (take taken (channel p)) <$> pubsub p)
    (drop taken (channel p)) (ros_published p).
Definition publish_ros (topic : string) (p : Process) : Process :=
  mkProcess (world p) (pubsub p) (drop taken (channel p))
    (ros_published p ++ ((fun line => (topic, line)) <$> take taken (channel p))).
Definition write_channel lines : Run unit :=
  _ ← so_modify (set_channel []);
  on_part channel set_channel (write_pubsub lines pace).

Definition sink_run lines (cmd : SinkCmd Multiaddr) : Run unit :=
  match cmd with
  | SinkPubSub topic_name listen bootnodes hearbeat_secs =>
      _ ← open_pubsub listen bootnodes hearbeat_secs;
      beside (write_channel lines) (publish_pubsub topic_name)
  | SinkDatalog remote suri =>
      on_world (write_datalog pair_from_string hex_encode datalog_submit remote suri lines pace)
  | SinkIpfs remote =>
      _ ← open_ipfs remote;
      on_world (write_ipfs ipfs_add remote lines pace)
  | SinkLaunch remote suri robot =>
      on_world (write_launch pair_from_string hex_encode launch_submit remote suri robot lines pace)
  | SinkRos topic_name queue_size =>
      _ ← so_lift (io_err (map_err ERos (ros_publisher topic_name queue_size)));
      beside (write_channel lines) (publish_ros topic_name)
  end.

(** [struct IoCmd], and the [CliConfiguration] it is. *)
Record IoCmd (SharedParams : Type) : Type := mkIoCmd {
  operation : Operation Multiaddr;
  shared_params : SharedParams;
}.
Definition io_cmd_shared_params {SharedParams} (self : IoCmd SharedParams) : SharedParams :=
  shared_params _ self.

(** [IoCmd::run], with the lines of the standard input. *)
Definition io_run lines (operation : Operation Multiaddr) : Run unit :=
  match operation with
  | Read source => source_run lines source
  | Write sink => sink_run lines sink
  end.

(** ** What a command does *)

(** It failed before anything was done to the world; or the main task ran on the world
    of the process, with the effect [R]. *)
Definition failed (e : Failure) (p : Process) (r : outcome Error unit) (p' : Process) : Prop :=
  r = Fail (IoFailure e) /\ world p' = world p.
Definition panicked (msg : string) (p : Process) (r : outcome Error unit) (p' : Process) : Prop :=
  r = Panic msg /\ p' = p.
Definition ran (R : World N D -> result Failure unit -> World N D -> Prop) (w : World N D)
    (r : outcome Error unit) (p' : Process) : Prop :=
  exists r0, r = io_err r0 /\ R w r0 (world p').

(** What a source read, that is, printed: of the sensor, the measurements up to the
    first failure; of a topic, the messages of the stream; of IPFS, the objects the
    lines name; of the launch events, those the task sent before it ended, and when its
    panic aborts the process a beginning of them; of ROS nothing. *)
Definition source_read lines (cmd : SourceCmd Multiaddr) (p : Process) (r : outcome Error unit)
    (p' : Process) : Prop :=
  match cmd with
  | SourceSDS011 port period encoding =>
      match sds011_new port, set_work_period period with
      | Err e, _ | Ok _, Err e => failed (ESerial e) p r p'
      | Ok _, Ok _ =>
          ran (prints (sds011_items encode_measure query period encoding turns)) (world p) r p'
      end
  | SourcePubSub topic_name listen bootnodes hearbeat =>
      match gossipsub_new hearbeat with
      | Err e => failed (EProtocol e) p r p'
      | Ok st =>
          let (stream, st) := service_subscribe topic_name (pubsub_setup listen bootnodes st) in
          pubsub p' = Some st /\
          ran (prints (Ok <$> ((fun msg => message_text (data msg)) <$> arrivals stream st))) (world p) r p'
      end
  | SourceIpfs remote =>
      if ipfs_uri_ok remote then
        if tokio_runtime then
          ran (forwarded EIpfs (ipfs_cat remote) message_text (until_error lines)) (world p) r p'
        else panicked "unable to start runtime" p r p'
      else panicked "unvalid uri" p r p'
  | SourceLaunch remote =>
      let '(events, panic, n) := launch_gives remote (node (world p)) in
      let w := mkWorld n (output (world p)) in
      let texts := launch_text to_string <$> events in
      match panic, panic_aborts with
      | Some msg, true =>
          node (world p') = n /\ shown w `prefix_of` shown (world p') /\
          exists k, printed (world p') = printed w ++ (stdout_line <$> take k texts) /\
            (r = Panic msg \/ ~ reliable D Ios /\ exists e, r = Fail (IoFailure (EIo e)))
      | _, _ => ran (prints (Ok <$> texts)) w r p'
      end
  | SourceRos topic_name queue_size =>
      match ros_subscribe topic_name queue_size with
      | Err e => failed (ERos e) p r p'
      | Ok _ => ran (prints []) (world p) r p'
      end
  end.

(** What was given to others through this process: reading gives no message. *)
Definition no_new_messages (p p' : Process) : Prop :=
  ros_published p' = ros_published p /\ channel p' = channel p /\
  forall st t m, pubsub p' = Some st -> Publish t m ∈ from_service st ->
    pubsub p = Some st \/ exists h st0, gossipsub_new h = Ok st0 /\ Publish t m ∈ from_service st0.

(** What a sink was given of the lines before the first input error, in order.  For a
    topic or ROS: the publisher took some, the others are still in its channel, and the
    input error is the command's.  Otherwise, the requests of the node. *)
Definition publishes lines (r : outcome Error unit) (p' : Process) : Prop :=
  r = io_err (input_result lines) /\ channel p' = drop taken (until_error lines).
Definition asks_node (p p' : Process) : Prop :=
  pubsub p' = pubsub p /\ channel p' = channel p /\ ros_published p' = ros_published p.
Definition sink_gave lines (cmd : SinkCmd Multiaddr) (p : Process) (r : outcome Error unit)
    (p' : Process) : Prop :=
  match cmd with
  | SinkPubSub topic_name listen bootnodes hearbeat =>
      world p' = world p /\ ros_published p' = ros_published p /\
      match gossipsub_new hearbeat with
      | Err e => r = Fail (IoFailure (EProtocol e)) /\ p' = p
      | Ok st => publishes lines r p' /\ exists st', pubsub p' = Some st' /\
          from_service st' = from_service (pubsub_setup listen bootnodes st) ++
            ((fun line => Publish topic_name (utf8 line)) <$> take taken (until_error lines))
      end
  | SinkRos topic_name queue_size =>
      world p' = world p /\ pubsub p' = pubsub p /\
      match ros_publisher topic_name queue_size with
      | Err e => r = Fail (IoFailure (ERos e)) /\ p' = p
      | Ok _ => publishes lines r p' /\
          ros_published p' = ros_published p ++
            ((fun line => (topic_name, line)) <$> take taken (until_error lines))
      end
  | SinkDatalog remote suri =>
      asks_node p p' /\
      match pair_from_string suri with
      | Err e => failed (EPrivateKeyFailure e) p r p'
      | Ok pair => ran (forwarded EProtocol (fun line => datalog_submit pair remote (utf8 line))
          hex_encode (until_error lines)) (world p) r p'
      end
  | SinkLaunch remote suri robot =>
      asks_node p p' /\
      match pair_from_string suri with
      | Err e => failed (EPrivateKeyFailure e) p r p'
      | Ok pair => ran (forwarded EProtocol (launch_submit pair remote robot) hex_encode
          ((fun line => bool_decide (line = on_text)) <$> until_error lines)) (world p) r p'
      end
  | SinkIpfs remote =>
      asks_node p p' /\
      if ipfs_uri_ok remote then
        if tokio_runtime then
          ran (forwarded EIpfs (fun line => ipfs_add remote (utf8 line)) id (until_error lines))
            (world p) r p'
        else panicked "unable to start runtime" p r p'
      else panicked "unvalid uri" p r p'
  end.

(** A service that is set up has been asked to publish nothing. *)
Lemma pubsub_setup_publishes listen bootnodes (st : service) t m :
  Publish t m ∈ from_service (pubsub_setup listen bootnodes st) -> Publish t m ∈ from_service st.
Proof.
  unfold pubsub_setup.
  assert (H : forall st0 : service,
    (Publish t m ∈ from_service st0 -> Publish t m ∈ from_service st) ->
    Publish t m ∈ from_service (foldl (fun st addr => (service_connect addr st).2) st0 bootnodes) ->
    Publish t m ∈ from_service st).
  { induction bootnodes as [|b bootnodes IH]; intros st0 H0; cbn [foldl]; [done|].
    apply IH. cbn. rewrite elem_of_app, list_elem_of_singleton. intros [H|H]; [by apply H0|done]. }
  apply H. cbn. rewrite elem_of_app, list_elem_of_singleton. by intros [?|?].
Qed.

(** A computation on the world leaves the messages alone. *)
Lemma on_world_effects (m : SE (World N D) Failure unit) R p q r p' :
  (forall r0 w', m (world q) = (r0, w') -> R (world q) r0 w') ->
  on_world m q = (r, p') -> world q = world p ->
  ran R (world p) r p' /\ pubsub p' = pubsub q /\ channel p' = channel q /\
  ros_published p' = ros_published q.
Proof.
  intros Hm Hrun <-. revert Hrun. unfold on_world, on_part.
  destruct (m (world q)) as [r0 w'] eqn:Hw. intros [= <- <-]. split; [|done].
  exists r0. split; [done|]. by apply Hm.
Qed.
Lemma no_new_messages_same (p p' : Process) :
  pubsub p' = pubsub p -> channel p' = channel p -> ros_published p' = ros_published p ->
  no_new_messages p p'.
Proof. intros H1 H2 H3. split; [done|]. split; [done|]. rewrite H1. by auto. Qed.

Lemma open_pubsub_run {A} listen bootnodes h (k : service -> Run A) p :
  (st ← open_pubsub listen bootnodes h; k st) p =
    match gossipsub_new h with
    | Err e => (Fail (IoFailure (EProtocol e)), p)
    | Ok st => k (pubsub_setup listen bootnodes st)
        (mkProcess (world p) (Some (pubsub_setup listen bootnodes st)) (channel p) (ros_published p))
    end.
Proof. unfold open_pubsub. so_unfold. by destruct (gossipsub_new h). Qed.
Lemma open_ipfs_run uri (k : Run unit) p :
  (_ ← open_ipfs uri; k) p =
    if ipfs_uri_ok uri then
      if tokio_runtime then k p else (Panic "unable to start runtime", p)
    else (Panic "unvalid uri", p).
Proof. unfold open_ipfs. so_unfold. by destruct (ipfs_uri_ok uri), tokio_runtime. Qed.
Lemma opened_run {A} (m : result Failure A) (k : A -> Run unit) p :
  (a ← so_lift (io_err m); k a) p =
    match m with Ok a => k a p | Err e => (Fail (IoFailure e), p) end.
Proof. by destruct m. Qed.

Lemma run_launch_effects remote p r p' :
  run_launch remote p = (r, p') ->
  source_read [] (SourceLaunch remote) p r p' /\ no_new_messages p p'.
Proof.
  unfold run_launch, source_read. destruct (launch_gives remote _) as [[events panic] n].
  set (q := set_world _ p).
  assert (Hread : on_world (read_launch to_string events pace) q = (r, p') ->
    ran (prints (Ok <$> (launch_text to_string <$> events))) (world q) r p' /\ no_new_messages p p').
  { intros H. eapply (on_world_effects _ (prints (Ok <$> (launch_text to_string <$> events))) q) in H
      as (? & ? & ? & ?); [split; [done|by apply no_new_messages_same]| |done].
    intros r0 w'. apply print_each. }
  destruct panic as [msg|]; [destruct panic_aborts|]; [|exact Hread..].
  unfold mbind, SO_bind, on_world, on_part.
  destruct (forward pace _ (left_open stdout) (world q)) as [r0 w'] eqn:Hf.
  apply stopped_prints in Hf as (Hn & Hs & k & Hp & Hr). intros Hrun.
  assert (p' = set_world w' q /\ (r = Panic msg \/ ~ reliable D Ios /\ exists e, r = Fail (IoFailure (EIo e))))
    as [-> Hr'].
  { destruct Hr as [->|(Hrel & e & ->)]; injection Hrun as <- <-; by eauto. }
  split; [|by apply no_new_messages_same]. split; [done|]. split; [done|].
  exists (k `min` seen)%nat. split; [|done]. cbn [world set_world].
  rewrite Hp, (fmap_take (launch_text to_string)). by rewrite take_take.
Qed.

Lemma source_run_effects lines cmd p r p' :
  source_run lines cmd p = (r, p') -> source_read lines cmd p r p' /\ no_new_messages p p'.
Proof.
  assert (Hkept : forall m R q, (forall r0 w', m (world q) = (r0, w') -> R (world q) r0 w') ->
    on_world m q = (r, p') -> world q = world p -> no_new_messages p q ->
    ran R (world p) r p' /\ pubsub p' = pubsub q /\ no_new_messages p p').
  { intros m R q Hm Hrun Hw (H1 & H2 & H3).
    destruct (on_world_effects m R p q r p' Hm Hrun Hw) as (Hr & Hp & Hc & Hros).
    split; [done|]. split; [done|]. split; [congruence|]. split; [congruence|]. by rewrite Hp. }
  assert (Hsame : no_new_messages p p) by (by apply no_new_messages_same).
  destruct cmd as [port period enc|t listen bs h|remote|remote|t q]; cbn [source_run source_read]; intros H.
  - rewrite opened_run in H. destruct (sds011_new port) as [[]|e]; cbn [map_err] in H;
      [|by injection H as <- <-].
    unfold read_sds011 in H. destruct (set_work_period period) as [[]|e] eqn:Hp; cbn [map_err] in H.
    + eapply (Hkept _ (prints (sds011_items encode_measure query period enc turns)) p) in H
        as (? & _ & ?); [done| |done..].
      intros r0 w'. apply forward_prints.
    + injection H as <- <-. by destruct p.
  - rewrite open_pubsub_run in H. destruct (gossipsub_new h) as [st|e] eqn:Hst;
      [|by injection H as <- <-].
    destruct (service_subscribe t _) as [stream st1] eqn:Hsub.
    eapply (Hkept _ (prints _) (mkProcess (world p) (Some st1) (channel p) (ros_published p))) in H
      as (? & -> & ?); [done| |done|].
    + intros r0 w'. apply print_each.
    + split; [done|]. split; [done|]. intros st' t' m [= <-] Hin. right. exists h, st. split; [done|].
      apply (pubsub_setup_publishes listen bs). injection Hsub as <- <-. cbn in Hin.
      apply elem_of_app in Hin as [?|?%list_elem_of_singleton]; done.
  - rewrite open_ipfs_run in H. destruct (ipfs_uri_ok remote); [|by injection H as <- <-].
    destruct tokio_runtime; [|by injection H as <- <-].
    eapply (Hkept _ (forwarded EIpfs (ipfs_cat remote) message_text (until_error lines)) p) in H
      as (? & _ & ?); [done| |done..].
    intros r0 w' Hr%(forward_then_spec EIpfs (ipfs_cat remote)). by rewrite readies_paced in Hr.
  - by apply run_launch_effects.
  - rewrite opened_run in H. destruct (ros_subscribe t q) as [msgs|e]; cbn [map_err] in H;
      [|by injection H as <- <-].
    eapply (Hkept _ (prints []) p) in H as (? & _ & ?); [done| |done..].
    intros r0 w'. apply ros_source_silent.
Qed.

Lemma write_channel_run lines p :
  write_channel lines p = (io_err (input_result lines), set_channel (until_error lines) p).
Proof.
  unfold write_channel, on_part, write_pubsub. so_unfold. cbn [channel set_channel].
  by rewrite forward_channel.
Qed.

Lemma sink_run_effects lines cmd p r p' :
  sink_run lines cmd p = (r, p') -> sink_gave lines cmd p r p'.
Proof.
  destruct cmd as [t listen bs h|remote suri|remote|remote suri robot|t q];
    cbn [sink_run sink_gave]; intros H.
  - rewrite open_pubsub_run in H. destruct (gossipsub_new h) as [st|e]; [|by injection H as <- <-].
    unfold beside in H. rewrite write_channel_run in H. injection H as <- <-.
    split; [done|]. split; [done|]. split; [done|]. cbn. eexists. split; [done|].
    by destruct (publisher_queue t (take taken (until_error lines)) (pubsub_setup listen bs st)) as [-> _].
  - destruct (pair_from_string suri) as [pair|e] eqn:Hp.
    + eapply (on_world_effects _ (forwarded EProtocol _ hex_encode (until_error lines)) p p) in H
        as (? & ? & ? & ?); [done| |done].
      intros r0 w' Hr. unfold write_datalog in Hr. rewrite Hp in Hr.
      apply (forward_then_spec EProtocol) in Hr. by rewrite readies_paced in Hr.
    + unfold on_world, on_part, write_datalog in H. rewrite Hp in H. injection H as <- <-.
      by destruct p.
  - rewrite open_ipfs_run in H. destruct (ipfs_uri_ok remote); [|by injection H as <- <-].
    destruct tokio_runtime; [|by injection H as <- <-].
    eapply (on_world_effects _ (forwarded EIpfs _ id (until_error lines)) p p) in H
      as (? & ? & ? & ?); [done| |done].
    intros r0 w' Hr%(forward_then_spec EIpfs (fun line => ipfs_add remote (utf8 line)) id).
    by rewrite readies_paced in Hr.
  - destruct (pair_from_string suri) as [pair|e] eqn:Hp.
    + eapply (on_world_effects _ (forwarded EProtocol _ hex_encode _) p p) in H
        as (? & ? & ? & ?); [done| |done].
      intros r0 w' Hr. unfold write_launch in Hr. rewrite Hp in Hr.
      apply (forward_then_spec EProtocol) in Hr. by rewrite readies_paced in Hr.
    + unfold on_world, on_part, write_launch in H. rewrite Hp in H. injection H as <- <-.
      by destruct p.
  - rewrite opened_run in H. destruct (ros_publisher t q) as [[]|e]; cbn [map_err] in H;
      [|by injection H as <- <-].
    unfold beside in H. rewrite write_channel_run in H. by injection H as <- <-.
Qed.

(** C40: what [io read] and [io write] do to the world, whatever the command, its
    libraries, the input and the pace.  Opening may fail with an error of the I/O
    library, or for IPFS panic, and then nothing was done.  Reading prints what the
    source gives, in order and all of it unless the standard output fails, gives no
    message to a topic or to ROS, and asks nothing of a remote node but the objects of
    IPFS or the subscription; reading launches ends with the task that subscribes,
    silently or with its panic.  Writing to a topic or to ROS puts exactly the lines
    before the first input error into the channel, in order, of which the publisher
    has taken some and given them to the service or to ROS when the command returns,
    which it does with the input error; and writing to a chain or to IPFS sends one
    request for each of these lines, up to the first refusal, and prints the
    answers. *)
Theorem io_run_effects lines op p r p' :
  io_run lines op p = (r, p') ->
  match op with
  | Read cmd => source_read lines cmd p r p' /\ no_new_messages p p'
  | Write cmd => sink_gave lines cmd p r p'
  end.
Proof. destruct op as [cmd|cmd]; [apply source_run_effects|apply sink_run_effects]. Qed.
End run.
