(* ===== verification/IoTasks.v ===== *)
(** * The commands of [io] as tasks

    The commands that forward the standard input are several tasks that run
    beside each other ([async_std::task::spawn] in [robonomics/cli/src] and
    [robonomics/io/src]), with an unbounded channel between them, and the process
    ends with its main task.  [IoCli] has what the main task does with the lines as
    one sequence; here the tasks take their steps in any order.

    [io write datalog], [launch] and [ipfs], and [io read ipfs]: a reader puts the
    lines into a channel, and the main task takes them out, asks the node and
    prints.  Every schedule ends, and does what the command of [IoCli] does at some
    pace.

    [io write pubsub]: the main task reads the lines into a channel, a publisher
    takes them out and queues them for the worker of [Gossip], and the worker
    publishes.  What is published is a beginning of the input, in order, but the
    process does not wait for it. *)
From stdpp Require Import prelude gmap strings list relations.
From Stdlib Require Import ZArith Lia.
From S2P Require Import Prelude Frame Codec Vanity Text Client Gossip GossipFacts Streams IoCli.
From S2P Require Import Discovery.
Local Open Scope list_scope.

(** ** The reader and the main task *)
Section pipeline.
(** An item of the input, of type [A0], is sent as [g] makes it; the main task
    computes [f] of what it takes and sends the result to the sink; [W] is what the
    main task changes.  [pends]: the future of [f] may be pending, which that of a
    blocking call is not. *)
Context {W E A0 A B : Type}.
Context (pends : bool) (g : A0 -> A) (f : A -> SE W E B) (sink : Sink W E B).

(** What the main task is about to do: to poll the channel; to make the request for
    the message it has; to wait for the answer, which is on its way; to send it to the
    sink. *)
Inductive Main : Type :=
| Taking | Requesting (a : A) | Answered (r : result E B) | Printing (b : B).

Record Pipeline : Type := mkPipeline {
  input : list (result E A0);
  (** The reader's end of the channel exists. *)
  sender : bool;
  channel : list A;
  main : Main;
  (** How often the main task will still be woken in vain. *)
  wakes : nat;
  state : W;
  (** How the main task returned. *)
  returned : option (result E unit);
}.

(** [let (submit, hashes) = ..; task::spawn(stdin().forward(submit))]. *)
Definition spawn (wakes : nat) (lines : list (result E A0)) (w : W) : Pipeline :=
  mkPipeline lines true [] Taking wakes w None.

(** The end of a computation of the main task: it goes on, or returns an error. *)
Definition goes_on (lines : list (result E A0)) (s : bool) (c : list A) (m : Main) (n : nat)
    (rw : result E unit * W) : Pipeline :=
  let (r, w) := rw in
  match r with
  | Ok _ => mkPipeline lines s c m n w None
  | Err e => mkPipeline lines s c m n w (Some (Err e))
  end.

Inductive pipeline_step : Pipeline -> Pipeline -> Prop :=
(** The reader, until the input ends or fails; it then drops its end. *)
| reader_line a lines c m n w :
    pipeline_step (mkPipeline (Ok a :: lines) true c m n w None)
      (mkPipeline lines true (c ++ [g a]) m n w None)
| reader_error e lines c m n w :
    pipeline_step (mkPipeline (Err e :: lines) true c m n w None)
      (mkPipeline lines false c m n w None)
| reader_end c m n w :
    pipeline_step (mkPipeline [] true c m n w None) (mkPipeline [] false c m n w None)
(** The main task.  While the channel is empty and the reader alive, or the future
    of a request pending, it flushes the sink. *)
| main_finds_nothing lines n w :
    pipeline_step (mkPipeline lines true [] Taking (S n) w None)
      (goes_on lines true [] Taking n (poll_flush sink w))
| main_takes lines s a c n w :
    pipeline_step (mkPipeline lines s (a :: c) Taking n w None)
      (mkPipeline lines s c (Requesting a) n w None)
| request_pending lines s a c n w : pends = true ->
    pipeline_step (mkPipeline lines s c (Requesting a) (S n) w None)
      (goes_on lines s c (Requesting a) n (poll_flush sink w))
| request_served lines s a c n w :
    pipeline_step (mkPipeline lines s c (Requesting a) n w None)
      (mkPipeline lines s c (Answered (f a w).1) n (f a w).2 None)
| answer_pending lines s r c n w : pends = true ->
    pipeline_step (mkPipeline lines s c (Answered r) (S n) w None)
      (goes_on lines s c (Answered r) n (poll_flush sink w))
| answer_comes lines s b c n w :
    pipeline_step (mkPipeline lines s c (Answered (Ok b)) n w None)
      (mkPipeline lines s c (Printing b) n w None)
(** An error of the stream: [forward] returns, and flushes nothing. *)
| main_fails lines s e c n w :
    pipeline_step (mkPipeline lines s c (Answered (Err e)) n w None)
      (mkPipeline lines s c Taking n w (Some (Err e)))
| main_prints lines s c b n w :
    pipeline_step (mkPipeline lines s c (Printing b) n w None)
      (goes_on lines s c Taking n (start_send sink b w))
| main_returns lines n w :
    pipeline_step (mkPipeline lines false [] Taking n w None)
      (mkPipeline lines false [] Taking n (poll_close sink w).2 (Some (poll_close sink w).1)).

(** *** What may come of a process *)

(** The messages left to be taken. *)
Definition left_over (p : Pipeline) : list A :=
  channel p ++ (if sender p then g <$> until_error (input p) else []).
(** Polls of the stream that take these messages. *)
Definition polls_for (msgs : list A) (polls : list (Poll A)) : Prop :=
  readies polls = msgs /\ (pends = false -> Forall at_once polls).

Definition may_give (p : Pipeline) (rw : result E unit * W) : Prop :=
  match returned p, main p with
  | Some r, _ => rw = (r, state p)
  | None, Taking =>
      exists polls, polls_for (left_over p) polls /\ forward_then polls f sink (state p) = rw
  | None, Requesting a =>
      exists polls, polls_for (a :: left_over p) polls /\ forward_then polls f sink (state p) = rw
  | None, Answered r =>
      exists k polls, polls_for (left_over p) polls /\ (pends = false -> k = 0) /\
        (_ ← polled_in_vain k sink; b ← se_lift r; _ ← start_send sink b;
         forward_then polls f sink) (state p) = rw
  | None, Printing b =>
      exists polls, polls_for (left_over p) polls /\
        (_ ← start_send sink b; forward_then polls f sink) (state p) = rw
  end.

Lemma polls_for_pending msgs polls : polls_for msgs polls -> polls_for msgs (Pending :: polls).
Proof. intros [H1 H2]. split; [done|]. intros Hp. constructor; [done|by apply H2]. Qed.
Lemma polls_for_ready a k msgs polls :
  (pends = false -> k = 0) -> polls_for msgs polls -> polls_for (a :: msgs) (Ready a k :: polls).
Proof.
  intros Hk [<- H2]. split; [done|]. intros Hp. constructor; [by rewrite Hk|by apply H2].
Qed.

Lemma polls_for_some msgs : exists polls, polls_for msgs polls.
Proof.
  exists ((fun a => Ready a 0) <$> msgs). split.
  - induction msgs as [|a msgs IH]; [done|]. unfold readies in *. cbn. by rewrite IH.
  - intros _. apply Forall_fmap, Forall_true. done.
Qed.

(** A step only chooses what could come of the process before it. *)
Lemma step_gives p p' rw : pipeline_step p p' -> may_give p' rw -> may_give p rw.
Proof.
  destruct 1 as [a lines c m n w|e lines c m n w|c m n w|lines n w|lines s a c n w
    |lines s a c n w Hp|lines s a c n w|lines s r c n w Hp|lines s b c n w|lines s e c n w
    |lines s c b n w|lines n w]; unfold may_give, left_over, goes_on;
    cbn [returned main channel sender input state until_error fmap list_fmap app].
  - by rewrite <- (assoc_L (++)).
  - done.
  - done.
  - destruct (poll_flush sink w) as [[[]|e] w1] eqn:Hf; cbn [returned main channel sender input state app].
    + intros (polls & Hp & Hrun). exists (Pending :: polls). split; [by apply polls_for_pending|].
      cbn. unfold mbind, SE_bind. by rewrite Hf.
    + intros ->. destruct (polls_for_some (g <$> until_error lines)) as [polls Hp].
      exists (Pending :: polls). split; [by apply polls_for_pending|].
      cbn. unfold mbind, SE_bind. by rewrite Hf.
  - done.
  - destruct (poll_flush sink w) as [[[]|e] w1] eqn:Hf; cbn [returned main channel sender input state].
    + intros (polls & Hpo & Hrun). exists (Pending :: polls). split; [by apply polls_for_pending|].
      cbn. unfold mbind, SE_bind. by rewrite Hf.
    + intros ->. destruct (polls_for_some (a :: c ++ (if s then g <$> until_error lines else []))) as [polls Hpo].
      exists (Pending :: polls). split; [by apply polls_for_pending|].
      cbn. unfold mbind, SE_bind. by rewrite Hf.
  - intros (k & polls & Hp & Hk & Hrun). exists (Ready a k :: polls).
    split; [by apply polls_for_ready|]. rewrite <- Hrun.
    cbn [forward_then]. unfold mbind, SE_bind, settled. by destruct (f a w) as [r w1].
  - destruct (poll_flush sink w) as [[[]|e] w1] eqn:Hf; cbn [returned main channel sender input state].
    + intros (k & polls & Hpo & Hk & Hrun). exists (S k), polls. split; [done|].
      split; [by rewrite Hp|]. rewrite <- Hrun. cbn [polled_in_vain]. unfold mbind, SE_bind. by rewrite Hf.
    + intros ->. destruct (polls_for_some (c ++ (if s then g <$> until_error lines else []))) as [polls Hpo].
      exists 1, polls. split; [done|]. split; [by rewrite Hp|].
      cbn [polled_in_vain]. unfold mbind, SE_bind. by rewrite Hf.
  - intros (polls & Hp & Hrun). by exists 0, polls.
  - intros ->. destruct (polls_for_some (c ++ (if s then g <$> until_error lines else []))) as [polls Hpo].
    by exists 0, polls.
  - unfold mbind, SE_bind.
    destruct (start_send sink b w) as [[[]|e] w1] eqn:Hf; cbn [returned main channel sender input state].
    + done.
    + intros ->. destruct (polls_for_some (c ++ (if s then g <$> until_error lines else []))) as [polls Hpo].
      by exists polls.
  - intros ->. exists []. split; [done|]. apply surjective_pairing.
Qed.

(** Every step makes the process smaller. *)
Definition stage (m : Main) : nat :=
  match m with Taking => 0 | Requesting _ => 3 | Answered _ => 2 | Printing _ => 1 end.
Definition size (p : Pipeline) : nat :=
  match returned p with
  | Some _ => 0
  | None => 1 + 5 * length (input p) + (if sender p then 1 else 0) + 4 * length (channel p) +
      stage (main p) + wakes p
  end.

Lemma step_size p p' : pipeline_step p p' -> size p' < size p.
Proof.
  destruct 1; unfold goes_on;
    try match goal with |- context [poll_flush sink ?w] => destruct (poll_flush sink w) as [[[]|e'] w1] end;
    try match goal with |- context [start_send sink ?b ?w] => destruct (start_send sink b w) as [[[]|e'] w1] end;
    cbn; rewrite ?length_app; cbn; lia.
Qed.

(** As long as the main task has not returned some task can go on. *)
Lemma step_possible p : returned p = None -> exists p', pipeline_step p p'.
Proof.
  destruct p as [lines s c m n w r]; cbn. intros ->.
  destruct m as [|a|[b|e]|b]; [|by eexists; constructor..].
  destruct c as [|a c]; [|by eexists; constructor].
  destruct s; [|by eexists; constructor].
  destruct lines as [|[a|e] lines]; by eexists; constructor.
Qed.

Lemma pipeline_terminates p : Acc (flip pipeline_step) p.
Proof.
  induction p as [p IH] using (well_founded_induction (well_founded_ltof _ size)).
  constructor. intros p' Hs. by apply IH, step_size.
Qed.

(** *** Every way to poll is a schedule *)
Definition ends_as (p : Pipeline) (rw : result E unit * W) : Prop :=
  exists p', rtc pipeline_step p p' /\ returned p' = Some rw.1 /\ state p' = rw.2.

Lemma ends_step p p1 rw : pipeline_step p p1 -> ends_as p1 rw -> ends_as p rw.
Proof. intros Hs (p' & Hr & H). exists p'. split; [by eapply rtc_l|done]. Qed.
Lemma ends_goes_on lines s c m n rw (k : SE W E unit) :
  (forall w, rw = (Ok tt, w) -> ends_as (mkPipeline lines s c m n w None) (k w)) ->
  ends_as (goes_on lines s c m n rw) (match rw with (Ok _, w) => k w | (Err e, w) => (Err e, w) end).
Proof.
  destruct rw as [[[]|e] w]; cbn; intros H; [by apply H|].
  eexists. split; [apply rtc_refl|done].
Qed.

(** The answer after [k] polls in vain. *)
Lemma answer_schedule lines r n k (rest : SE W E unit) w :
  (pends = false -> k = 0) ->
  (forall w, ends_as (mkPipeline lines true [] Taking n w None) (rest w)) ->
  ends_as (mkPipeline lines true [] (Answered r) (k + n) w None)
    ((_ ← polled_in_vain k sink; b ← se_lift r; _ ← start_send sink b; rest) w).
Proof.
  intros Hk Hrest. revert w. induction k as [|k IH]; intros w.
  - cbn. unfold mbind, SE_bind, se_lift; cbn. destruct r as [b|e].
    + eapply ends_step; [apply answer_comes|]. eapply ends_step; [apply main_prints|].
      apply ends_goes_on. intros w1 _. apply Hrest.
    + eapply ends_step; [apply main_fails|]. eexists. split; [apply rtc_refl|done].
  - assert (Hp : pends = true) by (destruct pends; [done|by specialize (Hk eq_refl)]).
    eapply ends_step; [by apply answer_pending|]. cbn [polled_in_vain].
    rewrite se_bind_assoc. apply (ends_goes_on _ _ _ _ _ (poll_flush sink w)
      (_ ← polled_in_vain k sink; b ← se_lift r; _ ← start_send sink b; rest)).
    intros w1 _. apply IH. by rewrite Hp.
Qed.

Lemma polls_schedule lines polls : polls_for (g <$> until_error lines) polls ->
  exists n, forall w, ends_as (spawn n lines w) (forward_then polls f sink w).
Proof.
  revert lines. induction polls as [|[|a k] polls IH]; intros lines [Hr Hp]; cbn [forward_then].
  - exists 0. intros w. assert (He : until_error lines = []) by (by eapply fmap_nil_inv).
    destruct lines as [|[a|e] lines]; [|done|]; (eapply ends_step; [constructor|]);
      (eapply ends_step; [apply main_returns|]); eexists; (split; [apply rtc_refl|done]).
  - destruct (IH lines) as [n Hn].
    { split; [done|]. intros H. by apply Hp, Forall_cons in H as [_ H]. }
    exists (S n). intros w. eapply ends_step; [apply main_finds_nothing|].
    apply (ends_goes_on _ _ _ _ _ (poll_flush sink w) (forward_then polls f sink)).
    intros w1 _. apply Hn.
  - destruct lines as [|[a0|e] lines]; [done| |done]. cbn in Hr. injection Hr as -> Hr.
    destruct (IH lines) as [n Hn].
    { split; [done|]. intros H. by apply Hp, Forall_cons in H as [_ H]. }
    exists (k + n). intros w. eapply ends_step; [apply reader_line|].
    eapply ends_step; [apply main_takes|]. eapply ends_step; [apply request_served|].
    match goal with |- ends_as _ ?rw => replace rw with
      ((_ ← polled_in_vain k sink; b ← se_lift (f (g a0) w).1; _ ← start_send sink b;
        forward_then polls f sink) (f (g a0) w).2) end.
    2: { unfold mbind, SE_bind, settled. by destruct (f (g a0) w). }
    apply answer_schedule; [|exact Hn].
    intros H. apply Hp, Forall_cons in H as [H _]. by destruct k.
Qed.

(** The schedules of a process against a command [m] that does the same as one
    sequence, at a pace: however often the main task is woken in vain, every schedule
    ends, is never stuck before the main task has returned, and does what [m] does at
    some pace; and what [m] does at any pace is what some schedule does. *)
Definition schedules_are (lines : list (result E A0)) (m : Pace -> SE W E unit) : Prop :=
  (forall n w p, rtc pipeline_step (spawn n lines w) p ->
     Acc (flip pipeline_step) p /\
     (returned p = None -> exists p', pipeline_step p p') /\
     forall r, returned p = Some r -> exists pace, m pace w = (r, state p)) /\
  (forall pace, exists n, forall w, exists p, rtc pipeline_step (spawn n lines w) p /\
     returned p = Some (m pace w).1 /\ state p = (m pace w).2).

Definition pace_of (pace : Pace) : Pace := if pends then pace else blocking pace.
Lemma polls_of_pace msgs polls :
  polls_for msgs polls <-> exists pace, polls = paced (pace_of pace) msgs.
Proof.
  unfold pace_of. split.
  - intros [<- Hp]. destruct pends; [apply paced_of|by apply blocking_of, Hp].
  - intros [pace ->]. split; [apply readies_paced|]. intros ->. apply paced_blocking.
Qed.

Lemma pipeline_schedules lines :
  schedules_are lines (fun pace => forward_then (paced (pace_of pace) (g <$> until_error lines)) f sink).
Proof.
  split.
  - intros n w p Hp. split; [apply pipeline_terminates|]. split; [apply step_possible|].
    intros r Hr.
    assert (Hg : may_give (spawn n lines w) (r, state p)).
    { assert (Hg : may_give p (r, state p)) by (unfold may_give; by rewrite Hr).
      clear Hr. revert Hg. generalize (state p). intros w' Hg.
      induction Hp as [p|p p1 p2 Hs _ IH]; [done|]. by eapply step_gives, IH. }
    destruct Hg as (polls & Hpo & Hrun). cbn in *.
    apply polls_of_pace in Hpo as [pace ->]. by exists pace.
  - intros pace. apply polls_schedule. apply polls_of_pace. by exists pace.
Qed.
(** A command that does what the main task does with the messages in sequence. *)
Lemma schedules_of lines m :
  (forall pace w, m pace w =
     forward_then (paced (pace_of pace) (g <$> until_error lines)) f sink w) ->
  schedules_are lines m.
Proof.
  intros Hm. destruct (pipeline_schedules lines) as [H1 H2]. split.
  - intros n w p Hp. destruct (H1 n w p Hp) as (Ha & Hb & Hc). split; [done|]. split; [done|].
    intros r Hr. destruct (Hc r Hr) as [pace Hpace]. exists pace. by rewrite Hm.
  - intros pace. destruct (H2 pace) as [n Hn]. exists n. intros w. rewrite Hm. apply Hn.
Qed.
End pipeline.
Arguments Main : clear implicits.
Arguments Pipeline : clear implicits.

(** ** The four commands of this kind *)
Section commands.
Context {N D Serial ChannelSend SecretString Protocol Ipfs Ios Ros : Type}.
Context `{!Output D Ios, !OutputLaws D Ios}.
Abbreviation Error := (IoError Serial ChannelSend SecretString Protocol Ipfs Ios Ros).
Context {P : Type} (pair_from_string : string -> result SecretString P).
Context {Hash : Type} (hex_encode : Hash -> text).
Context (datalog_submit : P -> string -> bytes -> N -> result Protocol Hash * N).
Context (launch_submit : P -> string -> string -> bool -> N -> result Protocol Hash * N).
Context (ipfs_add : string -> bytes -> N -> result Ipfs text * N).
Context (ipfs_cat : string -> text -> N -> result Ipfs bytes * N).
Implicit Types (lines : list (result Error text)) (w : World N D).

(** What a line is sent as, what is asked of the node for it, and how the answer is
    printed. *)
Definition datalog_message : text -> text := id.
Definition datalog_request pair remote (msg : text) : SE (World N D) Error Hash :=
  converted EProtocol (datalog_submit pair remote (utf8 msg)).
Definition launch_message (s : text) : bool := bool_decide (s = on_text).
Definition launch_request pair remote robot (signal : bool) : SE (World N D) Error Hash :=
  converted EProtocol (launch_submit pair remote robot signal).
Definition ipfs_message : text -> text := id.
Definition ipfs_upload remote (msg : text) : SE (World N D) Error text :=
  converted EIpfs (ipfs_add remote (utf8 msg)).
Definition ipfs_download remote (hash : text) : SE (World N D) Error bytes :=
  converted EIpfs (ipfs_cat remote hash).
Definition print_hash : Sink (World N D) Error Hash := sink_with hex_encode stdout.
Definition print_data : Sink (World N D) Error bytes := sink_with message_text stdout.

(** What the pace cannot change of a command: on a standard output that does not
    fail, its result, the node and the lines printed; and in any case that all lines
    printed are shown when it ends well. *)
Definition pace_independent (m : Pace -> SE (World N D) Error unit) : Prop :=
  (reliable D Ios -> forall pace pace' w,
     (m pace w).1 = (m pace' w).1 /\ node (m pace w).2 = node (m pace' w).2 /\
     printed (m pace w).2 = printed (m pace' w).2) /\
  (forall pace w, (m pace w).1 = Ok tt -> shown (m pace w).2 = concat (printed (m pace w).2)).

Lemma forwarded_independent {A B E} (wrap_error : E -> Error) (f : A -> N -> result E B * N) show msgs m :
  (forall pace w, forwarded wrap_error f show msgs w (m pace w).1 (m pace w).2) -> pace_independent m.
Proof.
  intros Hm. split.
  - intros Hrel pace pace' w.
    pose proof (forwarded_reliable _ _ _ _ _ _ _ Hrel (Hm pace w)) as H.
    pose proof (forwarded_reliable _ _ _ _ _ _ _ Hrel (Hm pace' w)) as H'.
    destruct (answers f msgs (node w)) as [[bs r0] n']. destruct H as (-> & -> & ->).
    by destruct H' as (-> & -> & ->).
  - intros pace w Hok. destruct (Hm pace w) as (_ & sent & rest & bs & n1 & k & _ & _ & _ & H).
    rewrite Hok in H.
    by destruct H as [(_ & _ & _ & _ & ?)|[(_ & ? & ? & ? & _ & _ & ?)|(_ & _ & (? & ?) & _)]].
Qed.

(** C38: the tasks of a command do what its main task does in sequence.  A reader
    puts the lines of the standard input into an unbounded channel; the main task
    takes them out, asks the node and prints, in any interleaving with the reader,
    and flushes the standard output whenever it is woken in vain.  For [io write
    datalog], [launch] and [ipfs] and for [io read ipfs], whatever the node answers
    and the standard output does, and whatever the input: every schedule ends, none is
    stuck before the main task has returned, and what it returns and leaves behind is
    what the command of [IoCli] does at some pace, as every pace of that is some
    schedule.  On a standard output that does not fail the pace does not matter: the
    result, the node and the lines printed are the same for every schedule.  What the
    terminal shows is all of them when the command ends well; after an error it is
    only a beginning, and which depends on the schedule ([hash_lost]). *)
Theorem io_tasks_refine remote suri robot pair lines :
  pair_from_string suri = Ok pair ->
  let datalog := write_datalog pair_from_string hex_encode datalog_submit remote suri lines in
  let launch := write_launch pair_from_string hex_encode launch_submit remote suri robot lines in
  let upload := write_ipfs ipfs_add remote lines in
  let download := read_ipfs ipfs_cat remote lines in
  schedules_are true datalog_message (datalog_request pair remote) print_hash lines datalog /\
  schedules_are true launch_message (launch_request pair remote robot) print_hash lines launch /\
  schedules_are false ipfs_message (ipfs_upload remote) stdout lines upload /\
  schedules_are false ipfs_message (ipfs_download remote) print_data lines download /\
  Forall pace_independent [datalog; launch; upload; download].
Proof.
  intros Hp. cbn zeta.
  pose proof (fun pace w => io_write_spec pair_from_string hex_encode datalog_submit launch_submit
    ipfs_add ipfs_cat remote suri robot lines pace w) as Hspec.
  split; [|split; [|split; [|split]]].
  - apply schedules_of. intros pace w. unfold write_datalog. rewrite Hp.
    change datalog_message with (@id text). by rewrite list_fmap_id.
  - apply schedules_of. intros pace w. unfold write_launch. by rewrite Hp.
  - apply schedules_of. intros pace w. unfold write_ipfs.
    change ipfs_message with (@id text). by rewrite list_fmap_id.
  - apply schedules_of. intros pace w. unfold read_ipfs.
    change ipfs_message with (@id text). by rewrite list_fmap_id.
  - repeat (apply Forall_cons; split); [..|constructor];
      eapply forwarded_independent; intros pace w;
      destruct (Hspec pace w) as (_ & H & Hup & Hdown).
    + exact (proj1 (H pair Hp)).
    + exact (proj2 (H pair Hp)).
    + exact Hup.
    + exact Hdown.
Qed.
End commands.

(** ** [io write pubsub]

    [virt::pubsub] starts three tasks beside the main task: the discovery, the worker
    and the publisher.  The main task reads the standard input into the publisher's
    channel and returns when the input ends; [main] returns with it, and the process
    ends whatever the other tasks still have to do. *)
Section publishing.
Context {S PeerId Multiaddr TopicHash Error : Type}.
Context `{!EqDecision TopicHash, !Countable TopicHash, !Swarm S Multiaddr,
  !TopicHashing TopicHash}.
Abbreviation service := (@State S PeerId Multiaddr TopicHash _ _).
Implicit Types (st : service) (lines : list (result Error text)).

(** What a request to the worker asks to publish, and on a topic. *)
Definition published_by (r : ToWorkerMsg Multiaddr) : option (string * bytes) :=
  match r with Publish t m => Some (t, m) | _ => None end.
Definition on_topic (t : string) (log : list (string * bytes)) : list bytes :=
  omap (fun p => if decide (p.1 = t) then Some p.2 else None) log.

(** The process: the lines not read, the channel, the service and its worker, what
    was handed to the network, and how the process ended. *)
Record Publishing : Type := mkPublishing {
  unread : list (result Error text);
  messages : list text;
  worker : service;
  sent_out : list (string * bytes);
  ended : option (result Error unit);
}.

Definition publishing_start (address : Multiaddr) (bootnodes : list Multiaddr) st lines :
    Publishing :=
  mkPublishing lines [] (pubsub_setup address bootnodes st) [] None.

(** What the discovery asks of the service. *)
Inductive discovery_call : service -> service -> Prop :=
| discovery_subscribes st : discovery_call st (service_subscribe DISCOVERY_TOPIC_NAME st).2
| discovery_lists st : discovery_call st (service_listeners st).2
| discovery_connects_to a st : discovery_call st (service_connect a st).2
| discovery_publishes m st : discovery_call st (service_publish DISCOVERY_TOPIC_NAME m st).

Inductive publishing_step (topic : string) : Publishing -> Publishing -> Prop :=
(** The main task: [stdin().forward(pubsub)], and the end of the process. *)
| reads_line a lines c st log :
    publishing_step topic (mkPublishing (Ok a :: lines) c st log None)
      (mkPublishing lines (c ++ [a]) st log None)
| input_fails e lines c st log :
    publishing_step topic (mkPublishing (Err e :: lines) c st log None)
      (mkPublishing (Err e :: lines) c st log (Some (Err e)))
| input_ends c st log :
    publishing_step topic (mkPublishing [] c st log None)
      (mkPublishing [] c st log (Some (Ok tt)))
(** The publisher: [receiver.for_each(..)]. *)
| publisher_takes lines a c st log :
    publishing_step topic (mkPublishing lines (a :: c) st log None)
      (mkPublishing lines c (service_publish topic (utf8 a) st) log None)
(** The worker: a request, or an event of the network. *)
| worker_serves lines c r q st log : from_service st = r :: q ->
    publishing_step topic (mkPublishing lines c st log None)
      (mkPublishing lines c (serve st) (log ++ option_list (published_by r)) None)
| worker_event lines c e st log :
    publishing_step topic (mkPublishing lines c st log None)
      (mkPublishing lines c (handle_event st e) log None)
(** The discovery. *)
| discovery_calls lines c st st' log : discovery_call st st' ->
    publishing_step topic (mkPublishing lines c st log None)
      (mkPublishing lines c st' log None).

(** The messages of the topic: those out, queued, in the channel and to be read. *)
Definition queued (topic : string) st : list bytes :=
  on_topic topic (omap published_by (from_service st)).
Definition everything (topic : string) (p : Publishing) : list bytes :=
  on_topic topic (sent_out p) ++ queued topic (worker p) ++
    (utf8 <$> messages p) ++ (utf8 <$> until_error (unread p)).

Lemma on_topic_app t l l' : on_topic t (l ++ l') = on_topic t l ++ on_topic t l'.
Proof. apply omap_app. Qed.
Lemma on_topic_nil t : on_topic t [] = [].
Proof. done. Qed.
Lemma queued_send t r st :
  queued t (send_request r st) = queued t st ++ on_topic t (option_list (published_by r)).
Proof.
  unfold queued, send_request. cbn [from_service set_queue].
  by rewrite omap_app, on_topic_app.
Qed.
Lemma queued_serve t r q st : from_service st = r :: q ->
  queued t st = on_topic t (option_list (published_by r)) ++ queued t (serve st).
Proof.
  intros Hq. unfold queued, serve. rewrite Hq.
  destruct (handle_request_replies r (set_queue q st)) as (-> & _).
  by destruct r; cbn; try case_decide.
Qed.
Ltac queue_request :=
  unfold service_subscribe, service_listeners, service_connect, service_listen, service_publish,
    oneshot, mpsc; cbn [snd]; rewrite queued_send; unfold option_list; cbn [published_by option_rect];
  rewrite ?on_topic_nil.
Lemma queued_call t st st' : t <> DISCOVERY_TOPIC_NAME -> discovery_call st st' ->
  queued t st' = queued t st.
Proof.
  intros Hne H. assert (Hd : forall m, on_topic t [(DISCOVERY_TOPIC_NAME, m)] = []).
  { intros m. unfold on_topic; cbn. by rewrite decide_False. }
  destruct H; queue_request; rewrite ?Hd; by rewrite app_nil_r.
Qed.
Lemma queued_setup t a bs st : queued t (pubsub_setup a bs st) = queued t st.
Proof.
  unfold pubsub_setup.
  assert (H : forall st0, queued t st0 = queued t st ->
    queued t (foldl (fun st addr => (service_connect addr st).2) st0 bs) = queued t st).
  { induction bs as [|b bs IH]; intros st0 H0; [done|]. cbn [foldl]. apply IH.
    queue_request. by rewrite app_nil_r. }
  apply H. queue_request. by rewrite app_nil_r.
Qed.

(** No task loses, repeats or reorders a message. *)
Lemma publishing_step_everything topic p p' : topic <> DISCOVERY_TOPIC_NAME ->
  publishing_step topic p p' ->
  everything topic p' = everything topic p /\
  input_result (unread p') = input_result (unread p) /\
  ended p = None /\ (forall r, ended p' = Some r -> r = input_result (unread p)).
Proof.
  intros Hne H. destruct H; unfold everything; cbn [unread messages worker sent_out ended];
    (split; [|split; [done|split; [done|intros ? [=]; done]]]).
  - rewrite fmap_app. cbn. by rewrite <- !(assoc_L (++)).
  - done.
  - done.
  - unfold service_publish. rewrite queued_send. cbn [published_by option_list].
    unfold on_topic at 3; cbn. rewrite decide_True by done. by rewrite <- !(assoc_L (++)).
  - rewrite on_topic_app, (queued_serve _ _ _ st H). by rewrite <- !(assoc_L (++)).
  - unfold queued. by destruct (handle_event_same st e) as (_ & -> & _).
  - by rewrite (queued_call _ _ _ Hne H).
Qed.

(** A process whose main task has not returned can go on, and one that has cannot. *)
Lemma publishing_possible topic p : ended p = None -> exists p', publishing_step topic p p'.
Proof.
  destruct p as [[|[a|e] lines] c st log r]; cbn; intros ->; eexists; constructor.
Qed.
Lemma ended_stops topic p p' r : ended p = Some r -> ~ publishing_step topic p p'.
Proof. intros Hr Hs. destruct Hs; done. Qed.

(** What each task does on its own, from any state of the others. *)
Lemma main_reads topic lines c st log : exists rest,
  rtc (publishing_step topic) (mkPublishing lines c st log None)
    (mkPublishing rest (c ++ until_error lines) st log None) /\
  forall c' st' log', publishing_step topic (mkPublishing rest c' st' log' None)
    (mkPublishing rest c' st' log' (Some (input_result lines))).
Proof.
  revert c. induction lines as [|[a|e] lines IH]; intros c; cbn [until_error input_result].
  - exists []. rewrite app_nil_r. split; [apply rtc_refl|constructor].
  - destruct (IH (c ++ [a])) as (rest & Hr & He). exists rest. split; [|done].
    eapply rtc_l; [constructor|]. by rewrite <- (assoc_L (++)) in Hr.
  - exists (Err e :: lines). rewrite app_nil_r. split; [apply rtc_refl|constructor].
Qed.

Lemma publisher_takes_some topic lines c1 c2 st log : exists st',
  rtc (publishing_step topic) (mkPublishing lines (c1 ++ c2) st log None)
    (mkPublishing lines c2 st' log None) /\
  queued topic st' = queued topic st ++ (utf8 <$> c1).
Proof.
  revert st. induction c1 as [|a c1 IH]; intros st.
  - exists st. cbn. rewrite app_nil_r. split; [apply rtc_refl|done].
  - destruct (IH (service_publish topic (utf8 a) st)) as (st' & Hr & Hq). exists st'.
    split; [eapply rtc_l; [constructor|exact Hr]|]. rewrite Hq. unfold service_publish.
    rewrite queued_send. unfold option_list, on_topic; cbn [published_by option_rect omap list_omap].
    cbn. rewrite decide_True by done. by rewrite <- (assoc_L (++)).
Qed.

Lemma worker_serves_the_rest topic lines c st log : exists st' log',
  rtc (publishing_step topic) (mkPublishing lines c st log None)
    (mkPublishing lines c st' log' None) /\
  on_topic topic log' = on_topic topic log ++ queued topic st.
Proof.
  remember (length (from_service st)) as n eqn:Hn. revert st log Hn.
  induction n as [|n IH]; intros st log Hn.
  - exists st, log. split; [apply rtc_refl|]. unfold queued.
    destruct (from_service st); [by rewrite app_nil_r|done].
  - destruct (from_service st) as [|r q] eqn:Hq; [done|].
    destruct (IH (serve st) (log ++ option_list (published_by r))) as (st' & log' & Hr & Hl).
    { unfold serve. rewrite Hq.
      destruct (handle_request_replies r (set_queue q st)) as (-> & _). by cbn in *; simplify_eq. }
    exists st', log'. split; [eapply rtc_l; [by econstructor|exact Hr]|].
    rewrite Hl, on_topic_app, (queued_serve _ _ _ st Hq). by rewrite <- (assoc_L (++)).
Qed.

(** C39: what [io write pubsub] publishes.  The reader, the publisher, the worker of
    the service, the discovery and the network take their steps in any order.  At
    any time the lines before the first input error are, in order and encoded, the
    messages handed to the network on the topic, followed by those queued, in the
    channel and not yet read: no task loses, repeats or reorders one.  The process
    is never stuck before its main task returns, which it does well exactly when
    the input has no error, and with its first error otherwise.  But the main task
    waits for nobody: for every number of messages there is a schedule after which
    the process has ended with just those published, so that even of a good input
    everything may be lost. *)
Theorem pubsub_prefix topic address bootnodes st lines :
  topic <> DISCOVERY_TOPIC_NAME -> from_service st = [] ->
  let input := utf8 <$> until_error lines in
  let start := publishing_start address bootnodes st lines in
  (forall p, rtc (publishing_step topic) start p ->
     input = on_topic topic (sent_out p) ++ queued topic (worker p) ++
       (utf8 <$> messages p) ++ (utf8 <$> until_error (unread p)) /\
     (ended p = None -> exists p', publishing_step topic p p') /\
     forall r, ended p = Some r ->
       r = input_result lines /\ forall p', ~ publishing_step topic p p') /\
  forall k, k <= length input ->
    exists p, rtc (publishing_step topic) start p /\ ended p = Some (input_result lines) /\
      on_topic topic (sent_out p) = take k input.
Proof.
  cbn zeta. intros Hne Hq.
  assert (Hq0 : queued topic (pubsub_setup address bootnodes st) = []).
  { rewrite queued_setup. unfold queued. by rewrite Hq. }
  split.
  - intros p Hp.
    assert (Hinv : everything topic p = utf8 <$> until_error lines /\
      input_result (unread p) = input_result lines /\
      forall r, ended p = Some r -> r = input_result lines).
    { revert p Hp. refine (rtc_ind_r _ _ _ _).
      - unfold everything, publishing_start; cbn [sent_out worker messages unread ended].
        by rewrite Hq0.
      - intros p p' _ Hs (He & Hr & _).
        destruct (publishing_step_everything _ _ _ Hne Hs) as (He' & Hr' & _ & Hend).
        rewrite He', Hr'. split; [done|]. split; [done|]. intros r Hp'. rewrite <- Hr. by apply Hend. }
    destruct Hinv as (He & _ & Hend). split; [done|].
    split; [apply publishing_possible|]. intros r Hr. split; [by apply Hend|].
    intros p'. by eapply ended_stops.
  - intros k Hk. rewrite length_fmap in Hk.
    destruct (main_reads topic lines [] (pubsub_setup address bootnodes st) []) as (rest & Hm & Hend).
    rewrite app_nil_l in Hm. rewrite <- (take_drop k (until_error lines)) in Hm.
    destruct (publisher_takes_some topic rest (take k (until_error lines))
      (drop k (until_error lines)) (pubsub_setup address bootnodes st) []) as (st1 & Hp & Hq1).
    destruct (worker_serves_the_rest topic rest (drop k (until_error lines)) st1 [])
      as (st2 & log & Hw & Hl).
    exists (mkPublishing rest (drop k (until_error lines)) st2 log (Some (input_result lines))).
    split; [|split; [reflexivity|]].
    + etrans; [exact Hm|]. etrans; [exact Hp|].
      eapply rtc_r; [exact Hw|]. apply Hend.
    + cbn [sent_out]. rewrite Hl, Hq1, Hq0. by rewrite fmap_take.
Qed.
End publishing.
