(* ===== verification/TopicNet.v ===== *)
(** * Lines over a topic

    [io write pubsub] and [io read pubsub] ([robonomics/cli/src/sink.rs],
    [robonomics/cli/src/source.rs]) on the nodes of [Network]: what is printed of a
    topic on one machine, of the lines that were read on others.

    Of a process that writes, the tasks are those of [IoTasks]: the main task reads a
    line into a channel ([talk_reads]), the publisher takes it out and queues it for
    the worker ([talk_publishes]); its worker, its discovery, the network and all
    other nodes take the steps of [Network] ([talk_network]).  A process may end at
    any time ([IoTasks]); it then takes no more steps. *)
From stdpp Require Import prelude gmap strings list relations.
From Stdlib Require Import ZArith Lia.
From S2P Require Import Prelude Frame Vanity Text Gossip GossipFacts Network Streams IoCli IoTasks.
Local Open Scope list_scope.

Section topics.
Context {S PeerId Multiaddr TopicHash Error : Type}.
Context `{!EqDecision TopicHash, !Countable TopicHash, !Swarm S Multiaddr,
  !TopicHashing TopicHash}.
Context `{!EqDecision PeerId}.
(** The nodes that run [io write pubsub], with the topic and the standard input. *)
Context (writes : PeerId -> option (string * list (result Error text))).

Abbreviation worker_t := (@State S PeerId Multiaddr TopicHash _ _).
Abbreviation network_t := (@Network S PeerId Multiaddr TopicHash _ _).

(** The main task and the publisher of a writer: the input not yet read, and the
    channel between them. *)
Record Writer : Type := mkWriter {
  to_read : list (result Error text);
  to_publish : list text;
}.
Record Talk : Type := mkTalk { talk_net : network_t; writers : PeerId -> Writer }.
Implicit Types (k : Talk) (n : network_t) (p q : PeerId) (ws : PeerId -> Writer).

Definition set_writer p (w : Writer) ws : PeerId -> Writer :=
  fun q => if decide (q = p) then w else ws q.

(** What the clients of a node asked to publish on a topic, in order. *)
Definition requests_of p t n : list bytes :=
  omap (fun '(q, u, m) => if decide (q = p /\ u = t) then Some m else None) (requested n).

Definition publish_request p t m n : network_t :=
  let n' := on_worker (service_publish t m) p n in
  mkNetwork (nodes n') (requested n ++ [(p, t, m)]) (published n).

Inductive talk_step : Talk -> Talk -> Prop :=
| talk_network n n' ws :
    net_step n n' ->
    (forall p t lines, writes p = Some (t, lines) -> requests_of p t n' = requests_of p t n) ->
    talk_step (mkTalk n ws) (mkTalk n' ws)
| talk_reads n ws p a lines c :
    ws p = mkWriter (Ok a :: lines) c ->
    talk_step (mkTalk n ws) (mkTalk n (set_writer p (mkWriter lines (c ++ [a])) ws))
| talk_publishes n ws p t input a lines c :
    writes p = Some (t, input) -> ws p = mkWriter lines (a :: c) ->
    talk_step (mkTalk n ws)
      (mkTalk (publish_request p t (utf8 a) n) (set_writer p (mkWriter lines c) ws)).

Definition talk_start (swarms : PeerId -> S) : Talk :=
  mkTalk (mkNetwork (fun p => mkNode (worker_new (swarms p)) ∅) [] [])
    (fun p => mkWriter (default [] (snd <$> writes p)) []).
Definition talk_reachable k : Prop := exists swarms, rtc talk_step (talk_start swarms) k.

(** ** The invariant

    Of a writer, what was asked to be published, what is in the channel and what is
    still to be read make up its input. *)
Definition all_lines p t k : list bytes :=
  requests_of p t (talk_net k) ++ (utf8 <$> to_publish (writers k p)) ++
    (utf8 <$> until_error (to_read (writers k p))).

Record talk_ok k : Prop := {
  to_net : net_reachable (talk_net k);
  to_lines p t input : writes p = Some (t, input) -> all_lines p t k = utf8 <$> until_error input;
}.

Lemma requests_of_publish p t m n q u :
  requests_of q u (publish_request p t m n) =
    requests_of q u n ++ (if decide (p = q /\ t = u) then [m] else []).
Proof.
  unfold requests_of, publish_request. cbn [requested]. rewrite omap_app. f_equal; cbn.
  by case_decide.
Qed.

Lemma talk_step_ok k k' : talk_step k k' -> talk_ok k -> talk_ok k'.
Proof.
  intros Hs [Hn Hl]. destruct Hs as [n n' ws Hs Hq|n ws p a lines c Hp|n ws p t0 input0 a lines c Hw Hp];
    (split; [cbn [talk_net] in *|]); try (intros q t input Hq'; specialize (Hl _ _ _ Hq'); revert Hl;
      unfold all_lines, set_writer; cbn [talk_net writers]).
  - by eapply net_next.
  - intros <-. by erewrite Hq.
  - done.
  - case_decide as Hqp; [subst q|done]. rewrite Hp. cbn [to_read to_publish until_error].
    intros <-. rewrite fmap_app. cbn. by rewrite <- (assoc_L (++)).
  - eapply net_next; [exact Hn|]. apply net_publish.
  - rewrite requests_of_publish. destruct (decide (q = p)) as [->|Hqp].
    + rewrite Hp. cbn [to_read to_publish]. simplify_eq. rewrite decide_True by done.
      intros <-. by rewrite <- (assoc_L (++)).
    + rewrite decide_False by naive_solver. by rewrite app_nil_r.
Qed.

Lemma talk_reachable_ok k : talk_reachable k -> talk_ok k.
Proof.
  intros [swarms Hr]. revert k Hr. refine (rtc_ind_r _ _ _ _).
  - split; [apply net_start|]. intros p t input Hp. unfold all_lines, requests_of; cbn.
    by rewrite Hp.
  - intros k k' _ Hs. by apply talk_step_ok.
Qed.

Lemma requests_of_elem p t m n : m ∈ requests_of p t n <-> (p, t, m) ∈ requested n.
Proof.
  unfold requests_of. rewrite list_elem_of_omap. split.
  - intros ([[q u] m'] & Hin & Hm). case_decide; [|done]. by destruct_and?; simplify_eq.
  - intros Hin. exists (p, t, m). split; [done|]. by rewrite decide_True.
Qed.

(** ** A line can arrive *)

(** Steps that leave the node [q] as it is. *)
Definition away q k k' : Prop := talk_step k k' /\ nodes (talk_net k') q = nodes (talk_net k) q.
Lemma away_steps q k k' : rtc (away q) k k' -> rtc talk_step k k' /\ nodes (talk_net k') q = nodes (talk_net k) q.
Proof.
  induction 1 as [k|k k1 k' [Hs Hq] _ [IH Hq']]; [by split; [apply rtc_refl|]|].
  split; [by eapply rtc_l|]. by rewrite Hq'.
Qed.

Lemma served_talks p q n n' ws : q <> p ->
  rtc (fun a b => net_step a b /\ served_by p a b) n n' -> rtc (away q) (mkTalk n ws) (mkTalk n' ws).
Proof.
  intros Hq. induction 1 as [n|n n1 n' [Hs [Hr Ho]] _ IH]; [apply rtc_refl|].
  eapply rtc_l; [|exact IH]. split; [|by apply Ho]. apply talk_network; [done|].
  intros. unfold requests_of. by rewrite Hr.
Qed.

(** The main task reads all of the input, and the publisher takes all of the channel. *)
Lemma reads_all p q n ws : exists ws',
  rtc (away q) (mkTalk n ws) (mkTalk n ws') /\ until_error (to_read (ws' p)) = [].
Proof.
  destruct (ws p) as [lines c] eqn:Hp. revert c ws Hp.
  induction lines as [|[a|e] lines IH]; intros c ws Hp;
    [by exists ws; rewrite Hp; split; [apply rtc_refl|]| |by exists ws; rewrite Hp; split; [apply rtc_refl|]].
  destruct (IH (c ++ [a]) (set_writer p (mkWriter lines (c ++ [a])) ws)) as (ws' & Hr & He).
  { unfold set_writer. by rewrite decide_True. }
  exists ws'. split; [|done]. eapply rtc_l; [|exact Hr]. by split; [apply talk_reads|].
Qed.
Lemma publishes_all p q t input n ws : writes p = Some (t, input) -> q <> p ->
  exists n' ws', rtc (away q) (mkTalk n ws) (mkTalk n' ws') /\
    to_publish (ws' p) = [] /\ to_read (ws' p) = to_read (ws p).
Proof.
  intros Hw Hq. destruct (ws p) as [lines c] eqn:Hp. cbn [to_read]. revert n ws Hp.
  induction c as [|a c IH]; intros n ws Hp;
    [by exists n, ws; rewrite Hp; split; [apply rtc_refl|]|].
  destruct (IH (publish_request p t (utf8 a) n) (set_writer p (mkWriter lines c) ws))
    as (n' & ws' & Hr & He).
  { unfold set_writer. by rewrite decide_True. }
  exists n', ws'. split; [|done]. eapply rtc_l; [|exact Hr]. split; [by eapply talk_publishes|].
  cbn. by rewrite decide_False.
Qed.

Lemma talk_steps_reachable k k' : rtc talk_step k k' -> talk_reachable k -> talk_reachable k'.
Proof. intros Hs [swarms Hr]. exists swarms. by etrans. Qed.

(** All of the input of a writer can get out. *)
Lemma gets_out p q t input k : talk_reachable k -> writes p = Some (t, input) -> q <> p ->
  exists k', rtc (away q) k k' /\
    forall line, line ∈ until_error input -> (p, t, utf8 line) ∈ published (talk_net k').
Proof.
  intros Hk Hw Hq. destruct k as [n ws].
  destruct (reads_all p q n ws) as (ws1 & H1 & Hread).
  destruct (publishes_all p q t input n ws1 Hw Hq) as (n2 & ws2 & H2 & Hc & Hl).
  destruct (serves_the_queue n2 p) as (n3 & H3 & He).
  apply (served_talks p q n2 n3 ws2 Hq) in H3.
  exists (mkTalk n3 ws2). assert (Hr : rtc (away q) (mkTalk n ws) (mkTalk n3 ws2)) by (by do 2 (etrans; [eassumption|])).
  split; [exact Hr|]. apply away_steps in Hr as [Hr _].
  destruct (talk_reachable_ok _ (talk_steps_reachable _ _ Hr Hk)) as [Hnet Hlines].
  specialize (Hlines _ _ _ Hw). unfold all_lines in Hlines; cbn [talk_net writers] in *.
  rewrite Hc, Hl, Hread in Hlines. cbn in Hlines. rewrite app_nil_r in Hlines.
  intros line Hin.
  assert (Hreq : (p, t, utf8 line) ∈ requested n3).
  { apply requests_of_elem. rewrite Hlines. by apply list_elem_of_fmap_2. }
  destruct (net_reachable_on_the_way _ Hnet _ _ _ Hreq) as [?|Hm]; [done|].
  rewrite He in Hm. by apply elem_of_nil in Hm.
Qed.

Context `{!TopicHashingLaws TopicHash}.
Context {N D Serial ChannelSend SecretString Protocol Ipfs Io Ros : Type}.
Context `{!Output D Io, !OutputLaws D Io}.

(** C14: from the standard input of one machine to the standard output of another.  On
    the nodes of a network, of which some run [io write pubsub] and all others do
    what they like: a writer has, at any time, asked for a beginning of its input up
    to the first error, in order and each line once; [io read pubsub], at any pace,
    prints one line for each message of its stream, unless its standard output fails,
    and shows them all; and a message of a writer on the topic is printed as a line
    of that writer's input; and the tasks lose no line: whatever has
    happened, as long as the process of a writer lives they can go on until any of its
    lines is out, and when libp2p then hands it to another node with a listening stream
    registered for the topic, it is the next message of that stream. *)
Theorem lines_over_a_topic k : talk_reachable k ->
  (forall p t input, writes p = Some (t, input) ->
     requests_of p t (talk_net k) `prefix_of` (utf8 <$> until_error input)) /\
  (forall q id c t, streams (Network.worker (nodes (talk_net k) q)) !! id = Some c ->
     asked (nodes (talk_net k) q) !! id = Some t ->
     (forall pace (w : World N D) r w', read_pubsub (received c) pace w = (r, w') ->
        prints (Ok <$> ((fun msg => message_text (data msg)) <$> received c)
          : list (result (IoError Serial ChannelSend SecretString Protocol Ipfs Io Ros) text)) w r w') /\
     Forall (fun msg => forall input, writes (from msg) = Some (t, input) ->
       Forall (Forall scalar) (until_error input) ->
       message_text (data msg) ∈ until_error input) (received c)) /\
  (forall p t input q id c line, writes p = Some (t, input) -> q <> p ->
     line ∈ until_error input ->
     inbox (Network.worker (nodes (talk_net k) q)) !! (no_hash t : TopicHash) = Some id ->
     streams (Network.worker (nodes (talk_net k) q)) !! id = Some c -> listening c = true ->
     exists k', rtc talk_step k k' /\
       streams (Network.worker (nodes (talk_net k') q)) !! id =
         Some (mkStream (received c ++ [mkMessage p (utf8 line)]) true (sender_alive c))).
Proof using Type*.
  intros Hk. destruct (talk_reachable_ok _ Hk) as [Hnet Hlines]. split; [|split].
  - intros p t input Hw. rewrite <- (Hlines _ _ _ Hw). unfold all_lines. by eexists.
  - intros q id c t Hc Ht. split.
    + intros pace w r w'. apply print_each.
    + apply Forall_forall. intros msg Hm input Hw Hs.
      pose proof (received_requested _ _ _ _ _ _ (net_reachable_ok _ Hnet) Hc Ht Hm) as Hreq.
      apply requests_of_elem in Hreq.
      assert (Hin : data msg ∈ utf8 <$> until_error input).
      { rewrite <- (Hlines _ _ _ Hw). apply elem_of_app. by left. }
      apply list_elem_of_fmap in Hin as (line & -> & Hin).
      unfold message_text. rewrite Forall_forall in Hs. by rewrite from_utf8_utf8 by auto.
  - intros p t input q id c line Hw Hq Hin Hreg Hc Hl.
    destruct (gets_out p q t input k Hk Hw Hq) as (k1 & Hr & Hout).
    apply away_steps in Hr as [Hr Hsame]. specialize (Hout _ Hin).
    destruct k1 as [n1 ws1]; cbn [talk_net] in *.
    eexists. split; [eapply rtc_r; [exact Hr|]; apply talk_network;
      [by apply (net_deliver n1 p q p [] t (utf8 line))|done]|].
    cbn [talk_net on_worker set_node nodes]. rewrite decide_True by done. cbn [Network.worker].
    rewrite deliver_streams, Hsame, Hc; cbn. by rewrite Hl, bool_decide_true.
Qed.
End topics.
