(* ===== verification/Remote.v ===== *)
(** * The commands of [io] against a chain

    [io write datalog] and [io write launch] ([robonomics/cli/src/sink.rs]) with the
    client of [robonomics/protocol/src], on a node that runs the chain of [Chain]:
    what becomes of a line of the standard input in the storage of the pallets, and
    what [io read launch] prints of it.

    Between the client and the chain is Substrate: an extrinsic that is submitted
    waits in the pool of the node and is included in a block some time later.  The
    extrinsics of one account are included in the order of their nonces; the pool
    may refuse one, or drop it. *)
From stdpp Require Import prelude gmap strings list relations.
From Stdlib Require Import ZArith Lia.
From S2P Require Import Prelude Frame Codec Currency Agreement Liability.
From S2P Require Import LiabilityFacts SignedPallet Datalog Launch Client Runtime Chain.
From S2P Require Import Vanity Text Gossip Streams IoCli.
Local Open Scope Z_scope.
Local Open Scope list_scope.

(** Of a list of pairs, those of one account. *)
Definition of_account {A X} `{!EqDecision A} (a : A) (l : list (A * X)) : list X :=
  omap (fun p => if decide (p.1 = a) then Some p.2 else None) l.

Lemma of_account_app {A X} `{!EqDecision A} (a : A) (l k : list (A * X)) :
  of_account a (l ++ k) = of_account a l ++ of_account a k.
Proof. apply omap_app. Qed.
Lemma of_account_cons_eq {A X} `{!EqDecision A} (a : A) (x : X) l :
  of_account a ((a, x) :: l) = x :: of_account a l.
Proof. unfold of_account; cbn. by rewrite decide_True. Qed.
Lemma of_account_cons_ne {A X} `{!EqDecision A} (a b : A) (x : X) l :
  b <> a -> of_account a ((b, x) :: l) = of_account a l.
Proof. intros. unfold of_account; cbn. by rewrite decide_False. Qed.
Lemma of_account_none {A X} `{!EqDecision A} (a : A) (l : list (A * X)) :
  a ∉ l.*1 -> of_account a l = [].
Proof.
  induction l as [|[b x] l IH]; [done|]. cbn [fmap list_fmap fst].
  intros [Hb Hl]%not_elem_of_cons. by rewrite of_account_cons_ne, IH.
Qed.
(** The first of an account. *)
Lemma of_account_split {A X} `{!EqDecision A} (a : A) (l : list (A * X)) x k :
  of_account a l = x :: k ->
  exists l1 l2, l = l1 ++ (a, x) :: l2 /\ (a ∉ l1.*1) /\ of_account a l2 = k.
Proof.
  induction l as [|[b y] l IH]; [done|]. destruct (decide (b = a)) as [->|Hb].
  - rewrite of_account_cons_eq. intros [= -> Hk]. exists [], l. split; [done|].
    split; [apply not_elem_of_nil|done].
  - rewrite of_account_cons_ne by done. intros (l1 & l2 & -> & Ha & Hk)%IH.
    exists ((b, y) :: l1), l2. split; [done|]. split; [|done].
    cbn. by rewrite not_elem_of_cons.
Qed.

Section remote.
Context {Origin AccountId Sig W OtherCall P Hash SubxtError : Type}.
Context `{!FrameSystem Origin AccountId, !Verify Sig AccountId}.
Context `{!EqDecision AccountId, !Countable AccountId, !Metadata}.
Context `{!Codec bytes, !Codec unit, !Codec AccountId, !Codec Z, !Codec bool}.
Context (now : W -> Z).
Context (other_dispatch : Origin -> OtherCall -> @Chain AccountId W _ _ ->
  DispatchResult * @Chain AccountId W _ _).
Context (raw : Origin -> OtherCall -> bool).
Context (other_validate : OtherCall -> W -> option TransactionValidity).
Context (pallet_index : Z).

Abbreviation chain_t := (@Chain AccountId W _ _).
Abbreviation call_t := (@RuntimeCall AccountId Sig OtherCall).
Abbreviation history := (list (@Happened Origin AccountId Sig OtherCall)).
Abbreviation run := (runtime_dispatch pallet_index other_dispatch).
Abbreviation step := (chain_step now other_validate pallet_index other_dispatch raw).
Abbreviation reach := (chain_reachable now other_validate pallet_index other_dispatch raw).

(** A node: its chain, what has happened on it, and the signed extrinsics that wait
    to be included, by their accounts. *)
Record Node : Type := mkNode {
  chain : chain_t;
  happened : history;
  waiting : list (AccountId * call_t);
}.
Implicit Types (n : Node) (a b : AccountId) (h : history) (c : call_t).

(** What a node does by itself: it includes the first of the extrinsics of an
    account; whatever else the chain does, but for the account [a]; and, when the
    pool forgets extrinsics at all, it forgets one. *)
Inductive node_step (drops : Prop) a : Node -> Node -> Prop :=
| includes ch h l1 b c l2 : b ∉ l1.*1 -> runtime_call_ok raw (signed b) ch c ->
    node_step drops a (mkNode ch h (l1 ++ (b, c) :: l2))
      (mkNode (run (signed b) c ch).2 (h ++ [mkHappened (signed b) c (now (others ch))]) (l1 ++ l2))
| elsewhere ch h hs ch' l : step ch hs ch' ->
    Forall (fun x => ensure_signed (origin x) <> Ok a) hs ->
    node_step drops a (mkNode ch h l) (mkNode ch' (h ++ hs) l)
| forgets ch h l1 x l2 : drops ->
    node_step drops a (mkNode ch h (l1 ++ x :: l2)) (mkNode ch h (l1 ++ l2)).

(** *** The node as the client sees it

    Connecting, or the reason why not; the pool's refusal of an extrinsic; the
    errors of a call the chain does not have or cannot read; the hash of an
    extrinsic; and what the node does until it gets to the request. *)
Context (connect : string -> Node -> result SubxtError unit).
Context (refusal : AccountId -> call_t -> Node -> option SubxtError).
Context (no_such_call undecodable : SubxtError).
Context (hash_of : AccountId -> call_t -> Node -> Hash).
Context (progress : Node -> Node).
(** [PairSigner]: the account of a key pair. *)
Context (account : P -> AccountId).

(** The call as the runtime decodes it, by the module the client names. *)
Definition decode_runtime_call (module : string) (v : bytes) : option call_t :=
  if bool_decide (module = "Datalog"%string) then CallDatalog <$> decode_datalog_call v
  else if bool_decide (module = "Launch"%string) then CallLaunch <$> decode_launch_call v
  else None.

Definition enqueue a c n : Node := mkNode (chain n) (happened n) (waiting n ++ [(a, c)]).

Definition send_call (module : string) (signer : P) (v : option bytes) : SE Node SubxtError Hash :=
  fun n =>
    let n := progress n in
    match v with
    | None => (Err no_such_call, n)
    | Some v =>
        match decode_runtime_call module v with
        | None => (Err undecodable, n)
        | Some c =>
            match refusal (account signer) c n with
            | Some e => (Err e, n)
            | None => (Ok (hash_of (account signer) c n), enqueue (account signer) c n)
            end
        end
    end.

#[export] Instance node_subxt :
    Subxt Node unit P AccountId bytes bool SubxtError Hash unit := {
  build remote n := (connect remote n, progress n);
  send_record _ signer r := send_call "Datalog" signer (client_record r);
  send_launch _ signer robot param := send_call "Launch" signer (client_launch robot param);
  subscribe_events _ n := (Ok tt, progress n);
}.

(** ** What an account did *)

Definition calls_of a h : list call_t :=
  omap (fun x => match ensure_signed (origin x) with
                 | Ok b => if decide (b = a) then Some (call x) else None
                 | Err _ => None
                 end) h.
Definition replay_record (log : list bytes) c : list bytes :=
  match c with
  | CallDatalog (Datalog.call_record r) => log ++ [r]
  | CallDatalog Datalog.call_erase => []
  | _ => log
  end.
Definition call_launched c : option (AccountId * bool) :=
  match c with CallLaunch (Launch.call_launch robot param) => Some (robot, param) | _ => None end.

(** The records an account has on a chain, and the launches it asked for. *)
Definition records_of a n : list bytes := snd <$> Datalog.datalog (datalog (chain n)) a.
Definition launches_of a n : list (AccountId * bool) :=
  of_account a ((fun '(Launch.NewLaunch s r p) => (s, (r, p))) <$> Launch.events (launches (chain n))).

Lemma calls_of_app a h h' : calls_of a (h ++ h') = calls_of a h ++ calls_of a h'.
Proof. apply omap_app. Qed.
Lemma calls_of_others a h :
  Forall (fun x => ensure_signed (origin x) <> Ok a) h -> calls_of a h = [].
Proof.
  induction 1 as [|x h Hx _ IH]; [done|]. unfold calls_of in *; cbn.
  destruct (ensure_signed (origin x)) as [b|]; [|done]. rewrite decide_False; [done|congruence].
Qed.
Lemma history_records a h : snd <$> history_log h a = foldl replay_record [] (calls_of a h).
Proof.
  induction h as [|x h IH] using rev_ind; [done|].
  rewrite history_log_snoc, calls_of_app, foldl_app, <- IH.
  unfold replay_happened, calls_of; cbn. unfold replay_record.
  destruct (call x) as [c|[r|]|c|c]; destruct (ensure_signed (origin x)) as [b|]; cbn;
    try case_decide; cbn; rewrite ?fmap_app; done.
Qed.
Lemma history_launches a h :
  of_account a ((fun '(Launch.NewLaunch s r p) => (s, (r, p))) <$> omap happened_launch h) =
    omap call_launched (calls_of a h).
Proof.
  induction h as [|x h IH]; [done|]. unfold calls_of, happened_launch in *. cbn.
  destruct (ensure_signed (origin x)) as [b|]; [|by destruct (call x) as [| |[]|]].
  destruct (call x) as [c|c|[robot param]|c]; cbn; repeat case_decide; cbn; try done.
  f_equal. exact IH.
Qed.
End remote.

Section facts.
Context {Origin AccountId Sig W OtherCall P Hash SubxtError : Type}.
Context `{!FrameSystem Origin AccountId, !FrameSystemLaws Origin AccountId, !Verify Sig AccountId}.
Context `{!EqDecision AccountId, !Countable AccountId, !Metadata, !MetadataLaws}.
Context `{!Codec bytes, !Codec unit, !Codec AccountId, !Codec Z, !Codec bool}.
Context `{!CodecLaws bytes, !CodecLaws AccountId, !CodecLaws bool}.
Context (now : W -> Z).
Context (other_dispatch : Origin -> OtherCall -> @Chain AccountId W _ _ ->
  DispatchResult * @Chain AccountId W _ _).
Context (raw : Origin -> OtherCall -> bool).
Context (other_validate : OtherCall -> W -> option TransactionValidity).
Context (pallet_index : Z) `{!OtherPallets now other_dispatch raw}.

Abbreviation chain_t := (@Chain AccountId W _ _).
Abbreviation node_t := (@Node Origin AccountId Sig W OtherCall _ _).
Abbreviation call_t := (@RuntimeCall AccountId Sig OtherCall).
Abbreviation history := (list (@Happened Origin AccountId Sig OtherCall)).
Abbreviation reach := (chain_reachable now other_validate pallet_index other_dispatch raw).
Abbreviation steps drops a :=
  (rtc (node_step now other_dispatch raw other_validate pallet_index drops a)).
Implicit Types (n : node_t) (a b : AccountId) (h : history) (c : call_t).

(** Of the calls [acc] of the account, what has been dispatched since [h0] and what
    waits is, in order, a part, and all of them when nothing is dropped. *)
Definition carried (drops : Prop) a h0 (acc : list call_t) n : Prop :=
  reach (happened n) (chain n) /\
  exists l, calls_of a (happened n) = calls_of a h0 ++ l /\
    sublist (l ++ of_account a (waiting n)) acc /\
    (~ drops -> l ++ of_account a (waiting n) = acc).

Lemma calls_of_signed a b c t h :
  calls_of a (h ++ [mkHappened (signed b) c t]) =
    calls_of a h ++ (if decide (b = a) then [c] else []).
Proof using FrameSystemLaws0.
  rewrite calls_of_app. unfold calls_of at 2; cbn. rewrite ensure_signed_signed. by case_decide.
Qed.

Lemma carried_step drops a h0 acc n n' :
  node_step now other_dispatch raw other_validate pallet_index drops a n n' ->
  carried drops a h0 acc n -> carried drops a h0 acc n'.
Proof using FrameSystemLaws0.
  intros Hs (Hr & l & Hl & Hsub & Hall). destruct Hs as [ch h l1 b c l2 Hb Hc|ch h hs ch' w Hs Ho|ch h l1 x l2 Hd];
    unfold carried; cbn [chain happened waiting] in *.
  - split; [eapply chain_next; [exact Hr|]; apply step_origin; [|done]; by rewrite ensure_none_signed|].
    rewrite of_account_app in *. destruct (decide (b = a)) as [->|Hne].
    + rewrite of_account_cons_eq, (of_account_none a l1) in * by done.
      exists (l ++ [c]). rewrite calls_of_signed, decide_True by done.
      rewrite Hl, <- !(assoc_L (++)) in *. done.
    + rewrite of_account_cons_ne in * by done. exists l.
      by rewrite calls_of_signed, decide_False, app_nil_r.
  - split; [by eapply chain_next|]. exists l. rewrite calls_of_app, (calls_of_others a hs Ho).
    by rewrite app_nil_r.
  - split; [done|]. exists l. split; [done|]. rewrite !of_account_app in *.
    split; [|done]. etrans; [|exact Hsub]. apply sublist_app; [done|].
    apply sublist_app; [done|]. unfold of_account; cbn. destruct (decide _); [by apply sublist_cons|done].
Qed.

Lemma carried_steps drops a h0 acc n n' :
  steps drops a n n' -> carried drops a h0 acc n -> carried drops a h0 acc n'.
Proof using FrameSystemLaws0. induction 1; [done|]. intros. by eauto using carried_step. Qed.

Lemma carried_enqueue drops a h0 acc n c :
  carried drops a h0 acc n -> carried drops a h0 (acc ++ [c]) (enqueue a c n).
Proof.
  intros (Hr & l & Hl & Hsub & Hall). split; [done|]. exists l. split; [done|].
  unfold enqueue; cbn [waiting]. rewrite of_account_app, of_account_cons_eq, (assoc_L (++)). split.
  - by apply sublist_app.
  - intros Hd. by rewrite Hall.
Qed.

(** The calls of a list of one kind, and what they do: the records and the launches
    of the account. *)
Lemma carried_kind {X} (f : X -> call_t) drops a h0 (xs : list X) n :
  carried drops a h0 (f <$> xs) n ->
  reach (happened n) (chain n) /\
  exists l, calls_of a (happened n) = calls_of a h0 ++ (f <$> l) /\ sublist l xs /\
    (~ drops -> of_account a (waiting n) = [] -> f <$> l = f <$> xs).
Proof.
  intros (Hr & l & Hl & Hsub & Hall). split; [done|].
  assert (Hsub' : sublist l (f <$> xs)) by (etrans; [|exact Hsub]; by apply sublist_inserts_r).
  apply sublist_fmap_inv in Hsub' as (l' & -> & Hl'). exists l'. split; [done|]. split; [done|].
  intros Hd Hw. rewrite <- (Hall Hd), Hw. by rewrite app_nil_r.
Qed.

Lemma records_since a n0 n (rs : list bytes) :
  reach (happened n0) (chain n0) -> reach (happened n) (chain n) ->
  calls_of a (happened n) = calls_of a (happened n0) ++
    ((fun r => CallDatalog (Datalog.call_record r)) <$> rs) ->
  records_of a n = records_of a n0 ++ rs.
Proof using OtherPallets0 FrameSystemLaws0.
  intros Hr0 Hr Hl. unfold records_of.
  destruct (reachable_chain_ok _ _ _ _ _ _ _ Hr) as [_ _ _ -> _].
  destruct (reachable_chain_ok _ _ _ _ _ _ _ Hr0) as [_ _ _ -> _].
  rewrite !history_records, Hl, foldl_app. clear Hl. generalize (foldl replay_record [] (calls_of a (happened n0))).
  induction rs as [|r rs IH]; intros log; cbn; [by rewrite app_nil_r|].
  rewrite IH. by rewrite <- (assoc_L (++)).
Qed.
Lemma launches_since a n0 n (ls : list (AccountId * bool)) :
  reach (happened n0) (chain n0) -> reach (happened n) (chain n) ->
  calls_of a (happened n) = calls_of a (happened n0) ++
    ((fun p => CallLaunch (Launch.call_launch p.1 p.2)) <$> ls) ->
  launches_of a n = launches_of a n0 ++ ls.
Proof using OtherPallets0 FrameSystemLaws0.
  intros Hr0 Hr Hl. unfold launches_of.
  destruct (reachable_chain_ok _ _ _ _ _ _ _ Hr) as [_ _ _ _ ->].
  destruct (reachable_chain_ok _ _ _ _ _ _ _ Hr0) as [_ _ _ _ ->].
  rewrite !history_launches, Hl, omap_app. f_equal. clear Hl.
  induction ls as [|[r p] ls IH]; cbn; [done|]. by rewrite IH.
Qed.

(** *** What a submission does to the node *)
Context (connect : string -> node_t -> result SubxtError unit).
Context (refusal : AccountId -> call_t -> node_t -> option SubxtError).
Context (no_such_call undecodable : SubxtError).
Context (hash_of : AccountId -> call_t -> node_t -> Hash).
Context (progress : node_t -> node_t) (account : P -> AccountId).
Context (drops : Prop) (a : AccountId).
Hypothesis progress_steps : forall n, steps drops a n (progress n).

Abbreviation subxt :=
  (node_subxt connect refusal no_such_call undecodable hash_of progress account).

(** [f] submits [x] as the call [g x], or fails; either way the node may go on. *)
Definition submits {X E} (ok : X -> Prop) (f : X -> node_t -> result E Hash * node_t)
    (g : X -> call_t) : Prop :=
  forall x n r n', ok x -> f x n = (r, n') -> exists n1, steps drops a n n1 /\
    match r with Ok _ => n' = enqueue a (g x) n1 | Err _ => n' = n1 end.

Lemma submits_send {X E} ok (m : string) signer (v : X -> option bytes)
    (f : X -> node_t -> result E Hash * node_t) (g : X -> call_t) :
  account signer = a ->
  (forall x, ok x -> exists w, v x = Some w /\ decode_runtime_call m w = Some (g x)) ->
  (forall x n r n', f x n = (r, n') ->
     (exists e, r = Err e /\ n' = progress n) \/
     exists r', is_ok r' = is_ok r /\
       send_call refusal no_such_call undecodable hash_of progress account m signer (v x) (progress n)
         = (r', n')) ->
  submits ok f g.
Proof using progress_steps.
  intros Ha Hv Hf x n r n' Hx Hr.
  destruct (Hf x n r n' Hr) as [(e & -> & ->)|(r' & Hok & Hs)]; [by exists (progress n)|].
  exists (progress (progress n)). split; [etrans; apply progress_steps|].
  revert Hs. unfold send_call. destruct (Hv x Hx) as (w & -> & ->). rewrite Ha.
  destruct (refusal _ _ _); intros [= <- <-]; destruct r; cbn in *; done.
Qed.

Lemma carried_submissions {X E} ok (f : X -> node_t -> result E Hash * node_t) (g : X -> call_t)
    h0 xs ys n hashes n' :
  submits ok f g -> Forall ok ys -> submissions f ys n hashes n' ->
  carried drops a h0 (g <$> xs) n -> carried drops a h0 (g <$> (xs ++ ys)) n'.
Proof using progress_steps FrameSystemLaws0.
  intros Hf Hok Hs. revert xs Hok.
  induction Hs as [n|y ys n hash n1 hashes n' Hy _ IH]; intros xs Hok Hc; [by rewrite app_nil_r|].
  inversion_clear Hok as [|? ? Hoky Hokys].
  rewrite (assoc_L (++) xs [y] ys : xs ++ y :: ys = _). apply IH; [done|].
  destruct (Hf _ _ _ _ Hoky Hy) as (n0 & Hsteps & ->).
  rewrite fmap_app. apply carried_enqueue. by eapply carried_steps.
Qed.

(** Of the messages that were taken the hashes are printed, one each and in order, and
    all shown when the command ends well; only a standard output that fails may lack the
    hash of the last one. *)
Definition hashes_printed {X D Serial ChannelSend SecretString Protocol Ipfs Ios Ros} `{!Output D Ios}
    (show : Hash -> text) (sent : list X) (hashes : list Hash) (w : World node_t D)
    (r : result (IoError Serial ChannelSend SecretString Protocol Ipfs Ios Ros) unit)
    (w' : World node_t D) : Prop :=
  printed w' = printed w ++ ((fun hash => stdout_line (show hash)) <$> hashes) /\
  (r = Ok tt -> shown w' = concat (printed w')) /\
  (length hashes = length sent \/ ~ reliable D Ios /\ exists e, r = Err (EIo e)) /\
  (length hashes <= length sent <= S (length hashes))%nat.

(** A command that submits [msgs] one after the other, on a node where nothing of the
    account waits: what has been dispatched of them, however the node goes on. *)
Lemma command_carried {X E D Serial ChannelSend SecretString Ipfs Ios Ros} `{!Output D Ios} ok
    (wrap_error : E -> IoError Serial ChannelSend SecretString E Ipfs Ios Ros)
    (f : X -> node_t -> result E Hash * node_t) (g : X -> call_t) (show : Hash -> text)
    (msgs : list X) (w : World node_t D) r w' :
  submits ok f g -> Forall ok msgs ->
  reach (happened (node w)) (chain (node w)) -> of_account a (waiting (node w)) = [] ->
  forwarded wrap_error f show msgs w r w' ->
  exists sent rest hashes, msgs = sent ++ rest /\ (r = Ok tt -> rest = []) /\
    hashes_printed show sent hashes w r w' /\
    carried drops a (happened (node w)) (g <$> sent) (node w').
Proof using progress_steps FrameSystemLaws0.
  intros Hf Hok Hr Hw (Hs' & sent & rest & bs & n1 & k & -> & Hs & Hp & Hend).
  apply Forall_app in Hok as [Hok1 Hok2].
  assert (Hc : carried drops a (happened (node w)) (g <$> sent) n1).
  { apply (carried_submissions ok f g _ [] sent _ bs _ Hf Hok1 Hs).
    split; [done|]. exists []. rewrite Hw, !app_nil_r. done. }
  assert (Hrefused : forall x rest' e, rest = x :: rest' -> f x n1 = (Err e, node w') ->
    carried drops a (happened (node w)) (g <$> sent) (node w')).
  { intros x rest' e -> Hx. inversion_clear Hok2 as [|? ? Hokx _].
    destruct (Hf _ _ _ _ Hokx Hx) as (n2 & Hsteps & ->). by eapply carried_steps. }
  pose proof (submissions_length _ _ _ _ _ Hs) as Hlen.
  exists sent, rest, (take k bs). split; [done|]. unfold hashes_printed.
  destruct Hend as [(-> & -> & -> & -> & Hall)|[(-> & x & rest' & e & -> & Hx & ->)|
    (Hrel & Hk & (e & ->) & Hn)]].
  - rewrite take_ge in * by lia. split; [done|]. split; [|done].
    split; [done|]. split; [done|]. split; [by left|lia].
  - rewrite take_ge in * by lia. split; [done|]. split; [|by eapply Hrefused].
    split; [done|]. split; [done|]. split; [by left|lia].
  - split; [done|]. split.
    + split; [done|]. split; [done|]. rewrite length_take. split; [|lia].
      destruct (decide (length bs <= k)%nat); [left; lia|right; by eauto].
    + destruct Hn as [->|(x & rest' & e' & Hrest & Hx)]; [done|]. by eapply Hrefused.
Qed.

(** *** The two commands *)
Definition record_call (r : bytes) : call_t := CallDatalog (Datalog.call_record r).
Definition launch_call (p : AccountId * bool) : call_t := CallLaunch (Launch.call_launch p.1 p.2).
#[local] Instance record_call_inj : Inj (=) (=) record_call.
Proof. by intros ? ? [= ->]. Qed.
#[local] Instance launch_call_inj : Inj (=) (=) launch_call.
Proof. by intros [] [] [= -> ->]. Qed.

Context {IoError' TransportError ConnectionLimit BincodeError : Type}.
Context {Serial ChannelSend SecretString Ipfs Ios Ros : Type}.
Context (from_ss58check : string -> option AccountId).
Context (pair_from_string : string -> result SecretString P) (hex_encode : Hash -> text).

Abbreviation protocol_error :=
  (ProtocolError IoError' TransportError ConnectionLimit SubxtError BincodeError).
Definition node_datalog (signer : P) (remote : string) (data : bytes) :
    SE node_t protocol_error Hash :=
  Client.datalog_submit (Subxt0 := subxt) signer remote data.
Definition node_launch (signer : P) (remote robot : string) (signal : bool) :
    SE node_t protocol_error Hash :=
  Client.launch_submit (Subxt0 := subxt) from_ss58check signer remote robot signal.

(** Connecting and sending, with the errors of the protocol. *)
Lemma connected_send m signer v remote n (r : result protocol_error Hash) n' :
  (_ ← or_submit_failure (build (Subxt := subxt) remote);
   hash ← or_submit_failure
     (send_call refusal no_such_call undecodable hash_of progress account m signer v);
   mret hash) n = (r, n') ->
  (exists e, r = Err e /\ n' = progress n) \/
  exists r', is_ok r' = is_ok r /\
    send_call refusal no_such_call undecodable hash_of progress account m signer v (progress n)
      = (r', n').
Proof.
  unfold or_submit_failure, mbind, SE_bind, mret, SE_ret. cbn [build node_subxt].
  destruct (connect remote n) as [[]|e]; cbn [map_err].
  - destruct (send_call refusal _ _ _ _ _ _ _ _ (progress n)) as [[hash|e] n1] eqn:Hs;
      cbn [map_err]; intros [= <- <-]; right; eexists; (split; [|reflexivity]); done.
  - intros [= <- <-]. left. by eexists.
Qed.

Lemma datalog_submits signer remote : account signer = a ->
  submits (fun line => encodable (utf8 line : bytes)) (fun line => node_datalog signer remote (utf8 line))
    (fun line => CallDatalog (Datalog.call_record (utf8 line))).
Proof using Type*.
  intros Ha. apply (submits_send _ "Datalog" signer (fun line => client_record (utf8 line : bytes)));
    [done| |intros line n r n'; apply connected_send].
  intros line Hl. unfold client_record. rewrite name_record.
  rewrite (find_call_some datalog_calls "record" _ 0) by first [apply datalog_calls_nodup|done].
  eexists. split; [done|]. unfold decode_runtime_call, encode_RecordCall; cbn -[decode encode].
  by rewrite decode_encode.
Qed.
Lemma launch_submits signer remote robot ra :
  account signer = a -> from_ss58check robot = Some ra -> encodable ra ->
  submits (fun signal : bool => encodable signal) (fun signal => node_launch signer remote robot signal)
    (fun signal => CallLaunch (Launch.call_launch ra signal)).
Proof using Type*.
  intros Ha Hra Henc. apply (submits_send _ "Launch" signer (fun signal => client_launch ra signal));
    [done| |].
  - intros signal Hl. unfold client_launch. rewrite name_launch.
    rewrite (find_call_some launch_calls "launch" _ 0) by first [apply launch_calls_nodup|done].
    eexists. split; [done|]. unfold decode_runtime_call, encode_LaunchCall; cbn -[decode encode].
    by rewrite decode_encode.
  - intros signal n r n'. unfold node_launch, Client.launch_submit. rewrite Hra. apply connected_send.
Qed.

(** The node can include whatever waits. *)
Lemma includes_all n :
  Forall (fun c => forall ch : chain_t, runtime_call_ok raw (signed a) ch c) (of_account a (waiting n)) ->
  exists n', steps drops a n n' /\ of_account a (waiting n') = [].
Proof using Type*.
  remember (of_account a (waiting n)) as k eqn:Hk. revert n Hk.
  induction k as [|c k IH]; intros [ch h l] Hk Hok; [by exists (mkNode ch h l)|].
  symmetry in Hk. apply of_account_split in Hk as (l1 & l2 & Hl & Hl1 & Hl2). cbn in Hl. subst l.
  inversion_clear Hok as [|? ? Hc Hk].
  destruct (IH (mkNode (runtime_dispatch pallet_index other_dispatch (signed a) c ch).2
    (h ++ [mkHappened (signed a) c (now (others ch))]) (l1 ++ l2))) as (n' & Hs & Hn); [|done|].
  - cbn [waiting]. by rewrite of_account_app, of_account_none, Hl2.
  - exists n'. split; [|done]. eapply rtc_l; [|exact Hs]. by apply includes.
Qed.

(** From the node [n] on, what [read] shows of it is what was there [before], and then,
    in order, a part of [xs]; the node can come to a state in which nothing of the
    account waits, and that has all of [xs] unless the pool dropped some. *)
Definition arrives {X} (read : node_t -> list X) (before xs : list X) n : Prop :=
  (exists n', steps drops a n n' /\ of_account a (waiting n') = []) /\
  forall n', steps drops a n n' ->
    exists l, read n' = before ++ l /\ sublist l xs /\
      (~ drops -> of_account a (waiting n') = [] -> l = xs).

Lemma carried_arrives {X} (f : X -> call_t) `{!Inj (=) (=) f} (read : node_t -> list X) n0 xs n :
  (forall x (ch : chain_t), runtime_call_ok raw (signed a) ch (f x)) ->
  (forall n' l, reach (happened n') (chain n') ->
     calls_of a (happened n') = calls_of a (happened n0) ++ (f <$> l) -> read n' = read n0 ++ l) ->
  carried drops a (happened n0) (f <$> xs) n -> arrives read (read n0) xs n.
Proof using Type*.
  intros Hok Hread Hc. split.
  - apply includes_all. apply Forall_forall. intros c Hin.
    destruct Hc as (_ & l & _ & Hsub & _).
    assert (Hf : c ∈ f <$> xs).
    { eapply elem_of_sublist; [|exact Hsub]. apply elem_of_app. by right. }
    apply list_elem_of_fmap in Hf as (x & -> & _). intros ch. apply Hok.
  - intros n' Hn. apply (carried_steps _ _ _ _ _ _ Hn) in Hc.
    apply carried_kind in Hc as (Hr & l & Hl & Hsub & Hall).
    exists l. split; [by apply Hread|]. split; [done|].
    intros Hd Hw. by apply (inj (fmap f)), Hall.
Qed.

(** C6: from a line of the standard input to the storage of a pallet.  On a node that
    runs the chain, where nothing of the account waits, [io write datalog] submits
    the lines in order up to the first refusal and prints one hash for each that was
    taken (a standard output that fails ends the command, and may lack the last
    hash); however the node goes on (it includes extrinsics, other accounts and
    pallets do what they like), the records of the account are those it had and then,
    in order, lines of these and nothing else, all of them once nothing waits and
    unless the pool dropped some.  [io write launch] in the same way adds launches of
    the robot, [true] for a line [ON] and [false] for any other. *)
Theorem commands_reach_chain {D} `{!Output D Ios, !OutputLaws D Ios} remote suri robot ra pair lines
    pace (w : World node_t D) :
  pair_from_string suri = Ok pair -> account pair = a ->
  from_ss58check robot = Some ra -> encodable ra -> encodable true -> encodable false ->
  Forall (fun line => encodable (utf8 line : bytes)) (until_error lines) ->
  reach (happened (node w)) (chain (node w)) -> of_account a (waiting (node w)) = [] ->
  (forall r w', write_datalog (Serial := Serial) (ChannelSend := ChannelSend) (Ipfs := Ipfs)
       (Io := Ios) (Ros := Ros) pair_from_string hex_encode node_datalog remote suri lines pace w = (r, w') ->
     exists sent rest hashes, until_error lines = sent ++ rest /\ (r = Ok tt -> rest = []) /\
       hashes_printed hex_encode sent hashes w r w' /\
       arrives (records_of a) (records_of a (node w)) (utf8 <$> sent) (node w')) /\
  (forall r w', write_launch (Serial := Serial) (ChannelSend := ChannelSend) (Ipfs := Ipfs)
       (Io := Ios) (Ros := Ros) pair_from_string hex_encode node_launch remote suri robot lines pace w = (r, w') ->
     exists sent rest hashes, until_error lines = sent ++ rest /\ (r = Ok tt -> rest = []) /\
       hashes_printed hex_encode sent hashes w r w' /\
       arrives (launches_of a) (launches_of a (node w))
         ((fun line => (ra, bool_decide (line = on_text))) <$> sent) (node w')).
Proof using Type*.
  intros Hp Ha Hra Hera Het Hef Hlines Hr Hw.
  pose proof (io_write_spec (Serial := Serial) (ChannelSend := ChannelSend) (Ipfs := Ipfs) (Io := Ios)
    (Ros := Ros) pair_from_string hex_encode node_datalog node_launch
    (fun _ _ n => (Ok [], n)) (fun _ _ n => (Ok [], n)) remote suri robot lines pace w)
    as (_ & Hspec & _). destruct (Hspec pair Hp) as [Hd Hl]. clear Hspec.
  split; intros r w' Hrun.
  - rewrite Hrun in Hd.
    apply (command_carried _ _ _ _ _ _ _ _ _ (datalog_submits pair remote Ha) Hlines Hr Hw) in Hd
      as (sent & rest & hashes & Hsplit & Hrest & Hpr & Hc).
    exists sent, rest, hashes. split; [done|]. split; [done|]. split; [done|].
    apply (carried_arrives record_call); [done| |by rewrite <- list_fmap_compose].
    intros n' l Hr' Hl'. by apply records_since.
  - rewrite Hrun in Hl.
    apply (command_carried _ _ _ _ _ _ _ _ _ (launch_submits pair remote robot ra Ha Hra Hera)) in Hl
      as (sent & rest & hashes & Hsplit & Hrest & Hpr & Hc); [| |done..].
    2: { apply Forall_forall. by intros [] _. }
    apply fmap_app_inv in Hsplit as (sent' & rest' & -> & -> & Hsplit).
    exists sent', rest', hashes. split; [done|]. split; [intros Hok; by apply Hrest, fmap_nil_inv in Hok|].
    split; [by unfold hashes_printed in *; rewrite length_fmap in Hpr|].
    rewrite <- list_fmap_compose in Hc.
    apply (carried_arrives launch_call); [done| |by rewrite <- list_fmap_compose].
    intros n' l Hr' Hl'. by apply launches_since.
Qed.
End facts.

(** ** [io read launch] on the node

    The events of the launch pallet since the subscription, as the chain encodes them,
    and as the client that reads them prints them. *)
Section reading.
Context {Origin AccountId Sig W OtherCall : Type}.
Context `{!FrameSystem Origin AccountId, !FrameSystemLaws Origin AccountId, !Verify Sig AccountId}.
Context `{!EqDecision AccountId, !Countable AccountId, !Metadata, !MetadataLaws}.
Context `{!Codec bytes, !Codec unit, !Codec AccountId, !Codec Z, !Codec bool}.
Context `{!CodecLaws AccountId, !CodecLaws bool}.
Context (now : W -> Z).
Context (other_dispatch : Origin -> OtherCall -> @Chain AccountId W _ _ ->
  DispatchResult * @Chain AccountId W _ _).
Context (raw : Origin -> OtherCall -> bool).
Context (other_validate : OtherCall -> W -> option TransactionValidity).
Context (pallet_index : Z) `{!OtherPallets now other_dispatch raw}.
Context (to_string : AccountId -> text) (drops : Prop) (a : AccountId).

Abbreviation node_t := (@Node Origin AccountId Sig W OtherCall _ _).
Abbreviation steps := (rtc (node_step now other_dispatch raw other_validate pallet_index drops a)).
Abbreviation reach := (chain_reachable now other_validate pallet_index other_dispatch raw).
Implicit Types n : node_t.

(** The event as the client has it, and the launch in it. *)
Definition client_event (e : @Launch.Event AccountId bool) : @NewLaunchEvent AccountId bool :=
  match e with Launch.NewLaunch s r p => {| nl_sender := s; nl_robot := r; nl_param := p |} end.

Definition launch_encodable (e : @Launch.Event AccountId bool) : Prop :=
  match e with Launch.NewLaunch s r p => encodable s /\ encodable r /\ encodable p end.

(** What the subscription gives for the events of the node, one after the other. *)
Definition subscription_of {SubxtError} (es : list (@Launch.Event AccountId bool)) :
    list (option (result SubxtError bytes)) :=
  (fun e => Some (Ok (encode_launch_event e))) <$> es.

Lemma launch_source_events {SubxtError} (es : list (@Launch.Event AccountId bool)) :
  Forall launch_encodable es ->
  launch_source read_NewLaunch (subscription_of (SubxtError := SubxtError) es) =
    (client_event <$> es, None).
Proof using Type*.
  induction 1 as [|[s r p] es (Hs & Hr & Hp) _ IH]; [done|].
  unfold subscription_of in *. cbn [fmap list_fmap launch_source]. rewrite IH.
  unfold read_NewLaunch at 1. rewrite name_new_launch. cbn [encode_launch_event].
  rewrite (find_event_some launch_events "NewLaunch" _ 0) by first [apply launch_events_nodup|done].
  cbn -[encode decode]. unfold decode_NewLaunchEvent. rewrite decode_encode by done.
  cbn. by f_equal.
Qed.

Lemma node_step_history n n' :
  node_step now other_dispatch raw other_validate pallet_index drops a n n' ->
  reach (happened n) (chain n) ->
  reach (happened n') (chain n') /\ exists hs, happened n' = happened n ++ hs.
Proof using FrameSystemLaws0.
  destruct 1 as [ch h l1 b c l2 Hb Hc|ch h hs ch' l Hs Ho|]; cbn [chain happened]; intros Hr.
  - split; [|by eexists]. eapply chain_next; [exact Hr|]. apply step_origin; [|done].
    by rewrite ensure_none_signed.
  - split; [by eapply chain_next|by eexists].
  - split; [done|]. exists []. by rewrite app_nil_r.
Qed.
Lemma steps_history n n' : steps n n' -> reach (happened n) (chain n) ->
  reach (happened n') (chain n') /\ exists hs, happened n' = happened n ++ hs.
Proof using FrameSystemLaws0.
  induction 1 as [n|n n1 n' Hs _ IH]; intros Hr; [split; [done|]; exists []; by rewrite app_nil_r|].
  apply node_step_history in Hs as (Hr1 & hs & Hh); [|done].
  destruct (IH Hr1) as (Hr' & hs' & Hh'). split; [done|].
  exists (hs ++ hs'). by rewrite Hh', Hh, (assoc_L (++)).
Qed.

End reading.
