(* ===== verification/Instances.v ===== *)
(** * Concrete instances

    A signature scheme, codecs and states on which the development is run: the
    hypotheses of its theorems hold here, and its definitions evaluate. *)
From stdpp Require Import prelude gmap strings list.
From Stdlib Require Import ZArith Lia.
From S2P Require Import Prelude Frame Codec Currency Agreement Liability.
Import Ledger.
Local Open Scope Z_scope.

Module Toy.
(** Accounts and indices are 64-bit integers; tasks and reports are byte
    strings. *)
#[export] Instance int64 : Codec Z := Demo.int_codec 8.
#[export] Instance int64_laws : CodecLaws Z := Demo.int_codec_laws 8.
#[export] Instance byte_string : Codec bytes := Demo.bytes_codec.
#[export] Instance byte_string_laws : CodecLaws bytes := Demo.bytes_codec_laws.

#[export] Instance parameter_codec : Codec (technical_parameter PureIPFS) := Demo.bytes_codec.
#[export] Instance parameter_laws : CodecLaws (technical_parameter PureIPFS) :=
  Demo.bytes_codec_laws.
#[export] Instance report_codec : Codec (technical_report PureIPFS) := Demo.bytes_codec.
#[export] Instance free_codec : Codec (economical_parameter Communism) := unit_codec.
#[export] Instance free_laws : CodecLaws (economical_parameter Communism) := unit_codec_laws.
#[export] Instance price_codec : Codec (economical_parameter OpenMarket) := Demo.int_codec 8.
#[export] Instance price_laws : CodecLaws (economical_parameter OpenMarket) :=
  Demo.int_codec_laws 8.

(** A signature is the account that signed and what it signed; a key is its
    account. *)
Definition Signature : Type := Z * bytes.
#[export] Instance toy_verify : Verify Signature Z := fun s m a => bool_decide (s = (a, m)).
#[export] Instance toy_pair : Pair Z Signature Z := {
  pair_sign p m := (p, m);
  pair_account p := p;
}.
#[export] Instance toy_pair_laws : PairLaws Z Signature Z.
Proof. intros p m. unfold verify, toy_verify. by apply bool_decide_true. Qed.

(** Agreements without a price, and with one in a ledger. *)
Definition Gift : Type := SignedLiability PureIPFS Communism Z.
Definition Sale : Type := SignedLiability PureIPFS OpenMarket Z.
Definition Balances : Type := gmap Z (N * N).

Definition free_state : Type := @State Z unit Z PureIPFS Communism _ _.
Definition paid_state : Type := @State Z Balances Z PureIPFS OpenMarket _ _.

Definition task : technical_parameter PureIPFS := [1; 2].
Definition work : technical_report PureIPFS := [3].
Definition gratis : economical_parameter Communism := tt.
Definition price : economical_parameter OpenMarket := 30.

(** The proofs of the two parties, 1 and 2, and of the report on liability 0. *)
Definition terms_proof (a : Z) : Signature := (a, encode (task, gratis)).
Definition paid_proof (a : Z) : Signature := (a, encode (task, price)).
Definition report_proof : Signature := (2, encode (0, work)).

(** A pallet that is used: a liability created, and then reported. *)
Definition pallet : Z := 23.
Definition empty : free_state := genesis tt.
Definition created : free_state :=
  (create (Self := Gift) pallet (none : RawOrigin Z) task gratis 1 2 (terms_proof 1) (terms_proof 2)
    empty).2.
Definition reported : free_state :=
  (finalize (Self := Gift) (AccountId := Z) pallet (none : RawOrigin Z) 0 work report_proof
    created).2.

Definition bank : Balances := {[1 := (100, 0)%N; 2 := (5, 0)%N]}.
Definition market : paid_state := genesis bank.
Definition hired : paid_state :=
  (create (Self := Sale) pallet (none : RawOrigin Z) task price 1 2 (paid_proof 1) (paid_proof 2)
    market).2.
Definition paid : paid_state :=
  (finalize (Self := Sale) (AccountId := Z) pallet (none : RawOrigin Z) 0 work report_proof
    hired).2.

(** They run. *)
Example created_runs : latest_index created = 1.
Proof. reflexivity. Qed.
Example reported_runs : is_finalized reported 0 = true /\ report_of reported 0 = [1; 0; 0; 0; 3].
Proof. split; reflexivity. Qed.
Example paid_runs :
  free_of (world paid) 1 = 70 /\ free_of (world paid) 2 = 35 /\
  reserved_of (world hired) 1 = 30 /\ reserved_of (world paid) 1 = 0.
Proof. repeat split; reflexivity. Qed.
End Toy.
