(* ===== verification/LiabilityExamples.v ===== *)
(** * The liability theorems on concrete pallets

    Each property of the liability pallet applied to the pallets of
    [Instances], where its hypotheses are evaluated. *)
From stdpp Require Import prelude gmap strings list list_numbers.
From Stdlib Require Import ZArith Lia.
From S2P Require Import Prelude Frame Codec Currency Agreement Liability.
From S2P Require Import LiabilityFacts SignedPallet Escrow LiabilityLife Instances.
Import Ledger Toy.
Local Open Scope Z_scope.

Abbreviation gift_pallet :=
  (reachable (Origin := RawOrigin Z) (Sig := Signature) (T := PureIPFS) (E := Communism)
    pallet (fun _ _ : unit => False)).
Abbreviation sale_pallet :=
  (reachable (Origin := RawOrigin Z) (Sig := Signature) (T := PureIPFS) (E := OpenMarket)
    pallet (reserves_kept (W := Balances) (AccountId := Z))).

Lemma terms_encodable : encodable (task, gratis, 1, 2) /\ encodable (task, price, 1, 2).
Proof. cbn. unfold price. lia. Qed.

(** No bytes are no liability, and prices are not negative. *)
Lemma gift_empty : (decode [] : option (SignedLiability PureIPFS Communism Z)) = None.
Proof. reflexivity. Qed.
Lemma sale_empty : (decode [] : option (SignedLiability PureIPFS OpenMarket Z)) = None.
Proof. reflexivity. Qed.
Lemma price_unsigned (e : economical_parameter OpenMarket) : encodable e -> 0 <= e.
Proof. by intros []. Qed.

(** What is stored under index 0. *)
Lemma reported_liability :
  (decode (liability_of reported 0) : option (SignedLiability PureIPFS Communism Z)) =
    Some (signed_new task gratis 1 2).
Proof. vm_compute. reflexivity. Qed.
Lemma hired_liability :
  (decode (liability_of hired 0) : option (SignedLiability PureIPFS OpenMarket Z)) =
    Some (signed_new task price 1 2).
Proof. vm_compute. reflexivity. Qed.

(** The dispatches that made these states were accepted. *)
Lemma created_run :
  create (Self := Gift) pallet (none : RawOrigin Z) task gratis 1 2 (terms_proof 1)
    (terms_proof 2) empty = (Ok tt, created).
Proof. vm_compute. reflexivity. Qed.
Lemma reported_run :
  finalize (Self := Gift) (AccountId := Z) pallet (none : RawOrigin Z) 0 work report_proof
    created = (Ok tt, reported).
Proof. vm_compute. reflexivity. Qed.
Lemma paid_run :
  finalize (Self := Sale) (AccountId := Z) pallet (none : RawOrigin Z) 0 work report_proof
    hired = (Ok tt, paid).
Proof. vm_compute. reflexivity. Qed.

Lemma reported_reachable : gift_pallet reported.
Proof.
  apply (reach_dispatch pallet _ created none (call_finalize 0 work report_proof)); [|done].
  apply (reach_dispatch pallet _ empty none
    (call_create task gratis 1 2 (terms_proof 1) (terms_proof 2))); [constructor|].
  split; [apply terms_encodable|done].
Qed.

Lemma hired_reachable : sale_pallet hired.
Proof.
  apply (reach_dispatch pallet _ market none
    (call_create task price 1 2 (paid_proof 1) (paid_proof 2))); [constructor|].
  split; [apply terms_encodable|done].
Qed.

Lemma lifecycle_witness :
  exists st1 st2,
    create (Self := Gift) pallet (none : RawOrigin Z) task gratis 1 2 (terms_proof 1)
      (terms_proof 2) empty = (Ok tt, st1) /\
    finalize (Self := Gift) (AccountId := Z) pallet (none : RawOrigin Z) 0 work report_proof
      st1 = (Ok tt, st2) /\
    is_finalized st2 0 = true.
Proof.
  destruct (lifecycle (Origin := RawOrigin Z) (Sig := Signature) (T := PureIPFS)
    (E := Communism) pallet 1 2 task gratis work empty tt tt)
    as (st1 & st2 & H1 & _ & _ & H2 & H3 & _).
  - apply terms_encodable.
  - reflexivity.
  - reflexivity.
  - reflexivity.
  - exists st1, st2. exact (conj H1 (conj H2 H3)).
Defined.

Lemma reachable_storage_witness :
  (forall i, is_Some (LiabilityOf reported !! i) <-> 0 <= i < 1) /\
  (exists l : Gift, decode (liability_of reported 0) = Some l) /\
  is_Some (ReportOf reported !! 0).
Proof.
  destruct (reachable_storage (Origin := RawOrigin Z) (Sig := Signature) (T := PureIPFS)
    (E := Communism) (AccountId := Z) (W := unit) pallet
    (fun _ _ : unit => False) gift_empty reported reported_reachable) as (H1 & H2 & _ & H4).
  split; [exact H1|]. split.
  - destruct (H2 0 (liability_of reported 0) eq_refl) as (l & _ & Hl). exists l. exact Hl.
  - apply H4. reflexivity.
Defined.

Lemma reachable_authentic_witness :
  (exists sig : Signature, verify sig (encode (task, gratis)) 1 = true) /\
  (exists sig : Signature, verify sig (encode (0, work)) 2 = true).
Proof.
  destruct (reachable_authentic (Origin := RawOrigin Z) (Sig := Signature) (T := PureIPFS)
    (E := Communism) (AccountId := Z) (W := unit) pallet
    (fun _ _ : unit => False) gift_empty reported 0 reported_reachable) as [H1 H2].
  split.
  - destruct (H1 task gratis 1 2) as (_ & H & _); [apply list_elem_of_here|exact H].
  - destruct (H2 work) as (_ & l & Hl & H).
    + apply list_elem_of_further, list_elem_of_here.
    + pose proof (eq_trans (eq_sym reported_liability) Hl) as Hq. injection Hq as <-. exact H.
Defined.

Lemma reachable_log_witness :
  omap created_index (events reported) = [0] /\ NoDup (omap reported_index (events reported)) /\
  0 ∈ omap reported_index (events reported).
Proof.
  destruct (reachable_log (Origin := RawOrigin Z) (Sig := Signature) (T := PureIPFS)
    (E := Communism) (AccountId := Z) (W := unit) pallet
    (fun _ _ : unit => False) gift_empty reported reported_reachable) as (H1 & H2 & H3).
  split; [exact H1|]. split; [exact H2|]. apply H3. reflexivity.
Defined.

(** The agreement of 30 is paid from the 30 reserved by account 1. *)
Lemma open_market_pays_in_full_witness :
  escrow hired 1 <= reserved_of (world hired) 1 /\
  exists l : Sale, decode (liability_of hired 0) = Some l /\ economics l = 30 /\
    moved (world hired) (world paid) (promisee l) (promisor l) 30.
Proof.
  destruct (open_market_pays_in_full (Origin := RawOrigin Z) (Sig := Signature)
    (T := PureIPFS) (W := Balances) (AccountId := Z) pallet sale_empty
    price_unsigned hired hired_reachable) as [H1 H2].
  split; [apply H1|].
  destruct (H2 none 0 work report_proof paid paid_run) as (l & Hl & Hm).
  exists l. split; [exact Hl|].
  pose proof (eq_trans (eq_sym hired_liability) Hl) as Hq. injection Hq as <-.
  split; [reflexivity|exact Hm].
Defined.

Lemma create_functional_witness :
  liability_of created 0 = encode (signed_new task gratis 1 2 : Gift) /\
  latest_index created = 1.
Proof.
  destruct (create_functional (Self := Gift) pallet (none : RawOrigin Z) task gratis 1 2
    (terms_proof 1) (terms_proof 2) empty created (Ok tt) created_run) as [_ H].
  destruct (H eq_refl) as (H1 & H2 & _). split; [exact H2|exact H1].
Defined.

Lemma finalize_functional_witness :
  is_finalized reported 0 = true /\ report_of reported 0 = encode work.
Proof.
  destruct (finalize_functional (Self := Gift) (AccountId := Z) pallet (none : RawOrigin Z) 0
    work report_proof created reported (Ok tt) reported_run) as [_ H].
  destruct (H eq_refl) as (H1 & H2 & _). split; [exact H1|exact H2].
Defined.

Lemma history_immutable_witness :
  liability_of reported 0 = liability_of created 0 /\
  exists evs, events reported = events created ++ evs.
Proof.
  destruct (history_immutable (Origin := RawOrigin Z) (Sig := Signature) (T := PureIPFS)
    (E := Communism) pallet created none (call_finalize 0 work report_proof) 0)
    as (H1 & _ & H3); [split; [lia|reflexivity]|].
  split; [exact H1|exact H3].
Defined.

(** The promisor's proof in the place of the promisee's. *)
Lemma failed_dispatch_unchanged_witness :
  (create (Self := Gift) pallet (none : RawOrigin Z) task gratis 1 2 (terms_proof 2)
    (terms_proof 2) created).2 = created.
Proof.
  exact (failed_dispatch_unchanged (Self := Gift) pallet (none : RawOrigin Z)
    (call_create task gratis 1 2 (terms_proof 2) (terms_proof 2)) created _
    (ModuleError pallet 1) eq_refl).
Defined.

Lemma validated_create_witness :
  (create (Self := Sale) pallet (none : RawOrigin Z) task price 2 1 (paid_proof 2)
    (paid_proof 1) market).1 = Err (Other "InsufficientBalance").
Proof.
  destruct (validated_create (Self := Sale) (Origin := RawOrigin Z) pallet task price 2 1
    (paid_proof 2) (paid_proof 1) market) as [[_ H]|[H _]]; [exact H|discriminate H].
Defined.

Lemma validated_finalize_witness :
  is_ok (validate_unsigned (Self := Gift) (AccountId := Z) reported
    (call_finalize 0 work report_proof)) = true /\
  finalize (Self := Gift) (AccountId := Z) pallet (none : RawOrigin Z) 0 work report_proof
    reported = (Err (Other "already finalized"), reported).
Proof.
  assert (Hv : is_ok (validate_unsigned (Self := Gift) (AccountId := Z) reported
    (call_finalize 0 work report_proof)) = true) by (vm_compute; reflexivity).
  assert (Hf : is_finalized reported 0 = true) by reflexivity.
  split; [exact Hv|].
  destruct (validated_finalize (Self := Gift) (Origin := RawOrigin Z) (AccountId := Z) pallet 0
    work report_proof reported Hv) as [_ H].
  exact (proj1 (H Hf)).
Defined.

(** The agreement just reported on is created again. *)
Lemma communism_replay_witness :
  exists st3,
    create (Self := Gift) pallet (none : RawOrigin Z) task gratis 1 2 (terms_proof 1)
      (terms_proof 2) reported = (Ok tt, st3) /\
    latest_index st3 = 2 /\ liability_of st3 1 = liability_of created 0.
Proof.
  destruct (communism_replay (Origin := RawOrigin Z) (T := PureIPFS) pallet none task gratis 1 2
    (terms_proof 1) (terms_proof 2) empty created created_run reported)
    as (st3 & H1 & H2 & H3 & _).
  exists st3. exact (conj H1 (conj H2 H3)).
Defined.

Lemma market_failed_finish_inverted_witness :
  exists w, market_on_finish (T := PureIPFS) (W := Balances) (signed_new task price 1 2) false
    (world hired) = (Err (Other "reserved less than expected"), w).
Proof.
  destruct (market_failed_finish_inverted (T := PureIPFS) (W := Balances) (AccountId := Z)
    (signed_new task price 1 2) (world hired) eq_refl) as [H _].
  destruct H as (w & Hw & _); [vm_compute; discriminate|]. exists w. exact Hw.
Defined.

(** The same terms the other way round make another tag. *)
Lemma create_tag_identifies_witness :
  exists v v',
    validate_unsigned (Self := Gift) empty
      (call_create task gratis 1 2 (terms_proof 1) (terms_proof 2)) = Ok v /\
    validate_unsigned (Self := Gift) reported
      (call_create task gratis 2 1 (terms_proof 2) (terms_proof 1)) = Ok v' /\
    provides v <> provides v'.
Proof.
  eexists _, _. split; [reflexivity|]. split; [reflexivity|]. intros H.
  apply (create_tag_identifies (Sig := Signature) (T := PureIPFS) (E := Communism) empty
    reported task gratis 1 2 task gratis 2 1 (terms_proof 1) (terms_proof 2) (terms_proof 2)
    (terms_proof 1) _ _) in H; [|cbn; lia|cbn; lia|reflexivity|reflexivity].
  destruct H as (_ & _ & H & _). discriminate H.
Defined.
