(* ===== verification/ProtocolExamples.v ===== *)
(** * The datalog, client and pubsub theorems on concrete instances

    A swarm that keeps the list of its topics, a chain whose metadata is the
    list of its call names, and states the theorems are applied to. *)
From stdpp Require Import prelude gmap strings list.
From Stdlib Require Import ZArith Lia Sorted.
From S2P Require Import Prelude Frame Codec Datalog Launch Client Gossip.
From S2P Require Import GossipFacts Discovery.
Local Open Scope Z_scope.

Module ToyLog.
Abbreviation log_state := (@Datalog.State Z Z bytes _ _).

(** Account 7 records twice, and account 8 records and erases. *)
Definition start : log_state := Datalog.genesis 10.
Definition act (o : RawOrigin Z) (c : @Datalog.Call bytes) (st : log_state) : log_state :=
  (Datalog.dispatch o c st).2.
Definition used : log_state :=
  act (signed 8) Datalog.call_erase (act (signed 8) (Datalog.call_record [9])
    (act (signed 7) (Datalog.call_record [2]) (Datalog.set_clock 12
      (act (signed 7) (Datalog.call_record [1]) start)))).

Lemma used_reachable : Datalog.reachable (Origin := RawOrigin Z) Z.le used.
Proof. repeat first [constructor; [|done] | constructor]. Qed.

Lemma datalog_refines_witness :
  Datalog.datalog used 7 = Datalog.replay (Datalog.events used) 7 /\
  Datalog.datalog used 7 = [(10, [1]); (12, [2])].
Proof.
  split; [|reflexivity].
  exact (Datalog.datalog_refines (Origin := RawOrigin Z) Z.le used 7 used_reachable).
Defined.

Lemma calls_functional_witness :
  Datalog.datalog (act (signed 7) Datalog.call_erase used) 7 = [] /\
  Datalog.dispatch (none : RawOrigin Z) Datalog.call_erase used = (Err BadOrigin, used).
Proof.
  pose proof (Datalog.calls_functional (signed 7 : RawOrigin Z) Datalog.call_erase used
    (Ok tt) (act (signed 7) Datalog.call_erase used) eq_refl) as (_ & H & _).
  split; [|reflexivity]. exact (f_equal fst H).
Defined.

Lemma datalog_sorted_witness : Sorted Z.le ((Datalog.datalog used 7).*1 ++ [12]).
Proof. exact (Datalog.datalog_sorted (Origin := RawOrigin Z) used 7 used_reachable). Defined.
End ToyLog.

Module ToyClient.
Local Open Scope string_scope.
(** The names the derive macros give, and a metadata that is a list of names. *)
#[export] Instance names : Metadata := {
  call_function s :=
    if decide (s = "RecordCall") then "record"
    else if decide (s = "EreaseCall") then "erease"
    else if decide (s = "LaunchCall") then "launch" else s;
  event_name s :=
    if decide (s = "NewRecordEvent") then "NewRecord"
    else if decide (s = "ErasedEvent") then "Erased"
    else if decide (s = "NewLaunchEvent") then "NewLaunch" else s;
  find_call l f args := (fun p => Z.of_nat p.1 :: args) <$> list_find (f =.) l;
  find_event l f v :=
    match v with
    | i :: args => if decide (l !! Z.to_nat i = Some f) then Some args else None
    | [] => None
    end;
}.

#[export] Instance names_laws : MetadataLaws.
Proof.
  split; try reflexivity.
  - intros l f args i Hl Hi. cbn.
    destruct (list_find (f =.) l) as [[j g]|] eqn:Hf.
    + apply list_find_Some in Hf as (Hj & <- & _). cbn.
      by rewrite (NoDup_lookup _ _ _ _ Hl Hi Hj).
    + apply list_find_None in Hf. rewrite Forall_forall in Hf.
      destruct (Hf f); [by eapply list_elem_of_lookup_2|done].
  - intros l f args Hf. cbn. destruct (list_find (f =.) l) as [[j g]|] eqn:Hj; [|done].
    apply list_find_Some in Hj as (Hj & <- & _).
    destruct Hf. by eapply list_elem_of_lookup_2.
  - intros l f args i Hl Hi. cbn. rewrite Nat2Z.id. by rewrite decide_True.
  - intros l f args i g Hl Hi Hg. cbn. rewrite Nat2Z.id. rewrite decide_False; [done|].
    congruence.
Qed.

#[local] Instance int64 : Codec Z := Demo.int_codec 8.
#[local] Instance int64_laws : CodecLaws Z := Demo.int_codec_laws 8.
#[local] Instance byte_string : Codec bytes := Demo.bytes_codec.
#[local] Instance byte_string_laws : CodecLaws bytes := Demo.bytes_codec_laws.

Lemma client_agrees_witness :
  client_record [1; 2]%Z = Some [0; 2; 0; 0; 0; 1; 2]%Z /\
  (client_record [1; 2]%Z ≫= decode_datalog_call) = Some (Datalog.call_record [1; 2]%Z).
Proof.
  split; [reflexivity|].
  refine (proj1 (client_agrees (AccountId := Z) (Moment := Z) (Rec := bytes) (Param := Z)
    [1; 2]%Z 5%Z 6%Z 7%Z 1%Z _ _ _ _ _)); cbn; lia.
Defined.
End ToyClient.

Module ToySwarm.
(** A swarm on addresses that are numbers: where it listens, whom it dialled,
    its topics, and what it published. *)
Record swarm : Type := mkSwarm {
  sw_listeners : list Z;
  sw_dialled : list Z;
  sw_topics : list string;
  sw_published : list (string * bytes);
}.

#[export] Instance toy_swarm : Swarm swarm Z := {
  listen_on a s := (true,
    mkSwarm (sw_listeners s ++ [a]) (sw_dialled s) (sw_topics s) (sw_published s));
  swarm_listeners := sw_listeners;
  dial_addr a s := (true,
    mkSwarm (sw_listeners s) (sw_dialled s ++ [a]) (sw_topics s) (sw_published s));
  gossip_subscribe t s :=
    if bool_decide (t ∈ sw_topics s) then (false, s)
    else (true, mkSwarm (sw_listeners s) (sw_dialled s) (t :: sw_topics s) (sw_published s));
  gossip_unsubscribe t s := (bool_decide (t ∈ sw_topics s),
    mkSwarm (sw_listeners s) (sw_dialled s) (filter (fun u => u <> t) (sw_topics s))
      (sw_published s));
  gossip_publish t m s :=
    mkSwarm (sw_listeners s) (sw_dialled s) (sw_topics s) (sw_published s ++ [(t, m)]);
  subscribed s t := bool_decide (t ∈ sw_topics s);
}.

#[export] Instance toy_swarm_laws : SwarmLaws swarm Z.
Proof.
  split; try reflexivity.
  - intros t s. cbn. by destruct (bool_decide (t ∈ sw_topics s)).
  - intros t s u. cbn. rewrite <- bool_decide_or.
    apply bool_decide_ext. case_bool_decide as Ht; cbn; set_solver.
  - intros t s u. cbn. rewrite <- bool_decide_not, <- bool_decide_and.
    apply bool_decide_ext. rewrite list_elem_of_filter. done.
Qed.

(** Topics hashed by prefixing their name. *)
#[export] Instance toy_hashing : TopicHashing string := {
  no_hash t := t;
  sha256_hash t := ("#" ++ t)%string;
}.
#[export] Instance toy_hashing_laws : TopicHashingLaws string.
Proof. by intros t u. Qed.

Abbreviation worker := (@State swarm Z Z string _ _).

(** The topics in use are two short names. *)
Definition used_names (t : string) : Prop := t = "a"%string \/ t = "b"%string.

Definition idle : worker := worker_new (mkSwarm [40; 41] [] [] []).
(** Subscribed to a topic, and asked to leave it. *)
Definition joined : worker := serve (service_subscribe "a" idle).2.
Definition leaving : worker := (service_unsubscribe "a" joined).2.

Lemma idle_reachable : reachable used_names idle.
Proof. by apply reach_new. Qed.
Lemma joined_reachable : reachable used_names joined.
Proof.
  eapply reach_step; [|apply step_serve].
  eapply reach_step; [apply idle_reachable|]. apply step_subscribe. by left.
Qed.
Lemma leaving_reachable : reachable used_names leaving.
Proof. eapply reach_step; [apply joined_reachable|]. apply step_unsubscribe. by left. Qed.

Lemma requests_answered_once_witness :
  replies leaving !! 1%nat = Some Waiting /\
  from_service (poll [] leaving) = [] /\ replies (poll [] leaving) !! 1%nat <> Some Waiting.
Proof.
  destruct (requests_answered_once used_names leaving leaving_reachable) as (H1 & _ & _ & H4).
  split; [apply H1; apply list_elem_of_here|].
  destruct (H4 []) as [H5 H6]. split; [exact H5|apply H6].
Defined.

Lemma streams_and_subscriptions_witness :
  alive joined 0%nat = Some true /\
  exists id, inbox joined !! "a"%string = Some id /\ alive joined id = Some true.
Proof.
  destruct (streams_and_subscriptions used_names joined joined_reachable) as (H1 & _ & H3).
  split.
  - apply H1. left. exists "a"%string. reflexivity.
  - apply H3; [|reflexivity]. intros t u [->| ->] [->| ->]; discriminate.
Defined.

Lemma message_delivered_witness :
  received <$> streams (handle_event joined
    (GMessage 9 [] (mkGossipsubMessage 9 [1; 2] ["a"%string; "c"%string]))) !! 0%nat =
  Some [mkMessage 9 [1; 2]].
Proof.
  rewrite (message_delivered joined 9 [] (mkGossipsubMessage 9 [1; 2] ["a"%string; "c"%string])
    0 (mkStream [] true true) eq_refl). reflexivity.
Defined.

Lemma unsubscribe_keeps_stream_witness :
  replies (serve leaving) !! 1%nat = Some (GotBool true) /\
  inbox (serve leaving) !! "a"%string = Some 0%nat /\ alive (serve leaving) 0%nat = Some true.
Proof.
  destruct (unsubscribe_keeps_stream used_names leaving "a" 1 [] 0 leaving_reachable eq_refl
    eq_refl eq_refl) as (H1 & _ & H3 & _).
  destruct H3 as (H3 & H4 & _); [discriminate|]. exact (conj H1 (conj H3 H4)).
Defined.

(** Discovery messages on the wire: the addresses. *)
Definition wire_message (m : DiscoveryMessage Z) : option bytes :=
  Some (dm_timestamp m :: dm_listeners m).
Definition read_message (b : bytes) : option (DiscoveryMessage Z) :=
  match b with t :: l => Some (mkDiscoveryMessage "one" t l) | [] => None end.

Lemma discovery_connects_witness :
  exists a', discovery_round wire_message (fun _ => "one"%string) 1 (5 * 10 ^ 9) idle =
      Return a' /\
    sw_published (Gossip.swarm (poll [] a')) = [(DISCOVERY_TOPIC_NAME, [5; 40; 41])] /\
    sw_dialled (Gossip.swarm (Discovery.connect read_message 2 idle
      (mkMessage 1 [5; 40; 41]))) = [40; 41].
Proof.
  destruct (discovery_connects wire_message read_message (fun _ => "one"%string) 1 2 idle idle
    (5 * 10 ^ 9) [5; 40; 41]) as (a' & H1 & H2 & H3 & _); try reflexivity; [discriminate|].
  exists a'. split; [exact H1|]. split.
  - rewrite H2. reflexivity.
  - rewrite H3. reflexivity.
Defined.
End ToySwarm.
