(* ===== verification/ToolExamples.v ===== *)
(** * The theorems of the tools and of the runtimes on concrete instances *)
From stdpp Require Import prelude gmap strings list list_numbers.
From Stdlib Require Import ZArith Lia Ascii.
From S2P Require Import Prelude Frame Codec Vanity VanityFacts.
From S2P Require Import Runtime RuntimeFacts Subkey SubkeyFacts SubkeyEffects.
Local Open Scope Z_scope.

Module ToyVanity.
(** Keys and addresses are the seed (at most 48 bytes of it); every call of the
    random generator gives the seed "ABC". *)
Definition from_seed (s : bytes) : bytes := s.
Definition address (p : bytes) : bytes := take 48 p.
Definition rng (n : nat) : bytes := [65; 66; 67].

(** Digits and letters, and one letter outside ASCII. *)
Definition alphanumeric (c : Z) : bool :=
  (48 <=? c) && (c <=? 57) || (65 <=? c) && (c <=? 90) || (97 <=? c) && (c <=? 122) || (c =? 233).

Lemma address_short k : (length (address_at from_seed address rng k) <= 48)%nat.
Proof. unfold address_at, address. rewrite length_take. lia. Qed.

(** "B" is found in the first turn, and so a key is returned. *)
Lemma search_returns :
  generate_key alphanumeric [] from_seed address rng 5 [66] =
    Return (Some (mkKeyPair [65; 66; 67] [65; 66; 67] 94)).
Proof. reflexivity. Qed.

Lemma generate_key_first_hit_witness :
  (exists k, hit from_seed address rng [66] k) /\
  exists fuel key, generate_key alphanumeric [] from_seed address rng fuel [66] =
    Return (Some key).
Proof.
  destruct (generate_key_first_hit alphanumeric [] from_seed address rng [66])
    as (_ & [H1 H2] & _);
    [discriminate|reflexivity|repeat constructor; lia|cbn; lia|apply address_short|].
  split; [apply H1; exists 5%nat, (mkKeyPair [65; 66; 67] [65; 66; 67] 94); exact search_returns|].
  apply H2, H1. exists 5%nat, (mkKeyPair [65; 66; 67] [65; 66; 67] 94). exact search_returns.
Defined.

Lemma score_spec_witness : calculate_score [65; 66] [67; 65; 66] = Return (48 * 2 + (47 - 1)).
Proof.
  destruct (score_spec [65; 66] [67; 65; 66]) as (s & Hs & H); [repeat constructor; lia|cbn; lia..|].
  rewrite Hs. f_equal. injection Hs as <-. reflexivity.
Defined.

Lemma seeds_consecutive_witness :
  le_value (seed_at (fun _ => [255; 0]) (Z.to_nat 100000 * 0 + 1)) = 256.
Proof.
  refine (seeds_consecutive (fun _ => [255; 0]) 2 0 1 _ _); [|lia].
  intros _. split; [reflexivity|]. repeat constructor; lia.
Defined.

Lemma non_ascii_pattern_panics_witness :
  generate_key alphanumeric [] from_seed address rng 1 [66; 233] =
    Panic "byte index is not a char boundary".
Proof.
  refine (non_ascii_pattern_panics alphanumeric [] from_seed address rng 0 [66; 233] _ _ _ _).
  - repeat constructor; lia.
  - reflexivity.
  - right. left. lia.
  - repeat constructor; lia.
Defined.
End ToyVanity.

(** ** Hexadecimal *)
Module ToyHex.
Definition digit (d : Z) : ascii :=
  ascii_of_nat (Z.to_nat (if d <? 10 then 48 + d else 87 + d)).
Definition value (c : Z) : option Z :=
  if (48 <=? c) && (c <=? 57) then Some (c - 48)
  else if (97 <=? c) && (c <=? 102) then Some (c - 87)
  else None.

Fixpoint display (v : bytes) : string :=
  match v with
  | [] => EmptyString
  | b :: v => String (digit (b / 16)) (String (digit (b mod 16)) (display v))
  end.
Fixpoint decode (v : bytes) : result string bytes :=
  match v with
  | [] => Ok []
  | [_] => Err "Odd number of digits"%string
  | h :: l :: v =>
      match value h, value l with
      | Some h, Some l => (cons (16 * h + l)) <$> decode v
      | _, _ => Err "Invalid character"%string
      end
  end.

(** Every digit is read back. *)
Lemma digit_value d : 0 <= d < 16 -> value (Z.of_nat (nat_of_ascii (digit d))) = Some d.
Proof.
  intros Hd. assert (Hall : Forall (fun d => value (Z.of_nat (nat_of_ascii (digit d))) = Some d)
    (seqZ 0 16)) by (apply (bool_decide_unpack _); by vm_compute).
  rewrite Forall_forall in Hall. apply Hall, elem_of_seqZ. lia.
Qed.

Lemma decode_display v : Forall byte_ok v -> decode (str_bytes (display v)) = Ok v.
Proof.
  induction 1 as [|b v Hb Hv IH]; [done|]. unfold byte_ok, in_width in Hb.
  cbn [display]. unfold str_bytes in *. cbn [String.list_ascii_of_string fmap list_fmap decode].
  rewrite !digit_value by (split; [apply Z.div_pos || apply Z.mod_pos_bound; lia|
    apply Z.div_lt_upper_bound || apply Z.mod_pos_bound; lia]).
  rewrite IH. cbn. do 2 f_equal. pose proof (Z.div_mod b 16). lia.
Qed.
End ToyHex.

(** ** Keys *)

(** Two keys, a secret URI each; a signature tells the key and whether the
    message has an even length. *)
Module TwoKeys.
#[export] Instance crypto : Crypto bool bool unit (bool * bool) bool unit := {
  from_string uri _ := if decide (uri = "//Alice"%string) then Some true
                       else if decide (uri = "//Bob"%string) then Some false else None;
  from_phrase _ _ := None;
  from_string_with_seed _ _ := None;
  public p := p;
  public_bytes p := [if p then 1 else 0];
  public_from_slice v := match v with [1] => Some true | [0] => Some false | _ => None end;
  public_from_string _ := None;
  public_from_string_with_version _ := None;
  public_to_ss58check_with_version _ _ := ""%string;
  seed_bytes _ := [];
  sign p v := (p, Nat.even (length v));
  verify_sig s v p := bool_decide (s = (p, Nat.even (length v)));
  signature_bytes s := [if s.1 then 1 else 0; if s.2 then 1 else 0];
  signature_len := 2%nat;
  signature_of_bytes v := match v with
                          | [a; b] => (a =? 1, b =? 1) | _ => (false, false) end;
  into_account p := p;
  account_bytes a := [if a then 1 else 0];
  account_to_ss58check _ a := if a then "Alice"%string else "Bob"%string;
}.

Lemma two_keys_ok : scheme_ok (Pair := bool) (Public := bool) ToyHex.decode ToyHex.display.
Proof.
  split.
  - apply ToyHex.decode_display.
  - intros [[] []]; apply (bool_decide_unpack _); by vm_compute.
  - intros []; apply (bool_decide_unpack _); by vm_compute.
  - by intros [[] []].
  - done.
  - by intros [].
  - intros p v. by apply bool_decide_true.
Qed.

(** Signing three bytes and verifying them, and four others. *)
Definition works (written : Written) (requested : Requested) : Machine :=
  mkMachine (fun _ _ => None) (fun _ _ => None) None (fun _ => None) (fun _ _ => written)
    (fun _ => requested).
Definition machine_with (message : bytes) : @World unit :=
  mkWorld (works WriteDone RpcDone) ∅ message [] [] [] tt [].
Definition sign_args : Args := mkArgs {["suri"%string := "//Alice"%string]} ∅.
Definition sig_of (message : bytes) : string :=
  ToyHex.display (signature_bytes (sign true message : bool * bool)).
Definition verify_args (sig : string) : Args :=
  mkArgs {["uri"%string := "0x01"%string; "sig"%string := sig]} ∅.

Lemma sign_then_verify_witness :
  exists sig w1 w2,
    run_sign ToyHex.decode ToyHex.display id (fun _ => None) sign_args None
      (machine_with [1; 2; 3]) = (Return tt, w1) /\
    stdout w1 = [sig] /\
    (value_of (verify_args (sig_of [1; 2; 3])) "sig" = Some sig ->
     run_verify ToyHex.decode id (fun _ => None) (verify_args (sig_of [1; 2; 3]))
       (machine_with [1; 2; 3]) = (Return tt, w2) /\
     stdout w2 = ["Signature verifies correctly."%string]).
Proof.
  destruct (sign_then_verify ToyHex.decode ToyHex.display id (fun _ => None) sign_args
    (verify_args (sig_of [1; 2; 3])) "//Alice" None true (machine_with [1; 2; 3])
    (machine_with [1; 2; 3]) [1; 2; 3] [1; 2; 3] two_keys_ok (fun _ _ => eq_refl) (fun _ _ => eq_refl)
    eq_refl eq_refl eq_refl eq_refl eq_refl eq_refl eq_refl) as (sig & w1 & w2 & H1 & H2 & H3).
  exists sig, w1, w2. split; [exact H1|]. split; [exact H2|].
  intros Hs. exact (proj1 (H3 Hs) eq_refl).
Defined.

(** A genesis hash is a number, a call is a byte. *)
#[local] Instance hash_codec : Codec Z := Demo.int_codec 1.

Definition command_line : Args := mkArgs {["nonce"%string := "7"%string]} ∅.

Lemma command_line_parsed : parsed "sign-transaction" command_line.
Proof.
  intros name. unfold is_present; cbn [flags values command_line].
  rewrite bool_decide_false by set_solver. cbn [orb].
  intros [v Hv]%bool_decide_eq_true. apply lookup_singleton_Some in Hv as [<- _].
  apply list_elem_of_further, list_elem_of_here.
Qed.

Definition workshop (written : Written) (requested : Requested) : @World unit :=
  mkWorld (works written requested) ∅ [] [] [] [] tt [].

Lemma sign_transaction_genesis_witness :
  (read_genesis_hash (Version := unit) ToyHex.decode ToyHex.display 100 200 (fun h => [h])
     command_line (workshop WriteDone RpcDone)).1 = Return 100.
Proof.
  exact (proj1 (sign_transaction_genesis (Call := Z) ToyHex.decode ToyHex.display 100 200
    (fun h => [h]) (fun _ _ _ => []) (fun _ => []) command_line None (workshop WriteDone RpcDone)
    command_line_parsed (fun _ _ => eq_refl))).
Defined.

(** [subkey insert] with a key type that is no key type. *)
Abbreviation subkey :=
  (execute (Call := Z) (Hash := Z) (Mnemonic := unit) ToyHex.decode ToyHex.display id
     (fun _ => None) (fun _ => None) (fun _ => ""%string) (fun _ => ""%string) (fun _ => ""%string)
     (fun _ => tt) (fun _ => None) (fun _ => None) 100 200 (fun h => [h]) (fun _ _ _ => [])
     (fun _ => []) (fun _ _ => 0) ([1; 2; 3; 4], ""%string) (fun _ => None) (fun _ => Fail ""%string)
     (fun k => bool_decide (k = "babe"%string)) (fun _ => true) tt ""%string).
Definition insert_args (key_type : string) : ArgMatches :=
  mkMatches (mkArgs ∅ ∅) (Some ("insert"%string,
    mkArgs {["suri"%string := "//Alice"%string; "key-type"%string := key_type]} ∅)).

Definition node_key_args : ArgMatches :=
  mkMatches (mkArgs ∅ ∅) (Some ("generate-node-key"%string,
    mkArgs {["file"%string := "key"%string]} ∅)).

(** A key that gets to its node, one that does not, without [insert] saying so, and a
    node key cut off by a full disk. *)
Definition the_key : string * string * string * bytes :=
  ("http://localhost:9933", "babe", "//Alice", [1])%string.
Lemma insert_runs :
  (let (r, w) := subkey (insert_args "babe") (workshop WriteDone RpcDone) in
   r = Return tt /\ inserted w = [the_key]) /\
  (let (r, w) := subkey (insert_args "babe") (workshop WriteDone (RpcFailed "refused" false)) in
   r = Return tt /\ inserted w = [] /\ stderr w = ["Error inserting key: refused"%string]).
Proof. vm_compute. by repeat split. Qed.

Definition full_disk : @World unit := workshop (CutOff "full" 2) RpcDone.
End TwoKeys.

(** A signature that holds what was signed, and the four numbers that are added
    to a transaction as its bytes. *)
Module OpenKeys.
#[export] Instance crypto : Crypto Z Z unit (Z * bytes) Z unit := {
  from_string _ _ := None;
  from_phrase _ _ := None;
  from_string_with_seed _ _ := None;
  public p := p;
  public_bytes p := [p];
  public_from_slice _ := None;
  public_from_string _ := None;
  public_from_string_with_version _ := None;
  public_to_ss58check_with_version _ _ := ""%string;
  seed_bytes _ := [];
  sign p v := (p, v);
  verify_sig s v p := bool_decide (s = (p, v));
  signature_bytes s := s.2;
  signature_len := 0%nat;
  signature_of_bytes v := (0, v);
  into_account p := p;
  account_bytes a := [a];
  account_to_ss58check _ _ := ""%string;
}.

Definition payload (f : Z) (e : Extra) (a : @Additional Z) : bytes :=
  [f; nonce e; add_spec_version a; add_transaction_version a; add_genesis a; add_era_hash a].
Definition verify_account (s : Z * bytes) (v : bytes) (a : Z) : bool := bool_decide (s = (a, v)).

Lemma extrinsics_for_robonomics_only_witness :
  node_accepts payload verify_account Ipci.VERSION 100 (create_extrinsic payload 5 0 9 100) = false.
Proof.
  refine (proj2 (extrinsics_for_robonomics_only (Version := unit) payload verify_account 5 0 9
    100 100 _ _)).
  - intros v v'. unfold verify_account. rewrite bool_decide_eq_true. split; [by intros [= ->]|by intros ->].
  - intros f e [] []. unfold payload; cbn. by intros [= -> -> -> ->].
Defined.
End OpenKeys.
