(* ===== verification/NodeExamples.v ===== *)
(** * The theorems of the runtimes, the node and its tools on concrete instances *)
From stdpp Require Import prelude gmap strings list list_numbers.
From Stdlib Require Import ZArith Lia.
From S2P Require Import RuntimeApi Codec.
From S2P Require Import Prelude Frame Codec Gossip ProtocolExamples Runtime RuntimeFacts.
From S2P Require Import RosApi Service NodeCli Vanity Text.
Local Open Scope Z_scope.

(** ** Runtimes *)
Module ToyRuntime.
(** With a total issuance of [2^65] the factor is two. *)
Lemma votes_conversion_witness :
  Common.to_votes (2 ^ 65) (2 ^ 64 + 1) = 2 ^ 63 /\
  Common.to_balance (2 ^ 65) (2 ^ 63) <= 2 ^ 64 + 1.
Proof.
  destruct (votes_conversion (2 ^ 65) (2 ^ 64 + 1)) as (_ & H & _);
    [lia|unfold u128_max; lia|].
  destruct H as (H1 & H2 & _); [vm_compute; reflexivity|].
  change ((2 ^ 64 + 1) / Common.factor (2 ^ 65)) with (2 ^ 63) in H1.
  split; [exact H1|]. rewrite H1 in H2. exact H2.
Defined.

Lemma fees_conserved_witness :
  Robonomics.on_unbalanceds (fun x a b => (x * a / (a + b), x - x * a / (a + b)))
    [100; 7] 1000 0 = (1085, 22) /\ 1085 + 22 = 1000 + 0 + 100 + 7.
Proof.
  split; [reflexivity|].
  destruct (fees_conserved (fun x a b => (x * a / (a + b), x - x * a / (a + b))) 100 7 1000 0)
    as [H _]; [intros x; cbn; lia|exact H].
Defined.

(** Transactions that are signed by copying them. *)
Lemma create_transaction_spec_witness :
  Common.create_transaction (fun p n => (p, n)) (fun c e => Some (c, Common.check_nonce e))
    (fun p => [p.1; p.2]) (fun m k => if decide (k = 1) then Some m else None) (fun a : Z => a)
    Robonomics.BlockHashCount 10 5 1 40 3 = Some (5, (40, [5; 3], Common.mkExtra (2048, 9) 3 0)).
Proof.
  destruct (create_transaction_spec (fun p n : Z => (p, n))
    (fun (c : Z) e => Some (c, Common.check_nonce e)) (fun p => [p.1; p.2])
    (fun m (k : Z) => if decide (k = 1) then Some m else None) (fun a : Z => a)
    (fun s m _ => bool_decide (s = m)) 10 5 1 40 3) as [_ H].
  - intros m p s. case_decide; [|discriminate]. intros [= ->]. by apply bool_decide_true.
  - destruct (Common.create_transaction _ _ _ _ _ _ _ _ _ _ _)
      as [[c [[a s] e]]|] eqn:Hc; [|discriminate Hc].
    destruct H as (-> & -> & -> & payload & [= <-] & ->%bool_decide_eq_true). reflexivity.
Defined.
End ToyRuntime.

(** ** The ROS interface *)
Module ToyNode.
(** A chain that is a number of blocks; the hash of block [k] ends in [k + 1]. *)
Definition hash_of (k : Z) : Hash := replicate 31 0 ++ [k + 1].
Definition find_block (i : BlockId Z) (n : Z) : result string (option Z) :=
  let k := match i with IdHash h => default 0 (last h) - 1 | IdNumber k => k end in
  Ok (if (0 <=? k) && (k <? n) then Some k else None).

#[export] Instance chain : NodeClient Z Z Z unit Z Z := {
  best_hash n := hash_of (n - 1);
  finalized_hash n := hash_of 0;
  client_header := find_block;
  header_hash := hash_of;
  client_block := find_block;
  number_of_u32 k := k;
  generate_session_keys _ n := (Ok [], n);
  submit_one _ _ n := (Ok [], n);
  ready _ := [];
  remove_invalid _ n := ([], n);
  executor_call _ _ _ _ := Ok [];
  client_storage_keys _ _ _ := Ok [];
  client_storage _ _ _ := Ok None;
  client_storage_hash _ _ _ := Ok None;
  runtime_version_at _ _ := Ok 1;
  num_connected _ := 0;
  is_major_syncing _ := false;
}.

(** Five blocks: the hash of block 9 is answered, and means block 4. *)
Lemma block_requests_witness :
  srv_get_block_hash (Xt := unit) (RtVersion := Z) 9 (5 : Z) = Ok zero_hash /\
  srv_get_block_hash (Xt := unit) (RtVersion := Z) 2 (5 : Z) = Ok (hash_of 2).
Proof.
  pose proof (block_requests (N := Z) (Xt := unit) (Number := Z) (RtVersion := Z)
    (fun _ : option Z => "header"%string) (fun _ : option Z => "block"%string) 5
    (hash_of 2)) as Hb.
  split.
  - destruct (Hb 9) as (_ & _ & H & _). exact (proj1 (H eq_refl)).
  - destruct (Hb 2) as (_ & _ & _ & H). exact (H 2 eq_refl).
Defined.
End ToyNode.

(** ** The command line *)
Module ToyCommands.
Definition features : Features := mkFeatures true true false.
Local Open Scope string_scope.

(** A specification is its identifier. *)
Lemma load_spec_families_witness :
  exists s : string,
    load_spec features (fun _ => Ok "ipci") (fun _ => Ok "robonomics")
      (fun path => Err ("no file " ++ path)) (fun _ id (_ : outcome Empty_set unit) => id) [] []
      (Panic "not built") "parachain" = Return s /\ family features s = Parachain.
Proof.
  destruct (load_spec_families features (fun s : string => s) (fun _ => Ok "ipci")
    (fun _ => Ok "robonomics") (fun path => Err ("no file " ++ path))
    (fun _ id (_ : outcome Empty_set unit) => id) [] [] (Panic "not built"))
    as (_ & _ & (s & _ & H1 & H2) & _); [reflexivity|reflexivity|by eexists|by eexists|].
  exists s. exact (conj H1 H2).
Defined.

(** A key is its kind and its seed, an account is a seed. *)
Definition key_of (kind : KeyKind) (uri : string) : option (KeyKind * string) :=
  Some (kind, String.substring 2 (String.length uri - 2) uri).

Lemma key_of_seed kind seed : key_of kind ("//" +:+ seed) = Some (kind, seed).
Proof.
  unfold key_of. do 2 f_equal.
  change (String.substring 0 (String.length seed - 0) seed = seed). rewrite Nat.sub_0_r.
  induction seed as [|c seed IH]; [done|]. cbn. by rewrite IH.
Qed.

Lemma development_genesis_spec_witness :
  exists g, development_config_genesis key_of snd [] = Return g /\
    stakers g = [("Alice//stash", "Alice", STASH, Validator)].
Proof.
  destruct (development_genesis_spec key_of snd [] (fun kind seed => (kind, seed)) key_of_seed)
    as (g & H1 & _ & _ & _ & H2 & _); [by intros s s'|].
  exists g. exact (conj H1 H2).
Defined.
End ToyCommands.

Module ToyApi.
Local Open Scope Z_scope.
#[local] Instance proof_codec : Codec bytes := Demo.bytes_codec.
#[local] Instance proof_laws : CodecLaws bytes := Demo.bytes_codec_laws.

(** A runtime whose state is the reports submitted; the proof of a key is its
    first byte. *)
Definition submit (k : Z) (_ : unit) (p : bytes) : SO (list (Z * bytes)) Empty_set (option unit) :=
  fun st => (Return (Some tt), (k, p) :: st).
Definition modules : @Modules (list (Z * bytes)) unit unit unit unit unit unit unit unit unit unit
    unit unit unit unit bytes := {|
  Executive_execute_block _ := mret tt;
  Executive_initialize_block _ := mret tt;
  Runtime_metadata := tt;
  Executive_apply_extrinsic _ := mret tt;
  Executive_finalize_block := mret tt;
  create_extrinsics _ := mret [];
  check_extrinsics _ _ := mret tt;
  RandomnessCollectiveFlip_random_seed := mret tt;
  Executive_validate_transaction _ _ := mret tt;
  Executive_offchain_worker _ := mret tt;
  Grandpa_authorities := mret [];
  Grandpa_submit_unsigned_equivocation_report := submit 1;
  Historical_prove k := mret (Some (take 1 k.2));
  Babe_slot_duration := 2 * Runtime.Ipci.MinimumPeriod;
  Babe_authorities := mret [];
  Babe_randomness := mret [];
  Babe_current_epoch_start := mret 0;
  Babe_submit_unsigned_equivocation_report := submit 2;
  AuthorityDiscovery_authorities := mret [];
  System_account_nonce _ := mret 0;
  TransactionPayment_query_info _ _ := mret tt;
  SessionKeys_generate _ := mret [];
  SessionKeys_decode_into_raw_public_keys _ := None;
|}.

Lemma proofs_short k s q s' :
  Historical_prove modules k s = (Return (Some q), s') -> encodable q.
Proof.
  cbn. intros [= <- <-]. destruct k.2 as [|x l]; cbn [take length]; [lia|].
  rewrite take_0. cbn. lia.
Qed.

Lemma reports_round_trip_witness :
  grandpa_submit_report (grandpa_api [] modules) tt (encode [9]) [] = (Return (Some tt), [(1, [9])]) /\
  babe_submit_report (babe_api [] modules 100 (1, 4)) tt [] [] = (Return None, []).
Proof.
  destruct (reports_round_trip [] [] modules proofs_short (ipci_apis [] [] modules)
    (grandpa_api [] modules) (babe_api [] modules Runtime.Ipci.EpochDuration (1, 4))
    (or_intror eq_refl) eq_refl eq_refl) as (H1 & _ & H3).
  split.
  - destruct (H1 0 [9; 8] [] (encode [9]) [] eq_refl) as (q & Hq & H). rewrite H.
    cbn in Hq. injection Hq as <-. reflexivity.
  - apply H3. reflexivity.
Defined.
End ToyApi.
