(* ===== verification/IoExamples.v ===== *)
(** * The I/O commands on concrete instances

    Two standard outputs, a node that takes two lines, the toy swarm of
    [ProtocolExamples], and whole commands on them. *)
From stdpp Require Import prelude gmap strings list list_numbers.
From Stdlib Require Import ZArith Lia.
From S2P Require Import Prelude Frame Codec Gossip Discovery ProtocolExamples Vanity Text Client Streams.
From S2P Require Import IoCli IoCommands IoTasks.
Local Open Scope Z_scope.

(** A terminal behind a buffer, which shows what it was given when it is flushed and
    never fails; and a pipe nobody reads. *)
Module Terminals.
Record Terminal : Type := mkTerminal { lines_given : list text; characters_shown : nat }.
Definition blank : Terminal := mkTerminal [] 0.
Definition flushed (d : Terminal) : result unit unit * Terminal :=
  (Ok tt, mkTerminal (lines_given d) (length (concat (lines_given d)))).
#[global] Instance terminal_output : Output Terminal unit := {
  out_send s d := (Ok tt, mkTerminal (lines_given d ++ [s]) (characters_shown d));
  out_poll_flush := flushed;
  out_close := flushed;
  given := lines_given;
  written d := take (characters_shown d) (concat (lines_given d));
}.
#[global] Instance terminal_laws : OutputLaws Terminal unit.
Proof.
  split; cbn; try done.
  - intros d. apply prefix_take.
  - intros s d. rewrite concat_app, take_app. by apply prefix_app_r.
  - intros d. rewrite firstn_all. apply prefix_take.
  - intros d. rewrite firstn_all. apply prefix_take.
  - intros d _. apply firstn_all.
Qed.
Lemma terminal_reliable : reliable Terminal unit.
Proof. by repeat split. Qed.

Record Pipe : Type := mkPipe {}.
#[global] Instance pipe_output : Output Pipe unit := {
  out_send s d := (Err tt, d);
  out_poll_flush d := (Err tt, d);
  out_close d := (Err tt, d);
  given d := [];
  written d := [];
}.
#[global] Instance pipe_laws : OutputLaws Pipe unit.
Proof. by split. Qed.
End Terminals.

Module ToyIo.
Import ToySwarm Terminals.
Abbreviation failure := (IoError unit unit unit string string unit unit).

(** A node that takes two lines; the hash is the number of the lines so far. *)
Definition submit (pair : unit) (remote : string) (v : bytes) (n : nat) : result string Z * nat :=
  if (n <? 2)%nat then (Ok (Z.of_nat n), S n) else (Err "full"%string, n).
Definition command {D} `{!Output D unit} (lines : list (result failure text)) (pace : Pace) :
    SE (World nat D) failure unit :=
  write_datalog (fun _ => Ok tt) (fun h => [48 + h]) submit "node" "//Alice" lines pace.
Definition three_lines : list (result failure text) := [Ok [97]; Ok [98]; Ok [99]].
Definition fresh : World nat Terminal := mkWorld 0%nat blank.

(** Two lines are taken and the third refused; on a pipe that nobody reads the first
    is taken and its hash lost. *)
Lemma io_write_spec_witness :
  (let (r, w) := command three_lines [] fresh in
   r = Err (EProtocol "full"%string) /\ node w = 2%nat /\ printed w = [[48; 10]; [49; 10]] /\
   shown w = [] /\
   forwarded EProtocol (fun line => submit tt "node" (utf8 line)) (fun h => [48 + h])
     [[97]; [98]; [99]] fresh r w) /\
  command three_lines [] (mkWorld 0%nat (mkPipe)) = (Err (EIo tt), mkWorld 1%nat mkPipe).
Proof.
  split; [|reflexivity]. cbv beta delta [fresh]. do 4 (split; [reflexivity|]).
  destruct (io_write_spec (Serial := unit) (ChannelSend := unit) (SecretString := unit)
    (Protocol := string) (Ipfs := string) (Io := unit) (Ros := unit) (fun _ => Ok tt)
    (fun h => [48 + h]) submit (fun _ _ _ _ n => (Ok 0, n)) (fun _ _ n => (Ok [], n))
    (fun _ _ n => (Ok [], n)) "node" "//Alice" "robot" three_lines [] fresh) as (_ & H & _).
  exact (proj1 (H tt eq_refl)).
Defined.

Lemma text_survives_witness :
  exists msgs published r w,
    write_pubsub (Error := failure) [Ok [104; 233]] [] [] = (Ok tt, msgs) /\
    from_service (publisher "a" msgs idle) = (Publish "a" <$> published)%list /\
    read_pubsub (mkMessage 9 <$> published) [] (mkWorld tt blank) = (r : result failure unit, w) /\
    printed w = [[104; 233; 10]] /\ shown w = [104; 233; 10].
Proof.
  destruct (text_survives (N := unit) (Serial := unit) (ChannelSend := unit)
    (SecretString := unit) (Protocol := string) (Ipfs := string) (Io := unit) (Ros := unit)
    "a" [Ok [104; 233]] [] idle 9 (mkWorld tt blank)) as (msgs & published & H1 & H2 & H3 & _).
  - apply Forall_singleton. unfold scalar. repeat constructor; lia.
  - destruct (read_pubsub (mkMessage 9 <$> published) [] (mkWorld tt blank)) as [r w] eqn:Hrun.
    destruct (prints_reliable _ _ _ _ terminal_reliable (H3 _ _ eq_refl)) as (-> & _ & Hp & Hs).
    exists msgs, published, (Ok tt), w. rewrite Hs, Hp. exact (conj H1 (conj H2 (conj Hrun (conj eq_refl eq_refl)))).
Defined.

(** The process of a command: the node above, the toy swarm, a sensor that is not
    there, no IPFS, and a node whose events end. *)
Definition process : Process (S := swarm) (PeerId := Z) (Multiaddr := Z) (TopicHash := string)
  (N := nat) (D := Terminal) := mkProcess fresh None [] [].
Definition a_launch : @NewLaunchEvent Z bool :=
  {| nl_sender := 65; nl_robot := 66; nl_param := true |}.
Definition run_io (taken : nat) (panic_aborts : bool) :=
  io_run (PeerId := Z) (D := Terminal) (ChannelSend := unit) (Ios := unit) [] taken panic_aborts 1 (fun _ => Err tt) (fun _ => Ok tt)
    (fun _ (m : unit) => []) (fun _ => Ok tt) 3 (fun _ => Ok idle) (fun _ _ => [mkMessage 9 [104]])
    (fun _ => false) true (fun _ _ n => (Ok [], n) : result string _ * _)
    (fun _ _ n => (Ok [], n)) (fun a : Z => [a]) (fun _ => Some a_launch)
    (fun _ n => (Ok tt, n)) (fun _ => [Some (Ok [1]); Some (Ok [2]); None] : list (option (result unit bytes)))
    (fun _ _ => Err tt) (fun _ _ => Ok tt) (fun _ : string => Ok tt : result unit unit)
    (fun h => [48 + h]) submit (fun _ _ _ _ n => (Ok 0, n)).
Definition lines : list (result failure text) := [Ok [104]; Ok [233]; Err (EOther "closed"); Ok [97]].

(** Writing to a topic stops at the input error; of the two lines before it the
    publisher has taken one, and queued it behind the addresses. *)
Lemma io_run_effects_witness :
  exists p' st', run_io 1 false lines (Write (SinkPubSub "a" 1 [2] 5)) process =
      (Fail (IoFailure (EOther "closed")), p') /\
    pubsub p' = Some st' /\ world p' = fresh /\ IoCommands.channel p' = [[233]] /\
    from_service st' = (from_service (pubsub_setup 1 [2] idle) ++ [Publish "a" [104]])%list.
Proof.
  destruct (run_io 1 false lines (Write (SinkPubSub "a" 1 [2] 5)) process) as [r p'] eqn:Hrun.
  destruct (io_run_effects _ _ _ _ _ _ _ _ _ _ _ _ _ _ _ _ _ _ _ _ _ _ _ _ _ _ _ _ _ _ Hrun)
    as (Hw & _ & (Hr & Hc) & st' & Hp & Hq).
  exists p', st'. rewrite Hr. exact (conj eq_refl (conj Hp (conj Hw (conj Hc Hq)))).
Defined.

(** The events of the node end: [io read launch] panics after the first line, which
    nobody sees, or ends well. *)
Lemma launches_end :
  (let (r, p') := run_io 1 true [] (Read (SourceLaunch "node")) process in
   r = Panic "called `Option::unwrap()` on a `None` value" /\ length (printed (world p')) = 1%nat /\
   shown (world p') = []) /\
  (let (r, p') := run_io 1 false [] (Read (SourceLaunch "node")) process in
   r = Return tt /\ length (printed (world p')) = 2%nat /\ shown (world p') = concat (printed (world p'))).
Proof. vm_compute. by repeat split. Qed.

(** The reader may run ahead of the main task: a schedule of the command above in
    which both lines are read before the first is submitted. *)
Definition two_lines : list (result failure text) := [Ok [97]; Ok [98]].
Definition tasks : Type := Pipeline (World nat Terminal) failure text text Z.
Definition finished : tasks :=
  mkPipeline [] false [] Taking 0%nat (mkWorld 2%nat (mkTerminal [[48; 10]; [49; 10]] 4)) (Some (Ok tt)).
Lemma reader_first :
  rtc (pipeline_step true datalog_message (datalog_request submit tt "node")
      (print_hash (fun h => [48 + h])))
    (spawn 0 two_lines fresh) finished.
Proof.
  do 3 (eapply rtc_l; [by constructor|]). do 2 (do 4 (eapply rtc_l; [by constructor|])).
  eapply rtc_l; [by constructor|].
  match goal with |- rtc _ ?p _ => change p with finished end. apply rtc_refl.
Qed.
Lemma io_tasks_refine_witness :
  (exists pace, command two_lines pace fresh = (Ok tt, state finished)) /\
  forall pace, printed (command two_lines pace fresh).2 = [[48; 10]; [49; 10]].
Proof.
  destruct (io_tasks_refine (Serial := unit) (ChannelSend := unit) (SecretString := unit)
    (Protocol := string) (Ipfs := string) (Ios := unit) (Ros := unit) (D := Terminal) (fun _ => Ok tt)
    (fun h => [48 + h]) submit (fun _ _ _ _ n => (Ok 0, n)) (fun _ _ n => (Err "none"%string, n))
    (fun _ _ n => (Err "none"%string, n)) "node" "//Alice" "robot" tt two_lines eq_refl)
    as ([H _] & _ & _ & _ & Hpace).
  split.
  - destruct (H 0%nat fresh finished reader_first) as (_ & _ & Hr). exact (Hr _ eq_refl).
  - intros pace. apply Forall_cons in Hpace as [[Hrel _] _].
    destruct (Hrel terminal_reliable pace [] fresh) as (_ & _ & Hp). exact (eq_trans Hp eq_refl).
Defined.

(** An error of the stream leaves the sink unflushed: of two lines for an IPFS node that
    takes one, the hash of the first is shown when the reader is slow, and lost when the
    second line is there in time. *)
Definition add_once (uri : string) (v : bytes) (n : nat) : result string text * nat :=
  if (n <? 1)%nat then (Ok [48], S n) else (Err "full"%string, n).
Lemma hash_lost :
  let run pace := write_ipfs (Serial := unit) (ChannelSend := unit) (SecretString := unit)
    (Protocol := string) (Ros := unit) add_once "node" two_lines pace fresh in
  let slow := run [(0, 0); (1, 0)]%nat in let fast := run [] in
  slow.1 = Err (EIpfs "full"%string) /\ fast.1 = slow.1 /\
  printed slow.2 = [[48; 10]] /\ printed fast.2 = printed slow.2 /\
  shown slow.2 = [48; 10] /\ shown fast.2 = [].
Proof. vm_compute. by repeat split. Qed.

(** Of three good lines, a process may publish one and end well. *)
Lemma pubsub_prefix_witness :
  exists p, rtc (publishing_step "a")
      (publishing_start 1 [2] idle [Ok [97]; Ok [98]; Ok [99]]) p /\
    ended p = Some (Ok tt : result unit unit) /\ on_topic "a" (sent_out p) = [[97]].
Proof.
  destruct (pubsub_prefix (Error := unit) (PeerId := Z) (TopicHash := string) "a" 1 [2] idle
    [Ok [97]; Ok [98]; Ok [99]] ltac:(discriminate) eq_refl) as [_ H].
  exact (H 1%nat ltac:(cbn; lia)).
Defined.
End ToyIo.
