(* ===== verification/CompositionExamples.v ===== *)
(** * The book, the runtime and the network on concrete instances

    The pallet of [Instances] against its specification, a runtime whose other
    pallets are a clock, and networks of two workers. *)
From stdpp Require Import prelude gmap strings list list_numbers relations.
From Stdlib Require Import ZArith Lia.
From S2P Require Import Prelude Frame Codec Currency Agreement Liability.
From S2P Require Import LiabilityFacts SignedPallet AgreementSpec Datalog Launch Runtime.
From S2P Require Import Client Vanity Text Streams IoCli Remote.
From S2P Require Import Chain Gossip GossipFacts Network Tests Instances LiabilityExamples.
From S2P Require Import Discovery DiscoveryNet TopicNet ProtocolExamples IoExamples.
Import Toy.
Local Open Scope Z_scope.

(** The pallet that created and finalized one liability keeps a book with one
    agreement, delivered; it refuses signed calls, and another report. *)
Lemma pallet_refines_book_witness :
  exists ds, implements reported ds /\ length ds = 1%nat /\
    ~ (allowed ds (call_finalize 0 work report_proof) /\
       economics_agree reported (call_finalize 0 work report_proof)) /\
    dispatch (Self := Gift) pallet (signed 1 : RawOrigin Z) (call_finalize 0 work report_proof)
      reported = (Err BadOrigin, reported).
Proof.
  destruct (pallet_refines_book (Origin := RawOrigin Z) (Sig := Signature) (T := PureIPFS)
    (E := Communism) (AccountId := Z) (W := unit) pallet (fun _ _ : unit => False)
    gift_empty reported reported_reachable) as (ds & _ & Him & _ & Hc & Hs).
  exists ds. split; [exact Him|]. split.
  - assert (H : latest_index reported = 1) by reflexivity.
    rewrite (im_index _ _ Him) in H. lia.
  - split; [|apply Hs].
    assert (Hr : dispatch (Self := Gift) pallet (none : RawOrigin Z)
      (call_finalize 0 work report_proof) reported = (Err (Other "already finalized"), reported))
      by (vm_compute; reflexivity).
    destruct (Hc (call_finalize 0 work report_proof) _ _ I Hr) as [H _].
    intros Hno. apply H in Hno. discriminate.
Defined.

(** The tests of the pallets, with Alice as account 1 and Bob as account 2. *)
Definition toy_base58 (s : string) : option bytes := Some [Z.of_nat (String.length s)].
Definition toy_pair_of (s : string) : option Z :=
  if decide (s = "//Alice"%string) then Some 1 else if decide (s = "//Bob"%string) then Some 2
  else None.

Lemma two_signers (m : bytes) :
  verify (pair_sign 1 m : Signature) m (pair_account 2 : Z) = false /\
  verify (pair_sign 2 m : Signature) m (pair_account 1 : Z) = false.
Proof. split; unfold verify, toy_verify; cbn; by rewrite bool_decide_false. Qed.

Lemma pallet_tests_pass_witness :
  Forall (passes (LiabilityTests.new_test_ext (AccountId := Z)))
    [LiabilityTests.test_initial_setup;
     LiabilityTests.test_liability_proofs toy_base58 toy_pair_of;
     LiabilityTests.test_liability_lifecycle toy_base58 toy_pair_of pallet] /\
  Forall (passes LaunchTests.new_test_ext) [LaunchTests.test_launch; LaunchTests.test_bad_origin].
Proof.
  destruct (pallet_tests_pass (AccountId := Z) (Sig := Signature) (P := Z) toy_base58 toy_pair_of
    pallet [46] [49] [46] 1 2 eq_refl eq_refl eq_refl eq_refl eq_refl two_signers) as (H1 & _ & H3).
  - cbn. lia.
  - split; [exact H1|exact H3].
Defined.

Module ToyChain.
Abbreviation chain_t := (@Chain Z Z _ _).
Abbreviation call_t := (@RuntimeCall Z Signature Z).

(** The other pallets are a clock; their calls set it forward, but for those of the
    root with a negative number, which start the whole chain afresh. *)
Definition root_resets (o : RawOrigin Z) (t : Z) : bool :=
  match o with RawRoot => t <? 0 | _ => false end.
Definition set_time (o : RawOrigin Z) (t : Z) (ch : chain_t) : DispatchResult * chain_t :=
  (Ok tt, if root_resets o t then chain_genesis (fun w : Z => w) 0
          else set_others (fun w : Z => w) (Z.max t (others ch)) ch).
Definition no_validation (_ w : Z) : option TransactionValidity := None.

#[export] Instance clock_laws : OtherPallets (fun w : Z => w) set_time root_resets.
Proof.
  intros o c ch Ho. exists (Z.max c (others ch)). unfold set_time. rewrite Ho.
  split; [done|lia].
Qed.

Abbreviation run := (runtime_dispatch (Sig := Signature) pallet set_time).
Abbreviation step :=
  (chain_step (Sig := Signature) (fun w : Z => w) no_validation pallet set_time root_resets).
Abbreviation reach :=
  (chain_reachable (Sig := Signature) (fun w : Z => w) no_validation pallet set_time root_resets).

(** A liability is created by the pool; account 7 records at 10 and, in a batch or
    by itself, at 12; account 8 records and erases, and launches robot 4. *)
Definition new_liability : call_t := CallLiability (call_create task gratis 1 2 (terms_proof 1) (terms_proof 2)).
Definition script : list (RawOrigin Z * call_t) := [
  (none, new_liability);
  (signed 7, CallDatalog (Datalog.call_record [1]));
  (signed 8, CallDatalog (Datalog.call_record [5]));
  (signed 3, CallOther 12);
  (signed 7, CallDatalog (Datalog.call_record [2]));
  (signed 8, CallDatalog Datalog.call_erase);
  (signed 8, CallLaunch (Launch.call_launch 4 true))].

Definition start : chain_t := chain_genesis (fun w : Z => w) 10.
Definition after (n : nat) : chain_t :=
  foldl (fun ch oc => (run oc.1 oc.2 ch).2) start (take n script).
Definition past (n : nat) : list (@Happened (RawOrigin Z) Z Signature Z) :=
  imap (fun i oc => mkHappened oc.1 oc.2 (others (after i))) (take n script).

Lemma script_step n oc :
  script !! n = Some oc -> (n = 0%nat \/ is_ok (ensure_none oc.1) = false) ->
  exists hs, past (S n) = (past n ++ hs)%list /\ step (after n) hs (after (S n)).
Proof.
  intros Hn Ho. unfold past, after. rewrite (take_S_r _ _ _ Hn), imap_app, foldl_app.
  rewrite length_take. replace (n `min` length script)%nat with n
    by (apply lookup_lt_Some in Hn; lia).
  cbn [imap foldl]. rewrite Nat.add_0_r. eexists. split; [reflexivity|].
  destruct Ho as [->|Ho].
  - injection Hn as <-.
    pose proof (step_unsigned (Origin := RawOrigin Z) (fun w : Z => w) no_validation pallet
      set_time root_resets (after 0) new_liability) as Hs. apply Hs; [by vm_compute|]. split; [apply terms_encodable|done].
  - apply (step_origin (fun w : Z => w) no_validation pallet set_time root_resets (after n) oc.1 oc.2);
      [done|].
    do 7 (destruct n as [|n]; [injection Hn as <-; done|]). done.
Qed.
Lemma script_steps n : (n < 7)%nat ->
  exists hs, past (S n) = (past n ++ hs)%list /\ step (after n) hs (after (S n)).
Proof.
  intros Hn. do 7 (destruct n as [|n]; [eapply script_step; [reflexivity|by auto]|]). lia.
Qed.

Lemma script_run n : (n <= 7)%nat ->
  reach (past n) (after n) /\
  later (Sig := Signature) (fun w : Z => w) set_time root_resets no_validation pallet start (after n).
Proof.
  induction n as [|n IH]; intros Hn.
  - split; [apply (chain_start (Sig := Signature) (fun w : Z => w) no_validation pallet set_time root_resets 10)|].
    apply rtc_refl.
  - destruct IH as [Hr Hl]; [lia|]. destruct (script_steps n) as (hs & -> & Hs); [lia|].
    split; [by eapply chain_next|]. eapply rtc_r; [exact Hl|by exists hs].
Qed.
Lemma script_reachable : reach (past 7) (after 7).
Proof. by apply script_run. Qed.

Lemma chain_history_witness :
  Datalog.datalog (datalog (after 7)) 7 = [(10, [1]); (12, [2])] /\
  Datalog.datalog (datalog (after 7)) 8 = [] /\
  Launch.events (launches (after 7)) = [Launch.NewLaunch 8 4 true].
Proof.
  destruct (chain_history (Sig := Signature) (fun w : Z => w) set_time root_resets no_validation pallet
    (past 7) (after 7) script_reachable) as (_ & _ & _ & Hl & Hn).
  split; [|split].
  - rewrite Hl. vm_compute. reflexivity.
  - rewrite Hl. vm_compute. reflexivity.
  - rewrite Hn. vm_compute. reflexivity.
Defined.

Lemma new_liability_valid :
  exists v, runtime_validate_unsigned no_validation start new_liability = Some (Ok v).
Proof. eexists. vm_compute. reflexivity. Qed.
(** The transaction that made the first liability makes a second one seven steps
    later, and would make another. *)
Lemma valid_forever_witness :
  exists v ch2,
    runtime_validate_unsigned no_validation (after 7) new_liability = Some (Ok v) /\
    run none new_liability (after 7) = (Ok tt, ch2) /\
    latest_index (liability (after 7)) = 1 /\ latest_index (liability ch2) = 2 /\
    liability_of (liability ch2) 1 = encode (signed_new task gratis 1 2 : Gift).
Proof.
  destruct new_liability_valid as [v Hv].
  destruct (valid_forever (Origin := RawOrigin Z) (Sig := Signature) (fun w : Z => w) set_time
    root_resets no_validation pallet gift_empty (past 0) start (after 7)
    (call_create task gratis 1 2 (terms_proof 1) (terms_proof 2)) v
    (proj1 (script_run 0 ltac:(lia))) (proj2 (script_run 7 ltac:(lia))) Hv)
    as (H1 & ch2 & H2 & H3 & H4).
  exists v, ch2. split; [exact H1|]. split; [exact H2|]. split; [vm_compute; reflexivity|].
  split; [rewrite H3; vm_compute; reflexivity|]. etrans; [|exact H4]. f_equal.
Defined.
End ToyChain.

Module ToyRemote.
Import ToyClient ToyChain.
(** A flag is one byte. *)
#[local] Instance flag : Codec bool := {
  encode b := [if b : bool then 1 else 0];
  decode_prefix v :=
    match v with 0 :: v => Some (false, v) | 1 :: v => Some (true, v) | _ => None end;
  encodable _ := True;
}.
#[local] Instance flag_laws : CodecLaws bool.
Proof. by intros [] rest _. Qed.

(** A node that takes every extrinsic and is in no hurry; the hash of an extrinsic is
    the number of those that wait. *)
Abbreviation node_t := (@Remote.Node (RawOrigin Z) Z Signature Z Z _ _).
Definition node : node_t := Remote.mkNode start (past 0) [].
Definition failing (remote : string) (n : node_t) : result string unit := Ok tt.
Definition refusing (a : Z) (c : call_t) (n : node_t) : option string := None.
Definition number (a : Z) (c : call_t) (n : node_t) : Z := Z.of_nat (length (waiting n)).
Definition lines : list (result (IoError unit unit unit
  (ProtocolError unit unit unit string unit) unit unit unit) text) := [Ok [104]; Ok [79; 78]].

(** The two lines of the account 7 are submitted; the node can come to a state that
    has both, and whatever it does it never has anything else. *)
Definition at_start : IoCli.World node_t Terminals.Terminal := mkWorld node Terminals.blank.
Definition alice_writes :=
  write_datalog (fun _ => Ok 7) (fun h => [48 + h])
    (node_datalog failing refusing "no such call"%string "undecodable"%string number (fun n => n)
      (fun p : Z => p)) "node" "//Alice" lines [] at_start.
Lemma commands_reach_chain_witness :
  alice_writes.1 = Ok tt /\ printed alice_writes.2 = [[48; 10]; [49; 10]] /\
  shown alice_writes.2 = [48; 10; 49; 10] /\
  arrives (fun w : Z => w) set_time root_resets no_validation pallet True 7 (records_of 7) []
    [[104]; [79; 78]] (IoCli.node alice_writes.2).
Proof.
  destruct (commands_reach_chain (Sig := Signature) (SubxtError := string) (fun w : Z => w) set_time
    root_resets no_validation pallet failing refusing "no such call" "undecodable" number (fun n => n) (fun p : Z => p)
    True 7 (fun n => rtc_refl _ n) (IoError' := unit) (TransportError := unit)
    (ConnectionLimit := unit) (BincodeError := unit) (Serial := unit) (ChannelSend := unit)
    (SecretString := unit) (Ipfs := unit) (Ios := unit) (Ros := unit) (fun _ => Some 4)
    (fun _ => Ok 7) (fun h => [48 + h]) "node" "//Alice" "robot" 4 7 lines [] at_start)
    as [H _]; [reflexivity..|by cbn; lia|done|done| |exact (proj1 (script_run 0 ltac:(lia)))|done|].
  - repeat constructor; cbn; lia.
  - destruct (H _ _ (surjective_pairing alice_writes)) as (sent & rest & hashes & Hl & Hrest & _ & Ha).
    assert (Hs : [[104]; [79; 78]] = sent) by (rewrite (Hrest eq_refl), app_nil_r in Hl; exact Hl).
    split; [reflexivity|]. split; [reflexivity|]. split; [reflexivity|]. rewrite <- Hs in Ha. exact Ha.
Defined.

(** Account 8 launches robot 4; the node includes it, and a subscriber prints it. *)
Definition to_launch : node_t :=
  Remote.mkNode start (past 0) [(8, CallLaunch (Launch.call_launch 4 true))].
Definition launched : node_t :=
  Remote.mkNode (run (signed 8) (CallLaunch (Launch.call_launch 4 true)) start).2
    (past 0 ++ [mkHappened (signed 8) (CallLaunch (Launch.call_launch 4 true)) 10])%list [].
Lemma launched_later :
  rtc (node_step (fun w : Z => w) set_time root_resets no_validation pallet False 8) to_launch launched.
Proof.
  apply rtc_once.
  apply (includes (fun w : Z => w) set_time root_resets no_validation pallet False 8 start (past 0)
    [] 8 (CallLaunch (Launch.call_launch 4 true)) []); [apply not_elem_of_nil|exact I].
Qed.
Definition name_of (a : Z) : text := [64 + a].
Definition subscriber : IoCli.World node_t Terminals.Terminal := mkWorld launched Terminals.blank.
Definition told : list (@NewLaunchEvent Z bool) :=
  [{| nl_sender := 8; nl_robot := 4; nl_param := true |}].
Definition reading : result (IoError unit unit unit unit unit unit unit) unit *
    IoCli.World node_t Terminals.Terminal :=
  read_launch name_of told [] subscriber.

End ToyRemote.

Module ToyNetwork.
Import ToySwarm.
Abbreviation network_t := (@Network swarm Z Z string _ _).

(** Node 1 subscribes, node 2 publishes, and the message reaches node 1. *)
Definition quiet : network_t :=
  mkNetwork (fun _ => mkNode (worker_new (mkSwarm [] [] [] [])) ∅) [] [].
Definition asking : network_t :=
  let n := nodes quiet 1 in
  set_node 1 (mkNode (service_subscribe "a" (Network.worker n)).2
    (<[fresh (Network.worker n) := "a"%string]> (asked n))) quiet.
Definition served (p : Z) (net : network_t) : network_t :=
  let net' := on_worker serve p net in
  mkNetwork (nodes net') (requested net)
    (published net ++ publishes p (Network.worker (nodes net p))).
Definition sent : network_t :=
  let net := served 1 asking in
  let net' := on_worker (service_publish "a" [5]) 2 net in
  served 2 (mkNetwork (nodes net') (requested net ++ [(2, "a"%string, [5])]) (published net)).
Definition arrived : network_t :=
  on_worker (fun st => handle_event st (GMessage 2 [] (gossip_message 2 "a" [5]))) 1 sent.

Lemma sent_reachable : net_reachable sent.
Proof.
  unfold sent. eapply net_next; [|apply net_serve].
  eapply net_next; [|apply net_publish].
  eapply net_next; [|apply net_serve].
  eapply net_next; [|apply net_subscribe].
  apply net_start.
Qed.
Lemma arrived_reachable : net_reachable arrived.
Proof.
  eapply net_next; [apply sent_reachable|]. apply net_deliver. apply list_elem_of_here.
Qed.

Lemma network_delivery_witness :
  received <$> streams (Network.worker (nodes arrived 1)) !! 0%nat = Some [mkMessage 2 [5]] /\
  (2, "a"%string, [5]) ∈ requested arrived /\
  exists net', net_step sent net' /\
    streams (Network.worker (nodes net' 1)) !! 0%nat =
      Some (mkStream [mkMessage 2 [5]] true true).
Proof.
  split; [reflexivity|]. split.
  - destruct (network_delivery arrived arrived_reachable) as [H _].
    apply (H 1 0%nat (mkStream [mkMessage 2 [5]] true true) "a"%string (mkMessage 2 [5]));
      [reflexivity|reflexivity|apply list_elem_of_here].
  - destruct (network_delivery sent sent_reachable) as [_ H].
    destruct (H 2 1 2 [] "a"%string [5] 0%nat (mkStream [] true true)) as (net' & Hs & _ & Hd & _);
      [apply list_elem_of_here|reflexivity|reflexivity|reflexivity|].
    exists net'. split; [exact Hs|exact Hd].
Defined.

(** Node 1 listens on 40 and 41, tells its discovery so, which announces it; the
    discovery of node 2 hears it and connects. *)
Definition write_one (m : DiscoveryMessage Z) : option bytes :=
  if bool_decide (dm_peer_id m = "one"%string) then Some (dm_timestamp m :: dm_listeners m) else None.
Lemma write_one_read m w : write_one m = Some w -> read_message w = Some m.
Proof.
  destruct m as [p t l]. unfold write_one; cbn. case_bool_decide as Hp; [|done]. by intros [= <-]; subst.
Qed.

Abbreviation discovering_t := (@Discovering swarm Z Z string _ _).
Abbreviation runs := (discovering_reachable (TopicHash := string) write_one read_message
  (fun _ => "one"%string) (fun _ => True) (fun _ : Z => [] : list Z)).

Definition start : discovering_t :=
  mkDiscovering (mkNetwork (fun _ => mkNode (worker_new (mkSwarm [40; 41] [] [] [])) ∅) [] []) [].
Definition in_net (f : network_t -> network_t) (d : discovering_t) : discovering_t :=
  mkDiscovering (f (net d)) (listened d).
Definition serving (p : Z) (d : discovering_t) : discovering_t :=
  mkDiscovering (served p (net d)) (listened d ++ tells p (Network.worker (nodes (net d) p))).
Definition subscribing : discovering_t :=
  in_net (fun n => let nd := nodes n 2 in
    set_node 2 (mkNode (service_subscribe DISCOVERY_TOPIC_NAME (Network.worker nd)).2
      (<[fresh (Network.worker nd) := DISCOVERY_TOPIC_NAME]> (asked nd))) n) start.
Definition querying : discovering_t :=
  in_net (on_worker (fun st => (service_listeners st).2) 1) (serving 2 subscribing).
Definition announcing : discovering_t :=
  in_net (fun n => let n' := on_worker (service_publish DISCOVERY_TOPIC_NAME [5; 40; 41]) 1 n in
    mkNetwork (nodes n') (requested n ++ [(1, DISCOVERY_TOPIC_NAME, [5; 40; 41])]) (published n))
    (serving 1 querying).
Definition heard : discovering_t :=
  in_net (on_worker (fun st => handle_event st
    (GMessage 1 [] (gossip_message 1 DISCOVERY_TOPIC_NAME [5; 40; 41]))) 2) (serving 1 announcing).
Definition dialling : discovering_t :=
  in_net (on_worker (fun st => (service_connect 41 st).2) 2) heard.

Lemma querying_reachable : runs querying.
Proof.
  eapply discovering_next; [|apply (d_client _ _ _ _ _ _ _ 1 _ (client_listeners _))].
  - eapply discovering_next; [|apply d_serve].
    eapply discovering_next; [apply discovering_start|apply d_subscribe].
  - discriminate.
Qed.
Lemma announcing_reachable : runs announcing.
Proof.
  eapply discovering_next; [eapply discovering_next; [exact querying_reachable|apply (d_serve _ _ _ _ _ _ _ 1)]|].
  apply (d_announce _ _ _ _ _ _ _ 1 0%nat [40; 41] (5 * 10 ^ 9)); [reflexivity|discriminate|reflexivity].
Qed.
Lemma dialling_reachable : runs dialling.
Proof.
  eapply discovering_next; [eapply discovering_next; [eapply discovering_next;
    [exact announcing_reachable|apply (d_serve _ _ _ _ _ _ _ 1)]
    |apply (d_deliver _ _ _ _ _ _ _ 1); apply list_elem_of_here]|].
  eapply (d_connect _ _ _ _ _ _ _ 2 0%nat (mkStream [mkMessage 1 [5; 40; 41]] true true)
    (mkMessage 1 [5; 40; 41]) (mkDiscoveryMessage "one" 5 [40; 41])); try reflexivity.
  - apply list_elem_of_here.
  - discriminate.
  - apply list_elem_of_further, list_elem_of_here.
Qed.

Lemma dials_are_announced_witness :
  exists p, p <> 2 /\ (p, 41) ∈ listened dialling.
Proof.
  destruct (dials_are_announced write_one read_message (fun _ => "one"%string) (fun _ => True)
    (fun _ => []) dialling 2 41 1%nat dialling_reachable I) as [H|(p & wire & m & Hne & _ & _ & _ & H)].
  - apply list_elem_of_here.
  - by apply elem_of_nil in H.
  - exists p. split; [exact Hne|]. apply H; [exact I|exact write_one_read].
Defined.
(** Node 2 writes two lines to the topic; node 1, which has subscribed as before, prints
    the first, and can get the second. *)
Definition lines_of (p : Z) : option (string * list (result unit text)) :=
  if bool_decide (p = 2) then Some ("a"%string, [Ok [104]; Ok [105]]) else None.
Abbreviation talk_t := (@Talk swarm Z Z string unit _ _).
Abbreviation talks := (talk_step (S := swarm) (TopicHash := string) lines_of).
Definition writing (k : talk_t) lines c : talk_t := mkTalk (talk_net k) (set_writer 2 (mkWriter lines c) (writers k)).
Definition talk0 : talk_t := mkTalk (served 1 asking)
  (writers (talk_start lines_of (fun _ => mkSwarm [] [] [] []) : talk_t)).
Definition talk1 : talk_t := writing talk0 [Ok [105]] [[104]].
Definition talk2 : talk_t :=
  mkTalk (publish_request 2 "a" [104] (talk_net talk1)) (set_writer 2 (mkWriter [Ok [105]] []) (writers talk1)).
Definition talk3 : talk_t :=
  mkTalk (on_worker (fun st => handle_event st (GMessage 2 [] (gossip_message 2 "a" [104]))) 1
    (served 2 (talk_net talk2))) (writers talk2).

Lemma talk3_reachable : talk_reachable lines_of talk3.
Proof.
  assert (Hsame : forall n n' : network_t, requested n' = requested n -> forall p t lines,
    lines_of p = Some (t, lines) -> requests_of p t n' = requests_of p t n).
  { intros n n' Hr p t lines _. unfold requests_of. by rewrite Hr. }
  exists (fun _ => mkSwarm [] [] [] []).
  eapply rtc_r; [eapply rtc_r; [eapply rtc_r; [eapply rtc_r; [eapply rtc_r; [eapply rtc_r;
    [apply rtc_refl|]|]|]|]|]|].
  - apply talk_network; [apply (net_subscribe _ 1 "a")|by apply Hsame].
  - apply talk_network; [apply (net_serve _ 1)|by apply Hsame].
  - by apply (talk_reads lines_of _ _ 2 [104] [Ok [105]] []).
  - by eapply (talk_publishes lines_of _ _ 2 "a" _ [104]).
  - apply talk_network; [apply (net_serve _ 2)|by apply Hsame].
  - apply talk_network; [|by apply Hsame]. apply net_deliver. apply list_elem_of_here.
Qed.

Lemma lines_over_a_topic_witness :
  streams (Network.worker (nodes (talk_net talk3) 1)) !! 0%nat = Some (mkStream [mkMessage 2 [104]] true true) /\
  (forall pace r w', read_pubsub [mkMessage 2 [104]] pace (mkWorld 0 Terminals.blank) =
       (r : result (IoError unit unit unit unit unit unit unit) unit, w') ->
     r = Ok tt /\ printed w' = [[104; 10]] /\ shown w' = [104; 10]) /\
  [104] ∈ [[104]; [105]] /\
  exists k', rtc talks talk3 k' /\
    streams (Network.worker (nodes (talk_net k') 1)) !! 0%nat =
      Some (mkStream [mkMessage 2 [104]; mkMessage 2 [105]] true true).
Proof.
  destruct (lines_over_a_topic lines_of (N := Z) (D := Terminals.Terminal) (Serial := unit) (ChannelSend := unit)
    (SecretString := unit) (Protocol := unit) (Ipfs := unit) (Io := unit) (Ros := unit)
    talk3 talk3_reachable) as (_ & Hread & Hreach).
  assert (Hc : streams (Network.worker (nodes (talk_net talk3) 1)) !! 0%nat =
    Some (mkStream [mkMessage 2 [104]] true true)) by reflexivity.
  split; [exact Hc|].
  destruct (Hread 1 0%nat _ "a"%string Hc eq_refl) as [Hp Hl].
  split; [|split].
  - intros pace r w' Hrun. specialize (Hp _ _ _ _ Hrun).
    destruct (prints_reliable _ _ _ _ Terminals.terminal_reliable Hp) as (-> & _ & Hpr & Hs).
    rewrite Hs, Hpr. by repeat split.
  - apply (Forall_inv Hl [Ok [104]; Ok [105]] eq_refl). repeat constructor; lia.
  - exact (Hreach 2 "a"%string [Ok [104]; Ok [105]] 1 0%nat (mkStream [mkMessage 2 [104]] true true) [105]
      eq_refl ltac:(discriminate) ltac:(apply list_elem_of_further, list_elem_of_here) eq_refl Hc eq_refl).
Defined.
End ToyNetwork.
